(* ===== verification/_CoqProject ===== *)
-Q . S2P
Prelude.v
Machine.v
Bootinfo.v
ListC.v
Timer.v
Frames.v
Swapfile.v
State.v
Pagetable.v
Process.v
Reply.v
VfsCore.v
Console.v
Nfsfs.v
Clock.v
Vfs.v
FileIO.v
FdTables.v
Lifecycle.v
Elf.v
ElfLib.v
ElfLibSpec.v
PagerBase.v
Quota.v
Resident.v
Pager.v
Copy.v
Fault.v
Spawn.v
Teardown.v
CopyOut.v
SwapIO.v
SwapTrip.v
ElfLoad.v
Syscall.v
Client.v
System.v
EndToEnd.v
Boot.v
Weave.v
Startup.v
Shell.v
ShellSpec.v
ShellRun.v
