(* ===== verification/Prelude.v ===== *)
(** * Verification of SOS, the operating system of L4OS

    SOS is a small multi-server operating system on the L4 microkernel: a root
    server thread that answers system calls and interrupts, and a pager thread
    that owns virtual memory, both in one address space, with user processes
    and a remote NFS server talking to them by messages.  This library models
    the C code of [sos/], the boot image library [libs/bootinfo], the ELF library
    [libs/elf], the library [libs/sos] of user programs and the shell [bin/sosh]
    as executable functions, and proves what makes them correct.

    ** The parts and where they are modelled

    - [Prelude]: outcomes (a value and a new state, or a fault), the state
      monad over them, weakest preconditions ([wp]), "this operation preserves
      that part of the state" ([pres], hint database [pres]), 32-bit words.
    - [Machine]: constants, thread ids, system call numbers, byte-addressed
      big-endian memory, and the log of everything SOS does to the outside.
    - [ListC] ([sos/list.c]): [ListImpl] on a heap of nodes; [ListSpec], plain
      lists; refinement theorems between them.  All other files use [ListSpec].
    - [Frames] ([sos/frames.c]): the allocator of physical frames, whose free
      list is threaded through the bytes of the free frames.
    - [Swapfile] ([sos/swapfile.c]): slots of the swap file; [swapfile_open],
      which sends a message, is in [Pager].
    - [State]: the records of all components and of the whole system
      ([kstate]), regions ([sos/region.c]), access to heap objects.
    - [Pagetable] ([sos/pager.c]): the two-level page table in frames.
    - [Process], [Lifecycle] ([sos/process.c], [sos/libsos.c], the time stamps
      of [sos/clock.c]): the table of processes, pids, creation, waiting, end.
    - [Reply] ([sos/syscall.c]): answers to blocked threads.
    - [VfsCore], [Vfs] ([sos/vfs.c]): vnodes, descriptor tables, file system
      calls and their completion callbacks; [FileIO] and [FdTables]: theorems
      about reads and writes down to the file systems, and the invariant of the
      descriptor tables.
    - [Console] ([sos/console.c], [sos/pipefs.c], [network_sendstring]) and
      [Nfsfs] ([sos/nfsfs.c]): the file systems.
    - [Clock] ([sos/clock.c]): timers and sleeping threads.
    - [Elf] ([libs/elf]): the header accessors of the loader; [ElfLib]: the rest
      of the library, [ElfLibSpec]: its theorems.
    - [PagerBase], [Pager] ([sos/pager.c]): everything else of the pager: frame
      accounting, page replacement, faults, the request queue, the state
      machines of swap-in, swap-out and program loading, copying between user
      memory and buffers, the message loop.
    - [Quota], [Resident], [Fault], [Copy], [CopyOut], [SwapIO], [SwapTrip]:
      theorems about the pager.
    - [Spawn], [ElfLoad], [Teardown]: theorems about the making of a process,
      the loading of a program from a file, and the deletion of a process.
    - [Timer] ([sos/timer.c]): the busy timer the root server's threads sleep by
      until the clock runs.
    - [Syscall] ([sos/syscall.c], [sos/irq.c], [sos/main.c]): system call
      dispatch, interrupts, one turn of the root server's loop.
    - [Client] ([libs/sos/src/sos.c], [ipc.c], [ttyout.c]): the library of user
      programs, each wrapper as a program whose only effect is IPC.
    - [Bootinfo] ([libs/bootinfo]): the parser of the boot image, and the format
      of the image's records.
    - [Boot] ([sos/libsos.c], [sos/main.c], [sos/network.c], [sos/timer.c]): the
      start of the system: memory, the threads of the root server, the programs
      of the boot image.  [Weave] specifies the image the build tools write and
      what its programs become; [Startup] follows the start to the first system
      call.
    - [System], [EndToEnd]: a program of a process run against the two servers,
      with the outside world acting while it waits, and theorems about whole
      calls.
    - [Shell] ([bin/sosh/sosh.c], [bin/cat], [bin/cp], [bin/ls], [bin/rm],
      [bin/kill], [bin/sleep]): the shell and its tools, against the class [Sos]
      of the system calls; [ShellSpec]: what the shell does by lines and words, a
      scripted system that gives any answers and records the requests, and what
      the tools ask for on it; [ShellRun]: runs.

    Definitions carry the names of the C functions.  A function [f] of the
    code is a Rocq function of its arguments into [M S A], for [S] the part of
    the state it works on; [on_fr], [on_procs], [on_pager] and so on run it
    inside the whole state, type [K A].  C function pointers (file operations,
    continuations of a request, list callbacks) are enumerations or function
    arguments.  [NULL] is [None] for objects of the C heap and 0 for addresses
    of frames.  A blocking conversation with another server is a step per
    message: what the pager does when an answer arrives is [vfsHandler].

    ** What the theorems show

    - Resources: frames, swap slots and pids are never handed out twice, lost
      or miscounted along any sequence of operations ([frames_never_shared],
      [swap_slots_never_shared], [pids_never_shared]); user pages stay within
      the pager's quota ([user_frames_within_quota]); freeing a page table
      returns all of its frames ([pagetableFree_returns_all]), and deleting a
      process returns exactly the frames it had and wakes exactly those who wait
      for it ([processDelete_releases]); its swap slots and highest descriptors
      stay behind.
    - Virtual memory: the page table implements a map
      ([pagetable_implements_map]); page replacement is second chance and ends
      within one round ([deleteAllocList_second_chance]); a fault on a resident
      page maps it with the region's rights ([pagerAction_resident]), and the
      first touch of a page gives it a frame nobody uses or queues the fault
      ([pagerAction_first_touch]); copying from and to user memory moves exactly
      the bytes ([copyIn_transfers], [copyOut_transfers]); a swap-in always ends
      ([swapin_completes]) and restores the page that a swap-out wrote
      ([swap_roundtrip], [swapout_writes_page]).
    - Files: the vnode list and the descriptor tables stay consistent through
      open, close and dup, with exact reference counts and one reply each
      ([vfs_open_done_installs], [vfs_close_effect], [vfs_dup_effect],
      [increase_refs_respects_limits] and the [_vnode_correct] theorems), and
      along any sequence of calls and answers
      ([descriptor_tables_well_formed]); reads and writes of files of the server
      do what they should on success and on error ([nfs_read_transfers],
      [nfs_write_transfers]) and are refused when they must be
      ([file_access_refused]); the console loses no byte; NFS calls go out in
      order, one at a time.
    - Processes and time: who is woken by the end of a process or by the timers,
      and with what reply ([process_wake_all_effect], [timer_irq_wakes_due],
      [utimer_wakes_on_time], [syscall_reply_v_effect]); the search for a pid
      terminates.
    - Starting: the two-pass parser of the boot image calls exactly the callbacks
      of the image's records ([bootinfo_parse_runs_image]); the programs of an
      image become processes with their names, entry points and regions
      ([boot_programs_started]); the whole start of the system ends with the
      memory of the image in the frame allocator, the root server's threads and
      the programs running, and every invariant established ([sos_boots]); a
      program is loaded from a file by the session of messages with the file
      server, its segments becoming regions ([elfload_session]).
    - Dispatch: the private calls do nothing for user processes; every message
      of the blocking wrappers of the client library, [memloc] and [mmap] apart,
      reaches the operation the wrapper stands for ([file_calls_agree],
      [process_calls_agree]).
    - Whole calls: what a program writes to the console comes out of the serial
      line ([user_write_reaches_console]), and what it reads from a file is what
      the file server sent ([user_read_gets_data]), through both servers, the
      page tables, the file system and the reply.
    - Library: [list.c] implements lists, with callbacks that have effects; the
      ELF library finds the tight bounds of a program
      ([elf_getMemoryBounds_tight]) and puts its segments in place and changes
      nothing else ([elf_loadFile_correct]).
    - Shell: the loop over the characters of the input does what the
      specification by lines says ([sosh_session]); the search for a line ends
      and stays in its buffer whatever was typed ([line_editor_safe]); a line is
      split into its words ([command_line_roundtrip]); whatever the system
      answers, [cp] and [cat] pass the bytes of each read on in one write, close
      what they opened and report the failures they look at ([cp_calls],
      [cat_calls]).

    Theorems whose name says what goes wrong ([frames_free_undercounts],
    [swapslot_alloc_full_out_of_bounds], [pagetableLookup_oom_faults],
    [process_prepare2_one_redirect_faults], [vfs_open_done_frees_console],
    [vfs_dup_self_closes], [vfs_dup_self_leaks], [newtoken_repeats],
    [timer_irq_dead_sleeper_faults], [read_blocks_without_stdout],
    [mmap_never_answered], [setRegionOnElf_misses_last_page],
    [elfload_refused_leaks_pid], [sos_malloc_overlaps_last_frame],
    [sos_malloc_wraps], [utimer_sleep_short_is_none],
    [ctrl_d_never_ends], [backspace_loses_line], [argv_overflows],
    [null_command_faults], [cp_misses_failed_write], [cp_misses_short_write],
    [exec_leaks_descriptor])
    record defects of the code that the model shows.

    ** Bounds and fuel

    Loops over fixed tables are folds over their indices.  The walks of [list.c]
    and of the vnode list take as fuel the number of nodes in the heap; the
    replacement loop, one more than the number of resident pages; the search
    for a pid, the size of the table.  The theorems show the loops return
    before the fuel is gone.  The mutual recursion of [startRequest] and
    [pager] has its fuel as an argument, which [copyIn_transfers] and
    [copyOut_transfers] bound by one per page.  The passes over the boot image take
    one more than the number of its records as fuel.  The number of program
    headers of an ELF file has 16 bits, which bounds the loop of [elf_loadFile].
    The loops of the shell and its tools end when the system says so; their fuel
    is an argument, which the theorems bound by the number of answers or of
    blocks of input.  Words are reduced modulo [2^32] where C wraps around.

    ** What is assumed and what is left out

    L4 system calls succeed and are recorded in the log; the kernel itself,
    device drivers, lwip, the RPC library and the C library are not modelled:
    their calls are events and their answers are arguments.  [malloc] may fail
    where the code checks for it (an oracle says when); nodes and pairs of
    [list.c] are assumed to be allocated.  Handlers run to completion, as they
    do in the single-threaded servers.  Debug output ([dprintf]) is left out.
    The bytes of [stat_t] and [process_t] in a user's buffer are the compiler's
    ([StatLayout], [ProcessLayout]).  The order of evaluation of the two clock
    reads of [SOS_TIME_STAMP], which C leaves open, is fixed.  In [EndToEnd] the
    program runs without other programs in between; its buffer is its own, so
    they could not change it.  In [SwapTrip] an ideal file server stands for the
    root server's file system and the NFS server behind it: bytes and a position,
    with writes that are done as a whole and reads that deliver at least a byte.
    In [Weave]
    the image is the one the build tools write for programs of one thread each.
    In [Boot] the drivers and lwip are events, and the gateway answers after some
    number of tries.  The messages that the init thread sends to the root server
    while it starts the programs (opening their standard files) are in the log;
    the root server answers them later.  A field that the code leaves
    uninitialised in a new object ([vstat] of a vnode, [startedAt] of a process)
    starts as zero.  The read of a swapped page through pinned frame 0, after a
    failed allocation, is a write to memory in [continueSwapin]; the copy that
    follows in [finishSwapin] faults.  A loop that never ends ([setRegionOnElf] on
    a region of more than 2^32 - 4096 bytes) is a fault, out of fuel.  The command
    [alloc] of the shell, which prints addresses, and the text of a time are
    arguments.  The other programs of [bin/] (tests and demonstrations) are not
    modelled.

    ** Further work

    The invariant of the request queue; the counts of vnodes across processes. *)
From stdpp Require Export base tactics list numbers gmap sets option strings.
From Stdlib Require Export ZArith Lia.
#[global] Open Scope Z_scope.
#[global] Coercion Z.of_nat : nat >-> Z.

(** ** Outcomes and the kernel monad

    SOS code is imperative C: every operation is a function from a state to
    an outcome.  An outcome is either a value with the new state, or the
    reason the C code stops behaving as C: an [assert] that fails, a NULL or
    dangling pointer that is dereferenced, an array index out of range, an
    indeterminate value that is used, or,
    for loops that are not structural, fuel that has run out.  *)
Inductive fault :=
  | AssertFail (what : string)
  | NullDeref
  | BadPtr
  | OutOfRange
  | Uninit
  | OutOfFuel.

Inductive res (S A : Type) : Type :=
  | Ok (a : A) (s : S)
  | Err (f : fault).
Global Arguments Ok {S A} a s.
Global Arguments Err {S A} f.

Definition M (S A : Type) : Type := S → res S A.

#[global] Instance M_ret S : MRet (M S) := λ A a s, Ok a s.
#[global] Instance M_bind S : MBind (M S) := λ A B f m s,
  match m s with
  | Ok a s' => f a s'
  | Err e => Err e
  end.

Definition fail {S A} (f : fault) : M S A := λ _, Err f.
Definition gets {S A} (f : S → A) : M S A := λ s, Ok (f s) s.
Definition modify {S} (f : S → S) : M S unit := λ s, Ok tt (f s).
Definition cassert {S} (what : string) (b : bool) : M S unit :=
  λ s, if b then Ok tt s else Err (AssertFail what).
Definition when {S} (b : bool) (m : M S unit) : M S unit :=
  if b then m else mret tt.
Definition of_opt {S A} (f : fault) (o : option A) : M S A :=
  match o with Some a => mret a | None => fail f end.

(** Running an operation of a component inside a larger state. *)
Definition zoom {S T A} (get : S → T) (set : T → S → S) (m : M T A) : M S A :=
  λ s, match m (get s) with
       | Ok a t => Ok a (set t s)
       | Err e => Err e
       end.

(** [for] loops over the indices of a list of iterations. *)
Fixpoint forM {S I} (is_ : list I) (body : I → M S unit) : M S unit :=
  match is_ with
  | [] => mret tt
  | i :: is_' => body i;; forM is_' body
  end.

(** ** Total correctness: [wp m Q s] says that [m] run from [s] does not stop
    with a fault, and that its value and final state satisfy [Q]. *)
Definition wp {S A} (m : M S A) (Q : A → S → Prop) (s : S) : Prop :=
  match m s with Ok a s' => Q a s' | Err _ => False end.

Section wp_rules.
Context {S : Type}.
Implicit Types s : S.

Lemma wp_ret {A} (a : A) (Q : A → S → Prop) s : Q a s → wp (mret a) Q s.
Proof. done. Qed.
Lemma wp_bind {A B} (m : M S A) (k : A → M S B) (Q : B → S → Prop) s :
  wp m (λ a s', wp (k a) Q s') s → wp (m ≫= k) Q s.
Proof. unfold wp, mbind, M_bind. by destruct (m s). Qed.
Lemma wp_mono {A} (m : M S A) (P Q : A → S → Prop) s :
  wp m P s → (∀ a s', P a s' → Q a s') → wp m Q s.
Proof. unfold wp. destruct (m s); naive_solver. Qed.
Lemma wp_gets {A} (f : S → A) (Q : A → S → Prop) s : Q (f s) s → wp (gets f) Q s.
Proof. done. Qed.
Lemma wp_modify (f : S → S) (Q : unit → S → Prop) s : Q tt (f s) → wp (modify f) Q s.
Proof. done. Qed.
Lemma wp_cassert w b (Q : unit → S → Prop) s :
  b = true → Q tt s → wp (cassert w b) Q s.
Proof. by intros -> ?. Qed.
Lemma wp_of_opt {A} f (o : option A) a (Q : A → S → Prop) s :
  o = Some a → Q a s → wp (of_opt f o) Q s.
Proof. by intros -> ?. Qed.
Lemma wp_ok {A} (m : M S A) (Q : A → S → Prop) s :
  wp m Q s ↔ ∃ a s', m s = Ok a s' ∧ Q a s'.
Proof.
  unfold wp. split.
  - destruct (m s); naive_solver.
  - intros (a & s' & -> & ?). done.
Qed.
Lemma wp_zoom {T A} (get : S → T) set (m : M T A) (Q : A → S → Prop) s :
  wp m (λ a t, Q a (set t s)) (get s) → wp (zoom get set m) Q s.
Proof. unfold wp, zoom. by destruct (m (get s)). Qed.
End wp_rules.

(** Loop rule: an invariant indexed by the iterations that are left. *)
Lemma wp_forM {S I} (Inv : list I → S → Prop) (body : I → M S unit) is_ s :
  Inv is_ s →
  (∀ i rest s, Inv (i :: rest) s → wp (body i) (λ _ s', Inv rest s') s) →
  wp (forM is_ body) (λ _ s', Inv [] s') s.
Proof.
  intros H0 Hstep. revert s H0. induction is_ as [|i is_ IH]; intros s H0; [done|].
  simpl. apply wp_bind. eapply wp_mono; [by apply Hstep|]. intros [] s' Hs'. by apply IH.
Qed.

(** Equational steps: how a bind behaves once its first half is known. *)
Lemma bind_ok {S A B} (m : M S A) (k : A → M S B) s a s' :
  m s = Ok a s' → (m ≫= k) s = k a s'.
Proof. unfold mbind, M_bind. by intros ->. Qed.
Lemma bind_err {S A B} (m : M S A) (k : A → M S B) s e :
  m s = Err e → (m ≫= k) s = Err e.
Proof. unfold mbind, M_bind. by intros ->. Qed.
Lemma bind_inv {S A B} (m : M S A) (k : A → M S B) s b s'' :
  (m ≫= k) s = Ok b s'' → ∃ a s', m s = Ok a s' ∧ k a s' = Ok b s''.
Proof. unfold mbind, M_bind. destruct (m s); naive_solver. Qed.
Lemma bind_cong {S A B} (m m' : M S A) (k k' : A → M S B) s :
  m s = m' s → (∀ a s', k a s' = k' a s') → (m ≫= k) s = (m' ≫= k') s.
Proof. unfold mbind, M_bind. intros -> H. by destruct (m' s). Qed.
Lemma zoom_ok {S T A} (get : S → T) set (m : M T A) s a t :
  m (get s) = Ok a t → zoom get set m s = Ok a (set t s).
Proof. unfold zoom. by intros ->. Qed.
Lemma zoom_inv {S T A} (get : S → T) set (m : M T A) s a s' :
  zoom get set m s = Ok a s' → ∃ t, m (get s) = Ok a t ∧ s' = set t s.
Proof. unfold zoom. destruct (m (get s)); naive_solver. Qed.

(** The state an operation leaves, for runs on concrete states: checking the
    value is enough to know that it returns. *)
Definition after {S A} (m : M S A) (s : S) : S := match m s with Ok _ s' => s' | Err _ => s end.
Lemma after_ok {S A} `{EqDecision A} (m : M S A) (s : S) (x : A) :
  match m s with Ok a _ => bool_decide (a = x) | Err _ => false end = true → m s = Ok x (after m s).
Proof. unfold after. destruct (m s); [|done]. by intros ->%bool_decide_eq_true. Qed.

(** Symbolic execution, backwards ([wp]) and forwards (an [Ok] hypothesis). *)
Ltac wp_step :=
  lazymatch goal with
  | |- wp (_ ≫= _) _ _ => apply wp_bind
  | |- wp (mret _) _ _ => apply wp_ret
  | |- wp (gets _) _ _ => apply wp_gets
  | |- wp (modify _) _ _ => apply wp_modify
  | |- wp (zoom _ _ _) _ _ => apply wp_zoom
  | |- wp (when ?b _) _ _ => unfold when; destruct b eqn:?
  | |- wp (if ?b then _ else _) _ _ => destruct b eqn:?
  | |- wp (match ?b with _ => _ end) _ _ => destruct b eqn:?
  end.
Ltac wp_steps := repeat wp_step.

Ltac run_step :=
  match goal with
  | H : (_ ≫= _) _ = Ok _ _ |- _ =>
      apply bind_inv in H as (? & ? & ? & ?)
  | H : mret _ _ = Ok _ _ |- _ => injection H; clear H; intros; subst
  | H : gets _ _ = Ok _ _ |- _ => injection H; clear H; intros; subst
  | H : modify _ _ = Ok _ _ |- _ => injection H; clear H; intros; subst
  | H : Ok _ _ = Ok _ _ |- _ => injection H; clear H; intros; subst
  | H : Err _ = Ok _ _ |- _ => discriminate H
  | H : fail _ _ = Ok _ _ |- _ => discriminate H
  | H : zoom _ _ _ _ = Ok _ _ |- _ => apply zoom_inv in H as (? & ? & ?); subst
  | H : cassert _ ?b _ = Ok _ _ |- _ =>
      unfold cassert in H; destruct b eqn:?; [|discriminate H]
  | H : of_opt _ ?o _ = Ok _ _ |- _ => destruct o eqn:?; simpl in H; [|discriminate H]
  | H : when ?b _ _ = Ok _ _ |- _ => unfold when in H; destruct b eqn:?
  end.
Ltac run_steps := repeat run_step.

(** Operations are functions: two runs from one state agree. *)
Ltac same_run :=
  repeat match goal with
  | H1 : ?m ?s = @Ok _ _ _ _, H2 : ?m ?s = @Ok _ _ _ _ |- _ =>
      rewrite H1 in H2; simplify_eq
  end.

(** ** What an operation leaves alone: [pres f m] says that no run of [m] changes
    the view [f] of the state. *)
Definition pres {S A X} (f : S → X) (m : M S A) : Prop :=
  ∀ s a s', m s = Ok a s' → f s' = f s.

Section pres_rules.
Context {S X : Type} (f : S → X).
Implicit Types s : S.

Lemma pres_ret {A} (a : A) : pres f (mret a).
Proof. by intros s b s' [= _ <-]. Qed.
Lemma pres_fail {A} e : pres f (fail (A := A) e).
Proof. by intros s b s'. Qed.
Lemma pres_gets {A} (g : S → A) : pres f (gets g).
Proof. by intros s b s' [= _ <-]. Qed.
Lemma pres_modify (g : S → S) : (∀ s, f (g s) = f s) → pres f (modify g).
Proof. by intros H s b s' [= _ <-]. Qed.
Lemma pres_bind {A B} (m : M S A) (k : A → M S B) :
  pres f m → (∀ a, pres f (k a)) → pres f (m ≫= k).
Proof.
  intros Hm Hk s b s'' (a & s' & H1 & H2)%bind_inv.
  by rewrite (Hk _ _ _ _ H2), (Hm _ _ _ H1).
Qed.
Lemma pres_cassert w b : pres f (cassert w b).
Proof. intros s a s'. unfold cassert. destruct b; [by intros [= _ <-]|done]. Qed.
Lemma pres_when b m : pres f m → pres f (when b m).
Proof. intros. destruct b; [done|apply pres_ret]. Qed.
Lemma pres_of_opt {A} e (o : option A) : pres f (of_opt e o).
Proof. destruct o; [apply pres_ret|apply pres_fail]. Qed.
Lemma pres_forM {I} (is_ : list I) body : (∀ i, pres f (body i)) → pres f (forM is_ body).
Proof. intros H. induction is_; [apply pres_ret|]. simpl. by apply pres_bind. Qed.
Lemma pres_zoom {T A} (get : S → T) set (m : M T A) :
  (∀ t s, f (set t s) = f s) → pres f (zoom get set m).
Proof. intros H s a s' (t & _ & ->)%zoom_inv. apply H. Qed.
Lemma pres_zoom_in {T A Y} (get : S → T) set (g : T → Y) (m : M T A) :
  (∀ t s, g t = g (get s) → f (set t s) = f s) → pres g m → pres f (zoom get set m).
Proof. intros H Hm s a s' (t & Ht & ->)%zoom_inv. by apply H, (Hm _ _ _ Ht). Qed.
End pres_rules.
Create HintDb pres discriminated.

Ltac pres_step :=
  lazymatch goal with
  | |- pres _ (mret _) => apply pres_ret
  | |- pres _ (fail _) => apply pres_fail
  | |- pres _ (gets _) => apply pres_gets
  | |- pres _ (cassert _ _) => apply pres_cassert
  | |- pres _ (of_opt _ _) => apply pres_of_opt
  | |- pres _ (_ ≫= _) => apply pres_bind; [|intros ?]
  | |- pres _ (when _ _) => apply pres_when
  | |- pres _ (forM _ _) => apply pres_forM; intros ?
  | |- pres _ (if ?b then _ else _) => destruct b
  | |- pres _ (match ?b with _ => _ end) => destruct b
  | |- pres _ (let _ := _ in _) => cbv zeta
  end.
(** Splits a program into its steps and closes those the hints know. *)
Ltac pres_auto := repeat first [pres_step | solve [eauto with pres]].

(** ** 32-bit words

    [L4_Word_t], pointers and [unsigned int] are 32 bits wide on the target;
    [w32] is their wrap-around, [s32] reads the same bits as an [int]. *)
Definition w32 (z : Z) : Z := z mod 2 ^ 32.
Definition s32 (z : Z) : Z := if decide (w32 z < 2 ^ 31) then w32 z else w32 z - 2 ^ 32.
Definition u8 (z : Z) : Z := z mod 2 ^ 8.
Definition u64 (z : Z) : Z := z mod 2 ^ 64.

Definition is_word (z : Z) : Prop := 0 ≤ z < 2 ^ 32.
#[global] Instance is_word_dec z : Decision (is_word z).
Proof. unfold is_word. apply _. Defined.

Lemma w32_small z : is_word z → w32 z = z.
Proof. intros. by apply Z.mod_small. Qed.
Lemma w32_word z : is_word (w32 z).
Proof. apply Z.mod_pos_bound. lia. Qed.
Lemma w32_idemp z : w32 (w32 z) = w32 z.
Proof. apply w32_small, w32_word. Qed.
Lemma s32_small z : 0 ≤ z < 2 ^ 31 → s32 z = z.
Proof. intros. unfold s32. rewrite w32_small by (unfold is_word; lia). case_decide; lia. Qed.

(** Words as bit masks. *)
Lemma w32_land z : w32 z = Z.land z (Z.ones 32).
Proof. unfold w32. by rewrite Z.land_ones. Qed.
Lemma word_iff z : is_word z ↔ Z.land z (Z.ones 32) = z.
Proof.
  rewrite <- w32_land. split; [by apply w32_small|]. intros <-. apply w32_word.
Qed.
Lemma land_word a b : is_word a → is_word (Z.land a b).
Proof.
  rewrite !word_iff. intros H.
  by rewrite <- Z.land_assoc, (Z.land_comm b), Z.land_assoc, H.
Qed.
Lemma lor_word a b : is_word a → is_word b → is_word (Z.lor a b).
Proof. rewrite !word_iff. intros Ha Hb. by rewrite Z.land_lor_distr_l, Ha, Hb. Qed.

(** C truth values: a condition holds when it is not zero. *)
Definition truthy (z : Z) : bool := negb (z =? 0).
Definition b2z (b : bool) : Z := if b then 1 else 0.

(** ** The automation shared by the components *)
Create HintDb sos discriminated.
#[export] Hint Resolve w32_word : sos.
Create Rewrite HintDb sos_rw.
#[export] Hint Rewrite w32_idemp : sos_rw.

(** ** Lists used as C arrays

    A C array has a fixed length; reading or writing outside it is a fault. *)
Definition arr_get {S A} (l : list A) (i : Z) : M S A :=
  if decide (0 ≤ i) then of_opt OutOfRange (l !! Z.to_nat i) else fail OutOfRange.
Definition arr_set {A} (l : list A) (i : Z) (v : A) : option (list A) :=
  if decide (0 ≤ i < length l) then Some (<[Z.to_nat i := v]> l) else None.

Lemma arr_get_ok {S A} (l : list A) i x (s : S) :
  0 ≤ i → l !! Z.to_nat i = Some x → arr_get l i s = Ok x s.
Proof. intros Hi Hl. unfold arr_get. rewrite decide_True by done. by rewrite Hl. Qed.
Lemma arr_set_ok {A} (l : list A) i v :
  0 ≤ i < length l → arr_set l i v = Some (<[Z.to_nat i := v]> l).
Proof. intros. unfold arr_set. by rewrite decide_True. Qed.

(** Consecutive integers [a, a+1, ..., a+n-1], the indices of C loops. *)
Definition zseq (a : Z) (n : nat) : list Z := (λ i, a + Z.of_nat i) <$> seq 0 n.

Lemma zseq_S a n : zseq a (S n) = a :: zseq (a + 1) n.
Proof.
  unfold zseq. simpl. f_equal; [lia|]. rewrite <- seq_shift, <- list_fmap_compose.
  apply list_fmap_ext. intros. simpl. lia.
Qed.
Lemma length_zseq a n : length (zseq a n) = n.
Proof. unfold zseq. by rewrite length_fmap, length_seq. Qed.
Lemma elem_of_zseq a n z : z ∈ zseq a n ↔ a ≤ z < a + n.
Proof.
  unfold zseq. rewrite list_elem_of_fmap. split.
  - intros (i & -> & Hi%elem_of_seq). lia.
  - intros H. exists (Z.to_nat (z - a)). rewrite elem_of_seq. lia.
Qed.

(** Dereferencing an address given as a word: 0 is NULL. *)
Definition deref {S} (p : Z) : M S unit :=
  if decide (p = 0) then fail NullDeref else mret tt.
Lemma deref_ok {S} p (s : S) : p ≠ 0 → deref p s = Ok tt s.
Proof. intros. unfold deref. by rewrite decide_False. Qed.
