(* ===== verification/Machine.v ===== *)
(** * The machine under SOS

    The constants of [sos/constants.h] and the [libs/sos] headers, L4 thread
    and space identifiers, the byte-addressed memory that frames, page tables
    and user pages live in, and the log of the effects SOS has on the world
    outside it (L4 system calls, IPC, NFS requests, serial output).  The
    target (NSLU2, [platform/ixp4xx]) is a 32-bit big-endian ARM. *)
From S2P Require Import Prelude.

(** ** Constants *)
Definition PAGESIZE : Z := 4096.
Definition PAGEALIGN : Z := Z.lnot (PAGESIZE - 1).
Definition PAGEWORDS : Z := PAGESIZE / 4.
Definition ONE_MEG : Z := 1 * 1024 * 1024.
Definition ADDRESS_ALL : Z := 2 ^ 32 - 1.
Definition ADDRESS_NONE : Z := 2 ^ 32 - 2.
Definition CONSOLE_BUF_SIZ : Z := 128.
Definition COPY_BUFSIZ : Z := PAGESIZE * 4.
Definition MAX_ADDRSPACES : Z := 256.
Definition MAX_THREADS : Z := 256.
Definition PROCESS_MAX_FILES : Z := 16.
Definition PROCESS_STDFDS_RESERVE : Z := 3.
Definition PROCESS_MAX_FDS : Z := PROCESS_MAX_FILES + PROCESS_STDFDS_RESERVE.
Definition NFS_HEADER : Z := 180.
Definition NFS_BUFSIZ : Z := 1280.
Definition IO_MAX_BUFFER : Z := NFS_BUFSIZ - NFS_HEADER.
Definition MAX_FILE_NAME : Z := 32.
Definition FM_EXEC : Z := 1.
Definition FM_WRITE : Z := 2.
Definition FM_READ : Z := 4.
Definition FM_NOTRUNC : Z := 8.
Definition FM_UNLIMITED_RW : Z := 2 ^ 32 - 1.
Definition VFS_NIL_FILE : Z := -1.
Definition NIL_PID : Z := -1.
Definition SEEK_CUR : Z := 0.
Definition SEEK_END : Z := 1.
Definition SEEK_SET : Z := 2.

(** [round_up] of [libsos.h]: the next multiple of a power of two. *)
Definition round_up (address size : Z) : Z :=
  Z.land (w32 (address + (size - 1))) (w32 (Z.lnot (size - 1))).

(** ** Error codes of [libs/sos/include/errors.h] *)
Definition SOS_VFS_OK : Z := 0.
Definition SOS_VFS_EOF : Z := -1.
Definition SOS_VFS_ERROR : Z := -999.
Definition SOS_VFS_PERM : Z := -998.
Definition SOS_VFS_NOFILE : Z := -997.
Definition SOS_VFS_NOVNODE : Z := -996.
Definition SOS_VFS_NOMEM : Z := -995.
Definition SOS_VFS_NOMORE : Z := -994.
Definition SOS_VFS_PATHINV : Z := -993.
Definition SOS_VFS_CORVNODE : Z := -992.
Definition SOS_VFS_NOTIMP : Z := -991.
Definition SOS_VFS_WRITEFULL : Z := -990.
Definition SOS_VFS_READFULL : Z := -989.
Definition SOS_VFS_OPEN : Z := -988.
Definition SOS_VFS_DIR : Z := -987.
Definition SOS_VFS_EXIST : Z := -986.
Definition SOS_VFS_BADMODE : Z := -985.

(** ** Identifiers of the L4 kernel *)
Record L4_ThreadId_t := L4_GlobalId { L4_ThreadNo : Z; L4_Version : Z }.
#[global] Instance L4_ThreadId_eq_dec : EqDecision L4_ThreadId_t.
Proof. solve_decision. Defined.
Definition L4_nilthread := L4_GlobalId 0 0.
Definition L4_rootserverno : Z := 0.
Definition L4_rootserver := L4_GlobalId L4_rootserverno 1.
Definition L4_rootspace : Z := 0.
Definition L4_nilspace : Z := 2 ^ 32 - 1.
Definition L4_ReadWriteOnly : Z := 6.
Definition L4_FullyAccessible : Z := 7.

(** The ways of sending an IPC ([libs/sos/include/ipc.h]). *)
Inductive ipc_type_t :=
  | SOS_IPC_CALL | SOS_IPC_SEND | SOS_IPC_REPLY | SOS_IPC_SENDNONBLOCKING.
#[global] Instance ipc_type_eq_dec : EqDecision ipc_type_t.
Proof. solve_decision. Defined.

(** ** System calls ([libs/sos/include/sos.h], [sos/syscall.h]) *)
Inductive syscall_t :=
  | SOS_REPLY | SOS_KERNEL_PRINT | SOS_DEBUG_FLUSH | SOS_MOREMEM | SOS_COPYIN
  | SOS_COPYOUT | SOS_OPEN | SOS_CLOSE | SOS_READ | SOS_FLUSH | SOS_WRITE
  | SOS_LSEEK | SOS_GETDIRENT | SOS_STAT | SOS_REMOVE | SOS_DUP
  | SOS_PROCESS_CREATE | SOS_PROCESS_DELETE | SOS_MY_ID | SOS_PROCESS_STATUS
  | SOS_PROCESS_WAIT | SOS_TIME_STAMP | SOS_USLEEP | SOS_MEMUSE | SOS_SWAPUSE
  | SOS_PHYSUSE | SOS_VPAGER | SOS_MEMLOC | SOS_MMAP | SOS_SHARE_VM | SOS_NULL
  | PSOS_OPEN | PSOS_DUP | PSOS_FLUSH | PSOS_CLOSE
  | L4_PAGEFAULT | L4_INTERRUPT | L4_EXCEPTION.
#[global] Instance syscall_eq_dec : EqDecision syscall_t.
Proof. solve_decision. Defined.

(** The enumeration in declaration order: position is the C value. *)
Definition syscall_enum : list syscall_t :=
  [SOS_REPLY; SOS_KERNEL_PRINT; SOS_DEBUG_FLUSH; SOS_MOREMEM; SOS_COPYIN;
   SOS_COPYOUT; SOS_OPEN; SOS_CLOSE; SOS_READ; SOS_FLUSH; SOS_WRITE;
   SOS_LSEEK; SOS_GETDIRENT; SOS_STAT; SOS_REMOVE; SOS_DUP;
   SOS_PROCESS_CREATE; SOS_PROCESS_DELETE; SOS_MY_ID; SOS_PROCESS_STATUS;
   SOS_PROCESS_WAIT; SOS_TIME_STAMP; SOS_USLEEP; SOS_MEMUSE; SOS_SWAPUSE;
   SOS_PHYSUSE; SOS_VPAGER; SOS_MEMLOC; SOS_MMAP; SOS_SHARE_VM; SOS_NULL;
   PSOS_OPEN; PSOS_DUP; PSOS_FLUSH; PSOS_CLOSE].

(** A label's value as the [short] that [TAG_SYSLAB] compares with. *)
Definition syscall_num (c : syscall_t) : Z :=
  match c with
  | L4_PAGEFAULT => -2
  | L4_INTERRUPT => -1
  | L4_EXCEPTION => -5
  | _ => match list_find (λ d, d = c) syscall_enum with
         | Some (i, _) => Z.of_nat i
         | None => 0
         end
  end.

(** [TAG_SYSLAB] of [libsos.h] on a message label, and its decoding. *)
Definition TAG_SYSLAB (label : Z) : Z :=
  let l := label mod 2 ^ 16 in
  Z.shiftr (if decide (l < 2 ^ 15) then l else l - 2 ^ 16) 4.
Definition syscall_of_num (n : Z) : option syscall_t :=
  if decide (n = -2) then Some L4_PAGEFAULT
  else if decide (n = -1) then Some L4_INTERRUPT
  else if decide (n = -5) then Some L4_EXCEPTION
  else if decide (0 ≤ n) then syscall_enum !! Z.to_nat n
  else None.

(** ** Effects on the world outside SOS *)
Inductive nfs_call :=
  | nfs_lookup (path : list Z) (token : Z)
  | nfs_create (path : list Z) (token : Z)
  | nfs_read (fh pos nbyte token : Z)
  | nfs_write (fh offset nbyte buf token : Z)
  | nfs_readdir (cookie nbyte token : Z)
  | nfs_remove (path : list Z) (token : Z).

Inductive event :=
  | L4_MapFpage (sid virt phys rights : Z)
  | L4_UnmapFpage (sid virt : Z)
  | L4_UnmapAll (sid : Z)
  | L4_CacheFlushRange (sid first last : Z)
  | L4_CacheFlushRangeInvalidate (sid first last : Z)
  | L4_CacheFlushAll
  | L4_Ipc (to : L4_ThreadId_t) (label : syscall_t) (how : ipc_type_t) (words : list Z)
  | L4_ThreadDelete (tid : L4_ThreadId_t)
  | L4_SpaceDelete (sid : Z)
  | L4_ThreadStart (tid : L4_ThreadId_t) (prio ip sp : Z)
  | L4_AllowInterruptControl (irq : Z)
  | L4_RegisterInterrupt (irq : Z)
  | L4_AcknowledgeInterrupt (irq : Z)
  | L4_TaskStart (task : Z) (pager : L4_ThreadId_t) (ip sp : Z)
  | NfsCall (c : nfs_call)
  | SerialSend (bytes : list Z)
  | LibCall (f : string)
  | Printf (text : list Z).

(** ** Byte-addressed memory, big-endian words *)
Abbreviation memory := (gmap Z Z).

Definition load8 (m : memory) (a : Z) : Z := default 0 (m !! a).
Definition store8 (m : memory) (a v : Z) : memory := <[a := u8 v]> m.
Definition load32 (m : memory) (a : Z) : Z :=
  load8 m a * 2 ^ 24 + load8 m (a + 1) * 2 ^ 16 + load8 m (a + 2) * 2 ^ 8 + load8 m (a + 3).
Definition store32 (m : memory) (a v : Z) : memory :=
  <[a := (v / 2 ^ 24) mod 256]>
  (<[a + 1 := (v / 2 ^ 16) mod 256]>
   (<[a + 2 := (v / 2 ^ 8) mod 256]>
    (<[a + 3 := v mod 256]> m))).

(** [memcpy] and [memset] of the C library, byte by byte. *)
Fixpoint memcpy (m : memory) (dst src : Z) (n : nat) : memory :=
  match n with
  | O => m
  | S n' => memcpy (<[dst := load8 m src]> m) (dst + 1) (src + 1) n'
  end.
Fixpoint memset (m : memory) (dst v : Z) (n : nat) : memory :=
  match n with
  | O => m
  | S n' => memset (store8 m dst v) (dst + 1) v n'
  end.

Lemma load8_insert m a b v : load8 (<[a := v]> m) b = if decide (a = b) then v else load8 m b.
Proof. unfold load8. rewrite lookup_insert. by case_decide. Qed.

Lemma load32_store32_eq m a v : is_word v → load32 (store32 m a v) a = v.
Proof.
  intros Hv. unfold load32, store32. rewrite !load8_insert.
  repeat case_decide; try lia. unfold is_word in Hv.
  pose proof (Z.div_mod v 256 ltac:(lia)). pose proof (Z.div_mod (v / 256) 256 ltac:(lia)).
  pose proof (Z.div_mod (v / 256 / 256) 256 ltac:(lia)).
  change (2 ^ 24) with (256 * (256 * 256)). change (2 ^ 16) with (256 * 256).
  change (2 ^ 8) with 256. rewrite <- !Z.div_div by lia.
  rewrite (Z.mod_small (v / 256 / 256 / 256) 256); [lia|].
  split; [apply Z.div_pos; [apply Z.div_pos; [apply Z.div_pos|]|]; lia|].
  rewrite !Z.div_div by lia. apply Z.div_lt_upper_bound; lia.
Qed.

(** Two words do not overlap. *)
Definition word_disjoint (a b : Z) : Prop := a + 4 ≤ b ∨ b + 4 ≤ a.

Lemma load32_store32_ne m a b v :
  word_disjoint a b → load32 (store32 m a v) b = load32 m b.
Proof.
  unfold word_disjoint. intros H. unfold load32, store32. rewrite !load8_insert.
  repeat case_decide; lia.
Qed.

Lemma load8_memset m d v (n : nat) a :
  load8 (memset m d v n) a =
  if decide (d ≤ a < d + n) then u8 v else load8 m a.
Proof.
  revert m d. induction n as [|n IH]; intros m d; simpl.
  - case_decide; [lia|done].
  - rewrite IH. unfold store8. rewrite load8_insert. repeat case_decide; done || lia.
Qed.

Lemma load8_memcpy m d s (n : nat) a :
  d + n ≤ s ∨ s + n ≤ d →
  load8 (memcpy m d s n) a =
  if decide (d ≤ a < d + n) then load8 m (s + (a - d)) else load8 m a.
Proof.
  revert m d s. induction n as [|n IH]; intros m d s Hdis; simpl.
  - case_decide; [lia|done].
  - rewrite IH by lia. rewrite !load8_insert. repeat case_decide; try lia; try done.
    + f_equal; lia.
    + f_equal; lia.
Qed.

(** ** C strings in byte arrays *)
Abbreviation cstr := (list Z).

(** The bytes from an address up to the first NUL, at most [n] of them. *)
Fixpoint strn_at (m : memory) (a : Z) (n : nat) : cstr :=
  match n with
  | O => []
  | S n' => if load8 m a =? 0 then [] else load8 m a :: strn_at m (a + 1) n'
  end.
Definition bytes_of_string (s : string) : cstr :=
  (λ a, Z.of_nat (Ascii.nat_of_ascii a)) <$> String.list_ascii_of_string s.
(** What [strncpy(dst, src, MAX_FILE_NAME)] leaves in a path buffer. *)
Definition strncpy_path (s : cstr) : cstr := take (Z.to_nat MAX_FILE_NAME) s.
(** [strncpy] into memory: the bytes of the string, then NULs up to [n]. *)
Fixpoint strncpy_mem (m : memory) (dst : Z) (s : cstr) (n : nat) : memory :=
  match n with
  | O => m
  | S n' => match s with
            | [] => strncpy_mem (<[dst := 0]> m) (dst + 1) [] n'
            | c :: s' => strncpy_mem (<[dst := c]> m) (dst + 1) s' n'
            end
  end.
(** [memcpy] from a list of bytes. *)
Fixpoint write_bytes (m : memory) (dst : Z) (bs : list Z) : memory :=
  match bs with
  | [] => m
  | b :: bs' => write_bytes (<[dst := b]> m) (dst + 1) bs'
  end.

Definition STDOUT_FN : cstr := bytes_of_string "console".
Definition STDIN_FN : cstr := bytes_of_string "console".
Definition SWAPFILE_FN : cstr := bytes_of_string ".swap".

(** ** The machine state *)
Abbreviation ptr := (option positive).
Abbreviation NULL := (@None positive).

Record machine := mkMachine {
  mem : memory;           (* physical memory, mapped one-to-one *)
  cbuf : memory;          (* the static array [copyInOutBuffer], by offset *)
  log : list event;       (* effects so far, oldest first *)
  mnext : positive;       (* the next block [malloc] hands out *)
  moracle : list bool     (* whether the next [malloc]s succeed; then all do *)
}.
Definition set_mem (v : memory) (m : machine) := mkMachine v (cbuf m) (log m) (mnext m) (moracle m).
Definition set_cbuf (v : memory) (m : machine) :=
  mkMachine (mem m) v (log m) (mnext m) (moracle m).
Definition emit_ev (e : event) (m : machine) :=
  mkMachine (mem m) (cbuf m) (log m ++ [e]) (mnext m) (moracle m).

(** [malloc]: a block never handed out before, or NULL when memory is out. *)
Definition malloc : M machine ptr := λ m,
  match moracle m with
  | false :: o => Ok NULL (mkMachine (mem m) (cbuf m) (log m) (mnext m) o)
  | true :: o => Ok (Some (mnext m)) (mkMachine (mem m) (cbuf m) (log m) (Pos.succ (mnext m)) o)
  | [] => Ok (Some (mnext m)) (mkMachine (mem m) (cbuf m) (log m) (Pos.succ (mnext m)) [])
  end.
