(* ===== verification/Bootinfo.v ===== *)
(** * The boot image ([libs/bootinfo])

    The boot loader leaves a description of the programs to start: a sequence
    of records, each an operation with its arguments.  [bootinfo_parse] walks
    over them twice, and calls a table of callbacks.  [Module Bootinfo] is the
    parser on the bytes of the image; [Module BootImage] the format, as records
    with an encoding, and what it means to execute a sequence of records. *)
From S2P Require Import Prelude Machine.

(** ** The parser ([libs/bootinfo/src/bootinfo.c]) *)
Module Bootinfo.
Inductive bi_op :=
  | BI_OP_HEADER | BI_OP_END | BI_OP_NEW_PD | BI_OP_NEW_MS | BI_OP_ADD_VIRT_MEM
  | BI_OP_ADD_PHYS_MEM | BI_OP_NEW_THREAD | BI_OP_RUN_THREAD | BI_OP_MAP | BI_OP_ATTACH
  | BI_OP_GRANT | BI_OP_ARGV | BI_OP_REGISTER_SERVER | BI_OP_REGISTER_CALLBACK
  | BI_OP_REGISTER_STACK | BI_OP_INIT_MEM | BI_OP_NEW_CAP | BI_OP_GRANT_CAP
  | BI_OP_OBJECT_EXPORT | BI_OP_STRUCT_EXPORT | BI_OP_REGISTER_ENV | BI_OP_NEW_POOL
  | BI_OP_GRANT_INTERRUPT | BI_OP_SECURITY_CONTROL | BI_OP_NEW_ZONE
  | BI_OP_ADD_ZONE_WINDOW | BI_OP_KERNEL_INFO.
#[global] Instance bi_op_eq_dec : EqDecision bi_op.
Proof. solve_decision. Defined.

Definition bi_op_num (o : bi_op) : Z :=
  match o with
  | BI_OP_HEADER => 1 | BI_OP_END => 2 | BI_OP_NEW_PD => 3 | BI_OP_NEW_MS => 4
  | BI_OP_ADD_VIRT_MEM => 5 | BI_OP_ADD_PHYS_MEM => 6 | BI_OP_NEW_THREAD => 7
  | BI_OP_RUN_THREAD => 8 | BI_OP_MAP => 9 | BI_OP_ATTACH => 10 | BI_OP_GRANT => 11
  | BI_OP_ARGV => 13 | BI_OP_REGISTER_SERVER => 14 | BI_OP_REGISTER_CALLBACK => 15
  | BI_OP_REGISTER_STACK => 16 | BI_OP_INIT_MEM => 17 | BI_OP_NEW_CAP => 20
  | BI_OP_GRANT_CAP => 21 | BI_OP_OBJECT_EXPORT => 22 | BI_OP_STRUCT_EXPORT => 23
  | BI_OP_REGISTER_ENV => 24 | BI_OP_NEW_POOL => 25 | BI_OP_GRANT_INTERRUPT => 26
  | BI_OP_SECURITY_CONTROL => 27 | BI_OP_NEW_ZONE => 28 | BI_OP_ADD_ZONE_WINDOW => 29
  | BI_OP_KERNEL_INFO => 30
  end.
Definition bi_ops : list bi_op :=
  [BI_OP_HEADER; BI_OP_END; BI_OP_NEW_PD; BI_OP_NEW_MS; BI_OP_ADD_VIRT_MEM;
   BI_OP_ADD_PHYS_MEM; BI_OP_NEW_THREAD; BI_OP_RUN_THREAD; BI_OP_MAP; BI_OP_ATTACH;
   BI_OP_GRANT; BI_OP_ARGV; BI_OP_REGISTER_SERVER; BI_OP_REGISTER_CALLBACK;
   BI_OP_REGISTER_STACK; BI_OP_INIT_MEM; BI_OP_NEW_CAP; BI_OP_GRANT_CAP;
   BI_OP_OBJECT_EXPORT; BI_OP_STRUCT_EXPORT; BI_OP_REGISTER_ENV; BI_OP_NEW_POOL;
   BI_OP_GRANT_INTERRUPT; BI_OP_SECURITY_CONTROL; BI_OP_NEW_ZONE;
   BI_OP_ADD_ZONE_WINDOW; BI_OP_KERNEL_INFO].
(** The case of the [switch] that a number selects; [None] is [default]. *)
Definition bi_op_of (n : Z) : option bi_op := snd <$> list_find (λ o, bi_op_num o = n) bi_ops.

Definition BI_MAGIC : Z := 0x1960021d.
Definition BI_VERSION : Z := 8.
Definition BI_NAME_INVALID : Z := -1.

Record bi_user_data_t := mkUserData {
  total_pds : Z; total_mss : Z; total_threads : Z; total_caps : Z;
  total_pools : Z; total_zones : Z; rec_num : Z
}.

(** The table of callbacks; [None] is a NULL entry.  Strings are an address in
    the image and a length. *)
Record bi_callbacks_t (S : Type) := mkCallbacks {
  cb_init : option (bi_user_data_t → M S Z);
  cb_cleanup : option (bi_user_data_t → M S Z);
  cb_init_mem : option (Z → Z → Z → Z → bi_user_data_t → M S Z);
  cb_init_mem2 : option (Z → Z → Z → Z → bi_user_data_t → M S Z);
  cb_new_pd : option (Z → bi_user_data_t → M S Z);
  cb_new_ms : option (Z → Z → Z → Z → Z → Z → Z → Z → bi_user_data_t → M S Z);
  cb_add_virt_mem : option (Z → Z → Z → bi_user_data_t → M S Z);
  cb_add_phys_mem : option (Z → Z → Z → bi_user_data_t → M S Z);
  cb_new_thread : option (Z → Z → Z → Z → Z → Z → bi_user_data_t → M S Z);
  cb_run_thread : option (Z → bi_user_data_t → M S Z);
  cb_map : option (Z → Z → Z → Z → Z → bi_user_data_t → M S Z);
  cb_attach : option (Z → Z → Z → bi_user_data_t → M S Z);
  cb_grant : option (Z → Z → Z → bi_user_data_t → M S Z);
  cb_argv : option (Z → Z → Z → bi_user_data_t → M S Z);
  cb_register_server : option (Z → Z → bi_user_data_t → M S Z);
  cb_register_callback : option (Z → Z → bi_user_data_t → M S Z);
  cb_register_stack : option (Z → Z → bi_user_data_t → M S Z);
  cb_new_cap : option (Z → Z → bi_user_data_t → M S Z);
  cb_grant_cap : option (Z → Z → bi_user_data_t → M S Z);
  cb_export_object : option (Z → Z → Z → Z → Z → bi_user_data_t → M S Z);
  cb_export_struct :
    option (Z → Z → Z → Z → Z → Z → Z → Z → Z → Z → bi_user_data_t → M S Z);
  cb_register_env : option (Z → Z → bi_user_data_t → M S Z);
  cb_new_pool : option (Z → bi_user_data_t → M S Z);
  cb_grant_interrupt : option (Z → Z → bi_user_data_t → M S Z);
  cb_security_control : option (Z → Z → Z → bi_user_data_t → M S Z);
  cb_new_zone : option (Z → bi_user_data_t → M S Z);
  cb_add_zone_window : option (Z → Z → bi_user_data_t → M S Z);
  cb_kernel_info : option (Z → Z → Z → bi_user_data_t → M S Z)
}.
Global Arguments mkCallbacks {S}.

(** [OKL4_BOOTINFO_CALLBACK_INIT] *)
Definition OKL4_BOOTINFO_CALLBACK_INIT (S : Type) : bi_callbacks_t S :=
  mkCallbacks None None None None None None None None None None None None None None
    None None None None None None None None None None None None None None.

Definition name_is_valid (name : Z) : bool := negb (name =? BI_NAME_INVALID).

Section parse.
Context {S : Type} (image : memory) (cb : bi_callbacks_t S).

(** The bit-fields [op] and [size] of the word a record starts with, and the
    words after it. *)
Definition hdr_op (a : Z) : Z := load32 image a / 2 ^ 16.
Definition hdr_size (a : Z) : Z := load32 image a mod 2 ^ 16.
Definition word (a i : Z) : Z := load32 image (a + 4 * i).
Definition name (a i : Z) : Z := s32 (word a i).

(** [end] runs down from [s + n - 1]; [n] counts the bytes up to it. *)
Fixpoint true_str_size (s : Z) (n : nat) : nat :=
  match n with
  | O => O
  | Datatypes.S n' => if load8 image (s + n') =? 0 then true_str_size s n' else n
  end.
(** The string at the end of a record, [off] bytes into it. *)
Definition str_len (a off : Z) : Z := true_str_size (a + off) (Z.to_nat (hdr_size a - off)).

(** Calling an entry of the table: a NULL entry is skipped, a status other
    than 0 or an invalid name stops the parser. *)
Definition status {A} (f : option A) (call : A → M S Z) : M S bool :=
  match f with None => mret true | Some f => r ← call f; mret (r =? 0) end.
Definition naming {A} (f : option A) (call : A → M S Z) : M S bool :=
  match f with None => mret true | Some f => r ← call f; mret (name_is_valid r) end.

(** *** First pass: the number of objects, and the memory *)
Definition count_object (o : bi_op) (d : bi_user_data_t) : bi_user_data_t :=
  let '(mkUserData pds mss threads caps pools zones n) := d in
  match o with
  | BI_OP_NEW_PD => mkUserData (w32 (pds + 1)) mss threads caps pools zones n
  | BI_OP_NEW_MS => mkUserData pds (w32 (mss + 1)) threads caps pools zones n
  | BI_OP_NEW_THREAD => mkUserData pds mss (w32 (threads + 1)) caps pools zones n
  | BI_OP_NEW_CAP => mkUserData pds mss threads (w32 (caps + 1)) pools zones n
  | BI_OP_NEW_POOL => mkUserData pds mss threads caps (w32 (pools + 1)) zones n
  | BI_OP_NEW_ZONE => mkUserData pds mss threads caps pools (w32 (zones + 1)) n
  | _ => d
  end.
Definition next_rec (d : bi_user_data_t) : bi_user_data_t :=
  let '(mkUserData pds mss threads caps pools zones n) := d in
  mkUserData pds mss threads caps pools zones (n + 1).

(** One record of the first pass; [None] is [return 1]. *)
Definition first_record (o : bi_op) (a : Z) (d : bi_user_data_t) : M S (option bi_user_data_t) :=
  match o with
  | BI_OP_HEADER =>
      if bool_decide (word a 1 ≠ BI_MAGIC) || bool_decide (word a 2 ≠ BI_VERSION) then mret None
      else mret (Some d)
  | BI_OP_INIT_MEM =>
      if bool_decide (word a 2 ≤ word a 1) || bool_decide (word a 4 ≤ word a 3) then mret None
      else
        match cb_init_mem _ cb with
        | None => mret (Some d)
        | Some f => f (word a 1) (word a 2) (word a 3) (word a 4) d;; mret (Some d)
        end
  | _ => mret (Some (count_object o d))
  end.
Fixpoint first_pass (fuel : nat) (a : Z) (d : bi_user_data_t) : M S (option bi_user_data_t) :=
  match fuel with
  | O => fail OutOfFuel
  | Datatypes.S fuel' =>
      match bi_op_of (hdr_op a) with
      | None => mret None
      | Some BI_OP_END => mret (Some d)
      | Some o =>
          r ← first_record o a d;
          match r with
          | None => mret None
          | Some d => first_pass fuel' (w32 (a + hdr_size a)) (next_rec d)
          end
      end
  end.

(** *** Second pass: the operations; [false] is [goto quit] *)
Definition record_kernel (o : bi_op) (a : Z) (d : bi_user_data_t) : M S bool :=
  match o with
  | BI_OP_REGISTER_ENV => status (cb_register_env _ cb) (λ f, f (name a 1) (name a 2) d)
  | BI_OP_NEW_POOL => naming (cb_new_pool _ cb) (λ f, f (s32 (word a 1)) d)
  | BI_OP_GRANT_INTERRUPT => status (cb_grant_interrupt _ cb) (λ f, f (name a 1) (word a 2) d)
  | BI_OP_SECURITY_CONTROL =>
      status (cb_security_control _ cb) (λ f, f (name a 1) (name a 2) (s32 (word a 3)) d)
  | BI_OP_NEW_ZONE => naming (cb_new_zone _ cb) (λ f, f (name a 1) d)
  | BI_OP_ADD_ZONE_WINDOW => status (cb_add_zone_window _ cb) (λ f, f (name a 1) (word a 2) d)
  | BI_OP_KERNEL_INFO =>
      status (cb_kernel_info _ cb) (λ f, f (s32 (word a 1)) (s32 (word a 2)) (s32 (word a 3)) d)
  | _ => mret true
  end.
Definition record_exports (o : bi_op) (a : Z) (d : bi_user_data_t) : M S bool :=
  match o with
  | BI_OP_INIT_MEM =>
      status (cb_init_mem2 _ cb) (λ f, f (word a 1) (word a 2) (word a 3) (word a 4) d)
  | BI_OP_NEW_CAP => naming (cb_new_cap _ cb) (λ f, f (name a 1) (s32 (word a 2)) d)
  | BI_OP_GRANT_CAP => status (cb_grant_cap _ cb) (λ f, f (name a 1) (name a 2) d)
  | BI_OP_OBJECT_EXPORT =>
      status (cb_export_object _ cb) (λ f,
        f (name a 1) (name a 2) (s32 (word a 3)) (a + 16) (str_len a 16) d)
  | BI_OP_STRUCT_EXPORT =>
      status (cb_export_struct _ cb) (λ f,
        f (name a 1) (s32 (word a 8)) (a + 36) (str_len a 36) (word a 2) (s32 (word a 3))
          (word a 4) (word a 5) (word a 6) (word a 7) d)
  | _ => record_kernel o a d
  end.
Definition record_access (o : bi_op) (a : Z) (d : bi_user_data_t) : M S bool :=
  match o with
  | BI_OP_MAP =>
      status (cb_map _ cb) (λ f, f (word a 1) (word a 2) (word a 3) (s32 (word a 4)) (word a 5) d)
  | BI_OP_ATTACH => status (cb_attach _ cb) (λ f, f (name a 1) (name a 2) (s32 (word a 3)) d)
  | BI_OP_GRANT => status (cb_grant _ cb) (λ f, f (name a 1) (name a 2) (s32 (word a 3)) d)
  | BI_OP_ARGV => status (cb_argv _ cb) (λ f, f (name a 1) (a + 8) (str_len a 8) d)
  | BI_OP_REGISTER_SERVER => status (cb_register_server _ cb) (λ f, f (name a 1) (name a 2) d)
  | BI_OP_REGISTER_CALLBACK => status (cb_register_callback _ cb) (λ f, f (name a 1) (name a 2) d)
  | BI_OP_REGISTER_STACK => status (cb_register_stack _ cb) (λ f, f (name a 1) (name a 2) d)
  | _ => record_exports o a d
  end.
Definition record_objects (o : bi_op) (a : Z) (d : bi_user_data_t) : M S bool :=
  match o with
  | BI_OP_HEADER => mret true
  | BI_OP_NEW_PD => naming (cb_new_pd _ cb) (λ f, f (name a 1) d)
  | BI_OP_NEW_MS =>
      naming (cb_new_ms _ cb) (λ f,
        f (name a 1) (word a 2) (word a 3) (word a 4) (word a 5) (name a 6) (name a 7) (name a 8) d)
  | BI_OP_ADD_VIRT_MEM => status (cb_add_virt_mem _ cb) (λ f, f (name a 1) (word a 2) (word a 3) d)
  | BI_OP_ADD_PHYS_MEM => status (cb_add_phys_mem _ cb) (λ f, f (name a 1) (word a 2) (word a 3) d)
  | BI_OP_NEW_THREAD =>
      naming (cb_new_thread _ cb) (λ f,
        f (name a 1) (word a 2) (word a 3) (s32 (word a 4)) (a + 20) (str_len a 20) d)
  | BI_OP_RUN_THREAD => status (cb_run_thread _ cb) (λ f, f (name a 1) d)
  | _ => record_access o a d
  end.
(** The result is [ret] and the data that [cleanup] gets. *)
Fixpoint second_pass (fuel : nat) (a : Z) (d : bi_user_data_t) : M S (Z * bi_user_data_t) :=
  match fuel with
  | O => fail OutOfFuel
  | Datatypes.S fuel' =>
      match bi_op_of (hdr_op a) with
      | None => mret (1, d)
      | Some BI_OP_END => mret (0, d)
      | Some o =>
          ok ← record_objects o a d;
          if (ok : bool) then second_pass fuel' (w32 (a + hdr_size a)) (next_rec d)
          else mret (1, d)
      end
  end.

Definition data0 : bi_user_data_t := mkUserData 0 0 0 0 3 0 0.
Definition rewind (d : bi_user_data_t) : bi_user_data_t :=
  let '(mkUserData pds mss threads caps pools zones _) := d in
  mkUserData pds mss threads caps pools zones 0.
Definition bootinfo_parse (fuel : nat) (buffer : Z) : M S Z :=
  if decide (hdr_op buffer ≠ bi_op_num BI_OP_HEADER) then mret 1
  else
    r ← first_pass fuel buffer data0;
    match r with
    | None => mret 1
    | Some d =>
        match cb_init _ cb with None => mret tt | Some f => f d;; mret tt end;;
        r ← second_pass fuel buffer (rewind d);
        match cb_cleanup _ cb with
        | None => mret (fst r)
        | Some f => c ← f (snd r); mret (if c =? 0 then fst r else 1)
        end
    end.
End parse.
End Bootinfo.

(** ** The format ([libs/bootinfo/src/bootinfo_priv.h])

    A record is an operation, its argument words in the order of the C
    structure, and, for four of the operations, a string padded with NULs. *)
Module BootImage.
Import Bootinfo.

Record bi_rec := mkRec { r_op : Z; r_args : list Z; r_str : list Z; r_pad : nat }.

Definition arity (o : bi_op) : nat :=
  match o with
  | BI_OP_HEADER => 7 | BI_OP_END => 0 | BI_OP_NEW_PD => 1 | BI_OP_NEW_MS => 8
  | BI_OP_ADD_VIRT_MEM | BI_OP_ADD_PHYS_MEM => 3 | BI_OP_NEW_THREAD => 4
  | BI_OP_RUN_THREAD => 1 | BI_OP_MAP => 5 | BI_OP_ATTACH | BI_OP_GRANT => 3
  | BI_OP_ARGV => 1 | BI_OP_REGISTER_SERVER | BI_OP_REGISTER_CALLBACK
  | BI_OP_REGISTER_STACK => 2 | BI_OP_INIT_MEM => 4 | BI_OP_NEW_CAP | BI_OP_GRANT_CAP => 2
  | BI_OP_OBJECT_EXPORT => 3 | BI_OP_STRUCT_EXPORT => 8 | BI_OP_REGISTER_ENV => 2
  | BI_OP_NEW_POOL => 1 | BI_OP_GRANT_INTERRUPT => 2 | BI_OP_SECURITY_CONTROL => 3
  | BI_OP_NEW_ZONE => 1 | BI_OP_ADD_ZONE_WINDOW => 2 | BI_OP_KERNEL_INFO => 3
  end.

Definition be32 (w : Z) : list Z :=
  [(w / 2 ^ 24) mod 256; (w / 2 ^ 16) mod 256; (w / 2 ^ 8) mod 256; w mod 256].
Definition args_end (r : bi_rec) : Z := 4 * (1 + length (r_args r)).
Definition rec_size (r : bi_rec) : Z := args_end r + length (r_str r) + r_pad r.
Definition encode_rec (r : bi_rec) : list Z :=
  concat (be32 <$> (r_op r * 2 ^ 16 + rec_size r) :: r_args r) ++ r_str r ++ replicate (r_pad r) 0.
Definition end_rec : bi_rec := mkRec (bi_op_num BI_OP_END) [] [] 0.
Definition encode (rs : list bi_rec) : list Z := concat (encode_rec <$> rs ++ [end_rec]).

(** A record of a known operation has its arguments; a string does not end in
    a NUL; only the last record of an image ends it. *)
Record rec_ok (r : bi_rec) : Prop := {
  ok_op : 0 ≤ r_op r < 2 ^ 16;
  ok_size : rec_size r < 2 ^ 16;
  ok_args : Forall is_word (r_args r);
  ok_arity : ∀ o, bi_op_of (r_op r) = Some o → length (r_args r) = arity o;
  ok_str : last (r_str r) ≠ Some 0;
  ok_end : r_op r ≠ bi_op_num BI_OP_END
}.
(** The image holds [bs] from address [a] on. *)
Definition bytes_at (m : memory) (a : Z) (bs : list Z) : Prop :=
  ∀ (i : nat) b, bs !! i = Some b → load8 m (a + i) = b.

(** *** What the records mean *)
Section exec.
Context {S : Type} (cb : bi_callbacks_t S).

(** A record at address [a]: its operation on its arguments. *)
Definition exec_rec (r : bi_rec) (a : Z) (d : bi_user_data_t) : M S bool :=
  let str := a + args_end r in
  let len : Z := length (r_str r) in
  match bi_op_of (r_op r), r_args r with
  | Some BI_OP_NEW_PD, [owner] => naming (cb_new_pd _ cb) (λ f, f (s32 owner) d)
  | Some BI_OP_NEW_MS, [owner; base; size; flags; attr; physpool; virtpool; zone] =>
      naming (cb_new_ms _ cb) (λ f,
        f (s32 owner) base size flags attr (s32 physpool) (s32 virtpool) (s32 zone) d)
  | Some BI_OP_ADD_VIRT_MEM, [pool; base; end_] =>
      status (cb_add_virt_mem _ cb) (λ f, f (s32 pool) base end_ d)
  | Some BI_OP_ADD_PHYS_MEM, [pool; base; end_] =>
      status (cb_add_phys_mem _ cb) (λ f, f (s32 pool) base end_ d)
  | Some BI_OP_NEW_THREAD, [owner; ip; user_main; priority] =>
      naming (cb_new_thread _ cb) (λ f, f (s32 owner) ip user_main (s32 priority) str len d)
  | Some BI_OP_RUN_THREAD, [thread] => status (cb_run_thread _ cb) (λ f, f (s32 thread) d)
  | Some BI_OP_MAP, [vaddr; size; paddr; scrub; mode] =>
      status (cb_map _ cb) (λ f, f vaddr size paddr (s32 scrub) mode d)
  | Some BI_OP_ATTACH, [pd; ms; rights] =>
      status (cb_attach _ cb) (λ f, f (s32 pd) (s32 ms) (s32 rights) d)
  | Some BI_OP_GRANT, [pd; obj; rights] =>
      status (cb_grant _ cb) (λ f, f (s32 pd) (s32 obj) (s32 rights) d)
  | Some BI_OP_ARGV, [thread] => status (cb_argv _ cb) (λ f, f (s32 thread) str len d)
  | Some BI_OP_REGISTER_SERVER, [thread; ms] =>
      status (cb_register_server _ cb) (λ f, f (s32 thread) (s32 ms) d)
  | Some BI_OP_REGISTER_CALLBACK, [pd; ms] =>
      status (cb_register_callback _ cb) (λ f, f (s32 pd) (s32 ms) d)
  | Some BI_OP_REGISTER_STACK, [thread; ms] =>
      status (cb_register_stack _ cb) (λ f, f (s32 thread) (s32 ms) d)
  | Some BI_OP_INIT_MEM, [virt_base; virt_end; phys_base; phys_end] =>
      status (cb_init_mem2 _ cb) (λ f, f virt_base virt_end phys_base phys_end d)
  | Some BI_OP_NEW_CAP, [obj; rights] => naming (cb_new_cap _ cb) (λ f, f (s32 obj) (s32 rights) d)
  | Some BI_OP_GRANT_CAP, [pd; cap] => status (cb_grant_cap _ cb) (λ f, f (s32 pd) (s32 cap) d)
  | Some BI_OP_OBJECT_EXPORT, [pd; obj; type] =>
      status (cb_export_object _ cb) (λ f, f (s32 pd) (s32 obj) (s32 type) str len d)
  | Some BI_OP_STRUCT_EXPORT, [pd; first; second; third; fourth; fifth; sixth; type] =>
      status (cb_export_struct _ cb) (λ f,
        f (s32 pd) (s32 type) str len first (s32 second) third fourth fifth sixth d)
  | Some BI_OP_REGISTER_ENV, [pd; ms] =>
      status (cb_register_env _ cb) (λ f, f (s32 pd) (s32 ms) d)
  | Some BI_OP_NEW_POOL, [is_virtual] => naming (cb_new_pool _ cb) (λ f, f (s32 is_virtual) d)
  | Some BI_OP_GRANT_INTERRUPT, [thread; irq] =>
      status (cb_grant_interrupt _ cb) (λ f, f (s32 thread) irq d)
  | Some BI_OP_SECURITY_CONTROL, [pd; obj; type] =>
      status (cb_security_control _ cb) (λ f, f (s32 pd) (s32 obj) (s32 type) d)
  | Some BI_OP_NEW_ZONE, [pool] => naming (cb_new_zone _ cb) (λ f, f (s32 pool) d)
  | Some BI_OP_ADD_ZONE_WINDOW, [zone; base] =>
      status (cb_add_zone_window _ cb) (λ f, f (s32 zone) base d)
  | Some BI_OP_KERNEL_INFO, [spaces; mutexes; caps] =>
      status (cb_kernel_info _ cb) (λ f, f (s32 spaces) (s32 mutexes) (s32 caps) d)
  | Some BI_OP_HEADER, _ => mret true
  | _, _ => mret false
  end.
Fixpoint exec_recs (rs : list bi_rec) (a : Z) (d : bi_user_data_t) : M S (Z * bi_user_data_t) :=
  match rs with
  | [] => mret (0, d)
  | r :: rs' =>
      ok ← exec_rec r a d;
      if (ok : bool) then exec_recs rs' (a + rec_size r) (next_rec d) else mret (1, d)
  end.

(** The first look at the records: bad headers, bad memory ranges and unknown
    operations end it, memory is announced, objects are counted. *)
Definition scan_rec (r : bi_rec) (d : bi_user_data_t) : M S (option bi_user_data_t) :=
  match bi_op_of (r_op r), r_args r with
  | Some BI_OP_HEADER, magic :: version :: _ =>
      mret (if decide (magic = BI_MAGIC ∧ version = BI_VERSION) then Some d else None)
  | Some BI_OP_INIT_MEM, [virt_base; virt_end; phys_base; phys_end] =>
      if decide (virt_base < virt_end ∧ phys_base < phys_end) then
        match cb_init_mem _ cb with
        | None => mret tt
        | Some f => f virt_base virt_end phys_base phys_end d;; mret tt
        end;;
        mret (Some d)
      else mret None
  | Some o, _ => mret (Some (count_object o d))
  | None, _ => mret None
  end.
Fixpoint scan_recs (rs : list bi_rec) (d : bi_user_data_t) : M S (option bi_user_data_t) :=
  match rs with
  | [] => mret (Some d)
  | r :: rs' =>
      x ← scan_rec r d;
      match x with None => mret None | Some d => scan_recs rs' (next_rec d) end
  end.

Definition run_image (rs : list bi_rec) (a : Z) : M S Z :=
  if decide (r_op <$> head rs = Some (bi_op_num BI_OP_HEADER)) then
    x ← scan_recs rs data0;
    match x with
    | None => mret 1
    | Some d =>
        match cb_init _ cb with None => mret tt | Some f => f d;; mret tt end;;
        r ← exec_recs rs a (rewind d);
        match cb_cleanup _ cb with
        | None => mret (fst r)
        | Some f => c ← f (snd r); mret (if c =? 0 then fst r else 1)
        end
    end
  else mret 1.
End exec.

(** *** Reading back what was encoded *)
Lemma bytes_at_app m a xs ys :
  bytes_at m a (xs ++ ys) → bytes_at m a xs ∧ bytes_at m (a + length xs) ys.
Proof.
  intros H. split; intros i b Hi.
  - apply H. by apply lookup_app_l_Some.
  - replace (a + length xs + i) with (a + (length xs + i)%nat) by lia. apply H.
    rewrite lookup_app_r by lia. by replace (length xs + i - length xs)%nat with i by lia.
Qed.
Lemma load32_be32 m a w : is_word w → bytes_at m a (be32 w) → load32 m a = w.
Proof.
  intros Hw H. etrans; [|exact (load32_store32_eq m a w Hw)].
  unfold load32, store32. rewrite !load8_insert.
  pose proof (H 0%nat _ eq_refl) as E0. pose proof (H 1%nat _ eq_refl) as E1.
  pose proof (H 2%nat _ eq_refl) as E2. pose proof (H 3%nat _ eq_refl) as E3.
  change (Z.of_nat 0) with 0 in E0. change (Z.of_nat 1) with 1 in E1.
  change (Z.of_nat 2) with 2 in E2. change (Z.of_nat 3) with 3 in E3.
  rewrite Z.add_0_r in E0. rewrite E0, E1, E2, E3.
  repeat case_decide; done || lia.
Qed.
Lemma words_at m ws : ∀ a, Forall is_word ws → bytes_at m a (concat (be32 <$> ws)) →
  ∀ (i : nat) w, ws !! i = Some w → load32 m (a + 4 * i) = w.
Proof.
  induction ws as [|w ws IH]; intros a Hok H i x Hi; [done|].
  apply Forall_cons in Hok as [Hw Hws]. cbn [fmap list_fmap concat] in H.
  apply bytes_at_app in H as [H1 H2]. destruct i as [|i].
  - injection Hi as <-. rewrite Z.mul_0_r, Z.add_0_r. by apply load32_be32.
  - replace (a + 4 * Datatypes.S i) with (a + 4 + 4 * i) by lia. by apply (IH (a + 4)).
Qed.
Lemma length_words ws : length (concat (be32 <$> ws)) = (4 * length ws)%nat.
Proof. induction ws as [|w ws IH]; [done|]. cbn [fmap list_fmap concat]. rewrite length_app, IH. simpl. lia. Qed.
Lemma length_encode_rec r : Z.of_nat (length (encode_rec r)) = rec_size r.
Proof.
  unfold encode_rec, rec_size, args_end. rewrite !length_app, length_words, length_replicate. simpl. lia.
Qed.

(** The parts of a record in the image. *)
Record at_rec (m : memory) (a : Z) (r : bi_rec) : Prop := {
  at_op : hdr_op m a = r_op r;
  at_size : hdr_size m a = rec_size r;
  at_arg : ∀ (i : nat) w, r_args r !! i = Some w → word m a (1 + i) = w;
  at_str : str_len m a (args_end r) = length (r_str r)
}.
Lemma str_size_pad m s str pad :
  last str ≠ Some 0 → bytes_at m s (str ++ replicate pad 0) →
  true_str_size m s (length str + pad) = length str.
Proof.
  intros Hlast H. induction pad as [|pad IH].
  - rewrite Nat.add_0_r. destruct str as [|b str _] using rev_ind; [done|].
    rewrite last_snoc in Hlast. rewrite length_app in *. cbn [length].
    rewrite Nat.add_comm. cbn [true_str_size Nat.add].
    rewrite (H (length str) b); last first.
    { rewrite app_nil_r, lookup_app_r, Nat.sub_diag; done. }
    by destruct (Z.eqb_spec b 0) as [->|].
  - rewrite Nat.add_succ_r. cbn [true_str_size]. rewrite (H (length str + pad)%nat 0); last first.
    { rewrite lookup_app_r by lia. apply lookup_replicate. lia. }
    cbn [Z.eqb]. apply IH. intros i b Hi. apply H. rewrite replicate_S_end, app_assoc.
    by apply lookup_app_l_Some.
Qed.
Lemma encoded_rec m a r : rec_ok r → bytes_at m a (encode_rec r) → at_rec m a r.
Proof.
  intros [Hop Hsz Hargs _ Hstr _] H. unfold encode_rec in H. apply bytes_at_app in H as [Hw Hs].
  assert (0 ≤ rec_size r) as Hpos by (unfold rec_size, args_end; lia).
  assert (Forall is_word ((r_op r * 2 ^ 16 + rec_size r) :: r_args r)) as Hall.
  { constructor; [|done]. unfold is_word. lia. }
  pose proof (words_at m _ a Hall Hw) as Hld.
  pose proof (Hld 0%nat _ eq_refl) as Hh. rewrite Z.mul_0_r, Z.add_0_r in Hh.
  assert (hdr_size m a = rec_size r) as Hsize.
  { unfold hdr_size. rewrite Hh, Z.add_comm, Z.mod_add by done. apply Z.mod_small. lia. }
  split; [|done| |].
  - unfold hdr_op. rewrite Hh, Z.add_comm, Z.div_add, Z.div_small by lia. lia.
  - intros i w Hi. unfold word. rewrite <- (Hld (Datatypes.S i) w Hi). f_equal. lia.
  - unfold str_len. rewrite Hsize. unfold rec_size.
    replace (Z.to_nat _) with (length (r_str r) + r_pad r)%nat by lia.
    f_equal. apply str_size_pad; [done|]. replace (a + args_end r) with
      (a + length (concat (be32 <$> (r_op r * 2 ^ 16 + rec_size r) :: r_args r))); [done|].
    rewrite length_words. unfold args_end. simpl. lia.
Qed.
Lemma encode_cons m a r rs :
  bytes_at m a (encode (r :: rs)) → bytes_at m a (encode_rec r) ∧ bytes_at m (a + rec_size r) (encode rs).
Proof.
  unfold encode. cbn [app fmap list_fmap concat]. intros [H1 H2]%bytes_at_app.
  rewrite length_encode_rec in H2. done.
Qed.
Lemma encode_length_cons r rs :
  Z.of_nat (length (encode (r :: rs))) = rec_size r + length (encode rs).
Proof.
  unfold encode. cbn [app fmap list_fmap concat]. rewrite length_app. pose proof (length_encode_rec r). lia.
Qed.

Lemma args_words m a r :
  at_rec m a r → r_args r = (λ i : nat, word m a (1 + i)) <$> seq 0 (length (r_args r)).
Proof.
  intros [_ _ H _]. apply list_eq. intros i. rewrite list_lookup_fmap.
  destruct (r_args r !! i) as [w|] eqn:Hi.
  - rewrite lookup_seq_lt by (by eapply lookup_lt_Some). cbn. by rewrite (H i w Hi).
  - apply lookup_ge_None in Hi. by rewrite lookup_seq_ge.
Qed.

Section agree.
Context {S : Type} (m : memory) (cb : bi_callbacks_t S).

Lemma exec_agrees r a d o :
  rec_ok r → at_rec m a r → bi_op_of (r_op r) = Some o → o ≠ BI_OP_END →
  record_objects m cb o a d = exec_rec cb r a d.
Proof.
  intros Hok Hat Ho Hne. pose proof (ok_arity r Hok o Ho) as Hlen. pose proof (args_words m a r Hat) as Ha.
  unfold exec_rec. rewrite <- (at_str m a r Hat), Ho. unfold args_end. rewrite Hlen in *. rewrite Ha.
  by destruct o.
Qed.
Lemma scan_agrees r a d o :
  rec_ok r → at_rec m a r → bi_op_of (r_op r) = Some o → o ≠ BI_OP_END →
  ∀ s, first_record m cb o a d s = scan_rec cb r d s.
Proof.
  intros Hok Hat Ho Hne s. pose proof (ok_arity r Hok o Ho) as Hlen.
  pose proof (args_words m a r Hat) as Ha. unfold scan_rec. rewrite Ho. rewrite Hlen in Ha. rewrite Ha.
  destruct o; try done; cbn [arity seq fmap list_fmap first_record];
    change (1 + 0%nat) with 1; change (1 + 1%nat) with 2;
    change (1 + 2%nat) with 3; change (1 + 3%nat) with 4.
  - repeat case_bool_decide; case_decide; simpl; naive_solver.
  - generalize (word m a 1) (word m a 2) (word m a 3) (word m a 4). intros vb ve pb pe.
    case_decide as D; [|repeat case_bool_decide; done || lia].
    rewrite !bool_decide_false by lia. cbn [orb].
    destruct (cb_init_mem _ cb) as [f|]; [|done]. unfold mbind, M_bind. by destruct (f vb ve pb pe d s).
Qed.

(** A record is its own operation: only the end record ends the image. *)
Lemma op_of_num n o : bi_op_of n = Some o → bi_op_num o = n.
Proof.
  unfold bi_op_of. intros H. destruct (list_find _ _) as [[i x]|] eqn:E; [|done].
  injection H as ->. by apply list_find_Some in E as (_ & E & _).
Qed.
Lemma op_not_end r o : rec_ok r → bi_op_of (r_op r) = Some o → o ≠ BI_OP_END.
Proof. intros Hok Ho%op_of_num ->. by apply (ok_end r Hok). Qed.
Lemma end_at a : bytes_at m a (encode []) → bi_op_of (hdr_op m a) = Some BI_OP_END.
Proof.
  intros H. assert (load32 m a = 2 * 2 ^ 16 + 4) as E; [|unfold hdr_op; by rewrite E].
  by apply load32_be32.
Qed.

(** The image is in the address space. *)
Definition fits (a : Z) (rs : list bi_rec) : Prop := 0 ≤ a ∧ a + length (encode rs) ≤ 2 ^ 32.
Lemma fits_next a r rs :
  rec_ok r → at_rec m a r → fits a (r :: rs) →
  w32 (a + hdr_size m a) = a + rec_size r ∧ fits (a + rec_size r) rs.
Proof.
  intros Hok Hat [H1 H2]. rewrite encode_length_cons in H2.
  assert (0 ≤ rec_size r) by (unfold rec_size, args_end; lia).
  assert (0 < length (encode rs))%nat.
  { unfold encode. rewrite fmap_app, concat_app, length_app. simpl. lia. }
  rewrite (at_size m a r Hat). unfold fits. split; [|lia]. apply w32_small. unfold is_word. lia.
Qed.

Lemma first_pass_agrees rs : ∀ fuel a d s,
  Forall rec_ok rs → fits a rs → bytes_at m a (encode rs) → (length rs < fuel)%nat →
  first_pass m cb fuel a d s = scan_recs cb rs d s.
Proof.
  induction rs as [|r rs IH]; intros fuel a d s Hok Hfit Hb Hlt;
    (destruct fuel as [|fuel]; [simpl in Hlt; lia|]); cbn [first_pass scan_recs].
  - by rewrite (end_at a Hb).
  - apply Forall_cons in Hok as [Hr Hrs]. apply encode_cons in Hb as [Hb1 Hb2].
    pose proof (encoded_rec m a r Hr Hb1) as Hat. destruct (fits_next a r rs Hr Hat Hfit) as [En Hfit2].
    rewrite (at_op m a r Hat), En. destruct (bi_op_of (r_op r)) as [o|] eqn:Ho; last first.
    { unfold scan_rec. by rewrite Ho. }
    pose proof (op_not_end r o Hr Ho) as Hne. pose proof (scan_agrees r a d o Hr Hat Ho Hne s) as E.
    assert (∀ x y, match o with BI_OP_END => x | _ => y end = y :> M S (option bi_user_data_t)) as ->
      by (by destruct o). unfold mbind, M_bind. rewrite E. destruct (scan_rec cb r d s) as [[d'|] s'|]; [|done..].
    apply IH; [done..|]. simpl in Hlt. lia.
Qed.
Lemma second_pass_agrees rs : ∀ fuel a d s,
  Forall rec_ok rs → fits a rs → bytes_at m a (encode rs) → (length rs < fuel)%nat →
  second_pass m cb fuel a d s = exec_recs cb rs a d s.
Proof.
  induction rs as [|r rs IH]; intros fuel a d s Hok Hfit Hb Hlt;
    (destruct fuel as [|fuel]; [simpl in Hlt; lia|]); cbn [second_pass exec_recs].
  - by rewrite (end_at a Hb).
  - apply Forall_cons in Hok as [Hr Hrs]. apply encode_cons in Hb as [Hb1 Hb2].
    pose proof (encoded_rec m a r Hr Hb1) as Hat. destruct (fits_next a r rs Hr Hat Hfit) as [En Hfit2].
    rewrite (at_op m a r Hat), En. destruct (bi_op_of (r_op r)) as [o|] eqn:Ho; last first.
    { unfold exec_rec. by rewrite Ho. }
    pose proof (op_not_end r o Hr Ho) as Hne. pose proof (exec_agrees r a d o Hr Hat Ho Hne) as E.
    assert (∀ x y, match o with BI_OP_END => x | _ => y end = y :> M S (Z * bi_user_data_t)) as ->
      by (by destruct o). unfold mbind, M_bind. rewrite E.
    destruct (exec_rec cb r a d s) as [[] s'|]; [|done..].
    apply IH; [done..|]. simpl in Hlt. lia.
Qed.
Lemma parse_agrees fuel a rs s :
  Forall rec_ok rs → fits a rs → bytes_at m a (encode rs) → (length rs < fuel)%nat →
  bootinfo_parse m cb fuel a s = run_image cb rs a s.
Proof.
  intros Hok Hfit Hb Hlt. unfold bootinfo_parse, run_image.
  assert (hdr_op m a = default (bi_op_num BI_OP_END) (r_op <$> head rs)) as Eop.
  { destruct rs as [|r rs]; cbn; [symmetry; apply (op_of_num _ BI_OP_END), end_at, Hb|].
    apply Forall_cons in Hok as [Hr _]. apply encode_cons in Hb as [Hb _].
    exact (at_op _ _ _ (encoded_rec m a r Hr Hb)). }
  rewrite Eop. destruct (r_op <$> head rs) as [n|] eqn:Eh; cbn [default]; last first.
  { by rewrite decide_True, decide_False. }
  destruct (decide (n = bi_op_num BI_OP_HEADER)) as [->|Hn]; last first.
  { rewrite decide_True by done. rewrite decide_False by congruence. done. }
  rewrite decide_False by (intros Hx; by apply Hx). rewrite decide_True by done.
  apply bind_cong; [by apply first_pass_agrees|]. intros [d|] s1; [|done].
  apply bind_cong; [done|]. intros _ s2. apply bind_cong; [by apply second_pass_agrees|done].
Qed.
End agree.
End BootImage.

Module BootinfoClaims.
Import Bootinfo BootImage.

(** C10: [bootinfo_parse] on the bytes of an image does what the image says:
    every record that was encoded is found at its place and decoded, its callback
    is called once, in order, with its arguments and its string; the first look
    counts the objects and announces the memory; bad headers, bad memory ranges
    and unknown operations are refused before any operation is executed; a
    callback that fails ends the execution, and the clean-up runs in either case.
    This holds for every table of callbacks, and the loops return. *)
Theorem bootinfo_parse_runs_image {S} (m : memory) (cb : bi_callbacks_t S) fuel a rs s :
  Forall rec_ok rs → fits a rs → bytes_at m a (encode rs) → (length rs < fuel)%nat →
  bootinfo_parse m cb fuel a s = run_image cb rs a s.
Proof. apply parse_agrees. Qed.

(** An image with one program, and callbacks that write down their calls. *)
Definition demo_recs : list bi_rec :=
  [mkRec 1 [BI_MAGIC; BI_VERSION; 0; 0; 0; 0; 0] [] 0;
   mkRec 17 [0; 8192; 4096; 65536] [] 0;
   mkRec 3 [0] [] 0;
   mkRec 4 [4; 32768; 8192; 0; 0; 2; 3; 0] [] 0;
   mkRec 10 [4; 5; 7] [] 0;
   mkRec 7 [4; 32768; 0; 100] [104; 105] 2;
   mkRec 8 [6] [] 0].
Definition demo_image : memory := write_bytes ∅ 256 (encode demo_recs).
Definition note {A} (v : A) : M (list A) Z := modify (λ l, l ++ [v]);; mret 0.
Definition demo_cb : bi_callbacks_t (list (list Z)) :=
  mkCallbacks None (Some (λ d, note [total_pds d; total_mss d; total_threads d; rec_num d]))
    (Some (λ a b c d _, note [a; b; c; d])) None (Some (λ o _, note [o]))
    (Some (λ o b sz _ _ _ v _ _, note [o; b; sz; v])) None None
    (Some (λ o ip _ _ s n _, note [o; ip; load8 demo_image s; n]))
    (Some (λ t _, note [t])) None (Some (λ pd ms r _, note [pd; ms; r])) None None
    None None None None None None None None None None None None None None.
Lemma bytes_at_all m a bs :
  forallb (λ p : nat * Z, load8 m (a + Z.of_nat (fst p)) =? snd p) (imap pair bs) = true → bytes_at m a bs.
Proof.
  intros H i b Hi. rewrite forallb_forall in H. apply Z.eqb_eq, (H (i, b)), list_elem_of_In.
  apply list_elem_of_lookup. exists i. by rewrite list_lookup_imap, Hi.
Qed.
Definition rec_okb (r : bi_rec) : bool :=
  bool_decide (0 ≤ r_op r < 2 ^ 16) && bool_decide (rec_size r < 2 ^ 16) &&
  bool_decide (Forall is_word (r_args r)) &&
  match bi_op_of (r_op r) with None => true | Some o => Nat.eqb (length (r_args r)) (arity o) end &&
  bool_decide (last (r_str r) ≠ Some 0) && bool_decide (r_op r ≠ bi_op_num BI_OP_END).
Lemma rec_okb_ok r : rec_okb r = true → rec_ok r.
Proof.
  unfold rec_okb. rewrite !andb_true_iff, !bool_decide_eq_true.
  intros [[[[[H1 H2] H3] H4] H5] H6]. split; try done. intros o Ho. rewrite Ho in H4. by apply Nat.eqb_eq.
Qed.
Lemma bootinfo_parse_runs_image_witness :
  bootinfo_parse demo_image demo_cb 8 256 [] = run_image demo_cb demo_recs 256 [] ∧
  run_image demo_cb demo_recs 256 [] =
    Ok 0 [[0; 8192; 4096; 65536]; [0]; [4; 32768; 8192; 3]; [4; 5; 7]; [4; 32768; 104; 2]; [6];
          [1; 1; 1; 7]].
Proof.
  split; [|vm_compute; reflexivity]. apply bootinfo_parse_runs_image.
  - repeat (constructor; [apply rec_okb_ok; vm_compute; reflexivity|]). constructor.
  - split; [done|]. vm_compute. discriminate.
  - apply bytes_at_all. vm_compute. reflexivity.
  - simpl. lia.
Defined.
End BootinfoClaims.
