(* ===== verification/ListC.v ===== *)
(** * The generic linked list, [sos/list.c]

    [Module ListImpl] models the C code on an explicit heap of nodes and list
    heads.  [Module ListSpec] is the abstract list the rest of SOS programs
    against: plain Rocq lists, with the effects of the callbacks threaded
    through in order.  The refinement theorems at the end of the file say that
    every operation of [list.c] implements its [ListSpec] counterpart, touches
    no node of another list, and terminates. *)
From S2P Require Import Prelude.

Local Abbreviation ptr := (option positive).
Local Abbreviation NULL := (@None positive).

(** ** What the clients of [list.c] rely on *)
Module ListSpec.
Section spec.
Context {A E : Type}.

Definition list_push (xs : list A) (x : A) : list A := xs ++ [x].
Definition list_shift (xs : list A) (x : A) : list A := x :: xs.
Definition list_unshift {S} (xs : list A) : M S (A * list A) :=
  match xs with x :: xs' => mret (x, xs') | [] => fail (AssertFail "list->head") end.
Definition list_pop {S} (xs : list A) : M S (A * list A) :=
  match last xs with
  | Some x => mret (x, take (pred (length xs)) xs)
  | None => fail (AssertFail "list->last")
  end.
Definition list_peek {S} (xs : list A) : M S A := of_opt NullDeref (head xs).
Definition list_null (xs : list A) : bool := bool_decide (xs = []).

(** Iteration stops at the first element the callback accepts. *)
Fixpoint list_find (f : A → M E bool) (xs : list A) : M E (option A) :=
  match xs with
  | [] => mret None
  | x :: xs' => b ← f x; if (b : bool) then mret (Some x) else list_find f xs'
  end.

(** The callback runs on every element in order until [n] have been
    deleted ([n] negative: no limit). *)
Fixpoint list_delete_n (f : A → M E bool) (n : Z) (xs : list A) : M E (list A) :=
  match xs with
  | [] => mret []
  | x :: xs' =>
      b ← (if n =? 0 then mret false else f x);
      if (b : bool) then list_delete_n f (n - 1) xs'
      else rest ← list_delete_n f n xs'; mret (x :: rest)
  end.
Definition list_delete (f : A → M E bool) (xs : list A) : M E (list A) :=
  list_delete_n f (-1) xs.
Definition list_delete_first (f : A → M E bool) (xs : list A) : M E (list A) :=
  list_delete_n f 1 xs.

Fixpoint list_reduce {D} (f : A → D → M E D) (xs : list A) (d : D) : M E D :=
  match xs with
  | [] => mret d
  | x :: xs' => d' ← f x d; list_reduce f xs' d'
  end.
Fixpoint list_iterate (f : A → M E unit) (xs : list A) : M E unit :=
  match xs with
  | [] => mret tt
  | x :: xs' => f x;; list_iterate f xs'
  end.
End spec.

(** For a callback without effects deletion is a filter. *)
Lemma list_delete_pure {A E} (p : A → bool) n (xs : list A) (e : E) :
  n < 0 →
  list_delete_n (λ x, mret (p x)) n xs e = Ok (filter (λ x, p x = false) xs) e.
Proof.
  revert n. induction xs as [|x xs IH]; intros n Hn; [done|].
  simpl. unfold mbind, M_bind. rewrite (proj2 (Z.eqb_neq n 0)) by lia. simpl.
  rewrite filter_cons. destruct (p x) eqn:Hp; simpl.
  - apply IH. lia.
  - by rewrite IH.
Qed.

(** A deletion only ever removes elements. *)
Lemma list_delete_sublist {A E} (f : A → M E bool) n xs xs' e e' :
  list_delete_n f n xs e = Ok xs' e' → sublist xs' xs.
Proof.
  revert n xs' e e'. induction xs as [|x xs IH]; intros n xs' e e' H; simpl in H.
  - run_steps. constructor.
  - apply bind_inv in H as (b & e1 & Hb & H). destruct b.
    + constructor. by eapply IH.
    + run_steps. constructor. by eapply IH.
Qed.
End ListSpec.

(** ** The C implementation *)

(** [malloc] as the list code uses it: NULL, or a block not in use. *)
Class Malloc := {
  lmalloc : gset positive → ptr;
  lmalloc_fresh X p : lmalloc X = Some p → p ∉ X
}.

Module ListImpl.
Record Node (A : Type) := mkNode { contents : A; next : ptr }.
Global Arguments mkNode {A}.
Global Arguments contents {A}.
Global Arguments next {A}.
Record List := mkList { head : ptr; last : ptr }.

Record store (A E : Type) := mkStore {
  nodes : gmap positive (Node A);
  lists : gmap positive List;
  env : E                       (* what the callbacks act on *)
}.
Global Arguments mkStore {A E}.
Global Arguments nodes {A E}.
Global Arguments lists {A E}.
Global Arguments env {A E}.

Section code.
Context `{Malloc} {A E : Type}.
Local Abbreviation ST := (store A E).

Definition node_get (p : ptr) : M ST (Node A) := λ st,
  match p with
  | None => Err NullDeref
  | Some l => match nodes st !! l with Some n => Ok n st | None => Err BadPtr end
  end.
Definition node_set_next (p : ptr) (q : ptr) : M ST unit := λ st,
  match p with
  | None => Err NullDeref
  | Some l => match nodes st !! l with
              | Some n => Ok tt (mkStore (<[l := mkNode (contents n) q]> (nodes st))
                                         (lists st) (env st))
              | None => Err BadPtr
              end
  end.
Definition node_free (p : ptr) : M ST unit := λ st,
  match p with
  | None => Ok tt st
  | Some l => match nodes st !! l with
              | Some _ => Ok tt (mkStore (delete l (nodes st)) (lists st) (env st))
              | None => Err BadPtr
              end
  end.
Definition list_get (p : ptr) : M ST List := λ st,
  match p with
  | None => Err NullDeref
  | Some l => match lists st !! l with Some n => Ok n st | None => Err BadPtr end
  end.
Definition list_set (p : ptr) (L : List) : M ST unit := λ st,
  match p with
  | None => Err NullDeref
  | Some l => match lists st !! l with
              | Some _ => Ok tt (mkStore (nodes st) (<[l := L]> (lists st)) (env st))
              | None => Err BadPtr
              end
  end.
Definition list_free (p : ptr) : M ST unit := λ st,
  match p with
  | None => Ok tt st
  | Some l => match lists st !! l with
              | Some _ => Ok tt (mkStore (nodes st) (delete l (lists st)) (env st))
              | None => Err BadPtr
              end
  end.
Definition call {B} (m : M E B) : M ST B :=
  zoom env (λ e st, mkStore (nodes st) (lists st) e) m.

Definition nodeAlloc (c : A) : M ST ptr := λ st,
  match lmalloc (dom (nodes st)) with
  | None => Err NullDeref
  | Some l => Ok (Some l) (mkStore (<[l := mkNode c NULL]> (nodes st)) (lists st) (env st))
  end.

Definition list_empty : M ST ptr := λ st,
  match lmalloc (dom (lists st)) with
  | None => Err NullDeref
  | Some l => Ok (Some l) (mkStore (nodes st) (<[l := mkList NULL NULL]> (lists st)) (env st))
  end.

Definition not_null (p : ptr) : bool := bool_decide (p ≠ NULL).

Definition list_null (list : ptr) : M ST bool :=
  cassert "list != NULL" (not_null list);;
  L ← list_get list;
  if decide (head L = NULL) then
    cassert "list->last == NULL" (bool_decide (last L = NULL));; mret true
  else mret false.

Definition list_peek (list : ptr) : M ST A :=
  cassert "list != NULL" (not_null list);;
  L ← list_get list;
  n ← node_get (head L);
  mret (contents n).

Definition list_shift (list : ptr) (c : A) : M ST unit :=
  cassert "list != NULL" (not_null list);;
  node ← nodeAlloc c;
  L ← list_get list;
  node_set_next node (head L);;
  list_set list (mkList node (last L));;
  if decide (last L = NULL) then list_set list (mkList node node) else mret tt.

Definition list_unshift (list : ptr) : M ST A :=
  cassert "list != NULL" (not_null list);;
  L ← list_get list;
  cassert "list->head != NULL" (not_null (head L));;
  n ← node_get (head L);
  list_set list (mkList (next n) (last L));;
  (if decide (next n = NULL) then list_set list (mkList (next n) NULL) else mret tt);;
  node_free (head L);;
  mret (contents n).

Definition list_push (list : ptr) (c : A) : M ST unit :=
  cassert "list != NULL" (not_null list);;
  node ← nodeAlloc c;
  L ← list_get list;
  if decide (head L = NULL) then
    cassert "list->last == NULL" (bool_decide (last L = NULL));;
    list_set list (mkList node node)
  else
    n ← node_get (last L);
    cassert "list->last->next == NULL" (bool_decide (next n = NULL));;
    node_set_next (last L) node;;
    list_set list (mkList (head L) node).

(** The loop of [list_pop]: the node before [stop]. *)
Fixpoint pop_loop (fuel : nat) (tmp stop prev : ptr) : M ST ptr :=
  match fuel with
  | O => fail OutOfFuel
  | S fuel' => if decide (tmp = stop) then mret prev
               else n ← node_get tmp; pop_loop fuel' (next n) stop tmp
  end.

(** Every loop visits each node at most once. *)
Definition loop_fuel (st : ST) : nat := S (size (nodes st)).

Definition list_pop (list : ptr) : M ST A :=
  cassert "list != NULL" (not_null list);;
  L ← list_get list;
  cassert "list->last != NULL" (not_null (last L));;
  n ← node_get (last L);
  fuel ← gets loop_fuel;
  prev ← pop_loop fuel (head L) (last L) NULL;
  (if decide (prev = NULL) then
     node_free (head L);;
     list_set list (mkList NULL NULL)
   else
     node_set_next prev NULL;;
     node_free (last L);;
     list_set list (mkList (head L) prev));;
  mret (contents n).

Fixpoint find_loop (fuel : nat) (f : A → M E bool) (curr : ptr) : M ST (option A) :=
  match fuel with
  | O => fail OutOfFuel
  | S fuel' =>
      if decide (curr = NULL) then mret None
      else
        n ← node_get curr;
        b ← call (f (contents n));
        if (b : bool) then mret (Some (contents n)) else find_loop fuel' f (next n)
  end.
Definition list_find (list : ptr) (f : A → M E bool) : M ST (option A) :=
  L ← list_get list;
  fuel ← gets loop_fuel;
  find_loop fuel f (head L).

(** The [while] of [list_delete_n]; the value is the final [prev]. *)
Fixpoint delete_loop (fuel : nat) (list : ptr) (f : A → M E bool) (n : Z)
    (curr prev : ptr) : M ST ptr :=
  match fuel with
  | O => fail OutOfFuel
  | S fuel' =>
      if decide (curr = NULL) then mret prev
      else
        c ← node_get curr;
        b ← (if n =? 0 then mret false else call (f (contents c)));
        if (b : bool) then
          (if decide (prev = NULL) then
             L ← list_get list; list_set list (mkList (next c) (last L))
           else node_set_next prev (next c));;
          node_free curr;;
          delete_loop fuel' list f (n - 1) (next c) prev
        else delete_loop fuel' list f n (next c) curr
  end.

Definition list_delete_n (list : ptr) (f : A → M E bool) (n : Z) : M ST unit :=
  cassert "list != NULL" (not_null list);;
  L ← list_get list;
  fuel ← gets loop_fuel;
  prev ← delete_loop fuel list f n (head L) NULL;
  L' ← list_get list;
  if decide (head L' = NULL) then list_set list (mkList NULL NULL)
  else
    pn ← node_get prev;
    if decide (next pn = NULL) then list_set list (mkList (head L') prev) else mret tt.

Definition list_delete (list : ptr) (f : A → M E bool) : M ST unit :=
  list_delete_n list f (-1).
Definition list_delete_first (list : ptr) (f : A → M E bool) : M ST unit :=
  list_delete_n list f 1.

Fixpoint reduce_loop {D} (fuel : nat) (f : A → D → M E D) (curr : ptr) (data : D) : M ST D :=
  match fuel with
  | O => fail OutOfFuel
  | S fuel' =>
      if decide (curr = NULL) then mret data
      else
        n ← node_get curr;
        data' ← call (f (contents n) data);
        reduce_loop fuel' f (next n) data'
  end.
Definition list_reduce {D} (list : ptr) (f : A → D → M E D) (data : D) : M ST D :=
  L ← list_get list;
  fuel ← gets loop_fuel;
  reduce_loop fuel f (head L) data.
Definition list_iterate (list : ptr) (f : A → M E unit) : M ST unit :=
  list_reduce list (λ x _, f x) tt.
End code.

(** [list_destroy] runs [list_delete] with its own counter as the data. *)
Definition deleteWithCount {A} (c : A) : M Z bool := λ count, Ok true (count + 1).
Definition list_destroy `{Malloc} {A E} (list : ptr) : M (store A E) Z := λ st,
  match list_delete list deleteWithCount (mkStore (nodes st) (lists st) 0) with
  | Err e => Err e
  | Ok _ st' =>
      match list_free list (mkStore (nodes st') (lists st') (env st)) with
      | Err e => Err e
      | Ok _ st'' => Ok (env st') st''
      end
  end.
End ListImpl.

(** ** Representation: the chain of nodes a list head owns *)
Module ListRepr.
Import ListImpl.
Section repr.
Context {A : Type}.
Implicit Types (h : gmap positive (Node A)) (ns : list (positive * A)) (p q : ptr).

Fixpoint lseg h p ns q : Prop :=
  match ns with
  | [] => p = q
  | (l, x) :: ns' => p = Some l ∧ ∃ r, h !! l = Some (mkNode x r) ∧ lseg h r ns' q
  end.

Lemma lseg_app h p ns1 ns2 q :
  lseg h p (ns1 ++ ns2) q ↔ ∃ r, lseg h p ns1 r ∧ lseg h r ns2 q.
Proof.
  revert p. induction ns1 as [|[l x] ns1 IH]; intros p; simpl; [naive_solver|].
  setoid_rewrite IH. naive_solver.
Qed.

Lemma lseg_ext h h' p ns q :
  (∀ l, l ∈ ns.*1 → h' !! l = h !! l) → lseg h p ns q → lseg h' p ns q.
Proof.
  revert p. induction ns as [|[l x] ns IH]; intros p Hh; simpl; [done|].
  intros (-> & r & Hl & Hs). split; [done|]. exists r. split.
  - rewrite Hh; [done|]. simpl. left.
  - apply IH; [|done]. intros. apply Hh. simpl. by right.
Qed.

Lemma lseg_insert_fresh h p ns q l v :
  l ∉ ns.*1 → lseg h p ns q → lseg (<[l := v]> h) p ns q.
Proof. intros Hl. apply lseg_ext. intros l' Hl'. apply lookup_insert_ne. by intros ->. Qed.

Lemma lseg_delete_fresh h p ns q l :
  l ∉ ns.*1 → lseg h p ns q → lseg (delete l h) p ns q.
Proof. intros Hl. apply lseg_ext. intros l' Hl'. apply lookup_delete_ne. by intros ->. Qed.

Lemma lseg_dom h p ns q l : lseg h p ns q → l ∈ ns.*1 → l ∈ dom h.
Proof.
  revert p. induction ns as [|[l' x] ns IH]; intros p; simpl; [by intros _ ?%elem_of_nil|].
  intros (-> & r & Hl & Hs) [->|Hin]%elem_of_cons; [by apply elem_of_dom_2 in Hl|by eapply IH].
Qed.

(** The address of the last node of a chain, NULL for the empty one. *)
Definition last_addr ns : ptr := fst <$> list.last ns.

Lemma last_addr_snoc ns l x : last_addr (ns ++ [(l, x)]) = Some l.
Proof. unfold last_addr. by rewrite last_snoc. Qed.
Lemma last_addr_None ns : last_addr ns = None ↔ ns = [].
Proof. unfold last_addr. rewrite fmap_None. apply last_None. Qed.

(** Redirecting the last node of a chain. *)
Lemma lseg_set_last h p ns l x q q' :
  l ∉ ns.*1 → lseg h p (ns ++ [(l, x)]) q →
  h !! l = Some (mkNode x q) ∧ lseg (<[l := mkNode x q']> h) p (ns ++ [(l, x)]) q'.
Proof.
  intros Hl (r & H1 & -> & r' & Hl' & H2)%lseg_app. simpl in H2. subst r'.
  split; [done|]. apply lseg_app. exists (Some l). split; [by apply lseg_insert_fresh|].
  split; [done|]. exists q'. by rewrite lookup_insert_eq.
Qed.

Lemma lseg_NoDup_size h p ns q :
  lseg h p ns q → NoDup ns.*1 → (length ns ≤ size h)%nat.
Proof.
  intros Hs Hnd. rewrite <- (length_fmap fst ns), <- size_dom.
  rewrite <- (size_list_to_set (C := gset positive)) by done.
  apply subseteq_size. intros l Hl%elem_of_list_to_set. by eapply lseg_dom.
Qed.

(** A list head at [lp] owns the chain [ns]. *)
Definition repr {E} (st : store A E) (lp : positive) ns : Prop :=
  ∃ L, lists st !! lp = Some L ∧ lseg (nodes st) (head L) ns NULL ∧
       NoDup ns.*1 ∧ last L = last_addr ns.

(** Nothing but the nodes of [ns] (and fresh ones) and the head [lp] moved. *)
Definition frame {E} (st st' : store A E) (lp : positive) ns : Prop :=
  (∀ l, l ∈ dom (nodes st) → l ∉ ns.*1 → nodes st' !! l = nodes st !! l) ∧
  (∀ l, l ≠ lp → lists st' !! l = lists st !! l).
End repr.
End ListRepr.

(** ** Refinement *)
Module ListRefine.
Import ListImpl ListRepr.
Section refine.
Context `{Malloc} {A E : Type}.
Implicit Types (st : store A E) (ns : list (positive * A)) (lp l : positive).

(** Proof rules of the heap primitives. *)
Lemma wp_node_get l n Q st :
  nodes st !! l = Some n → Q n st → wp (node_get (Some l)) Q st.
Proof. unfold wp. simpl. by intros ->. Qed.
Lemma wp_node_set_next l n q (Q : unit → store A E → Prop) st :
  nodes st !! l = Some n →
  Q tt (mkStore (<[l := mkNode (contents n) q]> (nodes st)) (lists st) (env st)) →
  wp (node_set_next (Some l) q) Q st.
Proof. unfold wp. simpl. by intros ->. Qed.
Lemma wp_node_free l n (Q : unit → store A E → Prop) st :
  nodes st !! l = Some n →
  Q tt (mkStore (delete l (nodes st)) (lists st) (env st)) →
  wp (node_free (Some l)) Q st.
Proof. unfold wp. simpl. by intros ->. Qed.
Lemma wp_list_get l L Q st :
  lists st !! l = Some L → Q L st → wp (list_get (Some l)) Q st.
Proof. unfold wp. simpl. by intros ->. Qed.
Lemma wp_list_set l L L' (Q : unit → store A E → Prop) st :
  lists st !! l = Some L →
  Q tt (mkStore (nodes st) (<[l := L']> (lists st)) (env st)) →
  wp (list_set (Some l) L') Q st.
Proof. unfold wp. simpl. by intros ->. Qed.
Lemma wp_list_free l L (Q : unit → store A E → Prop) st :
  lists st !! l = Some L →
  Q tt (mkStore (nodes st) (delete l (lists st)) (env st)) →
  wp (list_free (Some l)) Q st.
Proof. unfold wp. simpl. by intros ->. Qed.
Lemma wp_nodeAlloc c l (Q : ptr → store A E → Prop) st :
  lmalloc (dom (nodes st)) = Some l →
  Q (Some l) (mkStore (<[l := mkNode c NULL]> (nodes st)) (lists st) (env st)) →
  wp (nodeAlloc c) Q st.
Proof. unfold wp, nodeAlloc. by intros ->. Qed.
Lemma wp_guard w l (Q : unit → store A E → Prop) st :
  Q tt st → wp (cassert w (not_null (Some l))) Q st.
Proof. done. Qed.

Ltac lwp1 :=
  lazymatch goal with
  | |- wp (_ ≫= _) _ _ => apply wp_bind
  | |- wp (mret _) _ _ => apply wp_ret
  | |- wp (gets _) _ _ => apply wp_gets
  | |- wp (cassert _ (not_null (Some _))) _ _ => apply wp_guard
  | |- wp (cassert _ true) _ _ => apply wp_cassert; [done|]
  | |- wp (cassert _ (bool_decide _)) _ _ =>
      apply wp_cassert; [by apply bool_decide_eq_true_2|]
  | |- wp (node_get (Some _)) _ _ => eapply wp_node_get; [by simplify_map_eq|simpl]
  | |- wp (node_set_next (Some _) _) _ _ =>
      eapply wp_node_set_next; [by simplify_map_eq|simpl]
  | |- wp (node_free (Some _)) _ _ => eapply wp_node_free; [by simplify_map_eq|simpl]
  | |- wp (list_get (Some _)) _ _ => eapply wp_list_get; [by simplify_map_eq|simpl]
  | |- wp (list_set (Some _) _) _ _ => eapply wp_list_set; [by simplify_map_eq|simpl]
  | |- wp (list_free (Some _)) _ _ => eapply wp_list_free; [by simplify_map_eq|simpl]
  | |- wp (nodeAlloc _) _ _ => eapply wp_nodeAlloc; [eassumption|simpl]
  | |- wp (if decide (Some _ = None) then _ else _) _ _ => rewrite decide_False by done
  | |- wp (if decide (None = None) then _ else _) _ _ => rewrite decide_True by done
  end.
Ltac lwp := repeat lwp1.

(** A chain and what a fresh or an extremal address does to it. *)
Lemma repr_fresh st lp ns p :
  repr st lp ns → lmalloc (dom (nodes st)) = Some p → p ∉ ns.*1 ∧ p ∉ dom (nodes st).
Proof.
  intros (L & _ & Hs & _) Hp%lmalloc_fresh. split; [|done].
  intros Hin. by eapply Hp, lseg_dom.
Qed.
Lemma NoDup_snoc ns p x : p ∉ ns.*1 → NoDup ns.*1 → NoDup (ns ++ [(p, x)]).*1.
Proof.
  intros Hp Hnd. rewrite fmap_app. apply NoDup_app. repeat split; [done| |apply NoDup_singleton].
  by intros l Hl ->%list_elem_of_singleton.
Qed.
Lemma NoDup_snoc_inv ns l x : NoDup (ns ++ [(l, x)]).*1 → l ∉ ns.*1 ∧ NoDup ns.*1.
Proof.
  rewrite fmap_app. intros (Hnd & Hd & _)%NoDup_app. split; [|done].
  intros Hi. apply (Hd _ Hi). by left.
Qed.
Lemma lseg_nonempty h p l0 (x0 : A) ns q :
  lseg h p (ns ++ [(l0, x0)]) q → ∃ l, p = Some l.
Proof. destruct ns as [|[]]; simpl; naive_solver. Qed.
Lemma fst_snoc ns l x : (ns ++ [(l, x)]).*1 = ns.*1 ++ [l].
Proof. by rewrite fmap_app. Qed.

Lemma repr_intro st lp ns L :
  lists st !! lp = Some L → lseg (nodes st) (head L) ns NULL → NoDup ns.*1 →
  last L = last_addr ns → repr st lp ns.
Proof. intros. by exists L. Qed.

Lemma push_empty st lp x p :
  repr st lp [] → lmalloc (dom (nodes st)) = Some p →
  wp (list_push (Some lp) x)
     (λ _ st', repr st' lp [(p, x)] ∧ env st' = env st ∧ frame st st' lp []) st.
Proof.
  intros Hr Hp. destruct (repr_fresh _ _ _ _ Hr Hp) as [_ Hfr].
  destruct Hr as ([hd lst] & HL & Hseg & _ & Hlast). simpl in *. subst.
  unfold list_push. lwp. split_and!; [|done|].
  - eapply repr_intro; simpl; [by rewrite lookup_insert_eq| |apply NoDup_singleton|done].
    split; [done|]. exists NULL. by rewrite lookup_insert_eq.
  - split; simpl; intros l Hl; [|by apply lookup_insert_ne].
    intros _. apply lookup_insert_ne. by intros ->.
Qed.

Lemma push_snoc st lp ns l0 x0 x p :
  repr st lp (ns ++ [(l0, x0)]) → lmalloc (dom (nodes st)) = Some p →
  wp (list_push (Some lp) x)
     (λ _ st', repr st' lp ((ns ++ [(l0, x0)]) ++ [(p, x)]) ∧ env st' = env st ∧
               frame st st' lp (ns ++ [(l0, x0)])) st.
Proof.
  intros Hr Hp. destruct (repr_fresh _ _ _ _ Hr Hp) as [Hpn Hfr].
  destruct Hr as ([hd lst] & HL & Hseg & Hnd & Hlast). simpl in *. subst lst.
  destruct (lseg_nonempty _ _ _ _ _ _ Hseg) as [l1 ->].
  destruct (NoDup_snoc_inv _ _ _ Hnd) as [Hl0 _].
  rewrite last_addr_snoc in *. pose proof Hpn as Hpl.
  rewrite fst_snoc, not_elem_of_app, not_elem_of_cons in Hpl. destruct Hpl as (_ & Hpl & _).
  destruct (lseg_set_last _ _ _ _ _ _ (Some p) Hl0 Hseg) as [Hn Hseg'].
  unfold list_push. lwp. split_and!; [|done|].
  - eapply repr_intro; simpl; [by rewrite lookup_insert_eq| |by apply NoDup_snoc|].
    + apply lseg_app. exists (Some p). split.
      * rewrite insert_insert_ne by done. by apply lseg_insert_fresh.
      * simpl. split; [done|]. exists NULL. by simplify_map_eq.
    + by rewrite last_addr_snoc.
  - split; simpl; intros l Hl; [|by apply lookup_insert_ne].
    rewrite fst_snoc, not_elem_of_app, not_elem_of_cons. intros (_ & Hll & _).
    rewrite !lookup_insert_ne; [done|by intros ->|done].
Qed.

(** [list_push] adds a fresh node at the end. *)
Lemma push_refines st lp ns x p :
  repr st lp ns → lmalloc (dom (nodes st)) = Some p →
  wp (list_push (Some lp) x)
     (λ _ st', repr st' lp (ns ++ [(p, x)]) ∧ env st' = env st ∧ frame st st' lp ns) st.
Proof.
  destruct ns as [|[l0 x0] ns0 _] using rev_ind; [apply push_empty|apply push_snoc].
Qed.

(** [list_shift] adds a fresh node at the start. *)
Lemma shift_refines st lp ns x p :
  repr st lp ns → lmalloc (dom (nodes st)) = Some p →
  wp (list_shift (Some lp) x)
     (λ _ st', repr st' lp ((p, x) :: ns) ∧ env st' = env st ∧ frame st st' lp ns) st.
Proof.
  intros Hr Hp. destruct (repr_fresh _ _ _ _ Hr Hp) as [Hpn Hfr].
  destruct Hr as ([hd lst] & HL & Hseg & Hnd & Hlast). simpl in *. subst lst.
  assert (∀ v w, lseg (<[p:=w]> (<[p:=v]> (nodes st))) hd ns NULL) as Hseg'.
  { intros. by apply lseg_insert_fresh, lseg_insert_fresh. }
  assert (NoDup ((p, x) :: ns).*1) as Hnd' by (by apply NoDup_cons).
  assert (∀ v w L, frame st (mkStore (<[p:=w]> (<[p:=v]> (nodes st)))
            (<[lp :=L]> (<[lp :=mkList (Some p) (last_addr ns)]> (lists st))) (env st)) lp ns) as Hfrm.
  { split; simpl; intros l Hl; [intros _; rewrite !lookup_insert_ne; [done|by intros ->..]|].
    by rewrite !lookup_insert_ne. }
  unfold list_shift. lwp. destruct (decide (last_addr ns = NULL)) as [Hnil|Hcons]; lwp.
  - apply last_addr_None in Hnil as ->. simpl in *. split_and!; [|done|apply Hfrm].
    eapply repr_intro; simpl; [by rewrite lookup_insert_eq| |done|done].
    split; [done|]. exists hd. by simplify_map_eq.
  - split_and!; [|done|].
    + eapply repr_intro; simpl; [by rewrite lookup_insert_eq| |done|].
      * split; [done|]. exists hd. by simplify_map_eq.
      * destruct ns; done.
    + split; simpl; intros l Hl; [intros _; rewrite !lookup_insert_ne; [done|by intros ->..]|].
      by rewrite !lookup_insert_ne.
Qed.

(** [list_unshift] removes and frees the first node. *)
Lemma unshift_refines st lp l x ns :
  repr st lp ((l, x) :: ns) →
  wp (list_unshift (Some lp))
     (λ y st', y = x ∧ repr st' lp ns ∧ nodes st' = delete l (nodes st) ∧
               env st' = env st ∧ frame st st' lp ((l, x) :: ns)) st.
Proof.
  intros ([hd lst] & HL & (Hhd & r & Hl & Hseg) & [Hnl Hnd]%NoDup_cons & Hlast).
  simpl in *. subst hd lst.
  pose proof (lseg_delete_fresh _ _ _ _ _ Hnl Hseg) as Hseg'.
  unfold list_unshift. lwp. destruct ns as [|[l2 x2] ns]; simpl in *.
  - subst r. lwp. split_and!; [done| |done|done|].
    + eapply repr_intro; simpl; [by rewrite lookup_insert_eq|done|apply NoDup_nil_2|done].
    + split; simpl; intros l' Hl'; [|by rewrite !lookup_insert_ne].
      intros Hn%not_elem_of_cons. rewrite lookup_delete_ne; naive_solver.
  - destruct Hseg as (-> & Hseg). lwp. split_and!; [done| |done|done|].
    + eapply repr_intro; simpl; [by rewrite lookup_insert_eq|done|done|done].
    + split; simpl; intros l' Hl'; [|by rewrite !lookup_insert_ne].
      intros Hn%not_elem_of_cons. rewrite lookup_delete_ne; naive_solver.
Qed.

Lemma pop_loop_spec st ns l x q : ∀ fuel p prev,
  lseg (nodes st) p (ns ++ [(l, x)]) q → l ∉ ns.*1 → (length ns < fuel)%nat →
  pop_loop fuel p (Some l) prev st =
  Ok (match last_addr ns with Some a => Some a | None => prev end) st.
Proof.
  induction ns as [|[l1 x1] ns IH]; intros fuel p prev Hs Hl Hf.
  - destruct fuel; [simpl in Hf; lia|]. simpl in *. destruct Hs as [-> _].
    by rewrite decide_True.
  - destruct fuel as [|fuel]; [simpl in Hf; lia|]. simpl in Hs, Hl, Hf.
    destruct Hs as (-> & r & Hl1 & Hs). apply not_elem_of_cons in Hl as [Hne Hl].
    simpl. rewrite decide_False by congruence.
    erewrite bind_ok by (simpl; by rewrite Hl1). simpl.
    rewrite IH by (done || lia). f_equal. unfold last_addr. rewrite last_cons.
    by destruct (list.last ns).
Qed.

(** [list_pop] walks to the node before the last, which it frees. *)
Lemma pop_refines st lp ns l x :
  repr st lp (ns ++ [(l, x)]) →
  wp (list_pop (Some lp))
     (λ y st', y = x ∧ repr st' lp ns ∧ l ∉ dom (nodes st') ∧
               env st' = env st ∧ frame st st' lp (ns ++ [(l, x)])) st.
Proof.
  intros ([hd lst] & HL & Hseg & Hnd & Hlast). simpl in *. subst lst.
  rewrite last_addr_snoc in HL.
  destruct (NoDup_snoc_inv _ _ _ Hnd) as [Hln Hnd0].
  pose proof (lseg_NoDup_size _ _ _ _ Hseg Hnd) as Hsz. rewrite length_app in Hsz. simpl in Hsz.
  pose proof Hseg as (r & Hs1 & -> & r' & Hl & Hr')%lseg_app. simpl in Hr'. subst r'.
  unfold list_pop. lwp. apply wp_ok. eexists _, _. split.
  { eapply pop_loop_spec; [exact Hseg|done|unfold loop_fuel; lia]. }
  destruct ns as [|[l0 x0] ns0 _] using rev_ind; simpl in *.
  - subst hd. lwp. split_and!; [done| |simpl; rewrite dom_delete_L; set_solver|done|].
    + eapply repr_intro; simpl; [by rewrite lookup_insert_eq|done|done|done].
    + split; simpl; intros l' Hl'; [|by rewrite !lookup_insert_ne].
      intros Hn%not_elem_of_cons. rewrite lookup_delete_ne; naive_solver.
  - rewrite last_addr_snoc. rewrite fst_snoc, not_elem_of_app, not_elem_of_cons in Hln.
    destruct Hln as (Hln & Hne & _). destruct (NoDup_snoc_inv _ _ _ Hnd0) as [Hl0 _].
    destruct (lseg_set_last _ _ _ _ _ _ NULL Hl0 Hs1) as [Hn0 Hs1'].
    lwp. split_and!; [done| |simpl; rewrite dom_delete_L; set_solver|done|].
    + eapply repr_intro; simpl; [by rewrite lookup_insert_eq| |done|by rewrite last_addr_snoc].
      apply lseg_delete_fresh; [|done].
      rewrite fst_snoc, not_elem_of_app, not_elem_of_cons. split_and!; [done|done|apply not_elem_of_nil].
    + split; simpl; intros l' Hl'; [|by rewrite !lookup_insert_ne].
      rewrite !fst_snoc, !not_elem_of_app, !not_elem_of_cons. intros ((_ & ? & _) & ? & _).
      by rewrite lookup_delete_ne, lookup_insert_ne.
Qed.

(** The callbacks of [list_find] and [list_reduce] run in list order. *)
Lemma find_loop_spec st0 (f : A → M E bool) ns q : ∀ fuel p e,
  q = NULL → lseg (nodes st0) p ns q → (length ns < fuel)%nat →
  find_loop fuel f p (mkStore (nodes st0) (lists st0) e) =
  match ListSpec.list_find f ns.*2 e with
  | Ok r e' => Ok r (mkStore (nodes st0) (lists st0) e')
  | Err x => Err x
  end.
Proof.
  intros fuel p e ->. revert fuel p e.
  induction ns as [|[l x] ns IH]; intros fuel p e Hs Hf; (destruct fuel; [simpl in Hf; lia|]).
  - simpl in *. subst. by rewrite decide_True.
  - destruct Hs as (-> & r & Hl & Hs). simpl in *.
    erewrite bind_ok by (simpl; by rewrite Hl).
    unfold mbind, M_bind, call, zoom. simpl. destruct (f x e) as [[] e'|]; simpl; [done| |done].
    apply IH; [done|lia].
Qed.

Lemma find_refines st lp ns (f : A → M E bool) :
  repr st lp ns →
  list_find (Some lp) f st =
  match ListSpec.list_find f ns.*2 (env st) with
  | Ok r e' => Ok r (mkStore (nodes st) (lists st) e')
  | Err x => Err x
  end.
Proof.
  intros (L & HL & Hs & Hnd & _). unfold list_find.
  erewrite bind_ok by (simpl; by rewrite HL). erewrite bind_ok by done.
  destruct st as [nd li e]. apply (find_loop_spec (mkStore nd li e) f ns NULL); [done..|].
  unfold loop_fuel. simpl. pose proof (lseg_NoDup_size _ _ _ _ Hs Hnd). simpl in *. lia.
Qed.

Lemma reduce_loop_spec {D} st0 (f : A → D → M E D) ns : ∀ fuel p d e,
  lseg (nodes st0) p ns NULL → (length ns < fuel)%nat →
  reduce_loop fuel f p d (mkStore (nodes st0) (lists st0) e) =
  match ListSpec.list_reduce f ns.*2 d e with
  | Ok r e' => Ok r (mkStore (nodes st0) (lists st0) e')
  | Err x => Err x
  end.
Proof.
  induction ns as [|[l x] ns IH]; intros fuel p d e Hs Hf; (destruct fuel; [simpl in Hf; lia|]).
  - simpl in *. subst. by rewrite decide_True.
  - destruct Hs as (-> & r & Hl & Hs). simpl in *.
    erewrite bind_ok by (simpl; by rewrite Hl).
    unfold mbind, M_bind, call, zoom. simpl. destruct (f x d e) as [d' e'|]; simpl; [|done].
    apply IH; [done|lia].
Qed.

Lemma reduce_refines {D} st lp ns (f : A → D → M E D) d :
  repr st lp ns →
  list_reduce (Some lp) f d st =
  match ListSpec.list_reduce f ns.*2 d (env st) with
  | Ok r e' => Ok r (mkStore (nodes st) (lists st) e')
  | Err x => Err x
  end.
Proof.
  intros (L & HL & Hs & Hnd & _). unfold list_reduce.
  erewrite bind_ok by (simpl; by rewrite HL). erewrite bind_ok by done.
  destruct st as [nd li e]. apply (reduce_loop_spec (mkStore nd li e) f ns); [done|].
  unfold loop_fuel. simpl. pose proof (lseg_NoDup_size _ _ _ _ Hs Hnd). simpl in *. lia.
Qed.

Lemma NoDup_drop_mid (kept rest : list (positive * A)) l x :
  NoDup (kept ++ (l, x) :: rest).*1 → NoDup (kept ++ rest).*1.
Proof.
  rewrite !fmap_app. simpl. intros Hnd. eapply sublist_NoDup; [exact Hnd|].
  apply sublist_app; [done|by constructor].
Qed.

(** Unlinking and freeing the node [l] that follows the chain [kept]. *)
Lemma unlink_spec st lp L kept l x r rest :
  lists st !! lp = Some L →
  lseg (nodes st) (head L) kept (Some l) → nodes st !! l = Some (mkNode x r) →
  lseg (nodes st) r rest NULL → NoDup (kept ++ (l, x) :: rest).*1 →
  wp ((if decide (last_addr kept = NULL) then
         L ← list_get (Some lp); list_set (Some lp) (mkList r (last L))
       else node_set_next (last_addr kept) r);;
      node_free (Some l))
     (λ _ st', ∃ L', lists st' = <[lp := L']> (lists st) ∧ env st' = env st ∧
        lseg (nodes st') (head L') kept r ∧ lseg (nodes st') r rest NULL ∧
        nodes st' !! l = None ∧
        (∀ l', l' ∉ kept.*1 → l' ≠ l → nodes st' !! l' = nodes st !! l')) st.
Proof.
  intros HL Hk Hl Hr Hnd. rewrite fmap_app in Hnd. simpl in Hnd.
  apply NoDup_app in Hnd as (Hndk & Hdis & [Hlr _]%NoDup_cons).
  assert (l ∉ kept.*1) as Hlk by (intros Hi; apply (Hdis _ Hi); by left).
  destruct kept as [|[lk xk] kept _] using rev_ind.
  - simpl in *. lwp. exists (mkList r (last L)). split_and!; try done.
    + by apply lseg_delete_fresh.
    + apply lookup_delete_eq.
    + intros. by rewrite lookup_delete_ne.
  - rewrite last_addr_snoc. destruct (NoDup_snoc_inv _ _ _ Hndk) as [Hlk0 _].
    destruct (lseg_set_last _ _ _ _ _ _ r Hlk0 Hk) as [Hn Hk'].
    rewrite fst_snoc in Hlk, Hdis. assert (lk ≠ l) as Hne.
    { intros ->. apply Hlk, elem_of_app. right. by left. }
    lwp. exists L. rewrite insert_id by done. split_and!; try done.
    + apply lseg_delete_fresh; [by rewrite fst_snoc|done].
    + apply lseg_delete_fresh, lseg_insert_fresh; [done| |done].
      intros Hi. apply (Hdis lk); [apply elem_of_app; right; by left|by right].
    + apply lookup_delete_eq.
    + rewrite fst_snoc. intros l' Hl' ?. rewrite lookup_delete_ne by done.
      apply lookup_insert_ne. intros ->. apply Hl', elem_of_app. right. by left.
Qed.

(** What the deletion loop establishes from the chain [kept ++ rest] on. *)
Definition deleted_to lp kept rest st (rest' : list (positive * A)) (st' : store A E) : Prop :=
  ∃ L', lists st' = <[lp := L']> (lists st) ∧
    lseg (nodes st') (head L') (kept ++ rest') NULL ∧
    sublist rest' rest ∧
    (∀ l, l ∉ (kept ++ rest).*1 → nodes st' !! l = nodes st !! l) ∧
    (∀ l, l ∈ rest.*1 → l ∉ rest'.*1 → nodes st' !! l = None).

Lemma deleted_step lp kept l x rest st st1 rest' st' L1 :
  lists st1 = <[lp := L1]> (lists st) → nodes st1 !! l = None →
  (∀ l', l' ∉ kept.*1 → l' ≠ l → nodes st1 !! l' = nodes st !! l') →
  NoDup (kept ++ (l, x) :: rest).*1 →
  deleted_to lp kept rest st1 rest' st' → deleted_to lp kept ((l, x) :: rest) st rest' st'.
Proof.
  intros HL1 Hl1 Hn1 Hnd (L' & HL' & Hs & Hsub & Hout & Hgone).
  rewrite fmap_app in Hnd. simpl in Hnd.
  apply NoDup_app in Hnd as (_ & Hdis & [Hlr _]%NoDup_cons).
  exists L'. split_and!; [|done|by constructor| |].
  - rewrite HL', HL1. apply insert_insert_eq.
  - intros l' Hl'. rewrite fmap_app, not_elem_of_app in Hl'. simpl in Hl'.
    rewrite not_elem_of_cons in Hl'. destruct Hl' as (? & ? & ?).
    rewrite Hout, Hn1; [done..|]. rewrite fmap_app. by apply not_elem_of_app.
  - simpl. intros l' [->|Hi]%elem_of_cons Hni; [|by apply Hgone].
    rewrite Hout; [done|]. rewrite fmap_app, not_elem_of_app.
    split; [|done]. intros Hi. apply (Hdis _ Hi). by left.
Qed.

Lemma deleted_keep lp kept l x rest st rest' st' :
  NoDup (kept ++ (l, x) :: rest).*1 →
  deleted_to lp (kept ++ [(l, x)]) rest st rest' st' →
  deleted_to lp kept ((l, x) :: rest) st ((l, x) :: rest') st'.
Proof.
  intros Hnd (L' & HL' & Hs & Hsub & Hout & Hgone). rewrite <- app_assoc in *. simpl in *.
  exists L'. split_and!; [done|done|by constructor|done|].
  intros l' [->|Hi]%elem_of_cons Hni%not_elem_of_cons; [naive_solver|].
  apply Hgone; [done|]. naive_solver.
Qed.

Lemma delete_loop_spec (f : A → M E bool) lp rest : ∀ fuel kept st L n curr,
  lists st !! lp = Some L →
  lseg (nodes st) (head L) kept curr → lseg (nodes st) curr rest NULL →
  NoDup (kept ++ rest).*1 → (length rest < fuel)%nat →
  match ListSpec.list_delete_n f n rest.*2 (env st) with
  | Err e => delete_loop fuel (Some lp) f n curr (last_addr kept) st = Err e
  | Ok xs e' => ∃ rest' st',
      delete_loop fuel (Some lp) f n curr (last_addr kept) st =
        Ok (last_addr (kept ++ rest')) st' ∧
      rest'.*2 = xs ∧ env st' = e' ∧ deleted_to lp kept rest st rest' st'
  end.
Proof.
  induction rest as [|[l x] rest IH]; intros fuel kept st L n curr HL Hk Hr Hnd Hf;
    (destruct fuel as [|fuel]; [simpl in Hf; lia|]).
  - simpl in *. subst curr. exists [], st. rewrite app_nil_r. rewrite decide_True by done.
    split_and!; [done..|]. exists L. rewrite insert_id, app_nil_r by done.
    split_and!; [done..| |]; [done|]. intros l Hl. by apply elem_of_nil in Hl.
  - destruct Hr as (-> & r & Hl & Hr). cbn [fmap list_fmap snd ListSpec.list_delete_n delete_loop].
    rewrite decide_False by done.
    rewrite (bind_ok (node_get _) _ st (mkNode x r) st) by (simpl; by rewrite Hl).
    cbn [contents next].
    destruct ((if n =? 0 then mret false else f x) (env st)) as [b e1|e1] eqn:Hb; last first.
    { rewrite (bind_err _ _ _ e1) by done. destruct (n =? 0); [done|].
      apply bind_err. unfold call, zoom. by rewrite Hb. }
    rewrite (bind_ok _ _ _ b e1) by done.
    rewrite (bind_ok _ _ _ b (mkStore (nodes st) (lists st) e1)); last first.
    { destruct (n =? 0); [destruct st; simpl in *; by run_steps|].
      unfold call, zoom. by rewrite Hb. }
    destruct b.
    + pose proof (unlink_spec (mkStore (nodes st) (lists st) e1) lp L kept l x r rest
                    HL Hk Hl Hr Hnd) as H1.
      apply wp_ok in H1 as ([] & st1 & Hrun & L1 & HL1 & He1 & Hk1 & Hr1 & Hl1 & Hn1).
      apply bind_inv in Hrun as ([] & st2 & Hrun1 & Hrun2).
      rewrite (bind_ok _ _ _ tt st2) by done. rewrite (bind_ok _ _ _ tt st1) by done.
      pose proof (NoDup_drop_mid _ _ _ _ Hnd) as Hnd1.
      specialize (IH fuel kept st1 L1 (n - 1) r).
      rewrite He1 in IH. simpl in *. rewrite HL1, lookup_insert_eq in IH.
      specialize (IH eq_refl Hk1 Hr1 Hnd1 ltac:(lia)).
      destruct (ListSpec.list_delete_n f (n - 1) rest.*2 e1); [|done].
      destruct IH as (rest' & st' & ? & ? & ? & Hd). exists rest', st'.
      split_and!; [done..|]. by eapply deleted_step.
    + specialize (IH fuel (kept ++ [(l, x)]) (mkStore (nodes st) (lists st) e1) L n r).
      rewrite last_addr_snoc in IH. simpl in IH. rewrite <- !app_assoc in IH. simpl in *.
      assert (lseg (nodes st) (head L) (kept ++ [(l, x)]) r) as Hk1.
      { apply lseg_app. exists (Some l). simpl. naive_solver. }
      specialize (IH HL Hk1 Hr Hnd ltac:(lia)). unfold mbind, M_bind in *.
      destruct (ListSpec.list_delete_n f n rest.*2 e1); [|done].
      destruct IH as (rest' & st' & Hrun & <- & ? & Hd). exists ((l, x) :: rest'), st'.
      rewrite <- app_assoc in Hrun. simpl in *. split_and!; [done..|]. by eapply deleted_keep.
Qed.

(** A run of [list_delete_n] from a represented list: it either stops with
    the fault of a callback, or leaves the list the specification leaves. *)
Lemma delete_refines (f : A → M E bool) n st lp ns :
  repr st lp ns →
  match ListSpec.list_delete_n f n ns.*2 (env st) with
  | Err e => list_delete_n (Some lp) f n st = Err e
  | Ok xs e' => ∃ ns' st',
      list_delete_n (Some lp) f n st = Ok tt st' ∧ ns'.*2 = xs ∧ env st' = e' ∧
      sublist ns' ns ∧ repr st' lp ns' ∧ frame st st' lp ns ∧
      (∀ l, l ∈ ns.*1 → l ∉ ns'.*1 → l ∉ dom (nodes st'))
  end.
Proof.
  intros (L & HL & Hs & Hnd & _). unfold list_delete_n.
  rewrite (bind_ok _ _ _ tt st) by done.
  rewrite (bind_ok _ _ _ L st) by (simpl; by rewrite HL). rewrite (bind_ok _ _ _ (loop_fuel st) st) by done.
  pose proof (lseg_NoDup_size _ _ _ _ Hs Hnd) as Hsz.
  pose proof (delete_loop_spec f lp ns (loop_fuel st) [] st L n (head L) HL eq_refl Hs Hnd
                ltac:(unfold loop_fuel; lia)) as Hloop.
  destruct (ListSpec.list_delete_n f n ns.*2 (env st)) as [xs e'|e]; [|by apply bind_err].
  destruct Hloop as (ns' & st' & Hrun & Hxs & He & L' & HL' & Hs' & Hsub & Hout & Hgone).
  simpl in *. rewrite (bind_ok _ _ _ _ _ Hrun).
  rewrite (bind_ok _ _ _ L' st') by (simpl; by rewrite HL', lookup_insert_eq).
  assert (NoDup ns'.*1) as Hnd'. { eapply sublist_NoDup; [exact Hnd|]. by apply fmap_sublist. }
  assert (∀ l, l ∈ ns.*1 → l ∉ ns'.*1 → l ∉ dom (nodes st')) as Hgone'.
  { intros l ??. apply not_elem_of_dom. by apply Hgone. }
  destruct ns' as [|[l x] ns0 _] using rev_ind.
  - simpl in Hs'. rewrite Hs', decide_True by done.
    exists []. eexists. split; [simpl; by rewrite HL', lookup_insert_eq|].
    split_and!; [done..| | |done].
    + eapply repr_intro; simpl; [by rewrite lookup_insert_eq|done..].
    + split; simpl; [intros; by apply Hout|]. intros. by rewrite !lookup_insert_ne.
  - destruct (lseg_nonempty _ _ _ _ _ _ Hs') as [l1 Hl1]. rewrite decide_False by (by rewrite Hl1).
    destruct (NoDup_snoc_inv _ _ _ Hnd') as [Hl0 _].
    destruct (lseg_set_last _ _ _ _ _ _ NULL Hl0 Hs') as [Hn _].
    rewrite last_addr_snoc. rewrite (bind_ok _ _ _ (mkNode x NULL) st') by (simpl; by rewrite Hn).
    simpl. exists (ns0 ++ [(l, x)]). eexists. split; [simpl; by rewrite HL', lookup_insert_eq|].
    split_and!; [done..| | |done].
    + eapply repr_intro; simpl; [by rewrite lookup_insert_eq|done|done|by rewrite last_addr_snoc].
    + split; simpl; [intros; by apply Hout|]. intros. by rewrite !lookup_insert_ne.
Qed.
End refine.

(** Counting deletion removes everything and counts it. *)
Lemma spec_delete_count {A} (xs : list A) n k :
  n < 0 → ListSpec.list_delete_n deleteWithCount n xs k = Ok [] (k + length xs).
Proof.
  revert n k. induction xs as [|x xs IH]; intros n k Hn; simpl; [by rewrite Z.add_0_r|].
  rewrite (proj2 (Z.eqb_neq n 0)) by lia. unfold mbind, M_bind. simpl.
  rewrite IH by lia. f_equal. lia.
Qed.

Lemma destroy_refines `{Malloc} {A E} (st : store A E) lp ns :
  repr st lp ns →
  ∃ st', list_destroy (Some lp) st = Ok (Z.of_nat (length ns)) st' ∧
    env st' = env st ∧ lists st' !! lp = None ∧
    (∀ l, l ∈ ns.*1 → l ∉ dom (nodes st')) ∧
    (∀ l, l ∈ dom (nodes st) → l ∉ ns.*1 → nodes st' !! l = nodes st !! l) ∧
    (∀ l, l ≠ lp → lists st' !! l = lists st !! l).
Proof.
  intros Hr. pose proof (delete_refines (E := Z) deleteWithCount (-1)
    (mkStore (nodes st) (lists st) 0) lp ns) as Hd. simpl in Hd.
  rewrite spec_delete_count in Hd by lia. simpl in Hd.
  destruct Hd as (ns' & st1 & Hrun & Hnil & He & _ & (L & HL & _) & [Hf1 Hf2] & Hgone).
  { destruct Hr as (L & ? & ? & ? & ?). exists L. done. }
  apply fmap_nil_inv in Hnil as ->. unfold list_destroy, list_delete. rewrite Hrun. simpl.
  rewrite HL. eexists. split; [by rewrite He, length_fmap|]. simpl in *. split_and!; try done.
  - apply lookup_delete_eq.
  - intros l Hl. apply Hgone; [done|apply not_elem_of_nil].
  - intros l Hl. rewrite lookup_delete_ne by done. by apply Hf2.
Qed.
End ListRefine.

(** ** Correctness of [list.c] *)
Module ListClaims.
Import ListImpl ListRepr.

(** An allocator that never fails, for concrete runs. *)
#[local] Instance fresh_malloc : Malloc.
Proof.
  refine {| lmalloc := λ X, Some (fresh X) |}.
  intros X p [= <-]. apply is_fresh.
Defined.

(** A two-element list at address 1, beside a foreign node. *)
Definition demo : store Z (list Z) :=
  mkStore {[ 1%positive := mkNode 10 (Some 2%positive); 2%positive := mkNode 20 NULL;
             7%positive := mkNode 99 NULL ]}
          {[ 1%positive := mkList (Some 1%positive) (Some 2%positive) ]} [].
Lemma demo_repr : repr demo 1 [(1%positive, 10); (2%positive, 20)].
Proof.
  exists (mkList (Some 1%positive) (Some 2%positive)). split; [reflexivity|]. split; [|split].
  - split; [reflexivity|]. exists (Some 2%positive). split; [reflexivity|].
    split; [reflexivity|]. exists NULL. split; reflexivity.
  - by apply (bool_decide_unpack _).
  - reflexivity.
Defined.

(** [list_push] on a list representing [xs] returns without a fault, and
    the list then represents [xs] followed by the new element; the new node is
    fresh, and no node or head of another list changes. *)
Theorem list_push_correct `{Malloc} {A E} (st : store A E) lp ns x p :
  repr st lp ns → lmalloc (dom (nodes st)) = Some p →
  ∃ st', list_push (Some lp) x st = Ok tt st' ∧ repr st' lp (ns ++ [(p, x)]) ∧
         (ns ++ [(p, x)]).*2 = ListSpec.list_push ns.*2 x ∧
         env st' = env st ∧ frame st st' lp ns ∧ p ∉ dom (nodes st).
Proof.
  intros Hr Hp. pose proof (ListRefine.push_refines st lp ns x p Hr Hp) as Hw.
  apply wp_ok in Hw as ([] & st' & Hrun & Hr' & He & Hf). exists st'.
  split_and!; [done|done|by rewrite fmap_app|done|done|by eapply lmalloc_fresh].
Qed.
Lemma list_push_correct_witness :
  ∃ st', list_push (Some 1%positive) 30 demo = Ok tt st' ∧
         (∃ ns, repr st' 1 ns ∧ ns.*2 = [10; 20; 30]).
Proof.
  assert (lmalloc (dom (nodes demo)) = Some 8%positive) as Hp by reflexivity.
  destruct (list_push_correct demo 1 _ 30 8 demo_repr Hp) as (st' & Hrun & Hr & _).
  exists st'. split; [exact Hrun|]. eexists. split; [exact Hr|]. reflexivity.
Defined.

(** [list_pop] on a non-empty list returns the last element, frees its
    node and leaves the list without it: the walk to the node before the last
    terminates and finds it. *)
Theorem list_pop_correct `{Malloc} {A E} (st : store A E) lp ns l x :
  repr st lp (ns ++ [(l, x)]) →
  ∃ st', list_pop (Some lp) st = Ok x st' ∧ repr st' lp ns ∧ l ∉ dom (nodes st') ∧
         env st' = env st ∧ frame st st' lp (ns ++ [(l, x)]) ∧
         @ListSpec.list_pop A unit (ns ++ [(l, x)]).*2 tt = Ok (x, ns.*2) tt.
Proof.
  intros Hr. pose proof (ListRefine.pop_refines st lp ns l x Hr) as Hw.
  apply wp_ok in Hw as (y & st' & Hrun & -> & Hr' & Hl & He & Hf). exists st'.
  split_and!; try done. unfold ListSpec.list_pop. rewrite fmap_app. simpl. rewrite last_snoc.
  rewrite length_app. simpl. rewrite Nat.add_1_r. simpl. by rewrite take_app_length.
Qed.
Lemma list_pop_correct_witness :
  ∃ st', list_pop (Some 1%positive) demo = Ok 20 st' ∧ repr st' 1 [(1%positive, 10)].
Proof.
  destruct (list_pop_correct demo 1 [(1%positive, 10)] 2 20 demo_repr) as (st' & H1 & H2 & _).
  exists st'. split; [exact H1|exact H2].
Defined.

(** C40: [list_delete_n] refines the abstract deletion for every callback,
    including callbacks with effects and callbacks that stop with a fault: the
    callbacks run on the same elements in the same order, the first [n]
    accepted elements are unlinked and their nodes freed, the order of the
    others is kept, [head] and [last] are right again, and no other list is
    touched. *)
Theorem list_delete_n_correct `{Malloc} {A E} (f : A → M E bool) n (st : store A E) lp ns :
  repr st lp ns →
  match ListSpec.list_delete_n f n ns.*2 (env st) with
  | Err e => list_delete_n (Some lp) f n st = Err e
  | Ok xs e' => ∃ ns' st',
      list_delete_n (Some lp) f n st = Ok tt st' ∧ ns'.*2 = xs ∧ env st' = e' ∧
      sublist ns' ns ∧ repr st' lp ns' ∧ frame st st' lp ns ∧
      (∀ l, l ∈ ns.*1 → l ∉ ns'.*1 → l ∉ dom (nodes st'))
  end.
Proof. apply ListRefine.delete_refines. Qed.
Lemma list_delete_n_correct_witness :
  ∃ st', list_delete_n (Some 1%positive) (λ x seen, Ok (x =? 20) (x :: seen)) (-1) demo = Ok tt st' ∧
         env st' = [20; 10] ∧ (∃ ns, repr st' 1 ns ∧ ns.*2 = [10]).
Proof.
  pose proof (list_delete_n_correct (λ x seen, Ok (x =? 20) (x :: seen)) (-1) demo 1 _ demo_repr) as H.
  vm_compute ListSpec.list_delete_n in H. simpl in H.
  destruct H as (ns' & st' & H1 & H2 & H3 & _ & H4 & _). exists st'.
  split; [exact H1|]. split; [exact H3|]. exists ns'. split; [exact H4|exact H2].
Defined.

(** [list_destroy] returns the number of elements, frees every node of the
    list and the head itself, and nothing else. *)
Theorem list_destroy_correct `{Malloc} {A E} (st : store A E) lp ns :
  repr st lp ns →
  ∃ st', list_destroy (Some lp) st = Ok (Z.of_nat (length ns)) st' ∧
    env st' = env st ∧ lists st' !! lp = None ∧
    (∀ l, l ∈ ns.*1 → l ∉ dom (nodes st')) ∧
    (∀ l, l ∈ dom (nodes st) → l ∉ ns.*1 → nodes st' !! l = nodes st !! l) ∧
    (∀ l, l ≠ lp → lists st' !! l = lists st !! l).
Proof. apply ListRefine.destroy_refines. Qed.
Lemma list_destroy_correct_witness :
  ∃ st', list_destroy (Some 1%positive) demo = Ok 2 st' ∧ nodes st' !! 7%positive = Some (mkNode 99 NULL).
Proof.
  destruct (list_destroy_correct demo 1 _ demo_repr) as (st' & H1 & _ & _ & _ & H2 & _).
  exists st'. split; [exact H1|]. rewrite H2; [reflexivity| |].
  - by apply (bool_decide_unpack _).
  - by apply (bool_decide_unpack _).
Defined.
End ListClaims.
