(* ===== verification/Timer.v ===== *)
(** * The busy timer ([sos/timer.c])

    Until the clock driver runs, the root server's own threads sleep by
    calling a thread that polls the kernel's tick counter.  A sleeper's request
    lives on its stack; the timer thread keeps a list of pointers to the
    requests.  [Module Timer] has the code; [Module Sleeping] runs it against
    sleepers and a tick counter that may move at any point, and relates the
    runs to the specification of sleeping: a map from the sleeping threads to
    the time they went to sleep and for how long. *)
From S2P Require Import Prelude Machine ListC.

#[global] Instance L4_ThreadId_countable : Countable L4_ThreadId_t.
Proof.
  apply (inj_countable' (λ t, (L4_ThreadNo t, L4_Version t)) (λ p, L4_GlobalId (fst p) (snd p))).
  by intros [].
Defined.

Module Timer.
Record utimer_entry_t := mkEntry { fStart : Z; fDiff : Z; fTid : L4_ThreadId_t }.
(** The stacks of the sleepers by address, the timer thread's queue, and the
    replies it has sent. *)
Record utimer_st := mkUt {
  stacks : gmap Z utimer_entry_t; entryq : list Z; replies : list L4_ThreadId_t
}.
Definition set_stacks v s := mkUt v (entryq s) (replies s).
Definition set_entryq v s := mkUt (stacks s) v (replies s).
Definition add_reply t s := mkUt (stacks s) (entryq s) (replies s ++ [t]).

Definition entry_get (e : Z) : M utimer_st utimer_entry_t :=
  m ← gets stacks; of_opt BadPtr (m !! e).

(** A [list_delete] callback. *)
Definition processExpired (now node : Z) : M utimer_st bool :=
  t ← entry_get node;
  if decide (fDiff t ≤ w32 (now - fStart t)) then modify (add_reply (fTid t));; mret true
  else mret false.

(** One turn of the loop of [utimer]: the walk of the list, at the tick
    [now], which says whether the receive that follows blocks; and what the
    thread does with the result of the receive. *)
Definition utimer_walk (now : Z) : M utimer_st bool :=
  l ← gets entryq;
  l' ← ListSpec.list_delete (processExpired now) l;
  modify (set_entryq l');;
  mret (ListSpec.list_null l').
Inductive received := Message (wait_tid : L4_ThreadId_t) (word0 : Z) | IpcFailed (code : Z).
Definition utimer_receive (r : received) : M utimer_st unit :=
  match r with
  | Message wait_tid entry =>
      t ← entry_get entry;
      modify (λ s, set_stacks (<[entry := mkEntry (fStart t) (fDiff t) wait_tid]> (stacks s)) s);;
      modify (λ s, set_entryq (ListSpec.list_shift (entryq s) entry) s)
  | IpcFailed code => cassert "!Unhandled IPC error" (code =? 3)
  end.

Definition US_TO_TICKS (us : Z) : Z := us `div` (10 * 1000).
(** The sleeper up to its call: its entry at [frame] of its stack, which is
    the message. *)
Definition utimer_sleep (frame now microseconds : Z) : M utimer_st Z :=
  modify (λ s, set_stacks
    (<[frame := mkEntry now (US_TO_TICKS microseconds) L4_nilthread]> (stacks s)) s);;
  mret frame.
End Timer.

Module Sleeping.
Import Timer.

(** ** Runs *)
(** The number of ticks since power-on (the counter shows it modulo 2^32),
    the threads whose call has not been received yet, and when the walk was
    that the timer thread's next receive follows. *)
Record sys := mkSys {
  ut : utimer_st; ticks : Z; calling : list (L4_ThreadId_t * Z); walked : option Z
}.
Inductive tev :=
  | Slept (t : L4_ThreadId_t) (at_tick us : Z)
  | Woken (t : L4_ThreadId_t) (at_tick : Z).

Definition queued (u : utimer_st) : list L4_ThreadId_t :=
  omap (λ f, fTid <$> stacks u !! f) (entryq u).
Definition sleepers (s : sys) : list L4_ThreadId_t := (fst <$> calling s) ++ queued (ut s).

(** A thread that is not asleep may call, with its entry anywhere on its own
    stack; the receive takes any of the calls, and comes back without one only
    when it does not block. *)
Inductive step : sys → list tev → sys → Prop :=
  | s_tick s n : ticks s ≤ n → step s [] (mkSys (ut s) n (calling s) (walked s))
  | s_sleep s t frame us w u' :
      is_word us → t ∉ sleepers s → frame ∉ (snd <$> calling s) ++ entryq (ut s) →
      utimer_sleep frame (w32 (ticks s)) us (ut s) = Ok w u' →
      step s [Slept t (ticks s) us] (mkSys u' (ticks s) (calling s ++ [(t, w)]) (walked s))
  | s_walk s b u' new :
      walked s = None → utimer_walk (w32 (ticks s)) (ut s) = Ok b u' →
      replies u' = replies (ut s) ++ new →
      step s ((λ t, Woken t (ticks s)) <$> new) (mkSys u' (ticks s) (calling s) (Some (ticks s)))
  | s_message s c1 t frame c2 T u' :
      walked s = Some T → calling s = c1 ++ (t, frame) :: c2 →
      utimer_receive (Message t frame) (ut s) = Ok tt u' →
      step s [] (mkSys u' (ticks s) (c1 ++ c2) None)
  | s_no_message s T u' :
      walked s = Some T → entryq (ut s) ≠ [] → calling s = [] →
      utimer_receive (IpcFailed 3) (ut s) = Ok tt u' →
      step s [] (mkSys u' (ticks s) [] None).
Inductive run : sys → list tev → sys → Prop :=
  | run_nil s : run s [] s
  | run_snoc s tr s' tr' s'' : run s tr s' → step s' tr' s'' → run s (tr ++ tr') s''.
Definition start : sys := mkSys (mkUt ∅ [] []) 0 [] None.

(** ** Specification *)
(** A tick is 10 milliseconds. *)
Definition TICK_US : Z := 10000.
(** A thread that is not asleep may fall asleep; one that is may be woken when
    the microseconds it asked for are over, or would be with the next tick, and
    not before. *)
Definition over (T0 us T : Z) : Prop := us < (T - T0 + 1) * TICK_US.
#[export] Instance over_dec T0 us T : Decision (over T0 us T).
Proof. unfold over. apply _. Defined.
Lemma ticks_over T0 us T : T0 + US_TO_TICKS us ≤ T ↔ over T0 us T.
Proof.
  unfold over, TICK_US, US_TO_TICKS. change (10 * 1000) with 10000.
  pose proof (Z.div_mod us 10000 ltac:(lia)). pose proof (Z.mod_pos_bound us 10000 ltac:(lia)). lia.
Qed.
Abbreviation asleep := (gmap L4_ThreadId_t (Z * Z)).
Definition accept1 (m : asleep) (e : tev) : option asleep :=
  match e with
  | Slept t T us => match m !! t with None => Some (<[t := (T, us)]> m) | Some _ => None end
  | Woken t T =>
      match m !! t with
      | Some (T0, us) => if decide (over T0 us T) then Some (delete t m) else None
      | None => None
      end
  end.
Fixpoint accept (m : asleep) (tr : list tev) : option asleep :=
  match tr with [] => Some m | e :: tr' => m' ← accept1 m e; accept m' tr' end.

(** ** The simulation *)
Record sleep := mkSleep { sl_tid : L4_ThreadId_t; sl_frame : Z; sl_at : Z; sl_us : Z }.
Definition entry_for (x : sleep) (t : L4_ThreadId_t) : utimer_entry_t :=
  mkEntry (w32 (sl_at x)) (US_TO_TICKS (sl_us x)) t.
Definition spec_of (xs : list sleep) : asleep :=
  list_to_map ((λ x, (sl_tid x, (sl_at x, sl_us x))) <$> xs).

Record sim (s : sys) (cs qs : list sleep) (m : asleep) : Prop := {
  sim_calling : calling s = (λ x, (sl_tid x, sl_frame x)) <$> cs;
  sim_queue : entryq (ut s) = sl_frame <$> qs;
  sim_entries : ∀ x, x ∈ cs → ∃ t, stacks (ut s) !! sl_frame x = Some (entry_for x t);
  sim_queued : ∀ x, x ∈ qs → stacks (ut s) !! sl_frame x = Some (entry_for x (sl_tid x));
  sim_past : ∀ x, x ∈ cs ++ qs → sl_at x ≤ ticks s ∧ is_word (sl_us x);
  sim_frames : NoDup (sl_frame <$> cs ++ qs);
  sim_tids : NoDup (sl_tid <$> cs ++ qs);
  sim_spec : m = spec_of (cs ++ qs);
  sim_walked : ∀ T, walked s = Some T → ∀ x, x ∈ qs →
    T < sl_at x + US_TO_TICKS (sl_us x) ∨ sl_at x + 2 ^ 32 ≤ T
}.

Definition due (T : Z) (x : sleep) : Prop :=
  US_TO_TICKS (sl_us x) ≤ w32 (w32 T - w32 (sl_at x)).
#[export] Instance due_dec T x : Decision (due T x).
Proof. unfold due. apply _. Defined.

Lemma elapsed T T0 : w32 (w32 T - w32 T0) = (T - T0) mod 2 ^ 32.
Proof. unfold w32. by rewrite <- Zminus_mod. Qed.
(** The comparison modulo 2^32 never wakes a sleeper early, and misses one
    that is due only when the counter has gone all the way round. *)
Lemma due_past T x : sl_at x ≤ T → due T x → sl_at x + US_TO_TICKS (sl_us x) ≤ T.
Proof.
  unfold due. rewrite elapsed. intros ?.
  pose proof (Z.mod_le (T - sl_at x) (2 ^ 32) ltac:(lia) ltac:(lia)). lia.
Qed.
Lemma not_due T x : sl_at x ≤ T → ¬ due T x →
  T < sl_at x + US_TO_TICKS (sl_us x) ∨ sl_at x + 2 ^ 32 ≤ T.
Proof.
  unfold due. rewrite elapsed. intros ? H.
  destruct (decide (sl_at x + 2 ^ 32 ≤ T)); [by right|left].
  rewrite Z.mod_small in H by lia. lia.
Qed.

Lemma spec_of_perm xs ys : NoDup (sl_tid <$> xs) → xs ≡ₚ ys → spec_of xs = spec_of ys.
Proof.
  intros Hnd Hp. apply list_to_map_proper; [|by rewrite Hp].
  rewrite <- list_fmap_compose. exact Hnd.
Qed.
Lemma spec_of_cons x xs : spec_of (x :: xs) = <[sl_tid x := (sl_at x, sl_us x)]> (spec_of xs).
Proof. reflexivity. Qed.
Lemma spec_of_None t xs : t ∉ sl_tid <$> xs → spec_of xs !! t = None.
Proof. intros H. apply not_elem_of_list_to_map. by rewrite <- list_fmap_compose. Qed.
Lemma spec_of_Some x xs : NoDup (sl_tid <$> xs) → x ∈ xs →
  spec_of xs !! sl_tid x = Some (sl_at x, sl_us x).
Proof.
  intros Hnd Hx. apply elem_of_list_to_map; [by rewrite <- list_fmap_compose|].
  apply list_elem_of_fmap. by exists x.
Qed.

Lemma accept_app m tr tr' : accept m (tr ++ tr') = m' ← accept m tr; accept m' tr'.
Proof. revert m. induction tr as [|e tr IH]; intros m; [done|]. simpl. destruct (accept1 m e); [apply IH|done]. Qed.

(** The wake-ups of a walk are allowed. *)
Lemma accept_wakes T ds rest :
  NoDup (sl_tid <$> ds ++ rest) → (∀ x, x ∈ ds → sl_at x + US_TO_TICKS (sl_us x) ≤ T) →
  accept (spec_of (ds ++ rest)) ((λ t, Woken t T) <$> (sl_tid <$> ds)) = Some (spec_of rest).
Proof.
  induction ds as [|x ds IH]; intros Hnd Hd; [done|]. simpl in Hnd. apply NoDup_cons in Hnd as [Hx Hnd].
  cbn [app fmap list_fmap accept]. rewrite spec_of_cons. unfold accept1 at 1.
  rewrite lookup_insert_eq, decide_True by (apply ticks_over, Hd; set_solver).
  cbn [mbind option_bind]. rewrite delete_insert_id by (by apply spec_of_None).
  apply IH; [done|]. intros y Hy. apply Hd. set_solver.
Qed.

Lemma walk_loop T qs n u :
  n < 0 → (∀ x, x ∈ qs → stacks u !! sl_frame x = Some (entry_for x (sl_tid x))) →
  ListSpec.list_delete_n (processExpired (w32 T)) n (sl_frame <$> qs) u =
  Ok (sl_frame <$> filter (λ x, ¬ due T x) qs)
     (mkUt (stacks u) (entryq u) (replies u ++ (sl_tid <$> filter (due T) qs))).
Proof.
  revert n u. induction qs as [|x qs IH]; intros n u Hn Hq.
  { simpl. rewrite app_nil_r. by destruct u. }
  cbn [fmap list_fmap ListSpec.list_delete_n]. rewrite (proj2 (Z.eqb_neq n 0)) by lia.
  assert (processExpired (w32 T) (sl_frame x) u =
    if decide (due T x) then Ok true (add_reply (sl_tid x) u) else Ok false u) as Hp.
  { unfold processExpired, entry_get, due. erewrite bind_ok; last first.
    { erewrite bind_ok by reflexivity. rewrite Hq by set_solver. reflexivity. }
    cbn [entry_for fDiff fStart fTid]. repeat case_decide; tauto || reflexivity. }
  rewrite !filter_cons. destruct (decide (due T x)) as [Hd|Hd].
  - rewrite (bind_ok _ _ _ _ _ Hp), IH; [|lia|intros y Hy; apply Hq; set_solver].
    rewrite decide_False by tauto. cbn [replies add_reply stacks entryq fmap list_fmap].
    by rewrite <- app_assoc.
  - rewrite (bind_ok _ _ _ _ _ Hp), decide_True by done. erewrite bind_ok; [reflexivity|].
    apply IH; [lia|]. intros y Hy; apply Hq; set_solver.
Qed.
Lemma walk_run T qs u :
  entryq u = sl_frame <$> qs →
  (∀ x, x ∈ qs → stacks u !! sl_frame x = Some (entry_for x (sl_tid x))) →
  utimer_walk (w32 T) u =
  Ok (ListSpec.list_null (sl_frame <$> filter (λ x, ¬ due T x) qs))
     (mkUt (stacks u) (sl_frame <$> filter (λ x, ¬ due T x) qs)
           (replies u ++ (sl_tid <$> filter (due T) qs))).
Proof.
  intros Hl Hq. unfold utimer_walk. erewrite bind_ok by reflexivity. rewrite Hl.
  unfold ListSpec.list_delete. by erewrite bind_ok by (apply walk_loop; [lia|done]).
Qed.

Lemma queued_sim s cs qs m : sim s cs qs m → sleepers s = sl_tid <$> cs ++ qs.
Proof.
  intros H. unfold sleepers, queued. rewrite (sim_calling _ _ _ _ H), (sim_queue _ _ _ _ H).
  rewrite fmap_app, <- list_fmap_compose. f_equal.
  pose proof (sim_queued _ _ _ _ H) as Hq. clear H. induction qs as [|x qs IH]; [done|].
  simpl. rewrite Hq by set_solver. simpl. f_equal. apply IH. intros y Hy. apply Hq. set_solver.
Qed.
Lemma frames_sim s cs qs m :
  sim s cs qs m → (snd <$> calling s) ++ entryq (ut s) = sl_frame <$> cs ++ qs.
Proof.
  intros H. rewrite (sim_calling _ _ _ _ H), (sim_queue _ _ _ _ H), fmap_app.
  by rewrite <- list_fmap_compose.
Qed.
Lemma filter_split {A} (P : A → Prop) `{!∀ x, Decision (P x)} l :
  l ≡ₚ filter P l ++ filter (λ x, ¬ P x) l.
Proof.
  induction l as [|x l IH]; [done|]. rewrite !filter_cons.
  destruct (decide (P x)); [rewrite decide_False by tauto|rewrite decide_True by done].
  - simpl. by f_equiv.
  - rewrite <- Permutation_middle. by f_equiv.
Qed.

(** ** Steps *)
Lemma sim_sleep s cs qs m t frame us w u' :
  sim s cs qs m → is_word us → t ∉ sleepers s → frame ∉ (snd <$> calling s) ++ entryq (ut s) →
  utimer_sleep frame (w32 (ticks s)) us (ut s) = Ok w u' →
  sim (mkSys u' (ticks s) (calling s ++ [(t, w)]) (walked s))
      (cs ++ [mkSleep t frame (ticks s) us]) qs (<[t := (ticks s, us)]> m) ∧ m !! t = None.
Proof.
  intros H Hus Ht Hf [= <- <-]. rewrite (queued_sim _ _ _ _ H) in Ht.
  rewrite (frames_sim _ _ _ _ H) in Hf.
  set (x := mkSleep t frame (ticks s) us).
  assert ((cs ++ [x]) ++ qs ≡ₚ x :: cs ++ qs) as Hp.
  { rewrite <- app_assoc. symmetry. apply Permutation_middle. }
  assert (∀ y, y ∈ cs ++ qs → sl_frame y ≠ frame) as Hne.
  { intros y Hy Heq. apply Hf. rewrite <- Heq. by apply list_elem_of_fmap_2. }
  destruct H as [Hc Hq He Hqe Hpast Hfr Htid Hm Hw]. split; [split; simpl|].
  - by rewrite Hc, fmap_app.
  - done.
  - intros y [Hy| ->%list_elem_of_singleton]%elem_of_app.
    + rewrite lookup_insert_ne by (apply not_eq_sym, Hne; set_solver). by apply He.
    + exists L4_nilthread. by rewrite lookup_insert_eq.
  - intros y Hy. rewrite lookup_insert_ne by (apply not_eq_sym, Hne; set_solver). by apply Hqe.
  - intros y Hy. rewrite Hp in Hy. apply elem_of_cons in Hy as [->|Hy]; [simpl; split; [lia|done]|by apply Hpast].
  - rewrite Hp. simpl. by apply NoDup_cons.
  - rewrite Hp. simpl. by apply NoDup_cons.
  - rewrite Hm. symmetry. rewrite (spec_of_perm _ (x :: cs ++ qs)); [done| |done].
    rewrite Hp. simpl. by apply NoDup_cons.
  - done.
  - rewrite Hm. by apply spec_of_None.
Qed.

Lemma sim_walk s cs qs m b u' new :
  sim s cs qs m → utimer_walk (w32 (ticks s)) (ut s) = Ok b u' →
  replies u' = replies (ut s) ++ new →
  ∃ qs' m', accept m ((λ t, Woken t (ticks s)) <$> new) = Some m' ∧
    sim (mkSys u' (ticks s) (calling s) (Some (ticks s))) cs qs' m'.
Proof.
  intros [Hc Hq He Hqe Hpast Hfr Htid Hm Hw] Hrun Hnew. rewrite (walk_run _ qs) in Hrun by done.
  injection Hrun as <- <-. simpl in Hnew. apply app_inv_head in Hnew as <-.
  set (T := ticks s) in *. set (qs' := filter (λ x, ¬ due T x) qs).
  assert (cs ++ qs ≡ₚ filter (due T) qs ++ (cs ++ qs')) as Hp.
  { rewrite (filter_split (due T) qs) at 1. rewrite !(app_assoc _ _ qs').
    by rewrite (Permutation_app_comm cs). }
  assert (∀ x, x ∈ cs ++ qs' → x ∈ cs ++ qs) as Hsub.
  { intros x. rewrite Hp. set_solver. }
  rewrite Hp, fmap_app in Hfr. pose proof Htid as Htid'. rewrite Hp in Htid'.
  exists qs', (spec_of (cs ++ qs')). split.
  - rewrite Hm, (spec_of_perm _ _ Htid Hp). apply accept_wakes; [done|].
    intros x [Hd Hx]%list_elem_of_filter. apply due_past; [|done]. apply Hpast. set_solver.
  - rewrite fmap_app in Htid'. apply NoDup_app in Hfr as (_ & _ & Hfr), Htid' as (_ & _ & Htid').
    split; simpl; auto.
    + intros x [_ Hx]%list_elem_of_filter. by apply Hqe.
    + intros ? [= <-] x [Hd Hx]%list_elem_of_filter. apply not_due; [|done].
      apply Hpast. set_solver.
Qed.

Lemma sim_message s cs qs m c1 t frame c2 u' :
  sim s cs qs m → calling s = c1 ++ (t, frame) :: c2 →
  utimer_receive (Message t frame) (ut s) = Ok tt u' →
  ∃ cs' qs', sim (mkSys u' (ticks s) (c1 ++ c2) None) cs' qs' m.
Proof.
  intros [Hc Hq He Hqe Hpast Hfr Htid Hm Hw] Hcall Hrun. rewrite Hc in Hcall.
  apply fmap_app_inv in Hcall as (a & b & -> & Ha & ->).
  destruct b as [|x b]; [done|]. injection Ha as -> -> ->.
  destruct (He x) as [t0 Hx]; [set_solver|].
  unfold utimer_receive, entry_get in Hrun. erewrite bind_ok in Hrun; last first.
  { erewrite bind_ok by reflexivity. rewrite Hx. reflexivity. }
  injection Hrun as <-. exists (a ++ b), (x :: qs).
  assert ((a ++ x :: b) ++ qs ≡ₚ (a ++ b) ++ x :: qs) as Hp.
  { rewrite <- !(Permutation_middle). done. }
  assert (∀ y, y ∈ (a ++ b) ++ qs → sl_frame y ≠ sl_frame x) as Hne.
  { rewrite Hp, <- Permutation_middle in Hfr. apply NoDup_cons in Hfr as [Hnot _].
    intros y Hy Heq. apply Hnot. rewrite <- Heq. by apply list_elem_of_fmap_2. }
  split; simpl.
  - by rewrite fmap_app.
  - by rewrite Hq.
  - intros y Hy. rewrite lookup_insert_ne by (apply not_eq_sym, Hne; set_solver). apply He. set_solver.
  - intros y [->|Hy]%elem_of_cons; [by rewrite lookup_insert_eq|].
    rewrite lookup_insert_ne by (apply not_eq_sym, Hne; set_solver). by apply Hqe.
  - intros y. rewrite <- Hp. apply Hpast.
  - by rewrite <- Hp.
  - by rewrite <- Hp.
  - rewrite Hm. by apply spec_of_perm.
  - done.
Qed.
End Sleeping.

Module TimerClaims.
Import Timer Sleeping.

Lemma sim_step s tr s' cs qs m :
  sim s cs qs m → step s tr s' → ∃ cs' qs' m', accept m tr = Some m' ∧ sim s' cs' qs' m'.
Proof.
  intros H Hstep. destruct Hstep as [s n Hn|s t f us w u' Hus Ht Hf Hrun|s b u' new Hw Hrun Hnew
    |s c1 t f c2 T u' Hw Hc Hrun|s T u' Hw Hne Hc Hrun].
  - exists cs, qs, m. split; [done|]. destruct H as [? ? ? ? Hpast]. split; simpl; auto.
    intros x Hx. destruct (Hpast x Hx). split; [lia|done].
  - destruct (sim_sleep _ _ _ _ _ _ _ _ _ H Hus Ht Hf Hrun) as [H' Hm].
    exists (cs ++ [mkSleep t f (ticks s) us]), qs, (<[t := (ticks s, us)]> m).
    split; [|done]. simpl. by rewrite Hm.
  - destruct (sim_walk _ _ _ _ _ _ _ H Hrun Hnew) as (qs' & m' & ? & ?). by exists cs, qs', m'.
  - destruct (sim_message _ _ _ _ _ _ _ _ _ H Hc Hrun) as (cs' & qs' & ?). by exists cs', qs', m.
  - injection Hrun as <-. exists cs, qs, m. split; [done|]. destruct H as [Hcs]. split; simpl; auto.
    + by rewrite <- Hc.
    + done.
Qed.
Lemma sim_run tr s : run start tr s → ∃ cs qs m, accept ∅ tr = Some m ∧ sim s cs qs m.
Proof.
  intros H. remember start as s0 eqn:Hs0. induction H as [s|s tr s1 tr' s2 _ IH Hstep]; subst.
  - exists [], [], ∅. split; [done|].
    split; try done; try (intros ? Hin; by apply elem_of_nil in Hin); apply NoDup_nil; done.
  - destruct (IH eq_refl) as (cs & qs & m & Hm & Hsim).
    destruct (sim_step _ _ _ _ _ _ Hsim Hstep) as (cs' & qs' & m' & Hm' & Hsim').
    exists cs', qs', m'. split; [|done]. by rewrite accept_app, Hm.
Qed.


(** A thread sleeps for 20 ms from tick 0 on; it is woken at tick 2. *)
Definition napper : L4_ThreadId_t := L4_GlobalId 5 1.
Lemma nap us n : is_word us → 0 ≤ n → US_TO_TICKS us ≤ w32 (w32 n - w32 0) →
  ∃ s, run start [Slept napper 0 us; Woken napper n] s ∧ sleepers s = [].
Proof.
  intros Hus Hn Hd.
  set (e t := mkEntry (w32 0) (US_TO_TICKS us) t).
  set (u1 := mkUt {[4096 := e L4_nilthread]} [] []).
  set (u2 := mkUt (<[4096 := e napper]> (stacks u1)) [4096] []).
  assert (run start [Slept napper 0 us] (mkSys u2 n [] None)) as Hrun.
  { apply (run_snoc _ [Slept napper 0 us] (mkSys u2 0 [] None) []); [|by apply (s_tick (mkSys u2 0 [] None))].
    apply (run_snoc _ [Slept napper 0 us] (mkSys u1 0 [(napper, 4096)] (Some 0)) []);
      [|by apply (s_message (mkSys u1 0 [(napper, 4096)] (Some 0)) [] napper 4096 [] 0)].
    apply (run_snoc _ [Slept napper 0 us] (mkSys u1 0 [(napper, 4096)] None) []);
      [|by apply (s_walk (mkSys u1 0 [(napper, 4096)] None) true u1 [])].
    apply (run_snoc _ [] start [Slept napper 0 us]); [constructor|].
    apply (s_sleep start napper 4096 us 4096 u1); [done|by apply not_elem_of_nil..|done]. }
  exists (mkSys (mkUt (stacks u2) [] [napper]) n [] (Some n)). split; [|done].
  apply (run_snoc _ [Slept napper 0 us] _ [Woken napper n] _ Hrun).
  apply (s_walk (mkSys u2 n [] None) true _ [napper]); [done| |done].
  rewrite (walk_run n [mkSleep napper 4096 0 us]); [|done|].
  - rewrite !filter_cons, decide_False, (decide_True (P := due _ _)) by (unfold due; tauto). done.
  - intros x ->%list_elem_of_singleton. by apply lookup_insert_eq.
Qed.

(** The ticks of a sleep are rounded down, so a sleep of less than 10 ms is
    over at once. *)
Lemma utimer_sleep_short_is_none us : 0 ≤ us < 10000 →
  ∃ s, run start [Slept napper 0 us; Woken napper 0] s.
Proof.
  intros Hus. destruct (nap us 0) as (s & Hrun & _); [unfold is_word; lia|lia| |by exists s].
  unfold US_TO_TICKS. rewrite Z.div_small by lia. by vm_compute.
Qed.
End TimerClaims.
