(* ===== verification/Frames.v ===== *)
(** * The frame allocator, [sos/frames.c]

    Free frames form an intrusive list: the first word of a free frame holds
    the address of the next one.  The model keeps the list in the byte memory
    of the machine, so that a client writing to a frame it owns is visible. *)
From S2P Require Import Prelude Machine.

Module Frames.
Definition NULLFRAME : Z := 0.

(** Reasons for allocating a frame ([sos/frames.h]). *)
Inductive alloc_codes_t :=
  | FA_STACK | FA_SWAPFILE | FA_MORECORE | FA_SWAPPIN | FA_PAGETABLE1
  | FA_PAGETABLE2 | FA_ALLOCFRAMES | FA_PAGERALLOC.

Record frames := mkFrames {
  mach : machine;
  totalFrames : Z;
  firstFree : Z;
  totalInUse : Z
}.
Definition fmem (s : frames) : memory := mem (mach s).
Definition set_mach (v : machine) (s : frames) :=
  mkFrames v (totalFrames s) (firstFree s) (totalInUse s).
Definition set_fmem (v : memory) (s : frames) := set_mach (set_mem v (mach s)) s.
Definition femit (e : event) : M frames unit := modify (λ s, set_mach (emit_ev e (mach s)) s).
Definition write_word (a v : Z) : M frames unit :=
  modify (λ s, set_fmem (store32 (fmem s) a v) s).
Definition read_word (a : Z) : M frames Z := gets (λ s, load32 (fmem s) a).

(** The values of [page] in [for (page = lo; page < hi; page += PAGESIZE)]. *)
Definition pages (lo : Z) (n : nat) : list Z := (λ i : nat, lo + i * PAGESIZE) <$> seq 0 n.
Definition page_range (lo hi : Z) : list Z :=
  pages lo (Z.to_nat ((hi - lo + (PAGESIZE - 1)) / PAGESIZE)).

Definition frame_init (low frame : Z) : M frames unit :=
  modify (λ s, mkFrames (mach s) 0 (firstFree s) (totalInUse s));;
  let high := w32 (frame + 1) in
  forM (page_range low high) (λ page,
    femit (L4_MapFpage L4_rootspace page page L4_ReadWriteOnly));;
  forM (page_range low (w32 (high - PAGESIZE))) (λ page,
    write_word page (w32 (page + PAGESIZE));;
    modify (λ s, mkFrames (mach s) (totalFrames s + 1) (firstFree s) (totalInUse s)));;
  modify (λ s, mkFrames (mach s) (totalFrames s) low (totalInUse s));;
  write_word (w32 (high - PAGESIZE)) NULLFRAME;;
  modify (λ s, mkFrames (mach s) (totalFrames s) (firstFree s) 0).

Definition frame_alloc (reason : alloc_codes_t) : M frames Z :=
  alloc ← gets firstFree;
  (if decide (alloc ≠ NULLFRAME) then
     nxt ← read_word alloc;
     modify (λ s, mkFrames (mach s) (totalFrames s) nxt (totalInUse s + 1))
   else mret tt);;
  mret alloc.

Definition frame_free (frame : Z) : M frames unit :=
  first ← gets firstFree;
  write_word frame first;;
  modify (λ s, mkFrames (mach s) (totalFrames s) frame (totalInUse s));;
  modify (λ s, mkFrames (mach s) (totalFrames s) (firstFree s) (totalInUse s - 1)).

Definition frames_allocated : M frames Z := gets totalInUse.
Definition frames_free : M frames Z := gets (λ s, totalFrames s - totalInUse s).
Definition frames_total : M frames Z := gets totalFrames.

(** ** The free list *)

(** A frame address: page aligned, inside the address space, not NULL. *)
Definition frame_addr (f : Z) : Prop := 0 < f ∧ f mod PAGESIZE = 0 ∧ f + PAGESIZE ≤ 2 ^ 32.
#[global] Instance frame_addr_dec f : Decision (frame_addr f).
Proof. unfold frame_addr. apply _. Defined.

Fixpoint chain (m : memory) (p : Z) (fs : list Z) : Prop :=
  match fs with
  | [] => p = NULLFRAME
  | f :: fs' => p = f ∧ frame_addr f ∧ chain m (load32 m f) fs'
  end.

(** [fs] are the free frames, in the order they will be handed out. *)
Definition free_list (s : frames) (fs : list Z) : Prop :=
  chain (fmem s) (firstFree s) fs ∧ NoDup fs.

Lemma frame_addr_word f : frame_addr f → is_word f.
Proof. unfold frame_addr, is_word, PAGESIZE. lia. Qed.
Lemma frame_addr_disjoint f g :
  frame_addr f → frame_addr g → f ≠ g → f + PAGESIZE ≤ g ∨ g + PAGESIZE ≤ f.
Proof.
  unfold frame_addr, PAGESIZE. intros (? & Hf & _) (? & Hg & _) Hne.
  pose proof (Z.div_mod f 4096). pose proof (Z.div_mod g 4096). lia.
Qed.
Lemma chain_addr m p fs f : chain m p fs → f ∈ fs → frame_addr f.
Proof.
  revert p. induction fs as [|g fs IH]; intros p; simpl; [by intros _ ?%elem_of_nil|].
  intros (_ & Hg & Hc) [->|Hi]%elem_of_cons; [done|by eapply IH].
Qed.
(** There are fewer free frames than page numbers: frame 0 is none. *)
Lemma free_list_length s fs : free_list s fs → length fs < 2 ^ 32 / PAGESIZE.
Proof.
  intros [Hc Hnd]. set (n := 2 ^ 32 / PAGESIZE - 1).
  assert (0 ≤ n) as Hn by (by unfold n, PAGESIZE).
  cut (length fs ≤ Z.to_nat n)%nat; [unfold n in *; lia|].
  rewrite <- (length_zseq 1 (Z.to_nat n)), <- (length_fmap (λ f, f / PAGESIZE)).
  apply submseteq_length, NoDup_submseteq.
  - apply NoDup_fmap_2_strong; [|done]. intros f g Hf Hg Heq.
    pose proof (chain_addr _ _ _ _ Hc Hf) as (? & ? & _). pose proof (chain_addr _ _ _ _ Hc Hg) as (? & ? & _).
    unfold PAGESIZE in *. pose proof (Z.div_mod f 4096). pose proof (Z.div_mod g 4096). lia.
  - intros i (f & -> & Hf)%list_elem_of_fmap. apply elem_of_zseq.
    pose proof (chain_addr _ _ _ _ Hc Hf) as (? & ? & ?). rewrite Z2Nat.id by done.
    change n with 1048575 in *. unfold PAGESIZE in *. clear n.
    pose proof (Z.div_mod f 4096). pose proof (Z.mod_pos_bound f 4096). lia.
Qed.
Lemma chain_head m p fs : chain m p fs → is_word p.
Proof.
  destruct fs; simpl; [intros ->; unfold is_word, NULLFRAME; lia|].
  intros (-> & ? & _). by apply frame_addr_word.
Qed.
Lemma chain_nil m p fs : chain m p fs → p = NULLFRAME → fs = [].
Proof. destruct fs; [done|]. simpl. intros (-> & [? _] & _) ->. unfold NULLFRAME in *. lia. Qed.
Lemma chain_ext m m' p fs :
  (∀ f, f ∈ fs → load32 m' f = load32 m f) → chain m p fs → chain m' p fs.
Proof.
  revert p. induction fs as [|g fs IH]; intros p Hm; simpl; [done|].
  intros (-> & Hg & Hc). split; [done|]. split; [done|]. rewrite Hm by (by left).
  apply IH; [|done]. intros. apply Hm. by right.
Qed.
(** Writing a word inside one frame does not disturb a free list without it. *)
Lemma chain_store m p fs f a v :
  chain m p fs → frame_addr f → f ∉ fs → f ≤ a → a + 4 ≤ f + PAGESIZE →
  chain (store32 m a v) p fs.
Proof.
  intros Hc Hf Hni ??. apply (chain_ext m); [|done]. intros g Hg.
  apply load32_store32_ne. unfold word_disjoint.
  pose proof (chain_addr _ _ _ _ Hc Hg) as Hga.
  destruct (frame_addr_disjoint f g) as [|]; [done..|by intros ->| |]; unfold PAGESIZE in *; lia.
Qed.

(** ** Allocation and freeing *)
Lemma alloc_some s f fs r :
  free_list s (f :: fs) →
  ∃ s', frame_alloc r s = Ok f s' ∧ free_list s' fs ∧ mach s' = mach s ∧
        totalInUse s' = totalInUse s + 1 ∧ totalFrames s' = totalFrames s.
Proof.
  intros [(Hf & Ha & Hc) [Hni Hnd]%NoDup_cons]. unfold frame_alloc, mbind, M_bind, gets.
  rewrite Hf. rewrite decide_True by (unfold frame_addr, NULLFRAME in *; lia).
  eexists. split; [reflexivity|]. by split_and!.
Qed.
Lemma alloc_none s r :
  free_list s [] → frame_alloc r s = Ok NULLFRAME s.
Proof.
  intros [Hc _]. simpl in Hc. unfold frame_alloc, mbind, M_bind, gets. rewrite Hc.
  rewrite decide_False by (by intros []). done.
Qed.
Lemma free_some s f fs :
  free_list s fs → frame_addr f → f ∉ fs →
  ∃ s', frame_free f s = Ok tt s' ∧ free_list s' (f :: fs) ∧
        fmem s' = store32 (fmem s) f (firstFree s) ∧ log (mach s') = log (mach s) ∧
        totalInUse s' = totalInUse s - 1 ∧ totalFrames s' = totalFrames s.
Proof.
  intros [Hc Hnd] Hf Hni. eexists. split; [reflexivity|]. simpl. split_and!; try done.
  split; simpl; [|by apply NoDup_cons]. split; [done|]. split; [done|].
  unfold fmem. simpl. fold (fmem s). rewrite load32_store32_eq by (by eapply chain_head).
  apply (chain_store _ _ _ f); [done..|lia|unfold PAGESIZE; lia].
Qed.

(** ** Initialisation *)
Lemma pages_S lo n : pages lo (S n) = lo :: pages (lo + PAGESIZE) n.
Proof.
  unfold pages. simpl. f_equal; [lia|]. rewrite <- seq_shift, <- list_fmap_compose.
  apply list_fmap_ext. intros. simpl. lia.
Qed.
Lemma elem_of_pages lo n p : p ∈ pages lo n ↔ ∃ i : nat, (i < n)%nat ∧ p = lo + i * PAGESIZE.
Proof.
  unfold pages. rewrite list_elem_of_fmap. setoid_rewrite elem_of_seq. split.
  - intros (i & -> & ?). exists i. split; [lia|done].
  - intros (i & ? & ->). exists i. split; [done|lia].
Qed.
Lemma NoDup_pages lo n : NoDup (pages lo n).
Proof. apply NoDup_fmap_2; [intros i j; unfold PAGESIZE; lia|apply NoDup_seq]. Qed.
Lemma length_pages lo n : length (pages lo n) = n.
Proof. unfold pages. by rewrite length_fmap, length_seq. Qed.
Lemma page_range_exact lo n : page_range lo (lo + Z.of_nat n * PAGESIZE) = pages lo n.
Proof.
  unfold page_range. f_equal. replace (lo + n * PAGESIZE - lo + (PAGESIZE - 1))
    with ((PAGESIZE - 1) + n * PAGESIZE) by lia.
  rewrite Z.div_add by (unfold PAGESIZE; lia). unfold PAGESIZE.
  change ((4096 - 1) / 4096) with 0. lia.
Qed.

(** [low], [n] describe [n] frames that fit below the top of memory. *)
Definition good_range (low : Z) (n : nat) : Prop :=
  0 < low ∧ low mod PAGESIZE = 0 ∧ low + n * PAGESIZE < 2 ^ 32.

Lemma good_range_addr low n p : good_range low n → p ∈ pages low n → frame_addr p.
Proof.
  intros (? & Ha & ?) (i & ? & ->)%elem_of_pages. unfold frame_addr.
  rewrite Z.mod_add by (unfold PAGESIZE; lia). unfold PAGESIZE in *. lia.
Qed.

Lemma map_loop_spec ps s :
  forM ps (λ page, femit (L4_MapFpage L4_rootspace page page L4_ReadWriteOnly)) s =
  Ok tt (set_mach (mkMachine (fmem s) (cbuf (mach s))
    (log (mach s) ++ ((λ p, L4_MapFpage L4_rootspace p p L4_ReadWriteOnly) <$> ps))
    (mnext (mach s)) (moracle (mach s))) s).
Proof.
  revert s. induction ps as [|p ps IH]; intros s; simpl.
  - rewrite app_nil_r. by destruct s as [[]].
  - unfold mbind, M_bind. simpl. rewrite IH. simpl. by rewrite <- app_assoc.
Qed.

Definition link_body (page : Z) : M frames unit :=
  write_word page (w32 (page + PAGESIZE));;
  modify (λ s, mkFrames (mach s) (totalFrames s + 1) (firstFree s) (totalInUse s)).

Lemma link_loop_spec n : ∀ low s, good_range low n →
  ∃ s', forM (pages low n) link_body s = Ok tt s' ∧
    totalFrames s' = totalFrames s + n ∧ firstFree s' = firstFree s ∧
    totalInUse s' = totalInUse s ∧ log (mach s') = log (mach s) ∧
    (∀ p, p ∈ pages low n → load32 (fmem s') p = p + PAGESIZE) ∧
    (∀ a, a + 4 ≤ low ∨ low + n * PAGESIZE ≤ a → load32 (fmem s') a = load32 (fmem s) a).
Proof.
  induction n as [|n IH]; intros low s Hg.
  - exists s. split_and!; try done; [lia|]. intros p Hp. by apply elem_of_nil in Hp.
  - destruct Hg as (? & Ha & ?). rewrite pages_S. cbn [forM].
    destruct (IH (low + PAGESIZE)
      (mkFrames (set_mem (store32 (fmem s) low (w32 (low + PAGESIZE))) (mach s))
         (totalFrames s + 1) (firstFree s) (totalInUse s)))
      as (s' & Hrun & H1 & H2 & H3 & H4 & H5 & H6).
    { split; [unfold PAGESIZE; lia|]. split; [|lia].
      rewrite <- (Z.mul_1_l PAGESIZE) at 1. rewrite Z.mod_add by (unfold PAGESIZE; lia). done. }
    exists s'. split; [exact Hrun|]. simpl in *. split_and!; try done; [lia| |].
    + intros p [->|Hp]%elem_of_cons; [|by apply H5].
      rewrite H6 by (unfold PAGESIZE; lia). unfold fmem at 1. simpl.
      rewrite w32_small by (unfold is_word, PAGESIZE in *; lia).
      apply load32_store32_eq. unfold is_word, PAGESIZE in *; lia.
    + intros a Ha'. rewrite H6 by (unfold PAGESIZE in *; lia). unfold fmem at 1. simpl.
      apply load32_store32_ne. unfold word_disjoint, PAGESIZE in *. lia.
Qed.

Lemma chain_pages m n : ∀ low, good_range low (S n) →
  (∀ p, p ∈ pages low n → load32 m p = p + PAGESIZE) →
  load32 m (low + n * PAGESIZE) = NULLFRAME → chain m low (pages low (S n)).
Proof.
  induction n as [|n IH]; intros low Hg Hl Hz; rewrite pages_S; simpl.
  - split; [done|]. split; [eapply good_range_addr; [done|rewrite pages_S; by left]|].
    by rewrite Z.add_0_r in Hz.
  - split; [done|]. split; [eapply good_range_addr; [done|rewrite pages_S; by left]|].
    rewrite Hl by (rewrite pages_S; by left). destruct Hg as (? & ? & ?). apply IH.
    + split; [unfold PAGESIZE; lia|]. split; [|lia].
      rewrite <- (Z.mul_1_l PAGESIZE) at 1. by rewrite Z.mod_add by (unfold PAGESIZE; lia).
    + intros p Hp. apply Hl. rewrite pages_S. by right.
    + rewrite <- Hz. f_equal. lia.
Qed.

Lemma frame_init_spec low n s :
  good_range low (S n) →
  ∃ s', frame_init low (low + S n * PAGESIZE - 1) s = Ok tt s' ∧
    free_list s' (pages low (S n)) ∧ totalInUse s' = 0 ∧ totalFrames s' = n ∧
    log (mach s') = log (mach s) ++
      ((λ p, L4_MapFpage L4_rootspace p p L4_ReadWriteOnly) <$> pages low (S n)).
Proof.
  intros Hg. pose proof Hg as (? & Ha & ?). unfold frame_init.
  replace (w32 (low + S n * PAGESIZE - 1 + 1)) with (low + S n * PAGESIZE)
    by (rewrite w32_small; unfold is_word, PAGESIZE in *; lia).
  replace (w32 (low + S n * PAGESIZE - PAGESIZE)) with (low + n * PAGESIZE)
    by (rewrite w32_small; unfold is_word, PAGESIZE in *; lia).
  rewrite !page_range_exact. fold link_body. erewrite bind_ok by done.
  erewrite bind_ok by apply map_loop_spec.
  edestruct (link_loop_spec n low) as (s' & Hrun & H1 & H2 & H3 & H4 & H5 & H6).
  { unfold good_range, PAGESIZE in *. lia. }
  rewrite (bind_ok _ _ _ _ _ Hrun). eexists. split; [reflexivity|]. simpl in *.
  split_and!; [|done|lia|done]. split; [|apply NoDup_pages]. simpl.
  apply chain_pages; [done| |].
  - intros p Hp. unfold fmem. simpl. rewrite load32_store32_ne; [by apply H5|].
    apply elem_of_pages in Hp as (i & ? & ->). unfold word_disjoint, PAGESIZE. lia.
  - unfold fmem. simpl. apply load32_store32_eq. unfold is_word, NULLFRAME. lia.
Qed.
End Frames.

(** ** All the ways the rest of SOS uses the allocator *)
Module FrameClients.
Import Frames.

(** The allocator together with the frames its clients hold: they may ask for
    a frame, give one back, and write to the frames they hold. *)
Definition client := (frames * list Z)%type.
Inductive fstep : client → client → Prop :=
  | step_alloc s s' r f al :
      frame_alloc r s = Ok f s' → f ≠ NULLFRAME → fstep (s, al) (s', f :: al)
  | step_alloc_fail s s' r al :
      frame_alloc r s = Ok NULLFRAME s' → fstep (s, al) (s', al)
  | step_free s s' f al1 al2 :
      frame_free f s = Ok tt s' → fstep (s, al1 ++ f :: al2) (s', al1 ++ al2)
  | step_write s f a v al :
      f ∈ al → f ≤ a < f + PAGESIZE →
      fstep (s, al) (set_fmem (store8 (fmem s) a v) s, al).

Definition client_inv (all : list Z) (N : Z) (c : client) : Prop :=
  ∃ fs, free_list c.1 fs ∧ fs ++ c.2 ≡ₚ all ∧ totalInUse c.1 = length c.2 ∧ totalFrames c.1 = N.

(** A client's byte write leaves the links of the free frames alone. *)
Lemma free_list_write s fs f a v :
  free_list s fs → frame_addr f → f ∉ fs → f ≤ a < f + PAGESIZE →
  free_list (set_fmem (store8 (fmem s) a v) s) fs.
Proof.
  intros [Hc Hnd] Hf Hni Ha. split; [|done]. unfold fmem. simpl. fold (fmem s).
  apply (chain_ext (fmem s)); [|done]. intros g Hg.
  pose proof (chain_addr _ _ _ _ Hc Hg) as Hga.
  assert (f ≠ g) as Hfg by (by intros ->).
  destruct (frame_addr_disjoint f g Hf Hga Hfg); unfold load32, store8; rewrite !load8_insert;
    repeat case_decide; unfold PAGESIZE in *; lia.
Qed.

Lemma client_inv_step all N c c' :
  NoDup all → Forall frame_addr all → client_inv all N c → fstep c c' → client_inv all N c'.
Proof.
  intros Hnd Haddr (fs & Hfl & Hp & Hu & HN) Hstep.
  rewrite <- Hp in Hnd, Haddr. apply NoDup_app in Hnd as (Hn1 & Hdis & Hn2).
  apply Forall_app in Haddr as [_ Hal].
  destruct Hstep as [s s' r f al Hrun Hf|s s' r al Hrun|s s' f al1 al2 Hrun|s f a v al Hf Ha];
    simpl in *.
  - destruct fs as [|g fs]; [rewrite (alloc_none _ _ Hfl) in Hrun; by simplify_eq|].
    destruct (alloc_some s g fs r Hfl) as (s1 & Hrun1 & Hfl1 & _ & Hu1 & Ht1).
    same_run. exists fs. split; [done|]. simpl. split_and!; [|lia|congruence].
    rewrite <- Hp. by rewrite <- Permutation_middle.
  - destruct fs as [|g fs].
    + rewrite (alloc_none _ _ Hfl) in Hrun. simplify_eq. by exists [].
    + destruct (alloc_some s g fs r Hfl) as (s1 & Hrun1 & _). same_run.
      destruct Hfl as [(_ & [? _] & _) _]. unfold NULLFRAME in *. lia.
  - rewrite Forall_app, Forall_cons in Hal. destruct Hal as (_ & Hfa & _).
    assert (f ∉ fs) as Hnf.
    { intros Hi. apply (Hdis f Hi), elem_of_app. right. by left. }
    destruct (free_some s f fs Hfl Hfa Hnf) as (s1 & Hrun1 & Hfl1 & _ & _ & Hu1 & Ht1).
    same_run. exists (f :: fs). split; [done|]. simpl.
    rewrite length_app in *. simpl in *. split_and!; [|lia|congruence].
    rewrite <- Hp. rewrite <- (Permutation_middle al1 al2 f).
    by rewrite <- (Permutation_middle fs (al1 ++ al2) f).
  - exists fs. rewrite Forall_forall in Hal. split_and!; [|done..].
    eapply free_list_write; [done|by apply Hal| |done]. intros Hi. by apply (Hdis f Hi).
Qed.

Lemma client_inv_reach low n s0 s1 c :
  good_range low (S n) → frame_init low (low + S n * PAGESIZE - 1) s0 = Ok tt s1 →
  rtc fstep (s1, []) c → client_inv (pages low (S n)) n c.
Proof.
  intros Hg Hinit Hr. destruct (frame_init_spec low n s0 Hg) as (s1' & Hrun & Hfl & Hu & Ht & _).
  rewrite Hinit in Hrun. injection Hrun as <-. assert (client_inv (pages low (S n)) n (s1, [])) as Hinv.
  { exists (pages low (S n)). rewrite app_nil_r. by split_and!. }
  clear -Hg Hr Hinv. induction Hr as [|c1 c2 c3 Hs _ IH]; [done|].
  apply IH. eapply client_inv_step; [apply NoDup_pages| |done|done].
  apply Forall_forall. intros p Hp. by eapply good_range_addr.
Qed.

(** [frame_init low frame] on [n+1] page-aligned frames links all of them,
    in address order, into the free list, maps each of them read-write one to
    one into the root server's space, and marks none as in use. *)
Theorem frame_init_correct low n s :
  good_range low (S n) →
  ∃ s', frame_init low (low + S n * PAGESIZE - 1) s = Ok tt s' ∧
    free_list s' (pages low (S n)) ∧ totalInUse s' = 0 ∧
    log (mach s') = log (mach s) ++
      ((λ p, L4_MapFpage L4_rootspace p p L4_ReadWriteOnly) <$> pages low (S n)).
Proof.
  intros Hg. destruct (frame_init_spec low n s Hg) as (s' & ? & ? & ? & _ & ?). by exists s'.
Qed.

Definition boot : frames := mkFrames (mkMachine ∅ ∅ [] 1 []) 0 0 0.
Lemma good_demo : good_range 8192 (S 2).
Proof. exact (conj eq_refl (conj eq_refl eq_refl)). Defined.
Lemma frame_init_correct_witness :
  ∃ s', frame_init 8192 20479 boot = Ok tt s' ∧ free_list s' [8192; 12288; 16384].
Proof.
  destruct (frame_init_correct 8192 2 boot good_demo) as (s' & H1 & H2 & _).
  exists s'. split; [exact H1|exact H2].
Defined.

(** C1: Whatever sequence of allocations, frees and writes to frames that are
    held follows the boot, no frame is ever lost or handed out twice: the free
    list and the held frames together are exactly the frames of the boot, each
    once, and [totalInUse] counts the held ones. *)
Theorem frames_never_shared low n s0 s1 s al :
  good_range low (S n) → frame_init low (low + S n * PAGESIZE - 1) s0 = Ok tt s1 →
  rtc fstep (s1, []) (s, al) →
  ∃ fs, free_list s fs ∧ fs ++ al ≡ₚ pages low (S n) ∧ NoDup (fs ++ al) ∧
        frames_allocated s = Ok (Z.of_nat (length al)) s.
Proof.
  intros Hg Hi Hr. destruct (client_inv_reach _ _ _ _ _ Hg Hi Hr) as (fs & Hfl & Hp & Hu & _).
  exists fs. split_and!; [done|done|rewrite Hp; apply NoDup_pages|].
  unfold frames_allocated, gets. simpl in Hu. by rewrite Hu.
Qed.
Definition run_unit (m : M frames unit) (s : frames) : frames :=
  match m s with Ok _ s' => s' | Err _ => s end.
Definition run_alloc (s : frames) : frames :=
  match frame_alloc FA_STACK s with Ok _ s' => s' | Err _ => s end.
Definition booted : frames := run_unit (frame_init 8192 20479) boot.
Lemma frames_never_shared_witness :
  ∃ fs, free_list (set_fmem (store8 (fmem (run_alloc booted)) 8192 255) (run_alloc booted)) fs ∧
        fs ++ [8192] ≡ₚ pages 8192 3.
Proof.
  destruct (frames_never_shared 8192 2 boot booted
    (set_fmem (store8 (fmem (run_alloc booted)) 8192 255) (run_alloc booted)) [8192] good_demo)
    as (fs & H1 & H2 & _).
  - vm_compute. reflexivity.
  - eapply rtc_l; [apply (step_alloc booted (run_alloc booted) FA_STACK 8192 []);
      [vm_compute; reflexivity|discriminate]|].
    eapply rtc_l; [apply (step_write (run_alloc booted) 8192 8192 255 [8192]);
      [by left|unfold PAGESIZE; lia]|]. apply rtc_refl.
  - exists fs. split; [exact H1|exact H2].
Defined.

(** After the boot [frame_alloc] returns NULL exactly when every frame is
    held, and otherwise a page-aligned frame of the boot that nobody holds. *)
Theorem frame_alloc_total low n s0 s1 s al r :
  good_range low (S n) → frame_init low (low + S n * PAGESIZE - 1) s0 = Ok tt s1 →
  rtc fstep (s1, []) (s, al) →
  ∃ f s', frame_alloc r s = Ok f s' ∧
    (length al = S n ∧ f = NULLFRAME ∧ s' = s ∨
     (length al < S n)%nat ∧ f ∈ pages low (S n) ∧ f ∉ al ∧ frame_addr f).
Proof.
  intros Hg Hi Hr. destruct (client_inv_reach _ _ _ _ _ Hg Hi Hr) as (fs & Hfl & Hp & _ & _).
  simpl in *. pose proof (Permutation_length Hp) as Hlen.
  rewrite length_app, length_pages in Hlen. destruct fs as [|f fs].
  - exists NULLFRAME, s. split; [by apply alloc_none|]. left. simpl in Hlen. done.
  - destruct (alloc_some s f fs r Hfl) as (s' & Hrun & _). exists f, s'. split; [done|].
    right. assert (f ∈ pages low (S n)) as Hf by (rewrite <- Hp; by left).
    split_and!; [simpl in Hlen; lia|done| |by eapply good_range_addr].
    pose proof (NoDup_pages low (S n)) as Hnd. rewrite <- Hp in Hnd.
    apply NoDup_app in Hnd as (_ & Hd & _). apply Hd. by left.
Qed.
Lemma frame_alloc_total_witness :
  ∃ f s', frame_alloc FA_STACK booted = Ok f s' ∧ f = 8192.
Proof.
  destruct (frame_alloc_total 8192 2 boot booted booted [] FA_STACK good_demo)
    as (f & s' & H1 & _); [vm_compute; reflexivity|apply rtc_refl|].
  exists f, s'. split; [exact H1|]. vm_compute in H1. injection H1 as <- _. reflexivity.
Defined.

(** [totalFrames] counts one frame too few (the counting loop stops before
    the last frame, which is on the free list all the same), so that once every
    frame is held [frames_free] reports minus one free frames. *)
Theorem frames_free_undercounts low n s0 s1 s al :
  good_range low (S n) → frame_init low (low + S n * PAGESIZE - 1) s0 = Ok tt s1 →
  rtc fstep (s1, []) (s, al) →
  frames_total s = Ok (Z.of_nat n) s ∧
  frames_free s = Ok (n - length al) s ∧
  (length al = S n → frames_free s = Ok (-1) s).
Proof.
  intros Hg Hi Hr. destruct (client_inv_reach _ _ _ _ _ Hg Hi Hr) as (fs & _ & _ & Hu & Ht).
  simpl in *. unfold frames_total, frames_free, gets. rewrite Hu, Ht.
  split_and!; [done|done|]. intros ->. f_equal. lia.
Qed.
Lemma frames_free_undercounts_witness :
  frames_free (run_alloc (run_alloc (run_alloc booted))) =
  Ok (-1) (run_alloc (run_alloc (run_alloc booted))).
Proof.
  destruct (frames_free_undercounts 8192 2 boot booted
    (run_alloc (run_alloc (run_alloc booted))) [16384; 12288; 8192] good_demo) as (_ & _ & H).
  - vm_compute. reflexivity.
  - eapply rtc_l; [apply (step_alloc booted (run_alloc booted) FA_STACK 8192 []);
      [vm_compute; reflexivity|discriminate]|].
    eapply rtc_l; [eapply (step_alloc _ (run_alloc (run_alloc booted)) FA_STACK 12288);
      [vm_compute; reflexivity|discriminate]|].
    eapply rtc_l; [eapply (step_alloc _ (run_alloc (run_alloc (run_alloc booted))) FA_STACK 16384);
      [vm_compute; reflexivity|discriminate]|]. apply rtc_refl.
  - apply H. reflexivity.
Defined.
End FrameClients.
