(* ===== verification/Swapfile.v ===== *)
(** * Swap files, [sos/swapfile.c]

    A [Swapfile] fills one frame: a small header and an array of slots, where
    free slots are linked through the array.  The model keeps the structures
    that live in frames in a map from the frame's address. *)
From S2P Require Import Prelude Machine Frames.
Import Frames.

Module Swapfile.
Record Swapfile := mkSwapfile {
  sf_path : cstr;
  sf_fd : Z;
  sf_head : Z;
  sf_usage : Z;
  sf_slots : list Z
}.

(** [sizeof(SwapfileData)]: the path, then [fd], [head] and [usage]. *)
Definition sizeof_SwapfileData : Z := MAX_FILE_NAME + 4 + 4 + 4.
Definition SWAPSIZE : Z := (PAGESIZE - sizeof_SwapfileData) / 4.

Record swapst := mkSwapst {
  frs : frames;
  swapfiles : gmap Z Swapfile
}.
Definition set_frs (v : frames) (s : swapst) := mkSwapst v (swapfiles s).
Definition on_frames {A} (m : M frames A) : M swapst A := zoom frs set_frs m.

Definition sf_get (sf : Z) : M swapst Swapfile := λ s,
  if decide (sf = 0) then Err NullDeref
  else match swapfiles s !! sf with Some r => Ok r s | None => Err BadPtr end.
Definition sf_put (sf : Z) (r : Swapfile) : M swapst unit :=
  modify (λ s, mkSwapst (frs s) (<[sf := r]> (swapfiles s))).

(** The initial contents of the slot array: slot [i] links to [i + 1]. *)
Definition init_slots : list Z :=
  zseq 1 (Z.to_nat SWAPSIZE - 1) ++ [ADDRESS_NONE].

Definition swapfile_init (path : cstr) : M swapst Z :=
  cassert "sizeof(Swapfile) == PAGESIZE" (sizeof_SwapfileData + SWAPSIZE * 4 =? PAGESIZE);;
  sf ← on_frames (frame_alloc FA_SWAPFILE);
  if decide (sf = NULLFRAME) then fail NullDeref
  else
    sf_put sf (mkSwapfile (strncpy_path path) VFS_NIL_FILE 0 0 init_slots);;
    mret sf.

Definition swapfile_is_open (sf : Z) : M swapst bool :=
  r ← sf_get sf; mret (negb (sf_fd r =? VFS_NIL_FILE)).

(** [strncmp(path, SWAPFILE_FN, MAX_FILE_NAME) == 0] *)
Definition swapfile_is_default (sf : Z) : M swapst bool :=
  r ← sf_get sf;
  mret (bool_decide (take (Z.to_nat MAX_FILE_NAME) (sf_path r) =
                     take (Z.to_nat MAX_FILE_NAME) SWAPFILE_FN)).

Definition swapfile_close (sf : Z) : M swapst unit :=
  r ← sf_get sf;
  cassert "sf->data.fd != VFS_NIL_FILE" (negb (sf_fd r =? VFS_NIL_FILE));;
  on_frames (femit (L4_Ipc L4_rootserver SOS_CLOSE SOS_IPC_SEND [w32 (sf_fd r)]));;
  sf_put sf (mkSwapfile (sf_path r) VFS_NIL_FILE (sf_head r) (sf_usage r) (sf_slots r)).

Definition swapfile_free (sf : Z) : M swapst unit :=
  on_frames (frame_free sf);;
  modify (λ s, mkSwapst (frs s) (delete sf (swapfiles s))).

Definition swapfile_get_usage (sf : Z) : M swapst Z :=
  r ← sf_get sf; mret (sf_usage r).

Definition swapfile_get_fd (sf : Z) : M swapst Z :=
  o ← swapfile_is_open sf;
  cassert "swapfile_is_open(sf)" o;;
  r ← sf_get sf; mret (sf_fd r).

Definition swapfile_set_fd (sf fd : Z) : M swapst unit :=
  r ← sf_get sf;
  cassert "sf->data.fd == VFS_NIL_FILE" (sf_fd r =? VFS_NIL_FILE);;
  cassert "fd != VFS_NIL_FILE" (negb (fd =? VFS_NIL_FILE));;
  sf_put sf (mkSwapfile (sf_path r) fd (sf_head r) (sf_usage r) (sf_slots r)).

(** The [assert] compares an [int] with a [size_t], so as unsigned words. *)
Definition swapslot_alloc (sf : Z) : M swapst Z :=
  usage ← swapfile_get_usage sf;
  cassert "swapfile_get_usage(sf) <= SWAPSIZE" (w32 usage <=? SWAPSIZE);;
  r ← sf_get sf;
  let slot := sf_head r in
  nxt ← arr_get (sf_slots r) slot;
  sf_put sf (mkSwapfile (sf_path r) (sf_fd r) nxt (sf_usage r + 1) (sf_slots r));;
  mret (w32 (slot * PAGESIZE)).

Definition swapslot_free (sf slot : Z) : M swapst unit :=
  cassert "(slot & ~PAGEALIGN) == 0" (Z.land slot (Z.lnot PAGEALIGN) =? 0);;
  usage ← swapfile_get_usage sf;
  cassert "swapfile_get_usage(sf) > 0" (0 <? usage);;
  r ← sf_get sf;
  let slot := slot / PAGESIZE in
  slots' ← of_opt OutOfRange (arr_set (sf_slots r) slot (sf_head r));
  sf_put sf (mkSwapfile (sf_path r) (sf_fd r) slot (sf_usage r - 1) slots').

(** ** The free slots *)
Fixpoint slot_chain (slots : list Z) (p : Z) (fs : list Z) : Prop :=
  match fs with
  | [] => p = ADDRESS_NONE
  | f :: fs' => p = f ∧ 0 ≤ f < SWAPSIZE ∧
                ∃ nxt, slots !! Z.to_nat f = Some nxt ∧ slot_chain slots nxt fs'
  end.

(** [fs] are the free slots in order, [used] the allocated ones. *)
Definition slots_ok (r : Swapfile) (fs used : list Z) : Prop :=
  length (sf_slots r) = Z.to_nat SWAPSIZE ∧
  slot_chain (sf_slots r) (sf_head r) fs ∧
  fs ++ used ≡ₚ zseq 0 (Z.to_nat SWAPSIZE) ∧
  sf_usage r = length used.

Lemma slot_chain_ext slots slots' p fs :
  (∀ f, f ∈ fs → slots' !! Z.to_nat f = slots !! Z.to_nat f) →
  slot_chain slots p fs → slot_chain slots' p fs.
Proof.
  revert p. induction fs as [|f fs IH]; intros p Hs; simpl; [done|].
  intros (-> & Hf & nxt & Hl & Hc). split; [done|]. split; [done|]. exists nxt.
  rewrite Hs by (by left). split; [done|]. apply IH; [|done]. intros. apply Hs. by right.
Qed.

Lemma slots_range r fs used f : slots_ok r fs used → f ∈ fs ++ used → 0 ≤ f < SWAPSIZE.
Proof.
  intros (_ & _ & Hp & _) Hf. rewrite Hp in Hf. apply elem_of_zseq in Hf.
  unfold SWAPSIZE, sizeof_SwapfileData, PAGESIZE, MAX_FILE_NAME in *. simpl in *. lia.
Qed.
Lemma slots_NoDup r fs used : slots_ok r fs used → NoDup (fs ++ used).
Proof.
  intros (_ & _ & Hp & _). rewrite Hp. apply NoDup_fmap_2; [intros i j; lia|apply NoDup_seq].
Qed.
Lemma slots_usage r fs used :
  slots_ok r fs used → 0 ≤ sf_usage r ≤ SWAPSIZE ∧ sf_usage r = SWAPSIZE - length fs.
Proof.
  intros (_ & _ & Hp & Hu). apply Permutation_length in Hp. rewrite length_app, length_zseq in Hp.
  rewrite Hu. change SWAPSIZE with 1013 in *. lia.
Qed.

Lemma init_chain n : ∀ a, 0 ≤ a → a + Z.of_nat (S n) = SWAPSIZE →
  slot_chain init_slots a (zseq a (S n)).
Proof.
  induction n as [|n IH]; intros a Ha Hn.
  - rewrite zseq_S. simpl. split; [done|]. split; [lia|]. exists ADDRESS_NONE.
    split; [|done]. unfold init_slots. rewrite lookup_app_r; rewrite length_zseq.
    + replace (Z.to_nat a - (Z.to_nat SWAPSIZE - 1))%nat with 0%nat by lia. done.
    + lia.
  - rewrite zseq_S. split; [done|]. split; [lia|]. exists (a + 1). split; [|apply IH; lia].
    unfold init_slots. rewrite lookup_app_l by (rewrite length_zseq; lia).
    unfold zseq. rewrite list_lookup_fmap, lookup_seq_lt by lia. simpl. f_equal. lia.
Qed.
Lemma init_slots_ok path : slots_ok (mkSwapfile path VFS_NIL_FILE 0 0 init_slots)
                                    (zseq 0 (Z.to_nat SWAPSIZE)) [].
Proof.
  split; [cbn [sf_slots]; unfold init_slots; by rewrite length_app, length_zseq|].
  split; [apply (init_chain 1012); [lia|done]|]. split; [by rewrite app_nil_r|done].
Qed.

Lemma slot_alloc_some s sf r f fs used :
  sf ≠ 0 → swapfiles s !! sf = Some r → slots_ok r (f :: fs) used →
  ∃ r', swapslot_alloc sf s = Ok (f * PAGESIZE) (mkSwapst (frs s) (<[sf := r']> (swapfiles s))) ∧
        slots_ok r' fs (f :: used) ∧ sf_path r' = sf_path r ∧ sf_fd r' = sf_fd r.
Proof.
  intros Hsf Hr Hok. pose proof (slots_usage _ _ _ Hok) as [Hu _].
  pose proof (slots_range _ _ _ f Hok ltac:(by left)) as Hf.
  destruct Hok as (Hlen & (Hh & _ & nxt & Hn & Hc) & Hp & Husage).
  unfold swapslot_alloc, swapfile_get_usage, sf_get, mbind, M_bind, cassert.
  rewrite decide_False, Hr by done. simpl. rewrite w32_small by (unfold is_word; change SWAPSIZE with 1013 in *; lia).
  rewrite (proj2 (Z.leb_le _ _)) by lia. rewrite decide_False, Hr by done.
  rewrite Hh, (arr_get_ok _ _ nxt) by (done || lia).
  eexists. split.
  { unfold sf_put, modify, mret, M_ret. rewrite w32_small; [done|].
    unfold is_word, PAGESIZE. change SWAPSIZE with 1013 in *. lia. }
  split; [|done]. unfold slots_ok. cbn [sf_slots sf_head sf_usage].
  split_and!; [done|done| |simpl; lia]. rewrite <- Hp. by rewrite <- Permutation_middle.
Qed.

Lemma slot_free_some s sf r f fs used1 used2 :
  sf ≠ 0 → swapfiles s !! sf = Some r → slots_ok r fs (used1 ++ f :: used2) →
  ∃ r', swapslot_free sf (f * PAGESIZE) s =
          Ok tt (mkSwapst (frs s) (<[sf := r']> (swapfiles s))) ∧
        slots_ok r' (f :: fs) (used1 ++ used2) ∧ sf_path r' = sf_path r ∧ sf_fd r' = sf_fd r.
Proof.
  intros Hsf Hr Hok. pose proof (slots_range _ _ _ f Hok) as Hf.
  rewrite !elem_of_app, elem_of_cons in Hf. specialize (Hf ltac:(tauto)).
  pose proof (slots_NoDup _ _ _ Hok) as (_ & Hd & _)%NoDup_app.
  assert (f ∉ fs) as Hnf. { intros Hi. apply (Hd f Hi), elem_of_app. right. by left. }
  destruct Hok as (Hlen & Hc & Hp & Husage). rewrite length_app in Husage. simpl in Husage.
  unfold swapslot_free, swapfile_get_usage, sf_get, mbind, M_bind, cassert.
  assert (Z.land (f * PAGESIZE) (Z.lnot PAGEALIGN) = 0) as ->.
  { unfold PAGEALIGN. rewrite Z.lnot_involutive. change (PAGESIZE - 1) with (Z.ones 12).
    rewrite Z.land_ones by lia. by apply Z_mod_mult. }
  simpl. rewrite decide_False, Hr by done. simpl. rewrite (proj2 (Z.ltb_lt _ _)) by lia.
  rewrite decide_False, Hr by done. rewrite Z_div_mult by (unfold PAGESIZE; lia).
  rewrite arr_set_ok by lia. eexists. split; [reflexivity|].
  split; [|done]. unfold slots_ok. cbn [sf_slots sf_head sf_usage]. split_and!.
  - by rewrite length_insert.
  - split; [done|]. split; [done|]. exists (sf_head r).
    split; [apply list_lookup_insert_eq; lia|]. apply (slot_chain_ext (sf_slots r)); [|done].
    intros g Hg. apply list_lookup_insert_ne. intros Heq.
    assert (0 ≤ g < SWAPSIZE) as Hgr.
    { change SWAPSIZE with 1013. assert (g ∈ zseq 0 (Z.to_nat SWAPSIZE)) as Hg'.
      { rewrite <- Hp. apply elem_of_app. by left. }
      apply elem_of_zseq in Hg'. change (Z.to_nat SWAPSIZE) with 1013%nat in Hg'. lia. }
    assert (f = g) by lia. by subst.
  - rewrite <- Hp. rewrite <- (Permutation_middle used1 used2 f).
    by rewrite <- (Permutation_middle fs (used1 ++ used2) f).
  - rewrite length_app. lia.
Qed.

Lemma slot_alloc_full s sf r used :
  sf ≠ 0 → swapfiles s !! sf = Some r → slots_ok r [] used → swapslot_alloc sf s = Err OutOfRange.
Proof.
  intros Hsf Hr Hok. pose proof (slots_usage _ _ _ Hok) as [Hu _].
  destruct Hok as (Hlen & Hh & _). simpl in Hh.
  unfold swapslot_alloc, swapfile_get_usage, sf_get, mbind, M_bind, cassert.
  rewrite decide_False, Hr by done. simpl.
  rewrite w32_small by (unfold is_word; change SWAPSIZE with 1013 in *; lia).
  rewrite (proj2 (Z.leb_le _ _)) by lia. rewrite decide_False, Hr by done. rewrite Hh.
  unfold arr_get. rewrite decide_True by (unfold ADDRESS_NONE; lia).
  rewrite lookup_ge_None_2; [done|]. rewrite Hlen. change SWAPSIZE with 1013. unfold ADDRESS_NONE. lia.
Qed.
End Swapfile.

(** ** Correctness of the slot allocator *)
Module SwapClients.
Import Swapfile.

(** One swap file and the disk addresses handed out from it. *)
Inductive sstep (sf : Z) : swapst * list Z → swapst * list Z → Prop :=
  | sstep_alloc s s' a used :
      swapslot_alloc sf s = Ok a s' → sstep sf (s, used) (s', a :: used)
  | sstep_free s s' a used1 used2 :
      swapslot_free sf a s = Ok tt s' → sstep sf (s, used1 ++ a :: used2) (s', used1 ++ used2).

Definition swap_inv (sf : Z) (c : swapst * list Z) : Prop :=
  ∃ r fs used, swapfiles c.1 !! sf = Some r ∧ slots_ok r fs used ∧
               c.2 = (λ i, i * PAGESIZE) <$> used.

Lemma swap_inv_step sf c c' : sf ≠ 0 → swap_inv sf c → sstep sf c c' → swap_inv sf c'.
Proof.
  intros Hsf (r & fs & used & Hr & Hok & Hu) Hstep.
  destruct Hstep as [s s' a us Hrun|s s' a us1 us2 Hrun]; simpl in *; subst.
  - destruct fs as [|f fs]; [by rewrite (slot_alloc_full _ _ _ _ Hsf Hr Hok) in Hrun|].
    destruct (slot_alloc_some _ _ _ _ _ _ Hsf Hr Hok) as (r' & Hrun' & Hok' & _).
    same_run. exists r', fs, (f :: used). simpl. by rewrite lookup_insert_eq.
  - symmetry in Hu. apply fmap_app_inv in Hu as (u1 & u2 & -> & Hu2 & ->).
    symmetry in Hu2. apply fmap_cons_inv in Hu2 as (f & u2' & -> & -> & ->).
    destruct (slot_free_some _ _ _ _ _ _ _ Hsf Hr Hok) as (r' & Hrun' & Hok' & _).
    same_run. exists r', (f :: fs), (u1 ++ u2'). simpl. rewrite lookup_insert_eq, fmap_app. done.
Qed.

(** [swapfile_init] on a machine with a free frame. *)
Lemma swapfile_init_spec s f fs path :
  free_list (frs s) (f :: fs) →
  ∃ s', swapfile_init path s = Ok f s' ∧ f ≠ 0 ∧
        swapfiles s' !! f = Some (mkSwapfile (strncpy_path path) VFS_NIL_FILE 0 0 init_slots) ∧
        free_list (frs s') fs ∧ (∀ g, g ≠ f → swapfiles s' !! g = swapfiles s !! g).
Proof.
  intros Hfl. destruct (alloc_some (frs s) f fs FA_SWAPFILE Hfl) as (fr' & Hrun & Hfl' & _).
  assert (f ≠ 0) as Hf0 by (destruct Hfl as [(_ & [? _] & _) _]; lia).
  unfold swapfile_init. rewrite (bind_ok _ _ _ tt s) by reflexivity.
  erewrite bind_ok by (apply zoom_ok; exact Hrun).
  rewrite decide_False by done. eexists. split; [reflexivity|]. simpl. split_and!; try done.
  - apply lookup_insert_eq.
  - intros. by apply lookup_insert_ne.
Qed.

(** C36: Starting from [swapfile_init], whatever sequence of [swapslot_alloc]
    and [swapslot_free] of slots in use follows, the disk addresses in use are
    pairwise distinct, page aligned and inside the swap file, and [usage]
    counts them. *)
Theorem swap_slots_never_shared s0 path f fs s1 s used :
  free_list (frs s0) (f :: fs) → swapfile_init path s0 = Ok f s1 →
  rtc (sstep f) (s1, []) (s, used) →
  NoDup used ∧
  Forall (λ a, a mod PAGESIZE = 0 ∧ 0 ≤ a < SWAPSIZE * PAGESIZE) used ∧
  swapfile_get_usage f s = Ok (Z.of_nat (length used)) s.
Proof.
  intros Hfl Hinit Hr. destruct (swapfile_init_spec s0 f fs path Hfl) as (s1' & Hrun & Hf & Hl & _).
  rewrite Hinit in Hrun. injection Hrun as <-.
  assert (swap_inv f (s, used)) as (r & fs' & us & Hr' & Hok & Hus).
  { assert (swap_inv f (s1, [])) as Hinv.
    { eexists _, _, []. split; [exact Hl|]. split; [apply init_slots_ok|done]. }
    clear -Hf Hr Hinv. induction Hr as [|c1 c2 c3 Hs _ IH]; [done|].
    apply IH. by eapply swap_inv_step. }
  simpl in *. subst used. split_and!.
  - pose proof (slots_NoDup _ _ _ Hok) as (_ & _ & Hnd)%NoDup_app.
    apply NoDup_fmap_2; [|done]. intros i j. unfold PAGESIZE. lia.
  - apply Forall_fmap, Forall_forall. intros i Hi.
    pose proof (slots_range _ _ _ i Hok ltac:(apply elem_of_app; by right)).
    simpl. split; [apply Z_mod_mult|]. unfold PAGESIZE. lia.
  - unfold swapfile_get_usage, sf_get, mbind, M_bind. rewrite decide_False, Hr' by done.
    destruct Hok as (_ & _ & _ & ->). by rewrite length_fmap.
Qed.

Definition boot : swapst := mkSwapst FrameClients.booted ∅.
Definition boot1 : swapst :=
  match swapfile_init SWAPFILE_FN boot with Ok _ s => s | Err _ => boot end.
Definition boot2 : swapst := match swapslot_alloc 8192 boot1 with Ok _ s => s | Err _ => boot1 end.
Lemma boot_free : free_list (frs boot) [8192; 12288; 16384].
Proof.
  split; [|by apply (bool_decide_unpack _)].
  split; [reflexivity|]. split; [by apply (bool_decide_unpack _)|].
  split; [reflexivity|]. split; [by apply (bool_decide_unpack _)|].
  split; [reflexivity|]. split; [by apply (bool_decide_unpack _)|]. reflexivity.
Defined.
Lemma swap_slots_never_shared_witness :
  NoDup [0] ∧ swapfile_get_usage 8192 boot2 = Ok 1 boot2.
Proof.
  destruct (swap_slots_never_shared boot SWAPFILE_FN 8192 [12288; 16384] boot1 boot2 [0] boot_free)
    as (H1 & _ & H2).
  - vm_compute. reflexivity.
  - eapply rtc_l; [apply (sstep_alloc 8192 boot1 boot2 0 []); vm_compute; reflexivity|apply rtc_refl].
  - split; [exact H1|exact H2].
Defined.

(** [swapslot_free] undoes [swapslot_alloc] for any swap file with a free
    slot: the slot just freed is the one the next allocation returns. *)
Theorem swapslot_alloc_free_roundtrip s sf r f fs used a s1 :
  sf ≠ 0 → swapfiles s !! sf = Some r → slots_ok r (f :: fs) used →
  swapslot_alloc sf s = Ok a s1 →
  ∃ s2 s3, swapslot_free sf a s1 = Ok tt s2 ∧ swapslot_alloc sf s2 = Ok a s3 ∧
           swapfile_get_usage sf s2 = Ok (sf_usage r) s2.
Proof.
  intros Hsf Hr Hok Hrun.
  destruct (slot_alloc_some _ _ _ _ _ _ Hsf Hr Hok) as (r1 & Hrun1 & Hok1 & _).
  rewrite Hrun in Hrun1. injection Hrun1 as -> ->.
  edestruct (slot_free_some (mkSwapst (frs s) (<[sf:=r1]> (swapfiles s))) sf r1 f fs [] used)
    as (r2 & Hrun2 & Hok2 & _); [done|simpl; apply lookup_insert_eq|done|].
  eexists. edestruct (slot_alloc_some
    (mkSwapst (frs s) (<[sf:=r2]> (<[sf:=r1]> (swapfiles s)))) sf r2 f fs used)
    as (r3 & Hrun3 & _); [done|simpl; apply lookup_insert_eq|done|].
  eexists. split_and!; [exact Hrun2|exact Hrun3|].
  unfold swapfile_get_usage, sf_get, mbind, M_bind. simpl.
  rewrite decide_False, lookup_insert_eq by done.
  destruct Hok as (_ & _ & _ & ->), Hok2 as (_ & _ & _ & ->). done.
Qed.
Lemma swapslot_alloc_free_roundtrip_witness :
  ∃ s2 s3, swapslot_free 8192 0 boot2 = Ok tt s2 ∧ swapslot_alloc 8192 s2 = Ok 0 s3.
Proof.
  destruct (swapslot_alloc_free_roundtrip boot1 8192
    (mkSwapfile (strncpy_path SWAPFILE_FN) VFS_NIL_FILE 0 0 init_slots) 0
    (zseq 1 1012) [] 0 boot2) as (s2 & s3 & H1 & H2 & _).
  - discriminate.
  - vm_compute. reflexivity.
  - exact (init_slots_ok (strncpy_path SWAPFILE_FN)).
  - vm_compute. reflexivity.
  - exists s2, s3. split; [exact H1|exact H2].
Defined.

(** When every slot is in use, [swapslot_alloc] does not return
    [ADDRESS_NONE], which its caller [pagerSwapslotAlloc] tests for: its assertion
    still passes and it reads the slot array at the index [ADDRESS_NONE], out
    of bounds. *)
Theorem swapslot_alloc_full_out_of_bounds s sf r used :
  sf ≠ 0 → swapfiles s !! sf = Some r → slots_ok r [] used →
  Z.of_nat (length used) = SWAPSIZE ∧ swapslot_alloc sf s = Err OutOfRange.
Proof.
  intros Hsf Hr Hok. split; [|by eapply slot_alloc_full].
  pose proof (slots_usage _ _ _ Hok) as [_ Hu]. destruct Hok as (_ & _ & _ & Hus).
  simpl in Hu. lia.
Qed.
Definition full : swapst :=
  mkSwapst FrameClients.booted
    {[ 8192 := mkSwapfile SWAPFILE_FN 3 ADDRESS_NONE SWAPSIZE init_slots ]}.
Lemma full_ok : slots_ok (mkSwapfile SWAPFILE_FN 3 ADDRESS_NONE SWAPSIZE init_slots) []
                         (zseq 0 (Z.to_nat SWAPSIZE)).
Proof. split; [reflexivity|]. split; [reflexivity|]. split; [reflexivity|reflexivity]. Defined.
Lemma swapslot_alloc_full_out_of_bounds_witness : swapslot_alloc 8192 full = Err OutOfRange.
Proof.
  apply (swapslot_alloc_full_out_of_bounds full 8192
    (mkSwapfile SWAPFILE_FN 3 ADDRESS_NONE SWAPSIZE init_slots) (zseq 0 (Z.to_nat SWAPSIZE))).
  - discriminate.
  - reflexivity.
  - exact full_ok.
Defined.
End SwapClients.
