(* ===== verification/State.v ===== *)
(** * The state of SOS

    The data structures of the components, with the field names of the C
    code, and the record of all of them that the handlers run on.  Objects
    obtained from [malloc] and shared by pointer (PCBs, vnodes, pager and NFS
    requests) live in heaps indexed by their address, so that a dangling
    pointer is visible; lists are the abstract lists of [ListC.ListSpec],
    which [list.c] implements. *)
From S2P Require Import Prelude Machine ListC Frames Swapfile.
Import Frames Swapfile.

(** ** Regions ([sos/region.h], [sos/region.c]) *)
Definition REGION_READ : Z := 4.
Definition REGION_WRITE : Z := 2.
Definition REGION_EXECUTE : Z := 1.
Inductive region_type := REGION_STACK | REGION_HEAP | REGION_OTHER | REGION_THREAD_INIT.
#[global] Instance region_type_eq_dec : EqDecision region_type.
Proof. solve_decision. Defined.

(** [filesize] is indeterminate until it is set; [elffile] 0 is NULL. *)
Record Region := mkRegion {
  rtype : region_type;
  base : Z;
  size : Z;
  filesize : option Z;
  rights : Z;
  mapDirectly : bool;
  elffile : Z
}.
Definition region_alloc (type : region_type) (b sz rt : Z) (dirmap : bool) : Region :=
  mkRegion type b sz None rt dirmap 0.
Definition region_get_filesize {S} (r : Region) : M S Z := of_opt Uninit (filesize r).
Definition region_set_rights (r : Region) (v : Z) : Region :=
  mkRegion (rtype r) (base r) (size r) (filesize r) v (mapDirectly r) (elffile r).
Definition region_set_size (r : Region) (v : Z) : Region :=
  mkRegion (rtype r) (base r) v (filesize r) (rights r) (mapDirectly r) (elffile r).
Definition region_set_filesize (r : Region) (v : Z) : Region :=
  mkRegion (rtype r) (base r) (size r) (Some v) (rights r) (mapDirectly r) (elffile r).
Definition region_set_elffile (r : Region) (v : Z) : Region :=
  mkRegion (rtype r) (base r) (size r) (filesize r) (rights r) (mapDirectly r) v.
(** Freeing a region releases the swap file of an executable, but not the
    system-wide one. *)
Definition region_free (r : Region) : M swapst unit :=
  if decide (elffile r ≠ 0) then
    d ← swapfile_is_default (elffile r);
    if (d : bool) then mret tt else swapfile_free (elffile r)
  else mret tt.

(** ** Processes ([libs/sos/include/sos.h], [sos/process.c]) *)
Inductive process_state_t :=
  | PS_STATE_START | PS_STATE_ALIVE | PS_STATE_WAIT | PS_STATE_SLEEP | PS_STATE_ZOMBIE.
Inductive process_type_t := PS_TYPE_PROCESS | PS_TYPE_ROOTTHREAD.
Inductive process_ipcfilt_t :=
  | PS_IPC_NONBLOCKING | PS_IPC_BLOCKING | PS_IPC_ALL | PS_IPC_NONE.
#[global] Instance process_state_eq_dec : EqDecision process_state_t.
Proof. solve_decision. Defined.
#[global] Instance process_type_eq_dec : EqDecision process_type_t.
Proof. solve_decision. Defined.
#[global] Instance process_ipcfilt_eq_dec : EqDecision process_ipcfilt_t.
Proof. solve_decision. Defined.

Record process_t := mkInfo {
  pid : Z;
  psize : Z;
  stime : Z;
  ctime : Z;
  command : cstr;
  state : process_state_t;
  ps_type : process_type_t;
  ipc_accept : process_ipcfilt_t
}.

(** An open file of a process ([sos/vfs.h]). *)
Record VFile := mkVFile { vnode : ptr; fmode : Z; fp : Z; ref : Z }.

Record Process := mkProcess {
  info : process_t;
  pagetable : Z;
  regions : list Region;
  sp : Z;
  ip : Z;
  startedAt : Z;
  fds : list Z;
  files : list VFile;
  waitingOn : Z;
  fin : option cstr
}.
Definition PS_PLACEHOLDER : ptr := Some 1%positive.
Definition WAIT_ANYBODY : Z := -1.
Definition WAIT_NOBODY : Z := -2.

Record procs := mkProcs {
  pcbs : gmap positive Process;
  sosProcs : list ptr;
  nextPid : Z;
  tidOffset : Z;
  last_thread_s : Z;              (* the thread id allocator of libsos.c *)
  last_thread_disabled_s : bool
}.

(** ** The virtual file system ([sos/vfs.h]) *)
(** The file type; the file server's own value is stored without a check. *)
Definition ST_SPECIAL : Z := 0.
Definition ST_FILE : Z := 1.
Definition ST_DIR : Z := 2.
Record stat_t := mkStat {
  st_type : Z;
  st_fmode : Z;
  st_size : Z;
  st_ctime : Z;
  st_atime : Z;
  st2_ctime : Z;
  st2_atime : Z
}.
(** The function pointers of a vnode are either all NULL, or those of one
    file system; [extra] is that file system's data. *)
Inductive fs_ops := FsNone | FsConsole | FsNfs.
#[global] Instance fs_ops_eq_dec : EqDecision fs_ops.
Proof. solve_decision. Defined.
Inductive vextra := ExNull | ExConsole | ExNfs (fh : Z).
#[global] Instance vextra_eq_dec : EqDecision vextra.
Proof. solve_decision. Defined.
Record VNode := mkVNode {
  path : cstr;
  vstat : stat_t;
  Max_Readers : Z;
  Max_Writers : Z;
  readers : Z;
  writers : Z;
  extra : vextra;
  previous : ptr;
  vnext : ptr;
  vops : fs_ops
}.
Record vfs := mkVfs { vnodes : gmap positive VNode; GlobalVNodes : ptr }.

(** The bytes of a [stat_t] and a [process_t]: their layout is the compiler's.
    What SOS relies on is that the one-byte field [st_fmode] is read from where
    it was written. *)
Class StatLayout := {
  stat_bytes : stat_t → list Z;
  st_fmode_off : nat;
  stat_fmode_at : ∀ s, stat_bytes s !! st_fmode_off = Some (u8 (st_fmode s))
}.
Class ProcessLayout := process_bytes : process_t → list Z.

(** ** NFS requests ([sos/nfsfs.c]) *)
Inductive nfs_req :=
  | NFS_LookupRequest (mode : Z)
  | NFS_ReadRequest (file buf pos nbyte : Z)
  | NFS_WriteRequest (file buf offset nbyte : Z)
  | NFS_StatRequest (stat path : Z)
  | NFS_DirRequest (pos buf nbyte cpos : Z)
  | NFS_RemoveRequest (path : Z).
Record NFS_BaseRequest := mkNfsReq {
  token : Z;
  rq_vnode : ptr;
  rq_pid : Z;
  rq_data : nfs_req
}.
Record nfs := mkNfs {
  nfs_heap : gmap positive NFS_BaseRequest;
  NfsRequests : list positive;
  tok : Z
}.

(** ** The console ([sos/console.c]) *)
Record Console_ReadRequest := mkReader {
  r_pid : Z; r_file : Z; r_buf : Z; r_nbyte : Z; r_rbyte : Z
}.
(** [con_buf] holds the first [buf_used] bytes of the output buffer. *)
Record Console_File := mkConsole {
  con_vnode : ptr;
  con_path : cstr;
  con_Max_Readers : Z;
  con_Max_Writers : Z;
  reader : Console_ReadRequest;
  con_buf : list Z
}.

(** ** The pager ([sos/pager.c]) *)
Inductive rtype_t := REQUEST_SWAPOUT | REQUEST_SWAPIN | REQUEST_ELFLOAD.
#[global] Instance rtype_eq_dec : EqDecision rtype_t.
Proof. solve_decision. Defined.
Inductive pr_stage_t :=
  | SWAPIN_OPEN | SWAPIN_LSEEK | SWAPIN_READ | SWAPIN_CLOSE
  | SWAPOUT_OPEN | SWAPOUT_WRITE | SWAPOUT_CLOSE.
#[global] Instance pr_stage_eq_dec : EqDecision pr_stage_t.
Proof. solve_decision. Defined.
(** The functions stored in [swapinFinish] and [callback]. *)
Inductive pr_finish := FinPanic | FinSwapin | FinSwapelf.
Inductive pr_callback := CbNull | CbPagerContinue | CbCopyInContinue | CbCopyOutContinue.
(** [stage], [diskAddr] and [size] are indeterminate until they are set. *)
Record PagerRequest := mkPR {
  pr_stage : option pr_stage_t;
  pr_pid : Z;
  pr_addr : Z;
  pr_diskAddr : option Z;
  pr_sf : Z;
  pr_rights : Z;
  pr_offset : Z;
  pr_size : option Z;
  pr_swapinFinish : pr_finish;
  pr_callback_ : pr_callback
}.
Inductive elfload_stage_t :=
  | ELFLOAD_OPEN | ELFLOAD_CHECK_EXEC | ELFLOAD_READ_HEADER | ELFLOAD_CLOSE.
Record ElfloadRequest := mkER {
  er_stage : elfload_stage_t;
  er_path : cstr;
  er_fd : Z;
  er_parent : Z;
  er_child : option Z;
  er_fdout : option cstr;
  er_fderr : option cstr;
  er_fdin : option cstr
}.
Record pager := mkPager {
  totalPages : Z;
  allocLimit : Z;
  alloced : list (Z * Z);               (* (pid, virtual page) *)
  swapped : list (Z * Z);               (* (pid, disk address) *)
  requests : list (rtype_t * positive);
  requestActive : bool;
  prs : gmap positive PagerRequest;
  ers : gmap positive ElfloadRequest;
  pinnedFrame : Z;
  defaultSwapfile : Z;
  virtualPager : L4_ThreadId_t;
  copyInOutData : list Z
}.

(** ** The clock ([sos/clock.c]): its registers and the sleeping threads,
    with the sentinel node of the list as the last entry.  The timestamp
    register runs on its own: [ts_elapse] holds the ticks that pass after each
    of its next reads. *)
Record clock := mkClock {
  OST_TS : Z;
  ts_elapse : list Z;
  OST_TIM0 : Z;
  OST_TIM0_RL : Z;
  OST_STS : Z;
  ts_overflow : Z;
  blocked_threads : list (L4_ThreadId_t * Z)
}.

(** ** All of SOS *)
Record kstate := mkK {
  k_swap : swapst;
  k_procs : procs;
  k_vfs : vfs;
  k_nfs : nfs;
  k_con : Console_File;
  k_pager : pager;
  k_clock : clock
}.
Abbreviation K := (M kstate).

Definition set_swap v k := mkK v (k_procs k) (k_vfs k) (k_nfs k) (k_con k) (k_pager k) (k_clock k).
Definition set_procs v k := mkK (k_swap k) v (k_vfs k) (k_nfs k) (k_con k) (k_pager k) (k_clock k).
Definition set_vfs v k := mkK (k_swap k) (k_procs k) v (k_nfs k) (k_con k) (k_pager k) (k_clock k).
Definition set_nfs v k := mkK (k_swap k) (k_procs k) (k_vfs k) v (k_con k) (k_pager k) (k_clock k).
Definition set_con v k := mkK (k_swap k) (k_procs k) (k_vfs k) (k_nfs k) v (k_pager k) (k_clock k).
Definition set_pager v k := mkK (k_swap k) (k_procs k) (k_vfs k) (k_nfs k) (k_con k) v (k_clock k).
Definition set_clock v k := mkK (k_swap k) (k_procs k) (k_vfs k) (k_nfs k) (k_con k) (k_pager k) v.

Definition on_swap {A} (m : M swapst A) : K A := zoom k_swap set_swap m.
Definition on_procs {A} (m : M procs A) : K A := zoom k_procs set_procs m.
Definition on_vfs {A} (m : M vfs A) : K A := zoom k_vfs set_vfs m.
Definition on_nfs {A} (m : M nfs A) : K A := zoom k_nfs set_nfs m.
Definition on_pager {A} (m : M pager A) : K A := zoom k_pager set_pager m.
Definition on_clock {A} (m : M clock A) : K A := zoom k_clock set_clock m.
Definition on_fr {A} (m : M frames A) : K A := on_swap (on_frames m).

Definition kmach (k : kstate) : machine := mach (frs (k_swap k)).
Definition set_kmach (v : machine) (k : kstate) : kstate :=
  set_swap (set_frs (set_mach v (frs (k_swap k))) (k_swap k)) k.
Definition on_mach {A} (m : M machine A) : K A := zoom kmach set_kmach m.
Definition klog (k : kstate) : list event := log (kmach k).

Definition emit (e : event) : K unit := on_mach (modify (emit_ev e)).
Definition printf (what : string) : K unit := emit (Printf (bytes_of_string what)).
Definition kmalloc : K ptr := on_mach malloc.
(** A block from [malloc] that the caller uses without checking for NULL. *)
Definition kmalloc_nocheck : K positive := p ← kmalloc; of_opt NullDeref p.
(** The NUL-terminated string at an offset of [copyInOutBuffer]; a run of bytes
    that are not NUL is no longer than the memory that holds them. *)
Definition cbuf_str (b : memory) (off : Z) : cstr := strn_at b off (S (base.size b)).
Definition get_cbuf : K memory := gets (λ k, cbuf (kmach k)).
Definition put_cbuf (b : memory) : K unit := on_mach (modify (set_cbuf b)).

(** [ipc_send_simple_n] of [libs/sos/src/ipc.c], with the label still symbolic. *)
Definition ipc_send_simple (to : L4_ThreadId_t) (label : syscall_t) (how : ipc_type_t)
    (words : list Z) : K unit :=
  emit (L4_Ipc to label how (w32 <$> words)).

(** Access to the PCBs through a [Process *]. *)
Definition pcb_get (p : ptr) : M procs Process := λ s,
  match p with
  | None => Err NullDeref
  | Some l => match pcbs s !! l with Some x => Ok x s | None => Err BadPtr end
  end.
Definition set_pcbs v s := mkProcs v (sosProcs s) (nextPid s) (tidOffset s)
                                   (last_thread_s s) (last_thread_disabled_s s).
Definition pcb_upd (p : ptr) (f : Process → Process) : M procs unit := λ s,
  match p with
  | None => Err NullDeref
  | Some l => match pcbs s !! l with
              | Some x => Ok tt (set_pcbs (<[l := f x]> (pcbs s)) s)
              | None => Err BadPtr
              end
  end.

(** Field updates of the PCB. *)
Definition set_info v p := mkProcess v (pagetable p) (regions p) (sp p) (ip p) (startedAt p)
                                     (fds p) (files p) (waitingOn p) (fin p).
Definition set_regions v p := mkProcess (info p) (pagetable p) v (sp p) (ip p) (startedAt p)
                                     (fds p) (files p) (waitingOn p) (fin p).
Definition set_sp v p := mkProcess (info p) (pagetable p) (regions p) v (ip p) (startedAt p)
                                     (fds p) (files p) (waitingOn p) (fin p).
Definition set_ip v p := mkProcess (info p) (pagetable p) (regions p) (sp p) v (startedAt p)
                                     (fds p) (files p) (waitingOn p) (fin p).
Definition set_startedAt v p := mkProcess (info p) (pagetable p) (regions p) (sp p) (ip p) v
                                     (fds p) (files p) (waitingOn p) (fin p).
Definition set_fds v p := mkProcess (info p) (pagetable p) (regions p) (sp p) (ip p) (startedAt p)
                                     v (files p) (waitingOn p) (fin p).
Definition set_files v p := mkProcess (info p) (pagetable p) (regions p) (sp p) (ip p) (startedAt p)
                                     (fds p) v (waitingOn p) (fin p).
Definition set_waitingOn v p := mkProcess (info p) (pagetable p) (regions p) (sp p) (ip p)
                                     (startedAt p) (fds p) (files p) v (fin p).
Definition set_fin v p := mkProcess (info p) (pagetable p) (regions p) (sp p) (ip p) (startedAt p)
                                     (fds p) (files p) (waitingOn p) v.
Definition set_pid v i := mkInfo v (psize i) (stime i) (ctime i) (command i) (state i) (ps_type i)
                                 (ipc_accept i).
Definition set_psize v i := mkInfo (pid i) v (stime i) (ctime i) (command i) (state i) (ps_type i)
                                   (ipc_accept i).
Definition set_stime v i := mkInfo (pid i) (psize i) v (ctime i) (command i) (state i) (ps_type i)
                                   (ipc_accept i).
Definition set_command v i := mkInfo (pid i) (psize i) (stime i) (ctime i) v (state i) (ps_type i)
                                     (ipc_accept i).
Definition set_state v i := mkInfo (pid i) (psize i) (stime i) (ctime i) (command i) v (ps_type i)
                                   (ipc_accept i).
Definition set_ps_type v i := mkInfo (pid i) (psize i) (stime i) (ctime i) (command i) (state i) v
                                     (ipc_accept i).
Definition set_ipc_accept v i := mkInfo (pid i) (psize i) (stime i) (ctime i) (command i) (state i)
                                        (ps_type i) v.
Definition upd_info (f : process_t → process_t) (p : Process) : Process := set_info (f (info p)) p.
