(* ===== verification/Pagetable.v ===== *)
(** * Page tables ([sos/pager.c])

    A page table is two levels of frames: 1024 words of the first frame point
    to second-level frames, whose words are the entries.  The model keeps both
    levels in the byte memory, with the frames taken from the frame allocator.
    The theorems show that this structure implements a map from virtual pages
    to entries. *)
From S2P Require Import Prelude Machine ListC Frames Swapfile State.
Import Frames.

Module Pagetable.
(** [&pt->pages2[i]] and [&pt2->pages[i]] *)
Definition word_at (base i : Z) : Z := base + 4 * i.

Definition pagetable_init : M frames Z :=
  pt ← frame_alloc FA_PAGETABLE1;
  forM (zseq 0 (Z.to_nat PAGEWORDS)) (λ i, deref pt;; write_word (word_at pt i) 0);;
  mret pt.

Definition offset1 (addr : Z) : Z := addr / PAGESIZE / PAGEWORDS.
Definition offset2 (addr : Z) : Z := addr / PAGESIZE - offset1 addr * PAGEWORDS.

(** The address of the entry for [addr]; 0 stands for NULL. *)
Definition pagetableLookup (pt addr : Z) : M frames Z :=
  if decide (pt = 0) then mret 0
  else
    let slot := word_at pt (offset1 addr) in
    p2 ← read_word slot;
    (if decide (p2 = 0) then
       f ← frame_alloc FA_PAGETABLE2;
       write_word slot f;;
       forM (zseq 0 (Z.to_nat PAGEWORDS)) (λ i,
         p2 ← read_word slot; deref p2;; write_word (word_at p2 i) 0)
     else mret tt);;
    p2 ← read_word slot;
    mret (word_at p2 (offset2 addr)).

(** [pagetableFree], from the table's address on. *)
Definition pagetableFree (pt1 : Z) : M frames unit :=
  cassert "pt1 != NULL" (bool_decide (pt1 ≠ 0));;
  forM (zseq 0 (Z.to_nat PAGEWORDS)) (λ i,
    p2 ← read_word (word_at pt1 i);
    when (bool_decide (p2 ≠ 0)) (frame_free p2));;
  frame_free pt1.

(** ** The abstract page table *)
Definition l1 (m : memory) (pt i : Z) : Z := load32 m (word_at pt i).
Definition pt_get (m : memory) (pt addr : Z) : Z :=
  if decide (l1 m pt (offset1 addr) = 0) then 0
  else load32 m (word_at (l1 m pt (offset1 addr)) (offset2 addr)).
Definition same_page (a b : Z) : bool := a / PAGESIZE =? b / PAGESIZE.

(** A well-formed table beside the free frames [fs]. *)
Record pt_ok (m : memory) (pt : Z) (fs : list Z) : Prop := {
  pt_addr : frame_addr pt;
  pt_notfree : pt ∉ fs;
  pt_l2 : ∀ i, 0 ≤ i < PAGEWORDS →
    l1 m pt i = 0 ∨ (frame_addr (l1 m pt i) ∧ l1 m pt i ≠ pt ∧ l1 m pt i ∉ fs);
  pt_inj : ∀ i j, 0 ≤ i < PAGEWORDS → 0 ≤ j < PAGEWORDS →
    l1 m pt i = l1 m pt j → l1 m pt i ≠ 0 → i = j
}.

(** ** Addresses *)
Definition in_frame (f a : Z) : Prop := f ≤ a ∧ a + 4 ≤ f + PAGESIZE.

Lemma offset1_range a : is_word a → 0 ≤ offset1 a < PAGEWORDS.
Proof.
  unfold is_word, offset1. change PAGEWORDS with 1024. change PAGESIZE with 4096.
  intros. rewrite Z.div_div by lia. split; [apply Z.div_pos; lia|].
  apply Z.div_lt_upper_bound; lia.
Qed.
Lemma offset2_mod a : offset2 a = (a / PAGESIZE) mod PAGEWORDS.
Proof.
  unfold offset2, offset1. change PAGEWORDS with 1024.
  pose proof (Z.div_mod (a / PAGESIZE) 1024). lia.
Qed.
Lemma offset2_range a : 0 ≤ offset2 a < PAGEWORDS.
Proof. rewrite offset2_mod. apply Z.mod_pos_bound. by vm_compute. Qed.
Lemma offsets_inj a b :
  offset1 a = offset1 b → offset2 a = offset2 b → a / PAGESIZE = b / PAGESIZE.
Proof. unfold offset2. intros ->. lia. Qed.
Lemma word_at_in f i : 0 ≤ i < PAGEWORDS → in_frame f (word_at f i).
Proof. unfold in_frame, word_at. change PAGEWORDS with 1024. change PAGESIZE with 4096. lia. Qed.
Lemma in_frame_disjoint f g a b :
  frame_addr f → frame_addr g → f ≠ g → in_frame f a → in_frame g b → word_disjoint a b.
Proof.
  intros Hf Hg Hne [??] [??]. unfold word_disjoint.
  destruct (frame_addr_disjoint f g Hf Hg Hne); lia.
Qed.
Lemma word_at_disjoint f i j : i ≠ j → word_disjoint (word_at f i) (word_at f j).
Proof. unfold word_disjoint, word_at. lia. Qed.
#[local] Hint Resolve offset1_range offset2_range word_at_in : sos.

(** ** Clearing a frame *)
Definition clear_body (f i : Z) : M frames unit := deref f;; write_word (word_at f i) 0.

Lemma set_fmem_id s : set_fmem (fmem s) s = s.
Proof. by destruct s as [[]]. Qed.
Lemma set_fmem_twice m m' s : set_fmem m (set_fmem m' s) = set_fmem m s.
Proof. done. Qed.

Lemma clear_loop f (n : nat) : f ≠ 0 → ∀ k s, ∃ m',
  forM (zseq k n) (clear_body f) s = Ok tt (set_fmem m' s) ∧
  (∀ i, k ≤ i < k + n → load32 m' (word_at f i) = 0) ∧
  (∀ a, (∀ i, k ≤ i < k + n → word_disjoint (word_at f i) a) → load32 m' a = load32 (fmem s) a).
Proof.
  intros Hf. induction n as [|n IH]; intros k s.
  - exists (fmem s). rewrite set_fmem_id. split; [done|]. split; [lia|done].
  - rewrite zseq_S. cbn [forM].
    destruct (IH (k + 1) (set_fmem (store32 (fmem s) (word_at f k) 0) s)) as (m' & Hrun & Hz & Ho).
    exists m'. split.
    { rewrite (bind_ok _ _ s tt (set_fmem (store32 (fmem s) (word_at f k) 0) s)).
      - exact Hrun.
      - unfold clear_body. by rewrite (bind_ok _ _ _ _ _ (deref_ok f s Hf)). }
    split.
    + intros i Hi. destruct (decide (i = k)) as [->|Hne]; [|apply Hz; lia].
      rewrite Ho by (intros; apply word_at_disjoint; lia).
      apply load32_store32_eq. unfold is_word. lia.
    + intros a Ha. rewrite Ho by (intros; apply Ha; lia).
      apply load32_store32_ne. apply Ha. lia.
Qed.

(** The second-level loop reads its table's address again in every round. *)
Definition fill_body (slot i : Z) : M frames unit :=
  p2 ← read_word slot; deref p2;; write_word (word_at p2 i) 0.

Lemma fill_loop slot f (n : nat) : f ≠ 0 → ∀ k s, load32 (fmem s) slot = f →
  (∀ i, k ≤ i < k + n → word_disjoint (word_at f i) slot) →
  forM (zseq k n) (fill_body slot) s = forM (zseq k n) (clear_body f) s.
Proof.
  intros Hf. induction n as [|n IH]; intros k s Hs Hd; [done|].
  rewrite zseq_S. cbn [forM].
  assert (∀ b, b = fill_body slot ∨ b = clear_body f →
    b k s = Ok tt (set_fmem (store32 (fmem s) (word_at f k) 0) s)) as Hb.
  { intros b [-> | ->]; unfold fill_body, clear_body.
    - rewrite (bind_ok _ _ s f s) by (by rewrite <- Hs).
      by rewrite (bind_ok _ _ _ _ _ (deref_ok f s Hf)).
    - by rewrite (bind_ok _ _ _ _ _ (deref_ok f s Hf)). }
  rewrite !(bind_ok _ _ _ _ _ (Hb _ (or_introl eq_refl))),
          !(bind_ok _ _ _ _ _ (Hb _ (or_intror eq_refl))).
  apply IH; [|intros; apply Hd; lia].
  unfold fmem at 1. simpl. rewrite load32_store32_ne by (apply Hd; lia). done.
Qed.

(** ** [pagetable_init] *)
Lemma free_list_mem s fs m :
  free_list s fs → (∀ f, f ∈ fs → load32 m f = load32 (fmem s) f) →
  free_list (set_fmem m s) fs.
Proof.
  intros [Hc Hnd] Hm. split; [|done]. unfold fmem. simpl. by apply (chain_ext (fmem s)).
Qed.

Lemma load_free_other s fs f g a :
  free_list s fs → frame_addr f → f ∉ fs → g ∈ fs → in_frame f a → word_disjoint a g.
Proof.
  intros [Hc _] Hf Hni Hg Ha. apply (in_frame_disjoint f g); try done.
  - by eapply chain_addr.
  - by intros ->.
  - unfold in_frame. change PAGESIZE with 4096. lia.
Qed.

Lemma pagetable_init_spec s f fs :
  free_list s (f :: fs) →
  ∃ s', pagetable_init s = Ok f s' ∧ free_list s' fs ∧ pt_ok (fmem s') f fs ∧
        (∀ i, 0 ≤ i < PAGEWORDS → l1 (fmem s') f i = 0) ∧
        (∀ a, (∀ i, 0 ≤ i < PAGEWORDS → word_disjoint (word_at f i) a) →
              load32 (fmem s') a = load32 (fmem s) a).
Proof.
  intros Hfl. pose proof Hfl as [(_ & Hf & _) [Hni _]%NoDup_cons].
  destruct (alloc_some s f fs FA_PAGETABLE1 Hfl) as (s1 & Hrun & Hfl1 & Hm & _).
  assert (f ≠ 0) as Hf0 by (unfold frame_addr in Hf; lia).
  destruct (clear_loop f (Z.to_nat PAGEWORDS) Hf0 0 s1) as (m' & Hloop & Hz & Ho).
  assert (∀ i, 0 ≤ i < PAGEWORDS → l1 m' f i = 0) as Hl1.
  { intros i Hi. apply Hz. change (Z.to_nat PAGEWORDS : Z) with PAGEWORDS. lia. }
  exists (set_fmem m' s1). split; [|split; [|split; [|split]]].
  - unfold pagetable_init. rewrite (bind_ok _ _ _ _ _ Hrun).
    by rewrite (bind_ok _ _ _ _ _ Hloop).
  - apply free_list_mem; [done|]. intros g Hg. apply Ho. intros i Hi.
    eapply load_free_other; eauto. apply word_at_in.
    by change (Z.to_nat PAGEWORDS : Z) with PAGEWORDS in Hi.
  - unfold fmem. simpl. split; [done|done| |].
    + intros i Hi. left. by apply Hl1.
    + intros i j Hi _ _ Hne. by rewrite Hl1 in Hne.
  - exact Hl1.
  - intros a Ha. unfold fmem at 1. simpl. rewrite Ho.
    + unfold fmem. by rewrite Hm.
    + intros i Hi. by apply Ha.
Qed.

(** ** [pagetableLookup] *)
(** What a lookup may do to the rest of memory: it writes to the table and to
    the frames it takes from the free list. *)
Definition lookup_post (pt addr : Z) (s : frames) (fs : list Z) (e : Z) (s' : frames) : Prop :=
  let p2 := l1 (fmem s') pt (offset1 addr) in
  e = word_at p2 (offset2 addr) ∧ p2 ≠ 0 ∧
  (∃ fs', free_list s' fs' ∧ pt_ok (fmem s') pt fs' ∧
          (fs' = fs ∨ ∃ f, fs = f :: fs')) ∧
  (∀ a, is_word a → pt_get (fmem s') pt a = pt_get (fmem s) pt a) ∧
  (∀ g a, frame_addr g → g ≠ pt → g ∉ fs → in_frame g a →
          load32 (fmem s') a = load32 (fmem s) a) ∧
  (p2 = l1 (fmem s) pt (offset1 addr) ∨ p2 ∈ fs) ∧
  totalFrames s' = totalFrames s ∧ log (mach s') = log (mach s).

Lemma lookup_hit s pt addr fs :
  is_word addr → free_list s fs → pt_ok (fmem s) pt fs →
  l1 (fmem s) pt (offset1 addr) ≠ 0 →
  pagetableLookup pt addr s =
    Ok (word_at (l1 (fmem s) pt (offset1 addr)) (offset2 addr)) s.
Proof.
  intros Ha Hfl Hok Hne. unfold pagetableLookup.
  rewrite decide_False by (pose proof (pt_addr _ _ _ Hok); unfold frame_addr in *; lia).
  erewrite bind_ok by reflexivity. fold (l1 (fmem s) pt (offset1 addr)).
  by rewrite decide_False.
Qed.

(** A miss: the state after the new second-level frame is linked and cleared. *)
Definition after_miss (pt addr f : Z) (s : frames) (m' : memory) : Prop :=
  l1 m' pt (offset1 addr) = f ∧
  (∀ i, 0 ≤ i < PAGEWORDS → load32 m' (word_at f i) = 0) ∧
  (∀ a, word_disjoint (word_at pt (offset1 addr)) a →
        (∀ i, 0 ≤ i < PAGEWORDS → word_disjoint (word_at f i) a) →
        load32 m' a = load32 (fmem s) a).

Lemma lookup_miss_run s pt addr f fs :
  is_word addr → free_list s (f :: fs) → pt_ok (fmem s) pt (f :: fs) →
  l1 (fmem s) pt (offset1 addr) = 0 →
  ∃ s1 m', frame_alloc FA_PAGETABLE2 s = Ok f s1 ∧ after_miss pt addr f s m' ∧
    pagetableLookup pt addr s = Ok (word_at f (offset2 addr)) (set_fmem m' s1).
Proof.
  intros Ha Hfl Hok Hz. pose proof (pt_addr _ _ _ Hok) as Hpt.
  pose proof Hfl as [(_ & Hf & _) _]. pose proof (offset1_range _ Ha) as Ho1.
  assert (f ≠ pt) as Hne by (intros ->; apply (pt_notfree _ _ _ Hok); by left).
  destruct (alloc_some s f fs FA_PAGETABLE2 Hfl) as (s1 & Hal & _ & Hm & _).
  assert (f ≠ 0) as Hf0 by (unfold frame_addr in Hf; lia).
  set (slot := word_at pt (offset1 addr)) in *.
  set (s2 := set_fmem (store32 (fmem s1) slot f) s1).
  assert (∀ i, 0 ≤ i < PAGEWORDS → word_disjoint (word_at f i) slot) as Hds.
  { intros i Hi. apply (in_frame_disjoint f pt); auto with sos. by apply word_at_in. }
  assert (load32 (fmem s2) slot = f) as Hs2.
  { unfold s2, fmem. simpl. by apply load32_store32_eq, frame_addr_word. }
  destruct (clear_loop f (Z.to_nat PAGEWORDS) Hf0 0 s2) as (m' & Hloop & Hzero & Hother).
  change (Z.to_nat PAGEWORDS : Z) with PAGEWORDS in *. rewrite Z.add_0_l in *.
  rewrite <- (fill_loop slot) in Hloop by done.
  assert (load32 m' slot = f) as Hslot by (by rewrite Hother).
  exists s1, m'. split; [done|]. split; [split; [exact Hslot|split; [exact Hzero|]]|].
  - intros a Hd1 Hd2. rewrite Hother by done. unfold s2. unfold fmem at 1. simpl.
    rewrite load32_store32_ne by done. unfold fmem. by rewrite Hm.
  - unfold pagetableLookup. rewrite decide_False by (unfold frame_addr in Hpt; lia).
    fold slot. rewrite (bind_ok _ _ s 0 s) by (unfold read_word, gets; by rewrite <- Hz).
    rewrite decide_True by done. rewrite (bind_ok _ _ s tt (set_fmem m' s1)).
    + rewrite (bind_ok _ _ _ f (set_fmem m' s1)); [done|].
      unfold read_word, gets, fmem. simpl. by rewrite Hslot.
    + rewrite (bind_ok _ _ _ _ _ Hal). rewrite (bind_ok _ _ s1 tt s2) by done. exact Hloop.
Qed.

Lemma miss_l1 s pt addr f fs m' i :
  is_word addr → frame_addr f → pt_ok (fmem s) pt (f :: fs) → after_miss pt addr f s m' →
  0 ≤ i < PAGEWORDS → i ≠ offset1 addr → l1 m' pt i = l1 (fmem s) pt i.
Proof.
  intros Ha Hf Hok (_ & _ & Ho) Hi Hne. apply Ho; [apply word_at_disjoint; lia|].
  intros j Hj. apply (in_frame_disjoint f pt); eauto using pt_addr, word_at_in.
  intros ->. apply (pt_notfree _ _ _ Hok). by left.
Qed.

(** Lookups do not change the abstract table. *)
Lemma miss_get s pt addr f fs m' a :
  is_word addr → frame_addr f → pt_ok (fmem s) pt (f :: fs) → after_miss pt addr f s m' →
  l1 (fmem s) pt (offset1 addr) = 0 → is_word a → pt_get m' pt a = pt_get (fmem s) pt a.
Proof.
  intros Hw Hf Hok Hmiss Hz Ha. pose proof Hmiss as (Hs & Hzero & Ho). unfold pt_get.
  destruct (decide (offset1 a = offset1 addr)) as [Heq|Hne].
  - rewrite Heq, Hs, Hz. rewrite decide_False by (unfold frame_addr in Hf; lia).
    rewrite decide_True by done. apply Hzero, offset2_range.
  - rewrite (miss_l1 s pt addr f fs) by (auto with sos). case_decide as Hd; [done|].
    destruct (pt_l2 _ _ _ Hok (offset1 a)) as [|(Hfa & Hnpt & Hnf)]; [auto with sos|done|].
    apply Ho.
    + apply (in_frame_disjoint pt (l1 (fmem s) pt (offset1 a)));
        eauto using pt_addr, word_at_in, offset1_range, offset2_range.
    + intros j Hj. apply (in_frame_disjoint f (l1 (fmem s) pt (offset1 a)));
        eauto using word_at_in, offset2_range. intros ->. apply Hnf. by left.
Qed.

Lemma miss_ok s pt addr f fs m' :
  is_word addr → frame_addr f → f ∉ fs → pt_ok (fmem s) pt (f :: fs) →
  after_miss pt addr f s m' → pt_ok m' pt fs.
Proof.
  intros Hw Hf Hni Hok Hmiss. pose proof Hmiss as (Hs & _ & _).
  assert (∀ i, 0 ≤ i < PAGEWORDS → i ≠ offset1 addr → l1 m' pt i = l1 (fmem s) pt i) as Hl
    by (intros; by eapply miss_l1).
  assert (f ≠ pt) as Hne by (intros ->; apply (pt_notfree _ _ _ Hok); by left).
  assert (∀ i, 0 ≤ i < PAGEWORDS → l1 (fmem s) pt i = f → False) as Hnf.
  { intros i Hi Hif. destruct (pt_l2 _ _ _ Hok i Hi) as [H0|(_ & _ & H0)].
    - unfold frame_addr in Hf. lia.
    - apply H0. rewrite Hif. by left. }
  split.
  - by eapply pt_addr.
  - intros ?. apply (pt_notfree _ _ _ Hok). by right.
  - intros i Hi. destruct (decide (i = offset1 addr)) as [->|Hn].
    + rewrite Hs. by right.
    + rewrite Hl by done. destruct (pt_l2 _ _ _ Hok i Hi) as [|(?&?&H3)]; [by left|right].
      split_and!; [done..|]. intros ?. apply H3. by right.
  - intros i j Hi Hj. destruct (decide (i = offset1 addr)) as [->|Hn1],
      (decide (j = offset1 addr)) as [->|Hn2]; rewrite ?Hs, ?Hl by done; try done.
    + intros Heq _. exfalso. by apply (Hnf j).
    + intros Heq _. exfalso. by apply (Hnf i).
    + by apply (pt_inj _ _ _ Hok).
Qed.

Lemma lookup_spec s pt addr fs :
  is_word addr → free_list s fs → pt_ok (fmem s) pt fs →
  l1 (fmem s) pt (offset1 addr) ≠ 0 ∨ fs ≠ [] →
  ∃ e s', pagetableLookup pt addr s = Ok e s' ∧ lookup_post pt addr s fs e s'.
Proof.
  intros Hw Hfl Hok Hor. destruct (decide (l1 (fmem s) pt (offset1 addr) = 0)) as [Hz|Hnz].
  - destruct fs as [|f fs]; [by destruct Hor|].
    destruct (lookup_miss_run s pt addr f fs) as (s1 & m' & Hal & Hmiss & Hrun); [done..|].
    pose proof Hfl as [(_ & Hf & _) [Hni _]%NoDup_cons].
    destruct (alloc_some s f fs FA_PAGETABLE2 Hfl) as (s1' & Hal' & Hfl1 & Hm & _ & Ht).
    same_run. exists (word_at f (offset2 addr)), (set_fmem m' s1'). split; [done|].
    pose proof Hmiss as (Hs & Hzero & Ho). unfold lookup_post, fmem. simpl. rewrite Hs.
    split; [done|]. split; [unfold frame_addr in Hf; lia|]. split; [|split; [|split; [|split; [|split]]]].
    + exists fs. split; [|split; [by eapply miss_ok|right; by exists f]].
      apply free_list_mem; [done|]. intros g Hg. unfold fmem. rewrite Hm. apply Ho.
      * eapply load_free_other; [done|by eapply pt_addr|intros ?; eapply pt_notfree; [done|by right]
          |done|apply word_at_in, offset1_range; done].
      * intros i Hi. eapply load_free_other; eauto using word_at_in.
    + intros a Ha. by apply (miss_get s pt addr f fs).
    + intros g a Hg Hgpt Hgfs Hin. apply Ho.
      * apply (in_frame_disjoint pt g); eauto using pt_addr, word_at_in, offset1_range.
      * intros i Hi. apply (in_frame_disjoint f g); eauto using word_at_in.
        intros ->. apply Hgfs. by left.
    + right. by left.
    + done.
    + by rewrite Hm.
  - eexists _, s. split; [by eapply lookup_hit|]. split; [done|]. split; [done|].
    split; [exists fs; split_and!; [done|done|by left]|]. split; [done|]. split; [done|].
    split; [by left|done].
Qed.

(** Without a free frame a miss writes through NULL. *)
Lemma lookup_oom s pt addr :
  is_word addr → free_list s [] → pt_ok (fmem s) pt [] →
  l1 (fmem s) pt (offset1 addr) = 0 → pagetableLookup pt addr s = Err NullDeref.
Proof.
  intros Ha Hfl Hok Hz. pose proof (pt_addr _ _ _ Hok) as Hpt. unfold pagetableLookup.
  rewrite decide_False by (unfold frame_addr in Hpt; lia).
  rewrite (bind_ok _ _ s 0 s) by (unfold read_word, gets; by rewrite <- Hz).
  rewrite decide_True by done. apply bind_err.
  rewrite (bind_ok _ _ _ _ _ (alloc_none s FA_PAGETABLE2 Hfl)).
  rewrite (bind_ok _ _ s tt (set_fmem (store32 (fmem s) (word_at pt (offset1 addr)) 0) s)) by done.
  change (Z.to_nat PAGEWORDS) with (S 1023). rewrite zseq_S. cbn [forM]. apply bind_err.
  rewrite (bind_ok _ _ _ 0 (set_fmem (store32 (fmem s) (word_at pt (offset1 addr)) 0) s)); [done|].
  unfold read_word, gets, fmem. simpl. rewrite load32_store32_eq by (unfold is_word; lia). done.
Qed.

(** ** Writing an entry *)
Lemma entry_write m pt fs addr v :
  is_word addr → is_word v → pt_ok m pt fs → l1 m pt (offset1 addr) ≠ 0 →
  let e := word_at (l1 m pt (offset1 addr)) (offset2 addr) in
  (∀ i, 0 ≤ i < PAGEWORDS → l1 (store32 m e v) pt i = l1 m pt i) ∧
  pt_ok (store32 m e v) pt fs ∧
  (∀ a, is_word a → pt_get (store32 m e v) pt a = if same_page addr a then v else pt_get m pt a).
Proof.
  intros Hw Hv Hok Hnz e. pose proof (offset1_range _ Hw) as Ho1.
  destruct (pt_l2 _ _ _ Hok _ Ho1) as [|(Hp2 & Hpne & Hpnf)]; [done|].
  assert (∀ i, 0 ≤ i < PAGEWORDS → l1 (store32 m e v) pt i = l1 m pt i) as Hl.
  { intros i Hi. apply load32_store32_ne.
    eapply in_frame_disjoint; [apply Hp2|by eapply pt_addr|done|..];
      apply word_at_in; auto with sos. }
  split; [done|]. split.
  - destruct Hok as [H1 H2 H3 H4]. split; [done|done| |].
    + intros i Hi. rewrite Hl by done. by apply H3.
    + intros i j Hi Hj. rewrite !Hl by done. by apply H4.
  - intros a Ha. pose proof (offset1_range _ Ha) as Hoa. unfold pt_get. rewrite Hl by done.
    unfold same_page. destruct (Z.eqb_spec (addr / PAGESIZE) (a / PAGESIZE)) as [Heq|Hne].
    + assert (offset1 a = offset1 addr) as -> by (unfold offset1; by rewrite Heq).
      assert (offset2 a = offset2 addr) as -> by (rewrite !offset2_mod; by rewrite Heq).
      rewrite decide_False by done. by apply load32_store32_eq.
    + case_decide as Hd; [done|]. apply load32_store32_ne.
      destruct (decide (offset1 a = offset1 addr)) as [He1|He1].
      * rewrite He1. apply word_at_disjoint. intros He2. apply Hne. by apply offsets_inj.
      * destruct (pt_l2 _ _ _ Hok _ Hoa) as [|(Hq2 & _)]; [done|].
        eapply in_frame_disjoint; [apply Hp2|apply Hq2| |apply word_at_in, offset2_range..].
        intros Heq. apply He1. symmetry. by eapply pt_inj.
Qed.

Lemma entry_write_free s pt fs addr v :
  is_word addr → free_list s fs → pt_ok (fmem s) pt fs → l1 (fmem s) pt (offset1 addr) ≠ 0 →
  free_list (set_fmem (store32 (fmem s)
    (word_at (l1 (fmem s) pt (offset1 addr)) (offset2 addr)) v) s) fs.
Proof.
  intros Hw Hfl Hok Hnz. apply free_list_mem; [done|]. intros g Hg.
  apply load32_store32_ne.
  destruct (pt_l2 _ _ _ Hok (offset1 addr)) as [|(Hp2 & _ & Hnf)]; [auto with sos|done|].
  eapply load_free_other; eauto. apply word_at_in, offset2_range.
Qed.

(** ** [pagetableFree] *)
Definition free_body (pt i : Z) : M frames unit :=
  p2 ← read_word (word_at pt i); when (bool_decide (p2 ≠ 0)) (frame_free p2).

(** The frames the loop frees, as the caller sees the table. *)
Definition l2_frames (m : memory) (pt : Z) (is_ : list Z) : list Z :=
  filter (λ w, w ≠ 0) (l1 m pt <$> is_).

Lemma free_loop pt n : ∀ k s fs, 0 ≤ k → k + Z.of_nat n ≤ PAGEWORDS →
  free_list s fs → frame_addr pt → pt ∉ fs →
  (∀ i, k ≤ i < k + Z.of_nat n → l1 (fmem s) pt i = 0 ∨
     (frame_addr (l1 (fmem s) pt i) ∧ l1 (fmem s) pt i ≠ pt ∧ l1 (fmem s) pt i ∉ fs)) →
  NoDup (l2_frames (fmem s) pt (zseq k n)) →
  ∃ s', forM (zseq k n) (free_body pt) s = Ok tt s' ∧
    free_list s' (reverse (l2_frames (fmem s) pt (zseq k n)) ++ fs) ∧
    totalInUse s' = totalInUse s - length (l2_frames (fmem s) pt (zseq k n)) ∧
    (∀ g a, frame_addr g → g ∉ l2_frames (fmem s) pt (zseq k n) → in_frame g a →
      load32 (fmem s') a = load32 (fmem s) a).
Proof.
  induction n as [|n IH]; intros k s fs Hk Hkn Hfl Hpt Hptf Hl2 Hnd.
  { exists s. split; [done|]. split; [done|]. split; [simpl; lia|done]. }
  rewrite zseq_S in *. cbn [forM]. unfold l2_frames in *. cbn [fmap list_fmap] in *.
  set (p2 := l1 (fmem s) pt k) in *. rewrite filter_cons in *.
  destruct (decide (p2 = 0)) as [Hp0|Hp0].
  - rewrite decide_False in Hnd |- * by (intros []; done).
    destruct (IH (k + 1) s fs) as (s' & Hrun & Hfl' & Hu & Hkp); [lia|lia|done..| |done|].
    { intros i Hi. apply Hl2. lia. }
    exists s'. split; [|done]. rewrite (bind_ok _ _ s tt s); [done|].
    unfold free_body. rewrite (bind_ok _ _ s p2 s) by reflexivity.
    rewrite bool_decide_false by (intros []; done). done.
  - rewrite decide_True in Hnd |- * by done. apply NoDup_cons in Hnd as [Hni Hnd].
    destruct (Hl2 k) as [|(Hfa & Hne & Hnf)]; [lia|done|]. fold p2 in Hfa, Hne, Hnf.
    destruct (free_some s p2 fs Hfl Hfa Hnf) as (s1 & Hrun1 & Hfl1 & Hm1 & _ & Hu1 & _).
    assert (∀ i, 0 ≤ i < PAGEWORDS → l1 (fmem s1) pt i = l1 (fmem s) pt i) as Hl.
    { intros i Hi. unfold l1. rewrite Hm1. apply load32_store32_ne.
      eapply in_frame_disjoint; [apply Hfa|apply Hpt|done| |by apply word_at_in].
      unfold in_frame. change PAGESIZE with 4096. lia. }
    assert (l1 (fmem s1) pt <$> zseq (k + 1) n = l1 (fmem s) pt <$> zseq (k + 1) n) as Hmap.
    { apply list_fmap_ext. intros j i Hi. apply Hl.
      apply list_elem_of_lookup_2, elem_of_zseq in Hi. lia. }
    destruct (IH (k + 1) s1 (p2 :: fs)) as (s' & Hrun & Hfl' & Hu & Hkp); rewrite ?Hmap in *;
      [lia|lia|done|done|by intros [Heq|?]%elem_of_cons; [apply Hne|]| |done|].
    { intros i Hi. rewrite !Hl by lia. destruct (Hl2 i) as [|(?&?&?)]; [lia|by left|].
      destruct (decide (l1 (fmem s) pt i = 0)) as [|Hi0]; [by left|right].
      split_and!; [done..|]. intros [Heq|]%elem_of_cons; [|done]. apply Hni.
      apply list_elem_of_filter. split; [done|]. rewrite <- Heq.
      apply list_elem_of_fmap. exists i. split; [done|]. apply elem_of_zseq. lia. }
    exists s'. split; [|split; [|split]].
    + rewrite (bind_ok _ _ s tt s1); [done|]. unfold free_body.
      rewrite (bind_ok _ _ s p2 s) by reflexivity. by rewrite bool_decide_true.
    + rewrite reverse_cons, <- app_assoc. done.
    + rewrite Hu, Hu1. simpl. lia.
    + intros g a Hg [Hne' Hni']%not_elem_of_cons Ha. rewrite (Hkp g a) by done. rewrite Hm1.
      apply load32_store32_ne. apply (in_frame_disjoint p2 g); try done.
      unfold in_frame. change PAGESIZE with 4096. lia.
Qed.

Lemma l2_NoDup_from m pt fs n : ∀ k, 0 ≤ k → k + Z.of_nat n ≤ PAGEWORDS → pt_ok m pt fs →
  NoDup (l2_frames m pt (zseq k n)).
Proof.
  induction n as [|n IH]; intros k Hk Hkn Hok; [apply NoDup_nil; done|].
  rewrite zseq_S. unfold l2_frames in *. cbn [fmap list_fmap]. rewrite filter_cons.
  case_decide as Hd; [|apply IH; [lia|lia|done]].
  apply NoDup_cons. split; [|apply IH; [lia|lia|done]].
  rewrite list_elem_of_filter, list_elem_of_fmap. intros (_ & i & Heq & Hi%elem_of_zseq).
  pose proof (pt_inj _ _ _ Hok k i ltac:(lia) ltac:(lia) Heq Hd). lia.
Qed.
Lemma l2_NoDup m pt fs : pt_ok m pt fs → NoDup (l2_frames m pt (zseq 0 (Z.to_nat PAGEWORDS))).
Proof. intros. eapply l2_NoDup_from; [lia|by vm_compute|done]. Qed.
(** The frames a table is made of, in the order [pagetableFree] leaves them
    on the free list. *)
Definition pt_frames (m : gmap Z Z) (pt : Z) : list Z :=
  pt :: reverse (l2_frames m pt (zseq 0 (Z.to_nat PAGEWORDS))).

Lemma elem_of_pt_frames m pt f :
  f ∈ pt_frames m pt ↔ f = pt ∨ ∃ i, 0 ≤ i < PAGEWORDS ∧ f = l1 m pt i ∧ f ≠ 0.
Proof.
  unfold pt_frames, l2_frames.
  rewrite elem_of_cons, elem_of_reverse, list_elem_of_filter, list_elem_of_fmap.
  setoid_rewrite elem_of_zseq. change (Z.to_nat PAGEWORDS : Z) with PAGEWORDS.
  rewrite Z.add_0_l. naive_solver.
Qed.

Lemma pagetableFree_run s pt fs :
  free_list s fs → pt_ok (fmem s) pt fs →
  ∃ s', pagetableFree pt s = Ok tt s' ∧ free_list s' (pt_frames (fmem s) pt ++ fs) ∧
    totalInUse s' = totalInUse s - length (pt_frames (fmem s) pt) ∧
    (∀ g a, frame_addr g → g ∉ pt_frames (fmem s) pt → in_frame g a →
      load32 (fmem s') a = load32 (fmem s) a).
Proof.
  intros Hfl Hok. pose proof (pt_addr _ _ _ Hok) as Hpt.
  destruct (free_loop pt (Z.to_nat PAGEWORDS) 0 s fs) as (s1 & Hrun & Hfl1 & Hu1 & Hk1);
    [lia|by vm_compute|done|done|by eapply pt_notfree|by apply (pt_l2 _ _ _ Hok)
    |apply l2_NoDup with fs; done|].
  pose proof (elem_of_pt_frames (fmem s) pt) as Hel. unfold pt_frames in *.
  set (l2 := l2_frames (fmem s) pt (zseq 0 (Z.to_nat PAGEWORDS))) in *.
  destruct (free_some s1 pt (reverse l2 ++ fs)) as (s2 & Hrun2 & Hfl2 & Hm2 & _ & Hu2 & _);
    [done|done| |].
  { rewrite elem_of_app. intros [Hin|?]; [|by eapply pt_notfree].
    apply elem_of_reverse, list_elem_of_filter in Hin as [Hnz (i & Heq & Hi)%list_elem_of_fmap].
    apply elem_of_zseq in Hi. destruct (pt_l2 _ _ _ Hok i) as [|(?&?&?)]; [|congruence..].
    change (Z.to_nat PAGEWORDS : Z) with PAGEWORDS in Hi. lia. }
  exists s2. split; [|split; [done|split]].
  - unfold pagetableFree. rewrite bool_decide_true by (unfold frame_addr in Hpt; lia).
    rewrite (bind_ok _ _ s tt s) by done. by rewrite (bind_ok _ _ _ _ _ Hrun).
  - rewrite Hu2, Hu1. simpl. rewrite length_reverse. lia.
  - intros g a Hg [Hne Hni]%not_elem_of_cons Ha. rewrite elem_of_reverse in Hni.
    rewrite <- (Hk1 g a), Hm2 by done. apply load32_store32_ne.
    apply (in_frame_disjoint pt g); try done. unfold in_frame. change PAGESIZE with 4096. lia.
Qed.
End Pagetable.

Module PagetableClaims.
Import Pagetable.

(** C20: the two-level page table implements a map from virtual pages to
    entries: looking an address up never changes what any page maps to, and a
    value stored through the entry of [addr] is what a later lookup of any
    address of that page reads, while every other page reads what it read
    before.  Both lookups return; they may take up to two frames. *)
Theorem pagetable_implements_map s pt fs addr a v :
  is_word addr → is_word a → is_word v →
  free_list s fs → pt_ok (fmem s) pt fs → (2 ≤ length fs)%nat →
  ∃ e s1 e' s3, pagetableLookup pt addr s = Ok e s1 ∧
    load32 (fmem s1) e = pt_get (fmem s) pt addr ∧
    pagetableLookup pt a (set_fmem (store32 (fmem s1) e v) s1) = Ok e' s3 ∧
    load32 (fmem s3) e' = if same_page addr a then v else pt_get (fmem s) pt a.
Proof.
  intros Hw Ha Hv Hfl Hok Hlen.
  destruct (lookup_spec s pt addr fs) as (e & s1 & Hrun & He & Hnz & (fs1 & Hfl1 & Hok1 & Hfs) & Hget & _);
    [done..|right; intros ->; simpl in Hlen; lia|].
  destruct (entry_write (fmem s1) pt fs1 addr v) as (Hl & Hok2 & Hget2); [done..|].
  rewrite <- He in *. set (s2 := set_fmem (store32 (fmem s1) e v) s1) in *.
  destruct (lookup_spec s2 pt a fs1) as (e' & s3 & Hrun3 & He' & Hnz3 & _ & Hget3 & _);
    [done|unfold s2; rewrite He; by apply entry_write_free|done| |].
  { right. intros ->. destruct Hfs as [<-|[f ->]]; simpl in Hlen; lia. }
  assert (∀ x s pt addr, x = word_at (l1 (fmem s) pt (offset1 addr)) (offset2 addr) →
    l1 (fmem s) pt (offset1 addr) ≠ 0 → load32 (fmem s) x = pt_get (fmem s) pt addr) as Hld.
  { intros x t q b -> ?. unfold pt_get. by rewrite decide_False. }
  exists e, s1, e', s3. split; [done|]. split; [rewrite <- Hget by done; by apply Hld|].
  split; [done|]. rewrite (Hld e' s3 pt a), Hget3 by done.
  change (fmem s2) with (store32 (fmem s1) e v). rewrite Hget2 by done. by rewrite Hget.
Qed.

(** A table in frame 8192, with 12288 and 16384 free. *)
Definition demo_pt : frames :=
  match pagetable_init FrameClients.booted with Ok _ s => s | Err _ => FrameClients.booted end.
Lemma demo_pt_ok : free_list demo_pt [12288; 16384] ∧ pt_ok (fmem demo_pt) 8192 [12288; 16384].
Proof.
  destruct (pagetable_init_spec FrameClients.booted 8192 [12288; 16384])
    as (s' & Hrun & Hfl & Hok & _).
  { split; [|apply (bool_decide_unpack _); reflexivity].
    repeat (split; [reflexivity|]; split; [apply (bool_decide_unpack _); reflexivity|]).
    reflexivity. }
  unfold demo_pt. rewrite Hrun. exact (conj Hfl Hok).
Qed.
Lemma pagetable_implements_map_witness :
  ∃ e s1 e' s3, pagetableLookup 8192 0x1000 demo_pt = Ok e s1 ∧
    load32 (fmem s1) e = pt_get (fmem demo_pt) 8192 0x1000 ∧
    pagetableLookup 8192 0x40001000 (set_fmem (store32 (fmem s1) e 77) s1) = Ok e' s3 ∧
    load32 (fmem s3) e' = if same_page 0x1000 0x40001000 then 77
                          else pt_get (fmem demo_pt) 8192 0x40001000.
Proof.
  destruct demo_pt_ok as [Hfl Hok].
  apply (pagetable_implements_map demo_pt 8192 [12288; 16384] 0x1000 0x40001000 77);
    [apply (bool_decide_unpack _); reflexivity..|done|done|simpl; lia].
Defined.

(** [pagetableFree] gives back every frame of the table: each
    second-level frame once, and the first-level frame; they join the free
    list, and the count of frames in use drops by their number. *)
Theorem pagetableFree_returns_all s pt fs :
  free_list s fs → pt_ok (fmem s) pt fs →
  ∃ s' gone, pagetableFree pt s = Ok tt s' ∧ free_list s' (gone ++ fs) ∧
    (∀ f, f ∈ gone ↔ f = pt ∨ ∃ i, 0 ≤ i < PAGEWORDS ∧ f = l1 (fmem s) pt i ∧ f ≠ 0) ∧
    totalInUse s' = totalInUse s - length gone.
Proof.
  intros Hfl Hok. destruct (pagetableFree_run s pt fs Hfl Hok) as (s' & Hrun & Hfl' & Hu & _).
  exists s', (pt_frames (fmem s) pt). split; [done|]. split; [done|]. split; [|done].
  apply elem_of_pt_frames.
Qed.
Lemma pagetableFree_returns_all_witness :
  ∃ s' gone, pagetableFree 8192 demo_pt = Ok tt s' ∧ free_list s' (gone ++ [12288; 16384]) ∧
    (∀ f, f ∈ gone ↔ f = 8192 ∨ ∃ i, 0 ≤ i < PAGEWORDS ∧ f = l1 (fmem demo_pt) 8192 i ∧ f ≠ 0) ∧
    totalInUse s' = totalInUse demo_pt - length gone.
Proof.
  destruct demo_pt_ok as [Hfl Hok]. by apply (pagetableFree_returns_all demo_pt 8192).
Defined.

(** With no free frame left, looking up an address whose second-level
    table does not exist writes through the NULL that [frame_alloc] returned:
    neither [pagetableLookup] nor its callers check for it. *)
Theorem pagetableLookup_oom_faults s pt addr :
  is_word addr → free_list s [] → pt_ok (fmem s) pt [] →
  l1 (fmem s) pt (offset1 addr) = 0 → pagetableLookup pt addr s = Err NullDeref.
Proof. apply lookup_oom. Qed.

(** The same table when the allocator has run dry. *)
Definition dry_pt : frames := mkFrames (mach demo_pt) 2 0 3.
Lemma dry_pt_ok : free_list dry_pt [] ∧ pt_ok (fmem dry_pt) 8192 [].
Proof.
  pose proof (proj2 demo_pt_ok) as Hok. unfold dry_pt. generalize dependent demo_pt.
  intros d [H1 H2 H3 H4]. split; [split; [done|by apply NoDup_nil]|].
  split; [exact H1|by apply not_elem_of_nil| |exact H4].
  intros i Hi. destruct (H3 i Hi) as [|(?&?&?)]; [by left|right].
  split_and!; [done..|by apply not_elem_of_nil].
Qed.
Lemma pagetableLookup_oom_faults_witness :
  pagetableLookup 8192 0x1000 dry_pt = Err NullDeref.
Proof.
  destruct dry_pt_ok as [Hfl Hok].
  apply pagetableLookup_oom_faults; [apply (bool_decide_unpack _); reflexivity|done|done|].
  vm_compute. reflexivity.
Defined.
End PagetableClaims.
