(* ===== verification/Process.v ===== *)
(** * Processes ([sos/process.c])

    The table of PCBs, the allocation of process ids, the preparation of a new
    process and its life cycle.  [Module Process] holds the operations, with
    the names of the C functions; [Module ProcessInv] the invariant of the
    table; the theorems follow.  The parts of [process.c] that reply to a
    waiting thread or look at open files ([wakeAll], [process_wake_all],
    [process_close_files]) are in [Lifecycle.v]. *)
From S2P Require Import Prelude Machine ListC Frames Swapfile State Pagetable.
Import Frames Swapfile Pagetable.

(** ** Timestamps ([raw_time_stamp] and [time_stamp] of [sos/clock.c]) *)
Module Time.
Definition NSLU2_TICKS2US (ticks : Z) : Z := u64 (ticks * 50) / 3333.
Definition NSLU2_US2TICKS (us : Z) : Z := u64 (us * 3333) / 50.

(** A read of the timestamp register; time goes on behind it. *)
Definition read_OST_TS : M clock Z := λ c,
  Ok (OST_TS c)
     (match ts_elapse c with
      | [] => c
      | d :: ds => mkClock (w32 (OST_TS c + d)) ds (OST_TIM0 c) (OST_TIM0_RL c) (OST_STS c)
                           (ts_overflow c) (blocked_threads c)
      end).
Definition raw_time_stamp : M clock Z :=
  ts ← read_OST_TS;
  ov ← gets ts_overflow;
  mret (u64 (ts + u64 (Z.shiftl ov 32))).
Definition time_stamp : M clock Z := ts ← raw_time_stamp; mret (NSLU2_TICKS2US ts).
End Time.

Module Process.
Import Time.

(** [vfiles_init] of [sos/vfs.c], on the two tables of a new PCB. *)
Definition vfiles_init : list Z * list VFile :=
  (replicate (Z.to_nat PROCESS_MAX_FDS) VFS_NIL_FILE,
   replicate (Z.to_nat PROCESS_MAX_FILES) (mkVFile NULL 0 0 1)).

(** ** Getters *)
Definition process_lookup (key : Z) : M procs ptr :=
  tbl ← gets sosProcs; arr_get tbl key.
Definition processExists (pid : Z) : M procs bool :=
  off ← gets tidOffset;
  cassert "pid in range" (bool_decide (off ≤ pid < MAX_ADDRSPACES));;
  p ← process_lookup pid;
  mret (bool_decide (p ≠ NULL ∧ p ≠ PS_PLACEHOLDER)).
Definition process_get_pid (p : ptr) : M procs Z :=
  match p with None => mret NIL_PID | Some _ => x ← pcb_get p; mret (pid (info x)) end.
Definition process_get_tid (p : ptr) : M procs L4_ThreadId_t :=
  match p with
  | None => mret L4_nilthread
  | Some _ => x ← pcb_get p; mret (L4_GlobalId (pid (info x)) 1)
  end.
Definition process_get_sid (p : ptr) : M procs Z :=
  match p with None => mret L4_nilspace | Some _ => process_get_pid p end.
Definition process_get_pagetable (p : ptr) : M procs Z :=
  match p with None => mret 0 | Some _ => x ← pcb_get p; mret (pagetable x) end.
Definition process_get_state (p : ptr) : M procs process_state_t :=
  x ← pcb_get p; mret (state (info x)).
Definition process_get_ipcfilt (p : ptr) : M procs process_ipcfilt_t :=
  x ← pcb_get p; mret (ipc_accept (info x)).
Definition process_get_stdin (p : ptr) : M procs (option cstr) :=
  x ← pcb_get p; mret (fin x).

(** ** Setters *)
Definition process_set_state (p : ptr) (st : process_state_t) : M procs unit :=
  pcb_upd p (upd_info (set_state st)).
Definition process_set_ipcfilt (p : ptr) (f : process_ipcfilt_t) : M procs process_ipcfilt_t :=
  old ← process_get_ipcfilt p;
  pcb_upd p (upd_info (set_ipc_accept f));;
  mret old.
Definition process_add_region (p : ptr) (r : Region) : M procs unit :=
  pcb_upd p (λ x, set_regions (ListSpec.list_push (regions x) r) x).
Definition process_set_ip (p : ptr) (v : Z) : M procs unit := pcb_upd p (set_ip v).
Definition process_set_sp (p : ptr) (v : Z) : M procs unit := pcb_upd p (set_sp v).
Definition process_set_name (p : ptr) (name : cstr) : M procs unit :=
  pcb_upd p (upd_info (set_command (strncpy_path name))).
(** [process_get_info] refreshes the running time before it hands out the
    record. *)
Definition process_get_info (p : ptr) : K process_t :=
  x ← on_procs (pcb_get p);
  t ← on_clock time_stamp;
  on_procs (pcb_upd p (upd_info (set_stime (w32 (t - startedAt x)))));;
  x ← on_procs (pcb_get p);
  mret (info x).
Definition process_set_stdin (p : ptr) (in_ : cstr) : K unit :=
  x ← on_procs (pcb_get p);
  (if decide (fin x = None) then
     blk ← kmalloc;
     match blk with
     | None => mret tt
     | Some _ => on_procs (pcb_upd p (set_fin (Some (strncpy_path in_))))
     end
   else on_procs (pcb_upd p (set_fin (Some (strncpy_path in_))))).

(** ** Creation *)
(** The code leaves [startedAt] uninitialised, which is 0 here. *)
Definition processAlloc : K ptr :=
  p ← kmalloc_nocheck;
  pt ← on_fr pagetable_init;
  on_procs (modify (λ s, set_pcbs (<[p := mkProcess
    (mkInfo NIL_PID 0 0 0 [] PS_STATE_START PS_TYPE_PROCESS PS_IPC_ALL)
    pt [] 0 0 0 (fst vfiles_init) (snd vfiles_init) WAIT_NOBODY None]> (pcbs s)) s));;
  mret (Some p).

Definition sos_peek_new_tid : M procs L4_ThreadId_t :=
  gets (λ s, L4_GlobalId (last_thread_s s + 1) 1).
Definition sos_get_new_tid : M procs L4_ThreadId_t := λ s,
  if last_thread_disabled_s s then Ok L4_nilthread s
  else Ok (L4_GlobalId (last_thread_s s + 1) 1)
          (mkProcs (pcbs s) (sosProcs s) (nextPid s) (tidOffset s) (last_thread_s s + 1) false).
Definition sos_get_new_tid_disable : M procs unit :=
  modify (λ s, mkProcs (pcbs s) (sosProcs s) (nextPid s) (tidOffset s) (last_thread_s s) true).

Definition set_sosProcs v s := mkProcs (pcbs s) v (nextPid s) (tidOffset s)
                                       (last_thread_s s) (last_thread_disabled_s s).
Definition set_nextPid v s := mkProcs (pcbs s) (sosProcs s) v (tidOffset s)
                                      (last_thread_s s) (last_thread_disabled_s s).
Definition set_tidOffset v s := mkProcs (pcbs s) (sosProcs s) (nextPid s) v
                                        (last_thread_s s) (last_thread_disabled_s s).
(** [sosProcs[pid] = p] *)
Definition table_set (pid : Z) (p : ptr) : M procs unit :=
  tbl ← gets sosProcs;
  tbl' ← of_opt OutOfRange (arr_set tbl pid p);
  modify (set_sosProcs tbl').

Definition process_init (type : process_type_t) : K ptr :=
  on_procs (off ← gets tidOffset;
            when (off =? 0)
              (tid ← sos_peek_new_tid;
               modify (set_tidOffset (L4_ThreadNo tid));;
               sos_get_new_tid_disable;;
               off' ← gets tidOffset;
               modify (set_nextPid off')));;
  p ← processAlloc;
  on_procs (pcb_upd p (upd_info (set_ps_type type)));;
  mret p.

(** ** Regions of a new process *)
Definition regionFindHighest (r : Region) (data : Z) : Z :=
  let top := s32 (base r + size r) in
  if decide (top > s32 data) then w32 top else data.
Definition regions_highest (rs : list Region) : Z :=
  foldl (λ d r, regionFindHighest r d) 0 rs.

Definition addBuiltinRegions (p : ptr) : M procs unit :=
  x ← pcb_get p;
  let b := regions_highest (regions x) in
  if decide (b = 0) then mret tt
  else
    let b := round_up b PAGESIZE in
    process_add_region p (region_alloc REGION_HEAP b 0 (Z.lor REGION_READ REGION_WRITE) false);;
    let b := Z.land (Z.shiftr (2 ^ 32 - 1) 1) (w32 PAGEALIGN) in
    process_add_region p
      (region_alloc REGION_STACK (w32 (b - ONE_MEG)) ONE_MEG (Z.lor REGION_READ REGION_WRITE) false);;
    process_set_sp p (w32 (b - 3 * 4)).

Definition process_append_region (p : ptr) (sz rt : Z) : M procs Z :=
  x ← pcb_get p;
  let b := round_up (regions_highest (regions x)) PAGESIZE in
  process_add_region p (region_alloc REGION_OTHER b sz rt false);;
  mret b.

(** ** Process ids *)
Fixpoint getNextPid_loop (fuel : nat) (oldPid : Z) (firstIteration : bool) : M procs unit :=
  match fuel with
  | O => fail OutOfFuel
  | S fuel' =>
      n ← gets nextPid;
      x ← process_lookup n;
      if decide (x = NULL) then mret tt
      else if negb firstIteration && (oldPid =? n) then mret tt
      else
        modify (set_nextPid (n + 1));;
        off ← gets tidOffset;
        when (bool_decide (MAX_ADDRSPACES ≤ n + 1)) (modify (set_nextPid off));;
        getNextPid_loop fuel' oldPid false
  end.
(** The loop visits each table entry at most once before it stops. *)
Definition pid_fuel : nat := S (S (Z.to_nat MAX_ADDRSPACES)).
Definition getNextPid : M procs Z :=
  oldPid ← gets nextPid;
  getNextPid_loop pid_fuel oldPid true;;
  n ← gets nextPid;
  x ← process_lookup n;
  mret (if decide (x = NULL) then n else NIL_PID).

Definition reserve_pid : M procs Z :=
  pid ← getNextPid;
  (if decide (pid ≠ NIL_PID) then
     e ← processExists pid;
     cassert "!processExists(pid)" (negb e);;
     table_set pid PS_PLACEHOLDER
   else mret tt);;
  mret pid.

(** ** Preparing and running a process *)
Definition pager_get_tid : M pager L4_ThreadId_t := gets virtualPager.
Definition pager_is_active : M pager bool :=
  gets (λ s, bool_decide (virtualPager s ≠ L4_nilthread)).
(** The offset of a thread's part of [copyInOutBuffer]. *)
Definition pager_buffer (tid : L4_ThreadId_t) : Z := L4_ThreadNo tid * COPY_BUFSIZ.

Definition openStdFd (p : ptr) (file : option cstr) (stdfile : cstr) (mode : Z) : K unit :=
  let f := default stdfile file in
  tid ← on_procs (process_get_tid p);
  b ← get_cbuf;
  put_cbuf (strncpy_mem b (pager_buffer tid) f (Z.to_nat MAX_FILE_NAME));;
  pid ← on_procs (process_get_pid p);
  ipc_send_simple L4_rootserver PSOS_OPEN SOS_IPC_SEND
    [mode; FM_UNLIMITED_RW; FM_UNLIMITED_RW; pid].

Definition stdout_fd : Z := 0.
Definition stderr_fd : Z := 1.
Definition stdin_fd : Z := 2.

(** [strcmp(a, b) == 0]; a NULL argument is dereferenced. *)
Definition strcmp_eq (a b : option cstr) : K bool :=
  x ← of_opt NullDeref a; y ← of_opt NullDeref b; mret (bool_decide (x = y)).

Definition process_prepare2 (p : ptr) (fdout fderr fdin : option cstr) : K unit :=
  on_procs (x ← pcb_get p;
            when (pid (info x) =? NIL_PID)
              (n ← getNextPid; pcb_upd p (upd_info (set_pid n)));;
            x ← pcb_get p;
            cassert "pid != NIL_PID" (negb (pid (info x) =? NIL_PID));;
            e ← processExists (pid (info x));
            cassert "!processExists(pid)" (negb e);;
            table_set (pid (info x)) p);;
  x ← on_procs (pcb_get p);
  if decide (ps_type (info x) ≠ PS_TYPE_ROOTTHREAD) then
    on_procs (addBuiltinRegions p);;
    openStdFd p fdout STDOUT_FN FM_WRITE;;
    same ← (if bool_decide (fdout = None) && bool_decide (fderr = None) then mret true
            else strcmp_eq fdout fderr);
    (if (same : bool) then
       pid ← on_procs (process_get_pid p);
       ipc_send_simple L4_rootserver PSOS_DUP SOS_IPC_SEND [stdout_fd; stderr_fd; pid]
     else openStdFd p fderr STDOUT_FN FM_WRITE);;
    match fdin with None => mret tt | Some f => process_set_stdin p f end
  else mret tt.
Definition process_prepare (p : ptr) : K unit := process_prepare2 p None None None.

(** [sos_thread_new_priority] and [sos_task_new] of [libsos.c]; the L4 calls
    that create the thread are taken to succeed. *)
Definition sos_thread_new_priority (tid : L4_ThreadId_t) (prio entry stack : Z) : K L4_ThreadId_t :=
  tid ← (if decide (tid = L4_nilthread) then on_procs sos_get_new_tid else mret tid);
  when (bool_decide (tid ≠ L4_nilthread)) (emit (L4_ThreadStart tid prio entry stack));;
  mret tid.
Definition sos_task_new (task : Z) (pg : L4_ThreadId_t) (entry stack : Z) : K L4_ThreadId_t :=
  emit (L4_TaskStart task pg entry stack);;
  mret (L4_GlobalId task 1).

Definition processRunPriority (p : ptr) (timestamp : bool) (prio : Z) : K L4_ThreadId_t :=
  when timestamp (t ← on_clock time_stamp; on_procs (pcb_upd p (set_startedAt t)));;
  x ← on_procs (pcb_get p);
  tid ← (if decide (ps_type (info x) = PS_TYPE_ROOTTHREAD) then
           t ← on_procs (process_get_tid p);
           sos_thread_new_priority t prio (ip x) (sp x)
         else
           a ← on_pager pager_is_active;
           cassert "pager_is_active()" a;;
           cassert "pid >= 0" (bool_decide (0 ≤ pid (info x)));;
           cassert "pid < MAX_THREADS" (bool_decide (pid (info x) < MAX_THREADS));;
           pg ← on_pager pager_get_tid;
           sos_task_new (pid (info x)) pg (ip x) (sp x));
  cassert "L4_ThreadNo(tid) == pid" (L4_ThreadNo tid =? pid (info x));;
  on_procs (process_set_state p PS_STATE_ALIVE);;
  mret tid.
Definition process_run (p : ptr) (timestamp : bool) : K L4_ThreadId_t :=
  processRunPriority p timestamp 0.

Definition process_run_rootthread (name : cstr) (entry : Z) (ts : bool) (prio : Z) : K ptr :=
  p ← process_init PS_TYPE_ROOTTHREAD;
  process_prepare p;;
  on_procs (process_set_name p name);;
  on_procs (process_set_ip p entry);;
  f ← on_fr (frame_alloc FA_STACK);
  on_procs (process_set_sp p (w32 (f + PAGESIZE - 4)));;
  processRunPriority p ts prio;;
  mret p.

(** ** Ending a process *)
Definition thread_kill (tid : L4_ThreadId_t) : K unit := emit (L4_ThreadDelete tid).

Definition process_kill (p : ptr) : K Z :=
  cassert "p != NULL" (bool_decide (p ≠ NULL));;
  pid ← on_procs (process_get_pid p);
  off ← on_procs (gets tidOffset);
  x ← on_procs (pcb_get p);
  if bool_decide (off < pid) && bool_decide (ps_type (info x) ≠ PS_TYPE_ROOTTHREAD) then
    tid ← on_procs (process_get_tid p);
    thread_kill tid;;
    sid ← on_procs (process_get_sid p);
    emit (L4_SpaceDelete sid);;
    n ← on_procs (gets nextPid);
    on_procs (when (bool_decide (pid < n)) (modify (set_nextPid pid)));;
    mret 0
  else mret (-1).
Definition process_remove (p : ptr) : M procs unit :=
  pid ← process_get_pid p; table_set pid NULL.

(** ** Waiting *)
Definition process_wait_any (waiter : ptr) : M procs unit :=
  pcb_upd waiter (set_waitingOn WAIT_ANYBODY);;
  process_set_state waiter PS_STATE_WAIT.
Definition process_wait_for (waitFor waiter : ptr) : M procs unit :=
  pid ← process_get_pid waitFor;
  pcb_upd waiter (set_waitingOn pid);;
  process_set_state waiter PS_STATE_WAIT.

(** [process_write_status]: the records it copies out, in order. *)
Definition sizeof_process_t : Z := 4 + 4 + 4 + 4 + MAX_FILE_NAME + 4 + 4 + 4.
Fixpoint write_status_loop (is_ : list Z) (count n : Z) (out : list process_t)
    : K (list process_t) :=
  match is_ with
  | [] => mret out
  | i :: is' =>
      if decide (count < n) then
        e ← on_procs (processExists i);
        if (e : bool) then
          p ← on_procs (process_lookup i);
          x ← on_procs (pcb_get p);
          if decide (ps_type (info x) ≠ PS_TYPE_ROOTTHREAD) then
            inf ← process_get_info p;
            write_status_loop is' (count + 1) n (out ++ [inf])
          else write_status_loop is' count n out
        else write_status_loop is' count n out
      else mret out
  end.
(** [min] compares the [int] [n] with an unsigned quotient. *)
Definition process_write_status (n : Z) : K (list process_t) :=
  let lim := COPY_BUFSIZ / sizeof_process_t in
  off ← on_procs (gets tidOffset);
  write_status_loop (zseq off (Z.to_nat (MAX_ADDRSPACES - off))) 0
    (if decide (w32 n < lim) then n else lim) [].

Definition process_add_rootserver : K unit :=
  p ← processAlloc;
  t ← on_clock time_stamp;
  on_procs (pcb_upd p (set_startedAt t));;
  process_get_info p;;
  on_procs (pcb_upd p (upd_info (set_pid L4_rootserverno));;
            process_set_name p (bytes_of_string "sos");;
            process_set_state p PS_STATE_ALIVE;;
            x ← pcb_get p;
            cassert "pid == L4_rootserverno" (pid (info x) =? L4_rootserverno);;
            table_set L4_rootserverno p).
End Process.

(** ** The invariant of the PCB table *)
Module ProcessInv.
Import Process.

(** The part of the state that process ids live in. *)
Definition pids (s : procs) : gmap positive Z := (λ x, pid (info x)) <$> pcbs s.
Definition pid_view (s : procs) := (pids s, sosProcs s, tidOffset s, nextPid s).

Definition slot (s : procs) (i : Z) : ptr := default NULL (sosProcs s !! Z.to_nat i).

Record procs_ok (s : procs) : Prop := {
  tbl_len : length (sosProcs s) = Z.to_nat MAX_ADDRSPACES;
  off_range : 0 < tidOffset s ≤ nextPid s ∧ nextPid s < MAX_ADDRSPACES;
  tbl_pcb : ∀ i l, 0 ≤ i < MAX_ADDRSPACES → slot s i = Some l →
    Some l = PS_PLACEHOLDER ∨ pids s !! l = Some i;
  no_placeholder : pids s !! 1%positive = None
}.
Lemma procs_ok_view s s' : pid_view s' = pid_view s → procs_ok s → procs_ok s'.
Proof.
  unfold pid_view. intros [= E1 E2 E3 E4] [H1 H2 H3 H4].
  split; unfold slot in *; rewrite ?E1, ?E2, ?E3, ?E4; done.
Qed.

Lemma lookup_ok s i :
  procs_ok s → 0 ≤ i < MAX_ADDRSPACES → process_lookup i s = Ok (slot s i) s.
Proof.
  intros Hok Hi. unfold process_lookup. rewrite (bind_ok _ _ s (sosProcs s) s) by done.
  destruct (lookup_lt_is_Some_2 (sosProcs s) (Z.to_nat i)) as [x Hx].
  { rewrite (tbl_len _ Hok). unfold MAX_ADDRSPACES in *. lia. }
  unfold slot. rewrite Hx. simpl. apply arr_get_ok; [lia|done].
Qed.
Lemma table_set_ok s i p :
  procs_ok s → 0 ≤ i < MAX_ADDRSPACES →
  table_set i p s = Ok tt (set_sosProcs (<[Z.to_nat i := p]> (sosProcs s)) s).
Proof.
  intros Hok Hi. unfold table_set. rewrite (bind_ok _ _ s (sosProcs s) s) by done.
  rewrite arr_set_ok; [done|]. rewrite (tbl_len _ Hok). unfold MAX_ADDRSPACES in *. lia.
Qed.
Lemma slot_set s i j p :
  procs_ok s → 0 ≤ i < MAX_ADDRSPACES → 0 ≤ j →
  slot (set_sosProcs (<[Z.to_nat i := p]> (sosProcs s)) s) j = if decide (i = j) then p else slot s j.
Proof.
  intros Hok Hi Hj. unfold slot. simpl. rewrite list_lookup_insert. repeat case_decide; try done.
  - lia.
  - subst. rewrite (tbl_len _ Hok) in *. unfold MAX_ADDRSPACES in *. lia.
Qed.
Lemma exists_ok s i :
  procs_ok s → tidOffset s ≤ i < MAX_ADDRSPACES →
  processExists i s = Ok (bool_decide (slot s i ≠ NULL ∧ slot s i ≠ PS_PLACEHOLDER)) s.
Proof.
  intros Hok Hi. pose proof (off_range _ Hok). unfold processExists.
  rewrite (bind_ok _ _ s (tidOffset s) s) by done.
  rewrite bool_decide_true by done. rewrite (bind_ok _ _ s tt s) by done.
  rewrite (bind_ok _ _ _ _ _ (lookup_ok s i Hok ltac:(lia))). done.
Qed.

(** ** The search for a free process id *)
(** The [k]-th entry the search looks at, starting from [nextPid]. *)
Definition cyc (s : procs) (k : Z) : Z :=
  tidOffset s + (nextPid s - tidOffset s + k) mod (MAX_ADDRSPACES - tidOffset s).
Definition span (s : procs) : Z := MAX_ADDRSPACES - tidOffset s.

Lemma cyc_range s k : procs_ok s → tidOffset s ≤ cyc s k < MAX_ADDRSPACES.
Proof.
  intros Hok. pose proof (off_range _ Hok). unfold cyc.
  pose proof (Z.mod_pos_bound (nextPid s - tidOffset s + k) (MAX_ADDRSPACES - tidOffset s)). lia.
Qed.
Lemma cyc_0 s : procs_ok s → cyc s 0 = nextPid s.
Proof.
  intros Hok. pose proof (off_range _ Hok). unfold cyc. rewrite Z.mod_small; lia.
Qed.
Lemma cyc_succ s k : procs_ok s →
  cyc s (k + 1) = if decide (MAX_ADDRSPACES ≤ cyc s k + 1) then tidOffset s else cyc s k + 1.
Proof.
  intros Hok. pose proof (off_range _ Hok). pose proof (cyc_range s k Hok) as Hr. unfold cyc in *.
  set (N := MAX_ADDRSPACES - tidOffset s) in *. set (a := nextPid s - tidOffset s + k) in *.
  replace (nextPid s - tidOffset s + (k + 1)) with (a + 1) by lia.
  assert (0 < N) as HN by lia. pose proof (Z.mod_pos_bound a N HN).
  rewrite <- Zplus_mod_idemp_l. case_decide.
  - replace (a mod N + 1) with N by lia. rewrite Z.mod_same; lia.
  - rewrite Z.mod_small; lia.
Qed.
Lemma cyc_wrap s k : procs_ok s → 0 < k ≤ span s → cyc s k = nextPid s → k = span s.
Proof.
  intros Hok Hk Heq. pose proof (off_range _ Hok). unfold cyc, span in *.
  set (N := MAX_ADDRSPACES - tidOffset s) in *. set (a := nextPid s - tidOffset s) in *.
  destruct (decide (a + k < N)).
  - rewrite Z.mod_small in Heq; lia.
  - replace (a + k) with ((a + k - N) + 1 * N) in Heq by lia.
    rewrite Z.mod_add in Heq by lia. rewrite Z.mod_small in Heq; lia.
Qed.
(** The first [span] entries of the search are all entries of the table. *)
Lemma cyc_surj s i : procs_ok s → tidOffset s ≤ i < MAX_ADDRSPACES →
  ∃ k, 0 ≤ k < span s ∧ cyc s k = i.
Proof.
  intros Hok Hi. pose proof (off_range _ Hok). unfold span.
  destruct (decide (nextPid s ≤ i)).
  - exists (i - nextPid s). split; [lia|]. unfold cyc. rewrite Z.mod_small; lia.
  - exists (i - nextPid s + span s). unfold span. split; [lia|]. unfold cyc.
    replace (nextPid s - tidOffset s + (i - nextPid s + (MAX_ADDRSPACES - tidOffset s)))
      with ((i - tidOffset s) + 1 * (MAX_ADDRSPACES - tidOffset s)) by lia.
    rewrite Z.mod_add, Z.mod_small; lia.
Qed.

Definition busy_before (s : procs) (k : Z) : Prop := ∀ j, 0 ≤ j < k → slot s (cyc s j) ≠ NULL.

Lemma pid_loop_spec s : procs_ok s → ∀ (fuel : nat) k, 0 ≤ k ≤ span s → busy_before s k →
  span s + 1 - k < fuel →
  ∃ k', 0 ≤ k' ≤ span s ∧ busy_before s k' ∧
    (slot s (cyc s k') = NULL ∨ k' = span s) ∧
    getNextPid_loop fuel (nextPid s) (k =? 0) (set_nextPid (cyc s k) s) =
    Ok tt (set_nextPid (cyc s k') s).
Proof.
  intros Hok fuel. pose proof (off_range _ Hok) as Hoff.
  induction fuel as [|fuel IH]; intros k Hk Hbusy Hfuel; [lia|].
  set (sk := set_nextPid (cyc s k) s).
  assert (process_lookup (cyc s k) sk = Ok (slot s (cyc s k)) sk) as Hl.
  { pose proof (cyc_range s k Hok).
    rewrite (lookup_ok sk); [done| |lia].
    destruct Hok as [H1 H2 H3 H4]. split; simpl; try done. lia. }
  cbn [getNextPid_loop]. rewrite (bind_ok _ _ sk (cyc s k) sk) by done.
  rewrite (bind_ok _ _ _ _ _ Hl).
  destruct (decide (slot s (cyc s k) = NULL)) as [Hn|Hn].
  { exists k. split_and!; try done; try lia. by left. }
  destruct (negb (k =? 0) && (nextPid s =? cyc s k)) eqn:Hstop.
  { apply andb_true_iff in Hstop as [Hk0 Heq]. apply negb_true_iff, Z.eqb_neq in Hk0.
    apply Z.eqb_eq in Heq. exists k. split_and!; try done; try lia.
    right. by apply cyc_wrap; [|lia|]. }
  assert (k < span s) as Hlt.
  { destruct (decide (k = span s)) as [->|]; [|lia]. exfalso.
    unfold span in *. rewrite <- (cyc_0 s Hok) in Hstop at 1.
    assert (cyc s (span s) = cyc s 0) as Hc.
    { unfold cyc, span. replace (nextPid s - tidOffset s + (MAX_ADDRSPACES - tidOffset s))
        with (nextPid s - tidOffset s + 0 + 1 * (MAX_ADDRSPACES - tidOffset s)) by lia.
      by rewrite Z.mod_add by lia. }
    unfold span in Hc. rewrite Hc, Z.eqb_refl in Hstop.
    destruct (MAX_ADDRSPACES - tidOffset s =? 0) eqn:E; [apply Z.eqb_eq in E; lia|done]. }
  destruct (IH (k + 1)) as (k' & Hk' & Hb' & Hor & Hrun); [lia| |lia|].
  { intros j Hj. destruct (decide (j = k)) as [->|]; [done|]. apply Hbusy. lia. }
  exists k'. split; [done|]. split; [done|]. split; [done|].
  replace (k + 1 =? 0) with false in Hrun by (symmetry; apply Z.eqb_neq; lia).
  rewrite <- Hrun. rewrite cyc_succ by done. unfold when.
  case_decide as Hd; [rewrite bool_decide_true by done|rewrite bool_decide_false by done]; done.
Qed.

(** The result of the search: the first free entry in cyclic order, or none. *)
Definition pid_found (s : procs) (r : Z) (s' : procs) : Prop :=
  (∃ n, s' = set_nextPid n s) ∧ procs_ok s' ∧
  ((r = NIL_PID ∧ ∀ i, tidOffset s ≤ i < MAX_ADDRSPACES → slot s i ≠ NULL) ∨
   (r = nextPid s' ∧ tidOffset s ≤ r < MAX_ADDRSPACES ∧ slot s r = NULL ∧
    ∃ k, 0 ≤ k < span s ∧ cyc s k = r ∧ busy_before s k)).

Lemma set_nextPid_ok s n :
  procs_ok s → tidOffset s ≤ n < MAX_ADDRSPACES → procs_ok (set_nextPid n s).
Proof. intros [H1 H2 H3 H4] Hn. split; simpl; try done. lia. Qed.

Lemma getNextPid_spec s : procs_ok s → ∃ r s', getNextPid s = Ok r s' ∧ pid_found s r s'.
Proof.
  intros Hok. pose proof (off_range _ Hok) as Hoff.
  destruct (pid_loop_spec s Hok pid_fuel 0) as (k & Hk & Hb & Hor & Hrun).
  { unfold span. lia. }
  { intros j ?. lia. }
  { unfold pid_fuel, span. change (Z.to_nat MAX_ADDRSPACES) with 256%nat.
    unfold MAX_ADDRSPACES. lia. }
  rewrite cyc_0 in Hrun by done. replace (set_nextPid (nextPid s) s) with s in Hrun by (by destruct s).
  pose proof (cyc_range s k Hok) as Hr. set (s' := set_nextPid (cyc s k) s) in *.
  assert (procs_ok s') as Hok' by (by apply set_nextPid_ok).
  eexists _, s'. split.
  { unfold getNextPid. rewrite (bind_ok _ _ s (nextPid s) s) by done.
    rewrite (bind_ok _ _ _ _ _ Hrun). rewrite (bind_ok _ _ s' (cyc s k) s') by done.
    rewrite (bind_ok _ _ _ _ _ (lookup_ok s' (cyc s k) Hok' ltac:(lia))). reflexivity. }
  split; [by eexists|]. split; [done|]. change (slot s' (cyc s k)) with (slot s (cyc s k)).
  destruct (decide (slot s (cyc s k) = NULL)) as [Hn|Hn].
  - right. split; [done|]. split; [done|]. split; [done|]. exists k. split; [|done].
    destruct (decide (k = span s)) as [->|]; [|lia]. exfalso.
    destruct (cyc_surj s (cyc s (span s)) Hok Hr) as (j & Hj & Hjeq).
    apply (Hb j); [lia|]. by rewrite Hjeq.
  - left. split; [done|]. destruct Hor as [|Hks]; [done|]. subst k. intros i Hi.
    destruct (cyc_surj s i Hok Hi) as (j & Hj & <-). by apply Hb.
Qed.

(** Storing in the table keeps the invariant when the PCB carries that pid. *)
Lemma table_set_inv s i p :
  procs_ok s → 0 ≤ i < MAX_ADDRSPACES →
  (p = NULL ∨ p = PS_PLACEHOLDER ∨ ∃ l, p = Some l ∧ pids s !! l = Some i) →
  procs_ok (set_sosProcs (<[Z.to_nat i := p]> (sosProcs s)) s).
Proof.
  intros Hok Hi Hp. pose proof Hok as [H1 H2 H3 H4]. split; simpl; [|done| |done].
  - by rewrite length_insert.
  - intros j l Hj. rewrite slot_set by (done || lia). case_decide; [subst|by apply H3].
    intros ->. naive_solver.
Qed.

Lemma reserve_pid_spec s : procs_ok s →
  ∃ r s' n, reserve_pid s = Ok r s' ∧ procs_ok s' ∧
    ((r = NIL_PID ∧ s' = set_nextPid n s ∧ ∀ i, tidOffset s ≤ i < MAX_ADDRSPACES → slot s i ≠ NULL) ∨
     (tidOffset s ≤ r < MAX_ADDRSPACES ∧ slot s r = NULL ∧
      s' = set_sosProcs (<[Z.to_nat r := PS_PLACEHOLDER]> (sosProcs s)) (set_nextPid n s))).
Proof.
  intros Hok. pose proof (off_range _ Hok) as Hoff.
  destruct (getNextPid_spec s Hok) as (r & s1 & Hrun & ([n Hs1] & Hok1 & Hres)).
  unfold reserve_pid. rewrite (bind_ok _ _ _ _ _ Hrun).
  destruct Hres as [[-> Hfull]|(Hr & Hrange & Hnull & _)].
  - exists NIL_PID, s1, n. rewrite decide_False by (by intros []). naive_solver.
  - assert (r ≠ NIL_PID) by (unfold NIL_PID; lia). rewrite decide_True by done.
    assert (slot s1 r = NULL) as Hn1 by (by rewrite Hs1).
    assert (tidOffset s1 = tidOffset s) as Ho by (by rewrite Hs1).
    eexists r, _, n. split.
    + rewrite (bind_ok _ _ s1 tt (set_sosProcs (<[Z.to_nat r := PS_PLACEHOLDER]> (sosProcs s1)) s1)).
      * reflexivity.
      * rewrite (bind_ok _ _ _ _ _ (exists_ok s1 r Hok1 ltac:(lia))).
        rewrite bool_decide_false by (rewrite Hn1; by intros []).
        rewrite (bind_ok _ _ s1 tt s1) by done. by apply table_set_ok; [|lia].
    + split; [apply table_set_inv; [done|lia|by right; left]|].
      right. split; [done|]. split; [done|]. by subst s1.
Qed.

(** ** What leaves the process ids alone *)
Definition kpid_view (k : kstate) := pid_view (k_procs k).

Lemma pcb_get_pres {X} (f : procs → X) p : pres f (pcb_get p).
Proof. intros s a s'. unfold pcb_get. repeat case_match; intros; by simplify_eq. Qed.
Lemma pcb_upd_pids p f :
  (∀ x, pid (info (f x)) = pid (info x)) → pres pid_view (pcb_upd p f).
Proof.
  intros Hf s a s'. unfold pcb_upd. destruct p as [l|]; [|done].
  destruct (pcbs s !! l) as [x|] eqn:Hl; [|done]. intros [= _ <-].
  unfold pid_view, pids. simpl. do 3 f_equal. rewrite fmap_insert, Hf.
  apply insert_id. by rewrite lookup_fmap, Hl.
Qed.
Lemma on_procs_pids {A} (m : M procs A) : pres pid_view m → pres kpid_view (on_procs m).
Proof. intros H. eapply pres_zoom_in; [|exact H]. done. Qed.
Lemma on_pager_pids {A} (m : M pager A) : pres kpid_view (on_pager m).
Proof. by apply pres_zoom. Qed.
Lemma on_clock_pids {A} (m : M clock A) : pres kpid_view (on_clock m).
Proof. by apply pres_zoom. Qed.
Lemma on_mach_pids {A} (m : M machine A) : pres kpid_view (on_mach m).
Proof. by apply pres_zoom. Qed.
Lemma on_fr_pids {A} (m : M frames A) : pres kpid_view (on_fr m).
Proof. by apply pres_zoom. Qed.
#[export] Hint Resolve pcb_get_pres on_procs_pids on_pager_pids on_clock_pids on_mach_pids
  on_fr_pids : pres.
#[export] Hint Extern 1 (pres pid_view (pcb_upd _ _)) => (apply pcb_upd_pids; done) : pres.
#[export] Hint Extern 2 (pres _ (emit _)) => (unfold emit) : pres.
#[export] Hint Extern 2 (pres _ get_cbuf) => (apply pres_gets) : pres.

Lemma get_pid_pres {X} (f : procs → X) p : pres f (process_get_pid p).
Proof. unfold process_get_pid. pres_auto. Qed.
Lemma get_tid_pres {X} (f : procs → X) p : pres f (process_get_tid p).
Proof. unfold process_get_tid. pres_auto. Qed.
Lemma get_sid_pres {X} (f : procs → X) p : pres f (process_get_sid p).
Proof. unfold process_get_sid. pres_auto. apply get_pid_pres. Qed.
Lemma lookup_pres {X} (f : procs → X) i : pres f (process_lookup i).
Proof. unfold process_lookup, arr_get. pres_auto. Qed.
Lemma exists_pres {X} (f : procs → X) i : pres f (processExists i).
Proof. unfold processExists. pres_auto. apply lookup_pres. Qed.
#[export] Hint Resolve get_pid_pres get_tid_pres get_sid_pres lookup_pres exists_pres : pres.

Lemma addBuiltinRegions_pids p : pres pid_view (addBuiltinRegions p).
Proof. unfold addBuiltinRegions, process_add_region, process_set_sp. pres_auto. Qed.
Lemma ipc_send_pids t l h w : pres kpid_view (ipc_send_simple t l h w).
Proof. unfold ipc_send_simple, emit. auto with pres. Qed.
Lemma openStdFd_pids p f d m : pres kpid_view (openStdFd p f d m).
Proof. unfold openStdFd, put_cbuf. pres_auto. Qed.
Lemma set_stdin_pids p f : pres kpid_view (process_set_stdin p f).
Proof. unfold process_set_stdin, kmalloc. pres_auto. Qed.
#[export] Hint Resolve addBuiltinRegions_pids ipc_send_pids openStdFd_pids set_stdin_pids : pres.

(** The registration half of [process_prepare2]. *)
Definition prepare_register (p : ptr) : M procs unit :=
  x ← pcb_get p;
  when (pid (info x) =? NIL_PID) (n ← getNextPid; pcb_upd p (upd_info (set_pid n)));;
  x ← pcb_get p;
  cassert "pid != NIL_PID" (negb (pid (info x) =? NIL_PID));;
  e ← processExists (pid (info x));
  cassert "!processExists(pid)" (negb e);;
  table_set (pid (info x)) p.

Lemma prepare2_view p o e i k k' :
  process_prepare2 p o e i k = Ok tt k' →
  ∃ s1, prepare_register p (k_procs k) = Ok tt s1 ∧ pid_view (k_procs k') = pid_view s1.
Proof.
  intros ([] & k1 & H1 & H2)%bind_inv. apply zoom_inv in H1 as (s1 & H1 & ->).
  exists s1. split; [exact H1|].
  assert (∀ m : K unit, m (set_procs s1 k) = Ok tt k' → pres kpid_view m →
    pid_view (k_procs k') = pid_view s1) as Haux by (intros m Hm Hp; by apply (Hp _ _ _ Hm)).
  apply (Haux _ H2). unfold strcmp_eq. pres_auto.
Qed.

Lemma pcb_get_inv p s x s' :
  pcb_get p s = Ok x s' → s' = s ∧ ∃ l, p = Some l ∧ pcbs s !! l = Some x.
Proof. unfold pcb_get. destruct p as [l|]; [|done]. case_match; naive_solver. Qed.
Lemma pcb_upd_inv p f s s' :
  pcb_upd p f s = Ok tt s' →
  ∃ l x, p = Some l ∧ pcbs s !! l = Some x ∧ s' = set_pcbs (<[l := f x]> (pcbs s)) s.
Proof. unfold pcb_upd. destruct p as [l|]; [|done]. case_match; naive_solver. Qed.
(** Forward symbolic execution through PCB accesses. *)
Ltac prun :=
  repeat first
    [ run_step
    | match goal with
      | H : on_procs _ _ = Ok _ _ |- _ => unfold on_procs in H
      | H : on_mach _ _ = Ok _ _ |- _ => unfold on_mach in H
      | H : process_get_pid (Some _) _ = Ok _ _ |- _ => unfold process_get_pid in H
      | H : process_get_tid (Some _) _ = Ok _ _ |- _ => unfold process_get_tid in H
      | H : process_get_sid (Some _) _ = Ok _ _ |- _ => unfold process_get_sid in H
      | H : pcb_get _ _ = Ok _ _ |- _ =>
          apply pcb_get_inv in H as (? & ? & ? & ?); subst; simplify_eq
      end ].
Lemma pids_lookup s l x : pcbs s !! l = Some x → pids s !! l = Some (pid (info x)).
Proof. intros H. unfold pids. by rewrite lookup_fmap, H. Qed.

(** Giving a PCB without a pid one keeps the invariant. *)
Lemma set_pid_ok s l x n :
  procs_ok s → pcbs s !! l = Some x → pid (info x) = NIL_PID →
  procs_ok (set_pcbs (<[l := upd_info (set_pid n) x]> (pcbs s)) s).
Proof.
  intros [H1 H2 H3 H4] Hl Hnil. split; simpl; try done.
  - intros i l' Hi Hs. destruct (H3 i l' Hi Hs) as [|Hp]; [by left|right].
    unfold pids in *. simpl. rewrite fmap_insert. rewrite lookup_insert_ne; [done|].
    intros ->. rewrite lookup_fmap, Hl in Hp. simpl in Hp. unfold NIL_PID in Hnil.
    injection Hp as Hp. lia.
  - unfold pids in *. simpl. rewrite fmap_insert. rewrite lookup_insert_ne; [done|].
    intros ->. by rewrite lookup_fmap, Hl in H4.
Qed.

(** Registration leaves the kind of the process alone. *)
Lemma getNextPid_loop_pcbs fuel o b : pres pcbs (getNextPid_loop fuel o b).
Proof.
  revert o b. induction fuel as [|fuel IH]; intros o b; simpl; pres_auto; by apply pres_modify.
Qed.
Lemma register_type p s s1 x :
  prepare_register p s = Ok tt s1 → pcb_get p s = Ok x s →
  ∃ x1, pcb_get p s1 = Ok x1 s1 ∧ ps_type (info x1) = ps_type (info x).
Proof.
  intros H Hx. apply pcb_get_inv in Hx as (_ & l & -> & Hx).
  apply bind_inv in H as (x' & s' & Hg & H). apply pcb_get_inv in Hg as (-> & l' & [= <-] & Hg).
  rewrite Hx in Hg. injection Hg as <-. apply bind_inv in H as ([] & s2 & Hw & H).
  assert (∃ x2, pcbs s2 !! l = Some x2 ∧ ps_type (info x2) = ps_type (info x)) as (x2 & Hx2 & Ht).
  { unfold when in Hw. case_match; [|injection Hw as <-; by exists x].
    apply bind_inv in Hw as (n & s3 & Hn & Hu).
    assert (pcbs s3 = pcbs s) as Hp.
    { revert Hn. unfold getNextPid. intros Hn. refine ((_ : pres pcbs _) _ _ _ Hn).
      pres_auto; apply getNextPid_loop_pcbs || apply lookup_pres. }
    apply pcb_upd_inv in Hu as (l' & y & [= <-] & Hy & ->). simpl.
    rewrite lookup_insert_eq. eexists. split; [done|]. rewrite Hp in Hy. simplify_eq. done. }
  exists x2. split; [|done]. assert (pcbs s1 = pcbs s2) as Hp.
  { refine ((_ : pres pcbs _) _ _ _ H). unfold table_set. pres_auto. by apply pres_modify. }
  unfold pcb_get. by rewrite Hp, Hx2.
Qed.

(** What registering a PCB does: it fills exactly one entry of the table,
    which held no process before. *)
Definition registered (s : procs) (p : ptr) (r : Z) (s1 : procs) : Prop :=
  procs_ok s1 ∧ tidOffset s1 = tidOffset s ∧ tidOffset s ≤ r < MAX_ADDRSPACES ∧
  (slot s r = NULL ∨ slot s r = PS_PLACEHOLDER) ∧
  (∀ j, 0 ≤ j → slot s1 j = if decide (r = j) then p else slot s j) ∧
  (∃ l, p = Some l ∧ pids s1 !! l = Some r).

Lemma register_known s p l x s1 :
  procs_ok s → p = Some l → pcbs s !! l = Some x →
  (cassert "pid != NIL_PID" (negb (pid (info x) =? NIL_PID));;
   e ← processExists (pid (info x));
   cassert "!processExists(pid)" (negb e);;
   table_set (pid (info x)) p) s = Ok tt s1 →
  registered s p (pid (info x)) s1.
Proof.
  intros Hok -> Hl H. set (r := pid (info x)) in *. pose proof (off_range _ Hok).
  apply bind_inv in H as ([] & s' & Hc & H).
  assert (s' = s) as -> by (unfold cassert in Hc; case_match; by simplify_eq).
  apply bind_inv in H as (e & s2 & Hex & H).
  assert (tidOffset s ≤ r < MAX_ADDRSPACES) as Hr.
  { unfold processExists in Hex. apply bind_inv in Hex as (off & s3 & [= <- <-] & Hex).
    apply bind_inv in Hex as ([] & s4 & Hc2 & _). unfold cassert in Hc2.
    by case_bool_decide. }
  rewrite (exists_ok s r Hok Hr) in Hex. injection Hex as <- <-.
  apply bind_inv in H as ([] & s3 & Hc2 & H). unfold cassert in Hc2.
  destruct (negb _) eqn:He in Hc2; [|done]. injection Hc2 as <-.
  apply negb_true_iff, bool_decide_eq_false in He.
  rewrite (table_set_ok s r) in H by (done || lia). injection H as <-.
  split; [apply table_set_inv; [done|lia|right; right; exists l; split; [done|by apply pids_lookup]]|].
  split; [done|]. split; [done|]. split; [|split].
  - destruct (slot s r) as [q|]; [right|by left]. destruct (decide (Some q = PS_PLACEHOLDER)); naive_solver.
  - intros j Hj. rewrite slot_set by (done || lia). done.
  - exists l. split; [done|]. by apply pids_lookup.
Qed.

Lemma register_inv s p s1 :
  procs_ok s → prepare_register p s = Ok tt s1 →
  ∃ l x r, p = Some l ∧ pcbs s !! l = Some x ∧ registered s p r s1 ∧
    (if decide (pid (info x) = NIL_PID) then slot s r = NULL else r = pid (info x)).
Proof.
  intros Hok (x & s' & Hg & H)%bind_inv. apply pcb_get_inv in Hg as (-> & l & -> & Hl).
  apply bind_inv in H as ([] & s2 & Hw & H). apply bind_inv in H as (x2 & s3 & Hg2 & H).
  apply pcb_get_inv in Hg2 as (-> & l' & [= <-] & Hl2). exists l, x.
  destruct (Z.eqb_spec (pid (info x)) NIL_PID) as [Hnil|Hnn]; unfold when in Hw.
  - apply bind_inv in Hw as (n & s3 & Hn & Hu).
    destruct (getNextPid_spec s Hok) as (r & s3' & Hn' & ([m Hm] & Hok3 & Hf)). same_run.
    apply pcb_upd_inv in Hu as (l' & x' & [= <-] & Hx' & ->). simpl in *. simplify_eq.
    rewrite lookup_insert_eq in Hl2. injection Hl2 as <-.
    eapply register_known in H;
      [|by apply (set_pid_ok (set_nextPid m s))|done|simpl; by rewrite lookup_insert_eq].
    simpl in H. exists r. split; [done|]. split; [done|]. split; [exact H|].
    rewrite decide_True by done.
    destruct Hf as [[-> _]|(_ & _ & ? & _)]; [|done]. destruct H as (_ & _ & Hr & _).
    pose proof (off_range _ Hok). unfold NIL_PID in Hr. simpl in Hr. lia.
  - injection Hw as <-. simplify_eq. exists (pid (info x)). split; [done|]. split; [done|].
    rewrite decide_False by done. split; [|done]. by eapply register_known.
Qed.
End ProcessInv.

(** ** Process ids over the life of the system *)
Module ProcessClaims.
Import Process ProcessInv.

(** The events that take and give back process ids, with the pids in use:
    a reservation for a later process, the registration of a prepared
    process (under a reserved pid, or under a new one when it has none), and
    a deletion as [processDelete] does it. *)
Inductive pstep : kstate * list Z → kstate * list Z → Prop :=
  | pstep_reserve k live r k' :
      on_procs reserve_pid k = Ok r k' → r ≠ NIL_PID →
      pstep (k, live) (k', r :: live)
  | pstep_prepare k live l x o e i k' x' :
      pcbs (k_procs k) !! l = Some x →
      (pid (info x) = NIL_PID ∨ pid (info x) ∈ live) →
      process_prepare2 (Some l) o e i k = Ok tt k' →
      pcbs (k_procs k') !! l = Some x' →
      pstep (k, live) (k', if decide (pid (info x) = NIL_PID) then pid (info x') :: live else live)
  | pstep_delete k live r p k1 k2 :
      process_lookup r (k_procs k) = Ok p (k_procs k) →
      process_kill p k = Ok 0 k1 → on_procs (process_remove p) k1 = Ok tt k2 →
      pstep (k, live) (k2, filter (λ i, i ≠ r) live).

(** The pids in use are the non-empty entries of the table. *)
Definition live_inv (c : kstate * list Z) : Prop :=
  let s := k_procs (fst c) in
  procs_ok s ∧ NoDup (snd c) ∧
  (∀ i, i ∈ snd c → tidOffset s ≤ i < MAX_ADDRSPACES) ∧
  (∀ i, tidOffset s ≤ i < MAX_ADDRSPACES → i ∈ snd c ↔ slot s i ≠ NULL).

Lemma live_reserve k live r k' :
  live_inv (k, live) → on_procs reserve_pid k = Ok r k' → r ≠ NIL_PID →
  r ∉ live ∧ live_inv (k', r :: live).
Proof.
  intros (Hok & Hnd & Hrng & Hlive) (s' & Hrun & ->)%zoom_inv Hr. simpl in *.
  destruct (reserve_pid_spec _ Hok) as (r' & s'' & n & Hrun' & Hok' & Hres).
  rewrite Hrun in Hrun'. injection Hrun' as <- <-.
  destruct Hres as [[? _]|(Hrr & Hnull & ->)]; [done|].
  assert (r ∉ live) as Hni by (rewrite Hlive by done; naive_solver).
  pose proof (off_range _ Hok). split; [done|]. split; [done|]. simpl.
  split; [by apply NoDup_cons|]. split; [intros i [->|?]%elem_of_cons; [done|by apply Hrng]|].
  intros i Hi. rewrite elem_of_cons.
  assert (procs_ok (set_nextPid n (k_procs k))) as Hokn.
  { destruct Hok' as [_ Ho _ _]. simpl in Ho. apply set_nextPid_ok; [done|lia]. }
  rewrite (slot_set (set_nextPid n (k_procs k))) by (done || lia).
  change (slot (set_nextPid n (k_procs k)) i) with (slot (k_procs k) i).
  rewrite Hlive by done. case_decide; naive_solver.
Qed.

Lemma live_registered k live s1 k' l r :
  live_inv (k, live) → registered (k_procs k) (Some l) r s1 →
  pid_view (k_procs k') = pid_view s1 →
  procs_ok (k_procs k') ∧ tidOffset (k_procs k') = tidOffset (k_procs k) ∧
  (∀ i, tidOffset (k_procs k) ≤ i < MAX_ADDRSPACES →
        slot (k_procs k') i ≠ NULL ↔ i = r ∨ i ∈ live).
Proof.
  intros (Hok & Hnd & Hrng & Hlive) (Hok1 & Ho & Hr & Hold & Hslot & _) Hv. simpl in *.
  pose proof (off_range _ Hok). split; [by eapply procs_ok_view|].
  unfold pid_view in Hv. injection Hv as _ Ht Hof _. split; [congruence|].
  intros i Hi. unfold slot. rewrite Ht. fold (slot s1 i). rewrite Hslot by lia.
  rewrite Hlive by done. case_decide; naive_solver.
Qed.

Lemma live_prepare k live l x o e i k' x' :
  live_inv (k, live) → pcbs (k_procs k) !! l = Some x →
  (pid (info x) = NIL_PID ∨ pid (info x) ∈ live) →
  process_prepare2 (Some l) o e i k = Ok tt k' → pcbs (k_procs k') !! l = Some x' →
  live_inv (k', if decide (pid (info x) = NIL_PID) then pid (info x') :: live else live).
Proof.
  intros Hinv Hx Hpid Hrun Hx'. pose proof Hinv as (Hok & Hnd & Hrng & Hlive). simpl in *.
  destruct (prepare2_view _ _ _ _ _ _ Hrun) as (s1 & Hreg & Hv).
  destruct (register_inv _ _ _ Hok Hreg) as (l' & x0 & r & [= <-] & Hx0 & Hrd & Hcase).
  rewrite Hx in Hx0. injection Hx0 as <-.
  destruct (live_registered _ _ _ _ _ _ Hinv Hrd Hv) as (Hok' & Hoff & Hsl).
  assert (pid (info x') = r) as Hr'.
  { destruct Hrd as (_ & _ & _ & _ & _ & l' & [= <-] & Hp). apply pids_lookup in Hx'.
    unfold pid_view in Hv. injection Hv as Hv _ _ _. rewrite Hv in Hx'. congruence. }
  destruct Hrd as (_ & _ & Hr & _). rewrite Hr'. unfold live_inv. simpl.
  split; [done|]. rewrite Hoff. destruct (decide (pid (info x) = NIL_PID)) as [Hnil|Hnn].
  - assert (r ∉ live) by (rewrite Hlive by done; naive_solver).
    split; [by apply NoDup_cons|]. split; [intros j [->|?]%elem_of_cons; [done|by apply Hrng]|].
    intros j Hj. rewrite Hsl by done. by rewrite elem_of_cons.
  - destruct Hpid as [|Hin]; [done|]. subst r. split; [done|]. split; [done|].
    intros j Hj. rewrite Hsl by done. split; [by right|]. by intros [->|].
Qed.

(** A successful kill changes [nextPid] at most, and keeps it in range. *)
Lemma kill_inv l k k1 :
  procs_ok (k_procs k) → process_kill (Some l) k = Ok 0 k1 →
  ∃ x n, pcbs (k_procs k) !! l = Some x ∧ tidOffset (k_procs k) < pid (info x) ∧
    k_procs k1 = set_nextPid n (k_procs k) ∧ (n = nextPid (k_procs k) ∨ n = pid (info x)).
Proof.
  intros Hok H. unfold process_kill, thread_kill, emit in H. prun. simpl in *.
  match goal with H : (if ?b then _ else _) _ = _ |- _ =>
    destruct b eqn:Hc; [|discriminate H] end.
  apply andb_true_iff in Hc as [Hc _]. apply bool_decide_eq_true in Hc.
  prun; simpl in *; simplify_eq.
  - eexists _, _. naive_solver.
  - eexists _, (nextPid _). split; [done|]. split; [done|]. split; [|by left].
    match goal with |- ?s = _ => by destruct s end.
Qed.

Lemma live_delete k live r p k1 k2 :
  live_inv (k, live) → process_lookup r (k_procs k) = Ok p (k_procs k) →
  process_kill p k = Ok 0 k1 → on_procs (process_remove p) k1 = Ok tt k2 →
  live_inv (k2, filter (λ i, i ≠ r) live).
Proof.
  intros (Hok & Hnd & Hrng & Hlive) Hl Hk Hrm. simpl in *.
  destruct p as [l|]; [|by apply bind_inv in Hk as ([] & ? & ? & _)].
  destruct (kill_inv _ _ _ Hok Hk) as (x & n & Hx & Hoff & Hk1 & Hn).
  pose proof (off_range _ Hok) as Hor.
  assert (0 ≤ r < MAX_ADDRSPACES) as Hr.
  { unfold process_lookup in Hl. apply bind_inv in Hl as (tb & s & [= <- <-] & Hl).
    unfold arr_get in Hl. case_decide; [|done].
    destruct (sosProcs (k_procs k) !! Z.to_nat r) eqn:Hs; [|done].
    apply lookup_lt_Some in Hs. rewrite (tbl_len _ Hok) in Hs. unfold MAX_ADDRSPACES in *. lia. }
  rewrite (lookup_ok _ r Hok Hr) in Hl. injection Hl as Hl.
  assert (pid (info x) = r) as Hpr.
  { destruct (tbl_pcb _ Hok r l Hr Hl) as [[= ->]|Hp].
    - pose proof (no_placeholder _ Hok) as Hnp. by rewrite (pids_lookup _ _ _ Hx) in Hnp.
    - rewrite (pids_lookup _ _ _ Hx) in Hp. congruence. }
  assert (procs_ok (set_nextPid n (k_procs k))) as Hok1
    by (apply set_nextPid_ok; [done|destruct Hn as [-> | ->]; lia]).
  apply zoom_inv in Hrm as (s2 & Hrm & ->). rewrite Hk1 in Hrm.
  apply bind_inv in Hrm as (r' & s3 & Hg & Hset). prun. simpl in *. simplify_eq.
  rewrite (table_set_ok (set_nextPid n (k_procs k))) in Hset by done. injection Hset as <-.
  split; [apply (table_set_inv (set_nextPid n (k_procs k))); [done|done|by left]|]. simpl.
  split; [by apply NoDup_filter|]. split.
  { intros i Hi. apply list_elem_of_filter in Hi as [_ Hi]. by apply Hrng. }
  intros i Hi. rewrite (slot_set (set_nextPid n (k_procs k))) by (done || lia).
  change (slot (set_nextPid n (k_procs k)) i) with (slot (k_procs k) i).
  rewrite list_elem_of_filter, Hlive by done. case_decide; naive_solver.
Qed.

Lemma live_inv_step c c' : live_inv c → pstep c c' → live_inv c'.
Proof.
  intros Hinv Hs. inversion Hs; subst.
  - by eapply live_reserve.
  - by eapply live_prepare.
  - by eapply live_delete.
Qed.
Lemma live_inv_reach c c' : live_inv c → rtc pstep c c' → live_inv c'.
Proof. intros Hi. induction 1; [done|]. eauto using live_inv_step. Qed.

(** The table at the first [process_init]: one root thread before it. *)
Definition procs0 : procs :=
  mkProcs ∅ (replicate (Z.to_nat MAX_ADDRSPACES) NULL) 2 2 1 true.
Definition kboot (s : procs) : kstate :=
  mkK (mkSwapst FrameClients.booted ∅) s (mkVfs ∅ NULL) (mkNfs ∅ [] 0)
      (mkConsole NULL [] 1 FM_UNLIMITED_RW (mkReader NIL_PID 0 0 0 0) [])
      (mkPager 0 0 [] [] [] false ∅ ∅ 0 0 L4_nilthread [])
      (mkClock 0 [] 0 0 0 0 []).
Lemma procs0_slot i : slot procs0 i = NULL.
Proof.
  unfold slot. destruct (sosProcs procs0 !! Z.to_nat i) as [x|] eqn:Hx; [|done].
  by apply lookup_replicate in Hx as [-> _].
Qed.
Lemma procs0_ok : procs_ok procs0.
Proof.
  split; [reflexivity|by apply (bool_decide_unpack _)| |reflexivity].
  intros i l _. by rewrite procs0_slot.
Qed.
Lemma live0 : live_inv (kboot procs0, []).
Proof.
  split; [apply procs0_ok|]. split; [by apply NoDup_nil|]. split; [by intros i ?%elem_of_nil|].
  intros i _. simpl. rewrite procs0_slot. split; [by intros ?%elem_of_nil|done].
Qed.

(** C39: [getNextPid] always returns (its loop detection stops the search
    after one round over the table): with the first free pid in cyclic order
    from [nextPid], or with [NIL_PID] exactly when no pid at or above
    [tidOffset] is free.  It changes nothing but [nextPid]. *)
Theorem getNextPid_first_free s :
  procs_ok s →
  ∃ r n, getNextPid s = Ok r (set_nextPid n s) ∧
    ((r = NIL_PID ∧ ∀ i, tidOffset s ≤ i < MAX_ADDRSPACES → slot s i ≠ NULL) ∨
     (n = r ∧ tidOffset s ≤ r < MAX_ADDRSPACES ∧ slot s r = NULL ∧
      ∃ k, 0 ≤ k < span s ∧ cyc s k = r ∧ ∀ j, 0 ≤ j < k → slot s (cyc s j) ≠ NULL)).
Proof.
  intros Hok. destruct (getNextPid_spec s Hok) as (r & s' & Hrun & ([n ->] & _ & Hf)).
  exists r, n. split; [done|]. destruct Hf as [|(-> & H)]; [by left|by right].
Qed.
Lemma getNextPid_first_free_witness :
  ∃ r n, getNextPid procs0 = Ok r (set_nextPid n procs0) ∧
    ((r = NIL_PID ∧ ∀ i, tidOffset procs0 ≤ i < MAX_ADDRSPACES → slot procs0 i ≠ NULL) ∨
     (n = r ∧ tidOffset procs0 ≤ r < MAX_ADDRSPACES ∧ slot procs0 r = NULL ∧
      ∃ k, 0 ≤ k < span procs0 ∧ cyc procs0 k = r ∧
           ∀ j, 0 ≤ j < k → slot procs0 (cyc procs0 j) ≠ NULL)).
Proof. apply (getNextPid_first_free procs0). apply procs0_ok. Defined.

(** C31: process ids are never shared.  Along any sequence of reservations,
    registrations of prepared processes and deletions, the pids in use are
    pairwise different, lie between [tidOffset] and [MAX_ADDRSPACES], and are
    exactly the occupied entries of the PCB table; a further reservation never
    returns one of them. *)
Theorem pids_never_shared c live k :
  live_inv c → rtc pstep c (k, live) →
  NoDup live ∧
  (∀ i, i ∈ live ↔ tidOffset (k_procs k) ≤ i < MAX_ADDRSPACES ∧ slot (k_procs k) i ≠ NULL) ∧
  (∀ r k', on_procs reserve_pid k = Ok r k' → r ≠ NIL_PID → r ∉ live).
Proof.
  intros Hi Hr. pose proof (live_inv_reach _ _ Hi Hr) as Hinv.
  pose proof Hinv as (_ & Hnd & Hrng & Hlive). simpl in *. split; [done|]. split.
  - intros i. split; [|naive_solver]. intros Hin. pose proof (Hrng _ Hin). by rewrite <- Hlive.
  - intros r k' Hrun Hn. by apply (live_reserve k live r k').
Qed.
Definition after_reserve : kstate :=
  match on_procs reserve_pid (kboot procs0) with Ok _ k => k | Err _ => kboot procs0 end.
Lemma pids_never_shared_witness :
  NoDup [2] ∧
  (∀ i, i ∈ [2] ↔ tidOffset (k_procs after_reserve) ≤ i < MAX_ADDRSPACES ∧
                  slot (k_procs after_reserve) i ≠ NULL) ∧
  (∀ r k', on_procs reserve_pid after_reserve = Ok r k' → r ≠ NIL_PID → r ∉ [2]).
Proof.
  apply (pids_never_shared (kboot procs0, []) [2] after_reserve live0).
  apply rtc_once, pstep_reserve; [vm_compute; reflexivity|done].
Defined.

(** Preparing a process whose standard output is redirected and whose
    standard error is not (or the other way round) compares the two names with
    [strcmp], one of which is NULL: no preparation of such a process returns. *)
Theorem process_prepare2_one_redirect_faults p o e i k x :
  pcb_get p (k_procs k) = Ok x (k_procs k) → ps_type (info x) = PS_TYPE_PROCESS →
  (o = None ∧ e ≠ None) ∨ (o ≠ None ∧ e = None) →
  ∃ f, process_prepare2 p o e i k = Err f.
Proof.
  intros Hx Hty Hred. destruct (process_prepare2 p o e i k) as [[] k'|f] eqn:H; [|by exists f].
  exfalso. apply bind_inv in H as ([] & k1 & Hreg & H).
  apply bind_inv in H as (x1 & k2 & Hx1 & H). apply zoom_inv in Hx1 as (s1 & Hx1 & ->).
  assert (ps_type (info x1) = PS_TYPE_PROCESS) as Hty1.
  { apply zoom_inv in Hreg as (s0 & Hreg & ->). simpl in *.
    pose proof (register_type p (k_procs k) s0 x Hreg Hx) as (x0 & Hx0 & Ht0).
    rewrite Hx0 in Hx1. injection Hx1 as -> ->. congruence. }
  rewrite decide_True in H by (by rewrite Hty1).
  apply bind_inv in H as ([] & k3 & _ & H). apply bind_inv in H as ([] & k4 & _ & H).
  apply bind_inv in H as (same & k5 & Hs & _).
  assert (bool_decide (o = None) && bool_decide (e = None) = false) as Hb.
  { apply andb_false_iff. rewrite !bool_decide_eq_false. naive_solver. }
  rewrite Hb in Hs. unfold strcmp_eq in Hs. destruct Hred as [[-> _]|[_ ->]].
  - by apply bind_inv in Hs as (? & ? & ? & _).
  - apply bind_inv in Hs as (? & ? & _ & Hs). by apply bind_inv in Hs as (? & ? & ? & _).
Qed.
(** A new process in PCB 2. *)
Definition new_proc : Process :=
  mkProcess (mkInfo NIL_PID 0 0 0 [] PS_STATE_START PS_TYPE_PROCESS PS_IPC_ALL)
    8192 [] 0 0 0 (fst vfiles_init) (snd vfiles_init) WAIT_NOBODY None.
Definition one_proc : procs := set_pcbs {[ 2%positive := new_proc ]} procs0.
Lemma process_prepare2_one_redirect_faults_witness :
  ∃ f, process_prepare2 (Some 2%positive) (Some STDOUT_FN) None None (kboot one_proc) = Err f.
Proof.
  apply (process_prepare2_one_redirect_faults (Some 2%positive) _ _ _ _ new_proc);
    [reflexivity|reflexivity|right; done].
Defined.
End ProcessClaims.
