(* ===== verification/Reply.v ===== *)
(** * Replies to system calls ([syscall_reply] and [syscall_reply_v] of
    [sos/syscall.c])

    Every handler of SOS answers a blocked thread through these functions.
    They drop a reply to a thread that is gone, that does not accept IPC, or
    that is not running yet or any more.  The theorem gives the exact effect of
    a reply on every branch. *)
From S2P Require Import Prelude Machine ListC Frames Swapfile State Pagetable Process.
Import Process ProcessInv Time.

Module Reply.
Definition syscall_reply_v (tid : L4_ThreadId_t) (words : list Z) : K unit :=
  p ← on_procs (process_lookup (L4_ThreadNo tid));
  if decide (p = NULL) then mret tt
  else if decide (tid = L4_rootserver ∨ tid = L4_nilthread) then mret tt
  else
    f ← on_procs (process_get_ipcfilt p);
    if decide (f = PS_IPC_NONE) then mret tt
    else
      emit L4_CacheFlushAll;;
      st ← on_procs (process_get_state p);
      if decide (st = PS_STATE_ZOMBIE ∨ st = PS_STATE_START) then mret tt
      else
        f ← on_procs (process_get_ipcfilt p);
        emit (L4_Ipc tid SOS_REPLY
                (if decide (f = PS_IPC_BLOCKING) then SOS_IPC_SEND else SOS_IPC_REPLY)
                (w32 <$> words)).
Definition syscall_reply (tid : L4_ThreadId_t) (rval : Z) : K unit := syscall_reply_v tid [rval].

(** [syscall_reply(process_get_tid(p), rval)] and [PS_GET_TID(pid)] of [vfs.c]. *)
Definition reply_to (p : ptr) (rval : Z) : K unit :=
  tid ← on_procs (process_get_tid p); syscall_reply tid rval.
Definition PS_GET_TID (pid : Z) : K L4_ThreadId_t :=
  p ← on_procs (process_lookup pid); on_procs (process_get_tid p).
Definition reply_pid (pid rval : Z) : K unit :=
  tid ← PS_GET_TID pid; syscall_reply tid rval.

(** ** What a reply does *)
(** The events of a reply to thread [tid] whose table entry is [x]. *)
Definition reply_events (tid : L4_ThreadId_t) (words : list Z) (i : process_t) : list event :=
  if decide (tid = L4_rootserver ∨ tid = L4_nilthread) then []
  else match ipc_accept i with
  | PS_IPC_NONE => []
  | f =>
      match state i with
      | PS_STATE_ZOMBIE | PS_STATE_START => [L4_CacheFlushAll]
      | _ => [L4_CacheFlushAll;
              L4_Ipc tid SOS_REPLY
                (if decide (f = PS_IPC_BLOCKING) then SOS_IPC_SEND else SOS_IPC_REPLY)
                (w32 <$> words)]
      end
  end.
Definition klog_app (es : list event) (k : kstate) : kstate :=
  set_kmach (mkMachine (mem (kmach k)) (cbuf (kmach k)) (log (kmach k) ++ es)
                       (mnext (kmach k)) (moracle (kmach k))) k.

Lemma klog_app_nil k : klog_app [] k = k.
Proof. unfold klog_app. rewrite app_nil_r. by destruct k as [[[[]]]]. Qed.
Lemma klog_app_app es es' k : klog_app es' (klog_app es k) = klog_app (es ++ es') k.
Proof. unfold klog_app. simpl. by rewrite app_assoc. Qed.
Lemma emit_ok e k : emit e k = Ok tt (klog_app [e] k).
Proof. done. Qed.
Lemma on_procs_id {A} (m : M procs A) k a :
  m (k_procs k) = Ok a (k_procs k) → on_procs m k = Ok a k.
Proof. intros H. unfold on_procs. rewrite (zoom_ok _ _ _ _ _ _ H). by destruct k. Qed.
Lemma pcb_field {A} (f : Process → A) s l x :
  pcbs s !! l = Some x → (y ← pcb_get (Some l); mret (f y)) s = Ok (f x) s.
Proof. intros H. unfold mbind, M_bind, pcb_get. by rewrite H. Qed.

Lemma reply_none tid words k :
  process_lookup (L4_ThreadNo tid) (k_procs k) = Ok NULL (k_procs k) →
  syscall_reply_v tid words k = Ok tt k.
Proof.
  intros H. unfold syscall_reply_v. rewrite (bind_ok _ _ k NULL k); [done|].
  by apply on_procs_id.
Qed.

Lemma reply_some tid words l x k :
  process_lookup (L4_ThreadNo tid) (k_procs k) = Ok (Some l) (k_procs k) →
  pcbs (k_procs k) !! l = Some x →
  syscall_reply_v tid words k = Ok tt (klog_app (reply_events tid words (info x)) k).
Proof.
  intros Hl Hx. unfold syscall_reply_v.
  rewrite (bind_ok _ _ k (Some l) k) by (by apply on_procs_id).
  rewrite decide_False by done. unfold reply_events. case_decide as Hd.
  { by rewrite klog_app_nil. }
  assert (∀ k', k_procs k' = k_procs k →
    on_procs (process_get_ipcfilt (Some l)) k' = Ok (ipc_accept (info x)) k') as Hf.
  { intros k' Hk'. apply on_procs_id. rewrite Hk'. by apply (pcb_field (λ y, ipc_accept (info y))). }
  rewrite (bind_ok _ _ _ _ _ (Hf k eq_refl)). case_decide as Hn.
  { by rewrite Hn, klog_app_nil. }
  rewrite (bind_ok _ _ _ _ _ (emit_ok _ _)). set (k1 := klog_app [L4_CacheFlushAll] k).
  rewrite (bind_ok _ _ k1 (state (info x)) k1) by (by apply on_procs_id, (pcb_field (λ y, state (info y)))).
  case_decide as Hs.
  { destruct Hs as [Hs|Hs]; rewrite Hs; by destruct (ipc_accept (info x)). }
  rewrite (bind_ok _ _ _ _ _ (Hf k1 eq_refl)), emit_ok. unfold k1. rewrite klog_app_app.
  destruct (ipc_accept (info x)); try done; destruct (state (info x)); naive_solver.
Qed.

(** Replies change nothing but the log. *)
Definition nolog (k : kstate) : kstate :=
  set_kmach (mkMachine (mem (kmach k)) (cbuf (kmach k)) [] (mnext (kmach k)) (moracle (kmach k))) k.
Lemma nolog_app es k : nolog (klog_app es k) = nolog k.
Proof. done. Qed.
Lemma on_procs_nolog {A} (m : M procs A) : pres (λ s, s) m → pres nolog (on_procs m).
Proof.
  intros H s a s' (t & Ht & ->)%zoom_inv. rewrite (H _ _ _ Ht). by destruct s.
Qed.
Lemma emit_nolog e : pres nolog (emit e).
Proof. intros s a s' [= _ <-]. done. Qed.
#[export] Hint Resolve on_procs_nolog emit_nolog : pres.
Lemma reply_v_nolog tid words : pres nolog (syscall_reply_v tid words).
Proof.
  unfold syscall_reply_v, process_get_ipcfilt, process_get_state. pres_auto;
    apply on_procs_nolog; pres_auto.
Qed.
Lemma reply_to_nolog p r : pres nolog (reply_to p r).
Proof. unfold reply_to, syscall_reply. pres_auto. apply reply_v_nolog. Qed.
Lemma reply_pid_nolog pid r : pres nolog (reply_pid pid r).
Proof. unfold reply_pid, PS_GET_TID, syscall_reply. pres_auto. apply reply_v_nolog. Qed.
#[export] Hint Resolve reply_v_nolog reply_to_nolog reply_pid_nolog : pres.
(** A view that does not look at the log is preserved by what preserves
    everything but the log. *)
Lemma pres_of_nolog {A X} (f : kstate → X) (m : K A) :
  (∀ k, f k = f (nolog k)) → pres nolog m → pres f m.
Proof. intros Hf Hm s a s' H. by rewrite Hf, (Hm _ _ _ H), <- Hf. Qed.

(** ** Reading the information of a process *)
(** [process_get_info] brings the process's [stime] up to date. *)
Definition stamped (k : kstate) (l : positive) (x : Process) (t : Z) : kstate :=
  set_procs (set_pcbs (<[l := upd_info (set_stime (w32 (t - startedAt x))) x]> (pcbs (k_procs k)))
    (k_procs k)) (set_clock (after time_stamp (k_clock k)) k).
Lemma time_stamp_run k :
  ∃ t, on_clock time_stamp k = Ok t (set_clock (after time_stamp (k_clock k)) k).
Proof.
  unfold on_clock, zoom, after. destruct (time_stamp (k_clock k)) eqn:H; [by eexists|].
  unfold time_stamp, raw_time_stamp, read_OST_TS in H. by run_steps.
Qed.
Lemma get_info_run k l x :
  pcbs (k_procs k) !! l = Some x →
  ∃ t, process_get_info (Some l) k = Ok (set_stime (w32 (t - startedAt x)) (info x)) (stamped k l x t).
Proof.
  intros Hx. destruct (time_stamp_run k) as [t Ht]. exists t. unfold process_get_info.
  rewrite (bind_ok _ _ k x k) by (apply on_procs_id; cbn; by rewrite Hx).
  rewrite (bind_ok _ _ _ _ _ Ht). erewrite bind_ok; last first.
  { unfold on_procs, zoom. cbn. rewrite Hx. reflexivity. }
  erewrite bind_ok; last first.
  { unfold on_procs, zoom. cbn. rewrite lookup_insert_eq. reflexivity. }
  done.
Qed.
End Reply.

Module ReplyClaims.
Import Reply.

(** A reply to a thread whose table entry holds a process appends to the
    log exactly: nothing when the thread is the root server, nil, or has asked
    not to be sent IPC; a cache flush when the process is a zombie or has not
    started; otherwise a cache flush and one IPC with the given words, sent
    blocking exactly when the process accepts blocking IPC only.  Nothing else
    changes. *)
Theorem syscall_reply_v_effect tid words l x k :
  process_lookup (L4_ThreadNo tid) (k_procs k) = Ok (Some l) (k_procs k) →
  pcbs (k_procs k) !! l = Some x →
  syscall_reply_v tid words k = Ok tt (klog_app (reply_events tid words (info x)) k).
Proof. apply reply_some. Qed.

Definition alive_proc : Process :=
  set_info (set_state PS_STATE_ALIVE (set_pid 5 (info ProcessClaims.new_proc)))
           ProcessClaims.new_proc.
Definition alive_procs : procs :=
  set_sosProcs (<[5%nat := Some 2%positive]> (sosProcs ProcessClaims.procs0))
    (set_pcbs {[ 2%positive := alive_proc ]} ProcessClaims.procs0).
Lemma syscall_reply_v_effect_witness :
  syscall_reply_v (L4_GlobalId 5 1) [7] (ProcessClaims.kboot alive_procs) =
  Ok tt (klog_app [L4_CacheFlushAll; L4_Ipc (L4_GlobalId 5 1) SOS_REPLY SOS_IPC_REPLY [7]]
           (ProcessClaims.kboot alive_procs)).
Proof.
  rewrite (syscall_reply_v_effect _ _ 2 alive_proc); [reflexivity|vm_compute; reflexivity|reflexivity].
Defined.
End ReplyClaims.
