(* ===== verification/VfsCore.v ===== *)
(** * The core of the virtual file system ([sos/vfs.c])

    The doubly linked list of open vnodes, their reader and writer counts, the
    descriptor tables of a process, and the callbacks with which a file system
    finishes an open, close, read or write.  The system calls that dispatch to
    a file system are in [Vfs.v], after the file systems they call. *)
From S2P Require Import Prelude Machine ListC Frames Swapfile State Pagetable Process Reply.
Import Process ProcessInv Reply.

Module VfsCore.
(** ** Access to vnodes through a [VNode] pointer *)
Definition vn_get (v : ptr) : M vfs VNode := λ s,
  match v with
  | None => Err NullDeref
  | Some l => match vnodes s !! l with Some x => Ok x s | None => Err BadPtr end
  end.
Definition vn_upd (v : ptr) (f : VNode → VNode) : M vfs unit := λ s,
  match v with
  | None => Err NullDeref
  | Some l => match vnodes s !! l with
              | Some x => Ok tt (mkVfs (<[l := f x]> (vnodes s)) (GlobalVNodes s))
              | None => Err BadPtr
              end
  end.
Definition vn_free (v : ptr) : M vfs unit := λ s,
  match v with
  | None => Ok tt s
  | Some l => match vnodes s !! l with
              | Some _ => Ok tt (mkVfs (delete l (vnodes s)) (GlobalVNodes s))
              | None => Err BadPtr
              end
  end.
Definition set_global (v : ptr) : M vfs unit := modify (λ s, mkVfs (vnodes s) v).

Definition set_next v x := mkVNode (path x) (vstat x) (Max_Readers x) (Max_Writers x) (readers x)
  (writers x) (extra x) (previous x) v (vops x).
Definition set_previous v x := mkVNode (path x) (vstat x) (Max_Readers x) (Max_Writers x) (readers x)
  (writers x) (extra x) v (vnext x) (vops x).
Definition set_extra v x := mkVNode (path x) (vstat x) (Max_Readers x) (Max_Writers x) (readers x)
  (writers x) v (previous x) (vnext x) (vops x).
Definition set_readers v x := mkVNode (path x) (vstat x) (Max_Readers x) (Max_Writers x) v
  (writers x) (extra x) (previous x) (vnext x) (vops x).
Definition set_writers v x := mkVNode (path x) (vstat x) (Max_Readers x) (Max_Writers x) (readers x)
  v (extra x) (previous x) (vnext x) (vops x).
Definition set_limits r w x := mkVNode (path x) (vstat x) r w (readers x)
  (writers x) (extra x) (previous x) (vnext x) (vops x).
Definition set_path v x := mkVNode v (vstat x) (Max_Readers x) (Max_Writers x) (readers x)
  (writers x) (extra x) (previous x) (vnext x) (vops x).
Definition set_vstat v x := mkVNode (path x) v (Max_Readers x) (Max_Writers x) (readers x)
  (writers x) (extra x) (previous x) (vnext x) (vops x).
Definition set_vops v x := mkVNode (path x) (vstat x) (Max_Readers x) (Max_Writers x) (readers x)
  (writers x) (extra x) (previous x) (vnext x) v.

(** ** The list of open vnodes *)
Definition add_vnode (vnode : ptr) : M vfs unit :=
  vn_upd vnode (set_next NULL);;
  vn_upd vnode (set_previous NULL);;
  g ← gets GlobalVNodes;
  when (bool_decide (g ≠ NULL))
    (vn_upd vnode (set_next g);; vn_upd g (set_previous vnode));;
  set_global vnode.

Definition remove_vnode (vnode : ptr) : M vfs unit :=
  x ← vn_get vnode;
  let vp := previous x in
  let vn := vnext x in
  (if bool_decide (vp = NULL) && bool_decide (vn = NULL) then set_global NULL
   else if bool_decide (vn = NULL) then vn_upd vp (set_next NULL)
   else if bool_decide (vp = NULL) then set_global vn;; vn_upd vn (set_previous NULL)
   else vn_upd vp (set_next vn);; vn_upd vn (set_previous vp));;
  vn_upd vnode (set_next NULL);;
  vn_upd vnode (set_previous NULL).

(** The loop of [find_vnode]; an acyclic list is shorter than the heap. *)
Fixpoint find_vnode_loop (fuel : nat) (p : cstr) (vnode : ptr) : M vfs ptr :=
  match fuel with
  | O => fail OutOfFuel
  | S fuel' =>
      if decide (vnode = NULL) then mret NULL
      else
        x ← vn_get vnode;
        if decide (path x = p) then mret vnode
        else find_vnode_loop fuel' p (vnext x)
  end.
Definition vnode_fuel (s : vfs) : nat := S (base.size (vnodes s)).
Definition find_vnode (p : cstr) : M vfs ptr :=
  fuel ← gets vnode_fuel; g ← gets GlobalVNodes; find_vnode_loop fuel p g.

Definition stat0 : stat_t := mkStat ST_SPECIAL 0 0 0 0 0 0.
(** The code leaves [vstat] uninitialised, which is zeros here. *)
Definition new_vnode : K ptr :=
  v ← kmalloc;
  match v with
  | None => mret NULL
  | Some l =>
      on_vfs (modify (λ s, mkVfs (<[l := mkVNode [] stat0 FM_UNLIMITED_RW FM_UNLIMITED_RW 0 0
                                          ExNull NULL NULL FsNone]> (vnodes s)) (GlobalVNodes s)));;
      mret (Some l)
  end.

(** [free(vnode->extra)] is only legal on a block from [malloc]: the extra
    data of the console is a static variable. *)
Definition free_vnode (vnode : ptr) : M vfs unit :=
  match vnode with
  | None => mret tt
  | Some _ =>
      x ← vn_get vnode;
      match extra x with
      | ExNull => mret tt
      | ExConsole => fail BadPtr
      | ExNfs _ => vn_upd vnode (set_extra ExNull)
      end;;
      vn_free vnode
  end.

(** ** Reader and writer counts *)
Definition has (mode flag : Z) : bool := truthy (Z.land mode flag).

Definition increase_refs (vnode : ptr) (mode : Z) : M vfs Z :=
  x ← vn_get vnode;
  if has mode FM_READ && bool_decide (Max_Readers x ≤ readers x)
     && negb (Max_Readers x =? FM_UNLIMITED_RW)
  then mret SOS_VFS_READFULL
  else
    when (has mode FM_READ) (vn_upd vnode (set_readers (w32 (readers x + 1))));;
    x ← vn_get vnode;
    if has mode FM_WRITE then
      if bool_decide (Max_Writers x ≤ writers x) && negb (Max_Writers x =? FM_UNLIMITED_RW) then
        when (has mode FM_READ) (vn_upd vnode (set_readers (w32 (readers x - 1))));;
        mret SOS_VFS_WRITEFULL
      else
        vn_upd vnode (set_writers (w32 (writers x + 1)));;
        mret SOS_VFS_OK
    else mret SOS_VFS_OK.

(** The counts are unsigned, so the check for corrupt counts never fires. *)
Definition decrease_refs (vnode : ptr) (mode : Z) : M vfs Z :=
  x ← vn_get vnode;
  when (has mode FM_READ) (vn_upd vnode (set_readers (w32 (readers x - 1))));;
  when (has mode FM_WRITE) (vn_upd vnode (set_writers (w32 (writers x - 1))));;
  mret SOS_VFS_OK.

(** ** The descriptor tables of a process *)
Definition index_where {A} (f : A → bool) (l : list A) : Z :=
  match list_find f l with Some (i, _) => Z.of_nat i | None => VFS_NIL_FILE end.

(** [findNextFd(p, &fds1, &fds2)]: both slots and whether it succeeded.  When
    the caller passes one variable for both, the second result overwrites the
    first, if it is found. *)
Definition findNextFd (p : ptr) (aliased : bool) : M procs (Z * Z * bool) :=
  x ← pcb_get p;
  let fd1 := index_where (λ fd, fd =? VFS_NIL_FILE) (fds x) in
  let fd2 := index_where (λ f, bool_decide (vnode f = NULL)) (files x) in
  let both := if decide (fd2 = VFS_NIL_FILE) then fd1 else fd2 in
  let r1 := if aliased then both else fd1 in
  let r2 := if aliased then both else fd2 in
  mret (r1, r2, negb ((r1 =? VFS_NIL_FILE) || (r2 =? VFS_NIL_FILE))).

(** A [VFile *] is a process and an index into its open-file table. *)
Definition vfile_ref : Type := ptr * Z.
Definition vf_get (r : vfile_ref) : M procs VFile :=
  x ← pcb_get (fst r); arr_get (files x) (snd r).
Definition vf_upd (r : vfile_ref) (f : VFile → VFile) : M procs unit :=
  x ← pcb_get (fst r);
  v ← arr_get (files x) (snd r);
  fs ← of_opt OutOfRange (arr_set (files x) (snd r) (f v));
  pcb_upd (fst r) (set_files fs).
Definition fd_get (p : ptr) (file : Z) : M procs Z := x ← pcb_get p; arr_get (fds x) file.
Definition fd_set (p : ptr) (file v : Z) : M procs unit :=
  x ← pcb_get p;
  t ← of_opt OutOfRange (arr_set (fds x) file v);
  pcb_upd p (set_fds t).
Definition set_vnode v (f : VFile) := mkVFile v (fmode f) (fp f) (ref f).
Definition set_fp v (f : VFile) := mkVFile (vnode f) (fmode f) v (ref f).
Definition set_ref v (f : VFile) := mkVFile (vnode f) (fmode f) (fp f) v.

Definition get_vfile (pid file : Z) (ipc : bool) : K (option vfile_ref) :=
  p ← on_procs (process_lookup pid);
  if decide (p = NULL) then mret None
  else
    if bool_decide (file < 0) || bool_decide (PROCESS_MAX_FDS ≤ file) then
      when ipc (reply_to p SOS_VFS_NOFILE);; mret None
    else
      i ← on_procs (fd_get p file);
      if bool_decide (i < 0) || bool_decide (PROCESS_MAX_FILES ≤ i) then
        when ipc (reply_to p SOS_VFS_NOFILE);; mret None
      else
        v ← on_procs (vf_get (p, i));
        if decide (vnode v = NULL) then
          when ipc (reply_to p SOS_VFS_NOFILE);; mret None
        else mret (Some (p, i)).

Definition vfs_isopen (pid fd : Z) : K bool :=
  v ← get_vfile pid fd false; mret (bool_decide (v ≠ None)).

(** ** Completion callbacks *)
Definition vfs_open_err (self : ptr) : M vfs unit :=
  match self with
  | None => mret tt
  | Some _ =>
      x ← vn_get self;
      when ((readers x =? 0) && (writers x =? 0)) (remove_vnode self;; free_vnode self)
  end.

Definition vfs_open_done (pid : Z) (self : ptr) (mode status : Z) : K unit :=
  p ← on_procs (process_lookup pid);
  if decide (p = NULL) then on_vfs (vfs_open_err self)
  else if decide (status ≠ SOS_VFS_OK ∨ self = NULL) then
    on_vfs (vfs_open_err self);; reply_to p status
  else
    rval ← on_vfs (increase_refs self mode);
    if decide (rval ≠ SOS_VFS_OK) then
      on_vfs (vfs_open_err self);; reply_to p rval
    else
      r ← on_procs (findNextFd p false);
      let '(fd1, fd2, ok) := r in
      if negb ok then
        on_vfs (decrease_refs self mode);;
        on_vfs (vfs_open_err self);;
        reply_to p SOS_VFS_NOMORE
      else
        on_procs (vf_upd (p, fd2) (λ _, mkVFile self mode 0 1));;
        on_procs (fd_set p fd1 fd2);;
        reply_to p fd1.

Definition vfs_close_done (pid : Z) (self : ptr) (status : Z) : K unit :=
  when (status =? SOS_VFS_OK) (on_vfs (remove_vnode self);; on_vfs (free_vnode self));;
  reply_pid pid status.

Definition vfs_read_done (pid file nbyte status : Z) : K unit :=
  r ← get_vfile pid file true;
  match r with
  | None => mret tt
  | Some vf =>
      if decide (status < 0) then reply_pid pid status
      else
        on_procs (vf_upd vf (λ f, set_fp (w32 (fp f + nbyte)) f));;
        reply_pid pid (if decide (status = 0) then SOS_VFS_EOF else status)
  end.

Definition vfs_write_done (pid file nbyte status : Z) : K unit :=
  if decide (status < 0) then reply_pid pid status
  else
    r ← get_vfile pid file true;
    match r with
    | None => mret tt
    | Some vf =>
        on_procs (vf_upd vf (λ f, set_fp (w32 (fp f + nbyte)) f));;
        tid ← PS_GET_TID pid;
        syscall_reply_v tid [status; syscall_num SOS_WRITE]
    end.
End VfsCore.

(** ** The list of open vnodes, abstractly *)
Module VnodeList.
Import VfsCore.

(** [dseg h prev p ls last nxt]: following [next] from [p], the nodes [ls] up
    to [nxt], whose [previous] pointers lead back to [prev]; [last] is the
    last of them. *)
Fixpoint dseg (h : gmap positive VNode) (prev p : ptr) (ls : list positive) (last nxt : ptr) : Prop :=
  match ls with
  | [] => p = nxt ∧ last = prev
  | l :: ls' => p = Some l ∧ ∃ x, h !! l = Some x ∧ previous x = prev ∧
                dseg h (Some l) (vnext x) ls' last nxt
  end.
Definition vlist (s : vfs) (ls : list positive) : Prop :=
  (∃ last, dseg (vnodes s) NULL (GlobalVNodes s) ls last NULL) ∧ NoDup ls.

(** The contents of a vnode, without its links. *)
Definition contents (x : VNode) : VNode := set_next NULL (set_previous NULL x).
Definition same_contents (h h' : gmap positive VNode) : Prop :=
  ∀ l, contents <$> h' !! l = contents <$> h !! l.

Lemma same_contents_insert h h' l x y :
  same_contents h h' → h !! l = Some x → contents y = contents x → same_contents h (<[l := y]> h').
Proof.
  intros Hs Hl Hc l'. rewrite lookup_insert. case_decide; [subst|done]. rewrite Hl. simpl. by f_equal.
Qed.

Lemma dseg_ext h h' ls : ∀ prev p last nxt,
  (∀ l, l ∈ ls → h' !! l = h !! l) → dseg h prev p ls last nxt → dseg h' prev p ls last nxt.
Proof.
  induction ls as [|l ls IH]; intros prev p last nxt He; simpl; [done|].
  intros (-> & x & Hx & Hp & Hd). split; [done|]. exists x.
  split; [rewrite He by (by left); done|]. split; [done|]. apply IH; [|done].
  intros. apply He. by right.
Qed.
Lemma dseg_insert_fresh h ls l x prev p last nxt :
  l ∉ ls → dseg h prev p ls last nxt → dseg (<[l := x]> h) prev p ls last nxt.
Proof.
  intros Hl. apply dseg_ext. intros l' Hl'. apply lookup_insert_ne. by intros ->.
Qed.
Lemma dseg_app h ls1 ls2 : ∀ prev p last nxt,
  dseg h prev p (ls1 ++ ls2) last nxt ↔
  ∃ q mid, dseg h prev p ls1 mid q ∧ dseg h mid q ls2 last nxt.
Proof.
  induction ls1 as [|l ls1 IH]; intros prev p last nxt; simpl.
  - naive_solver.
  - setoid_rewrite IH. naive_solver.
Qed.
(** Redirecting the [next] pointer of the last node of a segment. *)
Lemma dseg_set_last h ls : ∀ prev p a nxt v,
  dseg h prev p ls (Some a) nxt → ls ≠ [] → NoDup ls →
  ∃ x, h !! a = Some x ∧ a ∈ ls ∧ dseg (<[a := set_next v x]> h) prev p ls (Some a) v.
Proof.
  induction ls as [|l ls IH]; intros prev p a nxt v Hd Hne Hnd; [done|].
  apply NoDup_cons in Hnd as [Hni Hnd]. destruct Hd as (-> & x & Hx & Hp & Hd).
  destruct ls as [|l' ls].
  - destruct Hd as [_ [= ->]]. exists x. split; [done|]. split; [by left|]. simpl.
    split; [done|]. eexists. rewrite lookup_insert_eq. split; [done|]. by split.
  - destruct (IH (Some l) (vnext x) a nxt v) as (xa & Hxa & Hin & Hd'); [done..|].
    exists xa. split; [done|]. split; [by right|]. split; [done|]. exists x.
    rewrite lookup_insert_ne by (intros ->; done). done.
Qed.
(** Redirecting the [previous] pointer of its first node. *)
Lemma dseg_set_first h ls prev b last nxt v :
  dseg h prev (Some b) ls last nxt → ls ≠ [] → NoDup ls →
  ∃ x, h !! b = Some x ∧ b ∈ ls ∧
    dseg (<[b := set_previous v x]> h) v (Some b) ls last nxt.
Proof.
  intros Hd Hne Hnd. destruct ls as [|l ls]; [done|].
  apply NoDup_cons in Hnd as [Hni Hnd]. destruct Hd as ([= ->] & x & Hx & Hp & Hd).
  exists x. split; [done|]. split; [by left|]. split; [done|].
  eexists. rewrite lookup_insert_eq. split; [done|]. split; [done|].
  by apply dseg_insert_fresh.
Qed.
Lemma dseg_ends h ls : ∀ prev p last,
  dseg h prev p ls last NULL → (p = NULL ↔ ls = []) ∧ (ls ≠ [] → last ≠ NULL).
Proof.
  induction ls as [|l ls IH]; intros prev p last; simpl.
  - intros [-> ->]. done.
  - intros (-> & x & Hx & Hp & Hd). split; [done|]. intros _.
    destruct ls; [by destruct Hd as [_ ->]|]. by apply (IH _ _ _ Hd).
Qed.
Lemma dseg_last h ls : ∀ prev p last nxt,
  dseg h prev p ls last nxt → ls ≠ [] → ∃ a, last = Some a ∧ a ∈ ls.
Proof.
  induction ls as [|l ls IH]; intros prev p last nxt Hd Hne; [done|].
  destruct Hd as (-> & x & Hx & Hp & Hd). destruct ls as [|l' ls].
  - destruct Hd as [_ ->]. exists l. split; [done|by left].
  - destruct (IH _ _ _ _ Hd) as (a & -> & Ha); [done|]. exists a. split; [done|by right].
Qed.
Lemma dseg_dom h ls l : ∀ prev p last nxt,
  dseg h prev p ls last nxt → l ∈ ls → is_Some (h !! l).
Proof.
  induction ls as [|l' ls IH]; intros prev p last nxt; [by intros _ ?%elem_of_nil|].
  intros (-> & x & Hx & _ & Hd) [->|Hl]%elem_of_cons; [by eexists|by eapply IH].
Qed.

(** ** One lemma per heap access *)
Local Arguments vn_upd : simpl never.
Local Arguments vn_get : simpl never.
Lemma vn_get_ok s l x : vnodes s !! l = Some x → vn_get (Some l) s = Ok x s.
Proof. intros H. unfold vn_get. by rewrite H. Qed.
Lemma vn_upd_ok s l x f :
  vnodes s !! l = Some x →
  vn_upd (Some l) f s = Ok tt (mkVfs (<[l := f x]> (vnodes s)) (GlobalVNodes s)).
Proof. intros H. unfold vn_upd. by rewrite H. Qed.

Lemma add_vnode_spec s ls l x :
  vlist s ls → l ∉ ls → vnodes s !! l = Some x →
  ∃ s', add_vnode (Some l) s = Ok tt s' ∧ vlist s' (l :: ls) ∧
        same_contents (vnodes s) (vnodes s').
Proof.
  intros [[last Hd] Hnd] Hni Hx. destruct s as [h g]. simpl in *. unfold add_vnode.
  rewrite (bind_ok _ _ _ _ _ (vn_upd_ok (mkVfs h g) l x _ Hx)). simpl.
  erewrite bind_ok by (apply vn_upd_ok; simpl; by rewrite lookup_insert_eq). simpl.
  rewrite insert_insert_eq. set (x1 := set_previous NULL (set_next NULL x)).
  rewrite (bind_ok _ _ _ g (mkVfs (<[l := x1]> h) g)) by done.
  destruct ls as [|b ls].
  - destruct Hd as [-> ->]. rewrite bool_decide_false by (intros []; done).
    eexists. split; [reflexivity|]. split; [split|]; simpl.
    + exists (Some l). split; [done|]. exists x1. by rewrite lookup_insert_eq.
    + by apply NoDup_singleton.
    + by eapply same_contents_insert.
  - pose proof Hd as (-> & _). rewrite bool_decide_true by done.
    assert (b ≠ l) as Hbl by (intros ->; apply Hni; by left).
    destruct (dseg_set_first h (b :: ls) NULL b last NULL (Some l) Hd) as (xb & Hxb & _ & Hd'); [done..|].
    unfold when. erewrite bind_ok; cycle 1.
    { erewrite bind_ok by (apply vn_upd_ok; simpl; by rewrite lookup_insert_eq). simpl.
      apply vn_upd_ok. simpl. rewrite insert_insert_eq. by rewrite lookup_insert_ne. }
    eexists. split; [reflexivity|]. simpl. rewrite insert_insert_eq. split; [split|].
    + exists last. split; [done|]. eexists. cbn [vnodes]. rewrite lookup_insert_ne by done.
      rewrite lookup_insert_eq. split; [done|]. split; [done|]. simpl vnext.
      rewrite insert_insert_ne by done. apply dseg_insert_fresh; [done|exact Hd'].
    + by apply NoDup_cons.
    + eapply same_contents_insert; [|exact Hxb|done].
      eapply same_contents_insert; [|exact Hx|done]. done.
Qed.

(** The links around a node that is taken out, as a heap. *)
Definition relink (h : gmap positive VNode) (vp vn : ptr) (h' : gmap positive VNode) : Prop :=
  ∃ h1, (match vp with
         | Some a => ∃ xa, h !! a = Some xa ∧ h1 = <[a := set_next vn xa]> h
         | None => h1 = h end) ∧
        (match vn with
         | Some b => ∃ xb, h1 !! b = Some xb ∧ h' = <[b := set_previous vp xb]> h1
         | None => h' = h1 end).

Lemma relink_contents h vp vn h' : relink h vp vn h' → same_contents h h'.
Proof.
  intros (h1 & H1 & H2).
  assert (same_contents h h1) as Hc.
  { destruct vp as [a|]; [|by subst]. destruct H1 as (xa & Ha & ->).
    eapply same_contents_insert; [done|exact Ha|done]. }
  destruct vn as [b|]; [|by subst]. destruct H2 as (xb & Hb & ->).
  intros l. rewrite lookup_insert. case_decide; [subst|apply Hc].
  rewrite <- (Hc l), Hb. done.
Qed.

(** Unlinking the middle of a list leaves its two halves joined. *)
Lemma relink_spec h g ls1 l x ls2 last :
  dseg h NULL g ls1 (previous x) (Some l) → dseg h (Some l) (vnext x) ls2 last NULL →
  NoDup (ls1 ++ l :: ls2) →
  ∃ h', relink h (previous x) (vnext x) h' ∧ h' !! l = h !! l ∧
    ∃ last', dseg h' NULL (if decide (ls1 = []) then vnext x else g) (ls1 ++ ls2) last' NULL.
Proof.
  intros H1 H2 (Hnd1 & Hdis & [Hnl Hnd2]%NoDup_cons)%NoDup_app.
  assert (l ∉ ls1) as Hl1 by (intros Hl; apply (Hdis l Hl); by left).
  assert (∀ a, a ∈ ls1 → a ∉ ls2) as Hdj by (intros a Ha Ha'; apply (Hdis a Ha); by right).
  destruct (dseg_ends _ _ _ _ _ H2) as [Hvn _].
  (* redirect the node before *)
  assert (∃ h1, (match previous x with
      | Some a => ∃ xa, h !! a = Some xa ∧ h1 = <[a := set_next (vnext x) xa]> h
      | None => h1 = h end) ∧ h1 !! l = h !! l ∧ (∀ b, b ∈ ls2 → h1 !! b = h !! b) ∧
      dseg h1 NULL (if decide (ls1 = []) then vnext x else g) ls1 (previous x) (vnext x))
    as (h1 & Hh1 & Hl' & Hb1 & Hd1).
  { destruct ls1 as [|a0 ls1].
    - destruct H1 as [_ ->]. exists h. by rewrite decide_True.
    - destruct (dseg_last _ _ _ _ _ _ H1) as (a & Ha & Hin); [done|]. rewrite Ha in *.
      destruct (dseg_set_last h (a0 :: ls1) NULL g a (Some l) (vnext x) H1) as (xa & Hxa & _ & Hd);
        [done..|]. exists (<[a := set_next (vnext x) xa]> h).
      split; [by exists xa|]. split; [rewrite lookup_insert_ne; [done|by intros ->]|].
      split; [|by rewrite decide_False].
      intros b Hb. rewrite lookup_insert_ne; [done|]. intros ->. by apply (Hdj b). }
  assert (dseg h1 (Some l) (vnext x) ls2 last NULL) as H2' by (by eapply dseg_ext).
  (* redirect the node after *)
  destruct (vnext x) as [b|] eqn:Hvx.
  - assert (ls2 ≠ []) as Hne2 by (intros Hls; by apply Hvn in Hls).
    destruct (dseg_set_first h1 ls2 (Some l) b last NULL (previous x) H2') as (xb & Hxb & Hin & Hd2);
      [done..|].
    exists (<[b := set_previous (previous x) xb]> h1). split; [|split].
    + exists h1. split; [exact Hh1|by exists xb].
    + rewrite lookup_insert_ne; [done|]. by intros ->.
    + exists last. apply dseg_app. exists (Some b), (previous x). split; [|exact Hd2].
      apply dseg_insert_fresh; [|done]. intros Hb. by apply (Hdj b).
  - assert (ls2 = []) as -> by (by apply Hvn). exists h1. split; [by exists h1|]. split; [done|].
    exists (previous x). rewrite app_nil_r. exact Hd1.
Qed.

(** [remove_vnode] performs exactly that relinking. *)
Lemma remove_run s l x h' :
  vnodes s !! l = Some x → relink (vnodes s) (previous x) (vnext x) h' → h' !! l = Some x →
  remove_vnode (Some l) s = Ok tt
    (mkVfs (<[l := contents x]> h') (if decide (previous x = NULL) then vnext x else GlobalVNodes s)).
Proof.
  intros Hx (h1 & H1 & H2) Hl. destruct s as [h g]. simpl in *. unfold remove_vnode.
  rewrite (bind_ok _ _ _ _ _ (vn_get_ok (mkVfs h g) l x Hx)).
  rewrite (bind_ok _ _ _ tt (mkVfs h' (if decide (previous x = NULL) then vnext x else g))).
  - erewrite bind_ok by (by apply vn_upd_ok). simpl.
    erewrite vn_upd_ok by (simpl; by rewrite lookup_insert_eq). simpl. by rewrite insert_insert_eq.
  - destruct (previous x) as [a|] eqn:Hp, (vnext x) as [b|] eqn:Hn; simpl.
    + destruct H1 as (xa & Hxa & ->), H2 as (xb & Hxb & ->).
      erewrite bind_ok by (by apply vn_upd_ok). by erewrite vn_upd_ok.
    + destruct H1 as (xa & Hxa & ->). subst h'. by erewrite vn_upd_ok.
    + subst h1. destruct H2 as (xb & Hxb & ->). erewrite bind_ok by reflexivity.
      by erewrite vn_upd_ok.
    + by subst.
Qed.

Lemma remove_vnode_spec s ls1 l ls2 :
  vlist s (ls1 ++ l :: ls2) →
  ∃ s', remove_vnode (Some l) s = Ok tt s' ∧ vlist s' (ls1 ++ ls2) ∧
        same_contents (vnodes s) (vnodes s').
Proof.
  intros [[last Hd] Hnd]. apply dseg_app in Hd as (q & mid & Hd1 & (-> & x & Hx & <- & Hd2)).
  pose proof Hnd as (Hn1 & Hdis & [Hnl Hn2]%NoDup_cons)%NoDup_app.
  destruct (relink_spec _ _ _ _ _ _ _ Hd1 Hd2 Hnd) as (h' & Hre & Hl & last' & Hd').
  rewrite Hx in Hl. eexists. split; [by apply (remove_run s l x h')|]. split; [split|].
  - exists last'. simpl.
    assert ((if decide (previous x = NULL) then vnext x else GlobalVNodes s) =
            (if decide (ls1 = []) then vnext x else GlobalVNodes s)) as ->.
    { destruct ls1 as [|a ls1].
      - destruct Hd1 as [_ ->]. by rewrite !decide_True.
      - destruct (dseg_last _ _ _ _ _ _ Hd1) as (b & -> & _); [done|]. by rewrite !decide_False. }
    apply dseg_insert_fresh; [|done]. rewrite elem_of_app. intros [Hl1|?]; [|done].
    apply (Hdis l Hl1). by left.
  - apply NoDup_app. split; [done|]. split; [|done]. intros a Ha Ha'. apply (Hdis a Ha). by right.
  - simpl. eapply same_contents_insert; [by eapply relink_contents|exact Hx|done].
Qed.

(** ** Searching the list *)
Lemma vnode_loop_spec s p ls : ∀ fuel prev q last,
  dseg (vnodes s) prev q ls last NULL → (length ls < fuel)%nat →
  ∃ r, find_vnode_loop fuel p q s = Ok r s ∧
    match r with
    | Some l => ∃ ls1 ls2 x, ls = ls1 ++ l :: ls2 ∧ vnodes s !! l = Some x ∧ path x = p ∧
                (∀ a, a ∈ ls1 → ∀ y, vnodes s !! a = Some y → path y ≠ p)
    | None => ∀ a, a ∈ ls → ∀ y, vnodes s !! a = Some y → path y ≠ p
    end.
Proof.
  induction ls as [|l ls IH]; intros fuel prev q last Hd Hf; (destruct fuel as [|fuel]; [simpl in *; lia|]).
  - destruct Hd as [-> _]. exists NULL. split; [done|]. by intros a ?%elem_of_nil.
  - destruct Hd as (-> & x & Hx & _ & Hd). simpl in *. rewrite (bind_ok _ _ _ _ _ (vn_get_ok _ _ _ Hx)).
    case_decide as Hp.
    + exists (Some l). split; [done|]. exists [], ls, x. split; [done|]. split; [done|].
      split; [done|]. by intros a ?%elem_of_nil.
    + destruct (IH fuel (Some l) (vnext x) last Hd) as (r & Hrun & Hr); [lia|].
      exists r. split; [done|]. destruct r as [l'|].
      * destruct Hr as (ls1 & ls2 & y & -> & Hy & Hpy & Hall). exists (l :: ls1), ls2, y.
        split; [done|]. split; [done|]. split; [done|].
        intros a [->|Ha]%elem_of_cons z Hz; [congruence|by eapply Hall].
      * intros a [->|Ha]%elem_of_cons z Hz; [congruence|by eapply Hr].
Qed.
Lemma vlist_length s ls : vlist s ls → (length ls < vnode_fuel s)%nat.
Proof.
  intros [[last Hd] Hnd]. unfold vnode_fuel. apply Nat.lt_succ_r.
  rewrite <- (size_dom (D := gset positive)), <- (size_list_to_set (C := gset positive) ls Hnd).
  apply subseteq_size. intros l Hl%elem_of_list_to_set. apply elem_of_dom. by eapply dseg_dom.
Qed.
Lemma find_vnode_spec s p ls :
  vlist s ls →
  ∃ r, find_vnode p s = Ok r s ∧
    match r with
    | Some l => ∃ ls1 ls2 x, ls = ls1 ++ l :: ls2 ∧ vnodes s !! l = Some x ∧ path x = p ∧
                (∀ a, a ∈ ls1 → ∀ y, vnodes s !! a = Some y → path y ≠ p)
    | None => ∀ a, a ∈ ls → ∀ y, vnodes s !! a = Some y → path y ≠ p
    end.
Proof.
  intros Hv. pose proof (vlist_length _ _ Hv) as Hlen. destruct Hv as [[last Hd] Hnd].
  apply (vnode_loop_spec s p ls (vnode_fuel s) NULL _ last Hd Hlen).
Qed.
End VnodeList.

(** ** Reader and writer counts *)
Module VnodeRefs.
Import VfsCore VnodeList.

Definition full (max n : Z) : bool := bool_decide (max ≤ n) && negb (max =? FM_UNLIMITED_RW).
(** The result of [increase_refs] on a vnode, as a function. *)
Definition inc_refs (mode : Z) (x : VNode) : Z * VNode :=
  if has mode FM_READ && full (Max_Readers x) (readers x) then (SOS_VFS_READFULL, x)
  else if has mode FM_WRITE && full (Max_Writers x) (writers x) then (SOS_VFS_WRITEFULL, x)
  else (SOS_VFS_OK,
        set_writers (if has mode FM_WRITE then w32 (writers x + 1) else writers x)
          (set_readers (if has mode FM_READ then w32 (readers x + 1) else readers x) x)).
Definition dec_refs (mode : Z) (x : VNode) : VNode :=
  set_writers (if has mode FM_WRITE then w32 (writers x - 1) else writers x)
    (set_readers (if has mode FM_READ then w32 (readers x - 1) else readers x) x).

Definition refs_word (x : VNode) : Prop := is_word (readers x) ∧ is_word (writers x).

Lemma w32_succ_pred z : is_word z → w32 (w32 (z + 1) - 1) = z.
Proof.
  intros H. unfold w32. rewrite Zminus_mod_idemp_l. replace (z + 1 - 1) with z by lia.
  by apply w32_small.
Qed.

Lemma increase_refs_run s l x mode :
  vnodes s !! l = Some x → refs_word x →
  increase_refs (Some l) mode s =
  Ok (fst (inc_refs mode x)) (mkVfs (<[l := snd (inc_refs mode x)]> (vnodes s)) (GlobalVNodes s)).
Proof.
  intros Hx [Hr Hw]. destruct s as [h g]. simpl in *. unfold increase_refs, inc_refs.
  rewrite (bind_ok _ _ _ _ _ (vn_get_ok (mkVfs h g) _ _ Hx)). unfold full.
  rewrite <- andb_assoc.
  destruct (has mode FM_READ && _) eqn:Hrf; simpl; [by rewrite insert_id|].
  destruct (has mode FM_READ) eqn:Hmr, (has mode FM_WRITE) eqn:Hmw; simpl.
  - erewrite bind_ok by (by apply vn_upd_ok). simpl.
    erewrite bind_ok by (apply vn_get_ok; simpl; by rewrite lookup_insert_eq). simpl.
    destruct (bool_decide (Max_Writers x ≤ writers x) && _) eqn:Hwf; simpl.
    + erewrite bind_ok by (apply vn_upd_ok; simpl; by rewrite lookup_insert_eq). simpl.
      rewrite insert_insert_eq, w32_succ_pred by done. by destruct x.
    + erewrite bind_ok by (apply vn_upd_ok; simpl; by rewrite lookup_insert_eq). simpl.
      by rewrite insert_insert_eq.
  - erewrite bind_ok by (by apply vn_upd_ok). simpl.
    erewrite bind_ok by (apply vn_get_ok; simpl; by rewrite lookup_insert_eq). by destruct x.
  - erewrite bind_ok by reflexivity. erewrite bind_ok by (by apply vn_get_ok).
    destruct (bool_decide (Max_Writers x ≤ writers x) && _) eqn:Hwf; simpl.
    + erewrite bind_ok by reflexivity. by rewrite insert_id.
    + erewrite bind_ok by (by apply vn_upd_ok). by destruct x.
  - erewrite bind_ok by reflexivity. erewrite bind_ok by (by apply vn_get_ok).
    rewrite insert_id; [done|]. rewrite Hx. by destruct x.
Qed.
Lemma decrease_refs_run s l x mode :
  vnodes s !! l = Some x →
  decrease_refs (Some l) mode s =
  Ok SOS_VFS_OK (mkVfs (<[l := dec_refs mode x]> (vnodes s)) (GlobalVNodes s)).
Proof.
  intros Hx. destruct s as [h g]. simpl in *. unfold decrease_refs, dec_refs.
  rewrite (bind_ok _ _ _ _ _ (vn_get_ok (mkVfs h g) _ _ Hx)).
  destruct (has mode FM_READ), (has mode FM_WRITE); simpl.
  - erewrite bind_ok by (by apply vn_upd_ok). simpl.
    erewrite bind_ok by (apply vn_upd_ok; simpl; by rewrite lookup_insert_eq). simpl.
    by rewrite insert_insert_eq.
  - erewrite bind_ok by (by apply vn_upd_ok). simpl. by erewrite bind_ok by reflexivity.
  - erewrite bind_ok by reflexivity. by erewrite bind_ok by (by apply vn_upd_ok).
  - erewrite bind_ok by reflexivity. erewrite bind_ok by reflexivity.
    rewrite insert_id; [done|]. rewrite Hx. by destruct x.
Qed.

Lemma dec_inc mode x : refs_word x → fst (inc_refs mode x) = SOS_VFS_OK →
  dec_refs mode (snd (inc_refs mode x)) = x.
Proof.
  intros [Hr Hw]. unfold inc_refs, dec_refs.
  repeat case_match; simpl; try done; rewrite ?w32_succ_pred by done; by destruct x.
Qed.
(** The limits hold: [n] opens of a file that allows [max]. *)
Definition within (max n : Z) : Prop := max = FM_UNLIMITED_RW ∨ n ≤ max.
Lemma not_full max n : is_word n → is_word max → within max n → full max n = false →
  within max (w32 (n + 1)).
Proof.
  unfold full, within, is_word. intros Hn Hm Hw. rewrite andb_false_iff, bool_decide_eq_false, negb_false_iff.
  intros [Hlt|Heq]; [right|left; by apply Z.eqb_eq].
  rewrite w32_small; unfold is_word; lia.
Qed.
(** No further open fits. *)
Definition at_limit (max n : Z) : Prop := max ≠ FM_UNLIMITED_RW ∧ max ≤ n.
Lemma full_limit max n : full max n = true ↔ at_limit max n.
Proof. unfold full, at_limit. rewrite andb_true_iff, bool_decide_eq_true, negb_true_iff, Z.eqb_neq. tauto. Qed.
End VnodeRefs.

(** ** Descriptor tables *)
Module FdTable.
Import VfsCore.

(** How many descriptors lead to entry [j] of the open-file table. *)
Definition fd_count (t : list Z) (j : Z) : Z := Z.of_nat (length (filter (λ fd, fd = j) t)).

(** Every descriptor is free or leads to an open file, and the [ref] of an
    open file is the number of descriptors that lead to it. *)
Record files_ok (x : Process) : Prop := {
  fds_len : length (fds x) = Z.to_nat PROCESS_MAX_FDS;
  files_len : length (files x) = Z.to_nat PROCESS_MAX_FILES;
  fds_open : ∀ fd, fd ∈ fds x → fd = VFS_NIL_FILE ∨
    (0 ≤ fd ∧ ∃ v, files x !! Z.to_nat fd = Some v ∧ vnode v ≠ NULL);
  files_ref : ∀ (j : nat) v, files x !! j = Some v → vnode v ≠ NULL → ref v = fd_count (fds x) j
}.

Lemma index_where_none {A} (f : A → bool) l x :
  index_where f l = VFS_NIL_FILE → x ∈ l → f x = false.
Proof.
  unfold index_where, VFS_NIL_FILE. destruct (list_find f l) as [[i y]|] eqn:Hf; [lia|].
  intros _ Hx. apply list_find_None in Hf. rewrite Forall_forall in Hf.
  specialize (Hf x Hx). by destruct (f x).
Qed.
Lemma index_where_found {A} (f : A → bool) l :
  index_where f l ≠ VFS_NIL_FILE →
  0 ≤ index_where f l ∧ ∃ x, l !! Z.to_nat (index_where f l) = Some x ∧ f x = true.
Proof.
  unfold index_where. destruct (list_find f l) as [[i x]|] eqn:Hf; [|done].
  intros _. split; [lia|]. apply list_find_Some in Hf as (Hl & Hx & _).
  exists x. rewrite Nat2Z.id. split; [done|]. by apply Is_true_eq_true.
Qed.

Lemma fd_count_insert t i old new j :
  t !! i = Some old →
  fd_count (<[i := new]> t) j =
  fd_count t j - (if decide (old = j) then 1 else 0) + (if decide (new = j) then 1 else 0).
Proof.
  intros Hi. unfold fd_count. rewrite <- (take_drop_middle t i old Hi) at 2.
  rewrite insert_take_drop by (by eapply lookup_lt_Some).
  rewrite !filter_app, !filter_cons, !length_app. repeat case_decide; simpl; lia.
Qed.
Lemma fd_count_zero x j : files_ok x → (∀ v, files x !! Z.to_nat j = Some v → vnode v = NULL) →
  0 ≤ j → fd_count (fds x) j = 0.
Proof.
  intros Hok Hj H0. unfold fd_count. destruct (filter _ _) as [|fd l] eqn:Hf; [done|].
  assert (fd ∈ filter (λ fd, fd = j) (fds x)) as Hin by (rewrite Hf; by left).
  apply list_elem_of_filter in Hin as [-> Hin].
  destruct (fds_open _ Hok j Hin) as [Hn|(_ & v & Hv & Hne)]; [unfold VFS_NIL_FILE in Hn; lia|].
  by apply Hj in Hv.
Qed.
Lemma fd_count_pos t i j : t !! i = Some j → 1 ≤ fd_count t j.
Proof.
  intros Hi. unfold fd_count. assert (j ∈ filter (λ fd, fd = j) t) as Hin.
  { apply list_elem_of_filter. split; [done|]. by eapply list_elem_of_lookup_2. }
  destruct (filter (λ fd, fd = j) t); [by apply elem_of_nil in Hin|]. simpl. lia.
Qed.

(** Opening a file: a free descriptor [fd1] is led to a free entry [fd2]. *)
Definition install (fd1 fd2 : Z) (v : VFile) (x : Process) : Process :=
  set_fds (<[Z.to_nat fd1 := fd2]> (fds x)) (set_files (<[Z.to_nat fd2 := v]> (files x)) x).
Lemma install_ok x fd1 fd2 v old :
  files_ok x → 0 ≤ fd1 → fds x !! Z.to_nat fd1 = Some VFS_NIL_FILE →
  0 ≤ fd2 → files x !! Z.to_nat fd2 = Some old → vnode old = NULL →
  vnode v ≠ NULL → ref v = 1 → files_ok (install fd1 fd2 v x).
Proof.
  intros Hok H1 Hf1 H2 Hf2 Hold Hv Hr. pose proof Hok as [L1 L2 L3 L4].
  assert (fd_count (fds x) fd2 = 0) as Hc.
  { apply fd_count_zero; [done| |done]. intros w Hw. congruence. }
  split; simpl.
  - by rewrite length_insert.
  - by rewrite length_insert.
  - intros fd Hin. apply list_elem_of_lookup in Hin as [i Hi].
    rewrite list_lookup_insert in Hi. case_decide as Hd.
    + injection Hi as <-. right. split; [done|]. exists v.
      rewrite list_lookup_insert_eq by (by eapply lookup_lt_Some). done.
    + destruct (L3 fd) as [|(? & w & Hw & Hwn)]; [by eapply list_elem_of_lookup_2|by left|].
      right. split; [done|]. exists w. rewrite list_lookup_insert_ne; [done|]. congruence.
  - intros j w Hw Hwn. erewrite fd_count_insert by exact Hf1.
    rewrite list_lookup_insert in Hw. case_decide as Hd.
    + destruct Hd as [Hd _]. injection Hw as <-. replace (Z.of_nat j) with fd2 by lia.
      rewrite (decide_True (P := fd2 = fd2)) by done. unfold VFS_NIL_FILE. case_decide; lia.
    + destruct (decide (fd2 = Z.of_nat j)) as [->|Hne].
      * exfalso. apply Hd. split; [lia|]. rewrite Nat2Z.id in *. by eapply lookup_lt_Some.
      * rewrite (L4 j w) by done. unfold VFS_NIL_FILE. case_decide; lia.
Qed.
End FdTable.

(** ** Finishing an open *)
Module OpenDone.
Import VfsCore VnodeList VnodeRefs FdTable.

Definition upd_pcb (l : positive) (f : Process → Process) (s : procs) : procs :=
  set_pcbs (alter f l (pcbs s)) s.
Lemma pcb_upd_run s l x f : pcbs s !! l = Some x → pcb_upd (Some l) f s = Ok tt (upd_pcb l f s).
Proof.
  intros H. unfold pcb_upd, upd_pcb. rewrite H. do 2 f_equal. apply map_eq. intros i.
  rewrite lookup_insert, lookup_alter. case_decide; [subst; by rewrite H|done].
Qed.
Lemma upd_pcb_lookup s l x f : pcbs s !! l = Some x → pcbs (upd_pcb l f s) !! l = Some (f x).
Proof. intros H. simpl. by rewrite lookup_alter_eq, H. Qed.
Lemma upd_pcb_twice s l f g : upd_pcb l g (upd_pcb l f s) = upd_pcb l (g ∘ f) s.
Proof. unfold upd_pcb, set_pcbs. simpl. by rewrite alter_alter_eq. Qed.
Lemma upd_pcb_ext s l x f g : pcbs s !! l = Some x → f x = g x → upd_pcb l f s = upd_pcb l g s.
Proof. intros H Hfg. unfold upd_pcb. f_equal. apply alter_ext. intros y Hy. by simplify_eq. Qed.

Lemma pcb_get_run s l x : pcbs s !! l = Some x → pcb_get (Some l) s = Ok x s.
Proof. intros H. unfold pcb_get. by rewrite H. Qed.
Lemma vf_upd_run s l x i v f :
  pcbs s !! l = Some x → 0 ≤ i → files x !! Z.to_nat i = Some v →
  vf_upd (Some l, i) f s = Ok tt (upd_pcb l (set_files (<[Z.to_nat i := f v]> (files x))) s).
Proof.
  intros Hx Hi Hv. unfold vf_upd. simpl fst. simpl snd.
  rewrite (bind_ok _ _ _ _ _ (pcb_get_run _ _ _ Hx)).
  rewrite (bind_ok _ _ _ _ _ (arr_get_ok _ _ _ _ Hi Hv)).
  apply lookup_lt_Some in Hv. rewrite arr_set_ok by lia.
  erewrite bind_ok by reflexivity. by erewrite pcb_upd_run.
Qed.
Lemma fd_set_run s l x i old v :
  pcbs s !! l = Some x → 0 ≤ i → fds x !! Z.to_nat i = Some old →
  fd_set (Some l) i v s = Ok tt (upd_pcb l (set_fds (<[Z.to_nat i := v]> (fds x))) s).
Proof.
  intros Hx Hi Hv. unfold fd_set. rewrite (bind_ok _ _ _ _ _ (pcb_get_run _ _ _ Hx)).
  apply lookup_lt_Some in Hv. rewrite arr_set_ok by lia.
  erewrite bind_ok by reflexivity. by erewrite pcb_upd_run.
Qed.

Lemma on_procs_run {A} (m : M procs A) k a s :
  m (k_procs k) = Ok a s → on_procs m k = Ok a (set_procs s k).
Proof. intros H. unfold on_procs. by rewrite (zoom_ok _ _ _ _ _ _ H). Qed.
Lemma on_vfs_run {A} (m : M vfs A) k a s :
  m (k_vfs k) = Ok a s → on_vfs m k = Ok a (set_vfs s k).
Proof. intros H. unfold on_vfs. by rewrite (zoom_ok _ _ _ _ _ _ H). Qed.

(** A process that is registered under its own pid. *)
Definition registered_as (s : procs) (pid_ : Z) (l : positive) (x : Process) : Prop :=
  process_lookup pid_ s = Ok (Some l) s ∧ pcbs s !! l = Some x ∧ pid (info x) = pid_.

Lemma lookup_pcbs s s' i p :
  sosProcs s' = sosProcs s → process_lookup i s = Ok p s → process_lookup i s' = Ok p s'.
Proof.
  intros He. unfold process_lookup, mbind, M_bind, gets, arr_get. rewrite He.
  case_decide; [|done]. destruct (sosProcs s !! Z.to_nat i); simpl; [|done].
  by intros [= <-].
Qed.
Lemma registered_upd s pid_ l x f :
  registered_as s pid_ l x → pid (info (f x)) = pid (info x) →
  registered_as (upd_pcb l f s) pid_ l (f x).
Proof.
  intros (H1 & H2 & H3) Hf. split; [by apply (lookup_pcbs s)|].
  split; [by apply upd_pcb_lookup|congruence].
Qed.

Lemma reply_to_run k pid_ l x r :
  registered_as (k_procs k) pid_ l x →
  reply_to (Some l) r k = Ok tt (klog_app (reply_events (L4_GlobalId pid_ 1) [r] (info x)) k).
Proof.
  intros (H1 & H2 & H3). unfold reply_to.
  rewrite (bind_ok _ _ k (L4_GlobalId pid_ 1) k).
  - unfold syscall_reply. by apply reply_some with l.
  - apply on_procs_id. unfold process_get_tid. rewrite <- H3.
    by apply (pcb_field (λ y, L4_GlobalId (pid (info y)) 1)).
Qed.
Lemma reply_pid_run k pid_ l x r :
  registered_as (k_procs k) pid_ l x →
  reply_pid pid_ r k = Ok tt (klog_app (reply_events (L4_GlobalId pid_ 1) [r] (info x)) k).
Proof.
  intros (H1 & H2 & H3). unfold reply_pid, PS_GET_TID.
  rewrite (bind_ok _ _ k (L4_GlobalId pid_ 1) k).
  - unfold syscall_reply. by apply reply_some with l.
  - rewrite (bind_ok _ _ k (Some l) k) by (by apply on_procs_id).
    apply on_procs_id. unfold process_get_tid. rewrite <- H3.
    by apply (pcb_field (λ y, L4_GlobalId (pid (info y)) 1)).
Qed.

(** The two slots an open would take. *)
Definition free_fd (x : Process) : Z := index_where (λ fd, fd =? VFS_NIL_FILE) (fds x).
Definition free_file (x : Process) : Z := index_where (λ f, bool_decide (vnode f = NULL)) (files x).

Lemma findNextFd_run s l x :
  pcbs s !! l = Some x →
  findNextFd (Some l) false s =
  Ok (free_fd x, free_file x,
      negb ((free_fd x =? VFS_NIL_FILE) || (free_file x =? VFS_NIL_FILE))) s.
Proof. intros H. unfold findNextFd. by rewrite (bind_ok _ _ _ _ _ (pcb_get_run _ _ _ H)). Qed.

Lemma free_slots x :
  free_fd x ≠ VFS_NIL_FILE → free_file x ≠ VFS_NIL_FILE →
  0 ≤ free_fd x ∧ fds x !! Z.to_nat (free_fd x) = Some VFS_NIL_FILE ∧
  0 ≤ free_file x ∧ ∃ old, files x !! Z.to_nat (free_file x) = Some old ∧ vnode old = NULL.
Proof.
  unfold free_fd, free_file. intros H1 H2. apply index_where_found in H1 as (? & fd & Hfd & Heq%Z.eqb_eq).
  apply index_where_found in H2 as (? & old & Hold & Hn%bool_decide_eq_true).
  split; [done|]. split; [by rewrite Hfd, Heq|]. split; [done|]. by exists old.
Qed.

Lemma open_done_success k pid_ lp x l v mode :
  registered_as (k_procs k) pid_ lp x → vnodes (k_vfs k) !! l = Some v → refs_word v →
  fst (inc_refs mode v) = SOS_VFS_OK →
  free_fd x ≠ VFS_NIL_FILE → free_file x ≠ VFS_NIL_FILE →
  vfs_open_done pid_ (Some l) mode SOS_VFS_OK k =
  Ok tt (klog_app (reply_events (L4_GlobalId pid_ 1) [free_fd x] (info x))
    (set_procs (upd_pcb lp (install (free_fd x) (free_file x) (mkVFile (Some l) mode 0 1)) (k_procs k))
      (set_vfs (mkVfs (<[l := snd (inc_refs mode v)]> (vnodes (k_vfs k))) (GlobalVNodes (k_vfs k))) k))).
Proof.
  intros Hreg Hv Hw Hinc Hf1 Hf2. pose proof Hreg as (Hl & Hx & Hp).
  destruct (free_slots x Hf1 Hf2) as (H1 & Hfd & H2 & old & Hold & Hnull).
  unfold vfs_open_done.
  rewrite (bind_ok _ _ k (Some lp) k) by (by apply on_procs_id).
  rewrite decide_False by done. rewrite decide_False by (by intros [[]|]).
  rewrite (bind_ok _ _ _ _ _ (on_vfs_run _ _ _ _ (increase_refs_run _ _ _ mode Hv Hw))).
  rewrite decide_False by (intros []; done).
  set (k1 := set_vfs _ k).
  rewrite (bind_ok _ _ k1 _ k1 (on_procs_id _ k1 _ (findNextFd_run (k_procs k1) lp x Hx))). cbn beta iota.
  rewrite (proj2 (Z.eqb_neq _ _) Hf1), (proj2 (Z.eqb_neq _ _) Hf2).
  cbn [negb orb].
  rewrite (bind_ok _ _ _ _ _ (on_procs_run _ k1 _ _
    (vf_upd_run (k_procs k1) lp x (free_file x) old _ Hx H2 Hold))).
  set (s1 := upd_pcb lp _ (k_procs k1)). set (k2 := set_procs s1 k1).
  assert (pcbs s1 !! lp = Some (set_files (<[Z.to_nat (free_file x) := mkVFile (Some l) mode 0 1]> (files x)) x))
    as Hx1 by (by apply upd_pcb_lookup).
  rewrite (bind_ok _ _ _ _ _ (on_procs_run _ k2 _ _
    (fd_set_run s1 lp _ (free_fd x) VFS_NIL_FILE (free_file x) Hx1 H1 Hfd))).
  set (s2 := upd_pcb lp _ s1).
  assert (s2 = upd_pcb lp (install (free_fd x) (free_file x) (mkVFile (Some l) mode 0 1)) (k_procs k)) as ->.
  { unfold s2, s1. rewrite upd_pcb_twice. by apply (upd_pcb_ext _ _ x). }
  rewrite (reply_to_run _ pid_ lp (install (free_fd x) (free_file x) (mkVFile (Some l) mode 0 1) x)).
  - done.
  - by apply registered_upd.
Qed.
End OpenDone.

Module VfsCoreClaims.
Import VfsCore VnodeList VnodeRefs FdTable OpenDone.

(** Freeing the vnode of the console frees a static variable. *)
Lemma free_console s l x :
  vnodes s !! l = Some x → extra x = ExConsole → free_vnode (Some l) s = Err BadPtr.
Proof.
  intros Hx He. unfold free_vnode. rewrite (bind_ok _ _ _ _ _ (vn_get_ok _ _ _ Hx)).
  by rewrite He.
Qed.
Lemma open_err_console s ls l x :
  vlist s ls → l ∈ ls → vnodes s !! l = Some x → readers x = 0 → writers x = 0 →
  extra x = ExConsole → vfs_open_err (Some l) s = Err BadPtr.
Proof.
  intros Hv Hin Hx Hr Hw He. apply list_elem_of_split in Hin as (ls1 & ls2 & ->).
  destruct (remove_vnode_spec s ls1 l ls2 Hv) as (s' & Hrun & _ & Hc).
  unfold vfs_open_err. rewrite (bind_ok _ _ _ _ _ (vn_get_ok _ _ _ Hx)). rewrite Hr, Hw. simpl.
  rewrite (bind_ok _ _ _ _ _ Hrun). specialize (Hc l). rewrite Hx in Hc.
  destruct (vnodes s' !! l) as [y|] eqn:Hy; [|done].
  apply (f_equal (fmap extra)) in Hc. injection Hc as Hc.
  eapply free_console; [exact Hy|]. congruence.
Qed.
(** [add_vnode] on a list of open vnodes puts a vnode that is not on it
    at the front: following [next] then visits it and the old vnodes in their
    old order, the [previous] pointers lead back, and nothing but links
    changes. *)
Theorem add_vnode_correct s ls l x :
  vlist s ls → l ∉ ls → vnodes s !! l = Some x →
  ∃ s', add_vnode (Some l) s = Ok tt s' ∧ vlist s' (l :: ls) ∧
        same_contents (vnodes s) (vnodes s').
Proof. apply add_vnode_spec. Qed.

Definition vn (p : string) (prev nxt : ptr) : VNode :=
  mkVNode (bytes_of_string p) stat0 FM_UNLIMITED_RW FM_UNLIMITED_RW 0 0 ExNull prev nxt FsNone.
Definition demo_vfs : vfs :=
  mkVfs {[ 3%positive := vn "a" NULL (Some 4%positive);
           4%positive := vn "b" (Some 3%positive) NULL;
           9%positive := vn "c" NULL NULL ]} (Some 3%positive).
Lemma demo_vlist : vlist demo_vfs [3%positive; 4%positive].
Proof.
  split; [|by apply (bool_decide_unpack _)]. exists (Some 4%positive).
  split; [done|]. eexists. split; [reflexivity|]. split; [done|].
  split; [done|]. eexists. split; [reflexivity|]. done.
Qed.
Lemma add_vnode_correct_witness :
  ∃ s', add_vnode (Some 9%positive) demo_vfs = Ok tt s' ∧
        vlist s' [9%positive; 3%positive; 4%positive] ∧ same_contents (vnodes demo_vfs) (vnodes s').
Proof.
  apply (add_vnode_correct demo_vfs [3%positive; 4%positive] 9 (vn "c" NULL NULL) demo_vlist);
    [by apply (bool_decide_unpack _)|reflexivity].
Defined.

(** [remove_vnode] on a vnode of the list takes exactly that vnode out,
    wherever it stands (only, first, last or in the middle); the links of the
    others are repaired and no other field of any vnode changes. *)
Theorem remove_vnode_correct s ls1 l ls2 :
  vlist s (ls1 ++ l :: ls2) →
  ∃ s', remove_vnode (Some l) s = Ok tt s' ∧ vlist s' (ls1 ++ ls2) ∧
        same_contents (vnodes s) (vnodes s').
Proof. apply remove_vnode_spec. Qed.
Lemma remove_vnode_correct_witness :
  ∃ s', remove_vnode (Some 4%positive) demo_vfs = Ok tt s' ∧ vlist s' [3%positive] ∧
        same_contents (vnodes demo_vfs) (vnodes s').
Proof. apply (remove_vnode_correct demo_vfs [3%positive] 4 [] demo_vlist). Defined.

(** [find_vnode] terminates on every list of open vnodes and returns the
    first vnode with the given path, or NULL exactly when there is none; it
    changes nothing. *)
Theorem find_vnode_correct s p ls :
  vlist s ls →
  ∃ r, find_vnode p s = Ok r s ∧
    match r with
    | Some l => ∃ ls1 ls2 x, ls = ls1 ++ l :: ls2 ∧ vnodes s !! l = Some x ∧ path x = p ∧
                (∀ a, a ∈ ls1 → ∀ y, vnodes s !! a = Some y → path y ≠ p)
    | None => ∀ a, a ∈ ls → ∀ y, vnodes s !! a = Some y → path y ≠ p
    end.
Proof. apply find_vnode_spec. Qed.
Lemma find_vnode_correct_witness :
  ∃ r, find_vnode (bytes_of_string "b") demo_vfs = Ok r demo_vfs ∧
    match r with
    | Some l => ∃ ls1 ls2 x, [3%positive; 4%positive] = ls1 ++ l :: ls2 ∧
                vnodes demo_vfs !! l = Some x ∧ path x = bytes_of_string "b" ∧
                (∀ a, a ∈ ls1 → ∀ y, vnodes demo_vfs !! a = Some y → path y ≠ bytes_of_string "b")
    | None => ∀ a, a ∈ [3%positive; 4%positive] → ∀ y, vnodes demo_vfs !! a = Some y →
              path y ≠ bytes_of_string "b"
    end.
Proof. apply (find_vnode_correct demo_vfs (bytes_of_string "b") _ demo_vlist). Defined.

(** C38: [increase_refs] keeps the open counts of a vnode within its limits
    (unless unlimited).  It refuses a reader exactly when the limit of readers is
    reached, with [SOS_VFS_READFULL], and otherwise a writer exactly when the
    limit of writers is, with [SOS_VFS_WRITEFULL], and then leaves the vnode as
    it was; else it returns [SOS_VFS_OK] and has counted the reader and the writer
    that the mode asks for, and nothing else; [decrease_refs] with the same mode
    undoes a counted open exactly. *)
Theorem increase_refs_respects_limits s l x mode :
  vnodes s !! l = Some x → refs_word x → is_word (Max_Readers x) → is_word (Max_Writers x) →
  within (Max_Readers x) (readers x) → within (Max_Writers x) (writers x) →
  ∃ r y, increase_refs (Some l) mode s = Ok r (mkVfs (<[l := y]> (vnodes s)) (GlobalVNodes s)) ∧
    within (Max_Readers y) (readers y) ∧ within (Max_Writers y) (writers y) ∧
    let no_reader := has mode FM_READ = true ∧ at_limit (Max_Readers x) (readers x) in
    let no_writer := has mode FM_WRITE = true ∧ at_limit (Max_Writers x) (writers x) in
    (no_reader → r = SOS_VFS_READFULL ∧ y = x) ∧
    (¬ no_reader → no_writer → r = SOS_VFS_WRITEFULL ∧ y = x) ∧
    (¬ no_reader → ¬ no_writer → r = SOS_VFS_OK ∧
      y = set_writers (if has mode FM_WRITE then w32 (writers x + 1) else writers x)
            (set_readers (if has mode FM_READ then w32 (readers x + 1) else readers x) x) ∧
      decrease_refs (Some l) mode (mkVfs (<[l := y]> (vnodes s)) (GlobalVNodes s)) = Ok SOS_VFS_OK s).
Proof.
  intros Hx Hw HmR HmW HR HW. pose proof Hw as [Hr Hwr].
  exists (fst (inc_refs mode x)), (snd (inc_refs mode x)). split; [by apply increase_refs_run|].
  cbv zeta. rewrite <- !full_limit.
  assert (fst (inc_refs mode x) = SOS_VFS_OK →
    decrease_refs (Some l) mode (mkVfs (<[l := snd (inc_refs mode x)]> (vnodes s)) (GlobalVNodes s)) =
      Ok SOS_VFS_OK s) as Hdec.
  { intros Hok. erewrite decrease_refs_run by (simpl; by rewrite lookup_insert_eq). simpl.
    rewrite insert_insert_eq, dec_inc, insert_id by done. by destruct s. }
  revert Hdec. unfold inc_refs. destruct (has mode FM_READ) eqn:M1, (has mode FM_WRITE) eqn:M2,
    (full (Max_Readers x) (readers x)) eqn:E1, (full (Max_Writers x) (writers x)) eqn:E2;
    simpl; intros Hdec; split_and!; try done; auto using not_full; naive_solver.
Qed.
Lemma increase_refs_respects_limits_witness :
  ∃ r y, increase_refs (Some 3%positive) 6 demo_vfs =
      Ok r (mkVfs (<[3%positive := y]> (vnodes demo_vfs)) (GlobalVNodes demo_vfs)) ∧
    within (Max_Readers y) (readers y) ∧ within (Max_Writers y) (writers y) ∧ r = SOS_VFS_OK.
Proof.
  destruct (increase_refs_respects_limits demo_vfs 3 (vn "a" NULL (Some 4%positive)) 6)
    as (r & y & H & H1 & H2 & _ & _ & H5);
    [reflexivity|split; by apply (bool_decide_unpack _)|by apply (bool_decide_unpack _)..|by left|by left|].
  exists r, y. split_and!; [done..|]. apply H5; intros [_ [Hl _]]; apply Hl; reflexivity.
Defined.

(** C28: when a file system reports a successful open, the process has a free
    descriptor and a free entry in its open-file table, and the vnode's limits
    allow the mode, [vfs_open_done] leads the first free descriptor to the
    first free entry, counts the open in the vnode, replies that descriptor to
    the process, and changes nothing else; the descriptor tables stay
    consistent (each [ref] is the number of descriptors for its file). *)
Theorem vfs_open_done_installs k pid_ lp x l v mode :
  registered_as (k_procs k) pid_ lp x → files_ok x →
  vnodes (k_vfs k) !! l = Some v → refs_word v → fst (inc_refs mode v) = SOS_VFS_OK →
  free_fd x ≠ VFS_NIL_FILE → free_file x ≠ VFS_NIL_FILE →
  let x' := install (free_fd x) (free_file x) (mkVFile (Some l) mode 0 1) x in
  vfs_open_done pid_ (Some l) mode SOS_VFS_OK k =
    Ok tt (klog_app (reply_events (L4_GlobalId pid_ 1) [free_fd x] (info x))
      (set_procs (upd_pcb lp (λ _, x') (k_procs k))
        (set_vfs (mkVfs (<[l := snd (inc_refs mode v)]> (vnodes (k_vfs k)))
                        (GlobalVNodes (k_vfs k))) k))) ∧
  fds x !! Z.to_nat (free_fd x) = Some VFS_NIL_FILE ∧ files_ok x'.
Proof.
  intros Hreg Hok Hv Hw Hinc Hf1 Hf2 x'. pose proof Hreg as (_ & Hx & _).
  destruct (free_slots x Hf1 Hf2) as (H1 & Hfd & H2 & old & Hold & Hnull).
  split; [|split; [done|by apply (install_ok x _ _ _ old)]].
  rewrite (open_done_success k pid_ lp x l v mode) by done. do 3 f_equal.
  by apply (upd_pcb_ext _ _ x).
Qed.
Definition open_state : kstate := set_vfs demo_vfs (ProcessClaims.kboot ReplyClaims.alive_procs).
Lemma alive_files_ok : files_ok ReplyClaims.alive_proc.
Proof.
  split; [reflexivity|reflexivity| |].
  - intros fd Hfd. apply elem_of_replicate in Hfd as [-> _]. by left.
  - intros j w Hw Hn. exfalso. apply Hn. apply lookup_replicate in Hw as [-> _]. done.
Qed.
Lemma alive_registered :
  registered_as ReplyClaims.alive_procs 5 2 ReplyClaims.alive_proc.
Proof. split; [vm_compute; reflexivity|]. split; reflexivity. Qed.
Lemma vfs_open_done_installs_witness :
  let x := ReplyClaims.alive_proc in
  let x' := install (free_fd x) (free_file x) (mkVFile (Some 3%positive) FM_READ 0 1) x in
  vfs_open_done 5 (Some 3%positive) FM_READ SOS_VFS_OK open_state =
    Ok tt (klog_app (reply_events (L4_GlobalId 5 1) [free_fd x] (info x))
      (set_procs (upd_pcb 2 (λ _, x') (k_procs open_state))
        (set_vfs (mkVfs (<[3%positive := snd (inc_refs FM_READ (vn "a" NULL (Some 4%positive)))]>
                         (vnodes (k_vfs open_state))) (GlobalVNodes (k_vfs open_state))) open_state))) ∧
  fds x !! Z.to_nat (free_fd x) = Some VFS_NIL_FILE ∧ files_ok x'.
Proof.
  apply (vfs_open_done_installs open_state 5 2 ReplyClaims.alive_proc 3 (vn "a" NULL (Some 4%positive)) FM_READ);
    [apply alive_registered|apply alive_files_ok|reflexivity|split; by apply (bool_decide_unpack _)
    |reflexivity|done|done].
Defined.

(** An open of the console by a process whose tables are full, while
    nobody else has the console open, undoes its count and then treats the
    console like a new file that failed to open: it unlinks the console's vnode
    and frees its static [Console_File], an invalid [free]. *)
Theorem vfs_open_done_frees_console k pid_ lp x ls l v mode :
  registered_as (k_procs k) pid_ lp x → vlist (k_vfs k) ls → l ∈ ls →
  vnodes (k_vfs k) !! l = Some v → extra v = ExConsole → readers v = 0 → writers v = 0 →
  fst (inc_refs mode v) = SOS_VFS_OK →
  free_fd x = VFS_NIL_FILE ∨ free_file x = VFS_NIL_FILE →
  vfs_open_done pid_ (Some l) mode SOS_VFS_OK k = Err BadPtr.
Proof.
  intros (Hl & Hx & Hp) Hls Hin Hv He Hr Hw Hinc Hfull.
  assert (refs_word v) as Hword by (split; rewrite ?Hr, ?Hw; unfold is_word; lia).
  unfold vfs_open_done.
  rewrite (bind_ok _ _ k (Some lp) k) by (by apply on_procs_id).
  rewrite decide_False by done. rewrite decide_False by (by intros [[]|]).
  rewrite (bind_ok _ _ _ _ _ (on_vfs_run _ _ _ _ (increase_refs_run _ _ _ mode Hv Hword))).
  rewrite decide_False by (intros []; done). set (k1 := set_vfs _ k).
  rewrite (bind_ok _ _ k1 _ k1 (on_procs_id _ k1 _ (findNextFd_run (k_procs k1) lp x Hx))). cbn beta iota.
  replace (_ || _) with true by (symmetry; apply orb_true_iff; rewrite !Z.eqb_eq; done). cbn [negb].
  erewrite bind_ok by (apply on_vfs_run, decrease_refs_run; simpl; by rewrite lookup_insert_eq).
  apply bind_err. unfold on_vfs, zoom, k1. cbn [k_vfs set_vfs vnodes GlobalVNodes].
  rewrite insert_insert_eq, dec_inc, insert_id by done.
  replace (mkVfs (vnodes (k_vfs k)) (GlobalVNodes (k_vfs k))) with (k_vfs k) by (by destruct (k_vfs k)).
  by rewrite (open_err_console _ ls l v).
Qed.
(** A console nobody has open, and a process with all 16 files open. *)
Definition busy_proc : Process :=
  set_fds (replicate 19 0)
    (set_files (replicate 16 (mkVFile (Some 4%positive) 4 0 1)) ReplyClaims.alive_proc).
Definition console_vn : VNode :=
  mkVNode STDIN_FN stat0 1 FM_UNLIMITED_RW 0 0 ExConsole NULL NULL FsConsole.
Definition busy_state : kstate :=
  set_vfs (mkVfs {[ 3%positive := console_vn ]} (Some 3%positive))
    (ProcessClaims.kboot (set_pcbs {[ 2%positive := busy_proc ]} ReplyClaims.alive_procs)).
Lemma vfs_open_done_frees_console_witness :
  vfs_open_done 5 (Some 3%positive) FM_WRITE SOS_VFS_OK busy_state = Err BadPtr.
Proof.
  apply (vfs_open_done_frees_console busy_state 5 2 busy_proc [3%positive] 3 console_vn);
    try reflexivity.
  - split; [vm_compute; reflexivity|]. split; reflexivity.
  - split; [|by apply NoDup_singleton]. exists (Some 3%positive). split; [done|].
    eexists. split; [reflexivity|]. done.
  - by left.
  - by left.
Defined.
End VfsCoreClaims.
