(* ===== verification/Console.v ===== *)
(** * The console file system ([sos/console.c])

    Output is collected in a buffer of [CONSOLE_BUF_SIZ] bytes and sent over
    the network when it fills up or a write ends a line; input is delivered to
    at most one waiting reader, a line or a full buffer at a time.  The file
    also holds [pipefs.c], whose every operation answers "not implemented". *)
From S2P Require Import Prelude Machine ListC Frames Swapfile State Pagetable Process Reply VfsCore.
Import Process ProcessInv Reply VfsCore.

Module Console.
Definition set_con_buf v c := mkConsole (con_vnode c) (con_path c) (con_Max_Readers c)
  (con_Max_Writers c) (reader c) v.
Definition set_con_vnode v c := mkConsole v (con_path c) (con_Max_Readers c)
  (con_Max_Writers c) (reader c) (con_buf c).
Definition set_reader v c := mkConsole (con_vnode c) (con_path c) (con_Max_Readers c)
  (con_Max_Writers c) v (con_buf c).
Definition on_con {A} (m : M Console_File A) : K A := zoom k_con set_con m.

Definition CONSOLE_STAT : stat_t := mkStat ST_SPECIAL (Z.lor FM_READ FM_WRITE) 0 0 0 0 0.
(** [Console_Files[0]] as the program text initialises it. *)
Definition Console_Files0 : Console_File :=
  mkConsole NULL (bytes_of_string "console") 1 FM_UNLIMITED_RW (mkReader 0 0 0 0 0) [].

Definition console_init (sflist : ptr) : K ptr :=
  l ← kmalloc_nocheck;
  c ← gets k_con;
  on_vfs (modify (λ s, mkVfs (<[l := mkVNode (strncpy_path (con_path c)) CONSOLE_STAT
    (con_Max_Readers c) (con_Max_Writers c) 0 0 ExConsole NULL NULL FsConsole]> (vnodes s))
    (GlobalVNodes s)));;
  on_con (modify (λ c, set_con_buf [] (set_con_vnode (Some l)
    (set_reader (mkReader NIL_PID (r_file (reader c)) (r_buf (reader c)) (r_nbyte (reader c))
                          (r_rbyte (reader c))) c))));;
  when (bool_decide (sflist ≠ NULL))
    (on_vfs (vn_upd (Some l) (set_next sflist));; on_vfs (vn_upd sflist (set_previous (Some l))));;
  mret (Some l).

Definition console_open (pid : Z) (self : ptr) (mode : Z) : K unit :=
  vfs_open_done pid self mode SOS_VFS_NOTIMP.
Definition console_close (pid : Z) (self : ptr) : K unit :=
  vfs_close_done pid self SOS_VFS_NOTIMP.

(** [self->extra] as the [Console_File *] it is cast to. *)
Definition console_file (self : ptr) : K bool :=
  x ← on_vfs (vn_get self);
  match extra x with
  | ExConsole => mret true
  | ExNull => mret false
  | ExNfs _ => fail BadPtr
  end.

Definition console_read (pid : Z) (self : ptr) (file buf nbyte : Z) : K unit :=
  if decide (self = NULL) then vfs_read_done pid file 0 SOS_VFS_NOVNODE
  else
    cf ← console_file self;
    if negb cf then vfs_read_done pid file 0 SOS_VFS_CORVNODE
    else
      c ← gets k_con;
      if decide (r_pid (reader c) ≠ NIL_PID) then vfs_read_done pid file 0 SOS_VFS_READFULL
      else on_con (modify (set_reader (mkReader pid file buf nbyte 0))).

(** [network_sendstring]: [serial_send] returns the length it was given. *)
Definition network_sendstring (s : list Z) : K Z :=
  if decide (length s = 0%nat) then mret 0
  else emit (SerialSend s);; mret (Z.of_nat (length s)).
Definition _flush : K Z :=
  c ← gets k_con;
  status ← network_sendstring (con_buf c);
  on_con (modify (set_con_buf []));;
  mret status.

Definition NEWLINE : Z := 10.
(** The loop of [console_write] over the bytes that are left; [lastb] is the
    last byte of the user's buffer. *)
Fixpoint console_write_loop (fuel : nat) (bs : list Z) (lastb nbyte status : Z) : K Z :=
  match bs with
  | [] => mret status
  | _ =>
      match fuel with
      | O => fail OutOfFuel
      | S fuel' =>
          c ← gets k_con;
          let room := (Z.to_nat CONSOLE_BUF_SIZ - length (con_buf c))%nat in
          on_con (modify (set_con_buf (con_buf c ++ take room bs)));;
          c ← gets k_con;
          status ← (if bool_decide (CONSOLE_BUF_SIZ ≤ length (con_buf c)) || (lastb =? NEWLINE)
                    then _flush else mret status);
          console_write_loop fuel' (drop room bs) lastb nbyte
            (if decide (status < 0) then SOS_VFS_ERROR else nbyte)
      end
  end.
(** The [n] bytes at an offset of the copy buffer. *)
Definition bytes_at (b : memory) (off : Z) (n : nat) : list Z :=
  (λ i, load8 b (off + i)) <$> zseq 0 n.

Definition console_write (pid : Z) (self : ptr) (file buf nbyte : Z) : K unit :=
  if decide (self = NULL) then vfs_write_done pid file 0 SOS_VFS_NOVNODE
  else
    cf ← console_file self;
    if negb cf then vfs_write_done pid file 0 SOS_VFS_CORVNODE
    else
      b ← get_cbuf;
      status ← console_write_loop (S (Z.to_nat nbyte)) (bytes_at b buf (Z.to_nat nbyte))
                 (load8 b (buf + (nbyte - 1))) nbyte nbyte;
      vfs_write_done pid file 0 status.

Definition console_flush (pid : Z) (self : ptr) : K unit :=
  if decide (self = NULL) then mret tt
  else
    cf ← console_file self;
    if negb cf then mret tt
    else
      status ← _flush;
      reply_pid pid (if decide (0 < status) then SOS_VFS_OK else SOS_VFS_EOF).

Definition console_getdirent (pid : Z) : K unit := reply_pid pid SOS_VFS_NOTIMP.
Definition console_stat `{StatLayout} (pid : Z) (self : ptr) (buf : Z) : K unit :=
  if decide (self = NULL) then reply_pid pid SOS_VFS_NOVNODE
  else
    cf ← console_file self;
    if negb cf then reply_pid pid SOS_VFS_CORVNODE
    else
      x ← on_vfs (vn_get self);
      b ← get_cbuf;
      put_cbuf (write_bytes b buf (stat_bytes (vstat x)));;
      reply_pid pid SOS_VFS_OK.
Definition console_remove (pid : Z) : K unit := reply_pid pid SOS_VFS_NOTIMP.

(** A character from the serial line. *)
Definition serial_read_callback (c : Z) : K unit :=
  con ← gets k_con;
  let rq := reader con in
  if decide (r_pid rq = NIL_PID) then mret tt
  else
    (if decide (r_rbyte rq < r_nbyte rq) then
       b ← get_cbuf;
       put_cbuf (store8 b (r_buf rq + r_rbyte rq) c);;
       on_con (modify (set_reader (mkReader (r_pid rq) (r_file rq) (r_buf rq) (r_nbyte rq)
                                            (w32 (r_rbyte rq + 1)))))
     else mret tt);;
    con ← gets k_con;
    let rq := reader con in
    if decide (c = NEWLINE ∨ r_nbyte rq ≤ r_rbyte rq) then
      vfs_read_done (r_pid rq) (r_file rq) 0 (s32 (r_rbyte rq));;
      on_con (modify (set_reader (mkReader NIL_PID VFS_NIL_FILE 0 0 0)))
    else mret tt.
End Console.

(** Pipes: every operation replies [SOS_VFS_NOTIMP] to the caller. *)
Module Pipefs.
Definition pipefs_pipe (pid : Z) : K unit := reply_pid pid SOS_VFS_NOTIMP.
Definition pipefs_open (pid : Z) : K unit := reply_pid pid SOS_VFS_NOTIMP.
Definition pipefs_close (pid : Z) : K unit := reply_pid pid SOS_VFS_NOTIMP.
Definition pipefs_read (pid : Z) : K unit := reply_pid pid SOS_VFS_NOTIMP.
Definition pipefs_write (pid : Z) : K unit := reply_pid pid SOS_VFS_NOTIMP.
Definition pipefs_flush (pid : Z) : K unit := reply_pid pid SOS_VFS_NOTIMP.
Definition pipefs_getdirent (pid : Z) : K unit := reply_pid pid SOS_VFS_NOTIMP.
Definition pipefs_stat (pid : Z) : K unit := reply_pid pid SOS_VFS_NOTIMP.
Definition pipefs_remove (pid : Z) : K unit := reply_pid pid SOS_VFS_NOTIMP.
End Pipefs.

Module ConsoleSpec.
Import Console.

(** What a list of events sends over the serial line. *)
Definition serial_out (es : list event) : list Z :=
  concat ((λ e, match e with SerialSend bs => bs | _ => [] end) <$> es).
Lemma serial_out_app es es' : serial_out (es ++ es') = serial_out es ++ serial_out es'.
Proof. unfold serial_out. by rewrite fmap_app, concat_app. Qed.

(** Events that are output on the serial line. *)
Definition serial_event (e : event) : Prop := match e with SerialSend _ => True | _ => False end.
(** The state with output [es] sent and [rest] left in the buffer. *)
Definition con_after (es : list event) (rest : list Z) (k : kstate) : kstate :=
  klog_app es (set_con (set_con_buf rest (k_con k)) k).
Lemma con_after_after es es' r r' k :
  con_after es' r' (con_after es r k) = con_after (es ++ es') r' k.
Proof. unfold con_after, klog_app, set_con_buf. simpl. by rewrite app_assoc. Qed.
Lemma con_after_id k : con_after [] (con_buf (k_con k)) k = k.
Proof.
  unfold con_after. rewrite klog_app_nil. by destruct k as [????[]].
Qed.

Lemma flush_run k : con_buf (k_con k) ≠ [] →
  _flush k = Ok (Z.of_nat (length (con_buf (k_con k))))
                (con_after [SerialSend (con_buf (k_con k))] [] k).
Proof.
  intros Hne. unfold _flush, network_sendstring. rewrite (bind_ok _ _ k (k_con k) k) by done.
  rewrite decide_False by (by destruct (con_buf (k_con k))). done.
Qed.
Lemma flush_empty k : con_buf (k_con k) = [] → _flush k = Ok 0 k.
Proof.
  intros He. unfold _flush, network_sendstring. rewrite (bind_ok _ _ k (k_con k) k) by done.
  rewrite He. simpl. unfold mbind, M_bind. simpl. rewrite <- He.
  do 2 f_equal. by destruct k as [????[]].
Qed.

Lemma write_loop_run fuel : ∀ bs lastb nbyte status k,
  (length (con_buf (k_con k)) < Z.to_nat CONSOLE_BUF_SIZ)%nat → (length bs ≤ fuel)%nat →
  0 ≤ nbyte → 0 ≤ status →
  ∃ es rest, console_write_loop fuel bs lastb nbyte status k =
      Ok (if decide (bs = []) then status else nbyte) (con_after es rest k) ∧
    Forall serial_event es ∧ serial_out es ++ rest = con_buf (k_con k) ++ bs ∧
    (length rest < Z.to_nat CONSOLE_BUF_SIZ)%nat ∧
    (lastb = NEWLINE → bs ≠ [] → rest = []).
Proof.
  induction fuel as [|fuel IH]; intros bs lastb nbyte status k Hroom Hlen Hn Hs.
  - destruct bs; [|simpl in Hlen; lia]. exists [], (con_buf (k_con k)).
    rewrite con_after_id, decide_True by done. split; [done|]. split; [constructor|]. by rewrite app_nil_r.
  - destruct bs as [|b bs].
    { exists [], (con_buf (k_con k)). rewrite con_after_id, decide_True by done.
      split; [done|]. split; [constructor|]. by rewrite app_nil_r. }
    set (all := b :: bs) in *. rewrite decide_False by done.
    set (room := (Z.to_nat CONSOLE_BUF_SIZ - length (con_buf (k_con k)))%nat).
    set (k1 := set_con (set_con_buf (con_buf (k_con k) ++ take room all) (k_con k)) k).
    assert (take room all ≠ []) as Htake.
    { unfold all. destruct room eqn:E; [unfold room in E; lia|done]. }
    assert (con_buf (k_con k1) = con_buf (k_con k) ++ take room all) as Hbuf by done.
    assert (con_buf (k_con k1) ≠ []) as Hne by (rewrite Hbuf; intros ?%app_nil; naive_solver).
    assert (length (drop room all) ≤ fuel)%nat as Hfuel.
    { rewrite length_drop. unfold room, all in *. simpl in *. lia. }
    assert (con_buf (k_con k) ++ all = con_buf (k_con k1) ++ drop room all) as Hall
      by (rewrite Hbuf, <- app_assoc, take_drop; done).
    change (console_write_loop (S fuel) all lastb nbyte status k) with
      ((status ← (if bool_decide (CONSOLE_BUF_SIZ ≤ length (con_buf (k_con k1))) || (lastb =? NEWLINE)
                  then _flush else mret status);
        console_write_loop fuel (drop room all) lastb nbyte
          (if decide (status < 0) then SOS_VFS_ERROR else nbyte)) k1).
    destruct (bool_decide (CONSOLE_BUF_SIZ ≤ length (con_buf (k_con k1))) || (lastb =? NEWLINE)) eqn:Hfl.
    + rewrite (bind_ok _ _ _ _ _ (flush_run k1 Hne)). rewrite decide_False by lia.
      set (k2 := con_after [SerialSend (con_buf (k_con k1))] [] k1).
      destruct (IH (drop room all) lastb nbyte nbyte k2) as (es & rest & Hrun & Hser & Hout & Hlt & Hnl);
        [simpl; unfold CONSOLE_BUF_SIZ; lia|done..|].
      exists (SerialSend (con_buf (k_con k1)) :: es), rest. split; [|split; [by constructor|split; [|split]]].
      * rewrite Hrun. unfold k2. rewrite con_after_after. by case_decide.
      * rewrite Hall. change (serial_out (SerialSend (con_buf (k_con k1)) :: es))
          with (con_buf (k_con k1) ++ serial_out es). rewrite <- app_assoc. by rewrite Hout.
      * done.
      * intros Hl _. destruct (decide (drop room all = [])) as [Hd|Hd]; [|by apply Hnl].
        rewrite Hd in Hout. simpl in Hout. by apply app_nil in Hout as [_ ->].
    + apply orb_false_iff in Hfl as [Hsm Hlb]. apply bool_decide_eq_false in Hsm.
      rewrite (bind_ok _ _ k1 status k1) by done. rewrite decide_False by lia.
      destruct (IH (drop room all) lastb nbyte nbyte k1) as (es & rest & Hrun & Hser & Hout & Hlt & Hnl);
        [lia|done..|].
      exists es, rest. split; [|split; [done|split; [|split]]].
      * rewrite Hrun. by case_decide.
      * by rewrite Hall.
      * done.
      * intros ->. by rewrite Z.eqb_refl in Hlb.
Qed.

(** Characters of one line, before its end. *)
Definition reading (rq : Console_ReadRequest) (n : Z) (k : kstate) : kstate :=
  set_con (set_reader (mkReader (r_pid rq) (r_file rq) (r_buf rq) (r_nbyte rq) n) (k_con k)) k.
Definition cbuf_to (b : memory) (k : kstate) : kstate := set_kmach (set_cbuf b (kmach k)) k.

Lemma read_char_store k rq n c :
  reader (k_con k) = mkReader (r_pid rq) (r_file rq) (r_buf rq) (r_nbyte rq) n →
  r_pid rq ≠ NIL_PID → 0 ≤ n → n + 1 < r_nbyte rq → is_word (r_nbyte rq) → c ≠ NEWLINE →
  serial_read_callback c k =
  Ok tt (reading rq (n + 1) (cbuf_to (store8 (cbuf (kmach k)) (r_buf rq + n) c) k)).
Proof.
  intros Hrd Hp Hn Hlt Hw Hc. unfold serial_read_callback.
  rewrite (bind_ok _ _ k (k_con k) k) by done. rewrite Hrd. simpl.
  rewrite decide_False by done. rewrite decide_True by lia.
  erewrite bind_ok by reflexivity. rewrite (w32_small (n + 1)) by (unfold is_word in *; lia).
  erewrite bind_ok by reflexivity. simpl. rewrite decide_False by lia. done.
Qed.

(** The newline ends the read. *)
Lemma read_char_last k rq n :
  reader (k_con k) = mkReader (r_pid rq) (r_file rq) (r_buf rq) (r_nbyte rq) n →
  r_pid rq ≠ NIL_PID → 0 ≤ n → n + 1 ≤ r_nbyte rq → is_word (r_nbyte rq) →
  serial_read_callback NEWLINE k =
  (vfs_read_done (r_pid rq) (r_file rq) 0 (s32 (n + 1));;
   on_con (modify (set_reader (mkReader NIL_PID VFS_NIL_FILE 0 0 0))))
    (reading rq (n + 1) (cbuf_to (store8 (cbuf (kmach k)) (r_buf rq + n) NEWLINE) k)).
Proof.
  intros Hrd Hp Hn Hlt Hw. unfold serial_read_callback.
  rewrite (bind_ok _ _ k (k_con k) k) by done. rewrite Hrd.
  cbn [r_pid r_nbyte r_rbyte r_buf r_file].
  rewrite decide_False by done. rewrite decide_True by lia.
  erewrite bind_ok by reflexivity. rewrite (w32_small (n + 1)) by (unfold is_word in *; lia).
  erewrite bind_ok by reflexivity. by rewrite decide_True by (by left).
Qed.

Lemma reading_reading rq n m k : reading rq m (reading rq n k) = reading rq m k.
Proof. done. Qed.
Lemma feed_run rq cs : ∀ n k,
  reader (k_con k) = mkReader (r_pid rq) (r_file rq) (r_buf rq) (r_nbyte rq) n →
  r_pid rq ≠ NIL_PID → 0 ≤ n → n + length cs < r_nbyte rq → is_word (r_nbyte rq) →
  Forall (λ c, c ≠ NEWLINE ∧ 0 ≤ c < 256) cs →
  forM cs serial_read_callback k =
  Ok tt (reading rq (n + length cs)
           (cbuf_to (write_bytes (cbuf (kmach k)) (r_buf rq + n) cs) k)).
Proof.
  induction cs as [|c cs IH]; intros n k Hrd Hp Hn Hlt Hw Hall.
  - simpl. rewrite Z.add_0_r. unfold mret, M_ret. f_equal.
    unfold reading, cbuf_to. simpl. rewrite <- Hrd. by destruct k as [[[[]]]???[]].
  - apply Forall_cons in Hall as [[Hc Hb] Hall]. cbn [forM length] in *.
    rewrite (bind_ok _ _ _ _ _ (read_char_store k rq n c Hrd Hp Hn ltac:(lia) Hw Hc)).
    rewrite (IH (n + 1)) by (done || lia). f_equal.
    replace (n + 1 + length cs) with (n + S (length cs)) by lia. simpl.
    unfold store8, u8. rewrite Z.mod_small by lia.
    replace (r_buf rq + (n + 1)) with (r_buf rq + n + 1) by lia. done.
Qed.
Lemma console_write_run k pid_ l x file buf nbyte :
  vnodes (k_vfs k) !! l = Some x → extra x = ExConsole → 0 ≤ nbyte →
  (length (con_buf (k_con k)) < Z.to_nat CONSOLE_BUF_SIZ)%nat →
  ∃ es rest,
    let bs := bytes_at (cbuf (kmach k)) buf (Z.to_nat nbyte) in
    console_write pid_ (Some l) file buf nbyte k =
      vfs_write_done pid_ file 0 nbyte (con_after es rest k) ∧
    Forall serial_event es ∧ serial_out es ++ rest = con_buf (k_con k) ++ bs ∧
    (length rest < Z.to_nat CONSOLE_BUF_SIZ)%nat ∧
    (last bs = Some NEWLINE → rest = []).
Proof.
  intros Hx He Hn Hroom. set (bs := bytes_at (cbuf (kmach k)) buf (Z.to_nat nbyte)).
  assert (length bs = Z.to_nat nbyte) as Hlen by (unfold bs, bytes_at; by rewrite length_fmap, length_zseq).
  destruct (write_loop_run (S (Z.to_nat nbyte)) bs (load8 (cbuf (kmach k)) (buf + (nbyte - 1))) nbyte nbyte k)
    as (es & rest & Hrun & Hser & Hout & Hlt & Hnl); [done|lia|done|done|].
  exists es, rest. split; [|split; [done|split; [done|split; [done|]]]].
  - unfold console_write. rewrite decide_False by done.
    rewrite (bind_ok _ _ k true k).
    2:{ unfold console_file. rewrite (bind_ok _ _ k x k).
        - by rewrite He.
        - unfold on_vfs, zoom. rewrite (VnodeList.vn_get_ok _ _ _ Hx). by destruct k. }
    cbn [negb]. rewrite (bind_ok _ _ k (cbuf (kmach k)) k) by done.
    fold bs. rewrite (bind_ok _ _ _ _ _ Hrun). by case_decide.
  - intros Hlast. destruct (decide (bs = [])) as [Hbs|Hbs]; [by rewrite Hbs in Hlast|].
    apply Hnl; [|done]. rewrite last_lookup, Hlen in Hlast.
    unfold bs, bytes_at in Hlast. rewrite list_lookup_fmap in Hlast. unfold zseq in Hlast.
    rewrite list_lookup_fmap in Hlast.
    destruct (seq 0 (Z.to_nat nbyte) !! pred (Z.to_nat nbyte)) as [i|] eqn:Hi; [|done].
    apply lookup_seq in Hi as [-> Hi]. simpl in Hlast. injection Hlast as <-. f_equal. lia.
Qed.
Lemma serial_line_run k rq cs :
  reader (k_con k) = mkReader (r_pid rq) (r_file rq) (r_buf rq) (r_nbyte rq) 0 →
  r_pid rq ≠ NIL_PID → 1 + length cs ≤ r_nbyte rq → is_word (r_nbyte rq) →
  Forall (λ c, c ≠ NEWLINE ∧ 0 ≤ c < 256) cs →
  forM (cs ++ [NEWLINE]) serial_read_callback k =
  (vfs_read_done (r_pid rq) (r_file rq) 0 (s32 (1 + length cs));;
   on_con (modify (set_reader (mkReader NIL_PID VFS_NIL_FILE 0 0 0))))
    (reading rq (1 + length cs)
       (cbuf_to (store8 (write_bytes (cbuf (kmach k)) (r_buf rq) cs) (r_buf rq + length cs) NEWLINE) k)).
Proof.
  intros Hrd Hp Hlen Hw Hall.
  pose proof (feed_run rq cs 0 k Hrd Hp ltac:(lia) ltac:(lia) Hw Hall) as Hfeed.
  rewrite Z.add_0_l, Z.add_0_r in Hfeed. set (k1 := reading rq (length cs) _) in Hfeed.
  assert (forM (cs ++ [NEWLINE]) serial_read_callback k = serial_read_callback NEWLINE k1) as ->.
  { revert Hfeed. generalize k1. clear. revert k. induction cs as [|c cs IH]; intros k k1; cbn [app forM].
    - intros [= ->]. unfold mbind, M_bind. destruct (serial_read_callback NEWLINE k1) as [[]|]; done.
    - unfold mbind, M_bind. destruct (serial_read_callback c k) as [[] k2|]; [|done]. apply IH. }
  replace (1 + length cs) with (length cs + 1) by lia.
  by rewrite (read_char_last k1 rq (length cs)) by (done || lia).
Qed.
End ConsoleSpec.

Module ConsoleClaims.
Import Console ConsoleSpec.

(** C34: writing to the console loses, repeats and reorders nothing: what is
    sent over the serial line during the write, followed by what stays in the
    buffer, is the old buffer followed by the bytes written.  The loop
    terminates, the buffer never fills up, and it is empty after a write that
    ends a line; the number of bytes is then reported to the writer. *)
Theorem console_write_stream k pid_ l x file buf nbyte :
  vnodes (k_vfs k) !! l = Some x → extra x = ExConsole → 0 ≤ nbyte →
  (length (con_buf (k_con k)) < Z.to_nat CONSOLE_BUF_SIZ)%nat →
  ∃ es rest,
    let bs := bytes_at (cbuf (kmach k)) buf (Z.to_nat nbyte) in
    console_write pid_ (Some l) file buf nbyte k =
      vfs_write_done pid_ file 0 nbyte (con_after es rest k) ∧
    Forall serial_event es ∧ serial_out es ++ rest = con_buf (k_con k) ++ bs ∧
    (length rest < Z.to_nat CONSOLE_BUF_SIZ)%nat ∧
    (last bs = Some NEWLINE → rest = []).
Proof. apply console_write_run. Qed.
Definition con_state : kstate :=
  cbuf_to (write_bytes ∅ 100 (bytes_of_string "hello" ++ [10]))
    (set_con (mkConsole (Some 3%positive) STDOUT_FN 1 FM_UNLIMITED_RW (mkReader NIL_PID 0 0 0 0)
                        (bytes_of_string "> "))
      (set_vfs (mkVfs {[ 3%positive := VfsCoreClaims.console_vn ]} (Some 3%positive))
        VfsCoreClaims.open_state)).
Lemma console_write_stream_witness :
  ∃ es rest,
    let bs := bytes_at (cbuf (kmach con_state)) 100 (Z.to_nat 6) in
    console_write 5 (Some 3%positive) 0 100 6 con_state =
      vfs_write_done 5 0 0 6 (con_after es rest con_state) ∧
    Forall serial_event es ∧ serial_out es ++ rest = con_buf (k_con con_state) ++ bs ∧
    (length rest < Z.to_nat CONSOLE_BUF_SIZ)%nat ∧
    (last bs = Some NEWLINE → rest = []).
Proof.
  apply (console_write_stream con_state 5 3 VfsCoreClaims.console_vn 0 100 6);
    [reflexivity|reflexivity|lia|by apply (bool_decide_unpack _)].
Defined.

(** C35: a pending console read receives a line as typed, if the reader's buffer
    has room for it: characters up to and including the newline are stored in the reader's buffer in order, then
    the read is finished once with the length of the line and the console is
    ready for another reader. *)
Theorem serial_line_delivered k rq cs :
  reader (k_con k) = mkReader (r_pid rq) (r_file rq) (r_buf rq) (r_nbyte rq) 0 →
  r_pid rq ≠ NIL_PID → 1 + length cs ≤ r_nbyte rq → is_word (r_nbyte rq) →
  Forall (λ c, c ≠ NEWLINE ∧ 0 ≤ c < 256) cs →
  forM (cs ++ [NEWLINE]) serial_read_callback k =
  (vfs_read_done (r_pid rq) (r_file rq) 0 (s32 (1 + length cs));;
   on_con (modify (set_reader (mkReader NIL_PID VFS_NIL_FILE 0 0 0))))
    (reading rq (1 + length cs)
       (cbuf_to (store8 (write_bytes (cbuf (kmach k)) (r_buf rq) cs) (r_buf rq + length cs) NEWLINE) k)).
Proof. apply serial_line_run. Qed.
Definition waiting_state : kstate :=
  set_con (set_reader (mkReader 5 0 200 64 0) (k_con con_state)) con_state.
Lemma serial_line_delivered_witness :
  let rq := mkReader 5 0 200 64 0 in
  let cs := bytes_of_string "ls" in
  forM (cs ++ [NEWLINE]) serial_read_callback waiting_state =
  (vfs_read_done 5 0 0 (s32 (1 + length cs));;
   on_con (modify (set_reader (mkReader NIL_PID VFS_NIL_FILE 0 0 0))))
    (reading rq (1 + length cs)
       (cbuf_to (store8 (write_bytes (cbuf (kmach waiting_state)) 200 cs) (200 + length cs) NEWLINE)
          waiting_state)).
Proof.
  apply (serial_line_delivered waiting_state (mkReader 5 0 200 64 0) (bytes_of_string "ls"));
    [reflexivity|done|by apply (bool_decide_unpack _)|by apply (bool_decide_unpack _)|].
  by repeat (apply Forall_cons; split; [by apply (bool_decide_unpack _)|]).
Defined.
End ConsoleClaims.
