(* ===== verification/Nfsfs.v ===== *)
(** * The NFS file system ([sos/nfsfs.c])

    Operations on remote files become requests in a queue; only the request at
    the head of the queue has a call outstanding at the file server, and the
    callback for its token finishes it and starts the next one.  The calls
    themselves ([libs/nfs]) are events; their answers are the arguments of the
    callbacks [lookup_cb], [read_cb] and so on. *)
From S2P Require Import Prelude Machine ListC Frames Swapfile State Pagetable Process Reply VfsCore.
Import Process ProcessInv Reply VfsCore.

(** Status codes of [libs/nfs/include/rpc.h]. *)
Definition NFS_OK : Z := 0.
Definition NFSERR_PERM : Z := 1.
Definition NFSERR_NOENT : Z := 2.
Definition NFSERR_ACCES : Z := 13.
Definition NFSERR_EXIST : Z := 17.
Definition NFSERR_NODEV : Z := 19.
Definition NFSERR_ISDIR : Z := 21.
Definition NFSERR_ROFS : Z := 30.
Definition NFSERR_NAMETOOLONG : Z := 63.
Definition NFSERR_STALE : Z := 70.

(** The attributes the file server reports that SOS uses. *)
Record fattr_t := mkFattr {
  a_type : Z; a_mode : Z; a_size : Z;
  a_ctime_s : Z; a_ctime_us : Z; a_atime_s : Z; a_atime_us : Z
}.

Module Nfsfs.
Definition NULL_TOKEN : Z := 2 ^ 32 - 1.
Definition newtoken : M nfs Z := λ s,
  Ok (tok s mod (NULL_TOKEN - 1)) (mkNfs (nfs_heap s) (NfsRequests s) (w32 (tok s + 1))).

Definition rq_get (rq : ptr) : M nfs NFS_BaseRequest := λ s,
  match rq with
  | None => Err NullDeref
  | Some l => match nfs_heap s !! l with Some x => Ok x s | None => Err BadPtr end
  end.
Definition set_requests v s := mkNfs (nfs_heap s) v (tok s).
Definition set_nfs_heap v s := mkNfs v (NfsRequests s) (tok s).

Definition search_requests (key : Z) (node : positive) : M nfs bool :=
  x ← rq_get (Some node); mret (token x =? key).
Definition get_request (key : Z) : M nfs ptr :=
  q ← gets NfsRequests;
  if ListSpec.list_null q then mret NULL else ListSpec.list_find (search_requests key) q.

(** ** Running a request *)
Definition vnode_fh (v : ptr) : K Z :=
  x ← on_vfs (vn_get v);
  match extra x with
  | ExNfs fh => mret fh
  | ExNull => fail NullDeref
  | ExConsole => fail BadPtr
  end.
Definition run_request (rq : ptr) : K unit :=
  x ← on_nfs (rq_get rq);
  match rq_data x with
  | NFS_LookupRequest mode =>
      v ← on_vfs (vn_get (rq_vnode x));
      emit (NfsCall (if has mode FM_WRITE && negb (has mode FM_NOTRUNC)
                     then nfs_create (path v) (token x) else nfs_lookup (path v) (token x)))
  | NFS_ReadRequest file buf pos nbyte =>
      fh ← vnode_fh (rq_vnode x); emit (NfsCall (nfs_read fh pos nbyte (token x)))
  | NFS_WriteRequest file buf offset nbyte =>
      fh ← vnode_fh (rq_vnode x); emit (NfsCall (nfs_write fh offset nbyte buf (token x)))
  | NFS_StatRequest stat path =>
      b ← get_cbuf; emit (NfsCall (nfs_lookup (cbuf_str b path) (token x)))
  | NFS_DirRequest pos buf nbyte cpos =>
      emit (NfsCall (nfs_readdir 0 IO_MAX_BUFFER (token x)))
  | NFS_RemoveRequest path =>
      b ← get_cbuf; emit (NfsCall (nfs_remove (cbuf_str b path) (token x)))
  end.

Definition check_request (rq : ptr) : K unit :=
  q ← on_nfs (gets NfsRequests);
  if ListSpec.list_null q then run_request rq
  else
    h ← ListSpec.list_peek q;
    if decide (Some h ≠ rq) then mret tt else run_request (Some h).
Definition run_head_request : K unit :=
  q ← on_nfs (gets NfsRequests);
  if ListSpec.list_null q then mret tt
  else h ← ListSpec.list_peek q; run_request (Some h).

(** [create_request] with the fields its callers fill in afterwards; they use
    the block without checking that there is one. *)
Definition create_request (vn : ptr) (pid : Z) (d : nfs_req) : K ptr :=
  l ← kmalloc_nocheck;
  t ← on_nfs newtoken;
  on_nfs (modify (λ s, set_nfs_heap (<[l := mkNfsReq t vn pid d]> (nfs_heap s)) s));;
  on_nfs (modify (λ s, set_requests (ListSpec.list_push (NfsRequests s) l) s));;
  mret (Some l).

(** The queue half of [remove_request]. *)
Definition unqueue (rq : ptr) : M nfs unit :=
  x ← rq_get rq;
  q ← gets NfsRequests;
  q' ← ListSpec.list_delete_first (search_requests (token x)) q;
  modify (set_requests q');;
  match rq with
  | Some l => modify (λ s, set_nfs_heap (delete l (nfs_heap s)) s)
  | None => mret tt
  end.
Definition remove_request (rq : ptr) : K unit := on_nfs (unqueue rq);; run_head_request.

(** ** Attributes and status codes *)
Definition cp_stats (attr : fattr_t) : stat_t :=
  mkStat (a_type attr) (u8 (a_mode attr)) (a_size attr)
    (w32 (a_ctime_s attr * 1000 + a_ctime_us attr / 1000))
    (w32 (a_atime_s attr * 1000 + a_atime_us attr / 1000))
    (u64 (a_ctime_s attr * 1000 + a_ctime_us attr / 1000))
    (u64 (a_atime_s attr * 1000 + a_atime_us attr / 1000)).

Definition status_nfs2vfs (status : Z) : Z :=
  if decide (status = NFS_OK) then SOS_VFS_OK
  else if decide (status = NFSERR_ROFS ∨ status = NFSERR_ACCES ∨ status = NFSERR_PERM)
  then SOS_VFS_PERM
  else if decide (status = NFSERR_NOENT) then SOS_VFS_NOVNODE
  else if decide (status = NFSERR_NAMETOOLONG ∨ status = NFSERR_NODEV) then SOS_VFS_PATHINV
  else if decide (status = NFSERR_ISDIR) then SOS_VFS_DIR
  else if decide (status = NFSERR_EXIST) then SOS_VFS_EXIST
  else if decide (status = NFSERR_STALE) then SOS_VFS_CORVNODE
  else SOS_VFS_ERROR.

(** ** Files *)
Definition new_nfsfile (vnode : ptr) : K bool :=
  match vnode with
  | None => mret false
  | Some _ =>
      nf ← kmalloc;
      match nf with
      | None => mret false
      | Some _ => on_vfs (vn_upd vnode (set_extra (ExNfs 0)));; mret true
      end
  end.
Definition free_nfsfile (vnode : ptr) : M vfs unit :=
  match vnode with None => mret tt | Some _ => vn_upd vnode (set_extra ExNull) end.

Definition nfsfs_open (pid : Z) (self : ptr) (p : cstr) (mode : Z) : K unit :=
  on_vfs (vn_upd self (set_path (strncpy_path p)));;
  on_vfs (vn_upd self (set_readers 0));;
  on_vfs (vn_upd self (set_writers 0));;
  on_vfs (vn_upd self (λ x, set_vstat (mkStat ST_FILE (st_fmode (vstat x)) (st_size (vstat x))
    (st_ctime (vstat x)) (st_atime (vstat x)) (st2_ctime (vstat x)) (st2_atime (vstat x))) x));;
  on_vfs (vn_upd self (set_next NULL));;
  on_vfs (vn_upd self (set_previous NULL));;
  ok ← new_nfsfile self;
  if negb ok then vfs_open_done pid self mode SOS_VFS_NOMEM
  else
    on_vfs (vn_upd self (set_vops FsNfs));;
    rq ← create_request self pid (NFS_LookupRequest mode);
    check_request rq.

Definition lookup_cb (key status fh : Z) (attr : fattr_t) : K unit :=
  rq ← on_nfs (get_request key);
  if decide (rq = NULL) then mret tt
  else
    x ← on_nfs (rq_get rq);
    match rq_data x with
    | NFS_LookupRequest mode =>
        if decide (status = NFS_OK) then
          vnode_fh (rq_vnode x);;
          on_vfs (vn_upd (rq_vnode x) (set_extra (ExNfs fh)));;
          on_vfs (vn_upd (rq_vnode x) (set_vstat (cp_stats attr)));;
          vfs_open_done (rq_pid x) (rq_vnode x) mode SOS_VFS_OK;;
          remove_request rq
        else if decide (status = NFSERR_NOENT ∧ has mode FM_WRITE = true) then
          v ← on_vfs (vn_get (rq_vnode x));
          emit (NfsCall (nfs_create (path v) (token x)))
        else
          on_vfs (free_nfsfile (rq_vnode x));;
          vfs_open_done (rq_pid x) (rq_vnode x) mode (status_nfs2vfs status);;
          remove_request rq
    | _ => fail BadPtr
    end.

Definition nfsfs_close (pid : Z) (self : ptr) : K unit :=
  if decide (self = NULL) then vfs_close_done pid self SOS_VFS_NOFILE
  else
    on_vfs (free_nfsfile self);;
    vfs_close_done pid self SOS_VFS_OK.

Definition nfsfs_read (pid : Z) (self : ptr) (file pos buf nbyte : Z) : K unit :=
  x ← on_vfs (vn_get self);
  if decide (extra x = ExNull) then vfs_read_done pid file 0 SOS_VFS_NOFILE
  else
    rq ← create_request self pid (NFS_ReadRequest file buf pos nbyte);
    check_request rq.
Definition read_cb (key status : Z) (attr : fattr_t) (data : list Z) : K unit :=
  rq ← on_nfs (get_request key);
  if decide (rq = NULL) then mret tt
  else
    x ← on_nfs (rq_get rq);
    match rq_data x with
    | NFS_ReadRequest file buf pos nbyte =>
        if decide (status ≠ NFS_OK) then
          vfs_read_done (rq_pid x) file 0 (status_nfs2vfs status);;
          remove_request rq
        else
          b ← get_cbuf;
          put_cbuf (write_bytes b buf data);;
          on_vfs (vn_upd (rq_vnode x) (set_vstat (cp_stats attr)));;
          vfs_read_done (rq_pid x) file (length data) (length data);;
          remove_request rq
    | _ => fail BadPtr
    end.

Definition nfsfs_write (pid : Z) (self : ptr) (file offset buf nbyte : Z) : K unit :=
  x ← on_vfs (vn_get self);
  if decide (extra x = ExNull) then vfs_write_done pid file 0 SOS_VFS_NOFILE
  else
    rq ← create_request self pid (NFS_WriteRequest file buf offset nbyte);
    check_request rq.
Definition write_cb (key status : Z) (attr : fattr_t) : K unit :=
  rq ← on_nfs (get_request key);
  if decide (rq = NULL) then mret tt
  else
    x ← on_nfs (rq_get rq);
    match rq_data x with
    | NFS_WriteRequest file buf offset nbyte =>
        if decide (status ≠ NFS_OK) then
          vfs_write_done (rq_pid x) file 0 (status_nfs2vfs status);;
          remove_request rq
        else
          on_vfs (vn_upd (rq_vnode x) (set_vstat (cp_stats attr)));;
          vfs_write_done (rq_pid x) file nbyte nbyte;;
          remove_request rq
    | _ => fail BadPtr
    end.

Definition nfsfs_flush (pid : Z) : K unit := reply_pid pid SOS_VFS_NOTIMP.

(** ** Directories *)
Definition nfsfs_getdirent (pid : Z) (self : ptr) (pos name nbyte : Z) : K unit :=
  rq ← create_request self pid (NFS_DirRequest pos name nbyte 0);
  check_request rq.
Definition getdirent_cb (key status : Z) (filenames : list (list Z)) (next_cookie : Z) : K unit :=
  rq ← on_nfs (get_request key);
  if decide (rq = NULL) then mret tt
  else
    x ← on_nfs (rq_get rq);
    match rq_data x with
    | NFS_DirRequest pos buf nbyte cpos =>
        p ← on_procs (process_lookup (rq_pid x));
        if decide (status ≠ NFS_OK) then
          reply_to p (status_nfs2vfs status);; remove_request rq
        else if decide (pos + 1 ≤ cpos + length filenames) then
          nfile ← arr_get filenames (pos - cpos);
          (if decide (length nfile + 1 ≤ nbyte) then
             b ← get_cbuf;
             put_cbuf (store8 (write_bytes b buf nfile) (buf + length nfile) 0);;
             reply_to p (length nfile)
           else reply_to p SOS_VFS_NOMEM);;
          remove_request rq
        else if decide (0 < next_cookie) then
          match rq with
          | Some l => on_nfs (modify (λ s, set_nfs_heap (<[l := mkNfsReq (token x) (rq_vnode x)
                        (rq_pid x) (NFS_DirRequest pos buf nbyte (cpos + length filenames))]>
                        (nfs_heap s)) s))
          | None => mret tt
          end;;
          emit (NfsCall (nfs_readdir next_cookie IO_MAX_BUFFER (token x)))
        else reply_to p SOS_VFS_EOF;; remove_request rq
    | _ => fail BadPtr
    end.

(** ** Attributes of a file *)
Definition nfsfs_stat `{StatLayout} (pid : Z) (self : ptr) (p buf : Z) : K unit :=
  proc ← on_procs (process_lookup pid);
  if decide (self ≠ NULL) then
    x ← on_vfs (vn_get self);
    if decide (extra x = ExNull) then reply_to proc SOS_VFS_ERROR
    else
      b ← get_cbuf;
      put_cbuf (write_bytes b buf (stat_bytes (vstat x)));;
      reply_to proc SOS_VFS_OK
  else
    rq ← create_request self pid (NFS_StatRequest buf p);
    check_request rq.
Definition stat_cb `{StatLayout} (key status : Z) (attr : fattr_t) : K unit :=
  rq ← on_nfs (get_request key);
  if decide (rq = NULL) then mret tt
  else
    x ← on_nfs (rq_get rq);
    match rq_data x with
    | NFS_StatRequest stat p =>
        (if decide (status = NFS_OK) then
           b ← get_cbuf; put_cbuf (write_bytes b stat (stat_bytes (cp_stats attr)))
         else mret tt);;
        reply_pid (rq_pid x) (status_nfs2vfs status);;
        remove_request rq
    | _ => fail BadPtr
    end.

Definition nfsfs_remove (pid : Z) (self : ptr) (p : Z) : K unit :=
  if decide (self ≠ NULL) then reply_pid pid SOS_VFS_OPEN
  else
    rq ← create_request self pid (NFS_RemoveRequest p);
    check_request rq.
Definition remove_cb (key status : Z) : K unit :=
  rq ← on_nfs (get_request key);
  if decide (rq = NULL) then mret tt
  else
    x ← on_nfs (rq_get rq);
    reply_pid (rq_pid x) (status_nfs2vfs status);;
    remove_request rq.

(** [nfsfs_init]: an empty queue, and the thread that retransmits calls, whose
    code starts at [nfsfs_timeout_thread]. *)
Definition nfsfs_init (nfsfs_timeout_thread : Z) : K unit :=
  on_nfs (modify (set_requests []));;
  process_run_rootthread (bytes_of_string "nfs_timeout") nfsfs_timeout_thread true 0;;
  mret tt.
End Nfsfs.

(** ** The request queue *)
Module NfsQueue.
Import Nfsfs.

Definition call_token (c : nfs_call) : Z :=
  match c with
  | nfs_lookup _ t | nfs_create _ t | nfs_read _ _ _ t | nfs_write _ _ _ _ t
  | nfs_readdir _ _ t | nfs_remove _ t => t
  end.
(** The tokens of the calls in a log, in order. *)
Definition call_tokens (es : list event) : list Z :=
  omap (λ e, match e with NfsCall c => Some (call_token c) | _ => None end) es.
Lemma call_tokens_app es es' : call_tokens (es ++ es') = call_tokens es ++ call_tokens es'.
Proof. unfold call_tokens. by rewrite omap_app. Qed.

Definition req_token (s : nfs) (l : positive) : option Z := token <$> nfs_heap s !! l.
Definition queue_tokens (s : nfs) : list Z := omap (req_token s) (NfsRequests s).

(** Every queued request exists and has a token of its own, from the tokens
    handed out since the counter last started over. *)
Record nfs_ok (s : nfs) : Prop := {
  q_NoDup : NoDup (NfsRequests s);
  q_heap : ∀ l, l ∈ NfsRequests s → ∃ t, req_token s l = Some t ∧ 0 ≤ t < tok s;
  q_inj : ∀ l l', l ∈ NfsRequests s → l' ∈ NfsRequests s →
    req_token s l = req_token s l' → l = l';
  q_tok : 0 ≤ tok s < NULL_TOKEN - 1
}.

Lemma rq_get_ok s l x : nfs_heap s !! l = Some x → rq_get (Some l) s = Ok x s.
Proof. intros H. unfold rq_get. by rewrite H. Qed.
Lemma search_ok s key l t :
  req_token s l = Some t → search_requests key l s = Ok (t =? key) s.
Proof.
  unfold req_token. destruct (nfs_heap s !! l) as [x|] eqn:Hx; [|done]. intros [= <-].
  unfold search_requests. by rewrite (bind_ok _ _ _ _ _ (rq_get_ok _ _ _ Hx)).
Qed.

(** Looking a token up. *)
Lemma find_run s key q :
  (∀ l, l ∈ q → ∃ t, req_token s l = Some t) →
  ListSpec.list_find (search_requests key) q s =
  Ok (snd <$> list_find (λ l, req_token s l = Some key) q) s.
Proof.
  induction q as [|l q IH]; intros Hq; [done|]. simpl.
  destruct (Hq l) as [t Ht]; [by left|].
  rewrite (bind_ok _ _ _ _ _ (search_ok s key l t Ht)).
  destruct (Z.eqb_spec t key) as [->|Hne].
  - by rewrite decide_True.
  - rewrite decide_False by congruence. rewrite IH by (intros; apply Hq; by right).
    by destruct (list_find _ q) as [[]|].
Qed.
Lemma get_request_run s key :
  nfs_ok s →
  ∃ r, get_request key s = Ok r s ∧
    match r with
    | Some l => l ∈ NfsRequests s ∧ req_token s l = Some key
    | None => ∀ l, l ∈ NfsRequests s → req_token s l ≠ Some key
    end.
Proof.
  intros Hok. unfold get_request. rewrite (bind_ok _ _ s (NfsRequests s) s) by done.
  unfold ListSpec.list_null. case_bool_decide as Hn.
  { exists NULL. split; [done|]. rewrite Hn. by intros l ?%elem_of_nil. }
  rewrite find_run by (intros l Hl; destruct (q_heap _ Hok l Hl) as (t & ? & _); by exists t).
  eexists. split; [done|]. destruct (list_find _ _) as [[i l]|] eqn:Hf; simpl.
  - apply list_find_Some in Hf as (Hl & Ht & _). split; [by eapply list_elem_of_lookup_2|done].
  - apply list_find_None in Hf. intros l Hl. rewrite Forall_forall in Hf. by apply Hf.
Qed.

(** Taking the head off the queue. *)
Lemma delete_first_run s key q :
  (∀ l, l ∈ q → ∃ t, req_token s l = Some t) →
  ∀ l q', q = l :: q' → req_token s l = Some key →
  ListSpec.list_delete_first (search_requests key) q s = Ok q' s.
Proof.
  intros Hq l q' -> Hl. unfold ListSpec.list_delete_first.
  cbn [ListSpec.list_delete_n Z.eqb].
  rewrite (bind_ok _ _ _ _ _ (search_ok s key l key Hl)). rewrite Z.eqb_refl.
  assert (∀ r, (∀ m, m ∈ r → ∃ t, req_token s m = Some t) →
    ListSpec.list_delete_n (search_requests key) 0 r s = Ok r s) as Hkeep.
  { induction r as [|m r IH]; intros Hr; [done|]. cbn [ListSpec.list_delete_n Z.eqb].
    rewrite (bind_ok _ _ s false s) by done. cbn iota.
    rewrite (bind_ok _ _ s r s) by (apply IH; intros; apply Hr; by right). done. }
  change (1 - 1) with 0. rewrite (Hkeep q') by (intros; apply Hq; by right). done.
Qed.

Lemma vnode_fh_id v k fh k' : vnode_fh v k = Ok fh k' → k' = k.
Proof.
  intros (x & k1 & Hx & H)%bind_inv. apply zoom_inv in Hx as (s & Hx & ->).
  assert (s = k_vfs k) as -> by (unfold vn_get in Hx; repeat case_match; by simplify_eq).
  destruct (extra x); [done|done|]. injection H as _ <-. by destruct k.
Qed.
(** Running a request issues one call, with the request's token. *)
Lemma run_request_inv l k k' :
  run_request (Some l) k = Ok tt k' →
  ∃ t c, req_token (k_nfs k) l = Some t ∧ call_token c = t ∧ k' = klog_app [NfsCall c] k.
Proof.
  intros (x & k1 & Hx & H)%bind_inv. apply zoom_inv in Hx as (s & Hx & ->).
  unfold rq_get in Hx. destruct (nfs_heap (k_nfs k) !! l) as [y|] eqn:Hy; [|done].
  injection Hx as <- <-. exists (token y). unfold req_token. rewrite Hy.
  assert (set_nfs (k_nfs k) k = k) as Hid by (by destruct k). rewrite Hid in H.
  assert (∀ c, emit (NfsCall c) k = Ok tt k' → call_token c = token y →
    ∃ c, Some (token y) = Some (token y) ∧ call_token c = token y ∧ k' = klog_app [NfsCall c] k)
    as Hend by (intros c [= <-] Hc; by exists c).
  destruct (rq_data y).
  - apply bind_inv in H as (v & k1 & Hv & H). apply zoom_inv in Hv as (s & Hv & ->).
    assert (s = k_vfs k) as ->.
    { unfold vn_get in Hv. repeat case_match; by simplify_eq. }
    replace (set_vfs (k_vfs k) k) with k in H by (by destruct k).
    eapply Hend; [exact H|]. by case_match.
  - apply bind_inv in H as (fh & k1 & Hv & H). rewrite (vnode_fh_id _ _ _ _ Hv) in H.
    by eapply Hend.
  - apply bind_inv in H as (fh & k1 & Hv & H). rewrite (vnode_fh_id _ _ _ _ Hv) in H.
    by eapply Hend.
  - apply bind_inv in H as (b & k1 & [= _ <-] & H). by eapply Hend.
  - by eapply Hend.
  - apply bind_inv in H as (b & k1 & [= _ <-] & H). by eapply Hend.
Qed.

(** ** Submitting and finishing requests *)
Definition submit (vn : ptr) (pid : Z) (d : nfs_req) : K unit :=
  rq ← create_request vn pid d; check_request rq.

Lemma create_request_inv vn pid_ d k rq k' :
  create_request vn pid_ d k = Ok rq k' → nfs_ok (k_nfs k) →
  (∀ l, rq = Some l → nfs_heap (k_nfs k) !! l = None) → tok (k_nfs k) + 1 < NULL_TOKEN - 1 →
  ∃ l, rq = Some l ∧ klog k' = klog k ∧ nfs_ok (k_nfs k') ∧
    NfsRequests (k_nfs k') = NfsRequests (k_nfs k) ++ [l] ∧
    req_token (k_nfs k') l = Some (tok (k_nfs k)) ∧
    (∀ m, m ∈ NfsRequests (k_nfs k) → req_token (k_nfs k') m = req_token (k_nfs k) m) ∧
    tok (k_nfs k') = tok (k_nfs k) + 1.
Proof.
  intros H Hok Hfresh Hroom. pose proof (q_tok _ Hok) as Htok.
  unfold create_request in H. apply bind_inv in H as (l & k1 & Hm & H).
  assert (k_nfs k1 = k_nfs k ∧ klog k1 = klog k) as [Hn1 Hl1].
  { unfold kmalloc_nocheck, kmalloc, on_mach in Hm. apply bind_inv in Hm as (p & k2 & Hm & Ho).
    apply zoom_inv in Hm as (m & Hm & ->). destruct p; [|done]. injection Ho as _ <-.
    unfold malloc in Hm. repeat case_match; simplify_eq; done. }
  apply bind_inv in H as (t & k2 & Ht & H). apply zoom_inv in Ht as (s & [= <- <-] & ->).
  apply bind_inv in H as ([] & k3 & Hk & H). apply zoom_inv in Hk as (s & [= <-] & ->).
  apply bind_inv in H as ([] & k4 & Hk & H). apply zoom_inv in Hk as (s & [= <-] & ->).
  injection H as <- <-. simpl. rewrite Hn1 in *. exists l.
  rewrite (Z.mod_small (tok (k_nfs k))) by lia. rewrite w32_small by (unfold is_word, NULL_TOKEN in *; lia).
  specialize (Hfresh l eq_refl). set (q := NfsRequests (k_nfs k)) in *.
  assert (l ∉ q) as Hlq.
  { intros Hin. destruct (q_heap _ Hok l Hin) as (t & Ht & _). unfold req_token in Ht.
    by rewrite Hfresh in Ht. }
  match goal with |- _ ∧ _ ∧ nfs_ok ?s ∧ _ => set (s' := s) end.
  assert (req_token s' l = Some (tok (k_nfs k))) as Hnew.
  { unfold req_token, s'. cbn [nfs_heap set_nfs_heap set_requests]. by rewrite lookup_insert_eq. }
  assert (∀ m, m ∈ q → req_token s' m = req_token (k_nfs k) m) as Hold.
  { intros m Hm'. unfold req_token, s'. cbn [nfs_heap set_nfs_heap set_requests]. rewrite lookup_insert_ne; [done|by intros ->]. }
  split; [done|]. split; [done|]. split; [|done].
  assert (∀ m, m ∈ q → req_token s' m ≠ Some (tok (k_nfs k))) as Hdiff.
  { intros m Hm'. rewrite Hold by done. destruct (q_heap _ Hok m Hm') as (t & -> & Ht).
    intros [= ->]. lia. }
  split; simpl; unfold ListSpec.list_push; fold q.
  - apply NoDup_app. split; [apply (q_NoDup _ Hok)|]. split; [|by apply NoDup_singleton].
    intros m Hm' ->%list_elem_of_singleton. done.
  - intros m [Hm'| ->%list_elem_of_singleton]%elem_of_app.
    + rewrite Hold by done. destruct (q_heap _ Hok m Hm') as (t & -> & Ht). exists t. split; [done|lia].
    + exists (tok (k_nfs k)). split; [done|lia].
  - intros a b [Ha| ->%list_elem_of_singleton]%elem_of_app [Hb| ->%list_elem_of_singleton]%elem_of_app;
      rewrite ?Hnew; intros Heq; [| | |done].
    + rewrite !Hold in Heq by done. by apply (q_inj _ Hok).
    + by apply Hdiff in Ha.
    + symmetry in Heq. by apply Hdiff in Hb.
  - lia.
Qed.

(** Blocks are never handed out twice, so a new request is a new block. *)
Definition heap_below (k : kstate) : Prop :=
  ∀ l, is_Some (nfs_heap (k_nfs k) !! l) → (l < mnext (kmach k))%positive.
Lemma malloc_inv k l k1 :
  kmalloc_nocheck k = Ok l k1 →
  l = mnext (kmach k) ∧ mnext (kmach k1) = Pos.succ l ∧ k_nfs k1 = k_nfs k.
Proof.
  intros H. unfold kmalloc_nocheck, kmalloc, on_mach in H. apply bind_inv in H as (p & k2 & Hm & Ho).
  apply zoom_inv in Hm as (m & Hm & ->). destruct p; [|done]. injection Ho as <- <-.
  unfold malloc in Hm. repeat case_match; simplify_eq; done.
Qed.
Lemma create_fresh vn pid_ d k rq k' :
  create_request vn pid_ d k = Ok rq k' → heap_below k →
  (∀ l, rq = Some l → nfs_heap (k_nfs k) !! l = None) ∧ heap_below k'.
Proof.
  intros H Hb. unfold create_request in H. apply bind_inv in H as (l & k1 & Hm & H).
  apply malloc_inv in Hm as (-> & Hmn & Hn).
  apply bind_inv in H as (t & k2 & Ht & H). apply zoom_inv in Ht as (s & [= <- <-] & ->).
  apply bind_inv in H as ([] & k3 & Hk & H). apply zoom_inv in Hk as (s & [= <-] & ->).
  apply bind_inv in H as ([] & k4 & Hk & H). apply zoom_inv in Hk as (s & [= <-] & ->).
  injection H as <- <-. split.
  - intros l [= <-]. apply eq_None_not_Some. intros Hs%Hb. lia.
  - intros l. unfold heap_below in Hb. cbn [k_nfs set_nfs nfs_heap set_nfs_heap set_requests].
    change (mnext (kmach (set_nfs _ _))) with (mnext (kmach k1)). rewrite Hmn, Hn.
    rewrite lookup_insert_is_Some. intros [<-|[_ Hl]]; [lia|]. apply Hb in Hl. lia.
Qed.

(** The life of the queue: a request is submitted; the outstanding one (at the
    head) is finished; or an answer for it leads to another call on its behalf:
    a file that is not there and is to be written is created, or the next part
    of a directory is read.  [sub] are the tokens submitted so far and [n] the
    number of requests finished. *)
Inductive nstep : kstate * list Z * nat → kstate * list Z * nat → Prop :=
  | nstep_submit k sub n vn pid_ d k' :
      tok (k_nfs k) + 1 < NULL_TOKEN - 1 →
      submit vn pid_ d k = Ok tt k' →
      nstep (k, sub, n) (k', sub ++ [tok (k_nfs k)], n)
  | nstep_finish k sub n l k' :
      head (NfsRequests (k_nfs k)) = Some l →
      remove_request (Some l) k = Ok tt k' →
      nstep (k, sub, n) (k', sub, S n)
  | nstep_create k sub n l x mode fh attr k' :
      head (NfsRequests (k_nfs k)) = Some l → nfs_heap (k_nfs k) !! l = Some x →
      rq_data x = NFS_LookupRequest mode → has mode FM_WRITE = true →
      lookup_cb (token x) NFSERR_NOENT fh attr k = Ok tt k' →
      nstep (k, sub, n) (k', sub, n)
  | nstep_more k sub n l x pos buf nbyte cpos filenames next_cookie k' :
      head (NfsRequests (k_nfs k)) = Some l → nfs_heap (k_nfs k) !! l = Some x →
      rq_data x = NFS_DirRequest pos buf nbyte cpos → cpos + length filenames < pos + 1 →
      0 < next_cookie → getdirent_cb (token x) NFS_OK filenames next_cookie k = Ok tt k' →
      nstep (k, sub, n) (k', sub, n).

(** The calls for the requests [r], in order, each with one or more calls. *)
Inductive calls_for : list Z → list Z → Prop :=
  | calls_none : calls_for [] []
  | calls_first c r t : calls_for c r → calls_for (c ++ [t]) (r ++ [t])
  | calls_again c r t : calls_for c (r ++ [t]) → calls_for (c ++ [t]) (r ++ [t]).

Definition nfs_inv (c : kstate * list Z * nat) : Prop :=
  let '(k, sub, n) := c in
  nfs_ok (k_nfs k) ∧ heap_below k ∧ queue_tokens (k_nfs k) = drop n sub ∧
  length (NfsRequests (k_nfs k)) = length (drop n sub) ∧
  (n ≤ length sub)%nat ∧ calls_for (call_tokens (klog k)) (take (S n) sub) ∧
  NoDup sub ∧ Forall (λ t, t < tok (k_nfs k)) sub.

Lemma on_nfs_gets {A} (f : nfs → A) k : on_nfs (gets f) k = Ok (f (k_nfs k)) k.
Proof. by destruct k. Qed.
Lemma klog_app_log es k : klog (klog_app es k) = klog k ++ es.
Proof. done. Qed.
Lemma queue_tokens_ext s s' (q : list positive) :
  (∀ l, l ∈ q → req_token s' l = req_token s l) → omap (req_token s') q = omap (req_token s) q.
Proof.
  induction q as [|l q IH]; intros H; [done|].
  pose proof (IH (λ m Hm, H m (list_elem_of_further m l q Hm))) as E. simpl.
  rewrite (H l) by (by left). destruct (req_token s l); [by f_equal|exact E].
Qed.

Lemma submit_inv k sub n vn pid_ d k' :
  nfs_inv (k, sub, n) → tok (k_nfs k) + 1 < NULL_TOKEN - 1 → submit vn pid_ d k = Ok tt k' →
  nfs_inv (k', sub ++ [tok (k_nfs k)], n).
Proof.
  intros (Hok & Hb & Hq & Hlen & Hn & Hc & Hsd & Hst) Hroom H. apply bind_inv in H as (rq & k1 & Hcr & Hck).
  destruct (create_fresh _ _ _ _ _ _ Hcr Hb) as [Hfresh Hb1].
  destruct (create_request_inv _ _ _ _ _ _ Hcr Hok Hfresh Hroom)
    as (l & -> & Hlog & Hok1 & Hqueue & Hnew & Hold & Htok).
  assert (queue_tokens (k_nfs k1) = drop n sub ++ [tok (k_nfs k)]) as Hq1.
  { unfold queue_tokens. rewrite Hqueue, omap_app, (queue_tokens_ext _ _ _ Hold). simpl.
    rewrite Hnew. by rewrite <- Hq. }
  unfold check_request in Hck. rewrite (bind_ok _ _ k1 (NfsRequests (k_nfs k1)) k1) in Hck
    by apply on_nfs_gets.
  rewrite Hqueue in Hck. unfold ListSpec.list_null in Hck.
  rewrite bool_decide_false in Hck by (by intros [_ ?]%app_nil).
  assert (∀ kk es, kk = klog_app es k1 → calls_for (call_tokens (klog k ++ es)) (take (S n) (sub ++ [tok (k_nfs k)])) →
    nfs_inv (kk, sub ++ [tok (k_nfs k)], n)) as Hend.
  { intros kk es -> Hes. split; [done|]. split; [done|]. rewrite drop_app_le by done.
    split; [done|]. split; [simpl; rewrite Hqueue, !length_app; simpl; lia|].
    split; [rewrite length_app; lia|]. split; [by rewrite klog_app_log, Hlog|]. rewrite Forall_forall in Hst. split.
    - apply NoDup_app. split; [done|]. split; [|apply NoDup_singleton].
      intros t Ht%Hst ->%list_elem_of_singleton. lia.
    - apply Forall_app. cbn. rewrite Htok. split; [|constructor; [lia|constructor]].
      apply Forall_forall. intros t Ht%Hst. lia. }
  destruct (NfsRequests (k_nfs k)) as [|h q] eqn:Hqk; simpl in Hck.
  - rewrite (bind_ok _ _ k1 l k1) in Hck by done. rewrite decide_False in Hck by (intros []; done).
    apply run_request_inv in Hck as (t & c & Ht & Hct & ->). eapply Hend; [done|].
    rewrite Hnew in Ht. injection Ht as <-. rewrite call_tokens_app. simpl. rewrite Hct.
    simpl in Hlen. rewrite length_drop in Hlen. rewrite take_ge in Hc by lia.
    rewrite take_ge by (rewrite length_app; simpl; lia). by apply calls_first.
  - rewrite (bind_ok _ _ k1 h k1) in Hck by done.
    assert (h ≠ l) as Hhl.
    { intros ->. pose proof (q_NoDup _ Hok1) as Hnd. rewrite Hqueue in Hnd.
      apply NoDup_cons in Hnd as [Hni _]. apply Hni. apply elem_of_app. right. by left. }
    rewrite decide_True in Hck by congruence. injection Hck as <-.
    apply (Hend k1 []); [by rewrite klog_app_nil|]. rewrite app_nil_r.
    rewrite length_drop in Hlen. simpl in Hlen. rewrite take_app_le by lia. exact Hc.
Qed.

(** Taking the head off: the rest of the queue keeps its requests. *)
Lemma unqueue_head s l q :
  nfs_ok s → NfsRequests s = l :: q →
  unqueue (Some l) s = Ok tt (mkNfs (delete l (nfs_heap s)) q (tok s)).
Proof.
  intros Hok Hq.
  assert (∀ m, m ∈ NfsRequests s → ∃ t, req_token s m = Some t) as Hall.
  { intros m Hm. destruct (q_heap _ Hok m Hm) as (t & ? & _). by exists t. }
  destruct (Hall l) as [t Ht]; [rewrite Hq; by left|].
  pose proof Ht as Hx. unfold req_token in Hx.
  destruct (nfs_heap s !! l) as [x|] eqn:Hl; [|done]. injection Hx as Hx.
  unfold unqueue. rewrite (bind_ok _ _ _ _ _ (rq_get_ok _ _ _ Hl)).
  rewrite (bind_ok _ _ s (NfsRequests s) s) by done. rewrite Hx.
  rewrite (bind_ok _ _ _ _ _ (delete_first_run s t _ Hall l q Hq Ht)). done.
Qed.
Lemma unqueue_ok s l q :
  nfs_ok s → NfsRequests s = l :: q → nfs_ok (mkNfs (delete l (nfs_heap s)) q (tok s)) ∧
  (∀ m, m ∈ q → req_token (mkNfs (delete l (nfs_heap s)) q (tok s)) m = req_token s m).
Proof.
  intros [H1 H2 H3 H4] Hq. rewrite Hq in *. apply NoDup_cons in H1 as [Hni Hnd].
  assert (∀ m, m ∈ q → req_token (mkNfs (delete l (nfs_heap s)) q (tok s)) m = req_token s m) as Hold.
  { intros m Hm. unfold req_token. simpl. rewrite lookup_delete_ne; [done|by intros ->]. }
  split; [|done]. split; simpl; [done| | |done].
  - intros m Hm. rewrite Hold by done. apply H2. by right.
  - intros a b Ha Hb. rewrite !Hold by done. apply H3; by right.
Qed.

Lemma finish_inv k sub n l k' :
  nfs_inv (k, sub, n) → head (NfsRequests (k_nfs k)) = Some l →
  remove_request (Some l) k = Ok tt k' → nfs_inv (k', sub, S n).
Proof.
  intros (Hok & Hb & Hq & Hlen & Hn & Hc & Hsd & Hst) Hh H.
  destruct (NfsRequests (k_nfs k)) as [|l' q] eqn:Hqk; [done|]. injection Hh as ->.
  destruct (unqueue_ok _ _ _ Hok Hqk) as [Hok1 Hold].
  apply bind_inv in H as ([] & k1 & Hu & H). apply zoom_inv in Hu as (s1 & Hu & ->).
  rewrite (unqueue_head _ _ _ Hok Hqk) in Hu. injection Hu as <-.
  set (s1 := mkNfs (delete l (nfs_heap (k_nfs k))) q (tok (k_nfs k))) in *.
  rewrite length_drop in Hlen. simpl in Hlen.
  assert (queue_tokens s1 = drop (S n) sub) as Hq1.
  { unfold queue_tokens in *. rewrite Hqk in Hq. simpl in Hq.
    destruct (q_heap _ Hok l) as (t & Ht & _); [rewrite Hqk; by left|]. rewrite Ht in Hq.
    change (NfsRequests s1) with q. rewrite (queue_tokens_ext _ _ _ Hold).
    apply (f_equal (drop 1)) in Hq. rewrite drop_drop in Hq.
    replace (S n) with (n + 1)%nat by lia. exact Hq. }
  assert (heap_below (set_nfs s1 k)) as Hb1.
  { intros m Hm. apply Hb. simpl in Hm. by apply lookup_delete_is_Some in Hm as [_ ?]. }
  assert (∀ kk es, kk = klog_app es (set_nfs s1 k) → calls_for (call_tokens (klog k ++ es)) (take (S (S n)) sub) →
    nfs_inv (kk, sub, S n)) as Hend.
  { intros kk es -> Hes. split; [done|]. split; [done|]. split; [done|].
    split; [rewrite length_drop; simpl; lia|]. split; [lia|]. done. }
  unfold run_head_request in H. rewrite (bind_ok _ _ _ q (set_nfs s1 k)) in H by apply on_nfs_gets.
  destruct q as [|h q].
  - injection H as <-. apply (Hend _ []); [by rewrite klog_app_nil|].
    rewrite app_nil_r. simpl in Hlen. rewrite take_ge in Hc by lia. by rewrite take_ge by lia.
  - unfold ListSpec.list_null in H. rewrite bool_decide_false in H by done.
    rewrite (bind_ok _ _ _ h (set_nfs s1 k)) in H by done.
    apply run_request_inv in H as (t & c & Ht & Hct & ->). eapply Hend; [done|].
    rewrite call_tokens_app. simpl. rewrite Hct.
    rewrite (take_S_r sub (S n) t); [by apply calls_first|]. unfold queue_tokens in Hq1. simpl in Hq1.
    change (k_nfs (set_nfs s1 k)) with s1 in Ht. rewrite Ht in Hq1.
    rewrite <- (Nat.add_0_r (S n)), <- lookup_drop, <- Hq1. done.
Qed.

(** Another call for the head of the queue. *)
Lemma head_request k l x :
  nfs_ok (k_nfs k) → head (NfsRequests (k_nfs k)) = Some l → nfs_heap (k_nfs k) !! l = Some x →
  on_nfs (get_request (token x)) k = Ok (Some l) k ∧ on_nfs (rq_get (Some l)) k = Ok x k.
Proof.
  intros Hok Hh Hx. destruct (get_request_run (k_nfs k) (token x) Hok) as (r & Hr & Hm).
  assert (l ∈ NfsRequests (k_nfs k)) as Hin by (by apply head_Some_elem_of).
  assert (req_token (k_nfs k) l = Some (token x)) as Ht by (unfold req_token; by rewrite Hx).
  assert (set_nfs (k_nfs k) k = k) as Hid by (by destruct k). split.
  - unfold on_nfs, zoom. rewrite Hr, Hid. destruct r as [l'|]; [|by apply Hm in Hin].
    destruct Hm as [Hin' Ht']. do 2 f_equal. apply (q_inj _ Hok); [done|done|congruence].
  - unfold on_nfs, zoom. by rewrite (rq_get_ok _ _ _ Hx), Hid.
Qed.
Lemma again_inv k sub n l x y c :
  nfs_inv (k, sub, n) → head (NfsRequests (k_nfs k)) = Some l → nfs_heap (k_nfs k) !! l = Some x →
  token y = token x → call_token c = token x →
  nfs_inv (klog_app [NfsCall c] (set_nfs (set_nfs_heap (<[l := y]> (nfs_heap (k_nfs k))) (k_nfs k)) k), sub, n).
Proof.
  intros (Hok & Hb & Hq & Hlen & Hn & Hc & Hsd & Hst) Hh Hx Hy Hcall.
  set (s1 := set_nfs_heap _ _).
  assert (∀ m, req_token s1 m = req_token (k_nfs k) m) as Hreq.
  { intros m. unfold req_token, s1. cbn [nfs_heap set_nfs_heap]. destruct (decide (m = l)) as [->|Hne].
    - rewrite lookup_insert_eq, Hx. cbn. by rewrite Hy.
    - by rewrite lookup_insert_ne. }
  assert (queue_tokens s1 = queue_tokens (k_nfs k)) as Hqt by (by apply queue_tokens_ext).
  unfold nfs_inv. cbn [k_nfs klog_app set_nfs]. change (k_nfs (klog_app _ (set_nfs s1 k))) with s1.
  split_and!; [|by intros m Hm; apply Hb; revert Hm; unfold s1; cbn; rewrite lookup_insert_is_Some;
                 intros [<-|[_ ?]]; [exists x|]|by rewrite Hqt|exact Hlen|done| |done|exact Hst].
  - destruct Hok as [H1 H2 H3 H4]. split; [done| | |done].
    + intros m Hm. rewrite Hreq. by apply H2.
    + intros a b Ha Hb'. rewrite !Hreq. by apply H3.
  - change (klog (klog_app [NfsCall c] (set_nfs s1 k))) with (klog k ++ [NfsCall c]).
    rewrite call_tokens_app. cbn. rewrite Hcall.
    assert (sub !! n = Some (token x)) as Hs.
    { rewrite <- (Nat.add_0_r n), <- lookup_drop, <- Hq. unfold queue_tokens.
      destruct (NfsRequests (k_nfs k)) as [|l' q]; [done|]. injection Hh as ->. cbn.
      unfold req_token at 1. by rewrite Hx. }
    rewrite (take_S_r _ _ _ Hs) in Hc |- *. by apply calls_again.
Qed.
Lemma create_inv k sub n l x mode fh attr k' :
  nfs_inv (k, sub, n) → head (NfsRequests (k_nfs k)) = Some l → nfs_heap (k_nfs k) !! l = Some x →
  rq_data x = NFS_LookupRequest mode → has mode FM_WRITE = true →
  lookup_cb (token x) NFSERR_NOENT fh attr k = Ok tt k' → nfs_inv (k', sub, n).
Proof.
  intros Hi Hh Hx Hd Hm H. pose proof Hi as (Hok & _). destruct (head_request k l x Hok Hh Hx) as [Hg Hr].
  unfold lookup_cb in H. rewrite (bind_ok _ _ _ _ _ Hg) in H. rewrite decide_False in H by done.
  rewrite (bind_ok _ _ _ _ _ Hr), Hd in H. rewrite decide_False, decide_True in H by done.
  apply bind_inv in H as (v & k1 & Hv & H). apply zoom_inv in Hv as (s & Hv & ->).
  unfold vn_get in Hv. repeat case_match; simplify_eq. injection H as <-.
  pose proof (again_inv k sub n l x x (nfs_create (path v) (token x)) Hi Hh Hx eq_refl eq_refl) as Ha.
  rewrite insert_id in Ha by done. by destruct k as [? ? ? [] ? ? ?].
Qed.
Lemma more_inv k sub n l x pos buf nbyte cpos filenames next_cookie k' :
  nfs_inv (k, sub, n) → head (NfsRequests (k_nfs k)) = Some l → nfs_heap (k_nfs k) !! l = Some x →
  rq_data x = NFS_DirRequest pos buf nbyte cpos → cpos + length filenames < pos + 1 →
  0 < next_cookie → getdirent_cb (token x) NFS_OK filenames next_cookie k = Ok tt k' → nfs_inv (k', sub, n).
Proof.
  intros Hi Hh Hx Hd Hp Hnc H. pose proof Hi as (Hok & _). destruct (head_request k l x Hok Hh Hx) as [Hg Hr].
  unfold getdirent_cb in H. rewrite (bind_ok _ _ _ _ _ Hg) in H. rewrite decide_False in H by done.
  rewrite (bind_ok _ _ _ _ _ Hr), Hd in H. apply bind_inv in H as (p & k1 & Hpl & H).
  assert (k1 = k) as ->.
  { apply zoom_inv in Hpl as (s & Hs & ->). apply bind_inv in Hs as (tbl & s1 & Hs1 & Hs).
    injection Hs1 as <- <-. unfold arr_get, of_opt in Hs.
    repeat case_match; try done; injection Hs as _ <-; by destruct k. }
  rewrite decide_False, decide_False, decide_True in H by (done || lia).
  apply bind_inv in H as ([] & k2 & H1 & H). apply zoom_inv in H1 as (s & [= <-] & ->). injection H as <-.
  by apply (again_inv _ _ _ _ x).
Qed.

Lemma nfs_inv_step c c' : nfs_inv c → nstep c c' → nfs_inv c'.
Proof.
  intros Hi Hs. inversion Hs; subst;
    [by eapply submit_inv|by eapply finish_inv|by eapply create_inv|by eapply more_inv].
Qed.
Lemma nfs_inv_reach c c' : nfs_inv c → rtc nstep c c' → nfs_inv c'.
Proof. intros Hi. induction 1; eauto using nfs_inv_step. Qed.
End NfsQueue.

Module NfsClaims.
Import Nfsfs NfsQueue.

(** C32: the request queue serves requests in order, one at a time.  After any
    sequence of submissions, answers that lead to another call for the same
    request, and completions, short of the token counter starting over: every
    request has a token of its own; the calls issued to the file server are
    those of the first requests submitted, in the order of submission, one or
    more for each, with its token and without those of another in between; and
    calls were issued for exactly one more request than were completed, as long
    as one is waiting: the outstanding one is that of the head of the queue. *)
Theorem nfs_requests_fifo k0 k sub n :
  nfs_inv (k0, [], 0%nat) → rtc nstep (k0, [], 0%nat) (k, sub, n) →
  NoDup sub ∧ calls_for (call_tokens (klog k)) (take (S n) sub) ∧
  queue_tokens (k_nfs k) = drop n sub ∧ NoDup (queue_tokens (k_nfs k)).
Proof.
  intros Hi Hr. pose proof (nfs_inv_reach _ _ Hi Hr) as (Hok & _ & Hq & _ & _ & Hc & Hsd & _).
  split; [done|]. split; [done|]. split; [done|]. unfold queue_tokens.
  destruct Hok as [Hnd Hheap Hinj _]. clear -Hnd Hheap Hinj.
  induction (NfsRequests (k_nfs k)) as [|l q IH]; [apply NoDup_nil; done|].
  apply NoDup_cons in Hnd as [Hni Hnd]. destruct (Hheap l) as (t & Ht & _); [by left|].
  simpl. rewrite Ht. apply NoDup_cons. split.
  - intros (m & Hm & Hmt)%list_elem_of_omap. apply Hni. replace l with m; [done|].
    apply Hinj; [by right|by left|congruence].
  - apply IH; [done|intros; apply Hheap; by right|]. intros a b Ha Hb. apply Hinj; by right.
Qed.
Definition nfs0 : kstate := ProcessClaims.kboot ProcessClaims.procs0.
Lemma nfs0_inv : nfs_inv (nfs0, [], 0%nat).
Proof.
  split; [|split; [|split_and!; try done; constructor]].
  - split; [by apply NoDup_nil|by intros l ?%elem_of_nil|by intros l l' ?%elem_of_nil|].
    by apply (bool_decide_unpack _).
  - by intros l [x Hx].
Qed.
(** Two submissions, then the first one is finished. *)
Definition run_k (m : K unit) (k : kstate) : kstate := match m k with Ok _ k' => k' | Err _ => k end.
Definition nfs1 : kstate := run_k (submit NULL 5 (NFS_DirRequest 0 0 10 0)) nfs0.
Definition nfs2 : kstate := run_k (submit NULL 6 (NFS_RemoveRequest 0)) nfs1.
Definition nfs3 : kstate := run_k (remove_request (Some 1%positive)) nfs2.
Lemma nfs_requests_fifo_witness :
  NoDup [0; 1] ∧ calls_for (call_tokens (klog nfs3)) [0; 1] ∧ queue_tokens (k_nfs nfs3) = [1] ∧
  NoDup (queue_tokens (k_nfs nfs3)).
Proof.
  apply (nfs_requests_fifo nfs0 nfs3 [0; 1] 1 nfs0_inv).
  eapply rtc_l; [apply (nstep_submit nfs0 [] 0 NULL 5 (NFS_DirRequest 0 0 10 0) nfs1);
    [by apply (bool_decide_unpack _)|vm_compute; reflexivity]|].
  eapply rtc_l; [apply (nstep_submit nfs1 [0] 0 NULL 6 (NFS_RemoveRequest 0) nfs2);
    [by apply (bool_decide_unpack _)|vm_compute; reflexivity]|].
  apply rtc_once. apply (nstep_finish nfs2 [0; 1] 0 1 nfs3); vm_compute; reflexivity.
Defined.

(** [get_request] finds the one queued request that carries a token, and
    NULL exactly when none does, so that a callback with a stale token is
    ignored. *)
Theorem get_request_unique s key :
  nfs_ok s →
  ∃ r, get_request key s = Ok r s ∧
    (∀ l, l ∈ NfsRequests s → req_token s l = Some key ↔ r = Some l) ∧
    (r ≠ NULL → ∃ l, r = Some l ∧ l ∈ NfsRequests s).
Proof.
  intros Hok. destruct (get_request_run s key Hok) as (r & Hrun & Hr). exists r.
  split; [done|]. destruct r as [l0|].
  - destruct Hr as [Hin Ht]. split; [|naive_solver]. intros l Hl. split; [|by intros [= <-]].
    intros Hlt. f_equal. apply (q_inj _ Hok); [done|done|congruence].
  - split; [|done]. intros l Hl. split; [|done]. intros Hlt. by apply Hr in Hl.
Qed.
Lemma get_request_unique_witness :
  ∃ r, get_request 1 (k_nfs nfs2) = Ok r (k_nfs nfs2) ∧
    (∀ l, l ∈ NfsRequests (k_nfs nfs2) → req_token (k_nfs nfs2) l = Some 1 ↔ r = Some l) ∧
    (r ≠ NULL → ∃ l, r = Some l ∧ l ∈ NfsRequests (k_nfs nfs2)).
Proof.
  apply (get_request_unique (k_nfs nfs2) 1).
  assert (nfs_inv (nfs2, [0; 1], 0%nat)) as [Hok _]; [|exact Hok].
  apply (nfs_inv_reach (nfs0, [], 0%nat)); [apply nfs0_inv|].
  eapply rtc_l; [apply (nstep_submit nfs0 [] 0 NULL 5 (NFS_DirRequest 0 0 10 0) nfs1);
    [by apply (bool_decide_unpack _)|vm_compute; reflexivity]|].
  apply rtc_once. apply (nstep_submit nfs1 [0] 0 NULL 6 (NFS_RemoveRequest 0) nfs2);
    [by apply (bool_decide_unpack _)|vm_compute; reflexivity].
Defined.

(** The tokens are not unique across the wrap-around of their counter:
    after the counter's last two values the next tokens are the ones just
    handed out, because 32-bit values are reduced modulo [NULL_TOKEN - 1]. *)
Theorem newtoken_repeats h q :
  let s := mkNfs h q (NULL_TOKEN - 1) in
  ∃ s1 s2 s3, newtoken s = Ok 0 s1 ∧ newtoken s1 = Ok 1 s2 ∧ newtoken s2 = Ok 0 s3.
Proof. eexists _, _, _. split; [reflexivity|]. split; reflexivity. Qed.
End NfsClaims.
