(* ===== verification/Clock.v ===== *)
(** * The clock driver ([sos/clock.c])

    The timestamp counter, the one-shot timer and the list of sleeping
    threads.  [Module Clock] has the operations; the theorems say which
    sleepers a timer interrupt wakes, and that one killed in its sleep takes
    the root server down. *)
From S2P Require Import Prelude Machine ListC Frames Swapfile State Pagetable Process Reply VfsCore.
Import Time Process ProcessInv Reply OpenDone.

Module Clock.
Definition CLEAR_ST : Z := Z.shiftl 1 2.
Definition CLEAR_TIM0 : Z := 1.
Definition ONESHOT_ENABLE : Z := 3.
Definition CLOCK_R_OK : Z := 0.
Definition NSLU2_TIMESTAMP_IRQ : Z := 14.
Definition NSLU2_TIMER0_IRQ : Z := 5.
Definition OST_TS_ADDR : Z := 3355463680. (* 0xc8005000 *)

(** ** Registers *)
Definition set_TS v c := mkClock v (ts_elapse c) (OST_TIM0 c) (OST_TIM0_RL c) (OST_STS c)
                                 (ts_overflow c) (blocked_threads c).
Definition set_RL v c := mkClock (OST_TS c) (ts_elapse c) (OST_TIM0 c) v (OST_STS c)
                                 (ts_overflow c) (blocked_threads c).
Definition set_STS v c := mkClock (OST_TS c) (ts_elapse c) (OST_TIM0 c) (OST_TIM0_RL c) v
                                  (ts_overflow c) (blocked_threads c).
Definition set_overflow v c := mkClock (OST_TS c) (ts_elapse c) (OST_TIM0 c) (OST_TIM0_RL c)
                                       (OST_STS c) v (blocked_threads c).
Definition set_blocked v c := mkClock (OST_TS c) (ts_elapse c) (OST_TIM0 c) (OST_TIM0_RL c)
                                      (OST_STS c) (ts_overflow c) v.
(** [*OST_STS |= bit] *)
Definition or_STS (bit : Z) : M clock unit := modify (λ c, set_STS (Z.lor (OST_STS c) bit) c).

Definition isSentinel (bt : L4_ThreadId_t * Z) : bool := bool_decide (fst bt = L4_nilthread).

Definition start_timer : K Z :=
  on_clock (modify (set_blocked [(L4_nilthread, 0)]));;
  emit (L4_MapFpage L4_rootspace OST_TS_ADDR OST_TS_ADDR L4_ReadWriteOnly);;
  on_clock (or_STS CLEAR_ST);;
  on_clock (modify (set_TS 1));;
  on_clock (modify (set_overflow 0));;
  emit (L4_RegisterInterrupt NSLU2_TIMESTAMP_IRQ);;
  on_clock (or_STS CLEAR_TIM0);;
  emit (L4_RegisterInterrupt NSLU2_TIMER0_IRQ);;
  mret CLOCK_R_OK.

(** The node of the list comes from [malloc], whose result is not checked. *)
Definition register_timer (delay : Z) (client : L4_ThreadId_t) : K Z :=
  ts ← on_clock raw_time_stamp;
  let cs := NSLU2_US2TICKS delay in
  let cs := if decide (cs = 0) then 1 else cs in
  kmalloc_nocheck;;
  on_clock (modify (λ c, set_blocked ((client, u64 (ts + cs)) :: blocked_threads c) c));;
  p ← on_procs (process_lookup (L4_ThreadNo client));
  on_procs (process_set_state p PS_STATE_SLEEP);;
  c ← on_clock (gets (λ c, c));
  when (bool_decide (OST_TIM0 c = 0) || bool_decide (w32 (Z.shiftl (w32 cs) 2) < OST_TIM0 c))
    (on_clock (or_STS CLEAR_TIM0);;
     on_clock (modify (set_RL (Z.lor (w32 cs) ONESHOT_ENABLE))));;
  mret CLOCK_R_OK.

Definition stop_timer : K Z := mret CLOCK_R_OK.

Definition timestamp_irq : K Z :=
  on_clock (or_STS CLEAR_ST);;
  on_clock (modify (λ c, set_overflow (u64 (ts_overflow c + 1)) c));;
  mret 1.

(** The walk of [timer_irq] over the list, from the node it stands at to the
    end: the nodes that stay, and [delay] and [nextDelay] after it.  Deleting a
    node copies the next one over it, so a node without a successor cannot be
    deleted. *)
Fixpoint timer_loop (ts : Z) (bts : list (L4_ThreadId_t * Z)) (delay : bool) (nextDelay : Z)
    : K (list (L4_ThreadId_t * Z) * (bool * Z)) :=
  match bts with
  | [] => mret ([], (delay, nextDelay))
  | bt :: rest =>
      if isSentinel bt then mret (bts, (delay, nextDelay))
      else if decide (snd bt ≤ ts) then
        p ← on_procs (process_lookup (L4_ThreadNo (fst bt)));
        on_procs (process_set_state p PS_STATE_ALIVE);;
        syscall_reply (fst bt) 0;;
        match rest with
        | [] => fail NullDeref
        | _ => timer_loop ts rest delay nextDelay
        end
      else
        let d := w32 (snd bt - ts) in
        let sooner := bool_decide (d < nextDelay) in
        r ← timer_loop ts rest (sooner || delay) (if sooner then d else nextDelay);
        mret (bt :: fst r, snd r)
  end.
Definition timer_irq : K Z :=
  ts ← on_clock raw_time_stamp;
  bts ← on_clock (gets blocked_threads);
  cassert "blocked_threads != NULL" (bool_decide (bts ≠ []));;
  r ← timer_loop ts bts false (2 ^ 32 - 1);
  on_clock (modify (set_blocked (fst r)));;
  let delay := fst (snd r) in
  on_clock (or_STS CLEAR_TIM0);;
  ts2 ← on_clock raw_time_stamp;
  let nextDelay := w32 (snd (snd r) - u64 (ts2 - ts)) in
  let nextDelay := if decide (nextDelay ≤ 0) then 1 else nextDelay in
  on_clock (modify (set_RL (if (delay : bool) then Z.lor nextDelay ONESHOT_ENABLE else 0)));;
  mret 1.
End Clock.

(** ** What a timer interrupt does to the sleepers *)
Module ClockSpec.
Import Clock.

Definition entry_of (s : procs) (tid : L4_ThreadId_t) : ptr :=
  if decide (0 ≤ L4_ThreadNo tid) then default NULL (sosProcs s !! Z.to_nat (L4_ThreadNo tid))
  else NULL.
(** A sleeper whose process is still there. *)
Definition present (s : procs) (bt : L4_ThreadId_t * Z) : Prop :=
  ∃ l x, entry_of s (fst bt) = Some l ∧ pcbs s !! l = Some x.
Definition alive (x : Process) : Process := upd_info (set_state PS_STATE_ALIVE) x.
Definition wake (s : procs) (bt : L4_ThreadId_t * Z) : procs :=
  match entry_of s (fst bt) with Some l => upd_pcb l alive s | None => s end.
Definition wake_events (s : procs) (bt : L4_ThreadId_t * Z) : list event :=
  match entry_of s (fst bt) ≫= λ l, pcbs s !! l with
  | Some x => reply_events (fst bt) [0] (info (alive x))
  | None => []
  end.
Definition wake1 (k : kstate) (bt : L4_ThreadId_t * Z) : kstate :=
  klog_app (wake_events (k_procs k) bt) (set_procs (wake (k_procs k) bt) k).

Definition due (ts : Z) (bt : L4_ThreadId_t * Z) : Prop := snd bt ≤ ts.
#[global] Instance due_dec ts bt : Decision (due ts bt).
Proof. unfold due. apply _. Defined.
(** The delay the walk settles on, for the sleepers that are not due. *)
Definition soonest (ts : Z) : bool * Z → L4_ThreadId_t * Z → bool * Z := λ a bt,
  let d := w32 (snd bt - ts) in
  if decide (d < snd a) then (true, d) else a.

Lemma entry_lookup s tid l :
  entry_of s tid = Some l → process_lookup (L4_ThreadNo tid) s = Ok (Some l) s.
Proof.
  unfold entry_of. case_decide as Hd; [|done]. intros H. unfold process_lookup.
  rewrite (bind_ok _ _ s (sosProcs s) s) by done.
  destruct (sosProcs s !! _) as [p|] eqn:Hp; simpl in H; [subst|done]. by apply arr_get_ok.
Qed.
Lemma entry_of_wake s bt tid : entry_of (wake s bt) tid = entry_of s tid.
Proof. unfold wake. by destruct (entry_of s (fst bt)). Qed.
Lemma wake_pcb s bt l :
  pcbs (wake s bt) !! l =
  if decide (entry_of s (fst bt) = Some l) then alive <$> pcbs s !! l else pcbs s !! l.
Proof.
  unfold wake. destruct (entry_of s (fst bt)) as [m|]; simpl.
  - rewrite lookup_alter. repeat case_decide; naive_solver.
  - done.
Qed.
Lemma present_wake s bt bt' : present s bt' → present (wake s bt) bt'.
Proof.
  intros (l & x & H1 & H2). exists l. rewrite entry_of_wake, wake_pcb, H2. case_decide; eauto.
Qed.
Lemma wake_events_wake s bt bt' : wake_events (wake s bt) bt' = wake_events s bt'.
Proof.
  unfold wake_events. rewrite entry_of_wake. destruct (entry_of s (fst bt')) as [l|]; [|done].
  simpl. rewrite wake_pcb. case_decide; [|done]. by destruct (pcbs s !! l).
Qed.

Lemma wake_run k bt :
  present (k_procs k) bt →
  (p ← on_procs (process_lookup (L4_ThreadNo (fst bt)));
   on_procs (process_set_state p PS_STATE_ALIVE);; syscall_reply (fst bt) 0) k =
  Ok tt (wake1 k bt).
Proof.
  intros (l & x & Hl & Hx).
  rewrite (bind_ok _ _ k (Some l) k) by (by apply on_procs_id, entry_lookup).
  unfold process_set_state. rewrite (bind_ok _ _ _ _ _ (on_procs_run _ k _ _ (pcb_upd_run _ _ _ _ Hx))).
  unfold syscall_reply. rewrite (reply_some _ _ l (alive x)).
  - unfold wake1, wake, wake_events. by rewrite Hl; simpl; rewrite Hx.
  - apply entry_lookup. simpl. by rewrite <- Hl.
  - by apply upd_pcb_lookup.
Qed.

Lemma timer_loop_run ts sl z d nd k :
  isSentinel z = true → (∀ bt, bt ∈ sl → isSentinel bt = false) →
  (∀ bt, bt ∈ sl → due ts bt → present (k_procs k) bt) →
  timer_loop ts (sl ++ [z]) d nd k =
  Ok (filter (λ bt, ¬ due ts bt) sl ++ [z], foldl (soonest ts) (d, nd) (filter (λ bt, ¬ due ts bt) sl))
     (foldl wake1 k (filter (due ts) sl)).
Proof.
  intros Hz. revert d nd k. induction sl as [|bt sl IH]; intros d nd k Hs Hp.
  { cbn [app timer_loop]. by rewrite Hz. }
  cbn [app timer_loop]. rewrite (Hs bt) by set_solver.
  case_decide as Hd; change (snd bt ≤ ts) with (due ts bt) in Hd.
  - rewrite (filter_cons_True (due ts)) by done.
    rewrite (filter_cons_False (λ b, ¬ due ts b)) by (intros H; by apply H).
    assert (∀ A (m : K A), match sl ++ [z] with [] => fail NullDeref | _ => m end = m) as Hne by (by destruct sl).
    pose proof (wake_run k bt (Hp bt ltac:(set_solver) Hd)) as Hw.
    apply bind_inv in Hw as (p & k1 & H1 & Hw). apply bind_inv in Hw as ([] & k2 & H2 & H3).
    rewrite (bind_ok _ _ _ _ _ H1), (bind_ok _ _ _ _ _ H2), (bind_ok _ _ _ _ _ H3), Hne.
    rewrite IH; [done|set_solver|]. intros bt' Hb Hdue. apply present_wake, Hp; [set_solver|done].
  - rewrite (filter_cons_True (λ b, ¬ due ts b)) by done. rewrite (filter_cons_False (due ts)) by done.
    set (a := soonest ts (d, nd) bt).
    assert ((bool_decide (w32 (snd bt - ts) < nd) || d,
             if bool_decide (w32 (snd bt - ts) < nd) then w32 (snd bt - ts) else nd)
            = a) as E.
    { unfold a, soonest. simpl. case_bool_decide; case_decide; done. }
    destruct a as [d' nd'] eqn:Ha. injection E as E1 E2. cbv zeta. rewrite E1, E2. erewrite bind_ok.
    2: { rewrite IH; [reflexivity|set_solver|]. intros bt' Hb Hdue. apply Hp; [set_solver|done]. }
    simpl. fold a. by rewrite Ha.
Qed.

(** The state after waking a list of sleepers. *)
Lemma woken_log ws k : klog (foldl wake1 k ws) = klog k ++ concat (wake_events (k_procs k) <$> ws).
Proof.
  revert k. induction ws as [|bt ws IH]; intros k; [by rewrite app_nil_r|].
  cbn [foldl fmap list_fmap concat]. rewrite IH.
  change (klog (wake1 k bt)) with (klog k ++ wake_events (k_procs k) bt). rewrite <- app_assoc.
  do 3 f_equal. apply list_fmap_ext. intros. apply wake_events_wake.
Qed.
Lemma woken_entry ws k tid :
  entry_of (k_procs (foldl wake1 k ws)) tid = entry_of (k_procs k) tid.
Proof. revert k. induction ws as [|bt ws IH]; intros k; [done|]. simpl. rewrite IH. apply entry_of_wake. Qed.
Lemma woken_other ws k l :
  (∀ bt, bt ∈ ws → entry_of (k_procs k) (fst bt) ≠ Some l) →
  pcbs (k_procs (foldl wake1 k ws)) !! l = pcbs (k_procs k) !! l.
Proof.
  revert k. induction ws as [|bt ws IH]; intros k H; [done|]. simpl.
  rewrite IH; simpl.
  - rewrite wake_pcb, decide_False; [done|]. apply H. set_solver.
  - intros bt' Hb. rewrite entry_of_wake. apply H. set_solver.
Qed.
Lemma woken_state ws k l x :
  (∃ bt, bt ∈ ws ∧ entry_of (k_procs k) (fst bt) = Some l) →
  pcbs (k_procs k) !! l = Some x →
  pcbs (k_procs (foldl wake1 k ws)) !! l = Some (alive x).
Proof.
  revert k x. induction ws as [|bt ws IH]; intros k x (b & Hb & He) Hx; [set_solver|]. simpl.
  destruct (decide (entry_of (k_procs k) (fst bt) = Some l)) as [Hl|Hl].
  - destruct (decide (Exists (λ b, entry_of (k_procs k) (fst b) = Some l) ws)) as [Hi|Hi].
    + rewrite (IH _ (alive x)); [done| |by simpl; rewrite wake_pcb, Hx, decide_True].
      apply Exists_exists in Hi as (b' & ? & ?). exists b'. simpl. by rewrite entry_of_wake.
    + rewrite woken_other; simpl; [by rewrite wake_pcb, Hx, decide_True|].
      intros b' Hb'. rewrite entry_of_wake. intros ?. apply Hi, Exists_exists. eauto.
  - apply IH; simpl; [|by rewrite wake_pcb, Hx, decide_False].
    exists b. rewrite entry_of_wake. split; [|done]. set_solver.
Qed.
Lemma soonest_true ts a bts : fst a = true → fst (foldl (soonest ts) a bts) = true.
Proof.
  revert a. induction bts as [|bt bts IH]; intros a H; [done|]. simpl. apply IH.
  unfold soonest. by case_decide.
Qed.
Lemma soonest_set ts bts :
  (∀ bt, bt ∈ bts → 0 < snd bt - ts < 2 ^ 32 - 1) → bts ≠ [] →
  fst (foldl (soonest ts) (false, 2 ^ 32 - 1) bts) = true.
Proof.
  intros H Hne. destruct bts as [|bt bts]; [done|]. simpl foldl. apply soonest_true.
  specialize (H bt ltac:(set_solver)). unfold soonest. cbn [snd].
  rewrite w32_small by (unfold is_word; lia). by rewrite decide_True by lia.
Qed.

(** The clock after a read of the timestamp register. *)
Definition ticked (c : clock) : clock :=
  match ts_elapse c with
  | [] => c
  | d :: ds => mkClock (w32 (OST_TS c + d)) ds (OST_TIM0 c) (OST_TIM0_RL c) (OST_STS c)
                       (ts_overflow c) (blocked_threads c)
  end.
Lemma ticked_blocked c : blocked_threads (ticked c) = blocked_threads c.
Proof. unfold ticked. by destruct (ts_elapse c). Qed.
Lemma raw_ok c :
  raw_time_stamp c = Ok (u64 (OST_TS c + u64 (Z.shiftl (ts_overflow c) 32))) (ticked c).
Proof.
  unfold raw_time_stamp, mbind, M_bind, gets, read_OST_TS, ticked. by destruct (ts_elapse c).
Qed.
Lemma on_clock_run {A} (m : M clock A) k a s :
  m (k_clock k) = Ok a s → on_clock m k = Ok a (set_clock s k).
Proof. intros H. unfold on_clock. by rewrite (zoom_ok _ _ _ _ _ _ H). Qed.
(** The time in ticks that [timer_irq] sees. *)
Definition now (k : kstate) : Z :=
  u64 (OST_TS (k_clock k) + u64 (Z.shiftl (ts_overflow (k_clock k)) 32)).
Definition sentinel : L4_ThreadId_t * Z := (L4_nilthread, 0).

Record irq_done (sl : list (L4_ThreadId_t * Z)) (k k' : kstate) : Prop := {
  done_list : blocked_threads (k_clock k') = filter (λ bt, ¬ due (now k) bt) sl ++ [sentinel];
  done_log : klog k' = klog k ++ concat (wake_events (k_procs k) <$> filter (due (now k)) sl);
  done_alive : ∀ bt l x, bt ∈ sl → due (now k) bt → entry_of (k_procs k) (fst bt) = Some l →
    pcbs (k_procs k) !! l = Some x → pcbs (k_procs k') !! l = Some (alive x);
  done_others : ∀ l, (∀ bt, bt ∈ sl → due (now k) bt → entry_of (k_procs k) (fst bt) ≠ Some l) →
    pcbs (k_procs k') !! l = pcbs (k_procs k) !! l;
  done_armed : (∀ bt, bt ∈ sl → snd bt - now k < 2 ^ 32 - 1) →
    OST_TIM0_RL (k_clock k') = 0 ↔ filter (λ bt, ¬ due (now k) bt) sl = []
}.

Lemma lor_oneshot n : Z.lor n ONESHOT_ENABLE ≠ 0.
Proof. intros [_ H]%Z.lor_eq_0_iff. done. Qed.

Lemma timer_irq_done k sl :
  blocked_threads (k_clock k) = sl ++ [sentinel] →
  (∀ bt, bt ∈ sl → fst bt ≠ L4_nilthread) →
  (∀ bt, bt ∈ sl → due (now k) bt → present (k_procs k) bt) →
  wp timer_irq (λ r k', r = 1 ∧ irq_done sl k k') k.
Proof.
  intros Hb Hs Hp. unfold wp, timer_irq.
  rewrite (bind_ok _ _ k (now k) _ (on_clock_run _ _ _ _ (raw_ok (k_clock k)))).
  set (k1 := set_clock (ticked (k_clock k)) k).
  assert (blocked_threads (k_clock k1) = sl ++ [sentinel]) as Hb1.
  { rewrite <- Hb. apply ticked_blocked. }
  rewrite (bind_ok _ _ k1 (sl ++ [sentinel]) k1) by (simpl; unfold on_clock, zoom, gets; by rewrite <- Hb1).
  rewrite (bind_ok _ _ k1 tt k1) by (unfold cassert; rewrite bool_decide_true; [done|by destruct sl]).
  rewrite (bind_ok _ _ _ _ _ (timer_loop_run (now k) sl sentinel false (2 ^ 32 - 1) k1 eq_refl
             (λ bt H, bool_decide_eq_false_2 _ (Hs bt H)) Hp)).
  set (k2 := foldl wake1 k1 _). set (nd := foldl _ _ _).
  do 2 (erewrite bind_ok by (apply on_clock_run; reflexivity)).
  erewrite bind_ok by (apply on_clock_run, raw_ok).
  set (n' := if decide _ then 1 else _).
  split; [done|]. split.
  - apply ticked_blocked.
  - transitivity (klog k2); [done|]. unfold k2. by rewrite woken_log.
  - intros bt l x Hin Hd He Hx. apply (woken_state (filter (due (now k)) sl) k1 l x); [|done].
    exists bt. by rewrite list_elem_of_filter.
  - intros l Hl. apply (woken_other (filter (due (now k)) sl) k1 l).
    intros bt [Hd Hin]%list_elem_of_filter. by apply Hl.
  - intros Hsoon. cbn [k_clock set_clock set_RL OST_TIM0_RL fst snd]. destruct (fst nd) eqn:Hnd.
    + split; [by intros ?%lor_oneshot|]. intros E. unfold nd in Hnd. by rewrite E in Hnd.
    + split; [|done]. intros _. destruct (decide (filter (λ bt, ¬ due (now k) bt) sl = [])) as [|Hne]; [done|].
      unfold nd in Hnd. rewrite soonest_set in Hnd; [done| |done].
      intros bt [Hd Hin]%list_elem_of_filter. unfold due in Hd. specialize (Hsoon bt Hin). lia.
Qed.
End ClockSpec.

Module ClockClaims.
Import Clock ClockSpec.

(** C29: on a timer interrupt, when the processes of all the threads whose time
    has come still exist, exactly those threads are taken off the list, in any
    position, and the others stay in order; each woken process becomes alive and
    is sent one reply, in list order, no other process changes, and, if every
    remaining delay is below 2^32 - 1 ticks, the timer is armed again exactly
    when somebody still sleeps.  (With a sleeper whose process is gone the
    handler faults: [timer_irq_dead_sleeper_faults].) *)
Theorem timer_irq_wakes_due k sl :
  blocked_threads (k_clock k) = sl ++ [sentinel] →
  (∀ bt, bt ∈ sl → fst bt ≠ L4_nilthread) →
  (∀ bt, bt ∈ sl → due (now k) bt → present (k_procs k) bt) →
  wp timer_irq (λ r k', r = 1 ∧ irq_done sl k k') k.
Proof. apply timer_irq_done. Qed.

Definition sleepy (s : procs) (bts : list (L4_ThreadId_t * Z)) : kstate :=
  set_clock (mkClock 100 [7; 9] 0 0 0 0 bts) (ProcessClaims.kboot s).
Definition demo_sleepers : list (L4_ThreadId_t * Z) :=
  [(L4_GlobalId 9 1, 200); (L4_GlobalId 5 1, 60)].
Lemma timer_irq_wakes_due_witness :
  wp timer_irq (λ r k', r = 1 ∧
    blocked_threads (k_clock k') = [(L4_GlobalId 9 1, 200); sentinel] ∧
    OST_TIM0_RL (k_clock k') ≠ 0 ∧
    klog k' = klog (sleepy ReplyClaims.alive_procs (demo_sleepers ++ [sentinel])) ++
      [L4_CacheFlushAll; L4_Ipc (L4_GlobalId 5 1) SOS_REPLY SOS_IPC_REPLY [0]])
    (sleepy ReplyClaims.alive_procs (demo_sleepers ++ [sentinel])).
Proof.
  eapply wp_mono.
  - apply (timer_irq_wakes_due _ demo_sleepers).
    + reflexivity.
    + apply Forall_forall. apply (bool_decide_unpack _). vm_compute. exact I.
    + assert (Forall (λ bt, due 100 bt → bt = (L4_GlobalId 5 1, 60)) demo_sleepers) as HF.
      { repeat constructor. intros H. by vm_compute in H. }
      intros bt Hbt Hd. rewrite Forall_forall in HF. rewrite (HF bt Hbt Hd).
      exists 2%positive, ReplyClaims.alive_proc. split; vm_compute; reflexivity.
  - intros r k' [-> [H1 H2 _ _ H5]]. split; [done|]. split; [exact H1|]. split.
    + rewrite H5; [by vm_compute|].
      apply Forall_forall. apply (bool_decide_unpack _). vm_compute. exact I.
    + rewrite H2. vm_compute. reflexivity.
Defined.

(** A thread whose process was deleted while it slept is still on the
    list, and when its time comes the interrupt handler of the root server
    dereferences the NULL entry of the process table. *)
Theorem timer_irq_dead_sleeper_faults k bt rest :
  blocked_threads (k_clock k) = bt :: rest → fst bt ≠ L4_nilthread → due (now k) bt →
  process_lookup (L4_ThreadNo (fst bt)) (k_procs k) = Ok NULL (k_procs k) →
  timer_irq k = Err NullDeref.
Proof.
  intros Hb Hs Hd Hl. unfold timer_irq.
  rewrite (bind_ok _ _ k (now k) _ (on_clock_run _ _ _ _ (raw_ok (k_clock k)))).
  set (k1 := set_clock (ticked (k_clock k)) k).
  assert (blocked_threads (k_clock k1) = bt :: rest) as Hb1.
  { rewrite <- Hb. apply ticked_blocked. }
  rewrite (bind_ok _ _ k1 (bt :: rest) k1) by (simpl; unfold on_clock, zoom, gets; by rewrite <- Hb1).
  rewrite (bind_ok _ _ k1 tt k1) by done. apply bind_err. cbn [timer_loop].
  unfold isSentinel. rewrite bool_decide_false by done. rewrite decide_True by done.
  rewrite (bind_ok _ _ k1 NULL k1) by (by apply on_procs_id). by apply bind_err.
Qed.
Lemma timer_irq_dead_sleeper_faults_witness :
  timer_irq (sleepy ReplyClaims.alive_procs [(L4_GlobalId 9 1, 50); sentinel]) = Err NullDeref.
Proof.
  apply (timer_irq_dead_sleeper_faults _ (L4_GlobalId 9 1, 50) [sentinel]);
    [reflexivity|done|by vm_compute|reflexivity].
Defined.
End ClockClaims.
