(* ===== verification/Vfs.v ===== *)
(** * The file system calls ([sos/vfs.c])

    Opening, closing, reading, writing and the other file operations, which
    check descriptors and permissions and dispatch to the console or to NFS. *)
From S2P Require Import Prelude Machine ListC Frames Swapfile State Pagetable Process Reply VfsCore.
From S2P Require Import Console Nfsfs.
Import Process ProcessInv Reply VfsCore Console Nfsfs.

Module Vfs.
Definition vfs_init (nfsfs_timeout_thread : Z) : K unit :=
  g ← on_vfs (gets GlobalVNodes);
  v ← console_init g;
  on_vfs (set_global v);;
  nfsfs_init nfsfs_timeout_thread.

Definition vfs_open (pid : Z) (p0 : cstr) (mode rd wr : Z) : K unit :=
  p ← on_procs (process_lookup pid);
  if decide (p = NULL) then mret tt
  else
    r ← on_procs (findNextFd p true);
    if negb (snd r) then reply_to p SOS_VFS_NOMORE
    else if decide (MAX_FILE_NAME ≤ length p0) then reply_to p SOS_VFS_PATHINV
    else if negb (has mode FM_READ) && negb (has mode FM_WRITE) then reply_to p SOS_VFS_BADMODE
    else
      path ← (if decide (p0 = STDIN_FN) then
                fi ← on_procs (process_get_stdin p); mret (default p0 fi)
              else mret p0);
      vnode ← on_vfs (find_vnode path);
      if decide (vnode = NULL) then
        vnode ← new_vnode;
        if decide (vnode = NULL) then vfs_open_done pid vnode mode SOS_VFS_NOMEM
        else
          on_vfs (vn_upd vnode (set_limits rd wr));;
          rv ← on_vfs (increase_refs vnode mode);
          when (negb (rv =? SOS_VFS_OK))
            (on_vfs (free_vnode vnode);; reply_to p SOS_VFS_ERROR);;
          on_vfs (vn_upd vnode (set_readers 0));;
          on_vfs (vn_upd vnode (set_writers 0));;
          nfsfs_open pid vnode path mode;;
          on_vfs (add_vnode vnode)
      else if decide (rd = FM_UNLIMITED_RW ∧ wr = FM_UNLIMITED_RW)
      then vfs_open_done pid vnode mode SOS_VFS_OK
      else reply_to p SOS_VFS_OPEN.

Definition vnode_close (pid : Z) (v : ptr) : K unit :=
  x ← on_vfs (vn_get v);
  match vops x with
  | FsNone => fail NullDeref
  | FsConsole => console_close pid v
  | FsNfs => nfsfs_close pid v
  end.

Definition vfs_close (pid file : Z) : K unit :=
  r ← get_vfile pid file false;
  match r with
  | None => mret tt
  | Some vf =>
      p ← on_procs (process_lookup pid);
      on_procs (fd_set p file VFS_NIL_FILE);;
      f ← on_procs (vf_get vf);
      let mode := fmode f in
      let v := vnode f in
      on_procs (vf_upd vf (λ f, set_ref (w32 (ref f - 1)) f));;
      f ← on_procs (vf_get vf);
      when (ref f =? 0)
        (on_procs (vf_upd vf (λ f, mkVFile NULL 0 0 (ref f)));;
         on_vfs (decrease_refs v mode);; mret tt);;
      x ← on_vfs (vn_get v);
      if (readers x =? 0) && (writers x =? 0) then vnode_close pid v
      else reply_pid pid SOS_VFS_OK
  end.

Definition vfs_read (pid file buf nbyte : Z) : K unit :=
  r ← get_vfile pid file true;
  match r with
  | None => mret tt
  | Some vf =>
      f ← on_procs (vf_get vf);
      if negb (has (fmode f) FM_READ) then reply_pid pid SOS_VFS_PERM
      else
        let nbyte := if decide (IO_MAX_BUFFER < nbyte) then IO_MAX_BUFFER else nbyte in
        x ← on_vfs (vn_get (vnode f));
        match vops x with
        | FsNone => fail NullDeref
        | FsConsole => console_read pid (vnode f) file buf nbyte
        | FsNfs => nfsfs_read pid (vnode f) file (fp f) buf nbyte
        end
  end.

Definition vfs_write (pid file buf nbyte : Z) : K unit :=
  r ← get_vfile pid file true;
  match r with
  | None => mret tt
  | Some vf =>
      f ← on_procs (vf_get vf);
      if negb (has (fmode f) FM_WRITE) then reply_pid pid SOS_VFS_PERM
      else
        let nbyte := if decide (IO_MAX_BUFFER < nbyte) then IO_MAX_BUFFER else nbyte in
        x ← on_vfs (vn_get (vnode f));
        match vops x with
        | FsNone => fail NullDeref
        | FsConsole => console_write pid (vnode f) file buf nbyte
        | FsNfs => nfsfs_write pid (vnode f) file (fp f) buf nbyte
        end
  end.

Definition vfs_flush (pid file : Z) : K unit :=
  r ← get_vfile pid file false;
  match r with
  | None => mret tt
  | Some vf =>
      f ← on_procs (vf_get vf);
      x ← on_vfs (vn_get (vnode f));
      match vops x with
      | FsNone => fail NullDeref
      | FsConsole => console_flush pid (vnode f)
      | FsNfs => nfsfs_flush pid
      end
  end.

Definition vfs_lseek (pid file pos whence : Z) : K unit :=
  r ← get_vfile pid file true;
  match r with
  | None => mret tt
  | Some vf =>
      f ← on_procs (vf_get vf);
      (if decide (whence = SEEK_SET) then on_procs (vf_upd vf (set_fp (w32 pos)))
       else if decide (whence = SEEK_CUR) then on_procs (vf_upd vf (λ f, set_fp (w32 (fp f + pos)) f))
       else if decide (whence = SEEK_END) then
         x ← on_vfs (vn_get (vnode f));
         on_procs (vf_upd vf (set_fp (w32 (st_size (vstat x) - pos))))
       else mret tt);;
      reply_pid pid SOS_VFS_OK
  end.

(** ** Directories *)
(** The walk over the special files: the path of the [pos]-th one, or how many
    there are. *)
Fixpoint special_files (fuel : nat) (pos pos2 : Z) (v : ptr) : M vfs (cstr + Z) :=
  match fuel with
  | O => fail OutOfFuel
  | S fuel' =>
      if decide (v = NULL) then mret (inr pos2)
      else
        x ← vn_get v;
        if decide (st_type (vstat x) = ST_SPECIAL) then
          if decide (pos = pos2) then mret (inl (path x))
          else special_files fuel' pos (pos2 + 1) (vnext x)
        else special_files fuel' pos pos2 (vnext x)
  end.
Definition vfs_getdirent (pid pos name nbyte : Z) : K unit :=
  if bool_decide (pos < 0) || bool_decide (nbyte ≤ 0) then reply_pid pid SOS_VFS_ERROR
  else
    fuel ← on_vfs (gets vnode_fuel);
    g ← on_vfs (gets GlobalVNodes);
    r ← on_vfs (special_files fuel pos 0 g);
    match r with
    | inl p =>
        let nlen := Z.of_nat (length (strncpy_path p)) in
        if decide (nlen < nbyte) then
          b ← get_cbuf;
          put_cbuf (store8 (write_bytes b name (strncpy_path p)) (name + nlen) 0);;
          reply_pid pid nlen
        else reply_pid pid SOS_VFS_NOMEM
    | inr pos2 => nfsfs_getdirent pid NULL (pos - pos2) name nbyte
    end.

Definition vfs_stat `{StatLayout} (pid p buf : Z) : K unit :=
  b ← get_cbuf;
  v ← on_vfs (find_vnode (cbuf_str b p));
  if decide (v ≠ NULL) then
    x ← on_vfs (vn_get v);
    match vops x with
    | FsNone => fail NullDeref
    | FsConsole => console_stat pid v buf
    | FsNfs => nfsfs_stat pid v p buf
    end
  else nfsfs_stat pid NULL p buf.

Definition vfs_remove (pid p : Z) : K unit :=
  b ← get_cbuf;
  v ← on_vfs (find_vnode (cbuf_str b p));
  if decide (v ≠ NULL) then
    x ← on_vfs (vn_get v);
    if negb (has (st_fmode (vstat x)) FM_WRITE) then reply_pid pid SOS_VFS_PERM
    else
      match vops x with
      | FsNone => fail NullDeref
      | FsConsole => console_remove pid
      | FsNfs => nfsfs_remove pid v p
      end
  else nfsfs_remove pid NULL p.

(** ** Duplicating a descriptor *)
Definition vfs_dup (pid forig fdup : Z) : K unit :=
  r ← get_vfile pid forig true;
  match r with
  | None => mret tt
  | Some vf =>
      p ← on_procs (process_lookup pid);
      if (bool_decide (fdup < 0) || bool_decide (PROCESS_MAX_FDS ≤ fdup))
         && negb (fdup =? VFS_NIL_FILE)
      then reply_to p SOS_VFS_NOFILE
      else
        fdup ← (if decide (fdup = VFS_NIL_FILE) then
                  x ← on_procs (pcb_get p);
                  let i := index_where (λ fd, fd =? VFS_NIL_FILE) (fds x) in
                  (if decide (i ≠ VFS_NIL_FILE) then
                     o ← on_procs (fd_get p forig); on_procs (fd_set p i o)
                   else mret tt);;
                  mret i
                else
                  dvf ← get_vfile pid fdup false;
                  (match dvf with
                   | Some _ =>
                       oldfilt ← on_procs (process_set_ipcfilt p PS_IPC_NONE);
                       vfs_close pid fdup;;
                       on_procs (process_set_ipcfilt p oldfilt);; mret tt
                   | None => mret tt
                   end);;
                  o ← on_procs (fd_get p forig);
                  on_procs (fd_set p fdup o);;
                  mret fdup);
        if decide (fdup = VFS_NIL_FILE) then reply_to p SOS_VFS_NOMORE
        else
          on_procs (vf_upd vf (λ f, set_ref (w32 (ref f + 1)) f));;
          reply_to p fdup
  end.
End Vfs.

(** ** Descriptors that are closed and duplicated *)
Module FdOps.
Import Vfs FdTable OpenDone VnodeRefs.

(** Descriptor [file] of the process leads to entry [j], which holds [v]. *)
Record open_at (x : Process) (file j : Z) (v : VFile) : Prop := {
  at_file : 0 ≤ file < PROCESS_MAX_FDS;
  at_fd : fds x !! Z.to_nat file = Some j;
  at_j : 0 ≤ j;
  at_v : files x !! Z.to_nat j = Some v;
  at_open : vnode v ≠ NULL
}.
Lemma at_j_max x file j v : files_ok x → open_at x file j v → j < PROCESS_MAX_FILES.
Proof.
  intros Hok Ho. pose proof (lookup_lt_Some _ _ _ (at_v _ _ _ _ Ho)) as H.
  rewrite (files_len _ Hok) in H. unfold PROCESS_MAX_FILES in *. lia.
Qed.
Lemma at_ref x file j v : files_ok x → open_at x file j v → ref v = fd_count (fds x) j.
Proof.
  intros Hok Ho. rewrite (files_ref _ Hok (Z.to_nat j) v (at_v _ _ _ _ Ho) (at_open _ _ _ _ Ho)).
  f_equal. pose proof (at_j _ _ _ _ Ho). lia.
Qed.
Lemma fd_count_max t j : fd_count t j ≤ length t.
Proof. unfold fd_count. pose proof (length_filter (λ fd, fd = j) t). lia. Qed.

Lemma vf_get_run s l x j v :
  pcbs s !! l = Some x → 0 ≤ j → files x !! Z.to_nat j = Some v → vf_get (Some l, j) s = Ok v s.
Proof.
  intros Hx Hj Hv. unfold vf_get. rewrite (bind_ok _ _ _ _ _ (pcb_get_run _ _ _ Hx)).
  by apply arr_get_ok.
Qed.
Lemma fd_get_run s l x i v :
  pcbs s !! l = Some x → 0 ≤ i → fds x !! Z.to_nat i = Some v → fd_get (Some l) i s = Ok v s.
Proof.
  intros Hx Hj Hv. unfold fd_get. rewrite (bind_ok _ _ _ _ _ (pcb_get_run _ _ _ Hx)).
  by apply arr_get_ok.
Qed.
Lemma get_vfile_run k pid_ lp x file j v ipc :
  registered_as (k_procs k) pid_ lp x → files_ok x → open_at x file j v →
  get_vfile pid_ file ipc k = Ok (Some (Some lp, j)) k.
Proof.
  intros (Hl & Hx & Hp) Hok Ho. pose proof (at_j_max _ _ _ _ Hok Ho). destruct Ho as [H1 H2 H3 H4 H5].
  unfold get_vfile. rewrite (bind_ok _ _ k (Some lp) k) by (by apply on_procs_id).
  rewrite decide_False by done. rewrite !(bool_decide_eq_false_2 _) by lia. cbn [orb].
  rewrite (bind_ok _ _ k j k) by (apply on_procs_id; by eapply fd_get_run; [done|lia|]).
  rewrite !(bool_decide_eq_false_2 _) by lia. cbn [orb].
  rewrite (bind_ok _ _ k v k) by (by apply on_procs_id; eapply vf_get_run).
  by rewrite decide_False.
Qed.

Lemma get_vfile_free k pid_ lp x file :
  registered_as (k_procs k) pid_ lp x → 0 ≤ file < PROCESS_MAX_FDS →
  fds x !! Z.to_nat file = Some VFS_NIL_FILE → get_vfile pid_ file false k = Ok None k.
Proof.
  intros (Hl & Hx & Hp) H1 H2.
  unfold get_vfile. rewrite (bind_ok _ _ k (Some lp) k) by (by apply on_procs_id).
  rewrite decide_False by done. rewrite !(bool_decide_eq_false_2 _) by lia. cbn [orb].
  by rewrite (bind_ok _ _ k VFS_NIL_FILE k) by (apply on_procs_id; by eapply fd_get_run; [done|lia|]).
Qed.

(** *** Closing *)
Definition unref (v : VFile) : VFile :=
  if ref v =? 1 then mkVFile NULL 0 0 0 else set_ref (ref v - 1) v.
Definition closed (file j : Z) (v : VFile) (x : Process) : Process :=
  set_fds (<[Z.to_nat file := VFS_NIL_FILE]> (fds x))
    (set_files (<[Z.to_nat j := unref v]> (files x)) x).

Lemma closed_ok x file j v : files_ok x → open_at x file j v → files_ok (closed file j v x).
Proof.
  intros Hok Ho. pose proof (at_ref _ _ _ _ Hok Ho) as Hr. pose proof Hok as [L1 L2 L3 L4].
  pose proof Ho as [H1 H2 H3 H4 H5].
  pose proof (λ n, fd_count_insert _ _ _ VFS_NIL_FILE n H2) as Hc.
  split; simpl; [by rewrite length_insert..| |].
  - intros fd Hin. destruct (decide (fd = VFS_NIL_FILE)) as [|Hne]; [by left|right].
    apply list_elem_of_lookup in Hin as [i Hi]. rewrite list_lookup_insert in Hi.
    case_decide as Hd; [by simplify_eq|].
    destruct (L3 fd) as [|(? & w & Hw & Hwn)]; [by eapply list_elem_of_lookup_2|done|].
    split; [done|]. destruct (decide (fd = j)) as [->|Hj].
    + exists (unref v). rewrite list_lookup_insert_eq by (by eapply lookup_lt_Some).
      split; [done|]. unfold unref. destruct (Z.eqb_spec (ref v) 1) as [E|]; [|done].
      exfalso. assert (1 ≤ fd_count (<[Z.to_nat file:=VFS_NIL_FILE]> (fds x)) j) as Hge.
      { apply (fd_count_pos _ i). rewrite list_lookup_insert_ne; [done|]. intros <-.
        apply Hd. split; [done|]. by eapply lookup_lt_Some. }
      rewrite Hc, (decide_True (P := j = j)), decide_False in Hge by done. lia.
    + exists w. rewrite list_lookup_insert_ne by lia. done.
  - intros i w Hw Hwn. rewrite Hc. rewrite (decide_False (P := VFS_NIL_FILE = Z.of_nat i)) by (unfold VFS_NIL_FILE; lia).
    rewrite list_lookup_insert in Hw. case_decide as Hd.
    + destruct Hd as [Hd _]. injection Hw as <-. rewrite decide_True by lia.
      revert Hwn. unfold unref. destruct (ref v =? 1); [done|]. intros _. simpl.
      replace (Z.of_nat i) with j by lia. lia.
    + rewrite (L4 i w) by done. case_decide as Hi; [|lia]. exfalso. apply Hd. split; [lia|].
      by eapply lookup_lt_Some.
Qed.

Lemma close_run k pid_ lp x file j v lv n :
  registered_as (k_procs k) pid_ lp x → files_ok x → open_at x file j v →
  vnode v = Some lv → vnodes (k_vfs k) !! lv = Some n →
  let n' := if ref v =? 1 then dec_refs (fmode v) n else n in
  let k' := set_procs (upd_pcb lp (λ _, closed file j v x) (k_procs k))
              (set_vfs (mkVfs (<[lv := n']> (vnodes (k_vfs k))) (GlobalVNodes (k_vfs k))) k) in
  vfs_close pid_ file k =
  (if (readers n' =? 0) && (writers n' =? 0) then vnode_close pid_ (Some lv) k'
   else reply_pid pid_ SOS_VFS_OK k').
Proof.
  intros Hreg Hok Ho Hlv Hn n' k'. pose proof Hreg as (Hl & Hx & Hp).
  pose proof (at_ref _ _ _ _ Hok Ho) as Hr. pose proof (fd_count_max (fds x) j) as Hm.
  rewrite (fds_len _ Hok) in Hm. pose proof (fd_count_pos _ _ _ (at_fd _ _ _ _ Ho)) as Hpos.
  change (Z.to_nat PROCESS_MAX_FDS) with 19%nat in Hm.
  assert (w32 (ref v - 1) = ref v - 1) as Hw by (apply w32_small; unfold is_word; lia).
  unfold vfs_close. rewrite (bind_ok _ _ _ _ _ (get_vfile_run _ _ _ _ _ _ _ _ Hreg Hok Ho)).
  destruct Ho as [H1 H2 H3 H4 H5].
  rewrite (bind_ok _ _ k (Some lp) k) by (by apply on_procs_id).
  rewrite (bind_ok _ _ _ _ _ (on_procs_run _ k _ _ (fd_set_run _ _ _ _ _ VFS_NIL_FILE Hx (proj1 H1) H2))).
  set (s1 := upd_pcb lp _ (k_procs k)). set (k1 := set_procs s1 k).
  assert (pcbs s1 !! lp = Some (set_fds (<[Z.to_nat file := VFS_NIL_FILE]> (fds x)) x)) as Hx1
    by (by apply upd_pcb_lookup).
  rewrite (bind_ok _ _ k1 v k1) by (by apply on_procs_id; eapply vf_get_run).
  rewrite (bind_ok _ _ _ _ _ (on_procs_run _ k1 _ _ (vf_upd_run s1 _ _ _ _ _ Hx1 H3 H4))).
  set (s2 := upd_pcb lp _ s1). set (k2 := set_procs s2 k1).
  assert (pcbs s2 !! lp = Some (set_files (<[Z.to_nat j := set_ref (w32 (ref v - 1)) v]> (files x))
     (set_fds (<[Z.to_nat file := VFS_NIL_FILE]> (fds x)) x))) as Hx2
    by (by apply (upd_pcb_lookup s1)).
  assert (∀ w, <[Z.to_nat j := w]> (files x) !! Z.to_nat j = Some w) as Hins.
  { intros w. apply list_lookup_insert_eq. by eapply lookup_lt_Some. }
  rewrite (bind_ok _ _ k2 (set_ref (w32 (ref v - 1)) v) k2)
    by (apply on_procs_id; eapply vf_get_run; [exact Hx2|done|apply Hins]).
  cbn [ref set_ref]. rewrite Hw, Hlv.
  assert (k_vfs k2 = k_vfs k) as Hv2 by done.
  destruct (Z.eqb_spec (ref v) 1) as [E|E].
  - rewrite (proj2 (Z.eqb_eq (ref v - 1) 0)) by lia. cbn [when].
    erewrite bind_ok; [|erewrite bind_ok by (apply on_procs_run; eapply vf_upd_run; [exact Hx2|done|apply Hins]);
       erewrite bind_ok by (apply on_vfs_run, decrease_refs_run; exact Hn); reflexivity].
    erewrite bind_ok; [|apply on_vfs_run, VnodeList.vn_get_ok; simpl; by rewrite lookup_insert_eq].
    replace (set_vfs _ _) with k'; [by destruct (_ && _)|].
    unfold k', set_procs, set_vfs. cbn [k_swap k_procs k_vfs k_nfs k_con k_pager k_clock]. f_equal.
    change (k_procs k2) with s2. unfold s2, s1. rewrite !upd_pcb_twice.
    apply (upd_pcb_ext _ _ x); [done|]. unfold closed, unref. rewrite (proj2 (Z.eqb_eq _ _) E). simpl. rewrite Hw, E.
    by rewrite list_insert_insert_eq.
  - rewrite (proj2 (Z.eqb_neq (ref v - 1) 0)) by lia. erewrite bind_ok by reflexivity.
    erewrite bind_ok; [|by apply on_vfs_run, VnodeList.vn_get_ok].
    replace (set_vfs _ _) with k'; [by subst n'; destruct (_ && _)|].
    unfold k', set_procs, set_vfs. cbn [k_swap k_procs k_vfs k_nfs k_con k_pager k_clock]. f_equal.
    + change (k_procs k2) with s2. unfold s2, s1. rewrite !upd_pcb_twice. apply (upd_pcb_ext _ _ x); [done|].
      unfold closed, unref. rewrite (proj2 (Z.eqb_neq _ _) E). simpl. by rewrite Hw.
    + subst n'. rewrite insert_id by done. by destruct (k_vfs k).
Qed.

(** *** Duplicating *)
Definition dupped (fdup j : Z) (v : VFile) (x : Process) : Process :=
  set_fds (<[Z.to_nat fdup := j]> (fds x))
    (set_files (<[Z.to_nat j := set_ref (ref v + 1) v]> (files x)) x).

Lemma dupped_ok x file j v fdup :
  files_ok x → open_at x file j v → 0 ≤ fdup → fds x !! Z.to_nat fdup = Some VFS_NIL_FILE →
  files_ok (dupped fdup j v x).
Proof.
  intros Hok Ho Hd Hfree. pose proof (at_ref _ _ _ _ Hok Ho) as Hr. pose proof Hok as [L1 L2 L3 L4].
  destruct Ho as [H1 H2 H3 H4 H5]. pose proof (λ n, fd_count_insert _ _ _ j n Hfree) as Hc.
  split; simpl; [by rewrite length_insert..| |].
  - intros fd Hin. apply list_elem_of_lookup in Hin as [i Hi]. rewrite list_lookup_insert in Hi.
    destruct (decide (fd = j)) as [->|Hj].
    + right. split; [done|]. exists (set_ref (ref v + 1) v).
      by rewrite list_lookup_insert_eq by (by eapply lookup_lt_Some).
    + case_decide; [by simplify_eq|].
      destruct (L3 fd) as [|(? & w & Hw & Hwn)]; [by eapply list_elem_of_lookup_2|by left|].
      right. split; [done|]. exists w. by rewrite list_lookup_insert_ne by lia.
  - intros i w Hw Hwn. rewrite Hc.
    rewrite (decide_False (P := VFS_NIL_FILE = Z.of_nat i)) by (unfold VFS_NIL_FILE; lia).
    rewrite list_lookup_insert in Hw. case_decide as Hi.
    + destruct Hi as [Hi _]. injection Hw as <-. rewrite decide_True by lia. simpl.
      replace (Z.of_nat i) with j by lia. lia.
    + rewrite (L4 i w) by done. case_decide as E; [|lia]. exfalso. apply Hi. split; [lia|].
      by eapply lookup_lt_Some.
Qed.

(** Both forms of the call end like this, once the descriptor is chosen. *)
Lemma dup_tail k pid_ lp x file j v fdup :
  registered_as (k_procs k) pid_ lp x → files_ok x → open_at x file j v →
  0 ≤ fdup → fds x !! Z.to_nat fdup = Some VFS_NIL_FILE →
  (on_procs (fd_set (Some lp) fdup j);;
   on_procs (vf_upd (Some lp, j) (λ f, set_ref (w32 (ref f + 1)) f));;
   reply_to (Some lp) fdup) k =
  Ok tt (klog_app (reply_events (L4_GlobalId pid_ 1) [fdup] (info x))
          (set_procs (upd_pcb lp (λ _, dupped fdup j v x) (k_procs k)) k)).
Proof.
  intros Hreg Hok Ho Hd Hfree. pose proof Hreg as (Hl & Hx & Hp).
  pose proof (at_ref _ _ _ _ Hok Ho) as Hr. pose proof (fd_count_max (fds x) j) as Hm.
  rewrite (fds_len _ Hok) in Hm. change (Z.to_nat PROCESS_MAX_FDS) with 19%nat in Hm.
  pose proof (fd_count_pos _ _ _ (at_fd _ _ _ _ Ho)) as Hpos. destruct Ho as [H1 H2 H3 H4 H5].
  assert (w32 (ref v + 1) = ref v + 1) as Hw by (apply w32_small; unfold is_word; lia).
  rewrite (bind_ok _ _ _ _ _ (on_procs_run _ k _ _ (fd_set_run _ _ _ _ _ j Hx Hd Hfree))).
  set (s1 := upd_pcb lp _ (k_procs k)). set (k1 := set_procs s1 k).
  assert (pcbs s1 !! lp = Some (set_fds (<[Z.to_nat fdup := j]> (fds x)) x)) as Hx1
    by (by apply upd_pcb_lookup).
  rewrite (bind_ok _ _ _ _ _ (on_procs_run _ k1 _ _ (vf_upd_run s1 _ _ _ _ _ Hx1 H3 H4))).
  set (s2 := upd_pcb lp _ s1).
  assert (s2 = upd_pcb lp (λ _, dupped fdup j v x) (k_procs k)) as ->.
  { unfold s2, s1. rewrite upd_pcb_twice. apply (upd_pcb_ext _ _ x); [done|].
    unfold dupped. simpl. by rewrite Hw. }
  rewrite (reply_to_run _ pid_ lp (dupped fdup j v x)); [done|].
  apply (registered_upd _ _ _ x (λ _, dupped fdup j v x)); done.
Qed.

Lemma dup_run k pid_ lp x file j v fdup target :
  registered_as (k_procs k) pid_ lp x → files_ok x → open_at x file j v →
  target = (if decide (fdup = VFS_NIL_FILE) then free_fd x else fdup) →
  0 ≤ target < PROCESS_MAX_FDS → fds x !! Z.to_nat target = Some VFS_NIL_FILE →
  vfs_dup pid_ file fdup k =
  Ok tt (klog_app (reply_events (L4_GlobalId pid_ 1) [target] (info x))
          (set_procs (upd_pcb lp (λ _, dupped target j v x) (k_procs k)) k)).
Proof.
  intros Hreg Hok Ho Ht Hrange Hfree. pose proof Hreg as (Hl & Hx & Hp).
  rewrite <- (dup_tail k pid_ lp x file j v target Hreg Hok Ho (proj1 Hrange) Hfree).
  unfold vfs_dup. rewrite (bind_ok _ _ _ _ _ (get_vfile_run _ _ _ _ _ _ _ _ Hreg Hok Ho)).
  rewrite (bind_ok _ _ k (Some lp) k) by (by apply on_procs_id).
  assert (on_procs (fd_get (Some lp) file) k = Ok j k) as Hg.
  { apply on_procs_id. destruct Ho. eapply fd_get_run; [done|lia|done]. }
  assert (target ≠ VFS_NIL_FILE) as Hne by (unfold VFS_NIL_FILE; lia).
  destruct (decide (fdup = VFS_NIL_FILE)) as [->|Hnil].
  - rewrite Z.eqb_refl, andb_false_r. unfold free_fd in Ht.
    erewrite bind_ok; [|erewrite bind_ok by (apply on_procs_id; by apply pcb_get_run); cbv zeta;
      rewrite <- Ht; rewrite (decide_True (P := target ≠ VFS_NIL_FILE)) by done; erewrite bind_ok by
       (erewrite bind_ok by exact Hg; apply on_procs_run; eapply fd_set_run; [done|lia|done]); reflexivity].
    rewrite decide_False by done.
    erewrite (bind_ok (on_procs (fd_set _ _ _))); [reflexivity|].
    apply on_procs_run; eapply fd_set_run; [done|lia|done].
  - subst target. rewrite !(bool_decide_eq_false_2 _) by lia. cbn [orb andb].
    erewrite bind_ok; [|rewrite (bind_ok _ _ _ _ _ (get_vfile_free _ _ _ _ _ Hreg Hrange Hfree));
      erewrite bind_ok by reflexivity; erewrite bind_ok by exact Hg;
      erewrite bind_ok by (apply on_procs_run; eapply fd_set_run; [done|lia|done]); reflexivity].
    rewrite decide_False by done.
    erewrite (bind_ok (on_procs (fd_set _ _ _))); [reflexivity|].
    apply on_procs_run; eapply fd_set_run; [done|lia|done].
Qed.
End FdOps.

Module VfsClaims.
Import Vfs FdTable FdOps OpenDone VnodeRefs VfsCoreClaims.

(** C27: closing an open descriptor frees it, gives up one reference of the
    open file, and, when that was the last one, frees the file's entry and
    counts the reader or writer out of the vnode; the tables stay consistent.
    The file system is asked to close the vnode exactly when no reader and no
    writer is left; otherwise the caller gets one success reply. *)
Theorem vfs_close_effect k pid_ lp x file j v lv n :
  registered_as (k_procs k) pid_ lp x → files_ok x → open_at x file j v →
  vnode v = Some lv → vnodes (k_vfs k) !! lv = Some n →
  let x' := closed file j v x in
  let n' := if ref v =? 1 then dec_refs (fmode v) n else n in
  let k' := set_procs (upd_pcb lp (λ _, x') (k_procs k))
              (set_vfs (mkVfs (<[lv := n']> (vnodes (k_vfs k))) (GlobalVNodes (k_vfs k))) k) in
  files_ok x' ∧
  vfs_close pid_ file k =
  (if (readers n' =? 0) && (writers n' =? 0) then vnode_close pid_ (Some lv) k'
   else Ok tt (klog_app (reply_events (L4_GlobalId pid_ 1) [SOS_VFS_OK] (info x)) k')).
Proof.
  intros Hreg Hok Ho Hlv Hn x' n' k'. split; [by apply closed_ok|].
  rewrite (close_run k pid_ lp x file j v lv n) by done.
  rewrite (reply_pid_run _ pid_ lp x'); [done|].
  by apply (registered_upd _ _ _ x (λ _, x')).
Qed.
(** Two descriptors of one open file, which another process has open too. *)
Definition two_fds : Process :=
  set_fds (<[1%nat := 0]> (<[0%nat := 0]> (fds ReplyClaims.alive_proc)))
    (set_files (<[0%nat := mkVFile (Some 3%positive) FM_READ 0 2]> (files ReplyClaims.alive_proc))
      ReplyClaims.alive_proc).
Definition vn2 : VNode := VfsCore.set_readers 2 (vn "a" NULL (Some 4%positive)).
Definition fd_state : kstate :=
  set_vfs (mkVfs (<[3%positive := vn2]> (vnodes demo_vfs)) (GlobalVNodes demo_vfs))
    (ProcessClaims.kboot (set_pcbs {[ 2%positive := two_fds ]} ReplyClaims.alive_procs)).
Lemma two_fds_ok : files_ok two_fds.
Proof.
  split; [reflexivity|reflexivity| |].
  - intros fd Hfd. assert (fd = VFS_NIL_FILE ∨ fd = 0) as [->| ->]; [|by left|].
    + assert (Forall (λ fd, fd = VFS_NIL_FILE ∨ fd = 0) (fds two_fds)) as HF.
      { apply (bool_decide_unpack _). vm_compute. exact I. }
      rewrite Forall_forall in HF. by apply HF.
    + right. split; [done|]. by eexists.
  - intros [|j] w Hw Hn; [by injection Hw as <-|]. exfalso. apply Hn.
    by apply lookup_replicate in Hw as [-> _].
Qed.
Lemma two_fds_open : open_at two_fds 1 0 (mkVFile (Some 3%positive) FM_READ 0 2).
Proof. by split. Qed.
Lemma two_fds_registered : registered_as (k_procs fd_state) 5 2 two_fds.
Proof. split; [vm_compute; reflexivity|]. split; reflexivity. Qed.
Lemma vfs_close_effect_witness :
  files_ok (closed 1 0 (mkVFile (Some 3%positive) FM_READ 0 2) two_fds) ∧
  ∃ k', vfs_close 5 1 fd_state =
    Ok tt (klog_app [L4_CacheFlushAll; L4_Ipc (L4_GlobalId 5 1) SOS_REPLY SOS_IPC_REPLY [0]] k').
Proof.
  destruct (vfs_close_effect fd_state 5 2 two_fds 1 0 (mkVFile (Some 3%positive) FM_READ 0 2) 3 vn2)
    as [H1 H2]; [apply two_fds_registered|apply two_fds_ok|apply two_fds_open|reflexivity..|].
  split; [exact H1|]. eexists. rewrite H2. reflexivity.
Defined.

(** Duplicating an open descriptor to a free one, given by the caller or
    the first free one, makes both lead to the same open file, counts one
    reference more, replies the new descriptor and changes nothing else; the
    tables stay consistent. *)
Theorem vfs_dup_effect k pid_ lp x file j v fdup target :
  registered_as (k_procs k) pid_ lp x → files_ok x → open_at x file j v →
  target = (if decide (fdup = VFS_NIL_FILE) then free_fd x else fdup) →
  0 ≤ target < PROCESS_MAX_FDS → fds x !! Z.to_nat target = Some VFS_NIL_FILE →
  let x' := dupped target j v x in
  files_ok x' ∧ open_at x' target j (set_ref (ref v + 1) v) ∧ open_at x' file j (set_ref (ref v + 1) v) ∧
  vfs_dup pid_ file fdup k =
  Ok tt (klog_app (reply_events (L4_GlobalId pid_ 1) [target] (info x))
          (set_procs (upd_pcb lp (λ _, x') (k_procs k)) k)).
Proof.
  intros Hreg Hok Ho Ht Hr Hf x'. split; [by apply (dupped_ok x file j v target Hok Ho (proj1 Hr))|].
  rewrite (dup_run k pid_ lp x file j v fdup target) by done.
  destruct Ho as [H1 H2 H3 H4 H5].
  assert (files x' !! Z.to_nat j = Some (set_ref (ref v + 1) v)) as Hj.
  { simpl. apply list_lookup_insert_eq. by eapply lookup_lt_Some. }
  split; [|split; [|done]]; split; try done; simpl.
  - apply list_lookup_insert_eq. exact (lookup_lt_Some _ _ _ Hf).
  - rewrite list_lookup_insert_ne; [done|]. intros E. rewrite E in Hf.
    rewrite Hf in H2. injection H2 as <-. unfold VFS_NIL_FILE in H3. lia.
Qed.
Lemma vfs_dup_effect_witness :
  let x' := dupped 2 0 (mkVFile (Some 3%positive) FM_READ 0 2) two_fds in
  files_ok x' ∧ open_at x' 2 0 (mkVFile (Some 3%positive) FM_READ 0 3) ∧
  open_at x' 1 0 (mkVFile (Some 3%positive) FM_READ 0 3) ∧
  vfs_dup 5 1 VFS_NIL_FILE fd_state =
  Ok tt (klog_app [L4_CacheFlushAll; L4_Ipc (L4_GlobalId 5 1) SOS_REPLY SOS_IPC_REPLY [2]]
          (set_procs (upd_pcb 2 (λ _, x') (k_procs fd_state)) fd_state)).
Proof.
  apply (vfs_dup_effect fd_state 5 2 two_fds 1 0 (mkVFile (Some 3%positive) FM_READ 0 2) VFS_NIL_FILE 2);
    [apply two_fds_registered|apply two_fds_ok|apply two_fds_open|reflexivity|done|reflexivity].
Defined.

(** A process with one descriptor of its own for that file. *)
Definition one_fd : Process :=
  set_fds (<[0%nat := 0]> (fds ReplyClaims.alive_proc))
    (set_files (<[0%nat := mkVFile (Some 3%positive) FM_READ 0 1]> (files ReplyClaims.alive_proc))
      ReplyClaims.alive_proc).
Definition one_fd_state : kstate :=
  set_vfs (k_vfs fd_state)
    (ProcessClaims.kboot (set_pcbs {[ 2%positive := one_fd ]} ReplyClaims.alive_procs)).
(** Duplicating a descriptor to itself closes the file first and then
    copies the closed descriptor over itself: the caller is told the call
    succeeded, but the file is no longer open. *)
Theorem vfs_dup_self_closes :
  vfs_isopen 5 0 one_fd_state = Ok true one_fd_state ∧
  ∃ k', vfs_dup 5 0 0 one_fd_state = Ok tt k' ∧
    last (klog k') = Some (L4_Ipc (L4_GlobalId 5 1) SOS_REPLY SOS_IPC_REPLY [0]) ∧
    vfs_isopen 5 0 k' = Ok false k'.
Proof.
  split; [vm_compute; reflexivity|]. eexists. split; [vm_compute; reflexivity|].
  split; vm_compute; reflexivity.
Qed.
End VfsClaims.
