(* ===== verification/FileIO.v ===== *)
(** * Reading and writing open files ([vfs_read], [vfs_write] of [sos/vfs.c]
    down to [sos/console.c] and [sos/nfsfs.c])

    A read or write goes through the descriptor table to the file system of the
    vnode, for NFS to the file server and back by a callback, and ends in the
    file position and a reply.  The theorems follow that path for every
    outcome. *)
From S2P Require Import Prelude Machine ListC Frames Swapfile State Pagetable Process Reply VfsCore.
From S2P Require Import Console Nfsfs Clock Vfs.
Import Process ProcessInv Reply VfsCore FdTable OpenDone Console ConsoleSpec Nfsfs NfsQueue Vfs FdOps.

Module FileIO.
(** ** The end of a transfer *)
(** The process after the position of file entry [j] has moved by [n]. *)
Definition advance (j : Z) (f : VFile) (n : Z) (x : Process) : Process :=
  set_files (<[Z.to_nat j := set_fp (w32 (fp f + n)) f]> (files x)) x.
Definition moved (l : positive) (j : Z) (f : VFile) (n : Z) (k : kstate) : kstate :=
  set_procs (upd_pcb l (advance j f n) (k_procs k)) k.

Section transfer.
Variables (pid_ : Z) (l : positive) (x : Process) (file j : Z) (f : VFile).
Hypothesis Hok : files_ok x.
Hypothesis Hopen : open_at x file j f.
Local Notation tid := (L4_GlobalId pid_ 1).

Lemma advance_run k n :
  registered_as (k_procs k) pid_ l x →
  on_procs (vf_upd (Some l, j) (λ f, set_fp (w32 (fp f + n)) f)) k = Ok tt (moved l j f n k).
Proof.
  intros (_ & Hx & _). destruct Hopen as [_ _ Hj Hf _]. unfold moved.
  erewrite on_procs_run by (by apply vf_upd_run).
  by rewrite (upd_pcb_ext _ _ x _ (advance j f n)).
Qed.
Lemma moved_reg k n :
  registered_as (k_procs k) pid_ l x →
  registered_as (k_procs (moved l j f n k)) pid_ l (advance j f n x).
Proof. intros Hreg. by apply registered_upd. Qed.

Lemma write_done_run k n status :
  registered_as (k_procs k) pid_ l x → 0 ≤ status →
  vfs_write_done pid_ file n status k =
    Ok tt (klog_app (reply_events tid [status; syscall_num SOS_WRITE] (info x)) (moved l j f n k)).
Proof.
  intros Hreg Hs. unfold vfs_write_done. rewrite decide_False by lia.
  rewrite (bind_ok _ _ _ _ _ (get_vfile_run _ _ _ _ _ _ _ true Hreg Hok Hopen)).
  rewrite (bind_ok _ _ _ _ _ (advance_run k n Hreg)).
  pose proof (moved_reg k n Hreg) as (H1 & H2 & H3).
  rewrite (bind_ok _ _ _ tid (moved l j f n k)).
  - apply (reply_some _ _ l (advance j f n x)); done.
  - unfold PS_GET_TID. rewrite (bind_ok _ _ _ (Some l) (moved l j f n k)) by (by apply on_procs_id).
    apply on_procs_id. unfold process_get_tid. rewrite <- H3.
    by apply (pcb_field (λ y, L4_GlobalId (pid (info y)) 1)).
Qed.
Lemma read_done_run k n status :
  registered_as (k_procs k) pid_ l x → 0 ≤ status →
  vfs_read_done pid_ file n status k =
    Ok tt (klog_app (reply_events tid [if decide (status = 0) then SOS_VFS_EOF else status] (info x))
             (moved l j f n k)).
Proof.
  intros Hreg Hs. unfold vfs_read_done.
  rewrite (bind_ok _ _ _ _ _ (get_vfile_run _ _ _ _ _ _ _ true Hreg Hok Hopen)).
  rewrite decide_False by lia. rewrite (bind_ok _ _ _ _ _ (advance_run k n Hreg)).
  by apply (reply_pid_run _ pid_ l (advance j f n x)), moved_reg.
Qed.
(** A transfer that failed only replies. *)
Lemma write_failed_run k n status :
  registered_as (k_procs k) pid_ l x → status < 0 →
  vfs_write_done pid_ file n status k = Ok tt (klog_app (reply_events tid [status] (info x)) k).
Proof.
  intros Hreg Hs. unfold vfs_write_done. rewrite decide_True by lia. by apply reply_pid_run with l.
Qed.
Lemma read_failed_run k n status :
  registered_as (k_procs k) pid_ l x → status < 0 →
  vfs_read_done pid_ file n status k = Ok tt (klog_app (reply_events tid [status] (info x)) k).
Proof.
  intros Hreg Hs. unfold vfs_read_done.
  rewrite (bind_ok _ _ _ _ _ (get_vfile_run _ _ _ _ _ _ _ true Hreg Hok Hopen)).
  rewrite decide_True by lia. by apply reply_pid_run with l.
Qed.

(** ** From the descriptor to the file system *)
Definition io_size (n : Z) : Z := if decide (IO_MAX_BUFFER < n) then IO_MAX_BUFFER else n.
Lemma vfs_write_enter k vn y buf n :
  registered_as (k_procs k) pid_ l x → has (fmode f) FM_WRITE = true → vnode f = Some vn →
  vnodes (k_vfs k) !! vn = Some y →
  vfs_write pid_ file buf n k =
    match vops y with
    | FsNone => fail NullDeref
    | FsConsole => console_write pid_ (Some vn) file buf (io_size n)
    | FsNfs => nfsfs_write pid_ (Some vn) file (fp f) buf (io_size n)
    end k.
Proof.
  intros Hreg Hm Hvn Hy. unfold vfs_write.
  rewrite (bind_ok _ _ _ _ _ (get_vfile_run _ _ _ _ _ _ _ true Hreg Hok Hopen)).
  rewrite (bind_ok _ _ k f k) by (apply on_procs_id; eapply vf_get_run; [apply Hreg|apply Hopen..]).
  rewrite Hm, Hvn. cbn [negb].
  rewrite (bind_ok _ _ k y k).
  2:{ unfold on_vfs, zoom. rewrite (VnodeList.vn_get_ok _ _ _ Hy). by destruct k. }
  done.
Qed.
Lemma vfs_read_enter k vn y buf n :
  registered_as (k_procs k) pid_ l x → has (fmode f) FM_READ = true → vnode f = Some vn →
  vnodes (k_vfs k) !! vn = Some y →
  vfs_read pid_ file buf n k =
    match vops y with
    | FsNone => fail NullDeref
    | FsConsole => console_read pid_ (Some vn) file buf (io_size n)
    | FsNfs => nfsfs_read pid_ (Some vn) file (fp f) buf (io_size n)
    end k.
Proof.
  intros Hreg Hm Hvn Hy. unfold vfs_read.
  rewrite (bind_ok _ _ _ _ _ (get_vfile_run _ _ _ _ _ _ _ true Hreg Hok Hopen)).
  rewrite (bind_ok _ _ k f k) by (apply on_procs_id; eapply vf_get_run; [apply Hreg|apply Hopen..]).
  rewrite Hm, Hvn. cbn [negb].
  rewrite (bind_ok _ _ k y k).
  2:{ unfold on_vfs, zoom. rewrite (VnodeList.vn_get_ok _ _ _ Hy). by destruct k. }
  done.
Qed.
End transfer.

(** ** A request to an idle file server *)
(** The state after request [d] has been queued. *)
Definition asked (vn : ptr) (p : Z) (d : nfs_req) (k : kstate) : kstate :=
  let l := mnext (kmach k) in
  set_nfs (mkNfs (<[l := mkNfsReq (tok (k_nfs k)) vn p d]> (nfs_heap (k_nfs k))) [l] (tok (k_nfs k) + 1))
    (set_kmach (mkMachine (mem (kmach k)) (cbuf (kmach k)) (log (kmach k)) (Pos.succ l) []) k).
(** Nothing is queued, memory is available and tokens do not start over. *)
Record nfs_idle (k : kstate) : Prop := {
  id_queue : NfsRequests (k_nfs k) = [];
  id_tok : 0 ≤ tok (k_nfs k) ∧ tok (k_nfs k) + 1 < NULL_TOKEN - 1;
  id_mem : moracle (kmach k) = []
}.
Lemma asked_ok vn p d k : nfs_idle k → nfs_ok (k_nfs (asked vn p d k)).
Proof.
  intros [Hq Ht Hm]. split; cbn [asked k_nfs set_nfs NfsRequests tok nfs_heap].
  - apply NoDup_singleton.
  - intros l ->%list_elem_of_singleton. exists (tok (k_nfs k)). unfold req_token.
    cbn [nfs_heap k_nfs set_nfs]. rewrite lookup_insert_eq. split; [done|lia].
  - by intros l l' ->%list_elem_of_singleton ->%list_elem_of_singleton.
  - lia.
Qed.
Lemma create_idle vn p d k :
  nfs_idle k → create_request vn p d k = Ok (Some (mnext (kmach k))) (asked vn p d k).
Proof.
  intros [Hq Ht Hm]. unfold create_request.
  set (k1 := set_kmach (mkMachine (mem (kmach k)) (cbuf (kmach k)) (log (kmach k))
               (Pos.succ (mnext (kmach k))) []) k).
  rewrite (bind_ok _ _ k (mnext (kmach k)) k1).
  2:{ unfold kmalloc_nocheck, kmalloc, on_mach, zoom, mbind, M_bind, malloc. by rewrite Hm. }
  erewrite bind_ok by reflexivity. erewrite bind_ok by reflexivity. erewrite bind_ok by reflexivity.
  unfold asked. cbn. rewrite Hq, Z.mod_small, w32_small by (unfold is_word, NULL_TOKEN in *; lia). done.
Qed.
Lemma check_idle vn p d k :
  check_request (Some (mnext (kmach k))) (asked vn p d k) =
    run_request (Some (mnext (kmach k))) (asked vn p d k).
Proof.
  unfold check_request. erewrite bind_ok by apply on_nfs_gets. cbn [asked k_nfs set_nfs NfsRequests].
  unfold ListSpec.list_null. rewrite bool_decide_false by done. unfold ListSpec.list_peek.
  erewrite bind_ok by reflexivity. by rewrite decide_False by (intros []; done).
Qed.
Lemma asked_get vn p d k :
  nfs_heap (k_nfs (asked vn p d k)) !! mnext (kmach k) = Some (mkNfsReq (tok (k_nfs k)) vn p d).
Proof. apply lookup_insert_eq. Qed.
(** A vnode of the file server with its handle. *)
Lemma vnode_fh_run k vn y fh :
  vnodes (k_vfs k) !! vn = Some y → extra y = ExNfs fh → vnode_fh (Some vn) k = Ok fh k.
Proof.
  intros Hy He. unfold vnode_fh. rewrite (bind_ok _ _ k y k); [by rewrite He|].
  unfold on_vfs, zoom. rewrite (VnodeList.vn_get_ok _ _ _ Hy). by destruct k.
Qed.

(** The callback finds the request, and taking it off the queue leaves the
    server idle. *)
Lemma on_nfs_id {A} (m : M nfs A) k a : m (k_nfs k) = Ok a (k_nfs k) → on_nfs m k = Ok a k.
Proof. intros H. unfold on_nfs. rewrite (zoom_ok _ _ _ _ _ _ H). by destruct k. Qed.
Lemma callback_finds vn p d k k1 :
  nfs_idle k → k_nfs k1 = k_nfs (asked vn p d k) →
  on_nfs (get_request (tok (k_nfs k))) k1 = Ok (Some (mnext (kmach k))) k1.
Proof.
  intros Hi Hk. apply on_nfs_id. rewrite Hk.
  destruct (get_request_run _ (tok (k_nfs k)) (asked_ok vn p d k Hi)) as (r & -> & Hr).
  cbn [asked k_nfs set_nfs NfsRequests] in Hr. destruct r as [l|].
  - by destruct Hr as [->%list_elem_of_singleton _].
  - exfalso. apply (Hr (mnext (kmach k))); [by left|]. unfold req_token.
    change (nfs_heap _) with (nfs_heap (k_nfs (asked vn p d k))). by rewrite asked_get.
Qed.
Definition served (vn : ptr) (p : Z) (d : nfs_req) (k : kstate) : nfs :=
  mkNfs (delete (mnext (kmach k)) (nfs_heap (k_nfs (asked vn p d k)))) [] (tok (k_nfs k) + 1).
Lemma remove_idle vn p d k k1 :
  nfs_idle k → k_nfs k1 = k_nfs (asked vn p d k) →
  remove_request (Some (mnext (kmach k))) k1 = Ok tt (set_nfs (served vn p d k) k1).
Proof.
  intros Hi Hk. unfold remove_request. erewrite bind_ok; last first.
  { unfold on_nfs, zoom. rewrite Hk, (unqueue_head _ _ [] (asked_ok vn p d k Hi)) by done. reflexivity. }
  unfold run_head_request. erewrite bind_ok by apply on_nfs_gets. done.
Qed.

(** ** Files of the file server *)
(** Descriptor [file] of process [pid_] is open on vnode [vn], a file of the
    server with handle [fh], with access [mode]. *)
Record nfs_file (k : kstate) (pid_ : Z) (l : positive) (x : Process) (file j : Z) (f : VFile)
    (vn : positive) (y : VNode) (fh mode : Z) : Prop := {
  nf_reg : registered_as (k_procs k) pid_ l x;
  nf_ok : files_ok x;
  nf_open : open_at x file j f;
  nf_mode : has (fmode f) mode = true;
  nf_vnode : vnode f = Some vn;
  nf_vn : vnodes (k_vfs k) !! vn = Some y;
  nf_ops : vops y = FsNfs;
  nf_fh : extra y = ExNfs fh
}.
Definition read_req (file buf : Z) (f : VFile) (n : Z) : nfs_req :=
  NFS_ReadRequest file buf (fp f) (io_size n).
Definition write_req (file buf : Z) (f : VFile) (n : Z) : nfs_req :=
  NFS_WriteRequest file buf (fp f) (io_size n).
(** The state while the answer to request [d], issued as call [c], is awaited. *)
Definition pending (vn : positive) (pid_ : Z) (d : nfs_req) (c : nfs_call) (k : kstate) : kstate :=
  klog_app [NfsCall c] (asked (Some vn) pid_ d k).

Lemma read_issued k pid_ l x file j f vn y fh buf n :
  nfs_file k pid_ l x file j f vn y fh FM_READ → nfs_idle k →
  vfs_read pid_ file buf n k =
    Ok tt (pending vn pid_ (read_req file buf f n) (nfs_read fh (fp f) (io_size n) (tok (k_nfs k))) k).
Proof.
  intros [F1 F2 F3 F4 F5 F6 F7 F8] Hi.
  rewrite (vfs_read_enter pid_ l x file j f F2 F3 k vn y) by done. rewrite F7. unfold nfsfs_read.
  rewrite (bind_ok _ _ k y k).
  2:{ unfold on_vfs, zoom. rewrite (VnodeList.vn_get_ok _ _ _ F6). by destruct k. }
  rewrite decide_False by (by rewrite F8). rewrite (bind_ok _ _ _ _ _ (create_idle _ _ _ _ Hi)), check_idle.
  unfold run_request. erewrite bind_ok by (apply on_nfs_id, rq_get_ok, asked_get). cbn [rq_data rq_vnode token].
  by rewrite (bind_ok _ _ _ _ _ (vnode_fh_run _ _ _ _ (F6 : vnodes (k_vfs (asked _ _ _ k)) !! vn = Some y) F8)).
Qed.
Lemma write_issued k pid_ l x file j f vn y fh buf n :
  nfs_file k pid_ l x file j f vn y fh FM_WRITE → nfs_idle k →
  vfs_write pid_ file buf n k =
    Ok tt (pending vn pid_ (write_req file buf f n) (nfs_write fh (fp f) (io_size n) buf (tok (k_nfs k))) k).
Proof.
  intros [F1 F2 F3 F4 F5 F6 F7 F8] Hi.
  rewrite (vfs_write_enter pid_ l x file j f F2 F3 k vn y) by done. rewrite F7. unfold nfsfs_write.
  rewrite (bind_ok _ _ k y k).
  2:{ unfold on_vfs, zoom. rewrite (VnodeList.vn_get_ok _ _ _ F6). by destruct k. }
  rewrite decide_False by (by rewrite F8). rewrite (bind_ok _ _ _ _ _ (create_idle _ _ _ _ Hi)), check_idle.
  unfold run_request. erewrite bind_ok by (apply on_nfs_id, rq_get_ok, asked_get). cbn [rq_data rq_vnode token].
  by rewrite (bind_ok _ _ _ _ _ (vnode_fh_run _ _ _ _ (F6 : vnodes (k_vfs (asked _ _ _ k)) !! vn = Some y) F8)).
Qed.

(** The state in which a transfer that began in [k] has ended: [b] is the
    buffer, [vs] the vnodes, [ps] the processes, [words] the reply. *)
Record ended (k : kstate) (pid_ : Z) (i : process_t) (c : nfs_call) (b : memory) (vs : vfs) (ps : procs)
    (words : list Z) (k' : kstate) : Prop := {
  en_log : klog k' = klog k ++ [NfsCall c] ++ reply_events (L4_GlobalId pid_ 1) words i;
  en_cbuf : cbuf (kmach k') = b;
  en_vfs : k_vfs k' = vs;
  en_procs : k_procs k' = ps;
  en_idle : NfsRequests (k_nfs k') = [] ∧ tok (k_nfs k') = tok (k_nfs k) + 1 ∧ moracle (kmach k') = [];
  en_rest : mem (kmach k') = mem (kmach k) ∧ k_con k' = k_con k ∧ k_pager k' = k_pager k ∧ k_clock k' = k_clock k
}.

Lemma status_negative s : s ≠ NFS_OK → status_nfs2vfs s < 0.
Proof. intros Hs. unfold status_nfs2vfs. rewrite decide_False by done. by repeat case_decide. Qed.

Section answers.
Variables (k : kstate) (pid_ : Z) (l : positive) (x : Process) (file j : Z) (f : VFile).
Variables (vn : positive) (y : VNode) (fh buf n : Z) (attr : fattr_t).
Hypothesis Hidle : nfs_idle k.
Local Notation key := (tok (k_nfs k)).

Lemma read_answered data :
  nfs_file k pid_ l x file j f vn y fh FM_READ →
  let c := nfs_read fh (fp f) (io_size n) key in
  ∃ k', read_cb key NFS_OK attr data (pending vn pid_ (read_req file buf f n) c k) = Ok tt k' ∧
    ended k pid_ (info x) c (write_bytes (cbuf (kmach k)) buf data)
      (mkVfs (<[vn := set_vstat (cp_stats attr) y]> (vnodes (k_vfs k))) (GlobalVNodes (k_vfs k)))
      (upd_pcb l (advance j f (length data)) (k_procs k))
      [if decide (data = []) then SOS_VFS_EOF else length data] k'.
Proof.
  intros [F1 F2 F3 F4 F5 F6 F7 F8] c. set (d := read_req file buf f n). unfold read_cb.
  rewrite (bind_ok _ _ _ _ _ (callback_finds (Some vn) pid_ d k (pending vn pid_ d c k) Hidle eq_refl)).
  rewrite decide_False by done. erewrite bind_ok by (apply on_nfs_id, rq_get_ok, asked_get).
  cbn [rq_data rq_vnode rq_pid d read_req]. rewrite decide_False by (intros []; done).
  erewrite bind_ok by reflexivity. erewrite bind_ok by reflexivity.
  erewrite bind_ok by (apply on_vfs_run, (VnodeList.vn_upd_ok _ _ y); exact F6).
  match goal with |- ∃ k', (_ ≫= _) ?s = _ ∧ _ => set (k2 := s) end.
  rewrite (bind_ok _ _ _ _ _ (read_done_run pid_ l x file j f F2 F3 k2 (length data) (length data) F1 ltac:(lia))).
  set (k3 := klog_app _ _).
  eexists. split; [apply (remove_idle (Some vn) pid_ d k k3 Hidle eq_refl)|].
  split; try done. rewrite app_assoc. by destruct data.
Qed.
Lemma read_refused status data :
  nfs_file k pid_ l x file j f vn y fh FM_READ → status ≠ NFS_OK →
  let c := nfs_read fh (fp f) (io_size n) key in
  ∃ k', read_cb key status attr data (pending vn pid_ (read_req file buf f n) c k) = Ok tt k' ∧
    ended k pid_ (info x) c (cbuf (kmach k)) (k_vfs k) (k_procs k) [status_nfs2vfs status] k'.
Proof.
  intros [F1 F2 F3 F4 F5 F6 F7 F8] Hs c. set (d := read_req file buf f n). unfold read_cb.
  rewrite (bind_ok _ _ _ _ _ (callback_finds (Some vn) pid_ d k (pending vn pid_ d c k) Hidle eq_refl)).
  rewrite decide_False by done. erewrite bind_ok by (apply on_nfs_id, rq_get_ok, asked_get).
  cbn [rq_data rq_vnode rq_pid d read_req]. rewrite decide_True by done.
  rewrite (bind_ok _ _ _ _ _ (read_failed_run pid_ l x file j f F2 F3 (pending vn pid_ d c k) 0 _ F1 (status_negative _ Hs))).
  set (k3 := klog_app _ _).
  eexists. split; [apply (remove_idle (Some vn) pid_ d k k3 Hidle eq_refl)|].
  split; try done. by rewrite app_assoc.
Qed.
Lemma write_answered :
  nfs_file k pid_ l x file j f vn y fh FM_WRITE → 0 ≤ n →
  let c := nfs_write fh (fp f) (io_size n) buf key in
  ∃ k', write_cb key NFS_OK attr (pending vn pid_ (write_req file buf f n) c k) = Ok tt k' ∧
    ended k pid_ (info x) c (cbuf (kmach k))
      (mkVfs (<[vn := set_vstat (cp_stats attr) y]> (vnodes (k_vfs k))) (GlobalVNodes (k_vfs k)))
      (upd_pcb l (advance j f (io_size n)) (k_procs k)) [io_size n; syscall_num SOS_WRITE] k'.
Proof.
  intros [F1 F2 F3 F4 F5 F6 F7 F8] Hn c. set (d := write_req file buf f n). unfold write_cb.
  assert (0 ≤ io_size n) as Hio by (unfold io_size; case_decide; [done|lia]).
  rewrite (bind_ok _ _ _ _ _ (callback_finds (Some vn) pid_ d k (pending vn pid_ d c k) Hidle eq_refl)).
  rewrite decide_False by done. erewrite bind_ok by (apply on_nfs_id, rq_get_ok, asked_get).
  cbn [rq_data rq_vnode rq_pid d write_req]. rewrite decide_False by (intros []; done).
  erewrite bind_ok by (apply on_vfs_run, (VnodeList.vn_upd_ok _ _ y); exact F6).
  match goal with |- ∃ k', (_ ≫= _) ?s = _ ∧ _ => set (k2 := s) end.
  rewrite (bind_ok _ _ _ _ _ (write_done_run pid_ l x file j f F2 F3 k2 (io_size n) (io_size n) F1 Hio)).
  set (k3 := klog_app _ _).
  eexists. split; [apply (remove_idle (Some vn) pid_ d k k3 Hidle eq_refl)|].
  split; try done. by rewrite app_assoc.
Qed.
Lemma write_refused status :
  nfs_file k pid_ l x file j f vn y fh FM_WRITE → status ≠ NFS_OK →
  let c := nfs_write fh (fp f) (io_size n) buf key in
  ∃ k', write_cb key status attr (pending vn pid_ (write_req file buf f n) c k) = Ok tt k' ∧
    ended k pid_ (info x) c (cbuf (kmach k)) (k_vfs k) (k_procs k) [status_nfs2vfs status] k'.
Proof.
  intros [F1 F2 F3 F4 F5 F6 F7 F8] Hs c. set (d := write_req file buf f n). unfold write_cb.
  rewrite (bind_ok _ _ _ _ _ (callback_finds (Some vn) pid_ d k (pending vn pid_ d c k) Hidle eq_refl)).
  rewrite decide_False by done. erewrite bind_ok by (apply on_nfs_id, rq_get_ok, asked_get).
  cbn [rq_data rq_vnode rq_pid d write_req]. rewrite decide_True by done.
  rewrite (bind_ok _ _ _ _ _ (write_failed_run pid_ l x file (pending vn pid_ d c k) 0 _ F1 (status_negative _ Hs))).
  set (k3 := klog_app _ _).
  eexists. split; [apply (remove_idle (Some vn) pid_ d k k3 Hidle eq_refl)|].
  split; try done. by rewrite app_assoc.
Qed.
End answers.

(** *** Calls that are refused before they reach a file system *)
Lemma read_not_permitted k pid_ l x file j f buf n :
  registered_as (k_procs k) pid_ l x → files_ok x → open_at x file j f → has (fmode f) FM_READ = false →
  vfs_read pid_ file buf n k = Ok tt (klog_app (reply_events (L4_GlobalId pid_ 1) [SOS_VFS_PERM] (info x)) k).
Proof.
  intros Hreg Hok Ho Hm. unfold vfs_read.
  rewrite (bind_ok _ _ _ _ _ (get_vfile_run _ _ _ _ _ _ _ true Hreg Hok Ho)).
  rewrite (bind_ok _ _ k f k) by (apply on_procs_id; eapply vf_get_run; [apply Hreg|apply Ho..]).
  rewrite Hm. by apply reply_pid_run with l.
Qed.
Lemma write_not_permitted k pid_ l x file j f buf n :
  registered_as (k_procs k) pid_ l x → files_ok x → open_at x file j f → has (fmode f) FM_WRITE = false →
  vfs_write pid_ file buf n k = Ok tt (klog_app (reply_events (L4_GlobalId pid_ 1) [SOS_VFS_PERM] (info x)) k).
Proof.
  intros Hreg Hok Ho Hm. unfold vfs_write.
  rewrite (bind_ok _ _ _ _ _ (get_vfile_run _ _ _ _ _ _ _ true Hreg Hok Ho)).
  rewrite (bind_ok _ _ k f k) by (apply on_procs_id; eapply vf_get_run; [apply Hreg|apply Ho..]).
  rewrite Hm. by apply reply_pid_run with l.
Qed.
(** A descriptor that is not open: out of range, or free. *)
Definition not_open (x : Process) (file : Z) : Prop :=
  ¬ (0 ≤ file < PROCESS_MAX_FDS) ∨ fds x !! Z.to_nat file = Some VFS_NIL_FILE.
Lemma get_vfile_not_open k pid_ l x file :
  registered_as (k_procs k) pid_ l x → not_open x file →
  get_vfile pid_ file true k =
    Ok None (klog_app (reply_events (L4_GlobalId pid_ 1) [SOS_VFS_NOFILE] (info x)) k).
Proof.
  intros Hreg Hno. pose proof Hreg as (Hl & Hx & Hp). unfold get_vfile.
  rewrite (bind_ok _ _ k (Some l) k) by (by apply on_procs_id). rewrite decide_False by done.
  assert ((when true (reply_to (Some l) SOS_VFS_NOFILE);; mret None) k =
    Ok (@None vfile_ref) (klog_app (reply_events (L4_GlobalId pid_ 1) [SOS_VFS_NOFILE] (info x)) k)) as Hr
    by (by rewrite (bind_ok _ _ _ _ _ (reply_to_run k pid_ l x SOS_VFS_NOFILE Hreg))).
  destruct (decide (0 ≤ file < PROCESS_MAX_FDS)) as [Hf|Hf].
  - destruct Hno as [?|Hnil]; [done|]. rewrite !(bool_decide_eq_false_2 _) by lia. cbn [orb].
    rewrite (bind_ok _ _ k VFS_NIL_FILE k); [exact Hr|].
    apply on_procs_id. eapply fd_get_run; [exact Hx|lia|exact Hnil].
  - destruct (decide (file < 0)) as [Hneg|Hpos].
    + by rewrite (bool_decide_eq_true_2 (file < 0)).
    + rewrite (bool_decide_eq_true_2 (PROCESS_MAX_FDS ≤ file)), orb_true_r by lia. exact Hr.
Qed.
End FileIO.

Module FileIOClaims.
Import FileIO VfsClaims.

(** C25: a read of a file of the file server, when the server is idle, issues
    exactly one call, for the position of the descriptor and at most
    [IO_MAX_BUFFER] bytes.  When the data arrives, it is at the start of the
    caller's buffer, the position has moved by its length, the attributes of the
    vnode are the server's, and the caller is told the length, or end of file
    when there was nothing; when the server reports an error, the caller is told
    the translated error and buffer, position and vnode are as before.  Either
    way there is one reply, and the queue is empty again. *)
Theorem nfs_read_transfers k pid_ l x file j f vn y fh buf n :
  nfs_file k pid_ l x file j f vn y fh FM_READ → nfs_idle k →
  let c := nfs_read fh (fp f) (io_size n) (tok (k_nfs k)) in
  ∃ k1, vfs_read pid_ file buf n k = Ok tt k1 ∧ klog k1 = klog k ++ [NfsCall c] ∧
  (∀ attr data, ∃ k', read_cb (tok (k_nfs k)) NFS_OK attr data k1 = Ok tt k' ∧
    ended k pid_ (info x) c (write_bytes (cbuf (kmach k)) buf data)
      (mkVfs (<[vn := set_vstat (cp_stats attr) y]> (vnodes (k_vfs k))) (GlobalVNodes (k_vfs k)))
      (upd_pcb l (advance j f (length data)) (k_procs k))
      [if decide (data = []) then SOS_VFS_EOF else length data] k') ∧
  (∀ status attr data, status ≠ NFS_OK →
    ∃ k', read_cb (tok (k_nfs k)) status attr data k1 = Ok tt k' ∧
    ended k pid_ (info x) c (cbuf (kmach k)) (k_vfs k) (k_procs k) [status_nfs2vfs status] k').
Proof.
  intros Hf Hi c. eexists. split; [by eapply read_issued|]. split; [done|]. split.
  - intros attr data. by apply read_answered.
  - intros status attr data Hs. by eapply read_refused.
Qed.

(** A write to a file of the file server, when the server is idle, issues
    exactly one call, for the position of the descriptor, the caller's buffer and
    at most [IO_MAX_BUFFER] bytes.  When the server confirms it, the position has
    moved by the number of bytes and the caller is told that number; when the
    server reports an error, the caller is told the translated error and nothing
    has changed.  Either way there is one reply, and the queue is empty again. *)
Theorem nfs_write_transfers k pid_ l x file j f vn y fh buf n :
  nfs_file k pid_ l x file j f vn y fh FM_WRITE → nfs_idle k → 0 ≤ n →
  let c := nfs_write fh (fp f) (io_size n) buf (tok (k_nfs k)) in
  ∃ k1, vfs_write pid_ file buf n k = Ok tt k1 ∧ klog k1 = klog k ++ [NfsCall c] ∧
  (∀ attr, ∃ k', write_cb (tok (k_nfs k)) NFS_OK attr k1 = Ok tt k' ∧
    ended k pid_ (info x) c (cbuf (kmach k))
      (mkVfs (<[vn := set_vstat (cp_stats attr) y]> (vnodes (k_vfs k))) (GlobalVNodes (k_vfs k)))
      (upd_pcb l (advance j f (io_size n)) (k_procs k)) [io_size n; syscall_num SOS_WRITE] k') ∧
  (∀ status attr, status ≠ NFS_OK →
    ∃ k', write_cb (tok (k_nfs k)) status attr k1 = Ok tt k' ∧
    ended k pid_ (info x) c (cbuf (kmach k)) (k_vfs k) (k_procs k) [status_nfs2vfs status] k').
Proof.
  intros Hf Hi Hn c. eexists. split; [by eapply write_issued|]. split; [done|]. split.
  - intros attr. by apply write_answered.
  - intros status attr Hs. by eapply write_refused.
Qed.


(** A process with a file of the server open for reading and writing. *)
Definition rw_file : VFile := mkVFile (Some 3%positive) 6 10 2.
Definition rw_proc : Process := set_files (<[0%nat := rw_file]> (files two_fds)) two_fds.
Definition nfs_vn : VNode := mkVNode (bytes_of_string "a") stat0 FM_UNLIMITED_RW FM_UNLIMITED_RW 1 1 (ExNfs 77)
  NULL NULL FsNfs.
Definition rw_state : kstate :=
  set_vfs (mkVfs {[ 3%positive := nfs_vn ]} (Some 3%positive))
    (ProcessClaims.kboot (set_pcbs {[ 2%positive := rw_proc ]} ReplyClaims.alive_procs)).
Lemma rw_registered : registered_as (k_procs rw_state) 5 2 rw_proc.
Proof. split; [vm_compute; reflexivity|]. split; reflexivity. Qed.
Lemma rw_ok : files_ok rw_proc.
Proof.
  split; [reflexivity|reflexivity| |].
  - intros fd Hfd. assert (fd = VFS_NIL_FILE ∨ fd = 0) as [->| ->]; [|by left|].
    + assert (Forall (λ fd, fd = VFS_NIL_FILE ∨ fd = 0) (fds rw_proc)) as HF.
      { apply (bool_decide_unpack _). vm_compute. exact I. }
      rewrite Forall_forall in HF. by apply HF.
    + right. split; [done|]. by eexists.
  - intros [|j] w Hw Hn; [by injection Hw as <-|]. exfalso. apply Hn.
    by apply lookup_replicate in Hw as [-> _].
Qed.
Lemma rw_nfs mode : has 6 mode = true → nfs_file rw_state 5 2 rw_proc 1 0 rw_file 3 nfs_vn 77 mode.
Proof.
  intros Hm. split; [apply rw_registered|apply rw_ok|by split|exact Hm|reflexivity..].
Qed.
Lemma rw_idle : nfs_idle rw_state.
Proof. split; [reflexivity|by apply (bool_decide_unpack _)|reflexivity]. Qed.

Lemma nfs_read_transfers_witness :
  ∃ k1, vfs_read 5 1 100 2000 rw_state = Ok tt k1 ∧
    klog k1 = klog rw_state ++ [NfsCall (nfs_read 77 10 1100 0)].
Proof.
  destruct (nfs_read_transfers rw_state 5 2 rw_proc 1 0 rw_file 3 nfs_vn 77 100 2000) as (k1 & H1 & H2 & _);
    [by apply rw_nfs|apply rw_idle|]. exists k1. split; [exact H1|]. rewrite H2. vm_compute. reflexivity.
Defined.
Lemma nfs_write_transfers_witness :
  ∃ k1, vfs_write 5 1 100 20 rw_state = Ok tt k1 ∧
    klog k1 = klog rw_state ++ [NfsCall (nfs_write 77 10 20 100 0)].
Proof.
  destruct (nfs_write_transfers rw_state 5 2 rw_proc 1 0 rw_file 3 nfs_vn 77 100 20) as (k1 & H1 & H2 & _);
    [by apply rw_nfs|apply rw_idle|lia|]. exists k1. split; [exact H1|]. rewrite H2. vm_compute. reflexivity.
Defined.
End FileIOClaims.
