(* ===== verification/FdTables.v ===== *)
(** * The descriptor tables of all processes

    Whatever sequence of file system calls and of answers of the file server and
    the serial line the system goes through, the descriptor tables of every
    process stay well formed: every descriptor is free or leads to an open file,
    and the reference count of an open file is the number of descriptors that
    lead to it. *)
From S2P Require Import Prelude Machine ListC Frames Swapfile State Pagetable Process Reply VfsCore.
From S2P Require Import Console Nfsfs Clock Vfs FileIO.
Import Process ProcessInv Reply VfsCore FdTable OpenDone Console Nfsfs Vfs FdOps FileIO.

Module FdTables.
Definition tables_ok (k : kstate) : Prop := ∀ l x, pcbs (k_procs k) !! l = Some x → files_ok x.

(** ** Programs that keep the tables *)
Definition keeps {A} (m : K A) : Prop := ∀ k a k', m k = Ok a k' → tables_ok k → tables_ok k'.
Create HintDb keeps discriminated.

Lemma keeps_pres {A} (m : K A) : pres k_procs m → keeps m.
Proof. intros Hm k a k' H Hk l x. rewrite (Hm _ _ _ H). apply Hk. Qed.
Lemma keeps_bind {A B} (m : K A) (f : A → K B) : keeps m → (∀ a, keeps (f a)) → keeps (m ≫= f).
Proof. intros Hm Hf k b k2 (a & k1 & H1 & H2)%bind_inv Hk. eapply Hf, Hm; done. Qed.
Lemma keeps_when b (m : K unit) : keeps m → keeps (when b m).
Proof. intros. destruct b; [done|]. apply keeps_pres, pres_ret. Qed.
Lemma keeps_ret {A} (a : A) : keeps (mret a).
Proof. apply keeps_pres, pres_ret. Qed.
Lemma keeps_fail {A} e : keeps (fail (A := A) e).
Proof. apply keeps_pres, pres_fail. Qed.
Lemma keeps_gets {A} (f : kstate → A) : keeps (gets f).
Proof. apply keeps_pres, pres_gets. Qed.
Lemma keeps_of_opt {A} e (o : option A) : keeps (of_opt e o).
Proof. apply keeps_pres, pres_of_opt. Qed.
Lemma keeps_vfs {A} (m : M vfs A) : keeps (on_vfs m).
Proof. apply keeps_pres. by apply pres_zoom. Qed.
Lemma keeps_nfs {A} (m : M nfs A) : keeps (on_nfs m).
Proof. apply keeps_pres. by apply pres_zoom. Qed.
Lemma keeps_con {A} (m : M Console_File A) : keeps (on_con m).
Proof. apply keeps_pres. by apply pres_zoom. Qed.
Lemma keeps_mach {A} (m : M machine A) : keeps (on_mach m).
Proof. apply keeps_pres. by apply pres_zoom. Qed.
Lemma keeps_emit e : keeps (emit e).
Proof. apply keeps_pres. by apply (pres_of_nolog k_procs (emit e)), emit_nolog. Qed.
Lemma keeps_reply_v tid ws : keeps (syscall_reply_v tid ws).
Proof. apply keeps_pres. by apply pres_of_nolog, reply_v_nolog. Qed.
Lemma keeps_reply_to p r : keeps (reply_to p r).
Proof. apply keeps_pres. by apply pres_of_nolog, reply_to_nolog. Qed.
Lemma keeps_reply_pid i r : keeps (reply_pid i r).
Proof. apply keeps_pres. by apply pres_of_nolog, reply_pid_nolog. Qed.
(** Looking at processes. *)
Lemma keeps_procs {A} (m : M procs A) : pres id m → keeps (on_procs m).
Proof. intros Hm. apply keeps_pres. intros k a k' (s & Hs & ->)%zoom_inv. exact (Hm _ _ _ Hs). Qed.
Lemma pcb_get_id p : pres id (pcb_get p).
Proof. intros s a s'. unfold pcb_get. repeat case_match; (by intros [= _ <-]) || done. Qed.
Lemma lookup_id i : pres id (process_lookup i).
Proof. unfold process_lookup, arr_get. pres_auto. Qed.
#[export] Hint Resolve keeps_ret keeps_fail keeps_gets keeps_of_opt keeps_vfs keeps_nfs keeps_con keeps_mach
  keeps_emit keeps_reply_v keeps_reply_to keeps_reply_pid keeps_procs lookup_id : keeps.
#[export] Hint Resolve pcb_get_id lookup_id : pres.

Ltac keeps_step :=
  lazymatch goal with
  | |- keeps (_ ≫= _) => apply keeps_bind; [|intros ?]
  | |- keeps (when _ _) => apply keeps_when
  | |- keeps (if ?b then _ else _) => destruct b
  | |- keeps (match ?b with _ => _ end) => destruct b
  | |- keeps (let _ := _ in _) => cbv zeta
  end.
Ltac keeps_auto := repeat first [solve [eauto with keeps] | keeps_step].

(** ** One process changes *)
Lemma tables_upd k l x f :
  tables_ok k → pcbs (k_procs k) !! l = Some x → files_ok (f x) →
  tables_ok (set_procs (upd_pcb l f (k_procs k)) k).
Proof.
  intros Hk Hx Hf m y. cbn. unfold upd_pcb, set_pcbs. cbn. rewrite lookup_alter. case_decide as E.
  - subst m. rewrite Hx. by intros [= <-].
  - apply Hk.
Qed.
Lemma get_vfile_inv k i file ipc r k' :
  get_vfile i file ipc k = Ok r k' → tables_ok k →
  k_procs k' = k_procs k ∧
  match r with
  | None => ∀ l x j v, process_lookup i (k_procs k) = Ok (Some l) (k_procs k) →
      pcbs (k_procs k) !! l = Some x → ¬ open_at x file j v
  | Some vf => ∃ l x j v, vf = (Some l, j) ∧ process_lookup i (k_procs k) = Ok (Some l) (k_procs k) ∧
      pcbs (k_procs k) !! l = Some x ∧ open_at x file j v
  end.
Proof.
  intros H Hk. unfold get_vfile in H. apply bind_inv in H as (p & k1 & Hp & H).
  apply zoom_inv in Hp as (s1 & Hp & ->). pose proof (lookup_id _ _ _ _ Hp) as E. cbn in E. subst s1.
  replace (set_procs (k_procs k) k) with k in H by (by destruct k).
  case_decide as Hn.
  { injection H as <- <-. split; [done|]. intros l x j v Hl. rewrite Hn in Hp. by rewrite Hl in Hp. }
  assert (∀ k0 k2, (when ipc (reply_to p SOS_VFS_NOFILE);; mret (@None vfile_ref)) k0 = Ok r k2 →
    k_procs k0 = k_procs k → k_procs k2 = k_procs k ∧ r = None) as Hno.
  { intros k0 k2 (u & k3 & H1 & [= <- <-])%bind_inv E. split; [|done]. rewrite <- E.
    destruct ipc; [|by injection H1 as _ <-].
    exact (pres_of_nolog k_procs _ (λ _, eq_refl) (reply_to_nolog p SOS_VFS_NOFILE) _ _ _ H1). }
  destruct (bool_decide (file < 0) || bool_decide (PROCESS_MAX_FDS ≤ file)) eqn:Hr.
  { destruct (Hno _ _ H eq_refl) as [? ->]. split; [done|]. intros l x j v _ _ [Hf _ _ _ _].
    by rewrite !bool_decide_eq_false_2 in Hr by lia. }
  apply orb_false_iff in Hr as [Hr1%bool_decide_eq_false Hr2%bool_decide_eq_false].
  destruct p as [l|]; [|done].
  destruct (pcbs (k_procs k) !! l) as [x|] eqn:Hx.
  2:{ apply bind_inv in H as (j & k1 & Hj & _). apply zoom_inv in Hj as (s & Hj & _).
      unfold fd_get, mbind, M_bind, pcb_get in Hj. by rewrite Hx in Hj. }
  pose proof (Hk l x Hx) as Hok.
  destruct (lookup_lt_is_Some_2 (fds x) (Z.to_nat file)) as [j Hj].
  { rewrite (fds_len _ Hok). change PROCESS_MAX_FDS with 19 in *. lia. }
  rewrite (bind_ok _ _ k j k) in H by (apply on_procs_id; eapply fd_get_run; [done|lia|done]).
  destruct (bool_decide (j < 0) || bool_decide (PROCESS_MAX_FILES ≤ j)) eqn:Hr.
  { destruct (Hno _ _ H eq_refl) as [? ->]. split; [done|]. intros l' x' j' v' Hl Hx' [_ Hf Hj' Hv' _].
    rewrite Hp in Hl. simplify_eq. pose proof (lookup_lt_Some _ _ _ Hv') as Hlt. rewrite (files_len _ Hok) in Hlt.
    rewrite !bool_decide_eq_false_2 in Hr; [done|change PROCESS_MAX_FILES with 16 in *; lia..]. }
  apply orb_false_iff in Hr as [Hj1%bool_decide_eq_false Hj2%bool_decide_eq_false].
  destruct (lookup_lt_is_Some_2 (files x) (Z.to_nat j)) as [v Hv].
  { rewrite (files_len _ Hok). change PROCESS_MAX_FILES with 16 in *. lia. }
  rewrite (bind_ok _ _ k v k) in H by (apply on_procs_id; eapply vf_get_run; [done|lia|done]).
  case_decide as Hvn.
  { destruct (Hno _ _ H eq_refl) as [? ->]. split; [done|]. intros l' x' j' v' Hl Hx' [_ Hf _ Hv' Hn'].
    rewrite Hp in Hl. by simplify_eq. }
  injection H as <- <-. split; [done|]. exists l, x, j, v. split; [done|]. split; [done|].
  split; [done|]. split; [lia|done|lia|done|done].
Qed.
Lemma keeps_get_vfile i file ipc : keeps (get_vfile i file ipc).
Proof. intros k r k' H Hk l x. destruct (get_vfile_inv _ _ _ _ _ _ H Hk) as [-> _]. apply Hk. Qed.
#[export] Hint Resolve keeps_get_vfile : keeps.

(** ** Inverting the accesses to the tables *)
Lemma pcb_get_some s p x s' : pcb_get p s = Ok x s' → ∃ l, p = Some l ∧ pcbs s !! l = Some x ∧ s' = s.
Proof.
  unfold pcb_get. destruct p as [l|]; [|done]. destruct (pcbs s !! l) eqn:E; [|done].
  intros [= <- <-]. by exists l.
Qed.
Lemma arr_get_inv {S A} (t : list A) i (s s' : S) a :
  arr_get t i s = Ok a s' → 0 ≤ i ∧ t !! Z.to_nat i = Some a ∧ s' = s.
Proof.
  unfold arr_get. case_decide; [|done]. destruct (t !! Z.to_nat i); [|done]. by intros [= <- <-].
Qed.
Lemma vf_upd_inv s vf f s' :
  vf_upd vf f s = Ok tt s' → ∃ l x v, fst vf = Some l ∧ pcbs s !! l = Some x ∧ 0 ≤ snd vf ∧
    files x !! Z.to_nat (snd vf) = Some v ∧
    s' = upd_pcb l (set_files (<[Z.to_nat (snd vf) := f v]> (files x))) s.
Proof.
  destruct vf as [p j]. intros H. pose proof H as H0. unfold vf_upd in H0. cbn [fst snd] in *.
  apply bind_inv in H0 as (x & s1 & (l & -> & Hx & ->)%pcb_get_some & H0).
  apply bind_inv in H0 as (v & s1 & (Hj & Hv & ->)%arr_get_inv & _).
  rewrite (vf_upd_run _ _ _ _ _ _ Hx Hj Hv) in H. injection H as <-. by exists l, x, v.
Qed.
Lemma fd_set_inv s p file v s' :
  fd_set p file v s = Ok tt s' → ∃ l x old, p = Some l ∧ pcbs s !! l = Some x ∧ 0 ≤ file ∧
    fds x !! Z.to_nat file = Some old ∧ s' = upd_pcb l (set_fds (<[Z.to_nat file := v]> (fds x))) s.
Proof.
  intros H. pose proof H as H0. unfold fd_set in H0.
  apply bind_inv in H0 as (x & s1 & (l & -> & Hx & ->)%pcb_get_some & H0).
  apply bind_inv in H0 as (t & s1 & Ht & _). unfold arr_set in Ht. case_decide as Hr; [|done].
  destruct (lookup_lt_is_Some_2 (fds x) (Z.to_nat file)) as [old Hold]; [lia|].
  rewrite (fd_set_run _ _ _ _ _ _ Hx (proj1 Hr) Hold) in H. injection H as <-. exists l, x, old.
  split_and!; done || lia.
Qed.

(** ** Moving the position *)
Lemma refile_ok x j v v' :
  files_ok x → files x !! j = Some v → vnode v' = vnode v → ref v' = ref v →
  files_ok (set_files (<[j := v']> (files x)) x).
Proof.
  intros [L1 L2 L3 L4] Hv Hn Hr. split; cbn; [done|by rewrite length_insert| |].
  - intros fd Hfd. destruct (L3 fd Hfd) as [|(H0 & w & Hw & Hwn)]; [by left|right; split; [done|]].
    destruct (decide (j = Z.to_nat fd)) as [->|Hne].
    + exists v'. rewrite list_lookup_insert_eq by (by eapply lookup_lt_Some).
      rewrite Hn. by simplify_eq.
    + exists w. by rewrite list_lookup_insert_ne.
  - intros i w Hw Hwn. rewrite list_lookup_insert in Hw. case_decide as E.
    + destruct E as [-> _]. injection Hw as <-. rewrite Hr. apply L4; [done|by rewrite <- Hn].
    + by apply L4.
Qed.
Lemma keeps_move vf h :
  (∀ f, vnode (h f) = vnode f ∧ ref (h f) = ref f) → keeps (on_procs (vf_upd vf h)).
Proof.
  intros Hh k [] k' (s & Hs & ->)%zoom_inv Hk.
  apply vf_upd_inv in Hs as (l & x & v & _ & Hx & _ & Hv & ->).
  apply (tables_upd _ _ x); [done|done|]. apply (refile_ok x _ v); [by eapply Hk|done|apply Hh..].
Qed.
Lemma keeps_vf_get vf : keeps (on_procs (vf_get vf)).
Proof. apply keeps_procs. unfold vf_get, arr_get. pres_auto. Qed.
Lemma keeps_fd_get p file : keeps (on_procs (fd_get p file)).
Proof. apply keeps_procs. unfold fd_get, arr_get. pres_auto. Qed.
Lemma keeps_pcb_get p : keeps (on_procs (pcb_get p)).
Proof. apply keeps_procs, pcb_get_id. Qed.
Lemma keeps_get_tid p : keeps (on_procs (process_get_tid p)).
Proof. apply keeps_procs. unfold process_get_tid. pres_auto. Qed.
Lemma keeps_PS_GET_TID i : keeps (PS_GET_TID i).
Proof. unfold PS_GET_TID. apply keeps_bind; [|intros; apply keeps_get_tid]. apply keeps_procs, lookup_id. Qed.
#[export] Hint Resolve keeps_vf_get keeps_fd_get keeps_pcb_get keeps_get_tid keeps_PS_GET_TID : keeps.
Lemma keeps_read_done i file n st : keeps (vfs_read_done i file n st).
Proof. unfold vfs_read_done. keeps_auto. by apply keeps_move. Qed.
Lemma keeps_write_done i file n st : keeps (vfs_write_done i file n st).
Proof. unfold vfs_write_done. keeps_auto. by apply keeps_move. Qed.
Lemma keeps_lseek i file pos whence : keeps (vfs_lseek i file pos whence).
Proof. unfold vfs_lseek. keeps_auto; by apply keeps_move. Qed.
#[export] Hint Resolve keeps_read_done keeps_write_done keeps_lseek : keeps.

(** ** Opening *)
(** The tail of [vfs_open_done], once the vnode has counted the new user. *)
Definition install_tail (p self : ptr) (mode : Z) : K unit :=
  r ← on_procs (findNextFd p false);
  let '(fd1, fd2, ok) := r in
  if negb ok then
    on_vfs (decrease_refs self mode);;
    on_vfs (vfs_open_err self);;
    reply_to p SOS_VFS_NOMORE
  else
    on_procs (vf_upd (p, fd2) (λ _, mkVFile self mode 0 1));;
    on_procs (fd_set p fd1 fd2);;
    reply_to p fd1.
Lemma keeps_install p self mode : self ≠ NULL → keeps (install_tail p self mode).
Proof.
  intros Hself k [] k' H Hk. unfold install_tail in H. apply bind_inv in H as (r & k1 & Hr & H).
  apply zoom_inv in Hr as (s & Hr & ->). pose proof Hr as Hr0. unfold findNextFd in Hr0.
  apply bind_inv in Hr0 as (x & s1 & (l & -> & Hx & ->)%pcb_get_some & _).
  rewrite (findNextFd_run _ _ _ Hx) in Hr. injection Hr as <- <-.
  replace (set_procs (k_procs k) k) with k in H by (by destruct k).
  destruct (negb (negb _)) eqn:Hok in H.
  { revert H Hk. apply (keeps_bind (on_vfs (decrease_refs self mode))); [apply keeps_vfs|intros _].
    apply (keeps_bind (on_vfs (vfs_open_err self))); [apply keeps_vfs|intros _; apply keeps_reply_to]. }
  rewrite negb_involutive in Hok. apply orb_false_iff in Hok as [H1%Z.eqb_neq H2%Z.eqb_neq].
  destruct (free_slots x H1 H2) as (F1 & F2 & F3 & old & F4 & F5).
  apply bind_inv in H as ([] & k1 & Hu & H). apply zoom_inv in Hu as (s & Hu & ->).
  rewrite (vf_upd_run _ _ _ _ _ _ Hx F3 F4) in Hu. injection Hu as <-. set (s1 := upd_pcb l _ _) in H.
  assert (pcbs s1 !! l = Some (set_files (<[Z.to_nat (free_file x) := mkVFile self mode 0 1]> (files x)) x))
    as Hx1 by (by apply upd_pcb_lookup).
  apply bind_inv in H as ([] & k1 & Hu & H). apply zoom_inv in Hu as (s & Hu & ->).
  rewrite (fd_set_run _ _ _ _ _ _ Hx1 F1 F2) in Hu. injection Hu as <-.
  apply (keeps_reply_to _ _ _ _ _ H). cbn [files fds set_files]. unfold s1. rewrite upd_pcb_twice.
  apply (tables_upd k l x _ Hk Hx). by apply (install_ok x (free_fd x) (free_file x) (mkVFile self mode 0 1) old (Hk l x Hx)).
Qed.
Lemma keeps_open_done i self mode st : keeps (vfs_open_done i self mode st).
Proof.
  unfold vfs_open_done. apply keeps_bind; [eauto with keeps|intros p].
  case_decide; [eauto with keeps|]. case_decide as Hs; [keeps_auto|].
  apply keeps_bind; [eauto with keeps|intros rval]. case_decide; [keeps_auto|].
  apply (keeps_install p self mode). tauto.
Qed.
#[export] Hint Resolve keeps_open_done : keeps.

(** ** Closing *)
Lemma close_done_procs i self st : pres k_procs (vfs_close_done i self st).
Proof.
  unfold vfs_close_done. pres_auto; try (by apply pres_zoom). by apply pres_of_nolog, reply_pid_nolog.
Qed.
Lemma vnode_close_procs i v : pres k_procs (vnode_close i v).
Proof.
  unfold vnode_close, console_close, nfsfs_close. pres_auto; try (by apply pres_zoom); apply close_done_procs.
Qed.
Lemma close_shape i file k k' :
  vfs_close i file k = Ok tt k' → tables_ok k →
  (k_procs k' = k_procs k ∧
   ∀ l x j v, process_lookup i (k_procs k) = Ok (Some l) (k_procs k) →
     pcbs (k_procs k) !! l = Some x → ¬ open_at x file j v) ∨
  ∃ l x j v, process_lookup i (k_procs k) = Ok (Some l) (k_procs k) ∧ pcbs (k_procs k) !! l = Some x ∧
    open_at x file j v ∧ k_procs k' = upd_pcb l (λ _, closed file j v x) (k_procs k).
Proof.
  intros H Hk. unfold vfs_close in H. apply bind_inv in H as (r & k1 & Hg & H).
  pose proof (get_vfile_inv _ _ _ _ _ _ Hg Hk) as [E Hr]. destruct r as [vf|]; [|left; by injection H as <-].
  right. destruct Hr as (l & x & j & v & -> & Hl & Hx & Ho). exists l, x, j, v. split_and!; [done..|].
  rewrite <- E in Hl, Hx. pose proof (Hk l x) as Hok. rewrite <- E in Hok. specialize (Hok Hx).
  rewrite <- E. clear Hg E Hk k.
  pose proof (at_ref _ _ _ _ Hok Ho) as Hrf. pose proof (fd_count_max (fds x) j) as Hm.
  rewrite (fds_len _ Hok) in Hm. pose proof (fd_count_pos _ _ _ (at_fd _ _ _ _ Ho)) as Hpos.
  change (Z.to_nat PROCESS_MAX_FDS) with 19%nat in Hm.
  assert (w32 (ref v - 1) = ref v - 1) as Hw by (apply w32_small; unfold is_word; lia).
  destruct Ho as [H1 H2 H3 H4 H5].
  rewrite (bind_ok _ _ k1 (Some l) k1) in H by (by apply on_procs_id).
  rewrite (bind_ok _ _ _ _ _ (on_procs_run _ k1 _ _ (fd_set_run _ _ _ _ _ VFS_NIL_FILE Hx (proj1 H1) H2))) in H.
  set (s1 := upd_pcb l _ (k_procs k1)) in H. set (k2 := set_procs s1 k1) in H.
  assert (pcbs s1 !! l = Some (set_fds (<[Z.to_nat file := VFS_NIL_FILE]> (fds x)) x)) as Hx1
    by (by apply upd_pcb_lookup).
  rewrite (bind_ok _ _ k2 v k2) in H by (by apply on_procs_id; eapply vf_get_run).
  rewrite (bind_ok _ _ _ _ _ (on_procs_run _ k2 _ _ (vf_upd_run s1 _ _ _ _ _ Hx1 H3 H4))) in H.
  set (s2 := upd_pcb l _ s1) in H. set (k3 := set_procs s2 k2) in H.
  assert (pcbs s2 !! l = Some (set_files (<[Z.to_nat j := set_ref (w32 (ref v - 1)) v]> (files x))
     (set_fds (<[Z.to_nat file := VFS_NIL_FILE]> (fds x)) x))) as Hx2 by (by apply (upd_pcb_lookup s1)).
  assert (∀ w, <[Z.to_nat j := w]> (files x) !! Z.to_nat j = Some w) as Hins.
  { intros w. apply list_lookup_insert_eq. by eapply lookup_lt_Some. }
  rewrite (bind_ok _ _ k3 (set_ref (w32 (ref v - 1)) v) k3) in H
    by (apply on_procs_id; eapply vf_get_run; [exact Hx2|done|apply Hins]).
  cbn [ref set_ref] in H. rewrite Hw in H. apply bind_inv in H as ([] & k4 & H6 & H).
  assert (k_procs k' = k_procs k4) as ->.
  { match type of H with ?m _ = _ => assert (pres k_procs m) as Hp; [|exact (Hp _ _ _ H)] end.
    pres_auto; [by apply pres_zoom|apply vnode_close_procs|by apply pres_of_nolog, reply_pid_nolog]. }
  destruct (Z.eqb_spec (ref v) 1) as [E|E].
  - rewrite (proj2 (Z.eqb_eq (ref v - 1) 0)) in H6 by lia. cbn [when] in H6.
    apply bind_inv in H6 as ([] & k5 & H6 & H7). apply zoom_inv in H6 as (s & H6 & ->).
    rewrite (vf_upd_run _ _ _ _ _ _ Hx2 H3 (Hins _)) in H6. injection H6 as <-.
    apply bind_inv in H7 as (u & k6 & (s & _ & ->)%zoom_inv & [= <-]). cbn.
    unfold s2, s1. rewrite !upd_pcb_twice. apply (upd_pcb_ext _ _ x); [done|].
    unfold closed, unref. rewrite (proj2 (Z.eqb_eq _ _) E). cbn. rewrite Hw, E. by rewrite list_insert_insert_eq.
  - rewrite (proj2 (Z.eqb_neq (ref v - 1) 0)) in H6 by lia. injection H6 as <-. cbn.
    unfold s2, s1. rewrite !upd_pcb_twice. apply (upd_pcb_ext _ _ x); [done|].
    unfold closed, unref. rewrite (proj2 (Z.eqb_neq _ _) E). cbn. by rewrite Hw.
Qed.
Lemma tables_procs k k' : k_procs k' = k_procs k → tables_ok k → tables_ok k'.
Proof. intros E Hk l x. rewrite E. apply Hk. Qed.
Lemma tables_const k k' l x y :
  tables_ok k → pcbs (k_procs k) !! l = Some x → files_ok y →
  k_procs k' = upd_pcb l (λ _, y) (k_procs k) → tables_ok k'.
Proof.
  intros Hk Hx Hy E. apply (tables_procs (set_procs (upd_pcb l (λ _, y) (k_procs k)) k)); [done|].
  by apply (tables_upd _ _ x).
Qed.
Lemma keeps_close i file : keeps (vfs_close i file).
Proof.
  intros k [] k' H Hk. destruct (close_shape _ _ _ _ H Hk) as [[E _]|(l & x & j & v & _ & Hx & Ho & E)].
  - by apply (tables_procs k).
  - apply (tables_const k k' l x _ Hk Hx (closed_ok x file j v (Hk l x Hx) Ho) E).
Qed.
#[export] Hint Resolve keeps_close : keeps.

(** ** Duplicating *)
Lemma dup_installs k l x forig j d s1 s2 :
  tables_ok k → pcbs (k_procs k) !! l = Some x → 0 ≤ forig → fds x !! Z.to_nat forig = Some j → 0 ≤ j →
  fds x !! Z.to_nat d = Some VFS_NIL_FILE →
  fd_set (Some l) d j (k_procs k) = Ok tt s1 →
  vf_upd (Some l, j) (λ f, set_ref (w32 (ref f + 1)) f) s1 = Ok tt s2 → tables_ok (set_procs s2 k).
Proof.
  intros Hk Hx Hf0 Hf Hj Hd H1 H2. pose proof (Hk l x Hx) as Hok.
  apply fd_set_inv in H1 as (l' & x' & old & [= <-] & Hx' & Hd0 & Hold & ->). simplify_eq.
  destruct (fds_open _ Hok j) as [->|(_ & v & Hv & Hn)]; [by eapply list_elem_of_lookup_2|done|].
  assert (open_at x forig j v) as Ho.
  { pose proof (lookup_lt_Some _ _ _ Hf) as Hlt. rewrite (fds_len _ Hok) in Hlt.
    split; [change PROCESS_MAX_FDS with 19 in *; lia|done..]. }
  set (s := upd_pcb l _ (k_procs k)) in H2.
  assert (pcbs s !! l = Some (set_fds (<[Z.to_nat d := j]> (fds x)) x)) as Hs by (by apply upd_pcb_lookup).
  rewrite (vf_upd_run s _ _ _ _ _ Hs Hj Hv) in H2. injection H2 as <-.
  unfold s. rewrite upd_pcb_twice. apply (tables_upd k l x); [done|done|].
  pose proof (at_ref _ _ _ _ Hok Ho) as Hr. pose proof (fd_count_max (fds x) j) as Hm.
  rewrite (fds_len _ Hok) in Hm. change (Z.to_nat PROCESS_MAX_FDS) with 19%nat in Hm.
  pose proof (fd_count_pos _ _ _ Hf).
  cbn. rewrite w32_small by (unfold is_word; lia). by apply (dupped_ok x forig j v d Hok Ho).
Qed.
Lemma ipcfilt_inv s l x f r s' :
  pcbs s !! l = Some x → process_set_ipcfilt (Some l) f s = Ok r s' →
  s' = upd_pcb l (upd_info (set_ipc_accept f)) s.
Proof.
  intros Hx H. unfold process_set_ipcfilt, process_get_ipcfilt in H.
  rewrite (bind_ok _ _ s (ipc_accept (info x)) s) in H by (by apply (pcb_field (λ y, ipc_accept (info y)))).
  rewrite (bind_ok _ _ _ _ _ (pcb_upd_run _ _ _ _ Hx)) in H. by injection H.
Qed.

(** A descriptor in use is closed, silently, before it is reused. *)
Definition make_room (i : Z) (p : ptr) (fdup : Z) (dvf : option vfile_ref) : K unit :=
  match dvf with
  | Some _ =>
      oldfilt ← on_procs (process_set_ipcfilt p PS_IPC_NONE);
      vfs_close i fdup;;
      on_procs (process_set_ipcfilt p oldfilt);; mret tt
  | None => mret tt
  end.
Lemma tables_filt k l x f :
  tables_ok k → pcbs (k_procs k) !! l = Some x →
  tables_ok (set_procs (upd_pcb l (upd_info (set_ipc_accept f)) (k_procs k)) k).
Proof. intros Hk Hx. apply (tables_upd k l x _ Hk Hx). by destruct (Hk l x Hx). Qed.
Lemma make_room_inv i l x forig fdup j dvf k0 k k' :
  get_vfile i fdup false k0 = Ok dvf k → tables_ok k0 →
  process_lookup i (k_procs k0) = Ok (Some l) (k_procs k0) → pcbs (k_procs k0) !! l = Some x →
  0 ≤ fdup < PROCESS_MAX_FDS → 0 ≤ forig → forig ≠ fdup → fds x !! Z.to_nat forig = Some j →
  make_room i (Some l) fdup dvf k = Ok tt k' →
  tables_ok k' ∧ ∃ x', pcbs (k_procs k') !! l = Some x' ∧ fds x' !! Z.to_nat fdup = Some VFS_NIL_FILE ∧
    fds x' !! Z.to_nat forig = Some j.
Proof.
  intros Hg Hk0 Hl Hx Hd Hf Hne Hj H. destruct (get_vfile_inv _ _ _ _ _ _ Hg Hk0) as [E Hdvf].
  pose proof (tables_procs k0 k E Hk0) as Hk. rewrite <- E in Hl, Hx.
  pose proof (Hk l x Hx) as Hok.
  destruct (lookup_lt_is_Some_2 (fds x) (Z.to_nat fdup)) as [jd Hjd].
  { rewrite (fds_len _ Hok). change PROCESS_MAX_FDS with 19 in *. lia. }
  destruct dvf as [vf|]; last first.
  { injection H as <-. split; [done|]. exists x. split; [done|]. split; [|done].
    destruct (fds_open _ Hok jd) as [->|(H0 & w & Hw & Hwn)]; [by eapply list_elem_of_lookup_2|done|].
    exfalso. rewrite E in Hl, Hx. by apply (Hdvf l x jd w Hl Hx). }
  unfold make_room in H. apply bind_inv in H as (old & k1 & H1 & H).
  apply zoom_inv in H1 as (s & H1 & ->). apply (ipcfilt_inv _ _ x) in H1 as ->; [|done].
  set (x1 := upd_info (set_ipc_accept PS_IPC_NONE) x). set (k1 := set_procs _ k) in H.
  pose proof (tables_filt k l x PS_IPC_NONE Hk Hx : tables_ok k1) as Hk1.
  assert (pcbs (k_procs k1) !! l = Some x1) as Hx1 by (by apply upd_pcb_lookup).
  assert (process_lookup i (k_procs k1) = Ok (Some l) (k_procs k1)) as Hl1 by (by apply (lookup_pcbs (k_procs k))).
  apply bind_inv in H as ([] & k2 & H2 & H).
  pose proof (keeps_close _ _ _ _ _ H2 Hk1) as Hk2.
  assert (∃ x2, pcbs (k_procs k2) !! l = Some x2 ∧ fds x2 !! Z.to_nat fdup = Some VFS_NIL_FILE ∧
    fds x2 !! Z.to_nat forig = Some j) as (x2 & Hx2 & Hd2 & Hj2).
  { destruct (close_shape _ _ _ _ H2 Hk1) as [[_ Hno]|(l' & x' & j' & v' & Hl' & Hx' & Ho' & E2)].
    - destruct Hdvf as (l0 & y0 & j0 & v0 & _ & Hl0 & Hy0 & Ho0). exfalso.
      rewrite <- E, Hl in Hl0. injection Hl0 as <-. rewrite <- E, Hx in Hy0. injection Hy0 as <-.
      apply (Hno l x1 j0 v0 Hl1 Hx1). by destruct Ho0.
    - rewrite Hl1 in Hl'. injection Hl' as <-. simplify_eq. exists (closed fdup j' v' x1). rewrite E2.
      split; [by apply (upd_pcb_lookup (k_procs k1) l x1 (λ _, closed fdup j' v' x1))|]. cbn. split.
      + apply list_lookup_insert_eq. by eapply lookup_lt_Some.
      + rewrite list_lookup_insert_ne by lia. exact Hj. }
  apply bind_inv in H as (o & k3 & H3 & [= <-]). apply zoom_inv in H3 as (s & H3 & ->).
  apply (ipcfilt_inv _ _ x2) in H3 as ->; [|done].
  split; [by apply (tables_filt k2 l x2)|]. exists (upd_info (set_ipc_accept old) x2).
  split; [by apply upd_pcb_lookup|done].
Qed.

Lemma keeps_dup i forig fdup : forig ≠ fdup → keeps (vfs_dup i forig fdup).
Proof.
  intros Hne k [] k' H Hk. unfold vfs_dup in H. apply bind_inv in H as (r & k1 & Hg & H).
  destruct (get_vfile_inv _ _ _ _ _ _ Hg Hk) as [E Hr]. pose proof (tables_procs k k1 E Hk) as Hk1.
  destruct r as [vf|]; [|by injection H as <-].
  destruct Hr as (l & x & j & v & -> & Hl & Hx & Ho). rewrite <- E in Hl, Hx.
  rewrite (bind_ok _ _ k1 (Some l) k1) in H by (by apply on_procs_id).
  destruct (_ && _) eqn:Hrange in H; [by apply (keeps_reply_to _ _ _ _ _ H)|].
  apply bind_inv in H as (d & k2 & Hd & H).
  assert (d = VFS_NIL_FILE ∧ tables_ok k2 ∨
    ∃ k3 x3 s1, tables_ok k3 ∧ pcbs (k_procs k3) !! l = Some x3 ∧ fds x3 !! Z.to_nat forig = Some j ∧
      fds x3 !! Z.to_nat d = Some VFS_NIL_FILE ∧ fd_set (Some l) d j (k_procs k3) = Ok tt s1 ∧
      k2 = set_procs s1 k3) as [[-> Hk2]|(k3 & x3 & s1 & Hk3 & Hx3 & Hj3 & Hd3 & Hs1 & ->)].
  { destruct (decide (fdup = VFS_NIL_FILE)) as [Hnil|Hnil].
    - apply bind_inv in Hd as (y & k3 & Hy & Hd). apply zoom_inv in Hy as (s & Hy & ->).
      apply pcb_get_some in Hy as (l' & [= <-] & Hy & ->). simplify_eq.
      replace (set_procs (k_procs k1) k1) with k1 in Hd by (by destruct k1). fold (free_fd y) in Hd.
      apply bind_inv in Hd as ([] & k3 & Hs & [= <- <-]).
      destruct (decide (free_fd y ≠ VFS_NIL_FILE)) as [Hfree|Hfree].
      + right. apply index_where_found in Hfree as (H0 & e & He & ->%Z.eqb_eq).
        erewrite bind_ok in Hs by (apply on_procs_id; eapply fd_get_run; [done|apply Ho|apply Ho]).
        apply zoom_inv in Hs as (s1 & Hs & ->). exists k1, y, s1. by destruct Ho.
      + left. injection Hs as <-. split; [|done]. by apply dec_stable.
    - right. apply bind_inv in Hd as (dvf & k3 & Hgd & Hd). apply bind_inv in Hd as ([] & k4 & Hm & Hd).
      assert (0 ≤ fdup < PROCESS_MAX_FDS) as Hin.
      { apply andb_false_iff in Hrange as [Hr|Hr]; [|by apply negb_false_iff, Z.eqb_eq in Hr].
        apply orb_false_iff in Hr as [?%bool_decide_eq_false ?%bool_decide_eq_false]. lia. }
      destruct (make_room_inv i l x forig fdup j dvf k1 k3 k4 Hgd Hk1 Hl Hx Hin) as (Hk4 & x4 & Hx4 & Hd4 & Hj4);
        [apply Ho|done|apply Ho|exact Hm|].
      erewrite bind_ok in Hd by (apply on_procs_id; eapply fd_get_run; [done|apply Ho|done]).
      apply bind_inv in Hd as ([] & k5 & Hs & [= <- <-]). apply zoom_inv in Hs as (s1 & Hs & ->).
      by exists k4, x4, s1. }
  - rewrite decide_True in H by done. by apply (keeps_reply_to _ _ _ _ _ H).
  - rewrite decide_False in H.
    2:{ intros ->. by apply fd_set_inv in Hs1 as (_ & _ & _ & _ & _ & ? & _). }
    apply bind_inv in H as ([] & k4 & Hu & H). apply zoom_inv in Hu as (s2 & Hu & ->).
    apply (keeps_reply_to _ _ _ _ _ H).
    apply (dup_installs k3 l x3 forig j d s1 s2); try done; apply Ho.
Qed.

(** ** All other calls and callbacks *)
Lemma keeps_malloc : keeps kmalloc.
Proof. apply keeps_mach. Qed.
Lemma keeps_malloc_nocheck : keeps kmalloc_nocheck.
Proof. unfold kmalloc_nocheck, kmalloc. keeps_auto. Qed.
Lemma keeps_get_cbuf : keeps get_cbuf.
Proof. apply keeps_gets. Qed.
Lemma keeps_put_cbuf b : keeps (put_cbuf b).
Proof. apply keeps_mach. Qed.
#[export] Hint Resolve keeps_malloc keeps_malloc_nocheck keeps_get_cbuf keeps_put_cbuf : keeps.
Lemma keeps_next_fd p b : keeps (on_procs (findNextFd p b)).
Proof. apply keeps_procs. unfold findNextFd. pres_auto. Qed.
Lemma keeps_get_stdin p : keeps (on_procs (process_get_stdin p)).
Proof. apply keeps_procs. unfold process_get_stdin. pres_auto. Qed.
Lemma keeps_new_vnode : keeps new_vnode.
Proof. unfold new_vnode. keeps_auto. Qed.
Lemma keeps_vnode_fh v : keeps (vnode_fh v).
Proof. unfold vnode_fh. keeps_auto. Qed.
Lemma keeps_run_request rq : keeps (run_request rq).
Proof. unfold run_request. keeps_auto; apply keeps_vnode_fh. Qed.
#[export] Hint Resolve keeps_next_fd keeps_get_stdin keeps_new_vnode keeps_vnode_fh keeps_run_request : keeps.
Lemma keeps_peek (q : list positive) : keeps (ListSpec.list_peek (S := kstate) q).
Proof. unfold ListSpec.list_peek. destruct q; keeps_auto. Qed.
#[export] Hint Resolve keeps_peek : keeps.
Lemma keeps_create_request vn i d : keeps (create_request vn i d).
Proof. unfold create_request. keeps_auto. Qed.
Lemma keeps_check_request rq : keeps (check_request rq).
Proof. unfold check_request. keeps_auto. Qed.
Lemma keeps_remove_request rq : keeps (remove_request rq).
Proof. unfold remove_request, run_head_request. keeps_auto. Qed.
#[export] Hint Resolve keeps_create_request keeps_check_request keeps_remove_request : keeps.
Lemma keeps_nfsfs_open i self p mode : keeps (nfsfs_open i self p mode).
Proof. unfold nfsfs_open, new_nfsfile. keeps_auto. Qed.
#[export] Hint Resolve keeps_nfsfs_open : keeps.
Lemma keeps_open i p mode rd wr : keeps (vfs_open i p mode rd wr).
Proof. unfold vfs_open. keeps_auto. Qed.
Lemma keeps_flush_ : keeps _flush.
Proof. unfold _flush, network_sendstring. keeps_auto. Qed.
#[export] Hint Resolve keeps_flush_ : keeps.
Lemma keeps_write_loop fuel : ∀ bs lastb n st, keeps (console_write_loop fuel bs lastb n st).
Proof. induction fuel as [|fuel IH]; intros bs lastb n st; destruct bs; cbn [console_write_loop]; keeps_auto. Qed.
#[export] Hint Resolve keeps_write_loop : keeps.
Lemma keeps_console_file self : keeps (console_file self).
Proof. unfold console_file. keeps_auto. Qed.
#[export] Hint Resolve keeps_console_file : keeps.
Lemma keeps_read i file buf n : keeps (vfs_read i file buf n).
Proof. unfold vfs_read, console_read, nfsfs_read. keeps_auto. Qed.
Lemma keeps_write i file buf n : keeps (vfs_write i file buf n).
Proof. unfold vfs_write, console_write, nfsfs_write. keeps_auto. Qed.
Lemma keeps_flush i file : keeps (vfs_flush i file).
Proof. unfold vfs_flush, console_flush, nfsfs_flush. keeps_auto. Qed.
Lemma keeps_getdirent i pos name n : keeps (vfs_getdirent i pos name n).
Proof. unfold vfs_getdirent, nfsfs_getdirent. keeps_auto. Qed.
Lemma keeps_stat `{StatLayout} i p buf : keeps (vfs_stat i p buf).
Proof. unfold vfs_stat, console_stat, nfsfs_stat. keeps_auto. Qed.
Lemma keeps_remove i p : keeps (vfs_remove i p).
Proof. unfold vfs_remove, console_remove, nfsfs_remove. keeps_auto. Qed.
Lemma keeps_lookup_cb key st fh attr : keeps (lookup_cb key st fh attr).
Proof. unfold lookup_cb. keeps_auto. Qed.
Lemma keeps_read_cb key st attr data : keeps (read_cb key st attr data).
Proof. unfold read_cb. keeps_auto. Qed.
Lemma keeps_write_cb key st attr : keeps (write_cb key st attr).
Proof. unfold write_cb. keeps_auto. Qed.
Lemma keeps_getdirent_cb key st names cookie : keeps (getdirent_cb key st names cookie).
Proof. unfold getdirent_cb, arr_get. keeps_auto. Qed.
Lemma keeps_stat_cb `{StatLayout} key st attr : keeps (stat_cb key st attr).
Proof. unfold stat_cb. keeps_auto. Qed.
Lemma keeps_remove_cb key st : keeps (remove_cb key st).
Proof. unfold remove_cb. keeps_auto. Qed.
Lemma keeps_serial c : keeps (serial_read_callback c).
Proof. unfold serial_read_callback. keeps_auto. Qed.
End FdTables.

Module FdTablesClaims.
Import FdTables VfsClaims.

(** The calls of processes, and what arrives from the file server and the
    serial line. *)
Inductive file_event :=
  | Call_open (pid : Z) (path : cstr) (mode readers writers : Z)
  | Call_close (pid file : Z)
  | Call_read (pid file buf nbyte : Z)
  | Call_write (pid file buf nbyte : Z)
  | Call_flush (pid file : Z)
  | Call_lseek (pid file pos whence : Z)
  | Call_getdirent (pid pos name nbyte : Z)
  | Call_stat (pid path buf : Z)
  | Call_remove (pid path : Z)
  | Call_dup (pid forig fdup : Z)
  | Answer_lookup (key status fh : Z) (attr : fattr_t)
  | Answer_read (key status : Z) (attr : fattr_t) (data : list Z)
  | Answer_write (key status : Z) (attr : fattr_t)
  | Answer_getdirent (key status : Z) (names : list (list Z)) (cookie : Z)
  | Answer_stat (key status : Z) (attr : fattr_t)
  | Answer_remove (key status : Z)
  | Serial_char (c : Z).
Definition happens `{StatLayout} (e : file_event) : K unit :=
  match e with
  | Call_open i p m r w => vfs_open i p m r w
  | Call_close i f => vfs_close i f
  | Call_read i f b n => vfs_read i f b n
  | Call_write i f b n => vfs_write i f b n
  | Call_flush i f => vfs_flush i f
  | Call_lseek i f p w => vfs_lseek i f p w
  | Call_getdirent i p a n => vfs_getdirent i p a n
  | Call_stat i p b => vfs_stat i p b
  | Call_remove i p => vfs_remove i p
  | Call_dup i f g => vfs_dup i f g
  | Answer_lookup t s fh a => lookup_cb t s fh a
  | Answer_read t s a d => read_cb t s a d
  | Answer_write t s a => write_cb t s a
  | Answer_getdirent t s ns c => getdirent_cb t s ns c
  | Answer_stat t s a => stat_cb t s a
  | Answer_remove t s => remove_cb t s
  | Serial_char c => serial_read_callback c
  end.
Definition dup_to_itself (e : file_event) : Prop :=
  match e with Call_dup _ f g => f = g | _ => False end.

Lemma keeps_happens `{StatLayout} e : ¬ dup_to_itself e → keeps (happens e).
Proof.
  intros He. destruct e; cbn [happens].
  - apply keeps_open.
  - apply keeps_close.
  - apply keeps_read.
  - apply keeps_write.
  - apply keeps_flush.
  - apply keeps_lseek.
  - apply keeps_getdirent.
  - apply keeps_stat.
  - apply keeps_remove.
  - by apply keeps_dup.
  - apply keeps_lookup_cb.
  - apply keeps_read_cb.
  - apply keeps_write_cb.
  - apply keeps_getdirent_cb.
  - apply keeps_stat_cb.
  - apply keeps_remove_cb.
  - apply keeps_serial.
Qed.

(** C24: the descriptor tables of every process stay well formed.  Along any
    sequence of file system calls of any processes with any arguments, successful
    or not, except a dup of a descriptor to itself, and of answers of the file
    server and characters of the serial line in any order, every descriptor of
    every process is free or leads to an open file, and every open file counts
    exactly the descriptors that lead to it.  (A descriptor duplicated to itself
    breaks this: [vfs_dup_self_leaks].) *)
Theorem descriptor_tables_well_formed `{StatLayout} evs k k' :
  tables_ok k → Forall (λ e, ¬ dup_to_itself e) evs → forM evs happens k = Ok tt k' → tables_ok k'.
Proof.
  intros Hk Hevs. revert k Hk. induction Hevs as [|e evs He _ IH]; intros k Hk Hrun; [by injection Hrun as <-|].
  cbn [forM] in Hrun. apply bind_inv in Hrun as ([] & k1 & H1 & H2).
  apply (IH k1); [|exact H2]. by apply (keeps_happens e He k tt).
Qed.

Definition small_layout : StatLayout :=
  {| stat_bytes := λ s, [u8 (st_fmode s)]; st_fmode_off := 0; stat_fmode_at := λ _, eq_refl |}.
Definition demo_events : list file_event := [Call_dup 5 1 2; Call_close 5 0; Call_read 5 9 0 10; Call_close 5 2].
Definition demo_end : kstate := after (forM demo_events (happens (H := small_layout))) fd_state.
Lemma fd_state_tables : tables_ok fd_state.
Proof. intros l x Hx. cbn in Hx. apply lookup_singleton_Some in Hx as [_ <-]. exact two_fds_ok. Qed.
Lemma descriptor_tables_well_formed_witness : tables_ok demo_end.
Proof.
  apply (descriptor_tables_well_formed (H := small_layout) demo_events fd_state demo_end fd_state_tables).
  - repeat constructor; intros ?; done.
  - apply (after_ok (forM demo_events (happens (H := small_layout))) fd_state tt). vm_compute. reflexivity.
Defined.

(** With two descriptors for a file, duplicating one to itself leaves one
    descriptor and a count of two, so that the file is never closed. *)
Theorem vfs_dup_self_leaks : ∃ k', vfs_dup 5 1 1 fd_state = Ok tt k' ∧ ¬ tables_ok k'.
Proof.
  eexists. split; [vm_compute; reflexivity|]. intros Hk.
  specialize (Hk 2%positive _ eq_refl). pose proof (files_ref _ Hk 0%nat _ eq_refl) as Hr.
  assert (2 = 1) as E; [|done]. apply Hr. done.
Qed.
End FdTablesClaims.
