(* ===== verification/Lifecycle.v ===== *)
(** * The end of a process ([sos/process.c])

    Waking the processes that wait for one that ended, and closing its files.
    The theorem says who is woken and what they are told. *)
From S2P Require Import Prelude Machine ListC Frames Swapfile State Pagetable Process Reply VfsCore.
From S2P Require Import Clock.
Import Process ProcessInv Reply VfsCore OpenDone ClockSpec.

Module Lifecycle.
(** One iteration of [wakeAll]. *)
Definition wake_body (wakeFor wakeFrom i : Z) : K unit :=
  e ← on_procs (processExists i);
  if (e : bool) then
    p ← on_procs (process_lookup i);
    x ← on_procs (pcb_get p);
    when (waitingOn x =? wakeFor)
      (on_procs (pcb_upd p (set_waitingOn WAIT_NOBODY));;
       on_procs (process_set_state p PS_STATE_ALIVE);;
       tid ← on_procs (process_get_tid p);
       syscall_reply tid wakeFrom)
  else mret tt.
Definition wakeAll (wakeFor wakeFrom : Z) : K unit :=
  off ← on_procs (gets tidOffset);
  forM (zseq off (Z.to_nat (MAX_ADDRSPACES - off))) (wake_body wakeFor wakeFrom).
Definition process_wake_all (pid : Z) : K unit :=
  wakeAll pid pid;; wakeAll WAIT_ANYBODY pid.

Definition process_close_files (p : ptr) : K unit :=
  forM (zseq 0 (Z.to_nat PROCESS_MAX_FILES)) (λ fd,
    pid ← on_procs (process_get_pid p);
    o ← vfs_isopen pid fd;
    when o
      (ipc_send_simple L4_rootserver PSOS_FLUSH SOS_IPC_SENDNONBLOCKING [fd; pid];;
       ipc_send_simple L4_rootserver PSOS_CLOSE SOS_IPC_SENDNONBLOCKING [fd; pid])).
End Lifecycle.

(** ** Who is woken *)
Module WakeSpec.
Import Lifecycle.

Definition woken (x : Process) : Process := alive (set_waitingOn WAIT_NOBODY x).
(** The process in entry [i] of the table, if there is one. *)
Definition proc_at (s : procs) (i : Z) : option (positive * Process) :=
  match slot s i with
  | Some l => if decide (l = 1%positive) then None else pair l <$> pcbs s !! l
  | None => None
  end.
Definition wake_entry (wakeFor wakeFrom : Z) (k : kstate) (i : Z) : kstate :=
  match proc_at (k_procs k) i with
  | Some (l, x) =>
      if waitingOn x =? wakeFor then
        klog_app (reply_events (L4_GlobalId i 1) [wakeFrom] (info (woken x)))
          (set_procs (upd_pcb l woken (k_procs k)) k)
      else k
  | None => k
  end.

Lemma proc_at_reg s i l x :
  procs_ok s → 0 ≤ i < MAX_ADDRSPACES → proc_at s i = Some (l, x) → registered_as s i l x.
Proof.
  intros Hok Hi H. unfold proc_at in H. destruct (slot s i) as [m|] eqn:Hs; [|done].
  case_decide as Hd; [done|]. destruct (pcbs s !! m) as [y|] eqn:Hy; [|done]. injection H as -> ->.
  split; [by rewrite lookup_ok, Hs|]. split; [done|].
  destruct (tbl_pcb _ Hok i l Hi Hs) as [Hp|Hp]; [by injection Hp|].
  unfold pids in Hp. rewrite lookup_fmap, Hy in Hp. by injection Hp.
Qed.
Lemma proc_at_none s i :
  procs_ok s → 0 ≤ i < MAX_ADDRSPACES → proc_at s i = None → slot s i = NULL ∨ slot s i = PS_PLACEHOLDER.
Proof.
  intros Hok Hi H. unfold proc_at in H. destruct (slot s i) as [m|] eqn:Hs; [|by left].
  case_decide as Hd; [right; by subst|]. destruct (tbl_pcb _ Hok i m Hi Hs) as [Hp|Hp]; [by injection Hp|].
  unfold pids in Hp. rewrite lookup_fmap in Hp. by destruct (pcbs s !! m).
Qed.

Lemma wake_view k i a b : pid_view (k_procs (wake_entry a b k i)) = pid_view (k_procs k).
Proof.
  unfold wake_entry. destruct (proc_at _ _) as [[l x]|]; [|done]. destruct (_ =? _); [|done].
  unfold pid_view, pids. simpl. do 3 f_equal. apply map_eq. intros j. rewrite !lookup_fmap, lookup_alter.
  case_decide as E; [rewrite <- E|done]. by destruct (pcbs (k_procs k) !! l).
Qed.
Lemma wake_ok k i a b : procs_ok (k_procs k) → procs_ok (k_procs (wake_entry a b k i)).
Proof. apply procs_ok_view, wake_view. Qed.

Lemma wake_body_run a b k i :
  procs_ok (k_procs k) → tidOffset (k_procs k) ≤ i < MAX_ADDRSPACES →
  wake_body a b i k = Ok tt (wake_entry a b k i).
Proof.
  intros Hok Hi. pose proof (off_range _ Hok) as Ho. unfold wake_body, wake_entry.
  rewrite (bind_ok _ _ _ _ _ (on_procs_id _ _ _ (exists_ok _ _ Hok Hi))).
  destruct (proc_at (k_procs k) i) as [[l x]|] eqn:Hp; last first.
  { rewrite bool_decide_false; [done|]. intros [? ?].
    destruct (proc_at_none _ i Hok ltac:(lia) Hp); done. }
  destruct (proc_at_reg _ i _ _ Hok ltac:(lia) Hp) as (Hl & Hx & Hpid).
  assert (slot (k_procs k) i = Some l ∧ l ≠ 1%positive) as [Hs Hne].
  { unfold proc_at in Hp. destruct (slot (k_procs k) i) as [m|]; [|done]. case_decide; [done|].
    destruct (pcbs _ !! m); [|done]. by injection Hp as -> ->. }
  rewrite Hs, bool_decide_true by (split; [done|by intros [= ->]]).
  rewrite (bind_ok _ _ k (Some l) k) by (by apply on_procs_id).
  rewrite (bind_ok _ _ k x k) by (by apply on_procs_id, pcb_get_run).
  destruct (waitingOn x =? a); [|done]. cbn [when].
  rewrite (bind_ok _ _ _ _ _ (on_procs_run _ k _ _ (pcb_upd_run _ _ _ _ Hx))).
  unfold process_set_state.
  erewrite bind_ok by (apply on_procs_run; eapply pcb_upd_run, upd_pcb_lookup; exact Hx).
  cbn [k_procs set_procs]. rewrite upd_pcb_twice.
  set (s2 := upd_pcb l _ (k_procs k)). assert (s2 = upd_pcb l woken (k_procs k)) as -> by done.
  set (k2 := set_procs _ _). assert (registered_as (k_procs k2) i l (woken x)) as Hreg.
  { apply (registered_upd (k_procs k) i l x woken); [by split|done]. }
  exact (reply_to_run k2 i l (woken x) b Hreg).
Qed.

Lemma wake_loop_run a b (n : nat) : ∀ k i,
  procs_ok (k_procs k) → tidOffset (k_procs k) ≤ i → i + n ≤ MAX_ADDRSPACES →
  forM (zseq i n) (wake_body a b) k = Ok tt (foldl (wake_entry a b) k (zseq i n)).
Proof.
  induction n as [|n IH]; intros k i Hok Hi Hn; [done|]. rewrite zseq_S. cbn [forM foldl].
  rewrite (bind_ok _ _ _ _ _ (wake_body_run a b k i Hok ltac:(lia))).
  apply IH; [by apply wake_ok| |lia].
  pose proof (wake_view k i a b) as Hv. unfold pid_view in Hv. injection Hv as _ _ -> _. lia.
Qed.
Definition indices (s : procs) : list Z :=
  zseq (tidOffset s) (Z.to_nat (MAX_ADDRSPACES - tidOffset s)).
Lemma wakeAll_run a b k :
  procs_ok (k_procs k) → wakeAll a b k = Ok tt (foldl (wake_entry a b) k (indices (k_procs k))).
Proof.
  intros Hok. pose proof (off_range _ Hok). unfold wakeAll.
  rewrite (bind_ok _ _ k (tidOffset (k_procs k)) k) by (by apply on_procs_id).
  apply wake_loop_run; [done|lia|lia].
Qed.

(** What one pass does to an entry, and the replies it sends. *)
Definition pass (a : Z) (x : Process) : Process := if waitingOn x =? a then woken x else x.
Definition pass_events (a b : Z) (s : procs) (i : Z) : list event :=
  match proc_at s i with
  | Some (_, x) => if waitingOn x =? a then reply_events (L4_GlobalId i 1) [b] (info (woken x)) else []
  | None => []
  end.
Definition in_table (s : procs) (i : Z) : Prop := tidOffset s ≤ i < MAX_ADDRSPACES.
#[global] Instance in_table_dec s i : Decision (in_table s i).
Proof. unfold in_table. apply _. Defined.

Lemma slot_wake a b k i j : slot (k_procs (wake_entry a b k i)) j = slot (k_procs k) j.
Proof.
  pose proof (wake_view k i a b) as Hv. unfold pid_view in Hv. injection Hv as _ E _ _.
  unfold slot. by rewrite E.
Qed.
Lemma proc_at_wake a b k i j :
  procs_ok (k_procs k) → 0 ≤ i < MAX_ADDRSPACES → 0 ≤ j < MAX_ADDRSPACES →
  proc_at (k_procs (wake_entry a b k i)) j =
  if decide (i = j) then prod_map id (pass a) <$> proc_at (k_procs k) j else proc_at (k_procs k) j.
Proof.
  intros Hok Hi Hj. unfold proc_at at 1. rewrite slot_wake. unfold wake_entry.
  destruct (proc_at (k_procs k) i) as [[l x]|] eqn:Hp.
  - pose proof (proc_at_reg _ _ _ _ Hok Hi Hp) as (Hli & Hx & Hpid).
    assert (slot (k_procs k) i = Some l ∧ l ≠ 1%positive) as [Hs Hne].
    { unfold proc_at in Hp. destruct (slot (k_procs k) i) as [m|]; [|done]. case_decide; [done|].
      destruct (pcbs _ !! m); [|done]. by injection Hp as -> ->. }
    case_decide as Hd.
    + subst j. rewrite Hs, Hp, decide_False by done. unfold pass. simpl.
      destruct (waitingOn x =? a); simpl; [by rewrite lookup_alter_eq, Hx|by rewrite Hx].
    + unfold proc_at. destruct (slot (k_procs k) j) as [m|] eqn:Hm; [|done]. case_decide; [done|].
      destruct (waitingOn x =? a); [|done]. simpl. rewrite lookup_alter_ne; [done|].
      intros <-. apply Hd. destruct (tbl_pcb _ Hok j l Hj Hm) as [E|E]; [by injection E|].
      unfold pids in E. rewrite lookup_fmap, Hx in E. injection E. lia.
  - case_decide as Hd; [subst; rewrite Hp|done]. unfold proc_at in Hp. exact Hp.
Qed.

Lemma pass_fold a b is_ : ∀ k,
  procs_ok (k_procs k) → NoDup is_ → (∀ i, i ∈ is_ → 0 ≤ i < MAX_ADDRSPACES) →
  let k' := foldl (wake_entry a b) k is_ in
  pid_view (k_procs k') = pid_view (k_procs k) ∧
  (∀ j, 0 ≤ j < MAX_ADDRSPACES → proc_at (k_procs k') j =
    if decide (j ∈ is_) then prod_map id (pass a) <$> proc_at (k_procs k) j else proc_at (k_procs k) j) ∧
  klog k' = klog k ++ concat (pass_events a b (k_procs k) <$> is_).
Proof.
  induction is_ as [|i is_ IH]; intros k Hok Hnd Hr k'.
  { split; [done|]. split; [|by rewrite app_nil_r]. intros j Hj.
    by rewrite decide_False by (by intros ?%elem_of_nil). }
  apply NoDup_cons in Hnd as [Hni Hnd].
  assert (0 ≤ i < MAX_ADDRSPACES) as Hi by (apply Hr; by left).
  destruct (IH (wake_entry a b k i)) as (I1 & I2 & I3); [by apply wake_ok|done|intros; apply Hr; by right|].
  split; [unfold k'; simpl; by rewrite I1, wake_view|]. split.
  - intros j Hj. unfold k'. cbn [foldl]. rewrite I2, proc_at_wake by done.
    destruct (decide (i = j)) as [<-|Hne].
    + rewrite (decide_True (P := i ∈ i :: is_)) by (by left). by rewrite decide_False.
    + assert (j ∈ i :: is_ ↔ j ∈ is_) as E by (rewrite elem_of_cons; naive_solver).
      repeat case_decide; naive_solver.
  - unfold k'. cbn [foldl fmap list_fmap concat]. rewrite I3.
    assert (klog (wake_entry a b k i) = klog k ++ pass_events a b (k_procs k) i) as ->.
    { unfold wake_entry, pass_events. destruct (proc_at _ _) as [[l x]|]; [|by rewrite app_nil_r].
      destruct (_ =? _); [done|by rewrite app_nil_r]. }
    rewrite <- app_assoc. do 3 f_equal. apply list_fmap_ext. intros n j Hj.
    unfold pass_events. rewrite proc_at_wake; [|done..|apply Hr; right; by eapply list_elem_of_lookup_2].
    rewrite decide_False; [done|]. intros <-. apply Hni. by eapply list_elem_of_lookup_2.
Qed.

Lemma indices_in s i : procs_ok s → i ∈ indices s ↔ in_table s i.
Proof. intros Hok. pose proof (off_range _ Hok). unfold indices, in_table. rewrite elem_of_zseq. lia. Qed.
Lemma indices_NoDup s : NoDup (indices s).
Proof. unfold indices, zseq. apply NoDup_fmap_2; [intros ?? ?; lia|apply NoDup_seq]. Qed.

(** What waking leaves alone. *)
Definition unwoken (k : kstate) :=
  (k_vfs k, k_nfs k, k_con k, k_pager k, k_clock k, Swapfile.swapfiles (k_swap k),
   (mem (kmach k), cbuf (kmach k)), Frames.firstFree (Swapfile.frs (k_swap k))).
Lemma wake_unwoken a b is_ : ∀ k, unwoken (foldl (wake_entry a b) k is_) = unwoken k.
Proof.
  induction is_ as [|i is_ IH]; intros k; [done|]. cbn [foldl]. rewrite IH. unfold wake_entry.
  destruct (proc_at _ _) as [[l x]|]; [|done]. by destruct (_ =? _).
Qed.

Lemma pass_run a b k :
  procs_ok (k_procs k) →
  ∃ k', wakeAll a b k = Ok tt k' ∧ pid_view (k_procs k') = pid_view (k_procs k) ∧
  unwoken k' = unwoken k ∧
  (∀ j, in_table (k_procs k) j → proc_at (k_procs k') j = prod_map id (pass a) <$> proc_at (k_procs k) j) ∧
  klog k' = klog k ++ concat (pass_events a b (k_procs k) <$> indices (k_procs k)).
Proof.
  intros Hok. pose proof (off_range _ Hok) as Ho. eexists. split; [by apply wakeAll_run|].
  destruct (pass_fold a b (indices (k_procs k)) k) as (H1 & H2 & H3);
    [done|apply indices_NoDup|intros i Hi%indices_in; [unfold in_table in Hi; lia|done]|].
  split; [done|]. split; [apply wake_unwoken|]. split; [|done]. intros j Hj.
  rewrite H2, decide_True; [done|by apply indices_in|unfold in_table in Hj; lia].
Qed.
Lemma wake_all_run k pid_ :
  procs_ok (k_procs k) → 0 ≤ pid_ →
  ∃ k', process_wake_all pid_ k = Ok tt k' ∧
    pid_view (k_procs k') = pid_view (k_procs k) ∧ unwoken k' = unwoken k ∧
    (∀ j, in_table (k_procs k) j → proc_at (k_procs k') j =
       prod_map id (λ x, if decide (waitingOn x = pid_ ∨ waitingOn x = WAIT_ANYBODY) then woken x else x)
         <$> proc_at (k_procs k) j) ∧
    klog k' = klog k
      ++ concat (pass_events pid_ pid_ (k_procs k) <$> indices (k_procs k))
      ++ concat (pass_events WAIT_ANYBODY pid_ (k_procs k) <$> indices (k_procs k)).
Proof.
  intros Hok Hpid. destruct (pass_run pid_ pid_ k Hok) as (k1 & R1 & V1 & U1 & P1 & L1).
  destruct (pass_run WAIT_ANYBODY pid_ k1) as (k2 & R2 & V2 & U2 & P2 & L2); [by apply (procs_ok_view (k_procs k))|].
  assert (tidOffset (k_procs k1) = tidOffset (k_procs k)) as Eo by (unfold pid_view in V1; by injection V1).
  exists k2. split; [unfold process_wake_all; by rewrite (bind_ok _ _ _ _ _ R1)|].
  split; [congruence|]. split; [congruence|]. split.
  - intros j Hj. rewrite P2 by (unfold in_table in *; lia). rewrite P1 by done.
    destruct (proc_at (k_procs k) j) as [[l x]|]; [|done]. cbn. do 2 f_equal.
    unfold pass. destruct (Z.eqb_spec (waitingOn x) pid_) as [E|E].
    + rewrite decide_True by (by left). done.
    + destruct (Z.eqb_spec (waitingOn x) WAIT_ANYBODY); case_decide; naive_solver.
  - rewrite L2, L1, <- app_assoc. do 2 f_equal. unfold indices. rewrite Eo.
    f_equal. apply list_fmap_ext. intros n j Hj%list_elem_of_lookup_2.
    assert (in_table (k_procs k) j) as Hin by (apply indices_in; done).
    unfold pass_events. rewrite P1 by done. destruct (proc_at (k_procs k) j) as [[l x]|]; [|done].
    simpl. unfold pass. destruct (Z.eqb_spec (waitingOn x) pid_) as [E|E]; [|done].
    rewrite (proj2 (Z.eqb_neq (waitingOn x) _)); [done|]. unfold WAIT_ANYBODY. lia.
Qed.
End WakeSpec.

Module LifecycleClaims.
Import Lifecycle WakeSpec.

(** C33: when process [pid] has ended, every process of the table that waits
    for it or for anybody, and nobody else, becomes alive and stops waiting; it
    is sent one reply with the pid that ended, first those that waited for this
    process, then those that waited for any, each group in table order. *)
Theorem process_wake_all_effect k pid_ :
  procs_ok (k_procs k) → 0 ≤ pid_ →
  ∃ k', process_wake_all pid_ k = Ok tt k' ∧
    (∀ j l x, in_table (k_procs k) j → proc_at (k_procs k) j = Some (l, x) →
       proc_at (k_procs k') j = Some (l,
         if decide (waitingOn x = pid_ ∨ waitingOn x = WAIT_ANYBODY) then woken x else x)) ∧
    klog k' = klog k
      ++ concat (pass_events pid_ pid_ (k_procs k) <$> indices (k_procs k))
      ++ concat (pass_events WAIT_ANYBODY pid_ (k_procs k) <$> indices (k_procs k)).
Proof.
  intros Hok Hpid. destruct (wake_all_run k pid_ Hok Hpid) as (k' & Hrun & _ & _ & Hp & Hl).
  exists k'. split; [done|]. split; [|done]. intros j l x Hj Hx. by rewrite Hp, Hx.
Qed.

(** Process 5 waits for any process to end. *)
Definition waiting_procs : procs :=
  set_pcbs {[ 2%positive := set_waitingOn WAIT_ANYBODY ReplyClaims.alive_proc ]} ReplyClaims.alive_procs.
Lemma waiting_ok : procs_ok waiting_procs.
Proof.
  split; [reflexivity|by apply (bool_decide_unpack _)| |reflexivity].
  intros i l Hi Hs. right.
  change waiting_procs with (set_sosProcs (<[Z.to_nat 5 := Some 2%positive]> (sosProcs ProcessClaims.procs0))
    (set_pcbs (pcbs waiting_procs) ProcessClaims.procs0)) in Hs.
  unfold slot in Hs. cbn [sosProcs set_sosProcs] in Hs. rewrite list_lookup_insert in Hs.
  case_decide as Hd; simpl in Hs.
  - injection Hs as <-. destruct Hd as [Hd _]. replace i with 5 by lia. reflexivity.
  - change (slot ProcessClaims.procs0 i = Some l) in Hs. by rewrite ProcessClaims.procs0_slot in Hs.
Qed.
Lemma process_wake_all_effect_witness :
  ∃ k', process_wake_all 7 (ProcessClaims.kboot waiting_procs) = Ok tt k' ∧
    proc_at (k_procs k') 5 = Some (2%positive, ReplyClaims.alive_proc).
Proof.
  destruct (process_wake_all_effect (ProcessClaims.kboot waiting_procs) 7) as (k' & H1 & H2 & _);
    [apply waiting_ok|lia|].
  exists k'. split; [exact H1|].
  rewrite (H2 5 2%positive (set_waitingOn WAIT_ANYBODY ReplyClaims.alive_proc)); [reflexivity| |reflexivity].
  apply (bool_decide_unpack _). vm_compute. exact I.
Defined.
End LifecycleClaims.
