(* ===== verification/Elf.v ===== *)
(** * Reading ELF headers ([libs/elf/src/elf32.c], [libs/elf/include/elf32.h])

    The functions of the ELF library that the loader in [sos/pager.c] calls,
    on the bytes of a file in memory; the header structures as field offsets
    of the 32-bit big-endian target. *)
From S2P Require Import Prelude Machine.

Module Elf.
Definition load16 (m : memory) (a : Z) : Z := load8 m a * 2 ^ 8 + load8 m (a + 1).

(** [struct Elf32_Header] and [struct Elf32_Phdr] *)
Definition e_entry : Z := 24.
Definition e_phoff : Z := 28.
Definition e_phnum : Z := 44.
Definition sizeof_Phdr : Z := 32.
Definition p_offset : Z := 4.
Definition p_vaddr : Z := 8.
Definition p_filesz : Z := 16.
Definition p_memsz : Z := 20.
Definition p_flags : Z := 24.

Definition ELFMAG : list Z := [127; 69; 76; 70].
Definition EI_CLASS : Z := 4.
Definition ELFCLASS32 : Z := 1.

Definition elf32_checkFile (m : memory) (file : Z) : Z :=
  if decide ((λ i, load8 m (file + i)) <$> [0; 1; 2; 3] ≠ ELFMAG) then -1
  else if decide (load8 m (file + EI_CLASS) ≠ ELFCLASS32) then -2
  else 0.
Definition elf32_getNumProgramHeaders (m : memory) (file : Z) : Z := load16 m (file + e_phnum).
Definition elf32_getEntryPoint (m : memory) (file : Z) : Z := load32 m (file + e_entry).
Definition elf32_getProgramHeaderTable (m : memory) (file : Z) : Z :=
  w32 (file + load32 m (file + e_phoff)).
(** A field of the [ph]-th program header. *)
Definition phdr_field (off : Z) (m : memory) (file ph : Z) : Z :=
  load32 m (elf32_getProgramHeaderTable m file + ph mod 2 ^ 16 * sizeof_Phdr + off).
Definition elf32_getProgramHeaderFlags : memory → Z → Z → Z := phdr_field p_flags.
Definition elf32_getProgramHeaderFileSize : memory → Z → Z → Z := phdr_field p_filesz.
Definition elf32_getProgramHeaderMemorySize : memory → Z → Z → Z := phdr_field p_memsz.
Definition elf32_getProgramHeaderVaddr : memory → Z → Z → Z := phdr_field p_vaddr.
Definition elf32_getProgramHeaderOffset : memory → Z → Z → Z := phdr_field p_offset.
End Elf.
