(* ===== verification/ElfLib.v ===== *)
(** * The ELF library ([libs/elf/src/elf.c], [elf32.c], [elf64.c])

    The loader of [sos/pager.c] uses the few functions of [Elf]; this file has
    the rest of the library: sections, 64-bit files, the functions that work on
    either class, the bounds of a program in memory and the loading of a program
    that is in memory as a file.  The functions that only print are left out.
    Pointers have 32 bits, as on the target. *)
From S2P Require Import Prelude Machine Elf.
Import Elf.

Module ElfLib.
(** ** 32-bit files *)
Definition e_shoff : Z := 32.
Definition e_shnum : Z := 48.
Definition e_shstrndx : Z := 50.
Definition sizeof_Shdr : Z := 40.
Definition sh_name : Z := 0.
Definition sh_type : Z := 4.
Definition sh_flags : Z := 8.
Definition sh_addr : Z := 12.
Definition sh_offset : Z := 16.
Definition sh_size : Z := 20.
Definition p_type : Z := 0.
Definition p_paddr : Z := 12.

(** A section has a name in the file, or the library's own text for a file
    without names. *)
Inductive name_t := Corrupted | NameAt (a : Z).
Definition CORRUPTED : cstr := bytes_of_string "<corrupted>".
(** The bytes at [a] are the string [s] and its NUL. *)
Fixpoint holds_string (m : memory) (a : Z) (s : cstr) : bool :=
  match s with
  | [] => load8 m a =? 0
  | c :: s' => (load8 m a =? c) && holds_string m (a + 1) s'
  end.
(** [strcmp(s, name) == 0] *)
Definition is_name (m : memory) (s : cstr) (n : name_t) : bool :=
  match n with Corrupted => bool_decide (s = CORRUPTED) | NameAt a => holds_string m a s end.

Definition elf32_getSectionTable (m : memory) (file : Z) : Z := w32 (file + load32 m (file + e_shoff)).
Definition shdr_field (off : Z) (m : memory) (file i : Z) : Z :=
  load32 m (elf32_getSectionTable m file + i * sizeof_Shdr + off).
Definition elf32_getNumSections (m : memory) (file : Z) : Z := load16 m (file + e_shnum).
Definition elf32_getStringTable (m : memory) (file : Z) : Z :=
  w32 (file + shdr_field sh_offset m file (load16 m (file + e_shstrndx))).
Definition elf32_getSegmentStringTable (m : memory) (file : Z) : option Z :=
  if decide (load16 m (file + e_shstrndx) = 0) then None else Some (elf32_getStringTable m file).
Definition elf32_getSectionName (m : memory) (file i : Z) : name_t :=
  match elf32_getSegmentStringTable m file with
  | None => Corrupted
  | Some t => NameAt (t + shdr_field sh_name m file i)
  end.
Definition elf32_getSectionSize : memory → Z → Z → Z := shdr_field sh_size.
Definition elf32_getSectionAddr : memory → Z → Z → Z := shdr_field sh_addr.
Definition elf32_getSection (m : memory) (file i : Z) : Z := w32 (file + shdr_field sh_offset m file i).
Definition elf32_getSectionType (m : memory) (file s : Z) : Z := shdr_field sh_type m file (s mod 2 ^ 16).
Definition elf32_getSectionFlags (m : memory) (file s : Z) : Z := shdr_field sh_flags m file (s mod 2 ^ 16).
(** The loop over the sections from [i], [n] of them. *)
Fixpoint section_named (name : Z → name_t) (m : memory) (str : cstr) (i : Z) (n : nat) : option Z :=
  match n with
  | O => None
  | S n' => if is_name m str (name i) then Some i else section_named name m str (i + 1) n'
  end.
Definition elf32_getSectionNamed (m : memory) (file : Z) (str : cstr) : option Z :=
  elf32_getSection m file <$>
    section_named (elf32_getSectionName m file) m str 0 (Z.to_nat (elf32_getNumSections m file)).
Definition elf32_getProgramHeaderType : memory → Z → Z → Z := phdr_field p_type.
Definition elf32_getProgramHeaderPaddr : memory → Z → Z → Z := phdr_field p_paddr.
Definition elf32_getProgramSegmentTable (m : memory) (file : Z) : Z := w32 (load32 m (file + e_phoff) + file).
Definition segment_field (off : Z) (m : memory) (file segment : Z) : Z :=
  load32 m (elf32_getProgramSegmentTable m file + segment * sizeof_Phdr + off).
Definition elf32_getSegmentType : memory → Z → Z → Z := segment_field p_type.
(** [p_vaddr], [p_addr], [p_filesz], [p_offset], [p_memsz] *)
Record segment_info := mkInfo { i_vaddr : Z; i_paddr : Z; i_filesz : Z; i_offset : Z; i_memsz : Z }.
Definition elf32_getSegmentInfo (m : memory) (file segment : Z) : segment_info :=
  mkInfo (segment_field p_vaddr m file segment) (segment_field p_paddr m file segment)
    (segment_field p_filesz m file segment) (segment_field p_offset m file segment)
    (segment_field p_memsz m file segment).

(** ** 64-bit files *)
Definition load64 (m : memory) (a : Z) : Z := load32 m a * 2 ^ 32 + load32 m (a + 4).
Definition ELFCLASS64 : Z := 2.
Definition elf64_checkFile (m : memory) (file : Z) : Z :=
  if decide ((λ i, load8 m (file + i)) <$> [0; 1; 2; 3] ≠ ELFMAG) then -1
  else if decide (load8 m (file + EI_CLASS) ≠ ELFCLASS64) then -2
  else 0.
Definition elf64_getProgramHeaderTable (m : memory) (file : Z) : Z := w32 (file + load64 m (file + 32)).
Definition elf64_getSectionTable (m : memory) (file : Z) : Z := w32 (file + load64 m (file + 40)).
Definition phdr64 (m : memory) (file ph : Z) : Z := elf64_getProgramHeaderTable m file + ph mod 2 ^ 16 * 56.
Definition shdr64 (m : memory) (file i : Z) : Z := elf64_getSectionTable m file + i * 64.
Definition elf64_getNumProgramHeaders (m : memory) (file : Z) : Z := load16 m (file + 56).
Definition elf64_getEntryPoint (m : memory) (file : Z) : Z := load64 m (file + 24).
Definition elf64_getProgramHeaderType (m : memory) (file ph : Z) : Z := load32 m (phdr64 m file ph).
Definition elf64_getProgramHeaderFlags (m : memory) (file ph : Z) : Z := load32 m (phdr64 m file ph + 4).
Definition elf64_getProgramHeaderOffset (m : memory) (file ph : Z) : Z := load64 m (phdr64 m file ph + 8).
Definition elf64_getProgramHeaderVaddr (m : memory) (file ph : Z) : Z := load64 m (phdr64 m file ph + 16).
Definition elf64_getProgramHeaderPaddr (m : memory) (file ph : Z) : Z := load64 m (phdr64 m file ph + 24).
Definition elf64_getProgramHeaderFileSize (m : memory) (file ph : Z) : Z := load64 m (phdr64 m file ph + 32).
Definition elf64_getProgramHeaderMemorySize (m : memory) (file ph : Z) : Z := load64 m (phdr64 m file ph + 40).
Definition elf64_getNumSections (m : memory) (file : Z) : Z := load16 m (file + 60).
Definition elf64_getSection (m : memory) (file i : Z) : Z := w32 (file + load64 m (shdr64 m file i + 24)).
Definition elf64_getStringTable (m : memory) (file string_segment : Z) : Z := elf64_getSection m file string_segment.
Definition elf64_getSegmentStringTable (m : memory) (file : Z) : option Z :=
  let i := load16 m (file + 62) in
  if decide (i = 0) then None else Some (elf64_getStringTable m file i).
Definition elf64_getSectionName (m : memory) (file i : Z) : name_t :=
  match elf64_getSegmentStringTable m file with
  | None => Corrupted
  | Some t => NameAt (t + load32 m (shdr64 m file i))
  end.
Definition elf64_getSectionType (m : memory) (file s : Z) : Z := load32 m (shdr64 m file (s mod 2 ^ 16) + 4).
Definition elf64_getSectionFlags (m : memory) (file s : Z) : Z := w32 (load64 m (shdr64 m file (s mod 2 ^ 16) + 8)).
Definition elf64_getSectionAddr (m : memory) (file i : Z) : Z := load64 m (shdr64 m file i + 16).
Definition elf64_getSectionSize (m : memory) (file i : Z) : Z := load64 m (shdr64 m file i + 32).
Definition elf64_getSectionNamed (m : memory) (file : Z) (str : cstr) : option Z :=
  elf64_getSection m file <$>
    section_named (elf64_getSectionName m file) m str 0 (Z.to_nat (elf64_getNumSections m file)).
Definition elf64_getProgramSegmentTable (m : memory) (file : Z) : Z := w32 (w32 (load64 m (file + 32)) + file).
Definition segment64 (m : memory) (file segment : Z) : Z := elf64_getProgramSegmentTable m file + segment * 56.
Definition elf64_getSegmentType (m : memory) (file segment : Z) : Z := load32 m (segment64 m file segment).
Definition elf64_getSegmentInfo (m : memory) (file segment : Z) : segment_info :=
  let a := segment64 m file segment in
  mkInfo (load64 m (a + 16)) (load64 m (a + 24)) (load64 m (a + 32)) (load64 m (a + 8)) (load64 m (a + 40)).

(** ** Files of either class *)
Definition ISELF32 (m : memory) (file : Z) : bool := load8 m (file + EI_CLASS) =? ELFCLASS32.
Definition by_class {A} (f32 f64 : memory → Z → A) (m : memory) (file : Z) : A :=
  if ISELF32 m file then f32 m file else f64 m file.
Definition elf_checkFile : memory → Z → Z := by_class elf32_checkFile elf64_checkFile.
Definition elf_getNumProgramHeaders : memory → Z → Z :=
  by_class elf32_getNumProgramHeaders elf64_getNumProgramHeaders.
Definition elf_getProgramHeaderFlags : memory → Z → Z → Z :=
  by_class elf32_getProgramHeaderFlags elf64_getProgramHeaderFlags.
Definition elf_getProgramHeaderType : memory → Z → Z → Z :=
  by_class elf32_getProgramHeaderType elf64_getProgramHeaderType.
Definition elf_getProgramHeaderPaddr : memory → Z → Z → Z :=
  by_class elf32_getProgramHeaderPaddr elf64_getProgramHeaderPaddr.
Definition elf_getProgramHeaderVaddr : memory → Z → Z → Z :=
  by_class elf32_getProgramHeaderVaddr elf64_getProgramHeaderVaddr.
Definition elf_getProgramHeaderMemorySize : memory → Z → Z → Z :=
  by_class elf32_getProgramHeaderMemorySize elf64_getProgramHeaderMemorySize.
Definition elf_getProgramHeaderFileSize : memory → Z → Z → Z :=
  by_class elf32_getProgramHeaderFileSize elf64_getProgramHeaderFileSize.
Definition elf_getProgramHeaderOffset : memory → Z → Z → Z :=
  by_class elf32_getProgramHeaderOffset elf64_getProgramHeaderOffset.
Definition elf_getSegmentStringTable : memory → Z → option Z :=
  by_class elf32_getSegmentStringTable elf64_getSegmentStringTable.
Definition elf_getStringTable (m : memory) (file string_segment : Z) : Z :=
  by_class elf32_getStringTable (λ m file, elf64_getStringTable m file string_segment) m file.
Definition elf_getNumSections : memory → Z → Z := by_class elf32_getNumSections elf64_getNumSections.
Definition elf_getSectionName : memory → Z → Z → name_t := by_class elf32_getSectionName elf64_getSectionName.
Definition elf_getSectionFlags : memory → Z → Z → Z := by_class elf32_getSectionFlags elf64_getSectionFlags.
Definition elf_getSectionType : memory → Z → Z → Z := by_class elf32_getSectionType elf64_getSectionType.
Definition elf_getSectionSize : memory → Z → Z → Z := by_class elf32_getSectionSize elf64_getSectionSize.
Definition elf_getSectionAddr : memory → Z → Z → Z := by_class elf32_getSectionAddr elf64_getSectionAddr.
Definition elf_getSection : memory → Z → Z → Z := by_class elf32_getSection elf64_getSection.
Definition elf_getSectionNamed : memory → Z → cstr → option Z :=
  by_class elf32_getSectionNamed elf64_getSectionNamed.
Definition elf_getEntryPoint : memory → Z → Z := by_class elf32_getEntryPoint elf64_getEntryPoint.
Definition elf_getProgramHeaderInfo (m : memory) (file ph : Z) : segment_info :=
  mkInfo (elf_getProgramHeaderVaddr m file ph) (elf_getProgramHeaderPaddr m file ph)
    (elf_getProgramHeaderFileSize m file ph) (elf_getProgramHeaderOffset m file ph)
    (elf_getProgramHeaderMemorySize m file ph).

(** ** A program in memory *)
Definition w64 (z : Z) : Z := z mod 2 ^ 64.
Definition UINT64_MAX : Z := 2 ^ 64 - 1.
(** Where the [i]-th segment goes. *)
Definition segment_start (m : memory) (file : Z) (phys : bool) (i : Z) : Z :=
  if phys then elf_getProgramHeaderPaddr m file i else elf_getProgramHeaderVaddr m file i.
Fixpoint bounds_loop (m : memory) (file : Z) (phys : bool) (i : Z) (n : nat) (mem_min mem_max : Z) : Z * Z :=
  match n with
  | O => (mem_min, mem_max)
  | S n' =>
      if decide (elf_getProgramHeaderMemorySize m file i = 0) then
        bounds_loop m file phys (i + 1) n' mem_min mem_max
      else
        let sect_min := segment_start m file phys i in
        let sect_max := w64 (sect_min + elf_getProgramHeaderMemorySize m file i) in
        bounds_loop m file phys (i + 1) n'
          (if decide (sect_min < mem_min) then sect_min else mem_min)
          (if decide (mem_max < sect_max) then sect_max else mem_max)
  end.
(** [None]: 0 is returned. *)
Definition elf_getMemoryBounds (m : memory) (file : Z) (phys : bool) : option (Z * Z) :=
  if decide (elf_checkFile m file ≠ 0) then None
  else Some (bounds_loop m file phys 0 (Z.to_nat (elf_getNumProgramHeaders m file)) UINT64_MAX 0).
Definition elf_vaddrInProgramHeader (m : memory) (file ph vaddr : Z) : bool :=
  let min := elf_getProgramHeaderVaddr m file ph in
  let max := w64 (min + elf_getProgramHeaderMemorySize m file ph) in
  bool_decide (min ≤ vaddr ∧ vaddr < max).
Definition elf_vtopProgramHeader (m : memory) (file ph vaddr : Z) : Z :=
  w64 (vaddr - elf_getProgramHeaderVaddr m file ph + elf_getProgramHeaderPaddr m file ph).

(** One segment: its bytes of the file, then zeros. *)
Definition load_one (m : memory) (file : Z) (phys : bool) (i : Z) : memory :=
  let dest := segment_start m file phys i in
  let len := w32 (elf_getProgramHeaderFileSize m file i) in
  let src := w64 (file + elf_getProgramHeaderOffset m file i) in
  let m1 := memcpy m (w32 dest) (w32 src) (Z.to_nat len) in
  memset m1 (w32 (dest + len)) 0 (Z.to_nat (w32 (elf_getProgramHeaderMemorySize m1 file i - len))).
(** The number of headers is read again each time round; it has 16 bits. *)
Fixpoint load_loop (n : nat) (file : Z) (phys : bool) (i : Z) (m : memory) : option memory :=
  match n with
  | O => None
  | S n' =>
      if decide (i < elf_getNumProgramHeaders m file) then load_loop n' file phys (i + 1) (load_one m file phys i)
      else Some m
  end.
Definition LOAD_FUEL : nat := Z.to_nat (2 ^ 16).
(** [None] stands for a loop that does not end; [Some None] for the result 0. *)
Definition elf_loadFile (m : memory) (file : Z) (phys : bool) : option (option memory) :=
  if decide (elf_checkFile m file ≠ 0) then Some None
  else Some <$> load_loop LOAD_FUEL file phys 0 m.
End ElfLib.
