(* ===== verification/ElfLibSpec.v ===== *)
(** * What the ELF library does

    [Module ElfBounds]: the bounds that [elf_getMemoryBounds] finds are the tight
    bounds of the program's segments.  [Module ElfImage]: [elf_loadFile] puts
    every segment of a file in memory at its place and changes nothing else, as
    long as the segments overlap neither each other nor the file. *)
From S2P Require Import Prelude Machine Elf ElfLib.
Import Elf ElfLib.

(** Memory cells are bytes. *)
Definition byte_memory (m : memory) : Prop := ∀ a, 0 ≤ load8 m a < 256.
Lemma load32_range m a : byte_memory m → 0 ≤ load32 m a < 2 ^ 32.
Proof.
  intros H. unfold load32. pose proof (H a). pose proof (H (a + 1)). pose proof (H (a + 2)).
  pose proof (H (a + 3)). lia.
Qed.
Lemma load16_range m a : byte_memory m → 0 ≤ load16 m a < 2 ^ 16.
Proof. intros H. unfold load16. pose proof (H a). pose proof (H (a + 1)). lia. Qed.
(** A file that passes the check and is of the 32-bit class. *)
Definition elf32_file (m : memory) (file : Z) : Prop := elf32_checkFile m file = 0.
Lemma elf32_class m file : elf32_file m file → ISELF32 m file = true.
Proof.
  unfold elf32_file, elf32_checkFile, ISELF32. case_decide; [done|]. case_decide; [done|]. intros _.
  apply Z.eqb_eq. tauto.
Qed.
Lemma by_class_32 {A} (f g : memory → Z → A) m file : elf32_file m file → by_class f g m file = f m file.
Proof. intros H. unfold by_class. by rewrite elf32_class. Qed.
Lemma elf_check_32 m file : elf32_file m file → elf_checkFile m file = 0.
Proof. intros H. unfold elf_checkFile. by rewrite by_class_32. Qed.

Module ElfBounds.
Section bounds.
Context (m : memory) (file : Z) (phys : bool).
Local Abbreviation start := (segment_start m file phys).
Local Abbreviation memsz := (elf_getProgramHeaderMemorySize m file).

Lemma bounds_loop_spec n : ∀ i lo hi lo' hi',
  (∀ j, i ≤ j < i + Z.of_nat n → 0 ≤ start j + memsz j < 2 ^ 64) →
  bounds_loop m file phys i n lo hi = (lo', hi') →
  lo' ≤ lo ∧ hi ≤ hi' ∧
  (∀ j, i ≤ j < i + Z.of_nat n → memsz j ≠ 0 → lo' ≤ start j ∧ start j + memsz j ≤ hi') ∧
  (lo' = lo ∨ ∃ j, i ≤ j < i + Z.of_nat n ∧ memsz j ≠ 0 ∧ lo' = start j) ∧
  (hi' = hi ∨ ∃ j, i ≤ j < i + Z.of_nat n ∧ memsz j ≠ 0 ∧ hi' = start j + memsz j).
Proof.
  induction n as [|n IH]; intros i lo hi lo' hi' Hr; cbn [bounds_loop].
  { intros [= <- <-]. split_and!; try done; [intros j ? _; lia|by left|by left]. }
  assert (∀ j, i ≤ j < i + Z.of_nat (S n) → j = i ∨ i + 1 ≤ j < i + 1 + Z.of_nat n) as Hsplit by lia.
  assert (∀ j, i + 1 ≤ j < i + 1 + Z.of_nat n → i ≤ j < i + Z.of_nat (S n)) as Hin by lia.
  assert (i ≤ i < i + Z.of_nat (S n)) as Hi by lia. pose proof (Hr i Hi) as Hri.
  assert (∀ j, i + 1 ≤ j < i + 1 + Z.of_nat n → 0 ≤ start j + memsz j < 2 ^ 64) as Hr' by eauto.
  case_decide as Hz; cbv zeta; intros Hb; destruct (IH _ _ _ _ _ Hr' Hb) as (H1 & H2 & H3 & H4 & H5).
  - split_and!; [done..| | |].
    + intros j [->|Hj]%Hsplit Hne; [done|by apply H3].
    + destruct H4 as [?|(j & ? & ?)]; [by left|right; eauto].
    + destruct H5 as [?|(j & ? & ?)]; [by left|right; eauto].
  - unfold w64 in *. rewrite Z.mod_small in * by done.
    set (lo1 := if decide (start i < lo) then start i else lo) in *.
    set (hi1 := if decide (hi < start i + memsz i) then start i + memsz i else hi) in *.
    assert (lo1 ≤ lo ∧ lo1 ≤ start i ∧ (lo1 = lo ∨ lo1 = start i)) as (? & ? & Hlo1)
      by (subst lo1; case_decide; lia).
    assert (hi ≤ hi1 ∧ start i + memsz i ≤ hi1 ∧ (hi1 = hi ∨ hi1 = start i + memsz i)) as (? & ? & Hhi1)
      by (subst hi1; case_decide; lia).
    clearbody lo1 hi1. split_and!; [lia|lia| | |].
    + intros j [->|Hj]%Hsplit Hne; [lia|by apply H3].
    + destruct H4 as [->|(j & ? & ?)]; [|right; eauto]. destruct Hlo1; [by left|right; eauto].
    + destruct H5 as [->|(j & ? & ?)]; [|right; eauto]. destruct Hhi1; [by left|right; eauto].
Qed.
End bounds.

(** The number and the fields of the headers of a 32-bit file fit in a word. *)
Lemma segment_range m file phys j : byte_memory m → elf32_file m file →
  0 ≤ segment_start m file phys j < 2 ^ 32 ∧ 0 ≤ elf_getProgramHeaderMemorySize m file j < 2 ^ 32.
Proof.
  intros Hm Hf. unfold segment_start, elf_getProgramHeaderPaddr, elf_getProgramHeaderVaddr,
    elf_getProgramHeaderMemorySize. rewrite !by_class_32 by done.
  destruct phys; split; by apply load32_range.
Qed.
(** [elf_getMemoryBounds] of a 32-bit file: every segment that is not empty lies
    within the bounds, and unless all are empty both bounds are those of some
    segment. *)
Theorem elf_getMemoryBounds_tight m file phys :
  byte_memory m → elf32_file m file →
  let used j := 0 ≤ j < elf_getNumProgramHeaders m file ∧ elf_getProgramHeaderMemorySize m file j ≠ 0 in
  let top j := segment_start m file phys j + elf_getProgramHeaderMemorySize m file j in
  ∃ lo hi, elf_getMemoryBounds m file phys = Some (lo, hi) ∧
    (∀ j, used j → lo ≤ segment_start m file phys j ∧ top j ≤ hi) ∧
    ((∃ j, used j) → (∃ j, used j ∧ lo = segment_start m file phys j) ∧ (∃ j, used j ∧ hi = top j)) ∧
    ((∀ j, ¬ used j) → lo = UINT64_MAX ∧ hi = 0).
Proof.
  intros Hm Hf used top. unfold elf_getMemoryBounds. rewrite elf_check_32 by done.
  rewrite decide_False by tauto.
  assert (0 ≤ elf_getNumProgramHeaders m file) as HN.
  { unfold elf_getNumProgramHeaders. rewrite by_class_32 by done. by apply load16_range. }
  destruct (bounds_loop _ _ _ _ _ _ _) as [lo hi] eqn:Hb. exists lo, hi. split; [done|].
  apply bounds_loop_spec in Hb as (Hlo & Hhi & Hall & H4 & H5).
  2: { intros j _. pose proof (segment_range m file phys j Hm Hf). lia. }
  rewrite Z2Nat.id in * by done.
  assert (∀ j, used j → lo ≤ segment_start m file phys j ∧ top j ≤ hi) as Hin.
  { intros j [Hj Hne]. by apply Hall. }
  split_and!; [done| |].
  - intros (j & Hj). pose proof (Hin j Hj) as [Hl Ht]. pose proof (segment_range m file phys j Hm Hf) as [Hs Hz].
    destruct Hj as [Hj Hne]. unfold top in *. unfold UINT64_MAX in *. split.
    + destruct H4 as [->|(k & Hk & Hk' & ->)]; [lia|]. exists k. split; [|done]. split; [lia|done].
    + destruct H5 as [->|(k & Hk & Hk' & ->)]; [lia|]. exists k. split; [|done]. split; [lia|done].
  - intros Hnone. split.
    + destruct H4 as [->|(k & Hk & Hk' & _)]; [done|]. destruct (Hnone k). split; [lia|done].
    + destruct H5 as [->|(k & Hk & Hk' & _)]; [done|]. destruct (Hnone k). split; [lia|done].
Qed.
End ElfBounds.

Module ElfImage.
(** The two memories agree on the addresses from [lo] up to [hi]. *)
Definition agree (lo hi : Z) (m m' : memory) : Prop := ∀ a, lo ≤ a < hi → load8 m' a = load8 m a.
Lemma agree_load32 lo hi m m' a : agree lo hi m m' → lo ≤ a → a + 4 ≤ hi → load32 m' a = load32 m a.
Proof. intros H Hl Hh. unfold load32. by rewrite !H by lia. Qed.
Lemma agree_load16 lo hi m m' a : agree lo hi m m' → lo ≤ a → a + 2 ≤ hi → load16 m' a = load16 m a.
Proof. intros H Hl Hh. unfold load16. by rewrite !H by lia. Qed.

Definition sizeof_Header : Z := 52.
(** A segment's place in memory and in the file. *)
Record seg := mkSeg { dest : Z; memsz : Z; filesz : Z; src : Z }.
Definition seg_of (m : memory) (file : Z) (phys : bool) (i : Z) : seg :=
  mkSeg (segment_start m file phys i) (elf_getProgramHeaderMemorySize m file i)
    (elf_getProgramHeaderFileSize m file i) (file + elf_getProgramHeaderOffset m file i).
Definition in_seg (g : seg) (a : Z) : Prop := dest g ≤ a < dest g + memsz g.
#[export] Instance in_seg_dec g a : Decision (in_seg g a).
Proof. unfold in_seg. apply _. Defined.
(** What the segment holds at [a]: bytes of the file, then zeros. *)
Definition seg_byte (m : memory) (g : seg) (a : Z) : Z :=
  if decide (a < dest g + filesz g) then load8 m (src g + (a - dest g)) else 0.

Section loading.
Context (m : memory) (file : Z) (phys : bool) (fin : Z).
Definition count : Z := elf32_getNumProgramHeaders m file.
Local Abbreviation seg_at := (seg_of m file phys).

(** The file is in memory from [file] up to [fin]; its segments lie outside it
    and do not overlap. *)
Record loadable : Prop := {
  ld_file : elf32_file m file;
  ld_low : 0 ≤ file;
  ld_high : fin < 2 ^ 32;
  ld_header : file + sizeof_Header ≤ fin;
  ld_count : 0 ≤ count < 2 ^ 16;
  ld_table : file ≤ elf32_getProgramHeaderTable m file ∧
             elf32_getProgramHeaderTable m file + count * sizeof_Phdr ≤ fin;
  ld_sizes i : 0 ≤ i < count → 0 ≤ filesz (seg_at i) ≤ memsz (seg_at i);
  ld_dest i : 0 ≤ i < count → 0 ≤ dest (seg_at i) ∧ dest (seg_at i) + memsz (seg_at i) < 2 ^ 32;
  ld_src i : 0 ≤ i < count → file ≤ src (seg_at i) ∧ src (seg_at i) + filesz (seg_at i) ≤ fin;
  ld_apart i a : 0 ≤ i < count → in_seg (seg_at i) a → ¬ (file ≤ a < fin);
  ld_disjoint i j a : 0 ≤ i < count → 0 ≤ j < count → in_seg (seg_at i) a → in_seg (seg_at j) a → i = j
}.
Hypothesis Hld : loadable.

Lemma class_agree m' : agree file fin m m' → elf32_file m' file.
Proof.
  intros H. pose proof (ld_file Hld) as Hf. pose proof (ld_header Hld) as Hh. unfold sizeof_Header in Hh.
  unfold elf32_file, elf32_checkFile in *. cbn [fmap list_fmap] in *. unfold EI_CLASS in *.
  by rewrite !H by lia.
Qed.
Lemma count_agree m' : agree file fin m m' → elf_getNumProgramHeaders m' file = count.
Proof.
  intros H. pose proof (ld_header Hld) as Hh. unfold sizeof_Header in Hh.
  unfold elf_getNumProgramHeaders. rewrite by_class_32 by by apply class_agree.
  eapply agree_load16; [exact H|unfold e_phnum; lia..].
Qed.
Lemma field_agree off i m' : agree file fin m m' → 0 ≤ i < count → 0 ≤ off ≤ 28 →
  phdr_field off m' file i = phdr_field off m file i.
Proof.
  intros H Hi Hoff. pose proof (ld_header Hld) as Hh. pose proof (ld_table Hld) as Ht.
  pose proof (ld_count Hld) as Hc. unfold sizeof_Header, sizeof_Phdr in *. unfold phdr_field.
  rewrite Z.mod_small by lia.
  replace (elf32_getProgramHeaderTable m' file) with (elf32_getProgramHeaderTable m file).
  2: { unfold elf32_getProgramHeaderTable. do 2 f_equal. symmetry.
       eapply agree_load32; [exact H|unfold e_phoff; lia..]. }
  eapply agree_load32; [exact H|unfold sizeof_Phdr; lia..].
Qed.
Lemma seg_agree i m' : agree file fin m m' → 0 ≤ i < count → seg_of m' file phys i = seg_at i.
Proof.
  intros H Hi. unfold seg_of, segment_start, elf_getProgramHeaderPaddr, elf_getProgramHeaderVaddr,
    elf_getProgramHeaderMemorySize, elf_getProgramHeaderFileSize, elf_getProgramHeaderOffset.
  rewrite !by_class_32 by (apply class_agree || apply (ld_file Hld); done).
  f_equal; [destruct phys| | |f_equal]; by apply field_agree.
Qed.

Lemma copy_apart i : 0 ≤ i < count → let g := seg_at i in
  dest g + filesz g ≤ src g ∨ src g + filesz g ≤ dest g.
Proof.
  intros Hi g. pose proof (ld_sizes Hld i Hi) as Hs. pose proof (ld_src Hld i Hi) as Hf.
  pose proof (ld_apart Hld i (Z.max (dest g) (src g)) Hi) as Hap. unfold in_seg in Hap.
  fold g in Hs, Hf, Hap. clearbody g. lia.
Qed.
Lemma copied_byte i m' a : agree file fin m m' → 0 ≤ i < count → let g := seg_at i in
  load8 (memcpy m' (dest g) (src g) (Z.to_nat (filesz g))) a =
  if decide (dest g ≤ a < dest g + filesz g) then load8 m (src g + (a - dest g)) else load8 m' a.
Proof.
  intros H Hi g. pose proof (ld_sizes Hld i Hi) as Hs. pose proof (ld_src Hld i Hi) as Hf. fold g in Hs, Hf.
  pose proof (copy_apart i Hi) as Hap. cbv zeta in Hap. fold g in Hap. rewrite load8_memcpy by lia.
  rewrite Z2Nat.id by lia. case_decide; [|done]. apply H. lia.
Qed.
Lemma copied_agree i m' : agree file fin m m' → 0 ≤ i < count → let g := seg_at i in
  agree file fin m (memcpy m' (dest g) (src g) (Z.to_nat (filesz g))).
Proof.
  intros H Hi g a Ha. subst g. rewrite copied_byte by done. rewrite decide_False; [by apply H|].
  intros Hin. pose proof (ld_sizes Hld i Hi) as Hs.
  apply (ld_apart Hld i a Hi); [unfold in_seg; lia|done].
Qed.
(** One segment is put in place, nothing else changes. *)
Lemma load_one_byte i m' a : agree file fin m m' → 0 ≤ i < count →
  load8 (load_one m' file phys i) a =
  if decide (in_seg (seg_at i) a) then seg_byte m (seg_at i) a else load8 m' a.
Proof.
  intros H Hi. pose proof (seg_agree i m' H Hi) as Hg. pose proof (copied_agree i m' H Hi) as H1.
  pose proof (copied_byte i m' a H Hi) as Hb. cbv zeta in H1, Hb.
  set (m1 := memcpy _ _ _ _) in H1, Hb. pose proof (seg_agree i m1 H1 Hi) as Hg1.
  pose proof (ld_sizes Hld i Hi) as Hs. pose proof (ld_src Hld i Hi) as Hf.
  pose proof (ld_dest Hld i Hi) as Hd. pose proof (ld_low Hld). pose proof (ld_high Hld).
  assert (load_one m' file phys i =
          memset m1 (dest (seg_at i) + filesz (seg_at i)) 0 (Z.to_nat (memsz (seg_at i) - filesz (seg_at i)))) as ->.
  { unfold load_one. unfold seg_of in Hg, Hg1. injection Hg as Hg_d Hg_m Hg_f Hg_s.
    injection Hg1 as _ Hg1_m _ _. cbn [dest memsz filesz src seg_of] in *.
    rewrite Hg_d, Hg_f, Hg_s. unfold w64. rewrite (Z.mod_small _ (2 ^ 64)) by lia.
    unfold w32. rewrite (Z.mod_small (elf_getProgramHeaderFileSize m file i)) by lia.
    do 3 rewrite (Z.mod_small _ (2 ^ 32)) by lia.
    match goal with |- context [memcpy ?a ?b ?c ?d] => change (memcpy a b c d) with m1 end.
    rewrite Hg1_m. f_equal. f_equal.
    by rewrite Z.mod_small by lia. }
  rewrite load8_memset, Hb. rewrite Z2Nat.id by lia. unfold in_seg, seg_byte.
  repeat case_decide; first [done|lia].
Qed.

(** ** The loop *)
Lemma load_loop_segments n : ∀ i m', agree file fin m m' → 0 ≤ i → Z.max 0 (count - i) < Z.of_nat n →
  ∃ m'', load_loop n file phys i m' = Some m'' ∧
    (∀ j a, i ≤ j < count → in_seg (seg_at j) a → load8 m'' a = seg_byte m (seg_at j) a) ∧
    (∀ a, (∀ j, i ≤ j < count → ¬ in_seg (seg_at j) a) → load8 m'' a = load8 m' a).
Proof.
  induction n as [|n IH]; intros i m' H Hi Hn; [lia|]. cbn [load_loop].
  rewrite (count_agree m' H). case_decide as Hlt.
  2: { exists m'. split_and!; [done|intros j a Hj; lia|done]. }
  assert (0 ≤ i < count) as Hi' by lia. set (m1 := load_one m' file phys i).
  assert (∀ a, load8 m1 a = if decide (in_seg (seg_at i) a) then seg_byte m (seg_at i) a else load8 m' a) as Hm1
    by (intros a; by apply load_one_byte).
  destruct (IH (i + 1) m1) as (m'' & Hl & Hin & Hout); [|lia|lia|].
  { intros a Ha. rewrite Hm1, decide_False; [by apply H|]. intros Hs. by apply (ld_apart Hld i a Hi'). }
  exists m''. split_and!; [done| |].
  - intros j a Hj Hs. destruct (decide (j = i)) as [->|Hne]; [|apply Hin; [lia|done]].
    rewrite Hout; [by rewrite Hm1, decide_True|]. intros k Hk Hs'.
    pose proof (ld_disjoint Hld i k a Hi' ltac:(lia) Hs Hs'). lia.
  - intros a Hno. rewrite Hout, Hm1, decide_False; [done|apply Hno; lia|intros j Hj; apply Hno; lia].
Qed.
End loading.

(** C9: A file whose segments overlap neither it nor each other is loaded: the loop
    ends, every segment holds its bytes of the file followed by zeros, and no
    other byte has changed. *)
Theorem elf_loadFile_correct m file phys fin :
  loadable m file phys fin →
  ∃ m', elf_loadFile m file phys = Some (Some m') ∧
    (∀ i a, 0 ≤ i < count m file → in_seg (seg_of m file phys i) a →
       load8 m' a = seg_byte m (seg_of m file phys i) a) ∧
    (∀ a, (∀ i, 0 ≤ i < count m file → ¬ in_seg (seg_of m file phys i) a) → load8 m' a = load8 m a).
Proof.
  intros Hld. unfold elf_loadFile. rewrite elf_check_32 by apply (ld_file _ _ _ _ Hld).
  rewrite decide_False by tauto. pose proof (ld_count _ _ _ _ Hld) as Hc.
  destruct (load_loop_segments m file phys fin Hld LOAD_FUEL 0 m) as (m' & Hl & Hin & Hout);
    [done|lia|unfold LOAD_FUEL; lia|].
  exists m'. rewrite Hl. done.
Qed.
End ElfImage.

Module ElfRuns.
Import ElfBounds ElfImage.
(** ** A small file: two segments, one with zeros at its end *)
Definition be32 (v : Z) : list Z := [(v / 2 ^ 24) mod 256; (v / 2 ^ 16) mod 256; (v / 2 ^ 8) mod 256; v mod 256].
Definition be16 (v : Z) : list Z := [(v / 2 ^ 8) mod 256; v mod 256].
Definition header : list Z :=
  ELFMAG ++ [ELFCLASS32] ++ replicate 11 0 ++ be16 2 ++ be16 40 ++ be32 1 ++ be32 32768 ++ be32 52 ++ be32 0
  ++ be32 0 ++ be16 52 ++ be16 32 ++ be16 2 ++ be16 40 ++ be16 0 ++ be16 0.
Definition phdr (offset vaddr filesz memsz flags : Z) : list Z :=
  be32 1 ++ be32 offset ++ be32 vaddr ++ be32 vaddr ++ be32 filesz ++ be32 memsz ++ be32 flags ++ be32 4.
Definition small_file : list Z :=
  header ++ phdr 116 32768 4 4 5 ++ phdr 120 36864 2 6 6 ++ [1; 2; 3; 4; 5; 6].
Definition at_4096 : memory := write_bytes ∅ 4096 small_file.

Lemma byte_memory_all (m : memory) : map_Forall (λ _ v, 0 ≤ v < 256) m → byte_memory m.
Proof. intros H a. unfold load8. destruct (m !! a) eqn:Ha; cbn; [by apply (H a)|lia]. Qed.
Lemma small_bytes : byte_memory at_4096.
Proof. apply byte_memory_all. apply (bool_decide_unpack _). vm_compute. exact I. Qed.
Lemma small_seg0 : seg_of at_4096 4096 false 0 = mkSeg 32768 4 4 4212. Proof. vm_compute. reflexivity. Qed.
Lemma small_seg1 : seg_of at_4096 4096 false 1 = mkSeg 36864 6 2 4216. Proof. vm_compute. reflexivity. Qed.
Lemma small_count : count at_4096 4096 = 2. Proof. vm_compute. reflexivity. Qed.
Lemma small_seg i : 0 ≤ i < 2 →
  i = 0 ∧ seg_of at_4096 4096 false i = mkSeg 32768 4 4 4212 ∨
  i = 1 ∧ seg_of at_4096 4096 false i = mkSeg 36864 6 2 4216.
Proof.
  intros Hi. assert (i = 0 ∨ i = 1) as [-> | ->] by lia; [left; split; [done|apply small_seg0]|].
  right; split; [done|apply small_seg1].
Qed.
Lemma small_loadable : loadable at_4096 4096 false 4218.
Proof.
  constructor; rewrite ?small_count.
  - vm_compute. reflexivity.
  - lia.
  - lia.
  - unfold sizeof_Header. lia.
  - lia.
  - replace (elf32_getProgramHeaderTable at_4096 4096) with 4148 by (vm_compute; reflexivity).
    unfold sizeof_Phdr. lia.
  - intros i Hi. destruct (small_seg i Hi) as [[_ ->]|[_ ->]]; cbn; lia.
  - intros i Hi. destruct (small_seg i Hi) as [[_ ->]|[_ ->]]; cbn; lia.
  - intros i Hi. destruct (small_seg i Hi) as [[_ ->]|[_ ->]]; cbn; lia.
  - intros i a Hi. destruct (small_seg i Hi) as [[_ ->]|[_ ->]]; unfold in_seg; cbn; lia.
  - intros i j a Hi Hj.
    destruct (small_seg i Hi) as [[-> ->]|[-> ->]], (small_seg j Hj) as [[-> ->]|[-> ->]];
      unfold in_seg; cbn; lia.
Qed.

Lemma elf_loadFile_correct_witness :
  ∃ m', elf_loadFile at_4096 4096 false = Some (Some m') ∧ load8 m' 32770 = 3 ∧ load8 m' 36865 = 6 ∧
    load8 m' 36868 = 0.
Proof.
  destruct (elf_loadFile_correct at_4096 4096 false 4218 small_loadable) as (m' & Hl & Hin & _).
  exists m'. split; [exact Hl|]. rewrite small_count in Hin. split_and!.
  - rewrite (Hin 0) by (rewrite ?small_seg0; unfold in_seg; cbn; lia). vm_compute. reflexivity.
  - rewrite (Hin 1) by (rewrite ?small_seg1; unfold in_seg; cbn; lia). vm_compute. reflexivity.
  - rewrite (Hin 1) by (rewrite ?small_seg1; unfold in_seg; cbn; lia). vm_compute. reflexivity.
Defined.
Lemma elf_getMemoryBounds_tight_witness :
  elf_getMemoryBounds at_4096 4096 false = Some (32768, 36870) ∧
  ∃ lo hi, elf_getMemoryBounds at_4096 4096 false = Some (lo, hi) ∧
    (∀ j, 0 ≤ j < 2 ∧ elf_getProgramHeaderMemorySize at_4096 4096 j ≠ 0 →
       lo ≤ segment_start at_4096 4096 false j).
Proof.
  split; [vm_compute; reflexivity|].
  destruct (elf_getMemoryBounds_tight at_4096 4096 false) as (lo & hi & Hb & Hin & _);
    [exact small_bytes|vm_compute; reflexivity|].
  exists lo, hi. split; [exact Hb|]. intros j Hj. by apply (Hin j).
Defined.
End ElfRuns.
