(* ===== verification/PagerBase.v ===== *)
(** * The pager's frames, regions and bookkeeping ([sos/pager.c])

    The parts of the pager that run to completion: page table entries and the
    mappings they stand for, the quota of user frames and the lists of
    resident and swapped pages, the choice of a page to swap out, heap growth,
    the allocation of requests, and the deletion of a process. *)
From S2P Require Import Prelude Machine ListC Frames Swapfile State Pagetable Process Reply VfsCore.
From S2P Require Import Clock Vfs Lifecycle.
Import Frames Swapfile Pagetable Process Reply VfsCore Lifecycle.

Module PagerBase.
(** Flags of a page table entry. *)
Definition SWAP_MASK : Z := 1.
Definition REF_MASK : Z := 2.
Definition ELF_MASK : Z := 4.
Definition ADDRESS_MASK : Z := PAGEALIGN.
Definition FRAME_ALLOC_LIMIT : Z := 1024.
Definition PR_OFFSET_UNDEFINED : Z := -1.

Definition page_of (addr : Z) : Z := Z.land addr PAGEALIGN.
Definition aligned (a : Z) : bool := Z.land a (Z.lnot PAGEALIGN) =? 0.
Definition flag (e mask : Z) : bool := negb (Z.land e mask =? 0).

(** ** The pager's state *)
Definition set_allocLimit v s := mkPager (totalPages s) v (alloced s) (swapped s) (requests s)
  (requestActive s) (prs s) (ers s) (pinnedFrame s) (defaultSwapfile s) (virtualPager s) (copyInOutData s).
Definition set_alloced v s := mkPager (totalPages s) (allocLimit s) v (swapped s) (requests s)
  (requestActive s) (prs s) (ers s) (pinnedFrame s) (defaultSwapfile s) (virtualPager s) (copyInOutData s).
Definition set_swapped v s := mkPager (totalPages s) (allocLimit s) (alloced s) v (requests s)
  (requestActive s) (prs s) (ers s) (pinnedFrame s) (defaultSwapfile s) (virtualPager s) (copyInOutData s).
Definition set_preqs v s := mkPager (totalPages s) (allocLimit s) (alloced s) (swapped s) v
  (requestActive s) (prs s) (ers s) (pinnedFrame s) (defaultSwapfile s) (virtualPager s) (copyInOutData s).
Definition set_active v s := mkPager (totalPages s) (allocLimit s) (alloced s) (swapped s) (requests s)
  v (prs s) (ers s) (pinnedFrame s) (defaultSwapfile s) (virtualPager s) (copyInOutData s).
Definition set_prs v s := mkPager (totalPages s) (allocLimit s) (alloced s) (swapped s) (requests s)
  (requestActive s) v (ers s) (pinnedFrame s) (defaultSwapfile s) (virtualPager s) (copyInOutData s).
Definition set_ers v s := mkPager (totalPages s) (allocLimit s) (alloced s) (swapped s) (requests s)
  (requestActive s) (prs s) v (pinnedFrame s) (defaultSwapfile s) (virtualPager s) (copyInOutData s).
Definition set_pinned v s := mkPager (totalPages s) (allocLimit s) (alloced s) (swapped s) (requests s)
  (requestActive s) (prs s) (ers s) v (defaultSwapfile s) (virtualPager s) (copyInOutData s).
Definition set_vpager v s := mkPager (totalPages s) (allocLimit s) (alloced s) (swapped s) (requests s)
  (requestActive s) (prs s) (ers s) (pinnedFrame s) (defaultSwapfile s) v (copyInOutData s).
Definition set_copydata v s := mkPager (totalPages s) (allocLimit s) (alloced s) (swapped s) (requests s)
  (requestActive s) (prs s) (ers s) (pinnedFrame s) (defaultSwapfile s) (virtualPager s) v.

(** Requests from [malloc], by address. *)
Definition pr_get (p : positive) : M pager PagerRequest := λ s,
  match prs s !! p with Some x => Ok x s | None => Err BadPtr end.
Definition pr_upd (p : positive) (f : PagerRequest → PagerRequest) : M pager unit := λ s,
  match prs s !! p with
  | Some x => Ok tt (set_prs (<[p := f x]> (prs s)) s)
  | None => Err BadPtr
  end.
Definition pr_free (p : positive) : M pager unit := λ s,
  match prs s !! p with
  | Some _ => Ok tt (set_prs (delete p (prs s)) s)
  | None => Err BadPtr
  end.
Definition er_get (p : positive) : M pager ElfloadRequest := λ s,
  match ers s !! p with Some x => Ok x s | None => Err BadPtr end.
Definition er_upd (p : positive) (f : ElfloadRequest → ElfloadRequest) : M pager unit := λ s,
  match ers s !! p with
  | Some x => Ok tt (set_ers (<[p := f x]> (ers s)) s)
  | None => Err BadPtr
  end.
Definition er_free (p : positive) : M pager unit := λ s,
  match ers s !! p with
  | Some _ => Ok tt (set_ers (delete p (ers s)) s)
  | None => Err BadPtr
  end.

(** ** Page table entries *)
(** [pagetableLookup(process_get_pagetable(p), addr)], and access through it. *)
Definition entry_of (p : ptr) (addr : Z) : K Z :=
  pt ← on_procs (process_get_pagetable p); on_fr (pagetableLookup pt addr).
Definition load (a : Z) : K Z := on_fr (deref a;; read_word a).
Definition store (a v : Z) : K unit := on_fr (deref a;; write_word a v).

(** [pagetableFree] of a process. *)
Definition process_pagetableFree (p : ptr) : K unit :=
  cassert "p != NULL" (bool_decide (p ≠ NULL));;
  pt ← on_procs (process_get_pagetable p);
  on_fr (pagetableFree pt).

(** ** The quota of user frames *)
(** [process_get_info(p)->size += d] *)
Definition info_size_add (p : ptr) (d : Z) : K unit :=
  process_get_info p;;
  on_procs (pcb_upd p (upd_info (λ i, set_psize (w32 (psize i + d)) i))).

Definition pagerFrameFree (p : ptr) (frame : Z) : K unit :=
  cassert "(frame & ~PAGEALIGN) == 0" (aligned frame);;
  on_fr (frame_free frame);;
  on_pager (modify (λ s, set_allocLimit (allocLimit s + 1) s));;
  match p with None => mret tt | Some _ => info_size_add p (-1) end.

(** A [list_delete] callback. *)
Definition framesFree (p : ptr) (curr : Z * Z) : K bool :=
  pid ← on_procs (process_get_pid p);
  if decide (fst curr = pid) then
    e ← entry_of p (snd curr);
    v ← load e;
    pagerFrameFree p (Z.land v ADDRESS_MASK);;
    mret true
  else mret false.

Definition isPageAligned (a : Z) : bool := Z.land a (PAGESIZE - 1) =? 0.

Definition mapPage (sid virt phys rights : Z) : K unit :=
  cassert "(virt & ~PAGEALIGN) == 0" (aligned virt);;
  cassert "(phys & ~PAGEALIGN) == 0" (aligned phys);;
  emit (L4_MapFpage sid virt phys rights).
Definition unmapPage (sid virt : Z) : K unit :=
  cassert "(virt & ~PAGEALIGN) == 0" (aligned virt);;
  emit (L4_UnmapFpage sid virt).

Definition prepareDataIn (p : ptr) (vaddr : Z) : K unit :=
  cassert "(vaddr & ~PAGEALIGN) == 0" (aligned vaddr);;
  e ← entry_of p vaddr;
  v ← load e;
  let frame := Z.land v ADDRESS_MASK in
  sid ← on_procs (process_get_sid p);
  emit (L4_CacheFlushRange sid vaddr (w32 (vaddr + PAGESIZE)));;
  emit (L4_CacheFlushRangeInvalidate L4_rootspace frame (w32 (frame + PAGESIZE))).
Definition prepareDataOut (p : ptr) (vaddr : Z) : K unit :=
  cassert "(vaddr & ~PAGEALIGN) == 0" (aligned vaddr);;
  e ← entry_of p vaddr;
  v ← load e;
  let frame := Z.land v ADDRESS_MASK in
  emit (L4_CacheFlushRange L4_rootspace frame (w32 (frame + PAGESIZE)));;
  sid ← on_procs (process_get_sid p);
  emit (L4_CacheFlushRangeInvalidate sid vaddr (w32 (vaddr + PAGESIZE))).

(** ** Choosing a page to swap out *)
Fixpoint second_chance (fuel : nat) : K (Z * Z) :=
  match fuel with
  | O => fail OutOfFuel
  | S fuel' =>
      l ← on_pager (gets alloced);
      r ← ListSpec.list_unshift l;
      let found := fst r in
      on_pager (modify (set_alloced (snd r)));;
      p ← on_procs (process_lookup (fst found));
      cassert "p != NULL" (bool_decide (p ≠ NULL));;
      e ← entry_of p (snd found);
      v ← load e;
      if negb (flag v REF_MASK) then mret found
      else
        store e (Z.land v (Z.lnot REF_MASK));;
        sid ← on_procs (process_get_sid p);
        unmapPage sid (snd found);;
        on_pager (modify (λ s, set_alloced (ListSpec.list_push (alloced s) found) s));;
        second_chance fuel'
  end.
(** Every turn of the loop but the last clears a reference bit, so one turn
    more than there are pages is enough. *)
Definition deleteAllocList : K (Z * Z) :=
  l ← on_pager (gets alloced);
  cassert "!list_null(alloced)" (negb (ListSpec.list_null l));;
  second_chance (S (length l)).

Definition pagerFrameAlloc (p : ptr) (page : Z) : K Z :=
  lim ← on_pager (gets allocLimit);
  cassert "allocLimit >= 0" (bool_decide (0 ≤ lim));;
  if decide (lim = 0) then mret 0
  else
    frame ← on_fr (frame_alloc FA_PAGERALLOC);
    pid ← on_procs (process_get_pid p);
    on_pager (modify (λ s, set_alloced (ListSpec.list_push (alloced s) (pid, page)) s));;
    info_size_add p 1;;
    on_pager (modify (λ s, set_allocLimit (allocLimit s - 1) s));;
    mret frame.

Definition memoryUsage : M pager Z := gets (λ s, totalPages s - allocLimit s).

(** ** The request queue *)
Definition requestsPeekType : M pager rtype_t :=
  l ← gets requests; x ← ListSpec.list_peek l; mret (fst x).
Definition requestsPeek : M pager positive :=
  l ← gets requests; x ← ListSpec.list_peek l; mret (snd x).
Definition requestsUnshift : M pager positive :=
  l ← gets requests;
  r ← ListSpec.list_unshift l;
  modify (set_preqs (snd r));;
  mret (snd (fst r)).

(** ** Regions *)
Definition findHeap (r : Region) : bool := bool_decide (rtype r = REGION_HEAP).
Definition findRegion (addr : Z) (r : Region) : bool :=
  bool_decide (base r ≤ addr) && bool_decide (addr < w32 (base r + size r)).
(** The second conjunct is a comma expression, whose value is [PAGESIZE]. *)
Definition findPaRegion (addr : Z) (r : Region) : bool :=
  bool_decide (page_of (base r) ≤ addr) && truthy PAGESIZE.
(** [list_find(process_get_regions(p), f, ...)] *)
Definition region_find (p : ptr) (f : Region → bool) : K (option Region) :=
  x ← on_procs (pcb_get p); ListSpec.list_find (λ r, mret (f r)) (regions x).

(** [heapGrow], for the sender's process; [buf] is where [*base] is written.
    The region it changes is the one it found. *)
Definition heapGrow (sender buf nb : Z) : K Z :=
  p ← on_procs (process_lookup sender);
  x ← on_procs (pcb_get p);
  match list_find findHeap (regions x) with
  | None => fail (AssertFail "heap != NULL")
  | Some (i, heap) =>
      b ← get_cbuf;
      put_cbuf (store32 b buf (w32 (base heap + size heap)));;
      on_procs (pcb_upd p (set_regions
        (<[i := region_set_size heap (w32 (nb + size heap))]> (regions x))));;
      mret 1
  end.

(** ** Requests *)
Definition allocPagerRequest (pid addr rights sf : Z) (callback : pr_callback) : K positive :=
  newPr ← kmalloc_nocheck;
  on_pager (modify (λ s, set_prs (<[newPr :=
    mkPR None pid addr None sf rights PR_OFFSET_UNDEFINED None FinPanic callback]> (prs s)) s));;
  mret newPr.

Definition setFdStrn (parent fd : Z) : K (option cstr) :=
  if bool_decide (fd = VFS_NIL_FILE) || bool_decide (fd < 0) || bool_decide (PROCESS_MAX_FDS ≤ fd)
  then mret None
  else
    p ← on_procs (process_lookup parent);
    if decide (p = NULL) then mret None
    else
      vf ← get_vfile parent fd false;
      match vf with
      | None => mret None
      | Some vf =>
          f ← on_procs (vf_get vf);
          if decide (vnode f = NULL) then mret None
          else
            kmalloc_nocheck;;
            x ← on_vfs (vn_get (vnode f));
            mret (Some (strncpy_path (path x)))
      end.

Definition allocElfloadRequest (pth : cstr) (caller fdout fderr fdin : Z) : K ptr :=
  er ← kmalloc;
  match er with
  | None => mret NULL
  | Some l =>
      o ← setFdStrn caller fdout;
      e ← setFdStrn caller fderr;
      i ← setFdStrn caller fdin;
      on_pager (modify (λ s, set_ers (<[l :=
        mkER ELFLOAD_OPEN (strncpy_path pth) VFS_NIL_FILE caller None o e i]> (ers s)) s));;
      mret (Some l)
  end.

(** ** Swap slots *)
Definition pagerSwapslotAlloc (p : ptr) : K Z :=
  sf ← on_pager (gets defaultSwapfile);
  diskAddr ← on_swap (swapslot_alloc sf);
  if decide (diskAddr = ADDRESS_NONE) then mret ADDRESS_NONE
  else
    pid ← on_procs (process_get_pid p);
    on_pager (modify (λ s, set_swapped (ListSpec.list_push (swapped s) (pid, diskAddr)) s));;
    mret diskAddr.
Definition pagerSwapslotFree (args curr : Z * Z) : K bool :=
  if bool_decide (fst curr = fst args) &&
     (bool_decide (snd curr = snd args) || bool_decide (snd curr = ADDRESS_ALL)) then
    sf ← on_pager (gets defaultSwapfile);
    on_swap (swapslot_free sf (snd curr));;
    mret true
  else mret false.

(** ** Deleting a process *)
(** [list_delete] on the pager's lists; the list is not read by its callbacks. *)
Definition delete_alloced (f : Z * Z → K bool) : K unit :=
  l ← on_pager (gets alloced);
  l' ← ListSpec.list_delete f l;
  on_pager (modify (set_alloced l')).
Definition delete_swapped (f : Z * Z → K bool) : K unit :=
  l ← on_pager (gets swapped);
  l' ← ListSpec.list_delete f l;
  on_pager (modify (set_swapped l')).
Definition pcb_free (p : ptr) : M procs unit := λ s,
  match p with
  | None => Ok tt s
  | Some l => match pcbs s !! l with
              | Some _ => Ok tt (set_pcbs (delete l (pcbs s)) s)
              | None => Err BadPtr
              end
  end.

Definition processDelete (pid : Z) : K Z :=
  p ← on_procs (process_lookup pid);
  if decide (p = NULL) then mret 1
  else
    r ← process_kill p;
    if decide (r ≠ 0) then mret (-1)
    else
      on_procs (process_set_state p PS_STATE_ZOMBIE);;
      process_close_files p;;
      on_procs (process_remove p);;
      pid ← on_procs (process_get_pid p);
      delete_alloced (framesFree p);;
      delete_swapped (pagerSwapslotFree (pid, ADDRESS_ALL));;
      process_pagetableFree p;;
      x ← on_procs (pcb_get p);
      on_swap (ListSpec.list_iterate region_free (regions x));;
      process_wake_all pid;;
      on_procs (pcb_free p);;
      mret 0.
End PagerBase.
