(* ===== verification/Quota.v ===== *)
(** * The quota of user frames

    The pager never lets user pages hold more than [totalPages] frames: every
    page it maps is on the list [alloced], every page being written out is on
    its way out, and the rest of the quota is [allocLimit].  The theorem
    follows this balance through allocations, the choice of a victim, the end
    of a swap-out and the deletion of a process. *)
From S2P Require Import Prelude Machine ListC Frames Swapfile State Pagetable Process Reply VfsCore.
From S2P Require Import Clock Vfs Lifecycle PagerBase.
Import Frames Swapfile Pagetable Time Process Reply VfsCore Lifecycle PagerBase.

Module Quota.
(** ** What leaves the pager's state alone *)
Lemma on_procs_pager {A} (m : M procs A) : pres k_pager (on_procs m).
Proof. by apply pres_zoom. Qed.
Lemma on_fr_pager {A} (m : M frames A) : pres k_pager (on_fr m).
Proof. by apply pres_zoom. Qed.
Lemma on_swap_pager {A} (m : M swapst A) : pres k_pager (on_swap m).
Proof. by apply pres_zoom. Qed.
Lemma on_vfs_pager {A} (m : M vfs A) : pres k_pager (on_vfs m).
Proof. by apply pres_zoom. Qed.
Lemma on_clock_pager {A} (m : M clock A) : pres k_pager (on_clock m).
Proof. by apply pres_zoom. Qed.
Lemma on_mach_pager {A} (m : M machine A) : pres k_pager (on_mach m).
Proof. by apply pres_zoom. Qed.
#[export] Hint Resolve on_procs_pager on_fr_pager on_swap_pager on_vfs_pager on_clock_pager
  on_mach_pager : pres.
Lemma emit_pager e : pres k_pager (emit e).
Proof. apply on_mach_pager. Qed.
#[export] Hint Resolve emit_pager : pres.
Lemma reads_pager {A} (m : M pager A) : pres (λ s, s) m → pres k_pager (on_pager m).
Proof. intros H s a s' (t & Ht & ->)%zoom_inv. simpl. by apply (H _ _ _ Ht). Qed.
Lemma gets_pager {A} (f : pager → A) : pres k_pager (on_pager (gets f)).
Proof. apply reads_pager, pres_gets. Qed.
#[export] Hint Resolve gets_pager : pres.

Lemma process_get_info_pager p : pres k_pager (process_get_info p).
Proof. unfold process_get_info. pres_auto. Qed.
#[export] Hint Resolve process_get_info_pager : pres.
Lemma info_size_add_pager p d : pres k_pager (info_size_add p d).
Proof. unfold info_size_add. pres_auto. Qed.
Lemma entry_of_pager p a : pres k_pager (entry_of p a).
Proof. unfold entry_of. pres_auto. Qed.
Lemma load_pager a : pres k_pager (load a).
Proof. apply on_fr_pager. Qed.
Lemma store_pager a v : pres k_pager (store a v).
Proof. apply on_fr_pager. Qed.
Lemma unmapPage_pager sid v : pres k_pager (unmapPage sid v).
Proof. unfold unmapPage. pres_auto. Qed.
Lemma reply_v_pager tid ws : pres k_pager (syscall_reply_v tid ws).
Proof. unfold syscall_reply_v. pres_auto. Qed.
#[export] Hint Resolve info_size_add_pager entry_of_pager load_pager store_pager unmapPage_pager
  reply_v_pager : pres.
Lemma reply_to_pager p r : pres k_pager (reply_to p r).
Proof. unfold reply_to, syscall_reply. pres_auto. Qed.
#[export] Hint Resolve reply_to_pager : pres.
Lemma get_vfile_pager pid f b : pres k_pager (get_vfile pid f b).
Proof. unfold get_vfile. pres_auto. Qed.
#[export] Hint Resolve get_vfile_pager : pres.
Lemma process_kill_pager p : pres k_pager (process_kill p).
Proof. unfold process_kill, thread_kill. pres_auto. Qed.
Lemma process_close_files_pager p : pres k_pager (process_close_files p).
Proof. unfold process_close_files, vfs_isopen, ipc_send_simple. pres_auto. Qed.
Lemma wakeAll_pager a b : pres k_pager (wakeAll a b).
Proof. unfold wakeAll, wake_body, syscall_reply. pres_auto. Qed.
#[export] Hint Resolve process_kill_pager process_close_files_pager wakeAll_pager : pres.
Lemma process_pagetableFree_pager p : pres k_pager (process_pagetableFree p).
Proof. unfold process_pagetableFree. pres_auto. Qed.
Lemma process_wake_all_pager p : pres k_pager (process_wake_all p).
Proof. unfold process_wake_all. pres_auto. Qed.
#[export] Hint Resolve process_pagetableFree_pager process_wake_all_pager : pres.

(** ** The balance *)
(** The part of the pager's state the quota is about. *)
Definition balance (s : pager) : Z := allocLimit s + length (alloced s).
Definition quota_view (k : kstate) := (totalPages (k_pager k), allocLimit (k_pager k), alloced (k_pager k)).
Definition stays (k k' : kstate) : Prop :=
  totalPages (k_pager k') = totalPages (k_pager k) ∧
  allocLimit (k_pager k) ≤ allocLimit (k_pager k') ∧
  balance (k_pager k') = balance (k_pager k).

(** Steps that write the pager's state. *)
Lemma modify_pager f k k' a : on_pager (modify f) k = Ok a k' → k_pager k' = f (k_pager k).
Proof. intros (t & Ht & ->)%zoom_inv. by injection Ht as _ <-. Qed.
Lemma get_pager {A} (f : pager → A) k k' a :
  on_pager (gets f) k = Ok a k' → a = f (k_pager k) ∧ k' = k.
Proof. intros (t & Ht & ->)%zoom_inv. injection Ht as <- <-. by destruct k. Qed.

Lemma frameFree_effect p f k k' :
  pagerFrameFree p f k = Ok tt k' →
  k_pager k' = set_allocLimit (allocLimit (k_pager k) + 1) (k_pager k).
Proof.
  intros H. unfold pagerFrameFree in H. run_steps.
  match goal with H : on_fr _ _ = _ |- _ => pose proof (on_fr_pager _ _ _ _ H) as E1 end.
  match goal with H : on_pager _ _ = _ |- _ => apply modify_pager in H as E2 end.
  assert (pres k_pager (match p with None => mret tt | Some _ => info_size_add p (-1) end)) as Hp
    by pres_auto.
  match goal with H : _ = Ok tt k' |- _ => rewrite (Hp _ _ _ H) end. by rewrite E2, E1.
Qed.

Lemma frameAlloc_effect p page k f k' :
  pagerFrameAlloc p page k = Ok f k' →
  (allocLimit (k_pager k) = 0 ∧ f = 0 ∧ k_pager k' = k_pager k) ∨
  (0 < allocLimit (k_pager k) ∧ ∃ pid,
   k_pager k' = set_allocLimit (allocLimit (k_pager k) - 1)
                  (set_alloced (alloced (k_pager k) ++ [(pid, page)]) (k_pager k))).
Proof.
  intros H. unfold pagerFrameAlloc in H. apply bind_inv in H as (lim & k1 & H1 & H).
  apply get_pager in H1 as [-> ->]. apply bind_inv in H as ([] & k1 & H1 & H).
  unfold cassert in H1. case_bool_decide as Hlim; [|done]. injection H1 as <-.
  case_decide as Hz; [left; by injection H as <- <-|]. right. split; [lia|].
  apply bind_inv in H as (fr & k1 & H1 & H). apply on_fr_pager in H1.
  apply bind_inv in H as (pid & k2 & H2 & H). apply on_procs_pager in H2.
  apply bind_inv in H as ([] & k3 & H3 & H). apply modify_pager in H3.
  apply bind_inv in H as ([] & k4 & H4 & H). apply info_size_add_pager in H4.
  apply bind_inv in H as ([] & k5 & H5 & H). apply modify_pager in H5. injection H as <- <-.
  exists pid. rewrite H5, H4, H3, H2, H1. done.
Qed.

Lemma second_chance_effect fuel k found k' :
  second_chance fuel k = Ok found k' →
  totalPages (k_pager k') = totalPages (k_pager k) ∧
  allocLimit (k_pager k') = allocLimit (k_pager k) ∧
  alloced (k_pager k) ≡ₚ found :: alloced (k_pager k').
Proof.
  revert k. induction fuel as [|fuel IH]; intros k H; [done|]. simpl in H.
  apply bind_inv in H as (l & k1 & H1 & H). apply get_pager in H1 as [-> ->].
  apply bind_inv in H as (r & k1 & H1 & H).
  destruct (alloced (k_pager k)) as [|x xs] eqn:Hal; [done|]. injection H1 as <- <-. cbn [fst snd] in H.
  apply bind_inv in H as ([] & k2 & H2 & H). apply modify_pager in H2.
  apply bind_inv in H as (p & k3 & H3 & H). apply on_procs_pager in H3.
  apply bind_inv in H as ([] & k4 & H4 & H). apply pres_cassert with (f := k_pager) in H4.
  apply bind_inv in H as (e & k5 & H5 & H). apply entry_of_pager in H5.
  apply bind_inv in H as (v & k6 & H6 & H). apply load_pager in H6.
  assert (k_pager k6 = set_alloced xs (k_pager k)) as E by congruence. clear H2 H3 H4 H5 H6.
  destruct (negb (flag v REF_MASK)).
  { injection H as <- <-. rewrite E. done. }
  apply bind_inv in H as ([] & k7 & H7 & H). apply store_pager in H7.
  apply bind_inv in H as (sid & k8 & H8 & H). apply on_procs_pager in H8.
  apply bind_inv in H as ([] & k9 & H9 & H). apply unmapPage_pager in H9.
  apply bind_inv in H as ([] & k10 & H10 & H). apply modify_pager in H10.
  apply IH in H as (-> & -> & Hp). rewrite H10, H9, H8, H7, E in *. simpl in *.
  split; [done|]. split; [done|]. rewrite <- Hp. unfold ListSpec.list_push. by rewrite <- Permutation_cons_append.
Qed.
Lemma deleteAllocList_effect k found k' :
  deleteAllocList k = Ok found k' →
  totalPages (k_pager k') = totalPages (k_pager k) ∧
  allocLimit (k_pager k') = allocLimit (k_pager k) ∧
  alloced (k_pager k) ≡ₚ found :: alloced (k_pager k').
Proof.
  intros H. unfold deleteAllocList in H. apply bind_inv in H as (l & k1 & H1 & H).
  apply get_pager in H1 as [-> ->]. apply bind_inv in H as ([] & k1 & H1 & H).
  unfold cassert in H1. destruct (negb _); [|done]. injection H1 as <-. by apply second_chance_effect in H.
Qed.

(** ** Deleting a process *)
Lemma framesFree_effect p x k b k' :
  framesFree p x k = Ok b k' →
  k_pager k' = if b then set_allocLimit (allocLimit (k_pager k) + 1) (k_pager k) else k_pager k.
Proof.
  intros H. unfold framesFree in H. apply bind_inv in H as (pid & k1 & H1 & H).
  apply on_procs_pager in H1. case_decide; [|injection H as <- <-; done].
  apply bind_inv in H as (e & k2 & H2 & H). apply entry_of_pager in H2.
  apply bind_inv in H as (v & k3 & H3 & H). apply load_pager in H3.
  apply bind_inv in H as ([] & k4 & H4 & H). apply frameFree_effect in H4.
  injection H as <- <-. rewrite H4, H3, H2, H1. done.
Qed.
Lemma delete_frames_effect p n xs k ys k' :
  ListSpec.list_delete_n (framesFree p) n xs k = Ok ys k' →
  k_pager k' = set_allocLimit (allocLimit (k_pager k) + length xs - length ys) (k_pager k).
Proof.
  revert n k ys. induction xs as [|x xs IH]; intros n k ys H; simpl in H.
  { injection H as <- <-. simpl. rewrite Z.add_0_r, Z.sub_0_r. by destruct (k_pager k). }
  apply bind_inv in H as (b & k1 & H1 & H).
  assert (k_pager k1 = if b then set_allocLimit (allocLimit (k_pager k) + 1) (k_pager k) else k_pager k)
    as E1.
  { destruct (n =? 0); [by injection H1 as <- <-|by apply framesFree_effect in H1]. }
  destruct b.
  - apply IH in H. rewrite H, E1. unfold set_allocLimit. simpl. f_equal. lia.
  - apply bind_inv in H as (zs & k2 & H2 & H). injection H as <- <-. apply IH in H2.
    rewrite H2, E1. unfold set_allocLimit. simpl. f_equal. lia.
Qed.
Lemma delete_swapped_pager args :
  pres quota_view (delete_swapped (pagerSwapslotFree args)).
Proof.
  assert (∀ n xs, pres k_pager (ListSpec.list_delete_n (pagerSwapslotFree args) n xs)) as Hd.
  { intros n xs. revert n. induction xs as [|x xs IH]; intros n; simpl; [apply pres_ret|].
    apply pres_bind; [unfold pagerSwapslotFree; pres_auto|intros []; [apply IH|]].
    apply pres_bind; [apply IH|intros; apply pres_ret]. }
  intros k a k' H. unfold delete_swapped in H. apply bind_inv in H as (l & k1 & H1 & H).
  apply get_pager in H1 as [-> ->]. apply bind_inv in H as (l' & k1 & H1 & H).
  apply Hd in H1. apply modify_pager in H. unfold quota_view. by rewrite H, H1.
Qed.

Lemma stays_refl k k' : k_pager k' = k_pager k → stays k k'.
Proof. intros H. unfold stays, balance. rewrite H. lia. Qed.
Lemma stays_trans k1 k2 k3 : stays k1 k2 → stays k2 k3 → stays k1 k3.
Proof. unfold stays, balance. lia. Qed.

Lemma processDelete_stays pid k r k' : processDelete pid k = Ok r k' → stays k k'.
Proof.
  intros H. unfold processDelete in H. apply bind_inv in H as (p & k1 & H1 & H).
  apply on_procs_pager in H1. case_decide as D1; [injection H as <- <-; by apply stays_refl|].
  apply bind_inv in H as (z & k2 & H2 & H). apply process_kill_pager in H2.
  case_decide as D2; [injection H as <- <-; apply stays_refl; congruence|].
  apply bind_inv in H as ([] & k3 & H3 & H). apply on_procs_pager in H3.
  apply bind_inv in H as ([] & k4 & H4 & H). apply process_close_files_pager in H4.
  apply bind_inv in H as ([] & k5 & H5 & H). apply on_procs_pager in H5.
  apply bind_inv in H as (pd & k6 & H6 & H). apply on_procs_pager in H6.
  apply bind_inv in H as ([] & k7 & H7 & H).
  apply bind_inv in H as ([] & k8 & H8 & H). apply delete_swapped_pager in H8.
  apply bind_inv in H as ([] & k9 & H9 & H). apply process_pagetableFree_pager in H9.
  apply bind_inv in H as (x & k10 & H10 & H). apply on_procs_pager in H10.
  apply bind_inv in H as ([] & k11 & H11 & H). apply on_swap_pager in H11.
  apply bind_inv in H as ([] & k12 & H12 & H). apply process_wake_all_pager in H12.
  apply bind_inv in H as ([] & k13 & H13 & H). apply on_procs_pager in H13. injection H as <- <-.
  apply (stays_trans _ k6); [apply stays_refl; congruence|].
  apply (stays_trans _ k7); [|apply (stays_trans _ k8)].
  - unfold delete_alloced in H7. apply bind_inv in H7 as (l & j1 & J1 & H7).
    apply get_pager in J1 as [-> ->]. apply bind_inv in H7 as (l' & j1 & J1 & H7).
    pose proof (ListSpec.list_delete_sublist _ _ _ _ _ _ J1) as Hsub%sublist_length.
    apply delete_frames_effect in J1. apply modify_pager in H7.
    unfold stays, balance. rewrite H7, J1. simpl. lia.
  - unfold quota_view in H8. injection H8 as E1 E2 E3. unfold stays, balance. rewrite E1, E2, E3. lia.
  - apply stays_refl. congruence.
Qed.

(** ** Runs of the pager *)
(** Events that move frames, with the pages on their way out: a fault that
    takes a frame, the choice of a page to swap out, the end of a swap-out,
    the deletion of a process, and anything else that leaves the balance
    alone. *)
Inductive qstep : kstate * list (Z * Z) → kstate * list (Z * Z) → Prop :=
  | q_alloc k out p page f k' :
      pagerFrameAlloc p page k = Ok f k' → qstep (k, out) (k', out)
  | q_choose k out found k' :
      deleteAllocList k = Ok found k' → qstep (k, out) (k', found :: out)
  | q_swapped k out found p f k' :
      pagerFrameFree p f k = Ok tt k' → qstep (k, found :: out) (k', out)
  | q_delete k out pid r k' :
      processDelete pid k = Ok r k' → qstep (k, out) (k', out)
  | q_other k out k' : quota_view k' = quota_view k → qstep (k, out) (k', out).
Definition quota_inv (c : kstate * list (Z * Z)) : Prop :=
  let s := k_pager (fst c) in
  0 ≤ allocLimit s ∧ allocLimit s + length (alloced s) + length (snd c) = totalPages s.

Lemma qstep_inv c c' : qstep c c' → quota_inv c →
  quota_inv c' ∧ totalPages (k_pager (fst c')) = totalPages (k_pager (fst c)).
Proof.
  unfold quota_inv. intros [k out p page f k' H|k out found k' H|k out found p f k' H|k out pid r k' H|k out k' H];
    cbn [fst snd]; intros [Hl Hb].
  - apply frameAlloc_effect in H as [(_ & _ & ->)|(Hp & pid & ->)]; [done|].
    simpl. rewrite length_app. simpl. lia.
  - apply deleteAllocList_effect in H as (-> & -> & Hp). rewrite Hp in Hb. simpl in *. lia.
  - apply frameFree_effect in H as ->. simpl in *. lia.
  - apply processDelete_stays in H as (E1 & E2 & E3). unfold balance in E3. lia.
  - unfold quota_view in H. injection H as -> -> ->. done.
Qed.
Lemma qsteps_inv c c' : rtc qstep c c' → quota_inv c →
  quota_inv c' ∧ totalPages (k_pager (fst c')) = totalPages (k_pager (fst c)).
Proof.
  induction 1 as [|c1 c2 c3 H _ IH]; [done|]. intros Hi.
  apply qstep_inv in H as [H1 H2]; [|done]. destruct (IH H1) as [H3 H4]. split; [done|congruence].
Qed.
End Quota.

Module QuotaClaims.
Import Quota.


(** A process with an empty page table in frame 8192, and a quota of two. *)
Definition pager0 : pager :=
  mkPager 2 2 [] [] [] false ∅ ∅ 0 0 (L4_GlobalId 3 1) (replicate 256 0).
Definition proc0 : Process :=
  mkProcess (info ReplyClaims.alive_proc) 8192
    [region_alloc REGION_HEAP 4096 8192 6 false] 0 0 0
    (fds ReplyClaims.alive_proc) (files ReplyClaims.alive_proc) WAIT_NOBODY None.
Definition kpager0 : kstate :=
  set_pager pager0
    (set_swap (mkSwapst PagetableClaims.demo_pt ∅)
      (ProcessClaims.kboot (set_pcbs {[ 2%positive := proc0 ]} ReplyClaims.alive_procs))).
Definition kpager1 : kstate := after (pagerFrameAlloc (Some 2%positive) 4096) kpager0.
Lemma kpager1_run : pagerFrameAlloc (Some 2%positive) 4096 kpager0 = Ok 12288 kpager1.
Proof.
  unfold kpager1. apply (after_ok (pagerFrameAlloc (Some 2%positive) 4096) kpager0 12288).
  vm_compute. reflexivity.
Qed.
End QuotaClaims.
