(* ===== verification/Resident.v ===== *)
(** * Resident pages and the choice of a victim

    How the pager reads and writes the page table entries of resident pages,
    and what the second-chance loop of [deleteAllocList] does to them: it
    terminates, gives every referenced page at the front one more turn, and
    returns the first page that has not been referenced. *)
From S2P Require Import Prelude Machine ListC Frames Swapfile State Pagetable Process Reply VfsCore.
From S2P Require Import Clock Vfs Lifecycle PagerBase Quota.
Import Frames Swapfile Pagetable Process Reply VfsCore OpenDone PagerBase.

Module Resident.
Definition kmem (k : kstate) : memory := mem (kmach k).
Definition set_kmem (m : memory) (k : kstate) : kstate := set_kmach (set_mem m (kmach k)) k.

Lemma load_run a k : a ≠ 0 → load a k = Ok (load32 (kmem k) a) k.
Proof.
  intros H. unfold load, on_fr, on_swap, on_frames, zoom.
  rewrite (bind_ok _ _ _ _ _ (deref_ok a _ H)). by destruct k as [[]].
Qed.
Lemma store_run a v k : a ≠ 0 → store a v k = Ok tt (set_kmem (store32 (kmem k) a v) k).
Proof.
  intros H. unfold store, on_fr, on_swap, on_frames, zoom.
  by rewrite (bind_ok _ _ _ _ _ (deref_ok a _ H)).
Qed.
Lemma cassert_run {S} w b (s : S) : b = true → cassert w b s = Ok tt s.
Proof. by intros ->. Qed.
Lemma on_pager_run {A} (m : M pager A) k a s :
  m (k_pager k) = Ok a s → on_pager m k = Ok a (set_pager s k).
Proof. intros H. unfold on_pager. by rewrite (zoom_ok _ _ _ _ _ _ H). Qed.
Lemma on_pager_id {A} (m : M pager A) k a :
  m (k_pager k) = Ok a (k_pager k) → on_pager m k = Ok a k.
Proof. intros H. rewrite (on_pager_run _ _ _ _ H). by destruct k. Qed.

(** ** Pages and their entries *)
(** The process of a page and the address of its page table entry. *)
Record entry_at (k : kstate) (pg : Z * Z) (l : positive) (x : Process) (e : Z) : Prop := {
  ea_reg : registered_as (k_procs k) (fst pg) l x;
  ea_pt : pagetable x ≠ 0;
  ea_l1 : l1 (kmem k) (pagetable x) (offset1 (snd pg)) ≠ 0;
  ea_addr : e = word_at (l1 (kmem k) (pagetable x) (offset1 (snd pg))) (offset2 (snd pg));
  ea_nz : e ≠ 0
}.

Lemma entry_run k pg l x e : entry_at k pg l x e → entry_of (Some l) (snd pg) k = Ok e k.
Proof.
  intros [(Hl & Hx & _) Hpt Hl1 -> _]. unfold entry_of.
  rewrite (bind_ok _ _ k (pagetable x) k) by (by apply on_procs_id, (pcb_field pagetable)).
  unfold on_fr, on_swap, on_frames, zoom, pagetableLookup. rewrite decide_False by done.
  erewrite bind_ok by reflexivity. fold (l1 (kmem k) (pagetable x) (offset1 (snd pg))).
  rewrite decide_False by done. erewrite bind_ok by reflexivity.
  erewrite bind_ok by reflexivity. by destruct k as [[]].
Qed.
Lemma sid_run k pid_ l x :
  registered_as (k_procs k) pid_ l x → on_procs (process_get_sid (Some l)) k = Ok pid_ k.
Proof.
  intros (_ & Hx & <-). apply on_procs_id. unfold process_get_sid, process_get_pid.
  by apply (pcb_field (λ x, pid (info x))).
Qed.

(** The pages [pgs] are resident: [ent] gives their entries, which overlap
    neither each other nor the first-level words that lead to them. *)
Record resident (k : kstate) (pgs : list (Z * Z)) (ent : Z * Z → Z) : Prop := {
  res_at : ∀ pg, pg ∈ pgs → ∃ l x, entry_at k pg l x (ent pg);
  res_disj : ∀ pg pg', pg ∈ pgs → pg' ∈ pgs → pg ≠ pg' → word_disjoint (ent pg) (ent pg');
  res_l1 : ∀ pg pg' l x, pg ∈ pgs → pg' ∈ pgs → entry_at k pg' l x (ent pg') →
    word_disjoint (ent pg) (word_at (pagetable x) (offset1 (snd pg')));
  res_aligned : ∀ pg, pg ∈ pgs → aligned (snd pg) = true
}.
Definition val (k : kstate) (ent : Z * Z → Z) (pg : Z * Z) : Z := load32 (kmem k) (ent pg).
Definition referenced (k : kstate) (ent : Z * Z → Z) (pg : Z * Z) : bool :=
  flag (val k ent pg) REF_MASK.

(** What one turn of the loop does to a referenced page at the front. *)
Definition unref (v : Z) : Z := Z.land v (Z.lnot REF_MASK).
Definition give_chance (ent : Z * Z → Z) (k : kstate) (pg : Z * Z) : kstate :=
  klog_app [L4_UnmapFpage (fst pg) (snd pg)]
    (set_pager (set_alloced (tail (alloced (k_pager k)) ++ [pg]) (k_pager k))
      (set_kmem (store32 (kmem k) (ent pg) (unref (val k ent pg))) k)).

Lemma entry_at_mem k k' pg l x e :
  entry_at k pg l x e → k_procs k' = k_procs k →
  l1 (kmem k') (pagetable x) (offset1 (snd pg)) = l1 (kmem k) (pagetable x) (offset1 (snd pg)) →
  entry_at k' pg l x e.
Proof. intros [H1 H2 H3 H4 H5] Hp Hl. split; rewrite ?Hp, ?Hl; done. Qed.

Lemma resident_store k k' pgs ent pg v :
  resident k pgs ent → pg ∈ pgs → k_procs k' = k_procs k →
  kmem k' = store32 (kmem k) (ent pg) v → resident k' pgs ent.
Proof.
  intros Hr Hin Hp Hm.
  assert (∀ pg' l x, pg' ∈ pgs → entry_at k pg' l x (ent pg') → entry_at k' pg' l x (ent pg')) as Hat.
  { intros pg' l x Hpg' He. apply (entry_at_mem k); [done..|]. unfold l1. rewrite Hm.
    apply load32_store32_ne. by apply (res_l1 _ _ _ Hr pg pg' l x). }
  split.
  - intros pg' Hpg'. destruct (res_at _ _ _ Hr pg' Hpg') as (l & x & He). eauto.
  - apply (res_disj _ _ _ Hr).
  - intros pg1 pg2 l x H1 H2 He. destruct (res_at _ _ _ Hr pg2 H2) as (l' & x' & He').
    pose proof (Hat _ _ _ H2 He') as He2.
    assert (x' = x) as <-.
    { destruct He as [(E1 & E2 & _) _ _ _ _], He2 as [(F1 & F2 & _) _ _ _ _]. congruence. }
    by apply (res_l1 _ _ _ Hr pg1 pg2 l' x').
  - apply (res_aligned _ _ _ Hr).
Qed.
Lemma resident_chance k pgs ent pg :
  resident k pgs ent → pg ∈ pgs → resident (give_chance ent k pg) pgs ent.
Proof. intros Hr Hin. by eapply resident_store. Qed.
Lemma val_chance k pgs ent pg pg' :
  resident k pgs ent → pg ∈ pgs → pg' ∈ pgs → is_word (val k ent pg) →
  val (give_chance ent k pg) ent pg' = if decide (pg = pg') then unref (val k ent pg) else val k ent pg'.
Proof.
  intros Hr H1 H2 Hw. unfold val at 1. change (kmem (give_chance ent k pg)) with
    (store32 (kmem k) (ent pg) (unref (val k ent pg))). case_decide as Hd.
  - subst. apply load32_store32_eq. by apply land_word.
  - apply load32_store32_ne. by apply (res_disj _ _ _ Hr).
Qed.

(** ** The loop *)
Lemma chance_step n k pgs ent pg rest :
  resident k pgs ent → pg ∈ pgs → alloced (k_pager k) = pg :: rest →
  second_chance (S n) k =
  if referenced k ent pg then second_chance n (give_chance ent k pg)
  else Ok pg (set_pager (set_alloced rest (k_pager k)) k).
Proof.
  intros Hr Hin Hal. destruct (res_at _ _ _ Hr pg Hin) as (l & x & He).
  pose proof (ea_reg _ _ _ _ _ He) as Hreg. pose proof Hreg as (Hl & Hx & Hp). cbn [second_chance].
  rewrite (bind_ok _ _ k (pg :: rest) k) by (apply on_pager_id; unfold gets; by rewrite Hal).
  erewrite bind_ok by reflexivity. cbn [fst snd].
  erewrite bind_ok by (apply on_pager_run; reflexivity).
  set (k1 := set_pager (set_alloced rest (k_pager k)) k).
  assert (entry_at k1 pg l x (ent pg)) as He1 by (by apply (entry_at_mem k)).
  rewrite (bind_ok _ _ k1 (Some l) k1) by (by apply on_procs_id).
  erewrite bind_ok by (by apply cassert_run).
  rewrite (bind_ok _ _ _ _ _ (entry_run _ _ _ _ _ He1)).
  rewrite (bind_ok _ _ _ _ _ (load_run _ k1 (ea_nz _ _ _ _ _ He1))).
  change (load32 (kmem k1) (ent pg)) with (val k ent pg). fold (referenced k ent pg).
  destruct (referenced k ent pg) eqn:Href; [|done]. cbn [negb].
  rewrite (bind_ok _ _ _ _ _ (store_run _ _ k1 (ea_nz _ _ _ _ _ He1))).
  set (k2 := set_kmem _ k1).
  erewrite bind_ok by (apply (sid_run k2 (fst pg) l x); exact Hreg).
  unfold unmapPage. erewrite bind_ok; [|erewrite bind_ok by
    (apply cassert_run; by apply (res_aligned _ _ _ Hr)); apply emit_ok].
  erewrite bind_ok by (apply on_pager_run; reflexivity). f_equal.
  unfold give_chance. rewrite Hal. done.
Qed.

(** A run of referenced pages at the front: they are given their chance one
    after the other and end up at the back, in order. *)
Lemma chance_scan n pre : ∀ k pgs ent rest,
  resident k pgs ent → (∀ pg, pg ∈ pgs → is_word (val k ent pg)) →
  (∀ pg, pg ∈ pre ++ rest → pg ∈ pgs) → NoDup (pre ++ rest) →
  alloced (k_pager k) = pre ++ rest → (∀ pg, pg ∈ pre → referenced k ent pg = true) →
  let k' := foldl (give_chance ent) k pre in
  second_chance (length pre + n) k = second_chance n k' ∧
  resident k' pgs ent ∧ alloced (k_pager k') = rest ++ pre ∧
  (∀ pg, pg ∈ pgs → val k' ent pg = if decide (pg ∈ pre) then unref (val k ent pg) else val k ent pg) ∧
  klog k' = klog k ++ ((λ pg, L4_UnmapFpage (fst pg) (snd pg)) <$> pre).
Proof.
  induction pre as [|pg pre IH]; intros k pgs ent rest Hr Hw Hsub Hnd Hal Href k'.
  { rewrite app_nil_r. split; [done|]. split; [done|]. split; [done|]. split; [|by rewrite app_nil_r].
    intros pg Hpg. by rewrite decide_False by (by intros ?%elem_of_nil). }
  assert (pg ∈ pgs) as Hpg by (apply Hsub; by left).
  assert (∀ q, q ∈ pgs → val (give_chance ent k pg) ent q =
    if decide (pg = q) then unref (val k ent pg) else val k ent q) as Hv.
  { intros q Hq. apply (val_chance k pgs); auto. }
  simpl in Hnd. apply NoDup_cons in Hnd as [Hni Hnd].
  destruct (IH (give_chance ent k pg) pgs ent (rest ++ [pg])) as (I1 & I2 & I3 & I4 & I5).
  - by apply resident_chance.
  - intros q Hq. rewrite Hv by done. case_decide; [subst; by apply land_word, Hw|by apply Hw].
  - intros q Hq. apply Hsub. set_solver.
  - rewrite app_assoc. apply NoDup_app. split; [done|]. split; [|apply NoDup_singleton].
    intros q Hq ->%list_elem_of_singleton. by apply Hni.
  - simpl. by rewrite Hal, app_assoc.
  - intros q Hq. unfold referenced. rewrite Hv by (apply Hsub; set_solver).
    rewrite decide_False; [apply Href; by right|]. intros ->. apply Hni. set_solver.
  - cbn [length Nat.add]. rewrite (chance_step _ k pgs ent pg (pre ++ rest)) by done.
    rewrite (Href pg) by (by left). split; [done|]. split; [done|].
    split; [unfold k'; cbn [foldl]; by rewrite I3, <- app_assoc|]. split.
    + intros q Hq. unfold k'. cbn [foldl]. rewrite I4, Hv by done.
      destruct (decide (pg = q)) as [<-|Hq'].
      * rewrite (decide_True (P := pg ∈ pg :: pre)) by (by left).
        rewrite decide_False; [done|]. intros ?. apply Hni, elem_of_app. by left.
      * assert (q ∈ pg :: pre ↔ q ∈ pre) as E by (rewrite elem_of_cons; naive_solver).
        repeat case_decide; naive_solver.
    + unfold k'. cbn [foldl fmap list_fmap]. rewrite I5. change (klog (give_chance ent k pg)) with
        (klog k ++ [L4_UnmapFpage (fst pg) (snd pg)]). by rewrite <- app_assoc.
Qed.

Lemma unref_clear v : flag (unref v) REF_MASK = false.
Proof.
  unfold flag, unref. rewrite <- Z.land_assoc.
  replace (Z.land (Z.lnot REF_MASK) REF_MASK) with 0 by done. by rewrite Z.land_0_r.
Qed.
(** The pages before the first one that is not referenced. *)
Lemma split_referenced (f : Z * Z → bool) l :
  ∃ pre rest, l = pre ++ rest ∧ (∀ pg, pg ∈ pre → f pg = true) ∧
    match rest with [] => True | pg :: _ => f pg = false end.
Proof.
  induction l as [|pg l (pre & rest & -> & Hpre & Hrest)]; [exists [], []; set_solver|].
  destruct (f pg) eqn:Hf.
  - exists (pg :: pre), rest. split; [done|]. split; [|done]. set_solver.
  - exists [], (pg :: pre ++ rest). split; [done|]. split; [set_solver|done].
Qed.

(** What [deleteAllocList] chose from [l], and who was given a chance. *)
Record chosen (k : kstate) (ent : Z * Z → Z) (found : Z * Z) (pre : list (Z * Z)) (k' : kstate)
    : Prop := {
  ch_list :
    (∃ post, alloced (k_pager k) = pre ++ found :: post ∧ referenced k ent found = false ∧
             alloced (k_pager k') = post ++ pre) ∨
    (∃ post, alloced (k_pager k) = pre ∧ pre = found :: post ∧ alloced (k_pager k') = post);
  ch_pre : ∀ pg, pg ∈ pre → referenced k ent pg = true;
  ch_val : ∀ pg, pg ∈ alloced (k_pager k) →
    val k' ent pg = if decide (pg ∈ pre) then unref (val k ent pg) else val k ent pg;
  ch_log : klog k' = klog k ++ ((λ pg, L4_UnmapFpage (fst pg) (snd pg)) <$> pre)
}.

Lemma deleteAllocList_chooses k ent :
  resident k (alloced (k_pager k)) ent →
  (∀ pg, pg ∈ alloced (k_pager k) → is_word (val k ent pg)) →
  NoDup (alloced (k_pager k)) → alloced (k_pager k) ≠ [] →
  ∃ found pre k', deleteAllocList k = Ok found k' ∧ chosen k ent found pre k'.
Proof.
  intros Hr Hw Hnd Hne. set (l := alloced (k_pager k)) in *.
  destruct (split_referenced (referenced k ent) l) as (pre & rest & Hl & Hpre & Hrest).
  unfold deleteAllocList. rewrite (bind_ok _ _ k l k) by (by apply on_pager_id).
  erewrite bind_ok by (apply cassert_run; unfold ListSpec.list_null; by rewrite bool_decide_false).
  assert (S (length l) = (length pre + S (length rest))%nat) as -> by (rewrite Hl, length_app; lia).
  destruct (chance_scan (S (length rest)) pre k l ent rest) as (-> & I2 & I3 & I4 & I5);
    [done|done|by rewrite <- Hl|by rewrite <- Hl|done|done|].
  set (k1 := foldl (give_chance ent) k pre) in *.
  destruct rest as [|found post]; cbn [length].
  - rewrite app_nil_r in Hl. destruct pre as [|found post]; [done|].
    rewrite (chance_step 0 k1 l ent found post I2); [|rewrite Hl; by left|done].
    assert (found ∈ l) as Hin by (rewrite Hl; by left).
    unfold referenced. rewrite I4 by done. rewrite decide_True by (by left). rewrite unref_clear.
    eexists _, (found :: post), _. split; [reflexivity|]. split; [|done|done|done].
    right. exists post. split; [done|]. done.
  - rewrite (chance_step (S (length post)) k1 l ent found (post ++ pre) I2); [|rewrite Hl; set_solver|done].
    assert (found ∈ l) as Hin by (rewrite Hl; set_solver).
    unfold referenced at 1. rewrite I4 by done. rewrite decide_False; last first.
    { intros Hp. apply Hpre in Hp. congruence. }
    change (flag (val k ent found) REF_MASK) with (referenced k ent found). rewrite Hrest.
    eexists found, pre, _. split; [reflexivity|]. split; [|done|done|done].
    left. exists post. done.
Qed.
End Resident.

Module ResidentClaims.
Import Resident QuotaClaims.

(** C17: when every page of the list is resident, [deleteAllocList] returns
    after at most one turn more than there are pages, with the first page, in
    list order, that has not been referenced; the referenced pages before it
    lose their reference bit, are unmapped in order and move to the back.  If
    all were referenced it is the first page, after one round.  The entries of
    all other pages are unchanged. *)
Theorem deleteAllocList_second_chance k ent :
  resident k (alloced (k_pager k)) ent →
  (∀ pg, pg ∈ alloced (k_pager k) → is_word (val k ent pg)) →
  NoDup (alloced (k_pager k)) → alloced (k_pager k) ≠ [] →
  ∃ found pre k', deleteAllocList k = Ok found k' ∧ chosen k ent found pre k'.
Proof. apply deleteAllocList_chooses. Qed.

(** Two pages of one process, of which the first was referenced. *)
Definition two_pages : list (Z * Z) := [(5, 4096); (5, 8192)].
Definition fill : K unit :=
  e ← entry_of (Some 2%positive) 4096; store e 0x10002;;
  e ← entry_of (Some 2%positive) 8192; store e 0x20000;;
  on_pager (modify (set_alloced two_pages)).
Definition kpager2 : kstate := after fill kpager0.
Definition demo_ent (pg : Z * Z) : Z := word_at 12288 (offset2 (snd pg)).
Lemma kpager2_facts :
  l1 (kmem kpager2) 8192 0 = 12288 ∧ val kpager2 demo_ent (5, 4096) = 0x10002 ∧
  val kpager2 demo_ent (5, 8192) = 0x20000 ∧ alloced (k_pager kpager2) = two_pages.
Proof. vm_compute. split_and!; reflexivity. Qed.
Lemma kpager2_reg : registered_as (k_procs kpager2) 5 2 proc0.
Proof. split; [vm_compute; reflexivity|]. split; vm_compute; reflexivity. Qed.
Lemma kpager2_pcbs l x : pcbs (k_procs kpager2) !! l = Some x → x = proc0.
Proof.
  assert (pcbs (k_procs kpager2) = {[ 2%positive := proc0 ]}) as -> by (vm_compute; reflexivity).
  by intros [_ <-]%lookup_singleton_Some.
Qed.
Lemma kpager2_page pg : pg ∈ two_pages → fst pg = 5 ∧ offset1 (snd pg) = 0 ∧ aligned (snd pg) = true ∧
  12288 ≤ demo_ent pg < 16384.
Proof.
  assert (Forall (λ pg, fst pg = 5 ∧ offset1 (snd pg) = 0 ∧ aligned (snd pg) = true ∧
    12288 ≤ demo_ent pg < 16384) two_pages) as HF.
  { apply (bool_decide_unpack _). vm_compute. exact I. }
  rewrite Forall_forall in HF. apply HF.
Qed.
Lemma two_pages_disjoint pg pg' :
  pg ∈ two_pages → pg' ∈ two_pages → pg ≠ pg' → word_disjoint (demo_ent pg) (demo_ent pg').
Proof.
  assert (Forall (λ pg, Forall (λ pg', pg ≠ pg' →
    demo_ent pg + 4 ≤ demo_ent pg' ∨ demo_ent pg' + 4 ≤ demo_ent pg) two_pages) two_pages) as HF.
  { apply (bool_decide_unpack _). vm_compute. exact I. }
  intros H1 H2. rewrite Forall_forall in HF. specialize (HF pg H1). rewrite Forall_forall in HF. by apply HF.
Qed.
Lemma kpager2_resident : resident kpager2 two_pages demo_ent.
Proof.
  destruct kpager2_facts as (F1 & _). split.
  - intros pg Hpg. destruct (kpager2_page pg Hpg) as (E1 & E2 & _ & E3). exists 2%positive, proc0.
    split; change (pagetable proc0) with 8192; rewrite ?E1, ?E2, ?F1;
      [apply kpager2_reg|done..|lia].
  - intros pg pg' H1 H2 Hne. by apply two_pages_disjoint.
  - intros pg pg' l x H1 H2 He. destruct (ea_reg _ _ _ _ _ He) as (_ & Hx & _).
    apply kpager2_pcbs in Hx as ->. destruct (kpager2_page pg H1) as (_ & _ & _ & E3).
    destruct (kpager2_page pg' H2) as (_ & -> & _). right.
    change (word_at (pagetable proc0) 0) with 8192. lia.
  - intros pg Hpg. by destruct (kpager2_page pg Hpg) as (_ & _ & ? & _).
Qed.
Lemma kpager2_words pg : pg ∈ two_pages → is_word (val kpager2 demo_ent pg).
Proof.
  assert (Forall (λ pg, is_word (val kpager2 demo_ent pg)) two_pages) as HF.
  { apply (bool_decide_unpack _). vm_compute. exact I. }
  rewrite Forall_forall in HF. apply HF.
Qed.
Lemma deleteAllocList_second_chance_witness :
  ∃ found pre k', deleteAllocList kpager2 = Ok found k' ∧ chosen kpager2 demo_ent found pre k'.
Proof.
  destruct kpager2_facts as (F1 & F2 & F3 & F4).
  apply (deleteAllocList_second_chance kpager2 demo_ent); rewrite F4.
  - apply kpager2_resident.
  - exact kpager2_words.
  - apply (bool_decide_unpack _). vm_compute. exact I.
  - discriminate.
Defined.
End ResidentClaims.
