(* ===== verification/Pager.v ===== *)
(** * The pager ([sos/pager.c])

    Page faults, the queue of asynchronous requests (swapping a page in or
    out, loading an executable), the continuation of a request when the file
    system has answered, copying between user memory and the pager's buffer,
    and the message loop of the pager thread.

    The functions call each other in a circle: a fault may start a request, a
    request may finish at once and resume a fault, and a copy resumes itself
    page by page.  [startRequest] and [pager] close that circle and carry
    fuel; the functions between them take the two as arguments. *)
From S2P Require Import Prelude Machine ListC Frames Swapfile State Pagetable Process Reply VfsCore.
From S2P Require Import Clock Vfs Lifecycle Elf PagerBase.
Import Frames Swapfile Pagetable Process Reply VfsCore Lifecycle Elf PagerBase.

Module Pager.
(** ** Requests to the file system, which the root server answers later
    ([libs/sos/src/sos.c]) *)
Definition open_lockNonblocking (mode readers writers : Z) : K unit :=
  ipc_send_simple L4_rootserver SOS_OPEN SOS_IPC_SEND [mode; readers; writers].
Definition openNonblocking (mode : Z) : K unit :=
  open_lockNonblocking mode FM_UNLIMITED_RW FM_UNLIMITED_RW.
Definition closeNonblocking (file : Z) : K unit :=
  ipc_send_simple L4_rootserver SOS_CLOSE SOS_IPC_SEND [file].
Definition readNonblocking (file nbyte : Z) : K unit :=
  ipc_send_simple L4_rootserver SOS_READ SOS_IPC_SEND [file; nbyte].
Definition writeNonblocking (file nbyte : Z) : K unit :=
  ipc_send_simple L4_rootserver SOS_WRITE SOS_IPC_SEND [file; nbyte].
Definition lseekNonblocking (file pos whence : Z) : K unit :=
  ipc_send_simple L4_rootserver SOS_LSEEK SOS_IPC_SEND [file; pos; whence].
Definition statNonblocking : K unit := ipc_send_simple L4_rootserver SOS_STAT SOS_IPC_SEND [].

(** The pager thread's own part of [copyInOutBuffer]. *)
Definition my_buffer : K Z := tid ← on_pager pager_get_tid; mret (pager_buffer tid).
Definition strncpy_my_buffer (s : cstr) : K unit :=
  off ← my_buffer; b ← get_cbuf; put_cbuf (strncpy_mem b off s (Z.to_nat MAX_FILE_NAME)).

(** [swapfile_open] of [sos/swapfile.c] *)
Definition SWAP_READERS : Z := 1.
Definition SWAP_WRITERS : Z := 1.
Definition swapfile_open (sf rights : Z) : K unit :=
  r ← on_swap (sf_get sf);
  cassert "sf->data.fd == VFS_NIL_FILE" (sf_fd r =? VFS_NIL_FILE);;
  strncpy_my_buffer (sf_path r);;
  open_lockNonblocking (Z.lor rights FM_NOTRUNC) SWAP_READERS SWAP_WRITERS.

(** ** Steps of a request *)
Definition stage_succ (s : pr_stage_t) : pr_stage_t :=
  match s with
  | SWAPIN_OPEN => SWAPIN_LSEEK | SWAPIN_LSEEK => SWAPIN_READ | SWAPIN_READ => SWAPIN_CLOSE
  | SWAPIN_CLOSE => SWAPOUT_OPEN | SWAPOUT_OPEN => SWAPOUT_WRITE
  | SWAPOUT_WRITE | SWAPOUT_CLOSE => SWAPOUT_CLOSE
  end.
Definition set_stage v r := mkPR v (pr_pid r) (pr_addr r) (pr_diskAddr r) (pr_sf r) (pr_rights r)
  (pr_offset r) (pr_size r) (pr_swapinFinish r) (pr_callback_ r).
Definition set_praddr v r := mkPR (pr_stage r) (pr_pid r) v (pr_diskAddr r) (pr_sf r) (pr_rights r)
  (pr_offset r) (pr_size r) (pr_swapinFinish r) (pr_callback_ r).
Definition set_diskAddr v r := mkPR (pr_stage r) (pr_pid r) (pr_addr r) v (pr_sf r) (pr_rights r)
  (pr_offset r) (pr_size r) (pr_swapinFinish r) (pr_callback_ r).
Definition set_sf v r := mkPR (pr_stage r) (pr_pid r) (pr_addr r) (pr_diskAddr r) v (pr_rights r)
  (pr_offset r) (pr_size r) (pr_swapinFinish r) (pr_callback_ r).
Definition set_offset v r := mkPR (pr_stage r) (pr_pid r) (pr_addr r) (pr_diskAddr r) (pr_sf r)
  (pr_rights r) v (pr_size r) (pr_swapinFinish r) (pr_callback_ r).
Definition set_size v r := mkPR (pr_stage r) (pr_pid r) (pr_addr r) (pr_diskAddr r) (pr_sf r)
  (pr_rights r) (pr_offset r) v (pr_swapinFinish r) (pr_callback_ r).
Definition set_finish v r := mkPR (pr_stage r) (pr_pid r) (pr_addr r) (pr_diskAddr r) (pr_sf r)
  (pr_rights r) (pr_offset r) (pr_size r) v (pr_callback_ r).
Definition next_stage (pr : positive) : K unit :=
  on_pager (pr_upd pr (λ r, set_stage (stage_succ <$> pr_stage r) r)).

(** [pr->swapinFinish] before [startSwapin] has set it. *)
Definition panic : K unit := fail (AssertFail "! DON'T PANIC").

Definition pagerContinue (pr : positive) : K unit :=
  r ← on_pager (pr_get pr);
  replyTo ← PS_GET_TID (pr_pid r);
  on_pager (pr_free pr);;
  syscall_reply_v replyTo [].

Definition startSwapin : K unit :=
  f ← on_fr (frame_alloc FA_SWAPPIN);
  on_pager (modify (set_pinned f));;
  ty ← on_pager requestsPeekType;
  cassert "requestsPeekType() == REQUEST_SWAPIN" (bool_decide (ty = REQUEST_SWAPIN));;
  pr ← on_pager requestsPeek;
  q ← on_pager (pr_get pr);
  p ← on_procs (process_lookup (pr_pid q));
  entry ← entry_of p (pr_addr q);
  r ← region_find p (findRegion (pr_addr q));
  match r with
  | None => fail (AssertFail "r != NULL")
  | Some r =>
      v ← load entry;
      (if flag v ELF_MASK then
         cassert "pr->sf != NULL" (negb (pr_sf q =? 0));;
         on_pager (pr_upd pr (set_sf (elffile r)));;
         on_pager (pr_upd pr (set_finish FinSwapelf))
       else
         d ← on_pager (gets defaultSwapfile);
         on_pager (pr_upd pr (set_sf d));;
         on_pager (pr_upd pr (set_finish FinSwapin)));;
      on_pager (pr_upd pr (set_size (Some PAGESIZE)));;
      on_pager (pr_upd pr (set_stage (Some SWAPIN_OPEN)));;
      q ← on_pager (pr_get pr);
      swapfile_open (pr_sf q) FM_READ
  end.

Definition startSwapout : K unit :=
  swapout ← deleteAllocList;
  p ← on_procs (process_lookup (fst swapout));
  cassert "p != NULL" (bool_decide (p ≠ NULL));;
  entry ← entry_of p (snd swapout);
  v ← load entry;
  let frame := Z.land v ADDRESS_MASK in
  r ← region_find p (findPaRegion (snd swapout));
  cassert "r != NULL" (bool_decide (r ≠ None));;
  sf ← on_pager (gets defaultSwapfile);
  cassert "(swapout->snd & ~PAGEALIGN) == 0" (aligned (snd swapout));;
  prepareDataIn p (snd swapout);;
  sid ← on_procs (process_get_sid p);
  unmapPage sid (snd swapout);;
  swapoutPr ← allocPagerRequest (fst swapout) frame FM_READ sf CbNull;
  on_pager (modify (λ s,
    set_preqs (ListSpec.list_shift (requests s) (REQUEST_SWAPOUT, swapoutPr)) s));;
  diskAddr ← pagerSwapslotAlloc p;
  cassert "(diskAddr & ~PAGEALIGN) == 0" (aligned diskAddr);;
  v ← load entry; store entry (Z.lor v SWAP_MASK);;
  v ← load entry; store entry (Z.land v (Z.lnot ADDRESS_MASK));;
  v ← load entry; store entry (Z.lor v diskAddr);;
  on_pager (pr_upd swapoutPr (set_diskAddr (Some diskAddr)));;
  on_pager (pr_upd swapoutPr (set_stage (Some SWAPOUT_OPEN)));;
  on_pager (pr_upd swapoutPr (set_size (Some PAGESIZE)));;
  swapfile_open sf FM_WRITE.

Definition startElfload : K unit :=
  ty ← on_pager requestsPeekType;
  cassert "requestsPeekType() == REQUEST_ELFLOAD" (bool_decide (ty = REQUEST_ELFLOAD));;
  er ← on_pager requestsPeek;
  q ← on_pager (er_get er);
  strncpy_my_buffer (er_path q);;
  openNonblocking FM_READ.

(** [size] counts up by pages while it is below the region's size. *)
Definition setRegionOnElf (p : ptr) (r : Region) (addr : Z) : K unit :=
  cassert "(addr & ~PAGEALIGN) == 0" (aligned addr);;
  if decide (2 ^ 32 - PAGESIZE < size r) then fail OutOfFuel
  else
    forM (zseq 0 (Z.to_nat ((size r + PAGESIZE - 1) / PAGESIZE))) (λ i,
      entry ← entry_of p (w32 (base r + i * PAGESIZE));
      store entry (Z.lor (Z.lor (w32 (addr + i * PAGESIZE)) SWAP_MASK) ELF_MASK)).

Definition wordAlign (s : Z) : Z :=
  let x := w32 (s - 1) in w32 (x + (4 - x mod 4)).

(** ** The copy loops: the new destination bytes and the offset reached. *)
Fixpoint copy_bytes (n : nat) (from to : memory) (src dst offset : Z) (brk : Z → Z → bool)
    : memory * Z :=
  match n with
  | O => (to, offset)
  | S n' =>
      let to := <[dst := load8 from src]> to in
      if brk (src + 1) (dst + 1) then (to, offset + 1)
      else copy_bytes n' from to (src + 1) (dst + 1) (offset + 1) brk
  end.
Definition LO_HALF (w : Z) : Z := Z.land w 65535.
Definition HI_HALF (w : Z) : Z := Z.land (Z.shiftr w 16) 65535.
Definition HI_SHIFT (w : Z) : Z := w32 (Z.shiftl w 16).
Definition copydata_get (i : Z) : M pager Z := d ← gets copyInOutData; arr_get d i.
Definition copydata_set (i v : Z) : M pager unit :=
  d ← gets copyInOutData;
  d' ← of_opt OutOfRange (arr_set d i v);
  modify (set_copydata d').
Definition get_mem : K memory := gets (λ k, mem (kmach k)).
Definition put_mem (m : memory) : K unit := on_mach (modify (set_mem m)).

(** ** The circle *)
Section circle.
Variable startRequest : K unit.
Variable pager : positive → K unit.

Definition queueRequest (rtype : rtype_t) (request : positive) : K unit :=
  l ← on_pager (gets requests);
  a ← on_pager (gets requestActive);
  let push := on_pager (modify (λ s, set_preqs (ListSpec.list_push (requests s) (rtype, request)) s)) in
  if ListSpec.list_null l then
    cassert "!requestActive" (negb a);;
    push;;
    startRequest
  else
    cassert "requestActive" a;;
    push.

Definition dequeueRequest : K unit :=
  a ← on_pager (gets requestActive);
  cassert "requestActive" a;;
  on_pager (modify (set_active false));;
  on_pager requestsUnshift;;
  l ← on_pager (gets requests);
  if ListSpec.list_null l then mret tt else startRequest.

Definition pagerAction (pr : positive) : K bool :=
  q ← on_pager (pr_get pr);
  p ← on_procs (process_lookup (pr_pid q));
  if decide (p = NULL) then mret false
  else
    pid ← on_procs (process_get_pid p);
    r ← region_find p (findRegion (pr_addr q));
    match r with
    | None => printf "Segmentation fault";; processDelete pid;; mret false
    | Some r =>
        if Z.land (rights r) (pr_rights q) =? 0 then
          printf "Permission fault";; processDelete pid;; mret false
        else
          entry ← entry_of p (pr_addr q);
          v ← load entry;
          let frame := Z.land v ADDRESS_MASK in
          if flag v SWAP_MASK then queueRequest REQUEST_SWAPIN pr;; mret false
          else
            f ← (if decide (Z.land frame ADDRESS_MASK ≠ 0) then mret (Some frame)
                 else if mapDirectly r then mret (Some (page_of (pr_addr q)))
                 else
                   frame ← pagerFrameAlloc p (page_of (pr_addr q));
                   cassert "(frame & ~ADDRESS_MASK) == 0" (aligned frame);;
                   if decide (frame = 0) then queueRequest REQUEST_SWAPIN pr;; mret None
                   else mret (Some frame));
            match f with
            | None => mret false
            | Some frame =>
                store entry (Z.lor frame REF_MASK);;
                sid ← on_procs (process_get_sid p);
                mapPage sid (page_of (pr_addr q)) frame (rights r);;
                mret true
            end
    end.

Definition copyInContinue (pr : positive) : K unit :=
  q ← on_pager (pr_get pr);
  p ← on_procs (process_lookup (pr_pid q));
  let addr := page_of (pr_addr q) in
  prepareDataIn p addr;;
  pid ← on_procs (process_get_pid p);
  d ← on_pager (copydata_get pid);
  let size := Z.min COPY_BUFSIZ (LO_HALF d) in
  let offset := HI_HALF d in
  tid ← on_procs (process_get_tid p);
  let dst := pager_buffer tid + offset in
  entry ← entry_of p addr;
  v ← load entry;
  let src := Z.land v ADDRESS_MASK + Z.land (pr_addr q) (Z.lnot PAGEALIGN) in
  m ← get_mem;
  b ← get_cbuf;
  let '(b', offset) :=
    copy_bytes (Z.to_nat (size - offset)) m b src dst offset (λ s _, isPageAligned s) in
  put_cbuf b';;
  on_pager (copydata_set pid (Z.lor size (HI_SHIFT offset)));;
  if decide (offset = size) then
    on_pager (pr_free pr);;
    syscall_reply_v tid []
  else
    on_pager (pr_upd pr (set_praddr (page_of (w32 (pr_addr q + PAGESIZE)))));;
    pager pr.

Definition copyOutContinue (pr : positive) : K unit :=
  q ← on_pager (pr_get pr);
  p ← on_procs (process_lookup (pr_pid q));
  let addr := page_of (pr_addr q) in
  pid ← on_procs (process_get_pid p);
  d ← on_pager (copydata_get pid);
  let size := Z.min COPY_BUFSIZ (LO_HALF d) in
  let offset := HI_HALF d in
  tid ← on_procs (process_get_tid p);
  let src := pager_buffer tid + offset in
  entry ← entry_of p addr;
  v ← load entry;
  let dst := Z.land v ADDRESS_MASK + Z.land (pr_addr q) (Z.lnot PAGEALIGN) in
  m ← get_mem;
  b ← get_cbuf;
  let '(m', offset) :=
    copy_bytes (Z.to_nat (size - offset)) b m src dst offset (λ _ d, isPageAligned d) in
  put_mem m';;
  on_pager (copydata_set pid (Z.lor size (HI_SHIFT offset)));;
  prepareDataOut p addr;;
  if decide (offset = size) then
    on_pager (pr_free pr);;
    syscall_reply_v tid []
  else
    on_pager (pr_upd pr (set_praddr (page_of (w32 (pr_addr q + PAGESIZE)))));;
    pager pr.

(** [pr->callback(pr)] *)
Definition callback (pr : positive) : K unit :=
  q ← on_pager (pr_get pr);
  match pr_callback_ q with
  | CbNull => fail NullDeref
  | CbPagerContinue => pagerContinue pr
  | CbCopyInContinue => copyInContinue pr
  | CbCopyOutContinue => copyOutContinue pr
  end.

Definition pager_body (pr : positive) : K unit :=
  done ← pagerAction pr;
  if (done : bool) then
    callback pr;;
    l ← on_pager (gets requests);
    a ← on_pager (gets requestActive);
    when (negb (ListSpec.list_null l) && negb a) startRequest
  else mret tt.

Definition startPagerRequest : K unit :=
  l ← on_pager (gets requests);
  cassert "!list_null(requests)" (negb (ListSpec.list_null l));;
  ty ← on_pager requestsPeekType;
  cassert "requestsPeekType() != REQUEST_ELFLOAD" (bool_decide (ty ≠ REQUEST_ELFLOAD));;
  nextPr ← on_pager requestsPeek;
  q ← on_pager (pr_get nextPr);
  p ← on_procs (process_lookup (pr_pid q));
  entry ← entry_of p (pr_addr q);
  v ← load entry;
  if flag v SWAP_MASK then startSwapin
  else
    pin ← on_pager (gets pinnedFrame);
    cassert "pinnedFrame == 0" (pin =? 0);;
    lim ← on_pager (gets allocLimit);
    if decide (0 < lim) then
      on_pager (modify (set_active false));;
      pr ← on_pager requestsUnshift;
      pager pr
    else startSwapout.

Definition startRequest_body : K unit :=
  l ← on_pager (gets requests);
  cassert "!list_null(requests)" (negb (ListSpec.list_null l));;
  a ← on_pager (gets requestActive);
  cassert "!requestActive" (negb a);;
  on_pager (modify (set_active true));;
  ty ← on_pager requestsPeekType;
  match ty with
  | REQUEST_SWAPOUT | REQUEST_SWAPIN => startPagerRequest
  | REQUEST_ELFLOAD => startElfload
  end.
End circle.

(** Every turn of the circle takes one unit of fuel. *)
Fixpoint startRequest (fuel : nat) : K unit :=
  match fuel with
  | O => fail OutOfFuel
  | S fuel' => startRequest_body (pager fuel')
  end
with pager (fuel : nat) (pr : positive) : K unit :=
  match fuel with
  | O => fail OutOfFuel
  | S fuel' => pager_body (startRequest fuel') (pager fuel') pr
  end.

(** ** Finishing a request *)
Section finish.
Variable fuel : nat.
Definition resume (pr : positive) : K unit := callback (pager fuel) pr.
Definition next_request : K unit := dequeueRequest (startRequest fuel).
Definition action (pr : positive) : K bool := pagerAction (startRequest fuel) pr.

Definition finishElfload (rval : Z) : K unit :=
  ty ← on_pager requestsPeekType;
  cassert "requestsPeekType() == REQUEST_ELFLOAD" (bool_decide (ty = REQUEST_ELFLOAD));;
  er ← on_pager requestsPeek;
  q ← on_pager (er_get er);
  replyTo ← PS_GET_TID (er_parent q);
  on_pager (er_free er);;
  syscall_reply replyTo rval;;
  next_request.

Definition finishSwapout : K unit :=
  ty ← on_pager requestsPeekType;
  cassert "requestsPeekType() == REQUEST_SWAPOUT" (bool_decide (ty = REQUEST_SWAPOUT));;
  swapout ← on_pager requestsUnshift;
  o ← on_pager (pr_get swapout);
  po ← on_procs (process_lookup (pr_pid o));
  pagerFrameFree po (pr_addr o);;
  on_pager (pr_free swapout);;
  ty ← on_pager requestsPeekType;
  cassert "requestsPeekType() == REQUEST_SWAPIN" (bool_decide (ty = REQUEST_SWAPIN));;
  swapin ← on_pager requestsPeek;
  q ← on_pager (pr_get swapin);
  p ← on_procs (process_lookup (pr_pid q));
  when (bool_decide (p = NULL)) (resume swapin;; next_request);;
  action swapin;;
  q ← on_pager (pr_get swapin);
  entry ← entry_of p (pr_addr q);
  v ← load entry;
  let frame := Z.land v ADDRESS_MASK in
  pinned ← on_pager (gets pinnedFrame);
  on_fr (deref frame);;
  m ← get_mem;
  (if decide (pinned ≠ 0) then
     put_mem (memcpy m frame pinned (Z.to_nat PAGESIZE));;
     on_fr (frame_free pinned);;
     on_pager (modify (set_pinned 0))
   else put_mem (memset m frame 0 (Z.to_nat PAGESIZE)));;
  prepareDataOut p (page_of (pr_addr q));;
  resume swapin;;
  next_request.

Definition finishSwapin : K unit :=
  ty ← on_pager requestsPeekType;
  cassert "requestsPeekType() == REQUEST_SWAPIN" (bool_decide (ty = REQUEST_SWAPIN));;
  request ← on_pager requestsPeek;
  q ← on_pager (pr_get request);
  p ← on_procs (process_lookup (pr_pid q));
  when (bool_decide (p = NULL))
    (pinned ← on_pager (gets pinnedFrame);
     on_fr (frame_free pinned);;
     on_pager (modify (set_pinned 0));;
     resume request;;
     next_request);;
  q ← on_pager (pr_get request);
  let addr := page_of (pr_addr q) in
  entry ← entry_of p addr;
  v ← load entry;
  cassert "*entry & SWAP_MASK" (flag v SWAP_MASK);;
  pid ← on_procs (process_get_pid p);
  delete_swapped (pagerSwapslotFree (pid, Z.land v ADDRESS_MASK));;
  v ← load entry; store entry (Z.land v (Z.lnot SWAP_MASK));;
  v ← load entry; store entry (Z.land v (Z.lnot ADDRESS_MASK));;
  lim ← on_pager (gets allocLimit);
  if decide (0 < lim) then
    action request;;
    v ← load entry;
    let frame := Z.land v ADDRESS_MASK in
    pinned ← on_pager (gets pinnedFrame);
    on_fr (deref frame;; deref pinned);;
    m ← get_mem;
    put_mem (memcpy m frame pinned (Z.to_nat PAGESIZE));;
    prepareDataOut p addr;;
    on_fr (frame_free pinned);;
    on_pager (modify (set_pinned 0));;
    resume request;;
    next_request
  else startSwapout.

Definition finishSwapelf : K unit :=
  pr ← on_pager requestsPeek;
  q ← on_pager (pr_get pr);
  p ← on_procs (process_lookup (pr_pid q));
  r ← region_find p (findRegion (pr_addr q));
  entry ← entry_of p (pr_addr q);
  r ← of_opt NullDeref r;
  fsz ← region_get_filesize r;
  let fileTop := w32 (base r + fsz) in
  (if decide (page_of fileTop = page_of (pr_addr q)) then
     cassert "region_get_size(r) >= region_get_filesize(r)" (bool_decide (fsz ≤ size r));;
     pinned ← on_pager (gets pinnedFrame);
     on_fr (deref pinned);;
     m ← get_mem;
     put_mem (memset m (pinned + fileTop mod PAGESIZE) 0 (Z.to_nat (size r - fsz)))
   else mret tt);;
  v ← load entry; store entry (Z.land v (Z.lnot ELF_MASK));;
  finishSwapin.

(** ** The answer of the file system to the current request *)
Definition swapinFinish (pr : positive) : K unit :=
  q ← on_pager (pr_get pr);
  match pr_swapinFinish q with
  | FinPanic => panic
  | FinSwapin => finishSwapin
  | FinSwapelf => finishSwapelf
  end.
(** [readNonblocking(fd, min(IO_MAX_BUFFER, pr->size - pr->offset))] *)
Definition read_more (pr : positive) : K unit :=
  q ← on_pager (pr_get pr);
  fd ← on_swap (swapfile_get_fd (pr_sf q));
  sz ← of_opt Uninit (pr_size q);
  readNonblocking fd (Z.min IO_MAX_BUFFER (sz - pr_offset q)).

Definition continueSwapin (vfsRval : Z) : K unit :=
  pr ← on_pager requestsPeek;
  q ← on_pager (pr_get pr);
  stage ← of_opt Uninit (pr_stage q);
  match stage with
  | SWAPIN_OPEN =>
      on_swap (swapfile_set_fd (pr_sf q) vfsRval);;
      p ← on_procs (process_lookup (pr_pid q));
      entry ← entry_of p (Z.land (pr_addr q) ADDRESS_MASK);
      fd ← on_swap (swapfile_get_fd (pr_sf q));
      v ← load entry;
      lseekNonblocking fd (Z.land v ADDRESS_MASK) SEEK_SET;;
      on_pager (pr_upd pr (set_offset 0));;
      next_stage pr
  | SWAPIN_LSEEK => read_more pr;; next_stage pr
  | SWAPIN_READ =>
      cassert "vfsRval > 0" (bool_decide (0 < vfsRval));;
      cassert "pr->offset <= PAGESIZE" (bool_decide (pr_offset q ≤ PAGESIZE));;
      pinned ← on_pager (gets pinnedFrame);
      off ← my_buffer;
      b ← get_cbuf;
      m ← get_mem;
      put_mem (write_bytes m (pinned + pr_offset q)
                 ((λ i, load8 b (off + i)) <$> zseq 0 (Z.to_nat vfsRval)));;
      on_pager (pr_upd pr (λ q, set_offset (pr_offset q + vfsRval) q));;
      q ← on_pager (pr_get pr);
      sz ← of_opt Uninit (pr_size q);
      cassert "pr->offset <= pr->size" (bool_decide (pr_offset q ≤ sz));;
      if decide (pr_offset q = sz) then
        on_swap (swapfile_close (pr_sf q));; next_stage pr
      else read_more pr
  | SWAPIN_CLOSE => swapinFinish pr
  | _ => fail (AssertFail "! default")
  end.

Definition continueSwapout (vfsRval : Z) : K unit :=
  pr ← on_pager requestsPeek;
  q ← on_pager (pr_get pr);
  cassert "pr->offset <= PAGESIZE" (bool_decide (pr_offset q ≤ PAGESIZE));;
  stage ← of_opt Uninit (pr_stage q);
  match stage with
  | SWAPOUT_OPEN =>
      on_swap (swapfile_set_fd (pr_sf q) vfsRval);;
      on_pager (pr_upd pr (set_offset 0));;
      fd ← on_swap (swapfile_get_fd (pr_sf q));
      disk ← of_opt Uninit (pr_diskAddr q);
      lseekNonblocking fd disk SEEK_SET;;
      next_stage pr
  | SWAPOUT_WRITE =>
      sz ← of_opt Uninit (pr_size q);
      cassert "pr->offset <= pr->size" (bool_decide (pr_offset q ≤ sz));;
      if decide (pr_offset q = sz) then
        on_swap (swapfile_close (pr_sf q));; next_stage pr
      else
        let n := Z.min IO_MAX_BUFFER (sz - pr_offset q) in
        off ← my_buffer;
        b ← get_cbuf;
        m ← get_mem;
        put_cbuf (write_bytes b off
          ((λ i, load8 m (pr_addr q + pr_offset q + i)) <$> zseq 0 (Z.to_nat n)));;
        fd ← on_swap (swapfile_get_fd (pr_sf q));
        writeNonblocking fd n;;
        on_pager (pr_upd pr (λ q, set_offset (pr_offset q + n) q))
  | SWAPOUT_CLOSE => finishSwapout
  | _ => fail (AssertFail "! default")
  end.

(** *** Loading an executable *)
Definition set_erstage v r := mkER v (er_path r) (er_fd r) (er_parent r) (er_child r)
  (er_fdout r) (er_fderr r) (er_fdin r).
Definition set_erfd v r := mkER (er_stage r) (er_path r) v (er_parent r) (er_child r)
  (er_fdout r) (er_fderr r) (er_fdin r).
Definition set_child v r := mkER (er_stage r) (er_path r) (er_fd r) (er_parent r) v
  (er_fdout r) (er_fderr r) (er_fdin r).
Definition erstage_succ (s : elfload_stage_t) : elfload_stage_t :=
  match s with
  | ELFLOAD_OPEN => ELFLOAD_CHECK_EXEC
  | ELFLOAD_CHECK_EXEC => ELFLOAD_READ_HEADER
  | ELFLOAD_READ_HEADER | ELFLOAD_CLOSE => ELFLOAD_CLOSE
  end.
Definition next_erstage (er : positive) : K unit :=
  on_pager (er_upd er (λ r, set_erstage (erstage_succ (er_stage r)) r)).

(** One program header of the file whose header is at [buf]. *)
Definition load_segment (p : ptr) (pth : cstr) (buf i : Z) : K unit :=
  b ← get_cbuf;
  let r := region_alloc REGION_OTHER (elf32_getProgramHeaderVaddr b buf i)
             (elf32_getProgramHeaderMemorySize b buf i)
             (elf32_getProgramHeaderFlags b buf i) false in
  sf ← on_swap (swapfile_init pth);
  let r := region_set_filesize (region_set_elffile r sf) (elf32_getProgramHeaderFileSize b buf i) in
  on_procs (process_add_region p r);;
  setRegionOnElf p r (page_of (elf32_getProgramHeaderOffset b buf i)).

Definition continueElfload `{StatLayout} (vfsRval : Z) : K unit :=
  er ← on_pager requestsPeek;
  q ← on_pager (er_get er);
  match er_stage q with
  | ELFLOAD_OPEN =>
      (if decide (vfsRval < 0) then finishElfload (-1)
       else
         on_pager (er_upd er (set_erfd vfsRval));;
         tid ← on_pager pager_get_tid;
         on_pager (copydata_set (L4_ThreadNo tid) 0);;
         strncpy_my_buffer (er_path q);;
         statNonblocking);;
      next_erstage er
  | ELFLOAD_CHECK_EXEC =>
      cassert "vfsRval == 0" (vfsRval =? 0);;
      buf ← my_buffer;
      b ← get_cbuf;
      let elfStat := wordAlign (buf + length (cbuf_str b buf) + 1) in
      if Z.land (load8 b (elfStat + st_fmode_off)) FM_EXEC =? 0 then finishElfload (-1)
      else readNonblocking (er_fd q) IO_MAX_BUFFER;; next_erstage er
  | ELFLOAD_READ_HEADER =>
      header ← my_buffer;
      b ← get_cbuf;
      (if decide (elf32_checkFile b header ≠ 0) then finishElfload (-1)
       else
         p ← process_init PS_TYPE_PROCESS;
         forM (zseq 0 (Z.to_nat (elf32_getNumProgramHeaders b header)))
           (load_segment p (er_path q) header);;
         on_procs (process_set_name p (er_path q));;
         child ← of_opt Uninit (er_child q);
         process_get_info p;;
         on_procs (pcb_upd p (upd_info (set_pid child)));;
         process_prepare2 p (er_fdout q) (er_fderr q) (er_fdin q);;
         b ← get_cbuf;
         on_procs (process_set_ip p (elf32_getEntryPoint b header));;
         process_run p true;;
         pid ← on_procs (process_get_pid p);
         cassert "er->child == process_get_pid(p)" (child =? pid);;
         closeNonblocking (er_fd q));;
      next_erstage er
  | ELFLOAD_CLOSE =>
      child ← of_opt Uninit (er_child q);
      finishElfload child
  end.

Definition vfsHandler `{StatLayout} (vfsRval : Z) : K unit :=
  ty ← on_pager requestsPeekType;
  match ty with
  | REQUEST_SWAPOUT => continueSwapout vfsRval
  | REQUEST_SWAPIN => continueSwapin vfsRval
  | REQUEST_ELFLOAD => continueElfload vfsRval
  end.

(** ** Copying between user memory and the buffer *)
Definition copy_start (tid : L4_ThreadId_t) (addr size append rights : Z) (cb : pr_callback)
    : K unit :=
  p ← on_procs (process_lookup (L4_ThreadNo tid));
  pid ← on_procs (process_get_pid p);
  d ← on_pager (copydata_get pid);
  let newSize := if truthy append then w32 (LO_HALF d + size) else size in
  let newBase := if truthy append then HI_HALF d else 0 in
  on_pager (copydata_set pid (Z.lor (LO_HALF newSize) (HI_SHIFT newBase)));;
  sf ← on_pager (gets defaultSwapfile);
  pr ← allocPagerRequest pid addr rights sf cb;
  pager fuel pr.
Definition copyIn (tid : L4_ThreadId_t) (src size append : Z) : K unit :=
  copy_start tid src size append FM_READ CbCopyInContinue.
Definition copyOut (tid : L4_ThreadId_t) (dst size append : Z) : K unit :=
  copy_start tid dst size append FM_WRITE CbCopyOutContinue.

(** ** The message loop of the pager thread *)
Definition pagerFlush (sender : Z) : K unit := emit (L4_UnmapAll sender).
Definition sos_sid2tid (sid : Z) : K L4_ThreadId_t :=
  if decide (sid = L4_rootspace) then on_pager pager_get_tid else mret (L4_GlobalId sid 1).
(** [L4_MsgWord]; a register that was not sent is indeterminate. *)
Definition L4_MsgWord (msg : list Z) (i : nat) : K Z := of_opt Uninit (msg !! i).

(** One turn of the loop of [virtualPagerHandler], on a message with [label]
    and words [msg] from address space [sender]. *)
Definition virtualPagerHandler `{StatLayout, ProcessLayout} (sender label : Z) (msg : list Z)
    : K unit :=
  tid ← sos_sid2tid sender;
  p ← on_procs (process_lookup (L4_ThreadNo tid));
  match syscall_of_num (TAG_SYSLAB label) with
  | Some L4_PAGEFAULT =>
      pid ← on_procs (process_get_pid p);
      addr ← L4_MsgWord msg 0;
      sf ← on_pager (gets defaultSwapfile);
      pr ← allocPagerRequest pid addr (Z.land label 7) sf CbPagerContinue;
      pager fuel pr
  | Some SOS_COPYIN =>
      a ← L4_MsgWord msg 0; n ← L4_MsgWord msg 1; app ← L4_MsgWord msg 2; copyIn tid a n app
  | Some SOS_COPYOUT =>
      a ← L4_MsgWord msg 0; n ← L4_MsgWord msg 1; app ← L4_MsgWord msg 2; copyOut tid a n app
  | Some SOS_REPLY =>
      if decide (sender = L4_rootspace) then r ← L4_MsgWord msg 0; vfsHandler (s32 r) else mret tt
  | Some SOS_MOREMEM =>
      nb ← L4_MsgWord msg 0;
      r ← heapGrow sender (pager_buffer tid) nb;
      syscall_reply tid r
  | Some SOS_MEMLOC =>
      a ← L4_MsgWord msg 0;
      e ← entry_of p (page_of a);
      v ← load e;
      syscall_reply tid v
  | Some SOS_MEMUSE => u ← on_pager memoryUsage; syscall_reply tid u
  | Some SOS_SWAPUSE =>
      sf ← on_pager (gets defaultSwapfile);
      u ← on_swap (swapfile_get_usage sf);
      syscall_reply tid u
  | Some SOS_PHYSUSE => u ← on_fr frames_allocated; syscall_reply tid u
  | Some SOS_PROCESS_WAIT =>
      tmp ← L4_MsgWord msg 0;
      (if decide (tmp = 2 ^ 32 - 1) then
         w ← on_procs (process_lookup (L4_ThreadNo tid)); on_procs (process_wait_any w)
       else
         f ← on_procs (process_lookup tmp);
         w ← on_procs (process_lookup (L4_ThreadNo tid));
         on_procs (process_wait_for f w))
  | Some SOS_PROCESS_STATUS =>
      n ← L4_MsgWord msg 0;
      out ← process_write_status (s32 n);
      b ← get_cbuf;
      put_cbuf (write_bytes b (pager_buffer tid) (concat (process_bytes <$> out)));;
      syscall_reply tid (length out)
  | Some SOS_PROCESS_DELETE =>
      pid ← L4_MsgWord msg 0;
      if decide (L4_ThreadNo tid = pid) then processDelete pid;; mret tt
      else r ← processDelete pid; syscall_reply tid r
  | Some SOS_PROCESS_CREATE =>
      pid ← on_procs reserve_pid;
      er ← (if decide (pid ≠ NIL_PID) then
              b ← get_cbuf;
              caller ← on_procs (process_get_pid p);
              o ← L4_MsgWord msg 0; e ← L4_MsgWord msg 1; i ← L4_MsgWord msg 2;
              allocElfloadRequest (cbuf_str b (pager_buffer tid)) caller (s32 o) (s32 e) (s32 i)
            else mret NULL);
      match er with
      | None => syscall_reply tid (-1)
      | Some l =>
          on_pager (er_upd l (set_child (Some pid)));;
          queueRequest (startRequest fuel) REQUEST_ELFLOAD l
      end
  | Some SOS_DEBUG_FLUSH => pagerFlush sender;; syscall_reply_v tid []
  | Some L4_EXCEPTION =>
      pid ← on_procs (process_get_pid p);
      processDelete pid;; mret tt
  | _ => mret tt
  end.
End finish.

(** The first action of the pager thread. *)
Definition virtualPager_start (sos_my_tid : L4_ThreadId_t) : K unit :=
  on_pager (modify (set_vpager sos_my_tid)).
(** [pager_init] ends by waiting until the pager thread has started. *)
Definition pager_init (virtualPagerHandler_addr : Z) : K unit :=
  sf ← on_swap (swapfile_init SWAPFILE_FN);
  on_pager (modify (λ s, mkPager FRAME_ALLOC_LIMIT FRAME_ALLOC_LIMIT [] [] [] (requestActive s)
    (prs s) (ers s) (pinnedFrame s) sf (virtualPager s) (copyInOutData s)));;
  p ← process_run_rootthread (bytes_of_string "pager") virtualPagerHandler_addr true 254;
  on_procs (process_set_ipcfilt p PS_IPC_BLOCKING);;
  tid ← on_procs (process_get_tid p);
  virtualPager_start tid.
End Pager.
