(* ===== verification/Copy.v ===== *)
(** * Faults on resident pages and copying user memory

    A fault on a page that is in memory is resolved at once; a copy between
    user memory and the pager's buffer goes page by page, with a fault on each
    page to bring it in.  The theorems say what one such fault does, and that
    copying in a range of resident pages transfers exactly its bytes. *)
From S2P Require Import Prelude Machine ListC Frames Swapfile State Pagetable Process Reply VfsCore.
From S2P Require Import Clock Vfs Lifecycle PagerBase Pager Quota Resident.
Import Frames Swapfile Pagetable Process Reply VfsCore OpenDone PagerBase Pager Resident.

(** ** Addresses and bits *)
Module Bits.
Lemma page_of_eq a : page_of a = a / PAGESIZE * PAGESIZE.
Proof.
  unfold page_of. change PAGEALIGN with (Z.lnot (Z.ones 12)).
  rewrite <- Z.ldiff_land, Z.ldiff_ones_r by lia. rewrite Z.shiftl_mul_pow2, Z.shiftr_div_pow2 by lia.
  done.
Qed.
Lemma page_off_eq a : Z.land a (Z.lnot PAGEALIGN) = a mod PAGESIZE.
Proof. change (Z.lnot PAGEALIGN) with (Z.ones 12). by rewrite Z.land_ones. Qed.
Lemma page_of_div a : page_of a / PAGESIZE = a / PAGESIZE.
Proof. rewrite page_of_eq. by rewrite Z.div_mul. Qed.
Lemma page_of_idemp a : page_of (page_of a) = page_of a.
Proof. unfold page_of. by rewrite <- Z.land_assoc, Z.land_diag. Qed.
Lemma page_of_aligned a : aligned (page_of a) = true.
Proof.
  unfold aligned. rewrite page_off_eq, page_of_eq. apply Z.eqb_eq. by rewrite Z.mod_mul.
Qed.
Lemma isPageAligned_iff a : isPageAligned a = true ↔ a mod PAGESIZE = 0.
Proof.
  unfold isPageAligned. change (PAGESIZE - 1) with (Z.ones 12). rewrite Z.land_ones by lia.
  apply Z.eqb_eq.
Qed.
Lemma offset_page_of a : offset1 (page_of a) = offset1 a ∧ offset2 (page_of a) = offset2 a.
Proof. rewrite !offset2_mod. unfold offset1. by rewrite page_of_div. Qed.

(** The flags of an entry that was just mapped. *)
Lemma mapped_frame v : Z.land (Z.lor (Z.land v ADDRESS_MASK) REF_MASK) ADDRESS_MASK = Z.land v ADDRESS_MASK.
Proof.
  rewrite Z.land_lor_distr_l, <- Z.land_assoc, Z.land_diag.
  replace (Z.land REF_MASK ADDRESS_MASK) with 0 by done. apply Z.lor_0_r.
Qed.
Lemma mapped_swap v : flag (Z.lor (Z.land v ADDRESS_MASK) REF_MASK) SWAP_MASK = false.
Proof.
  unfold flag. rewrite Z.land_lor_distr_l, <- Z.land_assoc.
  replace (Z.land ADDRESS_MASK SWAP_MASK) with 0 by done.
  replace (Z.land REF_MASK SWAP_MASK) with 0 by done. by rewrite Z.land_0_r.
Qed.

(** The two halves of a word of [copyInOutData]. *)
Lemma half_lo n o : 0 ≤ n < 2 ^ 16 → LO_HALF (Z.lor n (HI_SHIFT o)) = n.
Proof.
  intros Hn. unfold LO_HALF, HI_SHIFT. change 65535 with (Z.ones 16).
  rewrite Z.land_lor_distr_l, w32_land, <- Z.land_assoc.
  rewrite (Z.land_comm (Z.ones 32)), Z.land_ones by lia.
  replace (Z.land (Z.ones 16) (Z.ones 32)) with (Z.ones 16) by done.
  rewrite Z.land_ones by lia. rewrite Z.shiftl_mul_pow2, Z.mod_mul by lia.
  rewrite Z.lor_0_r. by apply Z.mod_small.
Qed.
Lemma half_hi n o : 0 ≤ n < 2 ^ 16 → 0 ≤ o < 2 ^ 16 → HI_HALF (Z.lor n (HI_SHIFT o)) = o.
Proof.
  intros Hn Ho. unfold HI_HALF, HI_SHIFT. change 65535 with (Z.ones 16).
  rewrite w32_small; [|unfold is_word; rewrite Z.shiftl_mul_pow2 by lia; lia].
  rewrite Z.shiftr_lor, Z.shiftr_shiftl_l by lia. rewrite Z.shiftl_0_r.
  rewrite Z.shiftr_div_pow2, Z.div_small by lia. rewrite Z.lor_0_l, Z.land_ones by lia.
  by apply Z.mod_small.
Qed.
End Bits.

Module UserPages.
Import Bits.

(** ** The pages of a process *)
Definition entry (k : kstate) (x : Process) (a : Z) : Z :=
  word_at (l1 (kmem k) (pagetable x) (offset1 a)) (offset2 a).
Definition pte (k : kstate) (x : Process) (a : Z) : Z := load32 (kmem k) (entry k x a).
Definition frame_of (k : kstate) (x : Process) (a : Z) : Z := Z.land (pte k x a) ADDRESS_MASK.
(** The physical address and the byte behind a user address. *)
Definition phys (k : kstate) (x : Process) (a : Z) : Z := frame_of k x a + a mod PAGESIZE.
Definition ubyte (k : kstate) (x : Process) (a : Z) : Z := load8 (kmem k) (phys k x a).

(** The page of [a] is in memory, and region [r] allows the access. *)
Record page_ok (k : kstate) (x : Process) (rt a : Z) (r : Region) : Prop := {
  po_word : is_word a;
  po_pt : pagetable x ≠ 0;
  po_l1 : l1 (kmem k) (pagetable x) (offset1 a) ≠ 0;
  po_entry : entry k x a ≠ 0;
  po_pte : is_word (pte k x a);
  po_swap : flag (pte k x a) SWAP_MASK = false;
  po_frame : frame_of k x a ≠ 0;
  po_find : find (findRegion a) (regions x) = Some r;
  po_rights : Z.land (rights r) rt ≠ 0
}.

Lemma page_ok_mem k k' x rt a r : kmem k' = kmem k → page_ok k x rt a r → page_ok k' x rt a r.
Proof.
  intros E [H1 H2 H3 H4 H5 H6 H7 H8 H9]. unfold frame_of, pte, entry in *.
  split; unfold frame_of, pte, entry; rewrite ?E; done.
Qed.
Lemma region_find_run k l x f :
  pcbs (k_procs k) !! l = Some x → region_find (Some l) f k = Ok (find f (regions x)) k.
Proof.
  intros Hx. unfold region_find. rewrite (bind_ok _ _ k x k) by (by apply on_procs_id, pcb_get_run).
  induction (regions x) as [|r rs IH]; [done|]. simpl. erewrite bind_ok by reflexivity.
  destruct (f r); [done|apply IH].
Qed.
Lemma page_entry_at k pid_ l x rt a r :
  registered_as (k_procs k) pid_ l x → page_ok k x rt a r →
  entry_at k (pid_, a) l x (entry k x a) ∧ entry_at k (pid_, page_of a) l x (entry k x a).
Proof.
  intros Hreg [H1 H2 H3 H4 _ _ _ _ _]. destruct (offset_page_of a) as [E1 E2].
  split; split; simpl; rewrite ?E1, ?E2; done.
Qed.
Lemma pid_run k pid_ l x :
  registered_as (k_procs k) pid_ l x → on_procs (process_get_pid (Some l)) k = Ok pid_ k.
Proof.
  intros (_ & Hx & <-). apply on_procs_id. by apply (pcb_field (λ x, pid (info x))).
Qed.
Lemma tid_run k pid_ l x :
  registered_as (k_procs k) pid_ l x →
  on_procs (process_get_tid (Some l)) k = Ok (L4_GlobalId pid_ 1) k.
Proof.
  intros (_ & Hx & <-). apply on_procs_id. by apply (pcb_field (λ y, L4_GlobalId (pid (info y)) 1)).
Qed.
Lemma pr_get_run s pr q : prs s !! pr = Some q → pr_get pr s = Ok q s.
Proof. intros H. unfold pr_get. by rewrite H. Qed.

(** The state after a fault on a resident page. *)
Definition touched (x : Process) (pid_ a : Z) (r : Region) (k : kstate) : kstate :=
  klog_app [L4_MapFpage pid_ (page_of a) (frame_of k x a) (rights r)]
    (set_kmem (store32 (kmem k) (entry k x a) (Z.lor (frame_of k x a) REF_MASK)) k).

Lemma action_hit sr k pr q l x r :
  prs (k_pager k) !! pr = Some q → registered_as (k_procs k) (pr_pid q) l x →
  page_ok k x (pr_rights q) (pr_addr q) r →
  pagerAction sr pr k = Ok true (touched x (pr_pid q) (pr_addr q) r k).
Proof.
  intros Hq Hreg Hok. pose proof Hreg as (Hl & Hx & Hp).
  destruct (page_entry_at _ _ _ _ _ _ _ Hreg Hok) as [He _].
  destruct Hok as [H1 H2 H3 H4 H5 H6 H7 H8 H9]. unfold pagerAction.
  rewrite (bind_ok _ _ k q k) by (by apply on_pager_id, pr_get_run).
  rewrite (bind_ok _ _ k (Some l) k) by (by apply on_procs_id).
  rewrite decide_False by done.
  rewrite (bind_ok _ _ _ _ _ (pid_run _ _ _ _ Hreg)).
  rewrite (bind_ok _ _ _ _ _ (region_find_run _ _ _ _ Hx)), H8.
  rewrite (proj2 (Z.eqb_neq _ _) H9).
  rewrite (bind_ok _ _ _ _ _ (entry_run _ _ _ _ _ He)), (bind_ok _ _ _ _ _ (load_run _ k H4)).
  fold (pte k x (pr_addr q)). rewrite H6.
  assert (Z.land (Z.land (pte k x (pr_addr q)) ADDRESS_MASK) ADDRESS_MASK = frame_of k x (pr_addr q)) as E.
  { by rewrite <- Z.land_assoc, Z.land_diag. }
  rewrite E, decide_True by done. erewrite bind_ok by reflexivity. cbn iota.
  rewrite (bind_ok _ _ _ _ _ (store_run _ _ k H4)).
  erewrite bind_ok by (by apply (sid_run _ (pr_pid q) l x)).
  unfold mapPage. erewrite bind_ok; [reflexivity|].
  erewrite bind_ok by (apply cassert_run, page_of_aligned).
  erewrite bind_ok by (apply cassert_run, (page_of_aligned (pte k x (pr_addr q)))).
  apply emit_ok.
Qed.

(** ** A range of resident pages *)
Definition in_range (lo n a : Z) : Prop := lo ≤ a < lo + n.
(** All pages of [lo, lo + n) are resident and accessible; their entries
    overlap neither each other, nor the words that lead to them, nor the data. *)
Record user_range (k : kstate) (x : Process) (rt lo n : Z) : Prop := {
  ur_ok : ∀ a, in_range lo n a → ∃ r, page_ok k x rt a r;
  ur_l1 : ∀ a b, in_range lo n a → in_range lo n b →
    word_disjoint (entry k x a) (word_at (pagetable x) (offset1 b));
  ur_entry : ∀ a b, in_range lo n a → in_range lo n b → a / PAGESIZE ≠ b / PAGESIZE →
    word_disjoint (entry k x a) (entry k x b);
  ur_data : ∀ a b, in_range lo n a → in_range lo n b →
    phys k x b < entry k x a ∨ entry k x a + 4 ≤ phys k x b
}.

Lemma user_range_mem k k' x rt lo n : kmem k' = kmem k → user_range k x rt lo n → user_range k' x rt lo n.
Proof.
  intros E [H1 H2 H3 H4]. unfold phys, frame_of, pte, entry in *.
  split; unfold phys, frame_of, pte, entry; rewrite ?E; try done.
  intros a Ha. destruct (H1 a Ha) as [r Hr]. exists r. by apply (page_ok_mem k).
Qed.
Lemma load8_store32 m a v b : b < a ∨ a + 4 ≤ b → load8 (store32 m a v) b = load8 m b.
Proof. intros H. unfold store32. rewrite !load8_insert. repeat case_decide; lia || done. Qed.
Lemma same_entry k x a b : a / PAGESIZE = b / PAGESIZE → entry k x a = entry k x b.
Proof.
  intros E. unfold entry. rewrite !offset2_mod. unfold offset1. by rewrite E.
Qed.

(** A fault on one page of the range leaves the range as it is. *)
Section touch.
Context (k k' : kstate) (x : Process) (rt lo n a : Z).
Context (Hr : user_range k x rt lo n) (Ha : in_range lo n a).
Context (Hm : kmem k' = store32 (kmem k) (entry k x a) (Z.lor (frame_of k x a) REF_MASK)).

Lemma touch_l1 b : in_range lo n b →
  l1 (kmem k') (pagetable x) (offset1 b) = l1 (kmem k) (pagetable x) (offset1 b).
Proof. intros Hb. unfold l1. rewrite Hm. apply load32_store32_ne. by apply (ur_l1 _ _ _ _ _ Hr). Qed.
Lemma touch_entry b : in_range lo n b → entry k' x b = entry k x b.
Proof. intros Hb. unfold entry. by rewrite touch_l1. Qed.
Lemma touch_pte b : in_range lo n b →
  pte k' x b = if decide (a / PAGESIZE = b / PAGESIZE) then Z.lor (frame_of k x b) REF_MASK else pte k x b.
Proof.
  intros Hb. unfold pte at 1. rewrite touch_entry, Hm by done. case_decide as Hd.
  - assert (frame_of k x a = frame_of k x b) as -> by (unfold frame_of, pte; by rewrite (same_entry _ _ a b)).
    rewrite (same_entry _ _ a b) by done. apply load32_store32_eq.
    destruct (ur_ok _ _ _ _ _ Hr b Hb) as [r Hok]. apply lor_word; [apply land_word, (po_pte _ _ _ _ _ Hok)|done].
  - apply load32_store32_ne. by apply (ur_entry _ _ _ _ _ Hr).
Qed.
Lemma touch_frame b : in_range lo n b → frame_of k' x b = frame_of k x b.
Proof.
  intros Hb. unfold frame_of at 1. rewrite touch_pte by done. case_decide; [|done]. apply mapped_frame.
Qed.
Lemma touch_ubyte b : in_range lo n b → ubyte k' x b = ubyte k x b.
Proof.
  intros Hb. unfold ubyte, phys. rewrite touch_frame, Hm by done. apply load8_store32.
  by apply (ur_data _ _ _ _ _ Hr).
Qed.
Lemma touch_range : user_range k' x rt lo n.
Proof.
  split.
  - intros b Hb. destruct (ur_ok _ _ _ _ _ Hr b Hb) as [r [H1 H2 H3 H4 H5 H6 H7 H8 H9]]. exists r.
    split; rewrite ?touch_l1, ?touch_entry, ?touch_frame, ?touch_pte by done; try done.
    + case_decide; [apply lor_word; [by apply land_word|done]|done].
    + case_decide; [apply mapped_swap|done].
  - intros b c Hb Hc. rewrite touch_entry by done. by apply (ur_l1 _ _ _ _ _ Hr).
  - intros b c Hb Hc. rewrite !touch_entry by done. by apply (ur_entry _ _ _ _ _ Hr).
  - intros b c Hb Hc. unfold phys. rewrite touch_entry, touch_frame by done.
    by apply (ur_data _ _ _ _ _ Hr).
Qed.
End touch.
Lemma range_sub k x rt lo n lo' n' :
  user_range k x rt lo n → lo ≤ lo' → lo' + n' ≤ lo + n → user_range k x rt lo' n'.
Proof.
  intros [H1 H2 H3 H4] ??.
  split; unfold in_range in *; intros; [apply H1|apply H2|apply H3|apply H4]; lia.
Qed.

(** ** The copy loop *)
Lemma copy_bytes_spec brk from p (cnt : nat) : ∀ to src dst offset,
  (∀ i, 0 ≤ i → brk (src + i) (dst + i) = isPageAligned (p + i)) →
  let c := Z.min cnt (PAGESIZE - p mod PAGESIZE) in
  snd (copy_bytes cnt from to src dst offset brk) = offset + c ∧
  ∀ y, load8 (fst (copy_bytes cnt from to src dst offset brk)) y =
    if decide (dst ≤ y < dst + c) then load8 from (src + (y - dst)) else load8 to y.
Proof.
  revert p. induction cnt as [|cnt IH]; intros p to src dst offset Hb c.
  { pose proof (Z.mod_pos_bound p PAGESIZE ltac:(done)). split; [simpl; lia|].
    intros y. rewrite decide_False by lia. done. }
  cbn [copy_bytes]. rewrite (Hb 1) by lia.
  pose proof (Z.mod_pos_bound p PAGESIZE ltac:(done)) as Hp.
  assert (∀ y, load8 (<[dst := load8 from src]> to) y =
    if decide (dst ≤ y < dst + 1) then load8 from (src + (y - dst)) else load8 to y) as H1.
  { intros y. rewrite load8_insert. repeat case_decide; try lia; try done. f_equal. lia. }
  destruct (isPageAligned (p + 1)) eqn:Hal.
  - apply isPageAligned_iff in Hal.
    assert (p mod PAGESIZE = PAGESIZE - 1) as E.
    { rewrite Z.add_mod in Hal by done. change (1 mod PAGESIZE) with 1 in Hal.
      destruct (decide (p mod PAGESIZE = PAGESIZE - 1)); [done|].
      rewrite (Z.mod_small (p mod PAGESIZE + 1)) in Hal; lia. }
    assert (c = 1) as -> by lia. done.
  - assert ((p + 1) mod PAGESIZE = p mod PAGESIZE + 1) as E.
    { assert (p mod PAGESIZE ≠ PAGESIZE - 1) as Hne.
      { intros Hn. rewrite <- not_true_iff_false in Hal. apply Hal, isPageAligned_iff.
        rewrite Z.add_mod, Hn by done. done. }
      rewrite Z.add_mod by done. change (1 mod PAGESIZE) with 1. apply Z.mod_small. lia. }
    destruct (IH (p + 1) (<[dst := load8 from src]> to) (src + 1) (dst + 1) (offset + 1)) as [I1 I2].
    { intros i Hi. replace (src + 1 + i) with (src + (1 + i)) by lia.
      replace (dst + 1 + i) with (dst + (1 + i)) by lia. rewrite Hb by lia. f_equal. lia. }
    rewrite E in I1, I2. assert (Z.min cnt (PAGESIZE - (p mod PAGESIZE + 1)) = c - 1) as Ec by lia.
    rewrite Ec in I1, I2. split; [rewrite I1; lia|].
    intros y. rewrite I2, H1. repeat case_decide; try lia; try done; f_equal; lia.
Qed.

(** ** One page of a copy *)
Definition flush_in (k : kstate) (x : Process) (pid_ a : Z) : list event :=
  [L4_CacheFlushRange pid_ (page_of a) (w32 (page_of a + PAGESIZE));
   L4_CacheFlushRangeInvalidate L4_rootspace (frame_of k x a) (w32 (frame_of k x a + PAGESIZE))].
Lemma prepareDataIn_run k pid_ l x rt a r :
  registered_as (k_procs k) pid_ l x → page_ok k x rt a r →
  prepareDataIn (Some l) (page_of a) k = Ok tt (klog_app (flush_in k x pid_ a) k).
Proof.
  intros Hreg Hok. destruct (page_entry_at _ _ _ _ _ _ _ Hreg Hok) as [_ He].
  unfold prepareDataIn. erewrite bind_ok by (apply cassert_run, page_of_aligned).
  rewrite (bind_ok _ _ _ _ _ (entry_run _ _ _ _ _ He)).
  rewrite (bind_ok _ _ _ _ _ (load_run _ k (ea_nz _ _ _ _ _ He))).
  rewrite (bind_ok _ _ _ _ _ (sid_run _ _ _ _ Hreg)).
  rewrite (bind_ok _ _ _ _ _ (emit_ok _ _)), emit_ok. by rewrite klog_app_app.
Qed.

Definition set_cdata (pid_ v : Z) (s : State.pager) : State.pager :=
  set_copydata (<[Z.to_nat pid_ := v]> (copyInOutData s)) s.
Lemma copydata_get_run s i v :
  0 ≤ i → copyInOutData s !! Z.to_nat i = Some v → copydata_get i s = Ok v s.
Proof. intros Hi Hv. unfold copydata_get. erewrite bind_ok by reflexivity. by apply arr_get_ok. Qed.
Lemma copydata_set_run s i v w :
  0 ≤ i → copyInOutData s !! Z.to_nat i = Some w → copydata_set i v s = Ok tt (set_cdata i v s).
Proof.
  intros Hi Hv%lookup_lt_Some. unfold copydata_set. erewrite bind_ok by reflexivity.
  by rewrite arr_set_ok by lia.
Qed.

(** The state after the bytes of one page have been copied in. *)
Definition copied (b' : memory) (pid_ d : Z) (es : list event) (k : kstate) : kstate :=
  set_pager (set_cdata pid_ d (k_pager k))
    (set_kmach (set_cbuf b' (kmach (klog_app es k))) (klog_app es k)).
(** How far a copy gets on the page of [a] with [left] bytes to go. *)
Definition chunk (a left : Z) : Z := Z.min left (PAGESIZE - a mod PAGESIZE).

Lemma frame_mod k x a : frame_of k x a mod PAGESIZE = 0.
Proof. unfold frame_of. change ADDRESS_MASK with PAGEALIGN. fold (page_of (pte k x a)).
  rewrite page_of_eq. by rewrite Z.mod_mul. Qed.
Lemma phys_mod k x a : phys k x a mod PAGESIZE = a mod PAGESIZE.
Proof.
  unfold phys. rewrite Z.add_mod, frame_mod, Z.add_0_l, !Z.mod_mod by done. done.
Qed.

Lemma copyIn_page pg k pr q l x rt r n off :
  prs (k_pager k) !! pr = Some q → registered_as (k_procs k) (pr_pid q) l x →
  page_ok k x rt (pr_addr q) r → 0 ≤ pr_pid q →
  copyInOutData (k_pager k) !! Z.to_nat (pr_pid q) = Some (Z.lor n (HI_SHIFT off)) →
  0 ≤ off < n → n ≤ COPY_BUFSIZ →
  let a := pr_addr q in let c := chunk a (n - off) in
  let buf := pager_buffer (L4_GlobalId (pr_pid q) 1) in
  ∃ b', (∀ y, load8 b' y = if decide (buf + off ≤ y < buf + off + c)
                           then load8 (kmem k) (phys k x a + (y - (buf + off)))
                           else load8 (cbuf (kmach k)) y) ∧
  copyInContinue pg pr k =
    (if decide (off + c = n)
     then on_pager (pr_free pr);; syscall_reply_v (L4_GlobalId (pr_pid q) 1) []
     else on_pager (pr_upd pr (set_praddr (page_of (w32 (a + PAGESIZE)))));; pg pr)
    (copied b' (pr_pid q) (Z.lor n (HI_SHIFT (off + c))) (flush_in k x (pr_pid q) a) k).
Proof.
  intros Hq Hreg Hok Hpid Hd Hoff Hn a c buf. pose proof Hreg as (Hl & Hx & Hp).
  change COPY_BUFSIZ with 16384 in Hn.
  set (k1 := klog_app (flush_in k x (pr_pid q) a) k).
  assert (registered_as (k_procs k1) (pr_pid q) l x) as Hreg1 by done.
  destruct (page_entry_at k1 _ _ _ rt a r Hreg1 (page_ok_mem k k1 _ _ _ _ eq_refl Hok)) as [_ He].
  destruct (copy_bytes_spec (λ s _, isPageAligned s) (kmem k) (phys k x a) (Z.to_nat (n - off))
    (cbuf (kmach k)) (phys k x a) (buf + off) off) as [C1 C2]; [done|].
  rewrite phys_mod in C1, C2. rewrite Z2Nat.id in C1, C2 by lia.
  fold (chunk a (n - off)) in C1, C2. fold c in C1, C2.
  eexists. split; [exact C2|]. unfold copyInContinue.
  rewrite (bind_ok _ _ k q k) by (by apply on_pager_id, pr_get_run).
  rewrite (bind_ok _ _ k (Some l) k) by (by apply on_procs_id).
  rewrite (bind_ok _ _ _ _ _ (prepareDataIn_run _ _ _ _ _ _ _ Hreg Hok)). fold k1.
  rewrite (bind_ok _ _ _ _ _ (pid_run k1 _ _ _ Hreg1)).
  rewrite (bind_ok _ _ k1 (Z.lor n (HI_SHIFT off)) k1) by (by apply on_pager_id, copydata_get_run).
  rewrite half_lo, half_hi by lia. change COPY_BUFSIZ with 16384. rewrite Z.min_r by lia.
  rewrite (bind_ok _ _ _ _ _ (tid_run k1 _ _ _ Hreg1)).
  rewrite (bind_ok _ _ _ _ _ (entry_run _ _ _ _ _ He)).
  rewrite (bind_ok _ _ _ _ _ (load_run _ k1 (ea_nz _ _ _ _ _ He))).
  rewrite page_off_eq. fold a.
  change (Z.land (load32 (kmem k1) (entry k1 x a)) ADDRESS_MASK + a mod PAGESIZE) with (phys k x a).
  rewrite (bind_ok _ _ k1 (kmem k) k1) by done. rewrite (bind_ok _ _ k1 (cbuf (kmach k)) k1) by done.
  fold buf. destruct (copy_bytes _ _ _ _ _ _ _) as [b' o] eqn:Ecp. cbn [fst snd] in *. subst o.
  erewrite bind_ok by reflexivity.
  erewrite bind_ok by (apply on_pager_run; by eapply copydata_set_run).
  case_decide; done.
Qed.

(** ** The whole copy *)
Lemma next_page a left :
  is_word a → chunk a left < left → is_word (a + chunk a left) →
  page_of (w32 (a + PAGESIZE)) = a + chunk a left ∧ (a + chunk a left) mod PAGESIZE = 0 ∧
  chunk a left = PAGESIZE - a mod PAGESIZE.
Proof.
  unfold chunk, is_word. intros Ha Hc Hw. pose proof (Z.mod_pos_bound a PAGESIZE ltac:(done)) as Hm.
  rewrite Z.min_r in * by lia. pose proof (Z.div_mod a PAGESIZE ltac:(done)) as Hd.
  assert (a + (PAGESIZE - a mod PAGESIZE) = (a / PAGESIZE + 1) * PAGESIZE) as E by lia.
  assert (a + PAGESIZE < 2 ^ 32) as Hlt.
  { change PAGESIZE with 4096 in *. change (2 ^ 32) with (1048576 * 4096) in *. lia. }
  split; [|split; [|done]].
  - rewrite w32_small by (unfold is_word; change PAGESIZE with 4096 in *; lia).
    rewrite page_of_eq, E. rewrite <- (Z.mul_1_l PAGESIZE) at 1. by rewrite Z.div_add.
  - rewrite E. by rewrite Z.mod_mul.
Qed.
Lemma phys_shift k x a i :
  0 ≤ i < PAGESIZE - a mod PAGESIZE → phys k x (a + i) = phys k x a + i.
Proof.
  intros Hi. pose proof (Z.mod_pos_bound a PAGESIZE ltac:(done)) as Hm.
  pose proof (Z.div_mod a PAGESIZE ltac:(done)) as Hd.
  assert ((a + i) / PAGESIZE = a / PAGESIZE) as E.
  { symmetry. apply (Z.div_unique _ _ _ (a mod PAGESIZE + i)); lia. }
  assert ((a + i) mod PAGESIZE = a mod PAGESIZE + i) as E2.
  { symmetry. apply (Z.mod_unique _ _ (a / PAGESIZE)); lia. }
  unfold phys, frame_of, pte. rewrite (same_entry k x (a + i) a E), E2. lia.
Qed.

(** What a copy does not touch, and the events of the copying itself. *)
Definition beyond_paging (k : kstate) :=
  (k_vfs k, k_nfs k, k_con k, k_clock k, swapfiles (k_swap k), virtualPager (k_pager k),
   length (copyInOutData (k_pager k)), moracle (kmach k)).
Definition paging_event (e : event) : Prop :=
  match e with
  | L4_MapFpage _ _ _ _ | L4_CacheFlushRange _ _ _ | L4_CacheFlushRangeInvalidate _ _ _ => True
  | _ => False
  end.
Lemma copied_beyond k k' pid_ d :
  copyInOutData (k_pager k') = <[Z.to_nat pid_ := d]> (copyInOutData (k_pager k)) →
  k_vfs k' = k_vfs k → k_nfs k' = k_nfs k → k_con k' = k_con k → k_clock k' = k_clock k →
  swapfiles (k_swap k') = swapfiles (k_swap k) → virtualPager (k_pager k') = virtualPager (k_pager k) →
  moracle (kmach k') = moracle (kmach k) → beyond_paging k' = beyond_paging k.
Proof.
  intros E E1 E2 E3 E4 E5 E6 E7. unfold beyond_paging.
  by rewrite E, E1, E2, E3, E4, E5, E6, E7, length_insert.
Qed.
(** What a finished copy-in has done. *)
Record copied_in (k : kstate) (x : Process) (pid_ src from_ to_ : Z) (k' : kstate) : Prop := {
  ci_procs : k_procs k' = k_procs k;
  ci_queue : requests (k_pager k') = requests (k_pager k);
  ci_active : requestActive (k_pager k') = requestActive (k_pager k);
  ci_bytes : let buf := pager_buffer (L4_GlobalId pid_ 1) in
    ∀ y, load8 (cbuf (kmach k')) y =
      if decide (buf + from_ ≤ y < buf + to_) then ubyte k x (src + (y - (buf + from_)))
      else load8 (cbuf (kmach k)) y;
  ci_reply : ∃ es, Forall paging_event es ∧
    klog k' = klog k ++ es ++ reply_events (L4_GlobalId pid_ 1) [] (info x);
  ci_beyond : beyond_paging k' = beyond_paging k
}.

(** The continuation of a request, and a fault that runs it at once. *)
Definition pr_continue (fuel : nat) (q : PagerRequest) (pr : positive) : K unit :=
  match pr_callback_ q with
  | CbNull => fail NullDeref
  | CbPagerContinue => pagerContinue pr
  | CbCopyInContinue => copyInContinue (pager fuel) pr
  | CbCopyOutContinue => copyOutContinue (pager fuel) pr
  end.
Lemma pager_hit fuel k pr q l x r k3 :
  prs (k_pager k) !! pr = Some q → registered_as (k_procs k) (pr_pid q) l x →
  page_ok k x (pr_rights q) (pr_addr q) r →
  (requests (k_pager k) = [] ∨ requestActive (k_pager k) = true) →
  pr_continue fuel q pr (touched x (pr_pid q) (pr_addr q) r k) = Ok tt k3 →
  requests (k_pager k3) = requests (k_pager k) →
  requestActive (k_pager k3) = requestActive (k_pager k) → pager (S fuel) pr k = Ok tt k3.
Proof.
  intros Hq Hreg Hok Hquiet H3 Hq3 Ha3. cbn [pager]. unfold pager_body.
  rewrite (bind_ok _ _ _ _ _ (action_hit _ _ _ _ _ _ _ Hq Hreg Hok)).
  set (k1 := touched x _ _ r k) in *.
  unfold callback. erewrite bind_ok; [|rewrite (bind_ok _ _ k1 q k1) by (by apply on_pager_id, pr_get_run);
    exact H3].
  rewrite (bind_ok _ _ k3 (requests (k_pager k)) k3) by (apply on_pager_id; unfold gets; by rewrite <- Hq3).
  rewrite (bind_ok _ _ k3 (requestActive (k_pager k)) k3) by (apply on_pager_id; unfold gets; by rewrite <- Ha3).
  destruct Hquiet as [-> | ->]; [done|]. by rewrite andb_false_r.
Qed.

(** The first [c] bytes have been copied. *)
Record filled (k : kstate) (x : Process) (pid_ a n c off : Z) (k3 : kstate) : Prop := {
  fd_procs : k_procs k3 = k_procs k;
  fd_queue : requests (k_pager k3) = requests (k_pager k);
  fd_active : requestActive (k_pager k3) = requestActive (k_pager k);
  fd_bytes : let buf := pager_buffer (L4_GlobalId pid_ 1) in
    ∀ y, load8 (cbuf (kmach k3)) y =
      if decide (buf + off ≤ y < buf + off + c) then ubyte k x (a + (y - (buf + off)))
      else load8 (cbuf (kmach k)) y;
  fd_kept : ∀ b, in_range a (n - off) b → ubyte k3 x b = ubyte k x b;
  fd_beyond : beyond_paging k3 = beyond_paging k
}.
Lemma filled_last k x pid_ a n c off k3 :
  filled k x pid_ a n c off k3 → off + c = n →
  (∃ es, Forall paging_event es ∧
    klog k3 = klog k ++ es ++ reply_events (L4_GlobalId pid_ 1) [] (info x)) →
  copied_in k x pid_ a off n k3.
Proof.
  intros [F1 F2 F3 F4 F5 F6] Hn Hlog. split; [done..| |done|done].
  intros buf y. rewrite F4. fold buf. repeat case_decide; done || lia.
Qed.
Lemma filled_then k k3 k4 x pid_ a n c off :
  filled k x pid_ a n c off k3 → 0 ≤ off → 0 < c ≤ n - off →
  (∃ es, Forall paging_event es ∧ klog k3 = klog k ++ es) →
  copied_in k3 x pid_ (a + c) (off + c) n k4 → copied_in k x pid_ a off n k4.
Proof.
  intros [F1 F2 F3 F4 F5 F6] Hoff Hc (es & Hes & Hlog) [P1 P2 P3 P4 (es' & Hes' & P5) P6].
  split; [congruence..| | |congruence].
  - intros buf y. rewrite P4, F4. fold buf. destruct (decide (buf + (off + c) ≤ y < buf + n)).
    + rewrite decide_True by lia. rewrite F5 by (unfold in_range; lia). f_equal. lia.
    + repeat case_decide; done || lia.
  - exists (es ++ es'). split; [by apply Forall_app|]. by rewrite P5, Hlog, !app_assoc.
Qed.
(** What the copy of one page leaves. *)
Lemma page_filled k k1 k3 x pid_ a n off b' c :
  0 < c ≤ n - off → c ≤ PAGESIZE - a mod PAGESIZE →
  (∀ b, in_range a (n - off) b → ubyte k1 x b = ubyte k x b) →
  (let buf := pager_buffer (L4_GlobalId pid_ 1) in
   ∀ y, load8 b' y = if decide (buf + off ≤ y < buf + off + c)
                     then load8 (kmem k1) (phys k1 x a + (y - (buf + off))) else load8 (cbuf (kmach k)) y) →
  kmem k3 = kmem k1 → cbuf (kmach k3) = b' → k_procs k3 = k_procs k →
  requests (k_pager k3) = requests (k_pager k) → requestActive (k_pager k3) = requestActive (k_pager k) →
  beyond_paging k3 = beyond_paging k → filled k x pid_ a n c off k3.
Proof.
  intros Hc Hcp Hu Hb Hm Eb Ep Eq Ea Ey. split; [done..| | |done].
  - intros buf y. rewrite Eb, Hb. fold buf. case_decide; [|done].
    rewrite <- Hu by (unfold in_range; lia). unfold ubyte. f_equal. rewrite phys_shift; [done|lia].
  - intros b Hin. rewrite <- Hu by done. unfold ubyte, phys, frame_of, pte, entry. by rewrite Hm.
Qed.

Lemma copy_in_all (fuel : nat) : ∀ k pr q l x n off,
  prs (k_pager k) !! pr = Some q → pr_callback_ q = CbCopyInContinue →
  registered_as (k_procs k) (pr_pid q) l x → 0 ≤ pr_pid q →
  user_range k x (pr_rights q) (pr_addr q) (n - off) →
  copyInOutData (k_pager k) !! Z.to_nat (pr_pid q) = Some (Z.lor n (HI_SHIFT off)) →
  0 ≤ off < n → n ≤ COPY_BUFSIZ →
  (requests (k_pager k) = [] ∨ requestActive (k_pager k) = true) →
  pr_addr q mod PAGESIZE + (n - off) ≤ fuel * PAGESIZE →
  ∃ k', pager fuel pr k = Ok tt k' ∧ copied_in k x (pr_pid q) (pr_addr q) off n k'.
Proof.
  induction fuel as [|fuel IH]; intros k pr q l x n off Hq Hcb Hreg Hpid Hr Hd Hoff Hn Hquiet Hfuel.
  { pose proof (Z.mod_pos_bound (pr_addr q) PAGESIZE ltac:(done)). lia. }
  set (a := pr_addr q) in *. set (c := chunk a (n - off)).
  assert (in_range a (n - off) a) as Ha by (unfold in_range; lia).
  destruct (ur_ok _ _ _ _ _ Hr a Ha) as [r Hok].
  set (k1 := touched x (pr_pid q) a r k).
  pose proof (touch_range k k1 x _ _ _ a Hr Ha eq_refl) as Hr1.
  destruct (ur_ok _ _ _ _ _ Hr1 a Ha) as [r1 Hok1].
  assert (0 < c ≤ n - off ∧ c ≤ PAGESIZE - a mod PAGESIZE) as Hc.
  { unfold c, chunk. pose proof (Z.mod_pos_bound a PAGESIZE ltac:(done)). lia. }
  destruct (copyIn_page (pager fuel) k1 pr q l x (pr_rights q) r1 n off) as (b' & Hb & Hrun); [done..|].
  fold a in Hb, Hrun. fold c in Hb, Hrun.
  set (k2 := copied b' (pr_pid q) _ _ k1) in Hrun.
  assert (∀ k3, kmem k3 = kmem k2 → cbuf (kmach k3) = b' → k_procs k3 = k_procs k →
    requests (k_pager k3) = requests (k_pager k) → requestActive (k_pager k3) = requestActive (k_pager k) →
    beyond_paging k3 = beyond_paging k → filled k x (pr_pid q) a n c off k3) as Hfill.
  { clear Hrun. intros k3 Em. apply (page_filled k k1 k3 x _ _ _ _ b'); try done; try lia.
    intros b. by apply (touch_ubyte k k1 x (pr_rights q) a (n - off) a). }
  pose proof (λ k3, pager_hit fuel k pr q l x r k3 Hq Hreg Hok Hquiet) as Hpager.
  fold a k1 in Hpager. unfold pr_continue in Hpager. rewrite Hcb in Hpager.
  set (es := [L4_MapFpage (pr_pid q) (page_of a) (frame_of k x a) (rights r)] ++ flush_in k1 x (pr_pid q) a).
  assert (Forall paging_event es) as Hes by (by repeat constructor).
  destruct (decide (off + c = n)) as [Hend|Hmore].
  - erewrite bind_ok in Hrun by
      (apply on_pager_run; unfold pr_free; change (prs (k_pager k2)) with (prs (k_pager k)); by rewrite Hq).
    set (k3 := set_pager _ k2) in Hrun.
    rewrite (reply_some _ _ l x k3) in Hrun; [|exact (proj1 Hreg)|exact (proj1 (proj2 Hreg))].
    eexists. split; [apply Hpager; [exact Hrun|reflexivity..]|].
    apply (filled_last _ _ _ _ _ c); [apply Hfill; [reflexivity..|by eapply copied_beyond]|done|].
    exists es. split; [done|]. unfold es. rewrite !app_assoc. reflexivity.
  - assert (in_range a (n - off) (a + c)) as Hac by (unfold in_range; lia).
    destruct (ur_ok _ _ _ _ _ Hr (a + c) Hac) as [r2 Hok2].
    destruct (next_page a (n - off) (po_word _ _ _ _ _ Hok)) as (N1 & N2 & N3);
      [fold c; lia|apply (po_word _ _ _ _ _ Hok2)|]. fold c in N1, N2, N3. rewrite N1 in Hrun.
    erewrite bind_ok in Hrun by
      (apply on_pager_run; unfold pr_upd; change (prs (k_pager k2)) with (prs (k_pager k)); by rewrite Hq).
    set (q' := set_praddr (a + c) q) in Hrun. set (k3 := set_pager _ k2) in Hrun.
    destruct (IH k3 pr q' l x n (off + c)) as (k4 & Hrun4 & Hci); try done; try lia.
    + apply lookup_insert_eq.
    + apply (user_range_mem k1); [done|].
      apply (range_sub _ _ _ a (n - off)); [done|change (pr_addr q') with (a + c); lia..].
    + apply list_lookup_insert_eq. by eapply lookup_lt_Some.
    + change (pr_addr q') with (a + c). rewrite N2. lia.
    + rewrite Hrun4 in Hrun. exists k4. split.
      * apply Hpager; [exact Hrun|by rewrite (ci_queue _ _ _ _ _ _ _ Hci)|by rewrite (ci_active _ _ _ _ _ _ _ Hci)].
      * apply (filled_then k k3 k4 x _ a n c); [|lia|lia| |exact Hci].
        { apply Hfill; [reflexivity..|by eapply copied_beyond]. }
        exists es. split; [done|]. unfold es. rewrite !app_assoc. reflexivity.
Qed.

(** ** Starting a copy *)
Lemma LO_HALF_small n : 0 ≤ n < 2 ^ 16 → LO_HALF n = n.
Proof.
  intros. unfold LO_HALF. change 65535 with (Z.ones 16). rewrite Z.land_ones by lia.
  by apply Z.mod_small.
Qed.
(** The request that a copy starts with, and the state it starts in. *)
Record copy_started (k : kstate) (pid_ addr n rt : Z) (cb : pr_callback) (pr : positive)
    (q : PagerRequest) (k3 : kstate) : Prop := {
  cs_pr : prs (k_pager k3) !! pr = Some q;
  cs_q : pr_pid q = pid_ ∧ pr_addr q = addr ∧ pr_rights q = rt ∧ pr_callback_ q = cb;
  cs_procs : k_procs k3 = k_procs k;
  cs_mem : kmem k3 = kmem k;
  cs_cbuf : cbuf (kmach k3) = cbuf (kmach k);
  cs_queue : requests (k_pager k3) = requests (k_pager k);
  cs_active : requestActive (k_pager k3) = requestActive (k_pager k);
  cs_log : klog k3 = klog k;
  cs_data : copyInOutData (k_pager k3) !! Z.to_nat pid_ = Some (Z.lor n (HI_SHIFT 0));
  cs_beyond : beyond_paging k3 = beyond_paging k
}.
Lemma copy_start_run fuel k pid_ l x addr n rt cb d :
  registered_as (k_procs k) pid_ l x → 0 ≤ pid_ →
  copyInOutData (k_pager k) !! Z.to_nat pid_ = Some d → moracle (kmach k) = [] → 0 < n ≤ COPY_BUFSIZ →
  ∃ pr q k3, copy_start fuel (L4_GlobalId pid_ 1) addr n 0 rt cb k = pager fuel pr k3 ∧
    copy_started k pid_ addr n rt cb pr q k3.
Proof.
  intros Hreg Hpid Hd Hmo Hn. pose proof Hreg as (Hl & Hx & Hp).
  assert (n ≤ 16384) as Hn' by (change COPY_BUFSIZ with 16384 in Hn; lia).
  unfold copy_start. cbn [L4_ThreadNo].
  rewrite (bind_ok _ _ k (Some l) k) by (by apply on_procs_id).
  rewrite (bind_ok _ _ _ _ _ (pid_run _ _ _ _ Hreg)).
  rewrite (bind_ok _ _ k d k) by (by apply on_pager_id, copydata_get_run). cbn [truthy negb Z.eqb].
  rewrite LO_HALF_small by lia.
  erewrite bind_ok by (apply on_pager_run; by eapply copydata_set_run).
  set (k1 := set_pager _ k). rewrite (bind_ok _ _ k1 (defaultSwapfile (k_pager k1)) k1) by (by apply on_pager_id).
  set (k2 := set_kmach (mkMachine (mem (kmach k1)) (cbuf (kmach k1)) (log (kmach k1))
               (Pos.succ (mnext (kmach k1))) []) k1).
  assert (kmalloc_nocheck k1 = Ok (mnext (kmach k1)) k2) as Hmal.
  { unfold kmalloc_nocheck, kmalloc, on_mach, zoom, mbind, M_bind, malloc.
    change (moracle (kmach k1)) with (moracle (kmach k)). by rewrite Hmo. }
  unfold allocPagerRequest. erewrite bind_ok; [|rewrite (bind_ok _ _ _ _ _ Hmal);
    erewrite bind_ok by (apply on_pager_run; reflexivity); reflexivity].
  set (pr := mnext (kmach k1)). set (q := mkPR _ _ _ _ _ _ _ _ _ _). set (k3 := set_pager _ k2).
  exists pr, q, k3. split; [done|]. split; try done.
  - apply lookup_insert_eq.
  - apply list_lookup_insert_eq. by eapply lookup_lt_Some.
  - unfold beyond_paging. cbn. by rewrite Hmo, length_insert.
Qed.
Lemma copyIn_run (fuel : nat) k pid_ l x src n :
  registered_as (k_procs k) pid_ l x → 0 ≤ pid_ →
  is_Some (copyInOutData (k_pager k) !! Z.to_nat pid_) → moracle (kmach k) = [] →
  user_range k x FM_READ src n → 0 < n ≤ COPY_BUFSIZ →
  (requests (k_pager k) = [] ∨ requestActive (k_pager k) = true) →
  src mod PAGESIZE + n ≤ fuel * PAGESIZE →
  ∃ k', copyIn fuel (L4_GlobalId pid_ 1) src n 0 k = Ok tt k' ∧ copied_in k x pid_ src 0 n k'.
Proof.
  intros Hreg Hpid [d Hd] Hmo Hr Hn Hquiet Hfuel.
  destruct (copy_start_run fuel k pid_ l x src n FM_READ CbCopyInContinue d Hreg Hpid Hd Hmo Hn)
    as (pr & q & k3 & Hrun & [S1 S2 S3 S4 S5 S6 S7 S8 S9 S10]).
  destruct S2 as (S2 & S2' & S2'' & S2'''). unfold copyIn. rewrite Hrun.
  destruct (copy_in_all fuel k3 pr q l x n 0) as (k' & Hrun' & [C1 C2 C3 C4 C5 C6]);
    rewrite ?S2, ?S2', ?S2'', ?S3, ?S6, ?S7, ?Z.sub_0_r; try done.
  - by apply (user_range_mem k).
  - lia.
  - lia.
  - exists k'. split; [exact Hrun'|].
    rewrite S2, S2' in *. split; [by rewrite C1|by rewrite C2|by rewrite C3| | |by rewrite C6].
    + intros buf y. rewrite C4, S5. fold buf. unfold ubyte, phys, frame_of, pte, entry. by rewrite S4.
    + rewrite <- S8. exact C5.
Qed.
End UserPages.

Module CopyClaims.
Import Bits UserPages QuotaClaims ResidentClaims.

(** C21: a fault on a page that is in memory, inside a region that allows the
    access, is resolved without any request: the entry keeps its frame, is
    marked referenced and loses its other flags, and the page is mapped to
    that frame with the rights of the region; nothing else changes. *)
Theorem pagerAction_resident sr k pr q l x r :
  prs (k_pager k) !! pr = Some q → registered_as (k_procs k) (pr_pid q) l x →
  page_ok k x (pr_rights q) (pr_addr q) r →
  pagerAction sr pr k = Ok true (touched x (pr_pid q) (pr_addr q) r k).
Proof. apply action_hit. Qed.

(** C3: copying in [n] bytes of user memory, at most the size of the buffer,
    from any address whose pages are resident and readable, finishes with one
    turn per page; the buffer then starts with exactly those bytes, the rest of
    it is unchanged, and the process gets one reply at the end.  Nothing happens
    outside the pager. *)
Theorem copyIn_transfers (fuel : nat) k pid_ l x src n :
  registered_as (k_procs k) pid_ l x → 0 ≤ pid_ →
  is_Some (copyInOutData (k_pager k) !! Z.to_nat pid_) → moracle (kmach k) = [] →
  user_range k x FM_READ src n → 0 < n ≤ COPY_BUFSIZ →
  (requests (k_pager k) = [] ∨ requestActive (k_pager k) = true) →
  src mod PAGESIZE + n ≤ fuel * PAGESIZE →
  ∃ k', copyIn fuel (L4_GlobalId pid_ 1) src n 0 k = Ok tt k' ∧ copied_in k x pid_ src 0 n k'.
Proof. apply copyIn_run. Qed.

(** Four bytes across the border of the two pages of [kpager2]. *)
Definition heap0 : Region := region_alloc REGION_HEAP 4096 8192 6 false.
Lemma demo_addrs a : in_range 8190 4 a → a ∈ [8190; 8191; 8192; 8193].
Proof.
  unfold in_range. intros H.
  assert (a = 8190 ∨ a = 8191 ∨ a = 8192 ∨ a = 8193) as Ha by lia. set_solver.
Qed.
Lemma demo_pages : Forall (λ a, is_word a ∧ l1 (kmem kpager2) 8192 (offset1 a) = 12288 ∧
  offset1 a = 0 ∧ 12288 ≤ entry kpager2 proc0 a < 16384 ∧ is_word (pte kpager2 proc0 a) ∧
  flag (pte kpager2 proc0 a) SWAP_MASK = false ∧ 65536 ≤ frame_of kpager2 proc0 a ∧
  findRegion a heap0 = true) [8190; 8191; 8192; 8193].
Proof. apply (bool_decide_unpack _). vm_compute. exact I. Qed.
Lemma demo_entries : Forall (λ a, Forall (λ b, a / PAGESIZE ≠ b / PAGESIZE →
  word_at 12288 (offset2 a) + 4 ≤ word_at 12288 (offset2 b) ∨
  word_at 12288 (offset2 b) + 4 ≤ word_at 12288 (offset2 a))
  [8190; 8191; 8192; 8193]) [8190; 8191; 8192; 8193].
Proof. apply (bool_decide_unpack _). vm_compute. exact I. Qed.
Lemma demo_range : user_range kpager2 proc0 FM_READ 8190 4.
Proof.
  pose proof demo_pages as HF. rewrite Forall_forall in HF. split.
  - intros a Ha%demo_addrs. exists heap0. destruct (HF a Ha) as (H1 & H2 & H3 & H4 & H5 & H6 & H7 & H8).
    split; change (pagetable proc0) with 8192; [done|done|by rewrite H2|lia|done|done|lia| |done].
    change (regions proc0) with [heap0]. cbn [find]. by rewrite H8.
  - intros a b Ha%demo_addrs Hb%demo_addrs. destruct (HF a Ha) as (_ & _ & _ & H4 & _).
    destruct (HF b Hb) as (_ & _ & -> & _). right. change (word_at (pagetable proc0) 0) with 8192. lia.
  - intros a b Ha%demo_addrs Hb%demo_addrs. pose proof demo_entries as HE.
    rewrite Forall_forall in HE. specialize (HE a Ha). rewrite Forall_forall in HE.
    unfold entry. change (pagetable proc0) with 8192. destruct (HF a Ha) as (_ & -> & _).
    destruct (HF b Hb) as (_ & -> & _). exact (HE b Hb).
  - intros a b Ha%demo_addrs Hb%demo_addrs. destruct (HF a Ha) as (_ & _ & _ & H4 & _).
    destruct (HF b Hb) as (_ & _ & _ & _ & _ & _ & H7 & _). right. unfold phys.
    pose proof (Z.mod_pos_bound b PAGESIZE ltac:(done)). lia.
Qed.
Lemma kpager2_quiet : requests (k_pager kpager2) = [] ∧ moracle (kmach kpager2) = [] ∧
  copyInOutData (k_pager kpager2) !! 5%nat = Some 0.
Proof. vm_compute. split_and!; reflexivity. Qed.
Lemma copyIn_transfers_witness :
  ∃ k', copyIn 2 (L4_GlobalId 5 1) 8190 4 0 kpager2 = Ok tt k' ∧ copied_in kpager2 proc0 5 8190 0 4 k'.
Proof.
  destruct kpager2_quiet as (Q1 & Q2 & Q3).
  apply (copyIn_transfers 2 kpager2 5 2 proc0 8190 4).
  - exact kpager2_reg.
  - lia.
  - exists 0. exact Q3.
  - exact Q2.
  - exact demo_range.
  - change COPY_BUFSIZ with 16384. lia.
  - left. exact Q1.
  - apply (bool_decide_unpack _). vm_compute. exact I.
Defined.

(** A request for a page of [kpager2]. *)
Definition demo_pr : PagerRequest := mkPR None 5 8190 None 0 FM_READ (-1) None FinPanic CbPagerContinue.
Definition kpager3 : kstate := set_pager (set_prs {[ 9%positive := demo_pr ]} (k_pager kpager2)) kpager2.
Lemma set_pager_kmem s k : kmem (set_pager s k) = kmem k.
Proof. reflexivity. Qed.
Lemma set_pager_procs s k : k_procs (set_pager s k) = k_procs k.
Proof. reflexivity. Qed.
Lemma set_pager_pager s k : k_pager (set_pager s k) = s.
Proof. reflexivity. Qed.
Lemma demo_page3 : page_ok kpager3 proc0 FM_READ 8190 heap0.
Proof.
  apply (page_ok_mem kpager2); [apply set_pager_kmem|].
  pose proof demo_pages as HF. rewrite Forall_forall in HF.
  destruct (HF 8190) as (H1 & H2 & H3 & H4 & H5 & H6 & H7 & H8); [by left|].
  split; change (pagetable proc0) with 8192; [done|done|by rewrite H2|lia|done|done|lia| |done].
  change (regions proc0) with [heap0]. cbn [find]. by rewrite H8.
Qed.
Lemma pagerAction_resident_witness :
  pagerAction (fail OutOfFuel) 9 kpager3 = Ok true (touched proc0 5 8190 heap0 kpager3).
Proof.
  apply (pagerAction_resident (fail OutOfFuel) kpager3 9 demo_pr 2 proc0 heap0).
  - unfold kpager3. rewrite set_pager_pager. apply (lookup_singleton_eq 9%positive demo_pr).
  - unfold kpager3. rewrite set_pager_procs. exact kpager2_reg.
  - exact demo_page3.
Defined.
End CopyClaims.
