(* ===== verification/Fault.v ===== *)
(** * The first touch of a page

    A fault on a page that was never touched, inside a region of the process:
    while the quota lasts the pager takes a frame for the page (and one for the
    second level of the page table, if that is missing), enters and maps it.
    The theorem follows the fault through the frame allocator, the page table,
    the accounts of the pager and of the process. *)
From S2P Require Import Prelude Machine ListC Frames Swapfile State Pagetable Process Reply VfsCore.
From S2P Require Import Clock Vfs Lifecycle PagerBase Quota Resident Pager Copy.
Import Frames Swapfile Pagetable Process Reply VfsCore OpenDone PagerBase Pager Resident.

Module Fault.
Import Bits UserPages.

Definition set_kfrs (s : frames) (k : kstate) : kstate := set_swap (set_frs s (k_swap k)) k.
Lemma on_fr_run {A} (m : M frames A) k a s :
  m (frs (k_swap k)) = Ok a s → on_fr m k = Ok a (set_kfrs s k).
Proof. intros H. unfold on_fr, on_swap, on_frames, zoom. by rewrite H. Qed.

(** The account of a process with one page more. *)
Definition grown (x : Process) (t : Z) : Process :=
  upd_info (λ i, set_psize (w32 (psize i + 1)) i) (upd_info (set_stime (w32 (t - startedAt x))) x).
Lemma size_add_run k l x :
  pcbs (k_procs k) !! l = Some x →
  ∃ t c, info_size_add (Some l) 1 k =
    Ok tt (set_procs (set_pcbs (<[l := grown x t]> (pcbs (k_procs k))) (k_procs k)) (set_clock c k)).
Proof.
  intros Hx. destruct (get_info_run k l x Hx) as [t Ht]. exists t, (after Time.time_stamp (k_clock k)).
  unfold info_size_add. rewrite (bind_ok _ _ _ _ _ Ht).
  unfold on_procs, zoom, pcb_upd, stamped. cbn. rewrite lookup_insert_eq, insert_insert_eq. done.
Qed.

(** The pager's accounts after a page was given a frame. *)
Definition charged (pg : Z * Z) (s : State.pager) : State.pager :=
  set_allocLimit (allocLimit s - 1) (set_alloced (alloced s ++ [pg]) s).
Lemma frameAlloc_run k pid_ l x page f fs :
  registered_as (k_procs k) pid_ l x → 0 < allocLimit (k_pager k) →
  free_list (frs (k_swap k)) (f :: fs) →
  ∃ t c s, pagerFrameAlloc (Some l) page k =
      Ok f (set_pager (charged (pid_, page) (k_pager k))
        (set_procs (set_pcbs (<[l := grown x t]> (pcbs (k_procs k))) (k_procs k))
          (set_clock c (set_kfrs s k)))) ∧
    free_list s fs ∧ mach s = mach (frs (k_swap k)).
Proof.
  intros Hreg Hlim Hfl. destruct (alloc_some _ f fs FA_PAGERALLOC Hfl) as (s & Hs & Hfs & Hm & _).
  pose proof Hreg as (Hl & Hx & Hp).
  unfold pagerFrameAlloc. rewrite (bind_ok _ _ k (allocLimit (k_pager k)) k) by (by apply on_pager_id).
  erewrite bind_ok by (apply cassert_run; rewrite bool_decide_true by lia; done).
  rewrite decide_False by lia. rewrite (bind_ok _ _ _ _ _ (on_fr_run _ k _ _ Hs)).
  erewrite bind_ok by (by apply (pid_run _ pid_ l x)).
  erewrite bind_ok by (by apply on_pager_run).
  set (k1 := set_pager _ (set_kfrs s k)).
  destruct (size_add_run k1 l x Hx) as (t & c & Ht). rewrite (bind_ok _ _ _ _ _ Ht).
  exists t, c, s. split; [|done]. erewrite bind_ok by (by apply on_pager_run). done.
Qed.

(** ** The whole fault *)
(** The page of [a] was never touched, and region [r] allows the access. *)
Record untouched (k : kstate) (x : Process) (rt a : Z) (r : Region) (fs : list Z) : Prop := {
  un_word : is_word a;
  un_free : free_list (frs (k_swap k)) fs;
  un_table : pt_ok (kmem k) (pagetable x) fs;
  un_zero : pt_get (kmem k) (pagetable x) a = 0;
  un_find : find (findRegion a) (regions x) = Some r;
  un_rights : Z.land (rights r) rt ≠ 0;
  un_direct : mapDirectly r = false
}.
(** What the fault leaves: frame [f] is the page's, [fs'] are free. *)
Record paged_in (k : kstate) (pid_ : Z) (l : positive) (x : Process) (a : Z) (r : Region)
    (fs : list Z) (f : Z) (fs' : list Z) (k' : kstate) : Prop := {
  pi_frame : f ∈ fs ∧ f ∉ fs' ∧ (fs = f :: fs' ∨ ∃ g, fs = g :: f :: fs');
  pi_free : free_list (frs (k_swap k')) fs';
  pi_table : pt_ok (kmem k') (pagetable x) (f :: fs');
  pi_entries : ∀ b, is_word b → pt_get (kmem k') (pagetable x) b =
    if same_page a b then Z.lor f REF_MASK else pt_get (kmem k) (pagetable x) b;
  pi_others : ∀ g b, frame_addr g → g ≠ pagetable x → g ∉ fs →
    (∀ i, 0 ≤ i < PAGEWORDS → l1 (kmem k) (pagetable x) i ≠ g) → in_frame g b →
    load32 (kmem k') b = load32 (kmem k) b;
  pi_pager : k_pager k' = charged (pid_, page_of a) (k_pager k);
  pi_proc : ∃ t, k_procs k' = set_pcbs (<[l := grown x t]> (pcbs (k_procs k))) (k_procs k);
  pi_log : klog k' = klog k ++ [L4_MapFpage pid_ (page_of a) f (rights r)]
}.
Lemma frame_aligned f : frame_addr f → aligned f = true ∧ Z.land f ADDRESS_MASK = f.
Proof.
  intros (_ & Hm & _). split.
  - unfold aligned. rewrite page_off_eq, Hm. done.
  - change (Z.land f ADDRESS_MASK) with (page_of f). rewrite page_of_eq.
    pose proof (Z.div_mod f PAGESIZE ltac:(done)). lia.
Qed.

Lemma entry_facts m pt a fs :
  is_word a → pt_ok m pt fs → l1 m pt (offset1 a) ≠ 0 →
  let e := word_at (l1 m pt (offset1 a)) (offset2 a) in e ≠ 0 ∧ load32 m e = pt_get m pt a.
Proof.
  intros Ha Hok Hnz e. split.
  - destruct (pt_l2 _ _ _ Hok (offset1 a)) as [|((Hpos & _) & _)]; [by apply offset1_range|done|].
    pose proof (offset2_range a). unfold e, word_at. lia.
  - unfold pt_get. by rewrite decide_False.
Qed.
(** The state after the frame [f] was entered at [e]: [s1] is the frame
    allocator after the lookup of the entry, [s2] after the frame was taken. *)
Definition entered (k : kstate) (pid_ : Z) (l : positive) (x : Process) (a e f : Z) (r : Region)
    (t : Z) (c : clock) (s1 s2 : frames) : kstate :=
  klog_app [L4_MapFpage pid_ (page_of a) f (rights r)]
    (set_kmem (store32 (fmem s2) e (Z.lor f REF_MASK))
      (set_pager (charged (pid_, page_of a) (k_pager k))
        (set_procs (set_pcbs (<[l := grown x t]> (pcbs (k_procs k))) (k_procs k))
          (set_clock c (set_kfrs s2 (set_kfrs s1 k)))))).
(** The rest of [pagerAction] once the entry at [e] turned out to be empty. *)
Definition absent_step (sr : K unit) (pr : positive) (q : PagerRequest) (l : positive) (r : Region)
    (e : Z) : K bool :=
  f ← (frame ← pagerFrameAlloc (Some l) (page_of (pr_addr q));
       cassert "(frame & ~ADDRESS_MASK) == 0" (aligned frame);;
       if decide (frame = 0) then queueRequest sr REQUEST_SWAPIN pr;; mret None
       else mret (Some frame));
  match f with
  | None => mret false
  | Some frame =>
      store e (Z.lor frame REF_MASK);;
      sid ← on_procs (process_get_sid (Some l));
      mapPage sid (page_of (pr_addr q)) frame (rights r);;
      mret true
  end.
Lemma absent_run sr k pr q l x r e s1 :
  prs (k_pager k) !! pr = Some q → registered_as (k_procs k) (pr_pid q) l x →
  find (findRegion (pr_addr q)) (regions x) = Some r → Z.land (rights r) (pr_rights q) ≠ 0 →
  mapDirectly r = false →
  pagetableLookup (pagetable x) (pr_addr q) (frs (k_swap k)) = Ok e s1 → e ≠ 0 → load32 (fmem s1) e = 0 →
  pagerAction sr pr k = absent_step sr pr q l r e (set_kfrs s1 k).
Proof.
  intros Hq Hreg U5 U6 U7 Hrun Hez Hld. pose proof Hreg as (Hl & Hx & Hp).
  set (k1 := set_kfrs s1 k). assert (entry_of (Some l) (pr_addr q) k = Ok e k1) as Rent.
  { unfold entry_of. rewrite (bind_ok _ _ k (pagetable x) k) by (by apply on_procs_id, (pcb_field pagetable)).
    by apply on_fr_run. }
  unfold pagerAction. rewrite (bind_ok _ _ k q k) by (by apply on_pager_id, pr_get_run).
  rewrite (bind_ok _ _ k (Some l) k) by (by apply on_procs_id).
  rewrite decide_False by done.
  rewrite (bind_ok _ _ _ _ _ (pid_run _ _ _ _ Hreg)).
  rewrite (bind_ok _ _ _ _ _ (region_find_run _ _ _ _ Hx)), U5.
  rewrite (proj2 (Z.eqb_neq _ _) U6), (bind_ok _ _ _ _ _ Rent), (bind_ok _ _ _ _ _ (load_run _ k1 Hez)).
  change (kmem k1) with (fmem s1). rewrite Hld. change (flag 0 SWAP_MASK) with false. cbn iota.
  rewrite decide_False by (intros Hn; by apply Hn). by rewrite U7.
Qed.
Lemma first_touch_run sr k pr q l x r e s1 f fs' :
  prs (k_pager k) !! pr = Some q → registered_as (k_procs k) (pr_pid q) l x →
  let a := pr_addr q in
  find (findRegion a) (regions x) = Some r → Z.land (rights r) (pr_rights q) ≠ 0 →
  mapDirectly r = false → 0 < allocLimit (k_pager k) →
  pagetableLookup (pagetable x) a (frs (k_swap k)) = Ok e s1 → e ≠ 0 → load32 (fmem s1) e = 0 →
  free_list s1 (f :: fs') →
  ∃ t c s2, pagerAction sr pr k = Ok true (entered k (pr_pid q) l x a e f r t c s1 s2) ∧
    free_list s2 fs' ∧ mach s2 = mach s1.
Proof.
  intros Hq Hreg a U5 U6 U7 Hlim Hrun Hez Hld Hfl1. pose proof Hreg as (Hl & Hx & Hp).
  pose proof Hfl1 as [(_ & Hf & _) _]. destruct (frame_aligned f Hf) as [Hal _].
  set (k1 := set_kfrs s1 k).
  destruct (frameAlloc_run k1 (pr_pid q) l x (page_of a) f fs' Hreg Hlim Hfl1) as (t & c & s2 & Ral & Hfl2 & Hm2).
  exists t, c, s2. split; [|done]. set (k2 := set_pager _ _) in Ral.
  rewrite (absent_run sr k pr q l x r e s1) by done. unfold absent_step. fold a k1.
  erewrite bind_ok; last first.
  { rewrite (bind_ok _ _ _ _ _ Ral). erewrite bind_ok by (apply cassert_run; exact Hal).
    rewrite decide_False by (unfold frame_addr in Hf; lia). reflexivity. }
  cbn iota. rewrite (bind_ok _ _ _ _ _ (store_run _ _ k2 Hez)). set (k3 := set_kmem _ k2).
  assert (registered_as (k_procs k3) (pr_pid q) l (grown x t)) as Hreg3.
  { split; [by apply (lookup_pcbs (k_procs k))|]. split; [apply lookup_insert_eq|exact Hp]. }
  erewrite bind_ok by (by apply (sid_run _ (pr_pid q) l (grown x t))).
  unfold mapPage. erewrite bind_ok; last first.
  { erewrite bind_ok by (apply cassert_run, page_of_aligned).
    erewrite bind_ok by (by apply cassert_run). apply emit_ok. }
  done.
Qed.

Lemma entered_paged_in k pid_ l x a r fs e s1 f fs' t c s2 :
  is_word a → lookup_post (pagetable x) a (frs (k_swap k)) fs e s1 →
  free_list s1 (f :: fs') → pt_ok (fmem s1) (pagetable x) (f :: fs') →
  (f :: fs' = fs ∨ ∃ g, fs = g :: f :: fs') → free_list s2 fs' → mach s2 = mach s1 →
  paged_in k pid_ l x a r fs f fs' (entered k pid_ l x a e f r t c s1 s2).
Proof.
  intros U1 (He & Hnz & _ & Hget & Hoth & Hp2 & _ & Hlog) Hfl1 Hok1 Hfs Hfl2 Hm2.
  pose proof Hfl1 as [(_ & Hf & _) Hnd]. set (k' := entered _ _ _ _ _ _ _ _ _ _ _ _).
  assert (kmem k' = store32 (fmem s1) e (Z.lor f REF_MASK)) as Hk'.
  { change (kmem k') with (store32 (mem (mach s2)) e (Z.lor f REF_MASK)). by rewrite Hm2. }
  destruct (pt_l2 _ _ _ Hok1 (offset1 a)) as [|(Hp2a & _ & Hp2n)]; [by apply offset1_range|done|].
  assert (in_frame (l1 (fmem s1) (pagetable x) (offset1 a)) e) as Hin
    by (rewrite He; apply word_at_in, offset2_range).
  destruct (entry_write (fmem s1) (pagetable x) (f :: fs') a (Z.lor f REF_MASK)) as (W1 & W2 & W3);
    [done|apply lor_word; [by apply frame_addr_word|done]|done|done|]. rewrite <- He in W1, W2, W3.
  split; rewrite ?Hk'.
  - apply NoDup_cons in Hnd as [Hni _].
    destruct Hfs as [<-|[g ->]]; (split; [set_solver|]; split; [done|]); [by left|right; by exists g].
  - change (free_list (set_fmem (store32 (fmem s2) e (Z.lor f REF_MASK)) s2) fs').
    apply free_list_mem; [done|]. intros g Hg. apply load32_store32_ne.
    eapply load_free_other; [exact Hfl1|exact Hp2a|exact Hp2n|by right|done].
  - exact W2.
  - intros b Hb. rewrite W3, Hget by done. done.
  - intros g b Hg Hgpt Hgfs Hgl Hb. rewrite load32_store32_ne; [by apply (Hoth g)|].
    apply (in_frame_disjoint _ g _ _ Hp2a); [done| |done|done].
    destruct Hp2 as [->|Hfs2]; [apply Hgl; by apply offset1_range|by intros <-].
  - reflexivity.
  - exists t. reflexivity.
  - change (klog k') with (log (mach s2) ++ [L4_MapFpage pid_ (page_of a) f (rights r)]).
    by rewrite Hm2, Hlog.
Qed.
Lemma action_first_touch sr k pr q l x r fs :
  prs (k_pager k) !! pr = Some q → registered_as (k_procs k) (pr_pid q) l x →
  untouched k x (pr_rights q) (pr_addr q) r fs → (2 ≤ length fs)%nat → 0 < allocLimit (k_pager k) →
  ∃ f fs' k', pagerAction sr pr k = Ok true k' ∧ paged_in k (pr_pid q) l x (pr_addr q) r fs f fs' k'.
Proof.
  intros Hq Hreg [U1 U2 U3 U4 U5 U6 U7] Hlen Hlim.
  destruct (lookup_spec (frs (k_swap k)) (pagetable x) (pr_addr q) fs) as (e & s1 & Hrun & Hpost);
    [done..|right; intros ->; simpl in Hlen; lia|].
  pose proof Hpost as (He & Hnz & (fs1 & Hfl1 & Hok1 & Hfs) & Hget & _).
  destruct fs1 as [|f fs']; [destruct Hfs as [<-|[g ->]]; simpl in Hlen; lia|].
  destruct (entry_facts _ _ _ _ U1 Hok1 Hnz) as [Hez Hld]. rewrite <- He in Hez, Hld.
  rewrite Hget in Hld by done. change (fmem (frs (k_swap k))) with (kmem k) in Hld. rewrite U4 in Hld.
  destruct (first_touch_run sr k pr q l x r e s1 f fs') as (t & c & s2 & Hact & Hfl2 & Hm2); [done..|].
  exists f, fs'. eexists. split; [exact Hact|]. by eapply entered_paged_in.
Qed.

(** Without quota the fault waits behind the active request. *)
Lemma action_waits sr k pr q l x r fs :
  prs (k_pager k) !! pr = Some q → registered_as (k_procs k) (pr_pid q) l x →
  untouched k x (pr_rights q) (pr_addr q) r fs → (1 ≤ length fs)%nat → allocLimit (k_pager k) = 0 →
  requests (k_pager k) ≠ [] → requestActive (k_pager k) = true →
  ∃ s, pagerAction sr pr k =
      Ok false (set_pager (set_preqs (requests (k_pager k) ++ [(REQUEST_SWAPIN, pr)]) (k_pager k)) (set_kfrs s k)) ∧
    (∀ b, is_word b → pt_get (fmem s) (pagetable x) b = pt_get (kmem k) (pagetable x) b) ∧
    log (mach s) = klog k.
Proof.
  intros Hq Hreg [U1 U2 U3 U4 U5 U6 U7] Hlen Hlim Hne Hact.
  destruct (lookup_spec (frs (k_swap k)) (pagetable x) (pr_addr q) fs) as (e & s1 & Hrun & Hpost);
    [done..|right; intros ->; simpl in Hlen; lia|].
  destruct Hpost as (He & Hnz & (fs1 & Hfl1 & Hok1 & Hfs) & Hget & _ & _ & _ & Hlog).
  destruct (entry_facts _ _ _ _ U1 Hok1 Hnz) as [Hez Hld]. rewrite <- He in Hez, Hld.
  rewrite Hget in Hld by done. change (fmem (frs (k_swap k))) with (kmem k) in Hld. rewrite U4 in Hld.
  exists s1. split; [|done]. rewrite (absent_run sr k pr q l x r e s1) by done.
  set (k1 := set_kfrs s1 k). unfold absent_step. set (k2 := set_pager _ k1).
  rewrite (bind_ok _ _ k1 None k2); [done|].
  rewrite (bind_ok _ _ k1 0 k1); last first.
  { unfold pagerFrameAlloc. rewrite (bind_ok _ _ k1 0 k1) by (apply on_pager_id; unfold gets; cbn; by rewrite Hlim).
    done. }
  erewrite bind_ok by (by apply cassert_run). rewrite decide_True by done.
  rewrite (bind_ok _ _ k1 tt k2); [done|]. unfold queueRequest.
  rewrite (bind_ok _ _ k1 (requests (k_pager k)) k1) by (by apply on_pager_id).
  rewrite (bind_ok _ _ k1 true k1) by (apply on_pager_id; unfold gets; cbn; by rewrite Hact).
  assert (ListSpec.list_null (requests (k_pager k)) = false) as -> by (by destruct (requests (k_pager k))).
  erewrite bind_ok by (by apply cassert_run). by apply on_pager_run.
Qed.
End Fault.

Module FaultClaims.
Import Bits UserPages Fault QuotaClaims CopyClaims.

(** C5: a fault on a page that was never touched, in a region that allows the
    access.  While the quota lasts, the page gets a free frame that no part of
    the page table uses; its entry is the frame, marked referenced, all other
    entries of the process keep their values, no other frame is written; the
    pager and the process account for the page, and it is mapped with the rights
    of the region.  When the quota is used up, and a request is being served, the
    fault waits at the end of the queue and no entry changes. *)
Theorem pagerAction_first_touch sr k pr q l x r fs :
  prs (k_pager k) !! pr = Some q → registered_as (k_procs k) (pr_pid q) l x →
  untouched k x (pr_rights q) (pr_addr q) r fs → (2 ≤ length fs)%nat →
  (0 < allocLimit (k_pager k) →
    ∃ f fs' k', pagerAction sr pr k = Ok true k' ∧ paged_in k (pr_pid q) l x (pr_addr q) r fs f fs' k') ∧
  (allocLimit (k_pager k) = 0 → requests (k_pager k) ≠ [] → requestActive (k_pager k) = true →
    ∃ s, pagerAction sr pr k =
        Ok false (set_pager (set_preqs (requests (k_pager k) ++ [(REQUEST_SWAPIN, pr)]) (k_pager k))
                   (set_kfrs s k)) ∧
      (∀ b, is_word b → pt_get (fmem s) (pagetable x) b = pt_get (kmem k) (pagetable x) b) ∧
      log (mach s) = klog k).
Proof.
  intros Hq Hreg Hun Hlen. split; intros Hlim.
  - by apply action_first_touch.
  - intros Hne Hact. apply (action_waits sr k pr q l x r fs); try done. lia.
Qed.

(** The first touch of page 4096 of the process of [kpager0]. *)
Definition touch_pr : PagerRequest := mkPR None 5 4100 None 0 FM_WRITE (-1) None FinPanic CbPagerContinue.
Definition kpager4 : kstate := set_pager (set_prs {[ 9%positive := touch_pr ]} (k_pager kpager0)) kpager0.
Lemma kpager0_frs : frs (k_swap kpager0) = PagetableClaims.demo_pt.
Proof. reflexivity. Qed.
Lemma kpager0_reg : registered_as (k_procs kpager0) 5 2 proc0.
Proof. split; [vm_compute; reflexivity|]. split; vm_compute; reflexivity. Qed.
Lemma demo_untouched : untouched kpager4 proc0 FM_WRITE 4100 heap0 [12288; 16384].
Proof.
  destruct PagetableClaims.demo_pt_ok as [Hfl Hok]. split.
  - apply (bool_decide_unpack _). vm_compute. exact I.
  - exact Hfl.
  - exact Hok.
  - vm_compute. reflexivity.
  - reflexivity.
  - discriminate.
  - reflexivity.
Qed.
Lemma pagerAction_first_touch_witness :
  ∃ f fs' k', pagerAction (fail OutOfFuel) 9 kpager4 = Ok true k' ∧
    paged_in kpager4 5 2 proc0 4100 heap0 [12288; 16384] f fs' k'.
Proof.
  apply (pagerAction_first_touch (fail OutOfFuel) kpager4 9 touch_pr 2 proc0 heap0 [12288; 16384]).
  - unfold kpager4. rewrite set_pager_pager. apply (lookup_singleton_eq 9%positive touch_pr).
  - unfold kpager4. rewrite set_pager_procs. exact kpager0_reg.
  - exact demo_untouched.
  - simpl. lia.
  - reflexivity.
Defined.
End FaultClaims.
