(* ===== verification/Spawn.v ===== *)
(** * The making of a process

    What the calls that make a process do, one after the other: a PCB with an
    empty page table ([process_init]), its entry in the table of processes and
    its heap, stack and standard files ([process_prepare2]), its first thread
    ([process_run]).  The loader of executables and the start of the programs of
    the boot image are clients of these lemmas. *)
From S2P Require Import Prelude Machine ListC Frames Swapfile State Pagetable Process Reply VfsCore.
From S2P Require Import Clock Vfs Lifecycle PagerBase Quota Resident Pager Copy Fault.
Import Frames Swapfile Pagetable Time Process ProcessInv Reply VfsCore OpenDone PagerBase Pager Resident.

Module Spawn.
Import Fault.

(** ** What the frame allocator and the page tables leave alone *)
Definition beside_mem (m : machine) := (cbuf m, log m, mnext m, moracle m).
Definition beside (s : frames) := beside_mem (mach s).
Lemma write_word_beside a v : pres beside (write_word a v).
Proof. by apply pres_modify. Qed.
Lemma read_word_beside a : pres beside (read_word a).
Proof. apply pres_gets. Qed.
Lemma deref_beside {S X} (f : S → X) p : pres f (deref p).
Proof. unfold deref. pres_auto. Qed.
#[export] Hint Resolve write_word_beside read_word_beside deref_beside : pres.
Lemma frame_alloc_beside r : pres beside (frame_alloc r).
Proof. unfold frame_alloc. pres_auto; by apply pres_modify. Qed.
#[export] Hint Resolve frame_alloc_beside : pres.
Lemma pagetable_init_beside : pres beside pagetable_init.
Proof. unfold pagetable_init. pres_auto. Qed.
Lemma pagetableLookup_beside pt a : pres beside (pagetableLookup pt a).
Proof. unfold pagetableLookup. pres_auto. Qed.
#[export] Hint Resolve pagetable_init_beside pagetableLookup_beside : pres.

(** ** The C heap *)
(** [malloc] has memory left, and the PCBs are blocks it handed out. *)
Record heap_ok (k : kstate) : Prop := {
  heap_pcbs : ∀ l x, pcbs (k_procs k) !! l = Some x → (l < mnext (kmach k))%positive;
  heap_next : (1 < mnext (kmach k))%positive;
  heap_oracle : moracle (kmach k) = []
}.
Definition malloced (k : kstate) : kstate :=
  set_kmach (mkMachine (mem (kmach k)) (cbuf (kmach k)) (log (kmach k)) (Pos.succ (mnext (kmach k)))
                       (moracle (kmach k))) k.
Lemma kmalloc_run k : moracle (kmach k) = [] → kmalloc k = Ok (Some (mnext (kmach k))) (malloced k).
Proof. intros H. unfold kmalloc, on_mach, zoom, malloc, malloced. by rewrite H. Qed.
Lemma kmalloc_nocheck_run k :
  moracle (kmach k) = [] → kmalloc_nocheck k = Ok (mnext (kmach k)) (malloced k).
Proof. intros H. unfold kmalloc_nocheck. by rewrite (bind_ok _ _ _ _ _ (kmalloc_run k H)). Qed.
Lemma heap_fresh k : heap_ok k → pcbs (k_procs k) !! mnext (kmach k) = None.
Proof.
  intros H. destruct (pcbs (k_procs k) !! mnext (kmach k)) as [x|] eqn:E; [|done].
  apply (heap_pcbs k H) in E. lia.
Qed.

(** ** A PCB *)
Definition fresh_pcb (ty : process_type_t) (pt : Z) : Process :=
  mkProcess (mkInfo NIL_PID 0 0 0 [] PS_STATE_START ty PS_IPC_ALL) pt [] 0 0 0
    (fst vfiles_init) (snd vfiles_init) WAIT_NOBODY None.
Definition add_pcb (l : positive) (x : Process) (s : procs) : procs :=
  set_pcbs (<[l := x]> (pcbs s)) s.

Lemma upd_add_pcb l x f s : upd_pcb l f (add_pcb l x s) = add_pcb l (f x) s.
Proof.
  unfold upd_pcb, add_pcb, set_pcbs. cbn. f_equal.
  apply map_eq. intros i. rewrite lookup_alter, !lookup_insert. by repeat case_decide.
Qed.

(** Its files. *)
Lemma files_ok_fresh ty pt : FdTable.files_ok (fresh_pcb ty pt).
Proof.
  split; [done|done| |].
  - intros fd Hfd. left. cbn [fresh_pcb fds vfiles_init fst] in Hfd. by apply elem_of_replicate in Hfd as [-> _].
  - intros j v Hv Hne. cbn [fresh_pcb files vfiles_init snd] in Hv. apply lookup_replicate in Hv as [-> _]. done.
Qed.
Lemma files_ok_ext x y : fds x = fds y → files x = files y → FdTable.files_ok y → FdTable.files_ok x.
Proof. intros E1 E2 [H1 H2 H3 H4]. split; rewrite ?E1, ?E2; done. Qed.

(** The frames after an operation that gave frame [f] to a page table. *)
Record table_taken (s : frames) (f : Z) (fs : list Z) (s' : frames) : Prop := {
  tt_free : free_list s' fs;
  tt_table : pt_ok (fmem s') f fs;
  tt_empty : ∀ i, 0 ≤ i < PAGEWORDS → l1 (fmem s') f i = 0;
  tt_others : ∀ g a, frame_addr g → g ≠ f → in_frame g a → load32 (fmem s') a = load32 (fmem s) a;
  tt_beside : beside s' = beside s
}.
Lemma pagetable_init_run s f fs :
  free_list s (f :: fs) → ∃ s', pagetable_init s = Ok f s' ∧ table_taken s f fs s'.
Proof.
  intros Hfl. pose proof Hfl as [(_ & Hf & _) _].
  destruct (pagetable_init_spec s f fs Hfl) as (s' & Hrun & H1 & H2 & H3 & H4). exists s'. split; [done|].
  split; [done|done|done| |by apply (pagetable_init_beside _ _ _ Hrun)].
  intros g a Hg Hne Ha. apply H4. intros i Hi. by apply (in_frame_disjoint f g); [..|apply word_at_in|].
Qed.

Lemma process_init_run k ty f fs :
  heap_ok k → tidOffset (k_procs k) ≠ 0 → free_list (frs (k_swap k)) (f :: fs) →
  let l := mnext (kmach k) in
  ∃ s, process_init ty k =
      Ok (Some l) (set_procs (add_pcb l (fresh_pcb ty f) (k_procs k)) (set_kfrs s (malloced k))) ∧
    table_taken (frs (k_swap (malloced k))) f fs s.
Proof.
  intros Hh Hoff Hfl l. destruct (pagetable_init_run (frs (k_swap (malloced k))) f fs) as (s & Hs & Ht).
  { exact Hfl. }
  exists s. split; [|done]. unfold process_init.
  rewrite (bind_ok _ _ k tt k); last first.
  { apply on_procs_id. unfold mbind, M_bind, gets. by rewrite (proj2 (Z.eqb_neq _ _) Hoff). }
  set (k1 := set_procs (add_pcb l (fresh_pcb PS_TYPE_PROCESS f) (k_procs k)) (set_kfrs s (malloced k))).
  rewrite (bind_ok _ _ k (Some l) k1); last first.
  { unfold processAlloc. rewrite (bind_ok _ _ _ _ _ (kmalloc_nocheck_run k (heap_oracle k Hh))).
    by rewrite (bind_ok _ _ _ _ _ (on_fr_run _ _ _ _ Hs)). }
  erewrite bind_ok; last first.
  { apply on_procs_run. eapply pcb_upd_run. apply lookup_insert_eq. }
  cbn [k_procs set_procs k1]. by rewrite upd_add_pcb.
Qed.

(** ** The entry of the table *)
Definition enter (r : Z) (l : positive) (s : procs) : procs :=
  set_sosProcs (<[Z.to_nat r := Some l]> (sosProcs s)) s.
Definition vacant (s : procs) (r : Z) : Prop :=
  tidOffset s ≤ r < MAX_ADDRSPACES ∧ (slot s r = NULL ∨ slot s r = PS_PLACEHOLDER).

Lemma register_run s l x :
  procs_ok s → pcbs s !! l = Some x → vacant s (pid (info x)) →
  prepare_register (Some l) s = Ok tt (enter (pid (info x)) l s).
Proof.
  intros Hok Hx [Hr Hs]. pose proof (off_range s Hok). unfold prepare_register.
  assert ((pid (info x) =? NIL_PID) = false) as En by (apply Z.eqb_neq; unfold NIL_PID; lia).
  rewrite (bind_ok _ _ _ _ _ (pcb_get_run _ _ _ Hx)), En. cbn [when].
  rewrite (bind_ok _ _ s tt s) by done.
  rewrite (bind_ok _ _ _ _ _ (pcb_get_run _ _ _ Hx)), En.
  rewrite (bind_ok _ _ s tt s) by done.
  rewrite (bind_ok _ _ _ _ _ (exists_ok s _ Hok Hr)).
  rewrite bool_decide_false by (destruct Hs as [->| ->]; naive_solver).
  rewrite (bind_ok _ _ s tt s) by done. apply table_set_ok; [done|lia].
Qed.
(** The search starts after the pid given out last and goes round. *)
Definition next_free (s : procs) (r : Z) : Prop := ∃ k, 0 ≤ k < span s ∧ cyc s k = r ∧ busy_before s k.
Lemma register_first s l x :
  procs_ok s → pcbs s !! l = Some x → pid (info x) = NIL_PID →
  (∃ i, tidOffset s ≤ i < MAX_ADDRSPACES ∧ slot s i = NULL) →
  ∃ r n, slot s r = NULL ∧ tidOffset s ≤ r < MAX_ADDRSPACES ∧ procs_ok (set_nextPid n s) ∧
    prepare_register (Some l) s =
      Ok tt (enter r l (upd_pcb l (upd_info (set_pid r)) (set_nextPid n s))) ∧
    n = r ∧ next_free s r.
Proof.
  intros Hok Hx Hp (i & Hi & Hfree). pose proof (off_range s Hok).
  destruct (getNextPid_spec s Hok) as (r & s' & Hrun & ([n ->] & Hok' & Hr)).
  destruct Hr as [[_ Hall]|(Hn & Hr & Hslot & Hfirst)]; [by apply Hall in Hi|].
  exists r, n. split; [done|]. split; [done|]. split; [done|]. split; [|done]. unfold prepare_register.
  rewrite (bind_ok _ _ _ _ _ (pcb_get_run _ _ _ Hx)), Hp. cbn [when Z.eqb NIL_PID Pos.eqb].
  set (s2 := upd_pcb l _ (set_nextPid n s)).
  rewrite (bind_ok _ _ s tt s2); last first.
  { rewrite (bind_ok _ _ _ _ _ Hrun). apply (pcb_upd_run (set_nextPid n s) l x _ Hx). }
  pose proof (upd_pcb_lookup (set_nextPid n s) l x (upd_info (set_pid r)) Hx) as Hx2.
  rewrite (bind_ok _ _ _ _ _ (pcb_get_run _ _ _ Hx2)). cbn [info pid upd_info set_info set_pid].
  assert ((r =? NIL_PID) = false) as -> by (apply Z.eqb_neq; unfold NIL_PID; lia).
  rewrite (bind_ok _ _ s2 tt s2) by done.
  assert (procs_ok s2) as Hok2.
  { pose proof (set_pid_ok _ l x r Hok' Hx Hp) as H2. eapply procs_ok_view, H2.
    unfold pid_view, pids, s2, upd_pcb, set_pcbs. cbn. do 3 f_equal. f_equal.
    apply map_eq. intros j. rewrite lookup_insert, lookup_alter.
    case_decide; [subst; by rewrite Hx|done]. }
  assert (slot s2 r = NULL) as Hs2 by exact Hslot.
  rewrite (bind_ok _ _ _ _ _ (exists_ok s2 _ Hok2 Hr)), Hs2. cbn.
  rewrite (bind_ok _ _ s2 tt s2) by done. apply table_set_ok; [done|lia].
Qed.
Lemma register_new s l x :
  procs_ok s → pcbs s !! l = Some x → pid (info x) = NIL_PID →
  (∃ i, tidOffset s ≤ i < MAX_ADDRSPACES ∧ slot s i = NULL) →
  ∃ r n, slot s r = NULL ∧ tidOffset s ≤ r < MAX_ADDRSPACES ∧ procs_ok (set_nextPid n s) ∧
    prepare_register (Some l) s =
      Ok tt (enter r l (upd_pcb l (upd_info (set_pid r)) (set_nextPid n s))).
Proof.
  intros H1 H2 H3 H4. destruct (register_first s l x H1 H2 H3 H4) as (r & n & ? & ? & ? & ? & _).
  by exists r, n.
Qed.

(** A new PCB is in no entry yet. *)
Lemma add_pcb_ok s l x :
  procs_ok s → pcbs s !! l = None → l ≠ 1%positive → procs_ok (add_pcb l x s).
Proof.
  intros [H1 H2 H3 H4] Hl Hne. unfold add_pcb. split; [done|done| |].
  - intros i l' Hi Hs. destruct (H3 i l' Hi Hs) as [|Hp]; [by left|right].
    unfold pids in *. cbn. rewrite fmap_insert, lookup_insert_ne; [done|].
    intros <-. by rewrite lookup_fmap, Hl in Hp.
  - unfold pids in *. cbn. by rewrite fmap_insert, lookup_insert_ne.
Qed.

(** ** Heap, stack and standard files *)
Definition STACK_TOP : Z := Z.land (Z.shiftr (2 ^ 32 - 1) 1) (w32 PAGEALIGN).
Definition heap_region (rs : list Region) : Region :=
  region_alloc REGION_HEAP (round_up (regions_highest rs) PAGESIZE) 0
    (Z.lor REGION_READ REGION_WRITE) false.
Definition stack_region : Region :=
  region_alloc REGION_STACK (w32 (STACK_TOP - ONE_MEG)) ONE_MEG (Z.lor REGION_READ REGION_WRITE) false.
(** A process without regions gets none. *)
Definition builtin (x : Process) : Process :=
  if decide (regions_highest (regions x) = 0) then x
  else set_sp (w32 (STACK_TOP - 3 * 4))
         (set_regions (regions x ++ [heap_region (regions x); stack_region]) x).
Lemma addBuiltin_run s l x :
  pcbs s !! l = Some x → addBuiltinRegions (Some l) s = Ok tt (upd_pcb l builtin s).
Proof.
  intros Hx. unfold addBuiltinRegions. rewrite (bind_ok _ _ _ _ _ (pcb_get_run _ _ _ Hx)).
  destruct (decide (regions_highest (regions x) = 0)) as [E|E].
  - unfold mret, M_ret. f_equal. unfold upd_pcb, set_pcbs. destruct s as [ps ? ? ? ? ?]. cbn. f_equal.
    apply map_eq. intros i. rewrite lookup_alter. case_decide; [subst|done]. cbn in Hx. rewrite Hx.
    cbn. unfold builtin. by rewrite decide_True.
  - unfold process_add_region, process_set_sp.
    rewrite (bind_ok _ _ _ _ _ (pcb_upd_run _ _ _ _ Hx)).
    erewrite bind_ok by (eapply pcb_upd_run, upd_pcb_lookup, Hx).
    erewrite pcb_upd_run; [|eapply upd_pcb_lookup, upd_pcb_lookup, Hx]. rewrite !upd_pcb_twice.
    f_equal. apply (upd_pcb_ext _ _ x); [done|]. unfold builtin. rewrite decide_False by done.
    cbn. unfold ListSpec.list_push. by rewrite <- app_assoc.
Qed.

Definition set_kcbuf (b : memory) (k : kstate) : kstate := set_kmach (set_cbuf b (kmach k)) k.
(** The name of a standard file in the buffer of process [r], and the message
    that asks for it to be opened. *)
Definition std_opened (r : Z) (nm : cstr) (k : kstate) : kstate :=
  klog_app [L4_Ipc L4_rootserver PSOS_OPEN SOS_IPC_SEND
              (w32 <$> [FM_WRITE; FM_UNLIMITED_RW; FM_UNLIMITED_RW; r])]
    (set_kcbuf (strncpy_mem (cbuf (kmach k)) (r * COPY_BUFSIZ) nm (Z.to_nat MAX_FILE_NAME)) k).
Definition std_dupped (r : Z) (k : kstate) : kstate :=
  klog_app [L4_Ipc L4_rootserver PSOS_DUP SOS_IPC_SEND (w32 <$> [stdout_fd; stderr_fd; r])] k.
Definition std_files (r : Z) (o e : option cstr) (k : kstate) : kstate :=
  let k := std_opened r (default STDOUT_FN o) k in
  if decide (o = e) then std_dupped r k else std_opened r (default STDOUT_FN e) k.
Definition std_in (l : positive) (i : option cstr) (k : kstate) : kstate :=
  match i with
  | None => k
  | Some f => set_procs (upd_pcb l (set_fin (Some (strncpy_path f))) (k_procs k)) (malloced k)
  end.

Lemma openStdFd_run k l x nm :
  pcbs (k_procs k) !! l = Some x →
  openStdFd (Some l) nm STDOUT_FN FM_WRITE k =
    Ok tt (std_opened (pid (info x)) (default STDOUT_FN nm) k).
Proof.
  intros Hx. unfold openStdFd.
  rewrite (bind_ok _ _ k (L4_GlobalId (pid (info x)) 1) k)
    by (by apply on_procs_id, (pcb_field (λ x, L4_GlobalId (pid (info x)) 1))).
  rewrite (bind_ok _ _ k (cbuf (kmach k)) k) by done.
  set (k1 := set_kcbuf (strncpy_mem (cbuf (kmach k)) (pid (info x) * COPY_BUFSIZ) (default STDOUT_FN nm)
    (Z.to_nat MAX_FILE_NAME)) k).
  rewrite (bind_ok _ _ k tt k1) by done.
  rewrite (bind_ok _ _ k1 (pid (info x)) k1) by (by apply on_procs_id, (pcb_field (λ x, pid (info x)))).
  done.
Qed.

(** [process_prepare2] after the entry was made; redirecting one of the outputs
    only is not possible. *)
Lemma prepare2_run k l s1 x o e i :
  prepare_register (Some l) (k_procs k) = Ok tt s1 → pcbs s1 !! l = Some x →
  ps_type (info x) = PS_TYPE_PROCESS → fin x = None → moracle (kmach k) = [] → (o = None ↔ e = None) →
  process_prepare2 (Some l) o e i k =
    Ok tt (std_in l i (std_files (pid (info x)) o e (set_procs (upd_pcb l builtin s1) k))).
Proof.
  intros Hreg Hx Hty Hfin Ho Hoe. unfold process_prepare2.
  rewrite (bind_ok _ _ k tt (set_procs s1 k)) by (by apply on_procs_run).
  rewrite (bind_ok _ _ (set_procs s1 k) x (set_procs s1 k)) by (by apply on_procs_id, pcb_get_run).
  rewrite Hty, decide_True by done.
  erewrite bind_ok by (by apply on_procs_run, (addBuiltin_run s1 l x)).
  set (k2 := set_procs (upd_pcb l builtin s1) _). set (x2 := builtin x).
  assert (pcbs (k_procs k2) !! l = Some x2) as Hx2 by (by apply upd_pcb_lookup).
  assert (pid (info x2) = pid (info x) ∧ fin x2 = None) as [Hp2 Hf2].
  { unfold x2, builtin. by case_decide. }
  rewrite (bind_ok _ _ _ _ _ (openStdFd_run k2 l x2 o Hx2)), Hp2.
  unfold std_files. set (k3 := std_opened _ _ _).
  rewrite (bind_ok _ _ k3 (bool_decide (o = e)) k3); last first.
  { destruct o as [o|], e as [e|]; [|naive_solver..|done]. cbn.
    unfold strcmp_eq, mbind, M_bind. cbn. unfold mret, M_ret. f_equal.
    apply bool_decide_ext. naive_solver. }
  set (k4 := if decide (o = e) then _ else _).
  assert (pcbs (k_procs k3) !! l = Some x2 ∧ pcbs (k_procs k4) !! l = Some x2) as [Hx3 Hx4].
  { unfold k4, k3. by case_decide. }
  rewrite (bind_ok _ _ k3 tt k4); last first.
  { unfold k4. case_bool_decide; [rewrite decide_True by done|rewrite decide_False by done].
    - rewrite (bind_ok _ _ k3 (pid (info x)) k3); [done|].
      rewrite <- Hp2. by apply on_procs_id, (pcb_field (λ x, pid (info x))).
    - rewrite <- Hp2. by apply openStdFd_run. }
  destruct i as [f|]; [|done]. cbn [std_in]. unfold process_set_stdin.
  rewrite (bind_ok _ _ k4 x2 k4) by (by apply on_procs_id, pcb_get_run). rewrite decide_True by done.
  assert (moracle (kmach k4) = []) as Ho4 by (unfold k4, k3; by case_decide).
  rewrite (bind_ok _ _ _ _ _ (kmalloc_run k4 Ho4)). by apply on_procs_run, (pcb_upd_run _ l x2).
Qed.

(** ** The first thread *)
Definition running (t : Z) (x : Process) : Process :=
  upd_info (set_state PS_STATE_ALIVE) (set_startedAt t x).
Lemma process_run_run k l x :
  pcbs (k_procs k) !! l = Some x → ps_type (info x) = PS_TYPE_PROCESS →
  virtualPager (k_pager k) ≠ L4_nilthread → 0 ≤ pid (info x) < MAX_THREADS →
  ∃ t, process_run (Some l) true k = Ok (L4_GlobalId (pid (info x)) 1)
    (set_procs (upd_pcb l (running t) (k_procs k))
      (klog_app [L4_TaskStart (pid (info x)) (virtualPager (k_pager k)) (ip x) (sp x)]
        (set_clock (after time_stamp (k_clock k)) k))).
Proof.
  intros Hx Hty Hvp Hp. destruct (time_stamp_run k) as [t Ht]. exists t.
  unfold process_run, processRunPriority. cbn [when].
  set (k1 := set_clock _ k) in *. set (k2 := set_procs (upd_pcb l (set_startedAt t) (k_procs k)) k1).
  rewrite (bind_ok _ _ k tt k2); last first.
  { rewrite (bind_ok _ _ _ _ _ Ht). by apply on_procs_run, (pcb_upd_run _ l x). }
  assert (pcbs (k_procs k2) !! l = Some (set_startedAt t x)) as Hx2 by (by apply upd_pcb_lookup).
  rewrite (bind_ok _ _ k2 (set_startedAt t x) k2) by (by apply on_procs_id, pcb_get_run).
  cbn [info set_startedAt]. rewrite Hty, decide_False by done.
  set (ev := L4_TaskStart _ _ _ _).
  rewrite (bind_ok _ _ k2 (L4_GlobalId (pid (info x)) 1) (klog_app [ev] k2)); last first.
  { rewrite (bind_ok _ _ k2 true k2); last first.
    { apply on_pager_id. unfold pager_is_active, gets. cbn. by rewrite bool_decide_true. }
    rewrite (bind_ok _ _ k2 tt k2) by done.
    rewrite (bind_ok _ _ k2 tt k2) by (apply cassert_run, bool_decide_true; lia).
    rewrite (bind_ok _ _ k2 tt k2) by (apply cassert_run, bool_decide_true; lia).
    by rewrite (bind_ok _ _ k2 (virtualPager (k_pager k)) k2) by (by apply on_pager_id). }
  cbn [L4_ThreadNo]. rewrite (bind_ok _ _ _ tt (klog_app [ev] k2)) by (apply cassert_run, Z.eqb_refl).
  erewrite bind_ok by (by apply on_procs_run, (pcb_upd_run _ l (set_startedAt t x))).
  cbn [k_procs set_procs k2 klog_app set_kmach set_swap]. rewrite upd_pcb_twice. done.
Qed.
(** ** A PCB that was just made *)
Lemma upd_added k l x s f :
  k_procs k = add_pcb l x s → on_procs (pcb_upd (Some l) f) k = Ok tt (set_procs (add_pcb l (f x) s) k).
Proof.
  intros E. rewrite <- upd_add_pcb, <- E. apply on_procs_run, (pcb_upd_run _ l x).
  rewrite E. apply lookup_insert_eq.
Qed.
Lemma upd_entered c l f x s :
  upd_pcb l f (enter c l (add_pcb l x s)) = enter c l (add_pcb l (f x) s).
Proof. rewrite <- (upd_add_pcb l x f s). done. Qed.
Lemma info_added k l x s :
  k_procs k = add_pcb l x s → startedAt x = 0 →
  ∃ i t c, process_get_info (Some l) k =
    Ok i (set_procs (add_pcb l (upd_info (set_stime (w32 t)) x) s) (set_clock c k)).
Proof.
  intros E H0. destruct (get_info_run k l x) as [t Ht]; [rewrite E; apply lookup_insert_eq|].
  eexists _, (t - startedAt x), _. rewrite Ht. unfold stamped. rewrite E. unfold add_pcb, set_pcbs. cbn.
  rewrite insert_insert_eq. done.
Qed.

(** ** What preparing a process leaves alone *)
Definition launch_view (k : kstate) :=
  (k_vfs k, k_nfs k, k_con k, k_pager k, kmem k, swapfiles (k_swap k), firstFree (frs (k_swap k))).

Lemma std_in_view l i k : launch_view (std_in l i k) = launch_view k.
Proof. by destruct i. Qed.
Lemma std_files_view c o e k : launch_view (std_files c o e k) = launch_view k.
Proof. unfold std_files. by case_decide. Qed.
Lemma std_files_procs c o e k : k_procs (std_files c o e k) = k_procs k.
Proof. unfold std_files. by case_decide. Qed.
Lemma std_in_log l i k : klog (std_in l i k) = klog k ∧ cbuf (kmach (std_in l i k)) = cbuf (kmach k).
Proof. by destruct i. Qed.
Lemma std_files_log c o e k : klog (std_files c o e k) = klog k ++
  [L4_Ipc L4_rootserver PSOS_OPEN SOS_IPC_SEND (w32 <$> [FM_WRITE; FM_UNLIMITED_RW; FM_UNLIMITED_RW; c]);
   if decide (o = e) then L4_Ipc L4_rootserver PSOS_DUP SOS_IPC_SEND (w32 <$> [stdout_fd; stderr_fd; c])
   else L4_Ipc L4_rootserver PSOS_OPEN SOS_IPC_SEND (w32 <$> [FM_WRITE; FM_UNLIMITED_RW; FM_UNLIMITED_RW; c])].
Proof.
  unfold std_files, std_dupped, std_opened.
  case_decide; unfold klog; cbn; by rewrite <- app_assoc.
Qed.
(** The rest of the system. *)
Definition aside (k : kstate) :=
  (k_vfs k, k_nfs k, k_con k, k_pager k, k_clock k, (cbuf (kmach k), log (kmach k), moracle (kmach k))).

(** ** A new swap file *)
Definition elf_swapfile (pth : cstr) : Swapfile :=
  mkSwapfile (strncpy_path pth) VFS_NIL_FILE 0 0 init_slots.
Lemma swapfile_init_run k pth f fs :
  free_list (frs (k_swap k)) (f :: fs) →
  ∃ s, on_swap (swapfile_init pth) k =
      Ok f (set_swap (mkSwapst s (<[f := elf_swapfile pth]> (swapfiles (k_swap k)))) k) ∧
    free_list s fs ∧ mach s = mach (frs (k_swap k)).
Proof.
  intros Hfl. destruct (alloc_some _ f fs FA_SWAPFILE Hfl) as (s & Hs & Hfs & Hm & _).
  pose proof Hfl as [(_ & [Hf _] & _) _]. exists s. split; [|done].
  unfold on_swap, zoom, swapfile_init. rewrite (bind_ok _ _ _ tt (k_swap k)) by done.
  rewrite (bind_ok _ _ _ f (set_frs s (k_swap k))) by (by apply zoom_ok).
  by rewrite decide_False by (unfold NULLFRAME; lia).
Qed.
End Spawn.
