(* ===== verification/Teardown.v ===== *)
(** * The deletion of a process

    Everything [processDelete] does, from the kernel objects to the last
    frame: the thread and its space are deleted, its files are closed, its entry
    of the table of processes becomes free, the frames of its pages, of its page
    table and of the swap files of its executable return to the frame allocator,
    and the processes that wait for it are woken. *)
From S2P Require Import Prelude Machine ListC Frames Swapfile State Pagetable Process Reply VfsCore.
From S2P Require Import Clock Vfs Lifecycle PagerBase Quota Resident Pager Copy Fault Spawn.
Import Frames Swapfile Pagetable Process ProcessInv Reply VfsCore OpenDone PagerBase Pager Resident.

Module Teardown.
Import UserPages Fault Spawn Lifecycle WakeSpec FdTable FdOps.

(** ** Frames that are given back *)
Lemma frame_free_beside f : pres beside (frame_free f).
Proof. unfold frame_free. pres_auto; by apply pres_modify. Qed.
Lemma frame_given s f fs :
  free_list s fs → frame_addr f → f ∉ fs →
  ∃ s', frame_free f s = Ok tt s' ∧ free_list s' (f :: fs) ∧ beside s' = beside s ∧
    (∀ g a, frame_addr g → g ≠ f → in_frame g a → load32 (fmem s') a = load32 (fmem s) a).
Proof.
  intros Hfl Hf Hni. destruct (free_some s f fs Hfl Hf Hni) as (s' & Hrun & Hfl' & Hm & _).
  exists s'. split; [done|]. split; [done|]. split; [by apply (frame_free_beside _ _ _ _ Hrun)|].
  intros g a Hg Hne Ha. rewrite Hm. apply load32_store32_ne, (in_frame_disjoint f g); try done.
  unfold in_frame. change PAGESIZE with 4096. lia.
Qed.

(** The system on the way: since [k0] the frames [gone] were given back on top
    of the free frames [fs], and nothing else changed but the account of the
    process and the clock. *)
Record dying (k0 : kstate) (l : positive) (x : Process) (fs gone : list Z) (k : kstate) : Prop := {
  dy_free : free_list (frs (k_swap k)) (gone ++ fs);
  dy_mem : ∀ g a, frame_addr g → g ∉ gone → in_frame g a → load32 (kmem k) a = load32 (kmem k0) a;
  dy_proc : ∃ i, pid i = pid (info x) ∧
    k_procs k = set_pcbs (<[l := set_info i x]> (pcbs (k_procs k0))) (k_procs k0);
  dy_beside : beside (frs (k_swap k)) = beside (frs (k_swap k0));
  dy_others : (k_vfs k, k_nfs k, k_con k) = (k_vfs k0, k_nfs k0, k_con k0)
}.
Lemma dying_pcb k0 l x fs gone k :
  dying k0 l x fs gone k → ∃ i, pid i = pid (info x) ∧ pcbs (k_procs k) !! l = Some (set_info i x).
Proof. intros H. destruct (dy_proc _ _ _ _ _ _ H) as (i & Hi & ->). exists i. split; [done|]. apply lookup_insert_eq. Qed.
Lemma dying_given k0 l x fs gone k f s :
  dying k0 l x fs gone k → free_list s (f :: gone ++ fs) → beside s = beside (frs (k_swap k)) →
  (∀ g a, frame_addr g → g ≠ f → in_frame g a → load32 (fmem s) a = load32 (kmem k) a) →
  dying k0 l x fs (f :: gone) (set_kfrs s k).
Proof.
  intros [H1 H2 H3 H4 H5] Hfl Hb Hm. split; [done| |done|by rewrite <- H4|done].
  intros g a Hg [Hne Hni]%not_elem_of_cons Ha. rewrite <- (H2 g a) by done. by apply (Hm g).
Qed.

Lemma account_run k l x d :
  pcbs (k_procs k) !! l = Some x →
  ∃ i c, pid i = pid (info x) ∧ info_size_add (Some l) d k =
    Ok tt (set_procs (set_pcbs (<[l := set_info i x]> (pcbs (k_procs k))) (k_procs k)) (set_clock c k)).
Proof.
  intros Hx. destruct (get_info_run k l x Hx) as [t Ht].
  exists (set_psize (w32 (psize (info x) + d)) (set_stime (w32 (t - startedAt x)) (info x))),
    (after Time.time_stamp (k_clock k)). split; [done|].
  unfold info_size_add. rewrite (bind_ok _ _ _ _ _ Ht).
  unfold on_procs, zoom, pcb_upd, stamped. cbn. rewrite lookup_insert_eq, insert_insert_eq. done.
Qed.
Lemma frameFree_run k0 l x fs gone k f :
  dying k0 l x fs gone k → frame_addr f → f ∉ gone ++ fs →
  ∃ k', pagerFrameFree (Some l) f k = Ok tt k' ∧ dying k0 l x fs (f :: gone) k' ∧
    k_pager k' = set_allocLimit (allocLimit (k_pager k) + 1) (k_pager k) ∧
    swapfiles (k_swap k') = swapfiles (k_swap k).
Proof.
  intros H Hf Hni. pose proof (frame_aligned f Hf) as [Ha _].
  destruct (frame_given _ f _ (dy_free _ _ _ _ _ _ H) Hf Hni) as (s & Hrun & Hfl & Hb & Hm).
  pose proof (dying_given _ _ _ _ _ _ f s H Hfl Hb Hm) as H1.
  unfold pagerFrameFree. erewrite bind_ok by (by apply cassert_run).
  rewrite (bind_ok _ _ _ _ _ (on_fr_run _ k _ _ Hrun)).
  erewrite bind_ok by (by apply on_pager_run).
  set (k2 := set_pager _ (set_kfrs s k)).
  destruct (dying_pcb _ _ _ _ _ _ H1) as (i & Hi & Hx).
  destruct (account_run k2 l (set_info i x) (-1) Hx) as (j & c & Hj & ->).
  eexists. split; [reflexivity|]. split; [|done].
  destruct H1 as [D1 D2 (i' & _ & D3) D4 D5]. split; [done|done| |done|done].
  exists j. split; [by rewrite Hj|]. cbn. cbn in D3. rewrite D3. cbn. by rewrite insert_insert_eq.
Qed.

(** ** The page table while pages are given back *)
Lemma pt_frames_addr m pt fs g : pt_ok m pt fs → g ∈ pt_frames m pt → frame_addr g ∧ g ∉ fs.
Proof.
  intros Hok [->|(i & Hi & -> & Hn)]%elem_of_pt_frames.
  - split; [apply (pt_addr _ _ _ Hok)|apply (pt_notfree _ _ _ Hok)].
  - by destruct (pt_l2 _ _ _ Hok i Hi) as [|(?&?&?)].
Qed.
Lemma table_kept m m' pt fs gone :
  pt_ok m pt fs → (∀ g, g ∈ pt_frames m pt → g ∉ gone) →
  (∀ g a, frame_addr g → g ∉ gone → in_frame g a → load32 m' a = load32 m a) →
  (∀ i, 0 ≤ i < PAGEWORDS → l1 m' pt i = l1 m pt i) ∧
  (∀ a, is_word a → pt_get m' pt a = pt_get m pt a) ∧ pt_ok m' pt (gone ++ fs).
Proof.
  intros Hok Hg Hm.
  assert (∀ g i, g ∈ pt_frames m pt → 0 ≤ i < PAGEWORDS → l1 m' g i = l1 m g i) as Hl.
  { intros g i Hin Hi. apply (Hm g); [by eapply pt_frames_addr|by apply Hg|by apply word_at_in]. }
  assert (pt ∈ pt_frames m pt) as Hpt by (apply elem_of_pt_frames; by left).
  assert (∀ i, 0 ≤ i < PAGEWORDS → l1 m' pt i = l1 m pt i) as Hl1 by (intros; by apply Hl).
  split; [done|]. split.
  - intros a Ha. pose proof (offset1_range a Ha). unfold pt_get. rewrite Hl1 by done.
    case_decide as Hz; [done|]. apply Hl; [|apply offset2_range].
    apply elem_of_pt_frames. right. by exists (offset1 a).
  - destruct Hok as [H1 H2 H3 H4]. split; [done| | |].
    + rewrite elem_of_app. intros [?|?]; [by apply (Hg pt)|done].
    + intros i Hi. rewrite Hl1 by done. destruct (H3 i Hi) as [|(A & B & C)]; [by left|].
      destruct (decide (l1 m pt i = 0)) as [|Hz]; [by left|right]. split_and!; [done..|].
      rewrite elem_of_app. intros [?|?]; [|done]. apply (Hg (l1 m pt i)); [|done].
      apply elem_of_pt_frames. right. by exists i.
    + intros i j Hi Hj. rewrite !Hl1 by done. by apply H4.
Qed.

(** ** The pages of the process *)
Definition page_frame (m : memory) (x : Process) (a : Z) : Z :=
  Z.land (pt_get m (pagetable x) a) ADDRESS_MASK.
Definition pages_of (i : Z) (l : list (Z * Z)) : list Z := snd <$> filter (λ pg, fst pg = i) l.

Lemma framesFree_run k0 l x fs gone k a :
  dying k0 l x fs gone k → pt_ok (kmem k0) (pagetable x) fs → is_word a →
  frame_addr (page_frame (kmem k0) x a) → page_frame (kmem k0) x a ∉ gone ++ fs →
  (∀ g, g ∈ pt_frames (kmem k0) (pagetable x) → g ∉ gone) →
  ∃ k', framesFree (Some l) (pid (info x), a) k = Ok true k' ∧
    dying k0 l x fs (page_frame (kmem k0) x a :: gone) k' ∧
    k_pager k' = set_allocLimit (allocLimit (k_pager k) + 1) (k_pager k) ∧
    swapfiles (k_swap k') = swapfiles (k_swap k).
Proof.
  intros H Hok Ha Hf Hni Hg. destruct (dying_pcb _ _ _ _ _ _ H) as (i & Hi & Hx).
  destruct (table_kept _ (kmem k) _ _ gone Hok Hg) as (Hl1 & Hget & Hok').
  { intros. by eapply dy_mem. }
  assert (l1 (kmem k) (pagetable x) (offset1 a) ≠ 0) as Hnz.
  { intros Hz. rewrite Hl1 in Hz by (by apply offset1_range).
    unfold page_frame, pt_get in Hf. rewrite decide_True in Hf by done. by destruct Hf as [? _]. }
  destruct (entry_facts (kmem k) (pagetable x) a _ Ha Hok' Hnz) as [He Hv]. set (e := word_at _ _) in *.
  destruct (frameFree_run _ _ _ _ _ _ _ H Hf Hni) as (k' & Hrun & Hd & Hp & Hs).
  exists k'. split; [|done]. unfold framesFree.
  rewrite (bind_ok _ _ k (pid (info x)) k); last first.
  { apply on_procs_id. rewrite <- Hi. by apply (pcb_field (λ x, pid (info x)) _ l (set_info i x)). }
  rewrite decide_True by done. cbn [snd].
  rewrite (bind_ok _ _ k e k); last first.
  { unfold entry_of. rewrite (bind_ok _ _ k (pagetable x) k)
      by (by apply on_procs_id, (pcb_field pagetable _ l (set_info i x))).
    erewrite on_fr_run by (by eapply lookup_hit; [|apply (dy_free _ _ _ _ _ _ H)|..]).
    by destruct k as [[]]. }
  rewrite (bind_ok _ _ _ _ _ (load_run e k He)), Hv, Hget by done.
  by rewrite (bind_ok _ _ _ _ _ Hrun).
Qed.

(** The walk over the list of pages in memory: the frames of the process's pages
    are given back, the pages of the others stay in the list. *)
Lemma frames_loop k0 l x fs n xs : ∀ gone k,
  n < 0 → dying k0 l x fs gone k → pt_ok (kmem k0) (pagetable x) fs →
  let frames := page_frame (kmem k0) x <$> pages_of (pid (info x)) xs in
  (∀ a, a ∈ pages_of (pid (info x)) xs → is_word a ∧ frame_addr (page_frame (kmem k0) x a)) →
  NoDup (frames ++ gone ++ pt_frames (kmem k0) (pagetable x) ++ fs) →
  ∃ k', ListSpec.list_delete_n (framesFree (Some l)) n xs k =
      Ok (filter (λ pg, fst pg ≠ pid (info x)) xs) k' ∧
    dying k0 l x fs (reverse frames ++ gone) k' ∧
    k_pager k' = set_allocLimit (allocLimit (k_pager k) + length frames) (k_pager k) ∧
    swapfiles (k_swap k') = swapfiles (k_swap k).
Proof.
  revert n. induction xs as [|[i a] xs IH]; intros n gone k Hn Hd Hok frames Ha Hnd.
  { exists k. split; [done|]. split; [done|]. split; [|done]. cbn. rewrite Z.add_0_r. by destruct (k_pager k). }
  cbn [ListSpec.list_delete_n]. rewrite (proj2 (Z.eqb_neq n 0)) by lia.
  unfold frames, pages_of in *. rewrite !filter_cons in *. cbn [fst] in *.
  destruct (decide (i = pid (info x))) as [->|Hne].
  - rewrite (decide_False (P := ¬ _)) by tauto. cbn [fmap list_fmap snd] in *.
    apply NoDup_cons in Hnd as [Hni Hnd].
    destruct (Ha a) as [Haw Haf]; [by left|].
    destruct (framesFree_run k0 l x fs gone k a) as (k1 & Hrun & Hd1 & Hp1 & Hs1); try done;
      [set_solver| |].
    { intros g Hg Hin. apply NoDup_app in Hnd as (_ & _ & Hnd). apply NoDup_app in Hnd as (_ & Hx & _).
      apply (Hx g Hin). set_solver. }
    rewrite (bind_ok _ _ _ _ _ Hrun).
    destruct (IH (n - 1) (page_frame (kmem k0) x a :: gone) k1) as (k2 & Hrun2 & Hd2 & Hp2 & Hs2);
      [lia|done|done|by intros b Hb; apply Ha; right| |].
    { rewrite <- app_comm_cons, <- Permutation_middle. by apply NoDup_cons. }
    exists k2. split; [done|]. split; [|split; [|congruence]].
    + rewrite reverse_cons, <- app_assoc. exact Hd2.
    + rewrite Hp2, Hp1. unfold set_allocLimit. cbn. f_equal. lia.
  - rewrite (decide_True (P := ¬ _)) by done.
    destruct (dying_pcb _ _ _ _ _ _ Hd) as (j & Hj & Hx).
    rewrite (bind_ok _ _ k false k); last first.
    { unfold framesFree. rewrite (bind_ok _ _ k (pid (info x)) k); [by rewrite decide_False|].
      apply on_procs_id. rewrite <- Hj. by apply (pcb_field (λ x, pid (info x)) _ l (set_info j x)). }
    destruct (IH n gone k) as (k2 & Hrun2 & Hd2 & Hp2 & Hs2); [done..|].
    exists k2. by rewrite (bind_ok _ _ _ _ _ Hrun2).
Qed.

(** ** Its swap slots, its page table *)
(** No slot of the process is freed: [pagerSwapslotFree] compares the wrong
    address with [ADDRESS_ALL]. *)
Lemma swapslots_stay i k :
  (∀ d, (i, d) ∈ swapped (k_pager k) → d ≠ ADDRESS_ALL) →
  delete_swapped (pagerSwapslotFree (i, ADDRESS_ALL)) k = Ok tt k.
Proof.
  intros Hno. unfold delete_swapped. rewrite (bind_ok _ _ k (swapped (k_pager k)) k) by (by apply on_pager_id).
  assert (∀ n l, n < 0 → (∀ d, (i, d) ∈ l → d ≠ ADDRESS_ALL) →
    ListSpec.list_delete_n (pagerSwapslotFree (i, ADDRESS_ALL)) n l k = Ok l k) as Hloop.
  { intros n l Hn. induction l as [|[j d] l IH]; intros Hl; [done|].
    cbn [ListSpec.list_delete_n]. rewrite (proj2 (Z.eqb_neq n 0)) by lia.
    rewrite (bind_ok _ _ k false k).
    - erewrite bind_ok; [reflexivity|]. apply IH. set_solver.
    - unfold pagerSwapslotFree. cbn [fst snd]. destruct (decide (j = i)) as [->|Hne].
      + rewrite (bool_decide_false (d = _)) by (apply Hl; by left). by rewrite andb_false_r.
      + by rewrite bool_decide_false. }
  unfold ListSpec.list_delete. rewrite (bind_ok _ _ _ _ _ (Hloop (-1) _ ltac:(lia) Hno)).
  unfold on_pager, zoom, modify. f_equal. destruct k as [? ? ? ? ? [] ?]. done.
Qed.

Lemma pagetableFree_beside pt : pres beside (pagetableFree pt).
Proof.
  unfold pagetableFree. pres_auto; apply frame_free_beside. Qed.
Lemma table_given k0 l x fs gone k :
  dying k0 l x fs gone k → pt_ok (kmem k0) (pagetable x) fs →
  (∀ g, g ∈ pt_frames (kmem k0) (pagetable x) → g ∉ gone) →
  ∃ k', process_pagetableFree (Some l) k = Ok tt k' ∧
    dying k0 l x fs (pt_frames (kmem k0) (pagetable x) ++ gone) k' ∧
    k_pager k' = k_pager k ∧ swapfiles (k_swap k') = swapfiles (k_swap k).
Proof.
  intros H Hok Hg. destruct (dying_pcb _ _ _ _ _ _ H) as (i & Hi & Hx).
  destruct (table_kept _ (kmem k) _ _ gone Hok Hg) as (Hl1 & _ & Hok').
  { intros. by eapply dy_mem. }
  assert (pt_frames (kmem k) (pagetable x) = pt_frames (kmem k0) (pagetable x)) as Hpf.
  { unfold pt_frames, l2_frames. do 3 f_equal. apply list_fmap_ext. intros j y Hy.
    apply Hl1. apply list_elem_of_lookup_2, elem_of_zseq in Hy.
    change (Z.to_nat PAGEWORDS : Z) with PAGEWORDS in Hy. lia. }
  destruct (pagetableFree_run _ _ _ (dy_free _ _ _ _ _ _ H) Hok') as (s & Hrun & Hfl & _ & Hm).
  change (fmem (frs (k_swap k))) with (kmem k) in *. rewrite Hpf in *.
  exists (set_kfrs s k). split; [|split; [|done]].
  - unfold process_pagetableFree. erewrite bind_ok by (by apply cassert_run).
    rewrite (bind_ok _ _ k (pagetable x) k)
      by (by apply on_procs_id, (pcb_field pagetable _ l (set_info i x))).
    by apply on_fr_run.
  - destruct H as [D1 D2 D3 D4 D5]. split; [by rewrite <- app_assoc| |done| |done].
    + intros g a Ha [Hn1 Hn2]%not_elem_of_app Hin. rewrite <- (D2 g a) by done. by apply (Hm g).
    + rewrite <- D4. by apply (pagetableFree_beside _ _ _ _ Hrun).
Qed.

(** ** The swap files of its executable *)
Definition is_default (f : Swapfile) : bool :=
  bool_decide (take (Z.to_nat MAX_FILE_NAME) (sf_path f) = take (Z.to_nat MAX_FILE_NAME) SWAPFILE_FN).
Definition own (sw : gmap Z Swapfile) (r : Region) : bool :=
  bool_decide (elffile r ≠ 0) && match sw !! elffile r with Some f => negb (is_default f) | None => false end.
Definition own_files (sw : gmap Z Swapfile) (rs : list Region) : list Z :=
  elffile <$> filter (λ r, own sw r = true) rs.

Lemma own_files_delete sw f rs :
  f ∉ own_files sw rs → own_files (delete f sw) rs = own_files sw rs.
Proof.
  induction rs as [|r rs IH]; [done|]. unfold own_files in *. rewrite !filter_cons. intros Hf.
  destruct (decide (elffile r = f)) as [He|Hne].
  - destruct (own sw r) eqn:Ho.
    { exfalso. apply Hf. rewrite decide_True by done. rewrite <- He. by left. }
    rewrite !decide_False in * by (unfold own; rewrite ?He, ?lookup_delete_eq, ?andb_false_r; congruence).
    auto.
  - assert (own (delete f sw) r = own sw r) as -> by (unfold own; by rewrite lookup_delete_ne).
    case_decide; [|auto]. cbn. f_equal. apply IH. set_solver.
Qed.

Lemma region_free_own s fs r :
  free_list (frs s) fs → own (swapfiles s) r = true → frame_addr (elffile r) → elffile r ∉ fs →
  ∃ t, region_free r s = Ok tt (mkSwapst t (delete (elffile r) (swapfiles s))) ∧
    free_list t (elffile r :: fs) ∧ beside t = beside (frs s) ∧
    (∀ g a, frame_addr g → g ≠ elffile r → in_frame g a → load32 (fmem t) a = load32 (fmem (frs s)) a).
Proof.
  intros Hfl [Hz%bool_decide_eq_true Ho]%andb_true_iff Ha Hni.
  destruct (swapfiles s !! elffile r) as [f|] eqn:Hf; [|done].
  destruct (frame_given (frs s) (elffile r) fs) as (t & Hrun & H); [done..|].
  exists t. split; [|done]. unfold region_free. rewrite decide_True by done.
  rewrite (bind_ok _ _ s (is_default f) s); last first.
  { unfold swapfile_is_default. rewrite (bind_ok _ _ s f s); [done|].
    unfold sf_get. by rewrite decide_False, Hf. }
  destruct (is_default f); [done|]. unfold swapfile_free.
  by rewrite (bind_ok _ _ s tt (set_frs t s)) by (by apply zoom_ok).
Qed.
Lemma region_free_skip s r :
  own (swapfiles s) r = false → elffile r = 0 ∨ is_Some (swapfiles s !! elffile r) →
  region_free r s = Ok tt s.
Proof.
  intros Ho Hr. unfold region_free. case_decide as Hz; [|done]. destruct Hr as [|[f Hf]]; [done|].
  rewrite (bind_ok _ _ s true s); [done|]. unfold swapfile_is_default.
  rewrite (bind_ok _ _ s f s); [|unfold sf_get; by rewrite decide_False, Hf].
  unfold own in Ho. rewrite bool_decide_true, Hf in Ho by done.
  unfold mret, M_ret. f_equal. by apply negb_false_iff in Ho.
Qed.
Lemma own_files_cons sw r rs :
  own_files sw (r :: rs) = if own sw r then elffile r :: own_files sw rs else own_files sw rs.
Proof. unfold own_files. rewrite filter_cons. by destruct (own sw r). Qed.
Lemma own_files_in sw r q rs :
  own sw r = true → q ∈ rs → elffile q = elffile r → elffile r ∈ own_files sw rs.
Proof.
  intros Ho Hq He. apply list_elem_of_fmap. exists q. split; [done|].
  apply list_elem_of_filter. split; [|done]. unfold own in *. by rewrite He.
Qed.

Lemma regions_given rs : ∀ s fs,
  free_list (frs s) fs → (∀ r, r ∈ rs → elffile r = 0 ∨ is_Some (swapfiles s !! elffile r)) →
  let files := own_files (swapfiles s) rs in
  (∀ f, f ∈ files → frame_addr f) → NoDup (files ++ fs) →
  ∃ s', ListSpec.list_iterate region_free rs s = Ok tt s' ∧
    free_list (frs s') (reverse files ++ fs) ∧ beside (frs s') = beside (frs s) ∧
    (∀ g a, frame_addr g → g ∉ files → in_frame g a → load32 (fmem (frs s')) a = load32 (fmem (frs s)) a) ∧
    (∀ f, swapfiles s' !! f = if decide (f ∈ files) then None else swapfiles s !! f).
Proof.
  induction rs as [|r rs IH]; intros s fs Hfl Hr files Ha Hnd.
  { exists s. do 4 (split; [done|]). intros f. by rewrite decide_False by (by intros ?%elem_of_nil). }
  cbn [ListSpec.list_iterate]. unfold files in *. rewrite own_files_cons in *.
  destruct (own (swapfiles s) r) eqn:Ho; last first.
  { rewrite (bind_ok _ _ s tt s) by (apply region_free_skip; [done|apply Hr; by left]).
    apply IH; [done|intros q Hq; apply Hr; by right|done|done]. }
  apply NoDup_cons in Hnd as [[Hn1 Hn2]%not_elem_of_app Hnd].
  destruct (region_free_own s fs r) as (t & Hrun & Hfl' & Hb & Hm); [done|done|apply Ha; by left|done|].
  rewrite (bind_ok _ _ _ _ _ Hrun). set (s1 := mkSwapst t _).
  assert (own_files (swapfiles s1) rs = own_files (swapfiles s) rs) as Hod by (by apply own_files_delete).
  destruct (IH s1 (elffile r :: fs)) as (s' & I1 & I2 & I3 & I4 & I5); rewrite ?Hod in *.
  { done. }
  { intros q Hq. destruct (Hr q) as [|Hsome]; [by right|by left|].
    destruct (decide (elffile q = elffile r)) as [He|Hne]; [|right; cbn; by rewrite lookup_delete_ne].
    exfalso. by eapply Hn1, own_files_in. }
  { intros g Hg. apply Ha. by right. }
  { rewrite <- Permutation_middle. by apply NoDup_cons; split; [apply not_elem_of_app|]. }
  exists s'. split; [done|]. split; [by rewrite reverse_cons, <- app_assoc|].
  split; [by rewrite I3|]. split.
  - intros g a Hg [Hne Hni]%not_elem_of_cons Hin. rewrite (I4 g a) by done. by apply (Hm g).
  - intros g. rewrite I5. cbn. destruct (decide (g = elffile r)) as [->|Hne].
    + rewrite lookup_delete_eq, (decide_True (P := _ ∈ _ :: _)) by (by left). by case_decide.
    + rewrite lookup_delete_ne by done. assert (g ∈ elffile r :: own_files (swapfiles s) rs ↔
        g ∈ own_files (swapfiles s) rs) as E by (rewrite elem_of_cons; naive_solver).
      repeat case_decide; naive_solver.
Qed.

(** ** The thread, the files, the entry of the table *)
Definition lowered (i : Z) (s : procs) : procs :=
  if decide (i < nextPid s) then set_nextPid i s else s.
Lemma kill_run k l x :
  pcbs (k_procs k) !! l = Some x → tidOffset (k_procs k) < pid (info x) →
  ps_type (info x) = PS_TYPE_PROCESS →
  process_kill (Some l) k = Ok 0 (set_procs (lowered (pid (info x)) (k_procs k))
    (klog_app [L4_ThreadDelete (L4_GlobalId (pid (info x)) 1); L4_SpaceDelete (pid (info x))] k)).
Proof.
  intros Hx Hoff Hty. unfold process_kill. erewrite bind_ok by (by apply cassert_run).
  rewrite (bind_ok _ _ k (pid (info x)) k) by (by apply on_procs_id, (pcb_field (λ x, pid (info x)))).
  rewrite (bind_ok _ _ k (tidOffset (k_procs k)) k) by (by apply on_procs_id).
  rewrite (bind_ok _ _ k x k) by (by apply on_procs_id, pcb_get_run).
  rewrite Hty, !bool_decide_true by done. cbn [andb].
  rewrite (bind_ok _ _ k (L4_GlobalId (pid (info x)) 1) k)
    by (by apply on_procs_id, (pcb_field (λ x, L4_GlobalId (pid (info x)) 1))).
  unfold thread_kill. rewrite (bind_ok _ _ _ _ _ (emit_ok _ k)). set (k1 := klog_app _ k).
  rewrite (bind_ok _ _ k1 (pid (info x)) k1) by (by apply on_procs_id, (pcb_field (λ x, pid (info x)))).
  rewrite (bind_ok _ _ _ _ _ (emit_ok _ k1)). set (k2 := klog_app _ k1).
  rewrite (bind_ok _ _ k2 (nextPid (k_procs k)) k2) by (by apply on_procs_id).
  assert (k2 = klog_app [L4_ThreadDelete (L4_GlobalId (pid (info x)) 1); L4_SpaceDelete (pid (info x))] k)
    as -> by (unfold k2, k1; by rewrite klog_app_app).
  unfold lowered. case_bool_decide as Hd; case_decide as Hd'; done.
Qed.

(** The requests to close the open files of the process. *)
Definition is_open (x : Process) (fd : Z) : bool :=
  match fds x !! Z.to_nat fd with Some j => bool_decide (j ≠ VFS_NIL_FILE) | None => false end.
Definition close_events (x : Process) (fd : Z) : list event :=
  if is_open x fd then
    [L4_Ipc L4_rootserver PSOS_FLUSH SOS_IPC_SENDNONBLOCKING (w32 <$> [fd; pid (info x)]);
     L4_Ipc L4_rootserver PSOS_CLOSE SOS_IPC_SENDNONBLOCKING (w32 <$> [fd; pid (info x)])]
  else [].
Lemma isopen_run k i l x fd :
  registered_as (k_procs k) i l x → files_ok x → 0 ≤ fd < PROCESS_MAX_FDS →
  vfs_isopen i fd k = Ok (is_open x fd) k.
Proof.
  intros Hreg Hok Hfd. unfold vfs_isopen, is_open.
  destruct (lookup_lt_is_Some_2 (fds x) (Z.to_nat fd)) as [j Hj].
  { rewrite (fds_len _ Hok). lia. }
  rewrite Hj. destruct (fds_open _ Hok j) as [->|(Hj0 & v & Hv & Hn)].
  { by eapply list_elem_of_lookup_2. }
  - by rewrite (bind_ok _ _ _ _ _ (FdOps.get_vfile_free _ _ _ _ _ Hreg Hfd Hj)).
  - erewrite bind_ok by (eapply (FdOps.get_vfile_run _ _ _ _ fd j v); [done|done|by split]).
    rewrite !bool_decide_true; [done| |done]. unfold VFS_NIL_FILE. lia.
Qed.
Lemma close_files_run i l x n : ∀ fd k,
  registered_as (k_procs k) i l x → files_ok x → 0 ≤ fd → fd + Z.of_nat n ≤ PROCESS_MAX_FDS →
  forM (zseq fd n) (λ fd,
    pid ← on_procs (process_get_pid (Some l));
    o ← vfs_isopen pid fd;
    when o
      (ipc_send_simple L4_rootserver PSOS_FLUSH SOS_IPC_SENDNONBLOCKING [fd; pid];;
       ipc_send_simple L4_rootserver PSOS_CLOSE SOS_IPC_SENDNONBLOCKING [fd; pid])) k =
  Ok tt (klog_app (concat (close_events x <$> zseq fd n)) k).
Proof.
  induction n as [|n IH]; intros fd k Hreg Hok H0 Hn; [by rewrite klog_app_nil|].
  rewrite zseq_S. cbn [forM fmap list_fmap concat].
  rewrite (bind_ok _ _ k tt (klog_app (close_events x fd) k)); last first.
  { pose proof Hreg as (_ & _ & Hp). rewrite (bind_ok _ _ _ _ _ (UserPages.pid_run _ _ _ _ Hreg)).
    rewrite (bind_ok _ _ _ _ _ (isopen_run _ _ _ _ fd Hreg Hok ltac:(lia))).
    unfold close_events. rewrite Hp. destruct (is_open x fd); [|by rewrite klog_app_nil].
    cbn [when]. unfold ipc_send_simple. rewrite (bind_ok _ _ _ _ _ (emit_ok _ k)), emit_ok.
    by rewrite klog_app_app. }
  rewrite IH by (done || lia). by rewrite klog_app_app.
Qed.

(** ** A process that can be deleted *)
Record doomed (k : kstate) (i : Z) (l : positive) (x : Process) (fs : list Z) : Prop := {
  do_procs : procs_ok (k_procs k);
  do_range : tidOffset (k_procs k) < i < MAX_ADDRSPACES;
  do_slot : slot (k_procs k) i = Some l;
  do_pcb : pcbs (k_procs k) !! l = Some x;
  do_type : ps_type (info x) = PS_TYPE_PROCESS;
  do_files : files_ok x;
  do_free : free_list (frs (k_swap k)) fs;
  do_table : pt_ok (kmem k) (pagetable x) fs;
  do_pages : ∀ a, a ∈ pages_of i (alloced (k_pager k)) → is_word a ∧ frame_addr (page_frame (kmem k) x a);
  do_regions : ∀ r, r ∈ regions x → elffile r = 0 ∨ is_Some (swapfiles (k_swap k) !! elffile r);
  do_elf : ∀ f, f ∈ own_files (swapfiles (k_swap k)) (regions x) → frame_addr f;
  do_disjoint : NoDup ((page_frame (kmem k) x <$> pages_of i (alloced (k_pager k))) ++
    pt_frames (kmem k) (pagetable x) ++ own_files (swapfiles (k_swap k)) (regions x) ++ fs);
  do_swapped : ∀ d, (i, d) ∈ swapped (k_pager k) → d ≠ ADDRESS_ALL
}.
Lemma doomed_reg k i l x fs : doomed k i l x fs → registered_as (k_procs k) i l x ∧ l ≠ 1%positive.
Proof.
  intros H. pose proof (do_procs _ _ _ _ _ H) as Hok. pose proof (off_range _ Hok).
  pose proof (do_range _ _ _ _ _ H). pose proof (do_slot _ _ _ _ _ H) as Hs.
  pose proof (do_pcb _ _ _ _ _ H) as Hx. pose proof (no_placeholder _ Hok) as Hno.
  assert (l ≠ 1%positive) as Hne.
  { intros ->. unfold pids in Hno. by rewrite lookup_fmap, Hx in Hno. }
  split; [|done]. split; [rewrite lookup_ok by (done || lia); by rewrite Hs|]. split; [done|].
  destruct (tbl_pcb _ Hok i l ltac:(lia) Hs) as [Hp|Hp]; [by injection Hp|].
  unfold pids in Hp. rewrite lookup_fmap, Hx in Hp. by injection Hp.
Qed.

(** The table without the process, and the system after its thread, its files
    and its entry of the table are gone. *)
Definition without (i : Z) (s : procs) : procs :=
  set_sosProcs (<[Z.to_nat i := NULL]> (sosProcs s)) s.
Definition zombie (x : Process) : Process := upd_info (set_state PS_STATE_ZOMBIE) x.
Definition unlinked (l : positive) (x : Process) (k : kstate) : kstate :=
  set_procs (without (pid (info x)) (upd_pcb l zombie (lowered (pid (info x)) (k_procs k))))
    (klog_app ([L4_ThreadDelete (L4_GlobalId (pid (info x)) 1); L4_SpaceDelete (pid (info x))]
       ++ concat (close_events x <$> zseq 0 (Z.to_nat PROCESS_MAX_FILES))) k).

Lemma zombie_view l s : pid_view (upd_pcb l zombie s) = pid_view s.
Proof.
  unfold pid_view, pids. cbn. do 3 f_equal. apply map_eq. intros j. rewrite !lookup_fmap, lookup_alter.
  case_decide as E; [rewrite <- E|done]. by destruct (pcbs s !! l).
Qed.
Lemma lowered_ok i s : procs_ok s → tidOffset s ≤ i < MAX_ADDRSPACES → procs_ok (lowered i s).
Proof. intros. unfold lowered. case_decide; [by apply set_nextPid_ok|done]. Qed.
Lemma unlink_run k i l x fs (rest : K Z) :
  doomed k i l x fs →
  (r ← process_kill (Some l);
   if decide (r ≠ 0) then mret (-1)
   else
     on_procs (process_set_state (Some l) PS_STATE_ZOMBIE);;
     process_close_files (Some l);;
     on_procs (process_remove (Some l));;
     rest) k = rest (unlinked l x k) ∧
  procs_ok (k_procs (unlinked l x k)) ∧ pcbs (k_procs (unlinked l x k)) !! l = Some (zombie x).
Proof.
  intros H. destruct (doomed_reg _ _ _ _ _ H) as [(Hl & Hx & Hp) Hne].
  pose proof (do_procs _ _ _ _ _ H) as Hok. pose proof (off_range _ Hok).
  pose proof (do_range _ _ _ _ _ H). set (s1 := upd_pcb l zombie (lowered i (k_procs k))).
  assert (procs_ok s1) as Hok1.
  { apply (procs_ok_view (lowered i (k_procs k))); [apply zombie_view|]. apply lowered_ok; [done|lia]. }
  assert (pcbs s1 !! l = Some (zombie x)) as Hx1.
  { apply upd_pcb_lookup. unfold lowered. by case_decide. }
  unfold unlinked. rewrite Hp. fold s1. split; [|split; [apply table_set_inv; [done|lia|by left]|done]].
  rewrite (bind_ok _ _ _ _ _ (kill_run k l x Hx ltac:(lia) (do_type _ _ _ _ _ H))), Hp.
  rewrite decide_False by (by intros Hn; apply Hn).
  set (k1 := set_procs _ _). rewrite (bind_ok _ _ k1 tt (set_procs s1 k1)); last first.
  { apply on_procs_run, (pcb_upd_run _ l x). unfold k1, lowered. cbn. by case_decide. }
  set (k2 := set_procs s1 k1).
  assert (registered_as (k_procs k2) i l (zombie x)) as Hreg2.
  { split; [|split; [done|done]]. change (process_lookup i s1 = Ok (Some l) s1).
    apply (lookup_pcbs (k_procs k)); [|done]. unfold s1, lowered. by case_decide. }
  unfold process_close_files. erewrite bind_ok.
  2: { apply (close_files_run i l (zombie x)); [exact Hreg2| |lia|done].
       destruct (do_files _ _ _ _ _ H). by split. }
  erewrite bind_ok; last first.
  { apply on_procs_run. unfold process_remove.
    rewrite (bind_ok _ _ _ i s1) by (rewrite <- Hp; by apply (pcb_field (λ x, pid (info x)) s1 l (zombie x))).
    apply table_set_ok; [exact Hok1|lia]. }
  f_equal. unfold k2, k1. change (close_events (zombie x)) with (close_events x).
  destruct k as [[[]]]. unfold klog_app, set_kmach. cbn. by rewrite <- app_assoc.
Qed.

(** ** Everything it had is given back *)
Lemma dying_pager k0 l x fs gone k p : dying k0 l x fs gone k → dying k0 l x fs gone (set_pager p k).
Proof. by intros []. Qed.
Lemma dying_start k l x fs :
  free_list (frs (k_swap k)) fs → pcbs (k_procs k) !! l = Some x → dying k l x fs [] k.
Proof.
  intros Hfl Hx. split; try done. exists (info x). split; [done|].
  destruct (k_procs k) as [ps ? ? ? ? ?], x. cbn in *. unfold set_pcbs. cbn. by rewrite insert_id.
Qed.
Lemma dying_files k0 l x fs gone k rs :
  dying k0 l x fs gone k →
  (∀ r, r ∈ rs → elffile r = 0 ∨ is_Some (swapfiles (k_swap k) !! elffile r)) →
  let files := own_files (swapfiles (k_swap k)) rs in
  (∀ f, f ∈ files → frame_addr f) → NoDup (files ++ gone ++ fs) →
  ∃ k', on_swap (ListSpec.list_iterate region_free rs) k = Ok tt k' ∧
    dying k0 l x fs (reverse files ++ gone) k' ∧ k_pager k' = k_pager k ∧
    (∀ f, swapfiles (k_swap k') !! f = if decide (f ∈ files) then None else swapfiles (k_swap k) !! f).
Proof.
  intros [D1 D2 D3 D4 D5] Hr files Ha Hnd.
  destruct (regions_given rs (k_swap k) (gone ++ fs) D1 Hr Ha Hnd) as (s & Hrun & Hfl & Hb & Hm & Hs).
  exists (set_swap s k). split; [unfold on_swap, zoom; by rewrite Hrun|]. split; [|done].
  split; [by rewrite <- app_assoc| |done|by rewrite <- D4|done].
  intros g a Hg [Hn1 Hn2]%not_elem_of_app Ha'. rewrite <- (D2 g a) by done. apply (Hm g); [done| |done].
  by rewrite <- elem_of_reverse.
Qed.

(** The frames that are given back, in the order of the free list. *)
Definition estate (k : kstate) (i : Z) (x : Process) : list Z :=
  reverse (own_files (swapfiles (k_swap k)) (regions x)) ++ pt_frames (kmem k) (pagetable x) ++
  reverse (page_frame (kmem k) x <$> pages_of i (alloced (k_pager k))).
Definition settled (i : Z) (s : State.pager) : State.pager :=
  set_alloced (filter (λ pg, fst pg ≠ i) (alloced s))
    (set_allocLimit (allocLimit s + length (pages_of i (alloced s))) s).

Lemma release_run k i l x fs (rest : K Z) :
  doomed k i l x fs →
  ∃ k', (delete_alloced (framesFree (Some l));;
     delete_swapped (pagerSwapslotFree (i, ADDRESS_ALL));;
     process_pagetableFree (Some l);;
     x ← on_procs (pcb_get (Some l));
     on_swap (ListSpec.list_iterate region_free (regions x));;
     rest) (unlinked l x k) = rest k' ∧
    dying (unlinked l x k) l (zombie x) fs (estate k i x) k' ∧
    k_pager k' = settled i (k_pager k) ∧
    (∀ f, swapfiles (k_swap k') !! f =
       if decide (f ∈ own_files (swapfiles (k_swap k)) (regions x)) then None else swapfiles (k_swap k) !! f).
Proof.
  intros H. destruct (doomed_reg _ _ _ _ _ H) as [(Hl & Hx & Hp) Hne].
  pose proof (do_disjoint _ _ _ _ _ H) as Hnd.
  set (k0 := unlinked l x k). set (z := zombie x).
  assert (pid (info z) = i) as Hpz by exact Hp.
  destruct (unlink_run k i l x fs (mret 0) H) as (_ & _ & Hz).
  set (frames := page_frame (kmem k) x <$> pages_of i (alloced (k_pager k))) in *.
  set (table := pt_frames (kmem k) (pagetable x)) in *.
  set (files := own_files (swapfiles (k_swap k)) (regions x)) in *.
  destruct (frames_loop k0 l z fs (-1) (alloced (k_pager k)) [] k0) as (k1 & R1 & D1 & P1 & S1);
    [lia|by apply dying_start; [apply (do_free _ _ _ _ _ H)|]|apply (do_table _ _ _ _ _ H)
    |rewrite Hpz; apply (do_pages _ _ _ _ _ H)| |].
  { rewrite Hpz. change (NoDup (frames ++ table ++ fs)).
    eapply sublist_NoDup; [exact Hnd|]. apply sublist_app; [done|].
    apply sublist_app; [done|]. by apply sublist_inserts_l. }
  rewrite Hpz in R1, D1, P1. rewrite app_nil_r in D1.
  change (page_frame (kmem k0) z) with (page_frame (kmem k) x) in *. fold frames in D1, P1.
  set (k1' := set_pager (settled i (k_pager k)) k1).
  rewrite (bind_ok _ _ k0 tt k1'); last first.
  { unfold delete_alloced. rewrite (bind_ok _ _ k0 (alloced (k_pager k)) k0) by (by apply on_pager_id).
    unfold ListSpec.list_delete. rewrite (bind_ok _ _ _ _ _ R1). erewrite on_pager_run by reflexivity.
    unfold k1', settled. rewrite P1. unfold frames. by rewrite length_fmap. }
  apply (dying_pager _ _ _ _ _ _ (settled i (k_pager k))) in D1. fold k1' in D1.
  rewrite (bind_ok _ _ k1' tt k1') by (apply swapslots_stay, (do_swapped _ _ _ _ _ H)).
  destruct (table_given k0 l z fs (reverse frames) k1' D1 (do_table _ _ _ _ _ H)) as (k2 & R2 & D2 & P2 & S2).
  { intros g Hg. rewrite elem_of_reverse. intros Hin. apply NoDup_app in Hnd as (_ & Hnd & _).
    apply (Hnd g Hin). apply elem_of_app. by left. }
  rewrite (bind_ok _ _ _ _ _ R2). destruct (dying_pcb _ _ _ _ _ _ D2) as (j & Hj & Hx2).
  rewrite (bind_ok _ _ k2 (set_info j z) k2) by (by apply on_procs_id, pcb_get_run).
  assert (swapfiles (k_swap k2) = swapfiles (k_swap k)) as S by (rewrite S2; exact S1).
  destruct (dying_files k0 l z fs _ k2 (regions x) D2) as (k3 & R3 & D3 & P3 & S3); rewrite ?S in *;
    [apply (do_regions _ _ _ _ _ H)|apply (do_elf _ _ _ _ _ H)| |].
  { change (pt_frames (kmem k0) (pagetable z)) with table. fold files.
    rewrite (reverse_Permutation frames), (Permutation_app_comm table frames), app_assoc.
    rewrite (Permutation_app_comm files (frames ++ table)), <- !app_assoc. exact Hnd. }
  exists k3. split; [by erewrite bind_ok by exact R3|]. split; [done|]. split; [|done].
  rewrite P3, P2. done.
Qed.

(** ** The table of processes *)
Lemma proc_at_ext s s' l j :
  slot s' j = slot s j → slot s j ≠ Some l → (∀ m, m ≠ l → pcbs s' !! m = pcbs s !! m) →
  proc_at s' j = proc_at s j.
Proof.
  intros Hs Hl Hp. unfold proc_at. rewrite Hs. destruct (slot s j) as [m|]; [|done].
  rewrite Hp; [done|]. by intros ->.
Qed.
Lemma slot_without s i l x j :
  procs_ok s → slot s i = Some l → pcbs s !! l = Some x → pid (info x) = i → l ≠ 1%positive →
  0 ≤ i < MAX_ADDRSPACES → 0 ≤ j < MAX_ADDRSPACES → slot (without i s) j ≠ Some l.
Proof.
  intros Hok Hs Hx Hp Hne Hi Hj. unfold without. rewrite slot_set by (done || lia).
  case_decide as Hd; [done|]. intros Hsj. destruct (tbl_pcb _ Hok j l Hj Hsj) as [E|E].
  - by injection E.
  - unfold pids in E. rewrite lookup_fmap, Hx in E. injection E. lia.
Qed.
(** A PCB that no entry leads to can be freed. *)
Lemma pcb_free_ok s l :
  procs_ok s → (∀ j, 0 ≤ j < MAX_ADDRSPACES → slot s j ≠ Some l) →
  procs_ok (set_pcbs (delete l (pcbs s)) s).
Proof.
  intros [H1 H2 H3 H4] Hl. split; [done|done| |].
  - intros j m Hj Hs. destruct (H3 j m Hj Hs) as [|Hp]; [by left|right].
    unfold pids in *. cbn. rewrite fmap_delete, lookup_delete_ne; [done|].
    intros <-. by apply (Hl j).
  - unfold pids in *. cbn. rewrite fmap_delete. by apply lookup_delete_None; right.
Qed.

(** What the deletion of process [i] with PCB [x] leaves of system [k]. *)
Record deleted (k : kstate) (i : Z) (l : positive) (x : Process) (fs : list Z) (k' : kstate) : Prop := {
  de_procs : procs_ok (k_procs k');
  de_slot : slot (k_procs k') i = NULL;
  de_pcb : pcbs (k_procs k') !! l = None;
  de_woken : ∀ j, in_table (k_procs k) j → proc_at (k_procs k') j =
    prod_map id (λ y, if decide (waitingOn y = i ∨ waitingOn y = WAIT_ANYBODY) then woken y else y)
      <$> proc_at (without i (k_procs k)) j;
  de_pager : k_pager k' = settled i (k_pager k);
  de_free : free_list (frs (k_swap k')) (estate k i x ++ fs);
  de_mem : ∀ g a, frame_addr g → g ∉ estate k i x → in_frame g a → load32 (kmem k') a = load32 (kmem k) a;
  de_swapfiles : ∀ f, swapfiles (k_swap k') !! f =
    if decide (f ∈ own_files (swapfiles (k_swap k)) (regions x)) then None else swapfiles (k_swap k) !! f;
  de_others : (k_vfs k', k_nfs k', k_con k') = (k_vfs k, k_nfs k, k_con k);
  de_log : klog k' = klog k
    ++ [L4_ThreadDelete (L4_GlobalId i 1); L4_SpaceDelete i]
    ++ concat (close_events x <$> zseq 0 (Z.to_nat PROCESS_MAX_FILES))
    ++ concat (pass_events i i (without i (k_procs k)) <$> indices (k_procs k))
    ++ concat (pass_events WAIT_ANYBODY i (without i (k_procs k)) <$> indices (k_procs k))
}.

(** The table at the end of the release, seen from the one before the
    deletion. *)
Lemma dying_table k i l x fs gone k3 :
  doomed k i l x fs → dying (unlinked l x k) l (zombie x) fs gone k3 →
  procs_ok (k_procs k3) ∧ tidOffset (k_procs k3) = tidOffset (k_procs k) ∧
  (∀ j, slot (k_procs k3) j = slot (without i (k_procs k)) j) ∧
  (∀ j, 0 ≤ j < MAX_ADDRSPACES → slot (k_procs k3) j ≠ Some l ∧
    proc_at (k_procs k3) j = proc_at (without i (k_procs k)) j).
Proof.
  intros H D. destruct (doomed_reg _ _ _ _ _ H) as [(Hl & Hx & Hp) Hne].
  pose proof (do_procs _ _ _ _ _ H) as Hok. pose proof (off_range _ Hok). pose proof (do_range _ _ _ _ _ H).
  destruct (unlink_run k i l x fs (mret 0) H) as (_ & Hok0 & Hz).
  destruct (dy_proc _ _ _ _ _ _ D) as (j & Hj & E).
  assert (sosProcs (k_procs k3) = sosProcs (without i (k_procs k)) ∧
    tidOffset (k_procs k3) = tidOffset (k_procs k)) as [Es Et].
  { rewrite E. unfold unlinked, without, lowered. cbn. rewrite Hp. by case_decide. }
  assert (∀ j, slot (k_procs k3) j = slot (without i (k_procs k)) j) as Hs
    by (intros; unfold slot; by rewrite Es).
  assert (∀ m, m ≠ l → pcbs (k_procs k3) !! m = pcbs (without i (k_procs k)) !! m) as Hm.
  { intros m Hml. rewrite E. cbn. rewrite lookup_insert_ne by done. rewrite lookup_alter_ne by done.
    unfold lowered. by case_decide. }
  split; [|split; [done|split; [done|]]].
  - revert Hok0 Hz E. generalize (k_procs (unlinked l x k)). intros s0 Hok0 Hz E.
    eapply procs_ok_view, Hok0. rewrite E. unfold pid_view, pids. cbn. do 3 f_equal.
    rewrite fmap_insert. apply insert_id. rewrite lookup_fmap, Hz. cbn.
    by rewrite Hj.
  - intros j' Hj'. pose proof (slot_without (k_procs k) i l x j' Hok (do_slot _ _ _ _ _ H)
      Hx Hp Hne ltac:(lia) Hj') as Hno. rewrite Hs. split; [done|]. by apply (proc_at_ext _ _ l).
Qed.

Lemma dying_log k i l x fs gone k3 :
  doomed k i l x fs → dying (unlinked l x k) l (zombie x) fs gone k3 →
  klog k3 = klog k ++ [L4_ThreadDelete (L4_GlobalId i 1); L4_SpaceDelete i]
    ++ concat (close_events x <$> zseq 0 (Z.to_nat PROCESS_MAX_FILES)) ∧
  (∀ a, pass_events a i (k_procs k3) <$> indices (k_procs k3) =
        pass_events a i (without i (k_procs k)) <$> indices (k_procs k)).
Proof.
  intros H D. destruct (doomed_reg _ _ _ _ _ H) as [(_ & _ & Hp) _].
  pose proof (off_range _ (do_procs _ _ _ _ _ H)).
  destruct (dying_table _ _ _ _ _ _ _ H D) as (_ & Et & _ & Hat). split.
  - assert (klog k3 = klog (unlinked l x k)) as ->.
    { pose proof (dy_beside _ _ _ _ _ _ D) as D4. unfold beside, beside_mem in D4. by injection D4. }
    unfold unlinked. by rewrite Hp.
  - intros a. unfold indices. rewrite Et. fold (indices (k_procs k)). apply list_fmap_ext.
    intros n j Hj%list_elem_of_lookup_2. apply indices_in in Hj; [|apply (do_procs _ _ _ _ _ H)].
    unfold in_table in Hj. unfold pass_events. by rewrite (proj2 (Hat j ltac:(lia))).
Qed.

Lemma processDelete_run k i l x fs :
  doomed k i l x fs → ∃ k', processDelete i k = Ok 0 k' ∧ deleted k i l x fs k'.
Proof.
  intros H. destruct (doomed_reg _ _ _ _ _ H) as [(Hl & Hx & Hp) Hne].
  pose proof (do_procs _ _ _ _ _ H) as Hok. pose proof (off_range _ Hok) as Ho. pose proof (do_range _ _ _ _ _ H).
  destruct (release_run k i l x fs (process_wake_all i;; on_procs (pcb_free (Some l));; mret 0) H)
    as (k3 & R3 & D & P3 & S3).
  destruct (dying_table _ _ _ _ _ _ _ H D) as (Hok3 & Et & Hs & Hat).
  destruct (wake_all_run k3 i Hok3 ltac:(lia)) as (k4 & R4 & V4 & U4 & A4 & L4).
  assert (∃ y, pcbs (k_procs k4) !! l = Some y) as [y Hy].
  { destruct (dying_pcb _ _ _ _ _ _ D) as (j & _ & Hj). unfold pid_view in V4. injection V4 as V4 _ _ _.
    apply (f_equal (.!! l)) in V4. unfold pids in V4. rewrite !lookup_fmap, Hj in V4.
    destruct (pcbs (k_procs k4) !! l) as [y|]; [by exists y|done]. }
  assert (∀ j, slot (k_procs k4) j = slot (k_procs k3) j) as Hs4.
  { intros j. unfold pid_view in V4. injection V4 as _ V4 _ _. unfold slot. by rewrite V4. }
  set (s' := set_pcbs (delete l (pcbs (k_procs k4))) (k_procs k4)).
  exists (set_procs s' k4). split.
  - unfold processDelete. rewrite (bind_ok _ _ k (Some l) k) by (by apply on_procs_id).
    rewrite decide_False by done. rewrite (proj1 (unlink_run k i l x fs _ H)).
    rewrite (bind_ok _ _ _ i (unlinked l x k)); last first.
    { rewrite <- Hp. apply on_procs_id, (pcb_field (λ x, pid (info x)) _ l (zombie x)).
      apply (unlink_run k i l x fs (mret 0) H). }
    rewrite R3, (bind_ok _ _ _ _ _ R4). erewrite bind_ok; [done|].
    apply on_procs_run. unfold pcb_free. by rewrite Hy.
  - unfold unwoken in U4. injection U4 as U1 U2 U3 U4 _ U5 U6 _ U7.
    assert (∀ j, 0 ≤ j < MAX_ADDRSPACES → slot (k_procs k4) j ≠ Some l) as Hno
      by (intros j Hj; rewrite Hs4; by apply Hat).
    destruct (dying_log _ _ _ _ _ _ _ H D) as [Hlog Hpass].
    destruct D as [D1 D2 D3 D4 D5]. split.
    + apply pcb_free_ok; [|done]. by apply (procs_ok_view (k_procs k3)).
    + change (slot (k_procs k4) i = NULL). rewrite Hs4, Hs. unfold without.
      rewrite slot_set by (done || lia). by rewrite decide_True.
    + apply lookup_delete_eq.
    + intros j Hj. unfold in_table in Hj. rewrite (proc_at_ext (k_procs k4) _ l j);
        [|done|apply Hno; lia|intros m Hm; by apply lookup_delete_ne].
      rewrite A4 by (unfold in_table; lia). by rewrite (proj2 (Hat j ltac:(lia))).
    + cbn. congruence.
    + destruct D1 as [D1 D1']. split; [|done]. unfold fmem. cbn. unfold kmach in U6. by rewrite U6, U7.
    + intros g a Hg Hn Ha. change (load32 (mem (kmach k4)) a = load32 (kmem k) a). rewrite U6. by apply (D2 g).
    + intros f. cbn. by rewrite U5, S3.
    + cbn. rewrite U1, U2, U3. exact D5.
    + change (klog (set_procs s' k4)) with (klog k4).
      by rewrite L4, Hlog, !Hpass, <- !app_assoc.
Qed.
End Teardown.

Module TeardownClaims.
Import UserPages Fault Spawn Lifecycle WakeSpec FdTable Teardown.

(** C11: deleting a process releases its memory and leaves everybody else's
    alone.  [processDelete] returns 0; the thread and the space are deleted and the
    open files below PROCESS_MAX_FILES are asked to be closed; the entry of the
    table is free and the PCB is gone; exactly the frames of the process's
    pages, of its page table and of its executable's swap files join the free
    list, each once, and the memory of all other frames is as before; the
    pager's list keeps the pages of the others, and the limit grows by the
    number of its pages; exactly the processes that waited for it or for
    anybody are woken, each with one reply.  Two things it does not release: its
    slots of the swap file stay taken (the pager's list [swapped] is as before),
    and descriptors from PROCESS_MAX_FILES on are not asked to be closed. *)
Theorem processDelete_releases k i l x fs :
  doomed k i l x fs → ∃ k', processDelete i k = Ok 0 k' ∧ deleted k i l x fs k'.
Proof. apply processDelete_run. Qed.

(** A process with two pages and an executable, in a system with one free
    frame. *)
Definition elf_region : Region :=
  region_set_elffile (region_alloc REGION_OTHER 4096 8192 5 false) 0x30000.
Definition doomed_proc : Process :=
  mkProcess (info ReplyClaims.alive_proc) 8192 [elf_region] 0 0 0 (fst vfiles_init) (snd vfiles_init)
    WAIT_NOBODY None.
Definition doomed_state : kstate :=
  set_procs (set_pcbs {[ 2%positive := doomed_proc ]} ReplyClaims.alive_procs)
    (set_swap (mkSwapst (frs (k_swap ResidentClaims.kpager2)) {[ 0x30000 := elf_swapfile [] ]})
      ResidentClaims.kpager2).
Lemma doomed_table : pt_ok (kmem doomed_state) 8192 [16384].
Proof.
  assert (l1 (kmem doomed_state) 8192 0 = 12288) as H0 by (vm_compute; reflexivity).
  assert (∀ i, 0 ≤ i < PAGEWORDS → i = 0 ∨ l1 (kmem doomed_state) 8192 i = 0) as Hz.
  { assert (Forall (λ i, i = 0 ∨ l1 (kmem doomed_state) 8192 i = 0) (zseq 0 (Z.to_nat PAGEWORDS))) as HF
      by (apply (bool_decide_unpack _); vm_compute; exact I).
    rewrite Forall_forall in HF. intros i Hi. apply HF, elem_of_zseq.
    change (Z.to_nat PAGEWORDS : Z) with PAGEWORDS. lia. }
  split; [by apply (bool_decide_unpack _)|by apply (bool_decide_unpack _)| |].
  - intros i Hi. destruct (Hz i Hi) as [->|]; [right|by left]. rewrite H0.
    split; [by apply (bool_decide_unpack _)|]. split; [done|by apply (bool_decide_unpack _)].
  - intros i j Hi Hj. destruct (Hz i Hi) as [->|Hi0], (Hz j Hj) as [->|Hj0]; congruence.
Qed.
Lemma doomed_facts :
  (alloced (k_pager doomed_state) = ResidentClaims.two_pages ∧ swapped (k_pager doomed_state) = []) ∧
  (firstFree (frs (k_swap doomed_state)) = 16384 ∧ load32 (kmem doomed_state) 16384 = 0) ∧
  (page_frame (kmem doomed_state) doomed_proc 4096 = 0x10000 ∧
   page_frame (kmem doomed_state) doomed_proc 8192 = 0x20000 ∧
   pt_frames (kmem doomed_state) 8192 = [8192; 12288]) ∧
  pid_view (k_procs doomed_state) = pid_view LifecycleClaims.waiting_procs ∧
  swapfiles (k_swap doomed_state) = {[ 0x30000 := elf_swapfile [] ]}.
Proof. split_and!; vm_compute; reflexivity. Qed.
Lemma doomed_demo : doomed doomed_state 5 2 doomed_proc [16384].
Proof.
  destruct doomed_facts as ((F1 & F2) & (F3 & F4) & (G1 & G2 & F6) & F7 & F8).
  assert (pages_of 5 ResidentClaims.two_pages = [4096; 8192]) as F9 by reflexivity.
  assert (own_files {[ 0x30000 := elf_swapfile [] ]} (regions doomed_proc) = [0x30000]) as F10
    by (vm_compute; reflexivity).
  assert (page_frame (kmem doomed_state) doomed_proc <$> [4096; 8192] = [0x10000; 0x20000]) as F5
    by (cbn [fmap list_fmap]; rewrite G1, G2; reflexivity).
  split; rewrite ?F1, ?F2, ?F8, ?F9, ?F10, ?F5;
    change (pagetable doomed_proc) with 8192; rewrite ?F6.
  - eapply procs_ok_view, LifecycleClaims.waiting_ok. exact F7.
  - split; vm_compute; reflexivity.
  - vm_compute. reflexivity.
  - vm_compute. reflexivity.
  - reflexivity.
  - apply (files_ok_ext _ (fresh_pcb PS_TYPE_PROCESS 8192)); [done|done|apply files_ok_fresh].
  - split; [|by apply (bool_decide_unpack _)]. cbn [chain]. split; [exact F3|].
    split; [by apply (bool_decide_unpack _)|exact F4].
  - exact doomed_table.
  - intros a [->|Ha]%elem_of_cons; [rewrite G1|apply list_elem_of_singleton in Ha as ->; rewrite G2];
      (split; apply (bool_decide_unpack _); vm_compute; exact I).
  - intros r ->%list_elem_of_singleton. right. exists (elf_swapfile []). vm_compute. reflexivity.
  - intros f ->%list_elem_of_singleton. apply (bool_decide_unpack _). vm_compute. exact I.
  - apply (bool_decide_unpack _). vm_compute. exact I.
  - intros d Hd. destruct (not_elem_of_nil _ Hd).
Qed.
Lemma processDelete_releases_witness :
  ∃ k', processDelete 5 doomed_state = Ok 0 k' ∧ deleted doomed_state 5 2 doomed_proc [16384] k'.
Proof. exact (processDelete_releases doomed_state 5 2 doomed_proc [16384] doomed_demo). Defined.
End TeardownClaims.
