(* ===== verification/CopyOut.v ===== *)
(** * Copying into user memory

    The counterpart of copying in: the bytes of the pager's buffer are written
    through the page tables of a process, page by page, with a fault on each
    page.  The theorem says that exactly the bytes of the range are written,
    with exactly those of the buffer. *)
From S2P Require Import Prelude Machine ListC Frames Swapfile State Pagetable Process Reply VfsCore.
From S2P Require Import Clock Vfs Lifecycle PagerBase Quota Resident Pager Copy.
Import Frames Swapfile Pagetable Process Reply VfsCore OpenDone PagerBase Pager Resident.

Module UserWrites.
Import Bits UserPages.

Lemma load32_ext m m' w :
  (∀ y, w ≤ y < w + 4 → load8 m' y = load8 m y) → load32 m' w = load32 m w.
Proof. intros H. unfold load32. rewrite !H by lia. done. Qed.

(** A range that can be written: besides what [user_range] says, the data
    overlaps no word that leads to it, and no byte backs two addresses. *)
Definition clear_of (w y : Z) : Prop := y < w ∨ w + 4 ≤ y.
Record out_range (k : kstate) (x : Process) (rt lo n : Z) : Prop := {
  og_range : user_range k x rt lo n;
  og_l1 : ∀ a b, in_range lo n a → in_range lo n b →
    clear_of (word_at (pagetable x) (offset1 b)) (phys k x a);
  og_inj : ∀ a b, in_range lo n a → in_range lo n b → phys k x a = phys k x b → a = b
}.
Lemma out_range_phys k k' x rt lo n :
  user_range k' x rt lo n → (∀ b, in_range lo n b → phys k' x b = phys k x b) →
  out_range k x rt lo n → out_range k' x rt lo n.
Proof. intros Hr E [_ H1 H2]. split; [done|..]; intros a b Ha Hb; rewrite !E by done; auto. Qed.
Lemma out_range_sub k x rt lo n lo' n' :
  out_range k x rt lo n → lo ≤ lo' → lo' + n' ≤ lo + n → out_range k x rt lo' n'.
Proof.
  intros [H1 H2 H3] ??. split; [by eapply range_sub|..];
    unfold in_range in *; intros; [apply H2|apply H3]; lia || done.
Qed.

(** ** Writing a stretch of one page *)
Section write.
Context (k k' : kstate) (x : Process) (rt lo n a c : Z) (g : Z → Z).
Context (Hr : out_range k x rt lo n) (Hlo : lo ≤ a) (Hhi : a + c ≤ lo + n).
Context (Hc : 0 < c ≤ PAGESIZE - a mod PAGESIZE).
Context (Hm : ∀ y, load8 (kmem k') y =
  if decide (phys k x a ≤ y < phys k x a + c) then g (y - phys k x a) else load8 (kmem k) y).

Lemma write_hits y : phys k x a ≤ y < phys k x a + c →
  y = phys k x (a + (y - phys k x a)) ∧ in_range lo n (a + (y - phys k x a)).
Proof. intros Hy. split; [|unfold in_range; lia]. rewrite phys_shift by lia. lia. Qed.
Lemma write_keeps w : (∀ b, in_range lo n b → clear_of w (phys k x b)) →
  load32 (kmem k') w = load32 (kmem k) w.
Proof.
  intros Hw. apply load32_ext. intros y Hy. rewrite Hm. case_decide as Hd; [|done].
  apply write_hits in Hd as [Hd Hin]. specialize (Hw _ Hin). unfold clear_of in Hw. lia.
Qed.
Lemma write_l1 b : in_range lo n b →
  l1 (kmem k') (pagetable x) (offset1 b) = l1 (kmem k) (pagetable x) (offset1 b).
Proof. intros Hb. apply write_keeps. intros d Hd. by apply (og_l1 _ _ _ _ _ Hr). Qed.
Lemma write_entry b : in_range lo n b → entry k' x b = entry k x b.
Proof. intros Hb. unfold entry. by rewrite write_l1. Qed.
Lemma write_pte b : in_range lo n b → pte k' x b = pte k x b.
Proof.
  intros Hb. unfold pte. rewrite write_entry by done. apply write_keeps. intros d Hd.
  by apply (ur_data _ _ _ _ _ (og_range _ _ _ _ _ Hr)).
Qed.
Lemma write_phys b : in_range lo n b → phys k' x b = phys k x b.
Proof. intros Hb. unfold phys, frame_of. by rewrite write_pte. Qed.
Lemma write_range : out_range k' x rt lo n.
Proof.
  apply (out_range_phys k); [|exact write_phys|done]. destruct (og_range _ _ _ _ _ Hr) as [H1 H2 H3 H4]. split.
  - intros b Hb. destruct (H1 b Hb) as [r [P1 P2 P3 P4 P5 P6 P7 P8 P9]]. exists r.
    split; unfold frame_of; rewrite ?write_l1, ?write_entry, ?write_pte by done; done.
  - intros b d Hb Hd. rewrite write_entry by done. by apply H2.
  - intros b d Hb Hd. rewrite !write_entry by done. by apply H3.
  - intros b d Hb Hd. rewrite write_entry, write_phys by done. by apply H4.
Qed.
Lemma write_ubyte b : in_range lo n b →
  ubyte k' x b = if decide (a ≤ b < a + c) then g (b - a) else ubyte k x b.
Proof.
  intros Hb. unfold ubyte. rewrite write_phys, Hm by done. case_decide as Hd.
  - destruct (write_hits _ Hd) as [E Hin]. apply (og_inj _ _ _ _ _ Hr) in E; [|done..].
    rewrite decide_True by lia. f_equal. lia.
  - rewrite decide_False; [done|]. intros Hab. apply Hd.
    replace b with (a + (b - a)) by lia. rewrite phys_shift by lia. lia.
Qed.
Lemma write_others y : (∀ b, in_range lo n b → y ≠ phys k x b) → load8 (kmem k') y = load8 (kmem k) y.
Proof.
  intros Hy. rewrite Hm. case_decide as Hd; [|done]. apply write_hits in Hd as [E Hin].
  by destruct (Hy _ Hin).
Qed.
End write.

(** ** One page of a copy *)
Definition flush_out (k : kstate) (x : Process) (pid_ a : Z) : list event :=
  [L4_CacheFlushRange L4_rootspace (frame_of k x a) (w32 (frame_of k x a + PAGESIZE));
   L4_CacheFlushRangeInvalidate pid_ (page_of a) (w32 (page_of a + PAGESIZE))].
Lemma prepareDataOut_run k pid_ l x rt a r :
  registered_as (k_procs k) pid_ l x → page_ok k x rt a r →
  prepareDataOut (Some l) (page_of a) k = Ok tt (klog_app (flush_out k x pid_ a) k).
Proof.
  intros Hreg Hok. destruct (page_entry_at _ _ _ _ _ _ _ Hreg Hok) as [_ He].
  unfold prepareDataOut. erewrite bind_ok by (apply cassert_run, page_of_aligned).
  rewrite (bind_ok _ _ _ _ _ (entry_run _ _ _ _ _ He)).
  rewrite (bind_ok _ _ _ _ _ (load_run _ k (ea_nz _ _ _ _ _ He))).
  rewrite (bind_ok _ _ _ _ _ (emit_ok _ _)).
  erewrite bind_ok by (by apply (sid_run _ pid_ l x)).
  rewrite emit_ok. by rewrite klog_app_app.
Qed.

(** The state after the bytes of one page have been written. *)
Definition wrote (m' : memory) (pid_ d : Z) (k : kstate) : kstate :=
  set_pager (set_cdata pid_ d (k_pager k)) (set_kmem m' k).
Lemma copyOut_page pg k pr q l x rt lo len n off :
  prs (k_pager k) !! pr = Some q → registered_as (k_procs k) (pr_pid q) l x →
  out_range k x rt lo len → 0 ≤ pr_pid q →
  copyInOutData (k_pager k) !! Z.to_nat (pr_pid q) = Some (Z.lor n (HI_SHIFT off)) →
  0 ≤ off < n → n ≤ COPY_BUFSIZ →
  let a := pr_addr q in let c := chunk a (n - off) in
  let buf := pager_buffer (L4_GlobalId (pr_pid q) 1) in
  lo ≤ a → a + c ≤ lo + len →
  ∃ m', (∀ y, load8 m' y = if decide (phys k x a ≤ y < phys k x a + c)
                           then load8 (cbuf (kmach k)) (buf + off + (y - phys k x a))
                           else load8 (kmem k) y) ∧
  let k2 := wrote m' (pr_pid q) (Z.lor n (HI_SHIFT (off + c))) k in
  copyOutContinue pg pr k =
    (if decide (off + c = n)
     then on_pager (pr_free pr);; syscall_reply_v (L4_GlobalId (pr_pid q) 1) []
     else on_pager (pr_upd pr (set_praddr (page_of (w32 (a + PAGESIZE)))));; pg pr)
    (klog_app (flush_out k2 x (pr_pid q) a) k2).
Proof.
  intros Hq Hreg Hr Hpid Hd Hoff Hn a c buf Hlo Hhi. pose proof Hreg as (Hl & Hx & Hp).
  change COPY_BUFSIZ with 16384 in Hn. pose proof (Z.mod_pos_bound a PAGESIZE ltac:(done)) as Hmod.
  assert (0 < c ≤ PAGESIZE - a mod PAGESIZE) as Hc by (unfold c, chunk; lia).
  assert (in_range lo len a) as Ha by (unfold in_range; lia).
  destruct (ur_ok _ _ _ _ _ (og_range _ _ _ _ _ Hr) a Ha) as [r Hok].
  destruct (page_entry_at k _ _ _ rt a r Hreg Hok) as [_ He].
  destruct (copy_bytes_spec (λ _ d, isPageAligned d) (cbuf (kmach k)) (phys k x a) (Z.to_nat (n - off))
    (kmem k) (buf + off) (phys k x a) off) as [C1 C2]; [done|].
  rewrite phys_mod in C1, C2. rewrite Z2Nat.id in C1, C2 by lia.
  fold (chunk a (n - off)) in C1, C2. fold c in C1, C2.
  eexists. split; [exact C2|]. intros k2. unfold copyOutContinue.
  rewrite (bind_ok _ _ k q k) by (by apply on_pager_id, pr_get_run).
  rewrite (bind_ok _ _ k (Some l) k) by (by apply on_procs_id).
  rewrite (bind_ok _ _ _ _ _ (pid_run k _ _ _ Hreg)).
  rewrite (bind_ok _ _ k (Z.lor n (HI_SHIFT off)) k) by (by apply on_pager_id, copydata_get_run).
  rewrite half_lo, half_hi by lia. change COPY_BUFSIZ with 16384. rewrite Z.min_r by lia.
  rewrite (bind_ok _ _ _ _ _ (tid_run k _ _ _ Hreg)).
  rewrite (bind_ok _ _ _ _ _ (entry_run _ _ _ _ _ He)).
  rewrite (bind_ok _ _ _ _ _ (load_run _ k (ea_nz _ _ _ _ _ He))).
  rewrite page_off_eq. fold a.
  change (Z.land (load32 (kmem k) (entry k x a)) ADDRESS_MASK + a mod PAGESIZE) with (phys k x a).
  rewrite (bind_ok _ _ k (kmem k) k) by done. rewrite (bind_ok _ _ k (cbuf (kmach k)) k) by done.
  fold buf. destruct (copy_bytes _ _ _ _ _ _ _) as [m' o] eqn:Ecp. cbn [fst snd] in *. subst o.
  erewrite bind_ok by reflexivity.
  erewrite bind_ok by (apply on_pager_run; by eapply copydata_set_run).
  change (set_pager _ _) with k2.
  assert (out_range k2 x rt lo len) as Hr2.
  { by apply (write_range k k2 x rt lo len a c (λ i, load8 (cbuf (kmach k)) (buf + off + i))). }
  destruct (ur_ok _ _ _ _ _ (og_range _ _ _ _ _ Hr2) a Ha) as [r2 Hok2].
  rewrite (bind_ok _ _ _ _ _ (prepareDataOut_run k2 _ _ _ _ _ _ Hreg Hok2)). case_decide; done.
Qed.

(** ** The whole copy *)
Definition outside (k : kstate) (x : Process) (lo n y : Z) : Prop :=
  ∀ b, in_range lo n b → y ≠ phys k x b ∧ clear_of (entry k x b) y.
(** What a finished copy-out has done. *)
Record copied_out (k : kstate) (x : Process) (pid_ dst from_ to_ : Z) (k' : kstate) : Prop := {
  co_procs : k_procs k' = k_procs k;
  co_cbuf : cbuf (kmach k') = cbuf (kmach k);
  co_queue : requests (k_pager k') = requests (k_pager k);
  co_active : requestActive (k_pager k') = requestActive (k_pager k);
  co_bytes : let buf := pager_buffer (L4_GlobalId pid_ 1) in
    ∀ b, in_range dst (to_ - from_) b →
      ubyte k' x b = load8 (cbuf (kmach k)) (buf + from_ + (b - dst));
  co_rest : ∀ y, outside k x dst (to_ - from_) y → load8 (kmem k') y = load8 (kmem k) y;
  co_reply : ∃ es, Forall paging_event es ∧
    klog k' = klog k ++ es ++ reply_events (L4_GlobalId pid_ 1) [] (info x);
  co_beyond : beyond_paging k' = beyond_paging k
}.
(** And what its first page has done. *)
Record advanced (k : kstate) (x : Process) (rt pid_ a n c off : Z) (k3 : kstate) : Prop := {
  ad_range : out_range k3 x rt a n;
  ad_phys : ∀ b, in_range a n b → phys k3 x b = phys k x b;
  ad_entry : ∀ b, in_range a n b → entry k3 x b = entry k x b;
  ad_bytes : let buf := pager_buffer (L4_GlobalId pid_ 1) in
    ∀ b, a ≤ b < a + c → ubyte k3 x b = load8 (cbuf (kmach k)) (buf + off + (b - a));
  ad_rest : ∀ y, outside k x a n y → load8 (kmem k3) y = load8 (kmem k) y;
  ad_procs : k_procs k3 = k_procs k;
  ad_cbuf : cbuf (kmach k3) = cbuf (kmach k);
  ad_queue : requests (k_pager k3) = requests (k_pager k);
  ad_active : requestActive (k_pager k3) = requestActive (k_pager k);
  ad_beyond : beyond_paging k3 = beyond_paging k
}.

(** The bytes of earlier pages survive the rest of the copy. *)
Lemma ubyte_kept k k' x rt a n c b :
  out_range k x rt a n → 0 < c ≤ n → (a + c) mod PAGESIZE = 0 → a ≤ b < a + c →
  (∀ y, outside k x (a + c) (n - c) y → load8 (kmem k') y = load8 (kmem k) y) →
  ubyte k' x b = ubyte k x b.
Proof.
  intros [[_ H2 H3 H4] H5 H6] Hc Hal Hb Hrest.
  assert (in_range a n b) as Hbin by (unfold in_range; lia).
  assert (∀ d, in_range (a + c) (n - c) d → in_range a n d ∧ d / PAGESIZE ≠ b / PAGESIZE ∧ d ≠ b) as Hd.
  { unfold in_range. intros d Hd. pose proof (Z.div_mod (a + c) PAGESIZE ltac:(done)) as Hq. rewrite Hal in Hq.
    assert ((a + c) / PAGESIZE ≤ d / PAGESIZE) by (apply Z.div_le_mono; [done|lia]).
    assert (b / PAGESIZE < (a + c) / PAGESIZE) by (apply Z.div_lt_upper_bound; [done|lia]). lia. }
  assert (l1 (kmem k') (pagetable x) (offset1 b) = l1 (kmem k) (pagetable x) (offset1 b)) as E1.
  { apply load32_ext. intros y Hy. apply Hrest. intros d Hdin. destruct (Hd d Hdin) as (Hin & _ & _).
    specialize (H5 d b Hin Hbin). specialize (H2 d b Hin Hbin). unfold clear_of, word_disjoint in *. lia. }
  assert (entry k' x b = entry k x b) as E2 by (unfold entry; by rewrite E1).
  assert (pte k' x b = pte k x b) as E3.
  { unfold pte. rewrite E2. apply load32_ext. intros y Hy. apply Hrest. intros d Hdin.
    destruct (Hd d Hdin) as (Hin & Hpg & _). specialize (H3 d b Hin Hbin Hpg).
    specialize (H4 b d Hbin Hin). unfold clear_of, word_disjoint in *. lia. }
  unfold ubyte, phys, frame_of. rewrite E3. apply Hrest. intros d Hdin.
  destruct (Hd d Hdin) as (Hin & _ & Hne). fold (frame_of k x b) (phys k x b). split.
  - intros E. apply H6 in E; done.
  - apply (H4 d b Hin Hbin).
Qed.
Lemma advance_then k k3 k4 x rt pid_ a n c off :
  advanced k x rt pid_ a (n - off) c off k3 → 0 < c ≤ n - off → (a + c) mod PAGESIZE = 0 →
  (∃ es, Forall paging_event es ∧ klog k3 = klog k ++ es) →
  copied_out k3 x pid_ (a + c) (off + c) n k4 → copied_out k x pid_ a off n k4.
Proof.
  intros [A1 A2 A3 A4 A5 A6 A7 A8 A9 A10] Hc Hal (es & Hes & Hlog) [C1 C2 C3 C4 C5 C6 (es' & Hes' & C7) C8].
  replace (n - (off + c)) with (n - off - c) in * by lia.
  split; [congruence..| | | |congruence].
  - intros buf b Hb. destruct (decide (b < a + c)) as [Hlt|Hge].
    + unfold in_range in Hb. rewrite (ubyte_kept k3 k4 x rt a (n - off) c b); try done; [|lia].
      apply A4. lia.
    + rewrite C5, A7 by (unfold in_range in *; lia). f_equal. unfold buf. lia.
  - intros y Hy. rewrite C6; [by apply A5|]. intros b Hb.
    assert (in_range a (n - off) b) as Hin by (unfold in_range in *; lia).
    rewrite A2, A3 by done. by apply Hy.
  - exists (es ++ es'). split; [by apply Forall_app|]. by rewrite C7, Hlog, !app_assoc.
Qed.

Lemma advanced_last k x rt pid_ a n c off k3 :
  advanced k x rt pid_ a (n - off) c off k3 → off + c = n →
  (∃ es, Forall paging_event es ∧
    klog k3 = klog k ++ es ++ reply_events (L4_GlobalId pid_ 1) [] (info x)) →
  copied_out k x pid_ a off n k3.
Proof.
  intros [A1 A2 A3 A4 A5 A6 A7 A8 A9 A10] Hn Hlog. split; [done..| |done|done|done].
  intros buf b Hb. apply A4. unfold in_range in Hb. lia.
Qed.

(** A fault on the first page, and the bytes written to it. *)
Lemma touched_out_range k x rt lo n pid_ a r :
  out_range k x rt lo n → in_range lo n a → out_range (touched x pid_ a r k) x rt lo n.
Proof.
  intros Hr Ha. pose proof (og_range _ _ _ _ _ Hr) as Hu. set (k1 := touched x pid_ a r k).
  apply (out_range_phys k); [by apply (touch_range k k1 x rt lo n a)| |done].
  intros b Hb. unfold phys. by rewrite (touch_frame k k1 x rt lo n a).
Qed.
Lemma wrote_advances k k3 x rt pid_ a n c off r :
  out_range k x rt a n → 0 < n → 0 < c ≤ n → c ≤ PAGESIZE - a mod PAGESIZE →
  let k1 := touched x pid_ a r k in let buf := pager_buffer (L4_GlobalId pid_ 1) in
  (∀ y, load8 (kmem k3) y = if decide (phys k1 x a ≤ y < phys k1 x a + c)
     then load8 (cbuf (kmach k)) (buf + off + (y - phys k1 x a)) else load8 (kmem k1) y) →
  k_procs k3 = k_procs k → cbuf (kmach k3) = cbuf (kmach k) →
  requests (k_pager k3) = requests (k_pager k) →
  requestActive (k_pager k3) = requestActive (k_pager k) → beyond_paging k3 = beyond_paging k →
  advanced k x rt pid_ a n c off k3.
Proof.
  intros Hr Hn Hc Hpg k1 buf Hm E1 E2 E3 E4 E5.
  assert (in_range a n a) as Ha by (unfold in_range; lia).
  pose proof (touched_out_range _ _ _ _ _ pid_ a r Hr Ha) as Hr1. fold k1 in Hr1.
  pose proof (og_range _ _ _ _ _ Hr) as Hu.
  assert (∀ b, in_range a n b → phys k1 x b = phys k x b ∧ entry k1 x b = entry k x b) as Ht.
  { intros b Hb. unfold phys. by rewrite (touch_frame k k1 x rt a n a), (touch_entry k k1 x rt a n a). }
  pose (g := λ i, load8 (cbuf (kmach k)) (buf + off + i)).
  assert (∀ y, load8 (kmem k3) y =
    if decide (phys k1 x a ≤ y < phys k1 x a + c) then g (y - phys k1 x a) else load8 (kmem k1) y) as Hg by exact Hm.
  assert (0 < c ≤ PAGESIZE - a mod PAGESIZE) as Hc' by lia. assert (a ≤ a) as Haa by lia.
  assert (a + c ≤ a + n) as Hacn by lia.
  split; try done.
  - by apply (write_range k1 k3 x rt a n a c g).
  - intros b Hb. rewrite (write_phys k1 k3 x rt a n a c g) by done. by apply Ht.
  - intros b Hb. rewrite (write_entry k1 k3 x rt a n a c g) by done. by apply Ht.
  - intros buf' b Hb. rewrite (write_ubyte k1 k3 x rt a n a c g) by (done || unfold in_range; lia).
    by rewrite decide_True.
  - intros y Hy. rewrite (write_others k1 k3 x a n a c g); try done.
    + apply load8_store32. destruct (Hy a Ha) as [_ Hcl]. unfold clear_of in Hcl. lia.
    + intros b Hb. destruct (Ht b Hb) as [-> _]. by apply Hy.
Qed.

Lemma copy_out_all (fuel : nat) : ∀ k pr q l x n off,
  prs (k_pager k) !! pr = Some q → pr_callback_ q = CbCopyOutContinue →
  registered_as (k_procs k) (pr_pid q) l x → 0 ≤ pr_pid q →
  out_range k x (pr_rights q) (pr_addr q) (n - off) →
  copyInOutData (k_pager k) !! Z.to_nat (pr_pid q) = Some (Z.lor n (HI_SHIFT off)) →
  0 ≤ off < n → n ≤ COPY_BUFSIZ →
  (requests (k_pager k) = [] ∨ requestActive (k_pager k) = true) →
  pr_addr q mod PAGESIZE + (n - off) ≤ fuel * PAGESIZE →
  ∃ k', pager fuel pr k = Ok tt k' ∧ copied_out k x (pr_pid q) (pr_addr q) off n k'.
Proof.
  induction fuel as [|fuel IH]; intros k pr q l x n off Hq Hcb Hreg Hpid Hr Hd Hoff Hn Hquiet Hfuel.
  { pose proof (Z.mod_pos_bound (pr_addr q) PAGESIZE ltac:(done)). lia. }
  set (a := pr_addr q) in *. set (c := chunk a (n - off)).
  assert (in_range a (n - off) a) as Ha by (unfold in_range; lia).
  destruct (ur_ok _ _ _ _ _ (og_range _ _ _ _ _ Hr) a Ha) as [r Hok].
  assert (0 < c ≤ n - off ∧ c ≤ PAGESIZE - a mod PAGESIZE) as Hc.
  { unfold c, chunk. pose proof (Z.mod_pos_bound a PAGESIZE ltac:(done)). lia. }
  set (k1 := touched x (pr_pid q) a r k).
  pose proof (touched_out_range _ _ _ _ _ (pr_pid q) a r Hr Ha) as Hr1.
  destruct (copyOut_page (pager fuel) k1 pr q l x (pr_rights q) a (n - off) n off) as (m' & Hm & Hrun);
    [done..|fold a; lia|fold a c; lia|].
  fold a c in Hm, Hrun. cbv zeta in Hrun. set (k2 := klog_app _ _) in Hrun.
  pose proof (λ k3, pager_hit fuel k pr q l x r k3 Hq Hreg Hok Hquiet) as Hpager.
  fold a k1 in Hpager. unfold pr_continue in Hpager. rewrite Hcb in Hpager.
  assert (∀ k3, kmem k3 = kmem k2 → k_procs k3 = k_procs k → cbuf (kmach k3) = cbuf (kmach k) →
    requests (k_pager k3) = requests (k_pager k) → requestActive (k_pager k3) = requestActive (k_pager k) →
    beyond_paging k3 = beyond_paging k → advanced k x (pr_rights q) (pr_pid q) a (n - off) c off k3) as Hadv.
  { intros k3 Em. intros. apply (wrote_advances k k3 x _ _ a (n - off) c off r); try done; try lia.
    rewrite Em. exact Hm. }
  destruct (decide (off + c = n)) as [Hend|Hmore].
  - erewrite bind_ok in Hrun by
      (apply on_pager_run; unfold pr_free; change (prs (k_pager k2)) with (prs (k_pager k)); by rewrite Hq).
    set (k3 := set_pager _ k2) in Hrun.
    rewrite (reply_some _ _ l x k3) in Hrun; [|exact (proj1 Hreg)|exact (proj1 (proj2 Hreg))].
    eexists. split; [apply Hpager; [exact Hrun|reflexivity..]|].
    apply (advanced_last k x (pr_rights q) (pr_pid q) a n c off); [|lia|].
    + apply Hadv; [reflexivity..|by eapply copied_beyond].
    + exists ([L4_MapFpage (pr_pid q) (page_of a) (frame_of k x a) (rights r)] ++ flush_out k2 x (pr_pid q) a).
      split; [by repeat constructor|]. rewrite !app_assoc. reflexivity.
  - assert (in_range a (n - off) (a + c)) as Hac by (unfold in_range; lia).
    destruct (ur_ok _ _ _ _ _ (og_range _ _ _ _ _ Hr) (a + c) Hac) as [r2 Hok2].
    destruct (next_page a (n - off) (po_word _ _ _ _ _ Hok)) as (N1 & N2 & N3);
      [fold c; lia|apply (po_word _ _ _ _ _ Hok2)|]. fold c in N1, N2, N3. rewrite N1 in Hrun.
    erewrite bind_ok in Hrun by
      (apply on_pager_run; unfold pr_upd; change (prs (k_pager k2)) with (prs (k_pager k)); by rewrite Hq).
    set (q' := set_praddr (a + c) q) in Hrun. set (k3 := set_pager _ k2) in Hrun.
    assert (advanced k x (pr_rights q) (pr_pid q) a (n - off) c off k3) as Had.
    { apply Hadv; [reflexivity..|by eapply copied_beyond]. }
    destruct (IH k3 pr q' l x n (off + c)) as (k4 & Hrun4 & Hco); try done; try lia.
    + apply lookup_insert_eq.
    + apply (out_range_sub _ _ _ a (n - off)); [apply Had|change (pr_addr q') with (a + c); lia..].
    + apply list_lookup_insert_eq. by eapply lookup_lt_Some.
    + change (pr_addr q') with (a + c). rewrite N2. lia.
    + rewrite Hrun4 in Hrun. exists k4. split.
      * apply Hpager; [exact Hrun|by rewrite (co_queue _ _ _ _ _ _ _ Hco)|by rewrite (co_active _ _ _ _ _ _ _ Hco)].
      * apply (advance_then k k3 k4 x (pr_rights q) (pr_pid q) a n c off); [done|lia|done| |exact Hco].
        exists ([L4_MapFpage (pr_pid q) (page_of a) (frame_of k x a) (rights r)] ++ flush_out k2 x (pr_pid q) a).
        split; [by repeat constructor|]. rewrite !app_assoc. reflexivity.
Qed.
Lemma copyOut_run (fuel : nat) k pid_ l x dst n :
  registered_as (k_procs k) pid_ l x → 0 ≤ pid_ →
  is_Some (copyInOutData (k_pager k) !! Z.to_nat pid_) → moracle (kmach k) = [] →
  out_range k x FM_WRITE dst n → 0 < n ≤ COPY_BUFSIZ →
  (requests (k_pager k) = [] ∨ requestActive (k_pager k) = true) →
  dst mod PAGESIZE + n ≤ fuel * PAGESIZE →
  ∃ k', copyOut fuel (L4_GlobalId pid_ 1) dst n 0 k = Ok tt k' ∧ copied_out k x pid_ dst 0 n k'.
Proof.
  intros Hreg Hpid [d Hd] Hmo Hr Hn Hquiet Hfuel.
  destruct (copy_start_run fuel k pid_ l x dst n FM_WRITE CbCopyOutContinue d Hreg Hpid Hd Hmo Hn)
    as (pr & q & k3 & Hrun & [S1 S2 S3 S4 S5 S6 S7 S8 S9 S10]).
  destruct S2 as (S2 & S2' & S2'' & S2'''). unfold copyOut. rewrite Hrun.
  assert (∀ b, phys k3 x b = phys k x b ∧ entry k3 x b = entry k x b) as Ep.
  { intros b. unfold phys, frame_of, pte, entry. by rewrite S4. }
  destruct (copy_out_all fuel k3 pr q l x n 0) as (k' & Hrun' & [C1 C2 C3 C4 C5 C6 C7 C8]);
    rewrite ?S2, ?S2', ?S2'', ?S3, ?S6, ?S7, ?Z.sub_0_r; try done.
  - apply (out_range_phys k); [|intros; apply Ep|done]. apply (user_range_mem k); [done|apply Hr].
  - lia.
  - lia.
  - exists k'. split; [exact Hrun'|]. rewrite S2, S2' in *.
    split; [by rewrite C1|by rewrite C2|by rewrite C3|by rewrite C4| | | |by rewrite C8].
    + intros buf b Hb. rewrite <- S5. by apply C5.
    + intros y Hy. rewrite <- S4. apply C6. intros b Hb. destruct (Ep b) as [-> ->]. by apply Hy.
    + rewrite <- S8. exact C7.
Qed.
End UserWrites.

Module CopyOutClaims.
Import Bits UserPages UserWrites QuotaClaims ResidentClaims CopyClaims.

(** C4: copying [n] bytes of the buffer out to a range of resident, writable
    user pages finishes with one turn per page; every byte of the range is then
    the one of the buffer, read through the page table after the copy, no other
    byte of memory changes but for the entries of those pages, and the process
    gets one reply at the end.  Nothing happens outside the pager. *)
Theorem copyOut_transfers (fuel : nat) k pid_ l x dst n :
  registered_as (k_procs k) pid_ l x → 0 ≤ pid_ →
  is_Some (copyInOutData (k_pager k) !! Z.to_nat pid_) → moracle (kmach k) = [] →
  out_range k x FM_WRITE dst n → 0 < n ≤ COPY_BUFSIZ →
  (requests (k_pager k) = [] ∨ requestActive (k_pager k) = true) →
  dst mod PAGESIZE + n ≤ fuel * PAGESIZE →
  ∃ k', copyOut fuel (L4_GlobalId pid_ 1) dst n 0 k = Ok tt k' ∧ copied_out k x pid_ dst 0 n k'.
Proof. apply copyOut_run. Qed.

(** Four bytes across the border of the two pages of [kpager2]. *)
Lemma demo_inj : Forall (λ a, Forall (λ b, phys kpager2 proc0 a = phys kpager2 proc0 b → a = b)
  [8190; 8191; 8192; 8193]) [8190; 8191; 8192; 8193].
Proof. apply (bool_decide_unpack _). vm_compute. exact I. Qed.
Lemma heap0_rights : Z.land (rights heap0) FM_WRITE ≠ 0.
Proof. discriminate. Qed.
Lemma demo_writable : user_range kpager2 proc0 FM_WRITE 8190 4.
Proof.
  pose proof demo_range as [H1 H2 H3 H4]. split; [|exact H2|exact H3|exact H4].
  intros a Ha. destruct (H1 a Ha) as [r [P1 P2 P3 P4 P5 P6 P7 P8 P9]]. exists r.
  assert (r = heap0) as ->.
  { apply find_some in P8 as [P8 _]. change (regions proc0) with [heap0] in P8.
    by destruct P8 as [<-|[]]. }
  split; [exact P1|exact P2|exact P3|exact P4|exact P5|exact P6|exact P7|exact P8|exact heap0_rights].
Qed.
Lemma demo_out_range : out_range kpager2 proc0 FM_WRITE 8190 4.
Proof.
  pose proof demo_pages as HF. rewrite Forall_forall in HF. split; [exact demo_writable|..].
  - intros a b Ha%demo_addrs Hb%demo_addrs. destruct (HF a Ha) as (_ & _ & _ & _ & _ & _ & H7 & _).
    destruct (HF b Hb) as (_ & _ & -> & _). change (word_at (pagetable proc0) 0) with 8192.
    right. unfold phys. pose proof (Z.mod_pos_bound a PAGESIZE ltac:(done)). lia.
  - intros a b Ha%demo_addrs Hb%demo_addrs. pose proof demo_inj as HI. rewrite Forall_forall in HI.
    specialize (HI a Ha). rewrite Forall_forall in HI. exact (HI b Hb).
Qed.
Lemma copyOut_transfers_witness :
  ∃ k', copyOut 2 (L4_GlobalId 5 1) 8190 4 0 kpager2 = Ok tt k' ∧
    copied_out kpager2 proc0 5 8190 0 4 k'.
Proof.
  destruct kpager2_quiet as (Q1 & Q2 & Q3).
  apply (copyOut_transfers 2 kpager2 5 2 proc0 8190 4).
  - exact kpager2_reg.
  - lia.
  - exists 0. exact Q3.
  - exact Q2.
  - exact demo_out_range.
  - change COPY_BUFSIZ with 16384. lia.
  - left. exact Q1.
  - apply (bool_decide_unpack _). vm_compute. exact I.
Defined.
End CopyOutClaims.
