(* ===== verification/SwapIO.v ===== *)
(** * Moving a page between its frame and the swap file

    A page is written to the swap file, or read from it, in pieces that fit
    the buffer shared with the file server, one request and one answer per
    piece.  The theorems follow a whole transfer: the pieces written are the
    page, in order, and the pieces read, of whatever sizes the server answers
    with, assemble into the page. *)
From S2P Require Import Prelude Machine ListC Frames Swapfile State Pagetable Process Reply VfsCore.
From S2P Require Import Clock Vfs Lifecycle PagerBase Quota Resident Pager Copy.
Import Frames Swapfile Pagetable Process Reply VfsCore PagerBase Pager Resident UserPages.

Module SwapIO.
Lemma load8_write_bytes bs : ∀ m d a,
  load8 (write_bytes m d bs) a =
  if decide (d ≤ a < d + length bs) then default 0 (bs !! Z.to_nat (a - d)) else load8 m a.
Proof.
  induction bs as [|b bs IH]; intros m d a; simpl.
  { rewrite decide_False by lia. done. }
  rewrite IH, load8_insert. destruct (decide (d = a)) as [->|Hne].
  - rewrite decide_False by lia. rewrite decide_True by lia. by rewrite Z.sub_diag.
  - repeat case_decide; try lia; try done.
    replace (Z.to_nat (a - d)) with (S (Z.to_nat (a - (d + 1)))) by lia. done.
Qed.
Definition bytes_of (m : memory) (a : Z) (n : nat) : list Z := (λ i, load8 m (a + i)) <$> zseq 0 n.
Lemma length_bytes_of m a n : length (bytes_of m a n) = n.
Proof. unfold bytes_of. by rewrite length_fmap, length_zseq. Qed.
Lemma bytes_of_lookup m a n i : (i < n)%nat → bytes_of m a n !! i = Some (load8 m (a + i)).
Proof.
  intros Hi. unfold bytes_of, zseq. rewrite !list_lookup_fmap, lookup_seq_lt by done. done.
Qed.
Lemma bytes_of_app m a n1 n2 : bytes_of m a (n1 + n2) = bytes_of m a n1 ++ bytes_of m (a + n1) n2.
Proof.
  apply list_eq. intros i. destruct (decide (i < n1 + n2)%nat) as [Hi|Hi].
  - rewrite bytes_of_lookup by done. destruct (decide (i < n1)%nat) as [H1|H1].
    + rewrite lookup_app_l by (by rewrite length_bytes_of). by rewrite bytes_of_lookup.
    + rewrite lookup_app_r by (rewrite length_bytes_of; lia). rewrite length_bytes_of.
      rewrite bytes_of_lookup by lia. do 2 f_equal. lia.
  - rewrite !lookup_ge_None_2; [done|..]; rewrite ?length_app, !length_bytes_of; lia.
Qed.
Lemma bytes_of_write m d bs : bytes_of (write_bytes m d bs) d (length bs) = bs.
Proof.
  apply list_eq. intros i. destruct (decide (i < length bs)%nat) as [Hi|Hi].
  - rewrite bytes_of_lookup by done. rewrite load8_write_bytes, decide_True by lia.
    replace (d + i - d) with (Z.of_nat i) by lia. rewrite Nat2Z.id.
    destruct (lookup_lt_is_Some_2 bs i Hi) as [b Hb]. by rewrite Hb.
  - rewrite !lookup_ge_None_2; [done|..]; rewrite ?length_bytes_of; lia.
Qed.

(** ** The request at the head of the queue *)
Record swapping (k : kstate) (ty : rtype_t) (pr : positive) (q : PagerRequest) (st : pr_stage_t)
    (r : Swapfile) : Prop := {
  sw_queue : ∃ rest, requests (k_pager k) = (ty, pr) :: rest;
  sw_pr : prs (k_pager k) !! pr = Some q;
  sw_stage : pr_stage q = Some st;
  sw_size : pr_size q = Some PAGESIZE;
  sw_file : pr_sf q ≠ 0 ∧ swapfiles (k_swap k) !! pr_sf q = Some r;
  sw_open : sf_fd r ≠ VFS_NIL_FILE
}.
(** What the file server may change while it works on a request. *)
Definition served (k k' : kstate) : Prop :=
  k_pager k' = k_pager k ∧ kmem k' = kmem k ∧ swapfiles (k_swap k') = swapfiles (k_swap k).
Lemma served_swapping k k' ty pr q st r :
  served k k' → swapping k ty pr q st r → swapping k' ty pr q st r.
Proof. intros (E1 & _ & E3) [H1 H2 H3 H4 H5 H6]. split; rewrite ?E1, ?E3; done. Qed.

Definition buffer (k : kstate) : Z := pager_buffer (virtualPager (k_pager k)).

Lemma peek_run k ty pr q st r :
  swapping k ty pr q st r → on_pager requestsPeek k = Ok pr k ∧ on_pager (pr_get pr) k = Ok q k.
Proof.
  intros [[rest Hr] Hq _ _ _ _]. split; apply on_pager_id.
  - unfold requestsPeek. erewrite bind_ok by reflexivity. by rewrite Hr.
  - by apply pr_get_run.
Qed.
Lemma on_swap_id {A} (m : M swapst A) k a : m (k_swap k) = Ok a (k_swap k) → on_swap m k = Ok a k.
Proof. intros H. unfold on_swap, zoom. rewrite H. by destruct k. Qed.
Lemma on_swap_run {A} (m : M swapst A) k a s :
  m (k_swap k) = Ok a s → on_swap m k = Ok a (set_swap s k).
Proof. intros H. unfold on_swap, zoom. by rewrite H. Qed.
Lemma sf_get_run s sf r : sf ≠ 0 → swapfiles s !! sf = Some r → sf_get sf s = Ok r s.
Proof. intros H1 H2. unfold sf_get. rewrite decide_False by done. by rewrite H2. Qed.
Lemma get_fd_run k ty pr q st r :
  swapping k ty pr q st r → on_swap (swapfile_get_fd (pr_sf q)) k = Ok (sf_fd r) k.
Proof.
  intros [_ _ _ _ [Hnz Hf] Ho]. apply on_swap_id. unfold swapfile_get_fd, swapfile_is_open.
  erewrite bind_ok by (erewrite bind_ok by (by apply sf_get_run); reflexivity).
  rewrite (proj2 (Z.eqb_neq _ _) Ho). erewrite bind_ok by reflexivity.
  by erewrite bind_ok by (by apply sf_get_run).
Qed.
Lemma pr_upd_run k pr q f :
  prs (k_pager k) !! pr = Some q →
  on_pager (pr_upd pr f) k = Ok tt (set_pager (set_prs (<[pr := f q]> (prs (k_pager k))) (k_pager k)) k).
Proof. intros H. apply on_pager_run. unfold pr_upd. by rewrite H. Qed.

(** ** Writing a page out *)
(** The piece after [o] bytes, and its length. *)
Definition piece (o : Z) : Z := Z.min IO_MAX_BUFFER (PAGESIZE - o).
Definition put_piece (k : kstate) (pr : positive) (q : PagerRequest) (r : Swapfile) : kstate :=
  let n := piece (pr_offset q) in
  set_pager (set_prs (<[pr := set_offset (pr_offset q + n) q]> (prs (k_pager k))) (k_pager k))
    (klog_app [L4_Ipc L4_rootserver SOS_WRITE SOS_IPC_SEND [w32 (sf_fd r); w32 n]]
      (set_kmach (set_cbuf (write_bytes (cbuf (kmach k)) (buffer k)
        (bytes_of (kmem k) (pr_addr q + pr_offset q) (Z.to_nat n))) (kmach k)) k)).
Definition close_file (k : kstate) (pr : positive) (q : PagerRequest) (r : Swapfile) : kstate :=
  set_pager (set_prs (<[pr := set_stage (stage_succ <$> pr_stage q) q]> (prs (k_pager k))) (k_pager k))
    (set_swap (mkSwapst (frs (k_swap (klog_app
        [L4_Ipc L4_rootserver SOS_CLOSE SOS_IPC_SEND [w32 (sf_fd r)]] k)))
      (<[pr_sf q := mkSwapfile (sf_path r) VFS_NIL_FILE (sf_head r) (sf_usage r) (sf_slots r)]>
         (swapfiles (k_swap k)))) k).

Lemma swap_close_run k ty pr q st r :
  swapping k ty pr q st r →
  (on_swap (swapfile_close (pr_sf q));; next_stage pr) k = Ok tt (close_file k pr q r).
Proof.
  intros [_ Hq _ _ [Hnz Hf] Ho]. erewrite bind_ok; last first.
  { apply on_swap_run. unfold swapfile_close. erewrite bind_ok by (by apply sf_get_run).
    erewrite bind_ok by (apply cassert_run; by rewrite (proj2 (Z.eqb_neq _ _) Ho)).
    erewrite bind_ok by reflexivity. reflexivity. }
  unfold next_stage. rewrite (pr_upd_run _ pr q); [|exact Hq]. done.
Qed.

Lemma swapout_step fuel v k pr q r :
  swapping k REQUEST_SWAPOUT pr q SWAPOUT_WRITE r → 0 ≤ pr_offset q ≤ PAGESIZE →
  continueSwapout fuel v k =
  Ok tt (if decide (pr_offset q = PAGESIZE) then close_file k pr q r else put_piece k pr q r).
Proof.
  intros Hs Ho. destruct (peek_run _ _ _ _ _ _ Hs) as [R1 R2]. pose proof Hs as [_ Hq Hst Hsz _ _].
  unfold continueSwapout. rewrite (bind_ok _ _ _ _ _ R1), (bind_ok _ _ _ _ _ R2).
  erewrite bind_ok by (apply cassert_run; rewrite bool_decide_true by lia; done).
  rewrite Hst. erewrite bind_ok by reflexivity. cbn iota. rewrite Hsz. erewrite bind_ok by reflexivity.
  erewrite bind_ok by (apply cassert_run; rewrite bool_decide_true by lia; done).
  case_decide as Hd; [by eapply swap_close_run|].
  unfold my_buffer. erewrite bind_ok by
    (rewrite (bind_ok _ _ k (virtualPager (k_pager k)) k) by (by apply on_pager_id); reflexivity).
  erewrite bind_ok by reflexivity. erewrite bind_ok by reflexivity. erewrite bind_ok by reflexivity.
  set (k1 := set_kmach _ k).
  assert (swapping k1 REQUEST_SWAPOUT pr q SWAPOUT_WRITE r) as Hs1 by (by destruct Hs; split).
  erewrite bind_ok by (by eapply get_fd_run).
  erewrite bind_ok by (apply emit_ok).
  by rewrite (pr_upd_run _ pr q).
Qed.

(** ** A whole transfer *)
(** What the pager has just asked the file server to write, as the server sees
    it: the descriptor and the bytes it finds in the buffer. *)
Definition handed (k : kstate) : list (Z * list Z) :=
  match last (log (kmach k)) with
  | Some (L4_Ipc _ label _ [fd; n]) =>
      if decide (label = SOS_WRITE) then [(fd, bytes_of (cbuf (kmach k)) (buffer k) (Z.to_nat n))] else []
  | _ => []
  end.
(** One turn of the pager per answer; an answer is what the server did to the
    state and the value it returned. *)
Definition answer : Type := kstate → kstate * Z.
Fixpoint converse (step : Z → K unit) (srv : list answer) : K (list (Z * list Z)) :=
  match srv with
  | [] => mret []
  | f :: srv =>
      k ← gets id;
      modify (λ _, fst (f k));;
      step (snd (f k));;
      k ← gets id;
      rest ← converse step srv;
      mret (handed k ++ rest)
  end.
Lemma converse_cons step f srv k k1 out k2 :
  step (snd (f k)) (fst (f k)) = Ok tt k1 → converse step srv k1 = Ok out k2 →
  converse step (f :: srv) k = Ok (handed k1 ++ out) k2.
Proof.
  intros H1 H2. cbn [converse]. erewrite bind_ok by reflexivity. erewrite bind_ok by reflexivity.
  rewrite (bind_ok _ _ _ _ _ H1). erewrite bind_ok by reflexivity. by rewrite (bind_ok _ _ _ _ _ H2).
Qed.

Lemma put_piece_handed k pr q r :
  is_word (sf_fd r) → 0 ≤ pr_offset q < PAGESIZE →
  handed (put_piece k pr q r) =
  [(sf_fd r, bytes_of (kmem k) (pr_addr q + pr_offset q) (Z.to_nat (piece (pr_offset q))))].
Proof.
  intros Hfd Ho. assert (0 < piece (pr_offset q) < 2 ^ 32) as Hp.
  { unfold piece. change IO_MAX_BUFFER with 1100. change PAGESIZE with 4096 in *. lia. }
  unfold handed. change (log (kmach (put_piece k pr q r))) with (log (kmach k) ++
    [L4_Ipc L4_rootserver SOS_WRITE SOS_IPC_SEND [w32 (sf_fd r); w32 (piece (pr_offset q))]]).
  rewrite last_snoc.
  rewrite decide_True by done. rewrite w32_small by done. rewrite w32_small by (unfold is_word; lia).
  do 2 f_equal. cbn [cbuf]. etrans; [|apply bytes_of_write].
  by rewrite length_bytes_of.
Qed.
Lemma close_file_handed k pr q r : handed (close_file k pr q r) = [].
Proof.
  unfold handed. change (log (kmach (close_file k pr q r))) with
    (log (kmach k) ++ [L4_Ipc L4_rootserver SOS_CLOSE SOS_IPC_SEND [w32 (sf_fd r)]]).
  by rewrite last_snoc.
Qed.

(** The state at the end of a transfer of the request [pr], whose memory is [m]. *)
Definition closed (r : Swapfile) : Swapfile :=
  mkSwapfile (sf_path r) VFS_NIL_FILE (sf_head r) (sf_usage r) (sf_slots r).
Record transferred (k : kstate) (pr : positive) (q : PagerRequest) (r : Swapfile) (st : pr_stage_t)
    (k' : kstate) : Prop := {
  tr_pager : k_pager k' =
    set_prs (<[pr := set_stage (Some st) (set_offset PAGESIZE q)]> (prs (k_pager k))) (k_pager k);
  tr_file : swapfiles (k_swap k') = <[pr_sf q := closed r]> (swapfiles (k_swap k))
}.
Lemma bytes_split m a o :
  0 ≤ o < PAGESIZE →
  bytes_of m (a + o) (Z.to_nat (piece o)) ++
    bytes_of m (a + (o + piece o)) (Z.to_nat (PAGESIZE - (o + piece o))) =
  bytes_of m (a + o) (Z.to_nat (PAGESIZE - o)).
Proof.
  intros Ho. assert (0 < piece o ≤ PAGESIZE - o) as Hp.
  { unfold piece. change IO_MAX_BUFFER with 1100. lia. }
  replace (Z.to_nat (PAGESIZE - o)) with (Z.to_nat (piece o) + Z.to_nat (PAGESIZE - (o + piece o)))%nat by lia.
  rewrite bytes_of_app. do 2 f_equal. lia.
Qed.
Lemma write_all fuel pr r srv : ∀ k q m,
  length srv = S m → Forall (λ f, ∀ k, served k (fst (f k))) srv → is_word (sf_fd r) →
  swapping k REQUEST_SWAPOUT pr q SWAPOUT_WRITE r →
  0 ≤ pr_offset q ≤ PAGESIZE → (m - 1) * IO_MAX_BUFFER < PAGESIZE - pr_offset q ≤ m * IO_MAX_BUFFER →
  ∃ out k', converse (continueSwapout fuel) srv k = Ok out k' ∧
    out.*1 = replicate m (sf_fd r) ∧
    concat out.*2 = bytes_of (kmem k) (pr_addr q + pr_offset q) (Z.to_nat (PAGESIZE - pr_offset q)) ∧
    kmem k' = kmem k ∧ transferred k pr q r SWAPOUT_CLOSE k'.
Proof.
  induction srv as [|f srv IH]; intros k q m Hlen HF Hfd Hs Ho Hm; [done|].
  inversion HF as [|? ? Hf HF']; subst. simpl in Hlen. injection Hlen as Hlen.
  specialize (Hf k). pose proof (served_swapping _ _ _ _ _ _ _ Hf Hs) as Hs1.
  pose proof (swapout_step fuel (snd (f k)) _ _ _ _ Hs1 Ho) as Hstep.
  destruct Hf as (E1 & E2 & E3). destruct m as [|m].
  - assert (pr_offset q = PAGESIZE) as Hd by lia. rewrite decide_True in Hstep by done.
    destruct srv; [|done]. eexists _, _. split; [eapply converse_cons; [exact Hstep|reflexivity]|].
    rewrite close_file_handed. split_and!; [done| |exact E2|].
    + rewrite Hd, Z.sub_diag. done.
    + destruct Hs as [_ _ Hst _ _ _]. split.
      * cbn [close_file set_pager k_pager]. rewrite E1, Hst, <- Hd. by destruct q.
      * cbn [close_file set_pager k_swap swapfiles set_swap]. by rewrite E3.
  - assert (pr_offset q < PAGESIZE) as Hd.
    { change IO_MAX_BUFFER with 1100 in Hm. lia. }
    rewrite decide_False in Hstep by lia.
    destruct (IH (put_piece (fst (f k)) pr q r) (set_offset (pr_offset q + piece (pr_offset q)) q) m)
      as (out & k' & Hrun & O1 & O2 & O3 & [T1 T2]); try done.
    + destruct Hs1 as [H1 H2 H3 H4 H5 H6]. split; try done. apply lookup_insert_eq.
    + cbn [set_offset pr_offset]. unfold piece. change IO_MAX_BUFFER with 1100. lia.
    + cbn [set_offset pr_offset]. unfold piece. change IO_MAX_BUFFER with 1100 in *. lia.
    + eexists _, k'. split; [eapply converse_cons; [exact Hstep|exact Hrun]|].
      rewrite put_piece_handed by (done || lia).
      split_and!; [by rewrite fmap_app, O1| | |].
      * rewrite fmap_app, concat_app, O2, E2.
        change (kmem (put_piece (fst (f k)) pr q r)) with (kmem (fst (f k))). rewrite E2.
        cbn [fmap list_fmap snd concat app set_offset pr_offset pr_addr]. rewrite app_nil_r.
        apply bytes_split. lia.
      * by rewrite O3.
      * split; [rewrite T1|rewrite T2]; cbn [put_piece set_pager k_pager set_prs prs k_swap klog_app set_kmach].
        -- rewrite E1, insert_insert_eq. done.
        -- change (swapfiles (k_swap (fst (f k)))) with (swapfiles (k_swap (put_piece (fst (f k)) pr q r))) in E3.
           by rewrite <- E3.
Qed.

(** ** Reading a page in *)
(** The server's answer to a read: [c] at the start of the buffer, and its
    length. *)
Definition reads_as (c : list Z) (f : answer) : Prop :=
  ∀ k, served k (fst (f k)) ∧ bytes_of (cbuf (kmach (fst (f k)))) (buffer k) (length c) = c ∧
       snd (f k) = length c.
Definition got_piece (k : kstate) (pr : positive) (q : PagerRequest) (c : list Z) : kstate :=
  set_pager (set_prs (<[pr := set_offset (pr_offset q + length c) q]> (prs (k_pager k))) (k_pager k))
    (set_kmem (write_bytes (kmem k) (pinnedFrame (k_pager k) + pr_offset q) c) k).
Definition ask_more (k : kstate) (q : PagerRequest) (r : Swapfile) : kstate :=
  klog_app [L4_Ipc L4_rootserver SOS_READ SOS_IPC_SEND [w32 (sf_fd r); w32 (piece (pr_offset q))]] k.
Lemma got_piece_swapping k pr q c r :
  swapping k REQUEST_SWAPIN pr q SWAPIN_READ r →
  swapping (got_piece k pr q c) REQUEST_SWAPIN pr (set_offset (pr_offset q + length c) q) SWAPIN_READ r.
Proof. intros [H1 H2 H3 H4 H5 H6]. split; try done. apply lookup_insert_eq. Qed.

Lemma read_more_run k pr q st r :
  swapping k REQUEST_SWAPIN pr q st r → read_more pr k = Ok tt (ask_more k q r).
Proof.
  intros Hs. destruct (peek_run _ _ _ _ _ _ Hs) as [_ R2]. unfold read_more.
  rewrite (bind_ok _ _ _ _ _ R2). rewrite (bind_ok _ _ _ _ _ (get_fd_run _ _ _ _ _ _ Hs)).
  destruct Hs as [_ _ _ Hsz _ _]. rewrite Hsz. by erewrite bind_ok by reflexivity.
Qed.
Lemma swapin_step fuel k pr q r c :
  swapping k REQUEST_SWAPIN pr q SWAPIN_READ r → 0 ≤ pr_offset q → c ≠ [] →
  pr_offset q + length c ≤ PAGESIZE → bytes_of (cbuf (kmach k)) (buffer k) (length c) = c →
  let q' := set_offset (pr_offset q + length c) q in
  let k' := got_piece k pr q c in
  continueSwapin fuel (length c) k =
  Ok tt (if decide (pr_offset q + length c = PAGESIZE) then close_file k' pr q' r else ask_more k' q' r).
Proof.
  intros Hs Ho Hc Hle Hb q' k'. destruct (peek_run _ _ _ _ _ _ Hs) as [R1 R2].
  pose proof (got_piece_swapping _ _ _ c _ Hs) as Hs'. fold q' k' in Hs'.
  destruct (peek_run _ _ _ _ _ _ Hs') as [_ R3]. pose proof Hs as [_ Hq Hst Hsz _ _].
  assert (0 < length c)%nat by (destruct c; simpl; [done|lia]).
  unfold continueSwapin. rewrite (bind_ok _ _ _ _ _ R1), (bind_ok _ _ _ _ _ R2).
  rewrite Hst. erewrite bind_ok by reflexivity. cbn iota.
  erewrite bind_ok by (apply cassert_run; rewrite bool_decide_true by lia; done).
  erewrite bind_ok by (apply cassert_run; rewrite bool_decide_true by lia; done).
  rewrite (bind_ok _ _ k (pinnedFrame (k_pager k)) k) by (by apply on_pager_id).
  unfold my_buffer. erewrite bind_ok by
    (rewrite (bind_ok _ _ k (virtualPager (k_pager k)) k) by (by apply on_pager_id); reflexivity).
  erewrite bind_ok by reflexivity. erewrite bind_ok by reflexivity. erewrite bind_ok by reflexivity.
  rewrite Nat2Z.id. fold (bytes_of (cbuf (kmach k)) (pager_buffer (virtualPager (k_pager k))) (length c)).
  fold (buffer k). rewrite Hb. erewrite bind_ok by (by apply pr_upd_run).
  change (set_pager _ _) with k'. rewrite (bind_ok _ _ _ _ _ R3).
  change (pr_size q') with (pr_size q). rewrite Hsz. erewrite bind_ok by reflexivity.
  erewrite bind_ok by (apply cassert_run; rewrite bool_decide_true by (cbn; lia); done).
  change (pr_offset q') with (pr_offset q + length c).
  case_decide; [by eapply swap_close_run|by eapply read_more_run].
Qed.
Lemma write_bytes_app a : ∀ m d b,
  write_bytes (write_bytes m d a) (d + length a) b = write_bytes m d (a ++ b).
Proof.
  induction a as [|x a IH]; intros m d b; simpl; [by rewrite Z.add_0_r|].
  rewrite <- IH. f_equal. lia.
Qed.
Lemma ask_more_handed k q r : handed (ask_more k q r) = [].
Proof.
  unfold handed. change (log (kmach (ask_more k q r))) with (log (kmach k) ++
    [L4_Ipc L4_rootserver SOS_READ SOS_IPC_SEND [w32 (sf_fd r); w32 (piece (pr_offset q))]]).
  rewrite last_snoc. by rewrite decide_False.
Qed.
Lemma read_all fuel pr r cs : ∀ srv k q,
  Forall2 reads_as cs srv → Forall (λ c, c ≠ []) cs →
  swapping k REQUEST_SWAPIN pr q SWAPIN_READ r →
  0 ≤ pr_offset q < PAGESIZE → pr_offset q + length (concat cs) = PAGESIZE →
  ∃ k', converse (continueSwapin fuel) srv k = Ok [] k' ∧
    kmem k' = write_bytes (kmem k) (pinnedFrame (k_pager k) + pr_offset q) (concat cs) ∧
    transferred k pr q r SWAPIN_CLOSE k'.
Proof.
  induction cs as [|c cs IH]; intros srv k q HF Hne Hs Ho Hlen; [simpl in Hlen; lia|].
  inversion HF as [|? f ? srv' Hf HF']; inversion Hne as [|? ? Hc Hne']; subst.
  destruct (Hf k) as (Hsv & Hb & Hv). pose proof (served_swapping _ _ _ _ _ _ _ Hsv Hs) as Hs1.
  pose proof Hsv as (E1 & E2 & E3). cbn [concat] in Hlen. rewrite length_app in Hlen.
  pose proof (swapin_step fuel _ _ _ _ c Hs1 (proj1 Ho) Hc ltac:(lia)) as Hstep.
  unfold buffer in Hb, Hstep. rewrite E1 in Hstep. specialize (Hstep Hb). cbv zeta in Hstep.
  rewrite <- Hv in Hstep at 1. set (q' := set_offset _ q) in *. set (k' := got_piece _ _ _ _) in *.
  assert (kmem k' = write_bytes (kmem k) (pinnedFrame (k_pager k) + pr_offset q) c) as Hm.
  { rewrite <- E1, <- E2. reflexivity. }
  assert (k_pager k' = set_prs (<[pr := q']> (prs (k_pager k))) (k_pager k)) as Hp.
  { rewrite <- E1. reflexivity. }
  assert (swapfiles (k_swap k') = swapfiles (k_swap k)) as Hw by exact E3.
  case_decide as Hd.
  - assert (concat cs = []) as Hcs by (apply nil_length_inv; lia).
    assert (cs = []) as ->.
    { destruct cs as [|c' ?]; [done|]. inversion Hne' as [|? ? Hc' _]; subst.
      by apply app_eq_nil in Hcs as [? _]. }
    inversion HF'; subst. exists (close_file k' pr q' r). split.
    { etrans; [exact (converse_cons (continueSwapin fuel) f [] k _ [] (close_file k' pr q' r) Hstep eq_refl)|].
      by rewrite close_file_handed. }
    cbn [concat]. rewrite app_nil_r. split; [exact Hm|].
    destruct Hs as [_ _ Hst _ _ _]. split.
    + cbn [close_file set_pager k_pager]. rewrite Hp. cbn [set_prs prs].
      rewrite insert_insert_eq. unfold q'. rewrite Hd. cbn [set_offset pr_stage]. by rewrite Hst.
    + cbn [close_file set_pager k_swap swapfiles set_swap]. by rewrite Hw.
  - destruct (IH srv' (ask_more k' q' r) q') as (k'' & Hrun & O1 & [T1 T2]); try done.
    + pose proof (got_piece_swapping _ _ _ c _ Hs1) as [H1 H2 H3 H4 H5 H6]. by split.
    + cbn. lia.
    + cbn. lia.
    + exists k''. rewrite <- (ask_more_handed k' q' r). split.
      { rewrite <- (app_nil_r (handed _)). eapply converse_cons; [exact Hstep|exact Hrun]. }
      split; [|split].
      * rewrite O1. cbn [concat]. rewrite <- write_bytes_app.
        change (kmem (ask_more k' q' r)) with (kmem k'). rewrite Hm.
        change (k_pager (ask_more k' q' r)) with (k_pager k'). rewrite Hp. f_equal. cbn. lia.
      * rewrite T1. change (k_pager (ask_more k' q' r)) with (k_pager k'). rewrite Hp.
        cbn [set_prs prs]. rewrite insert_insert_eq. done.
      * rewrite T2. change (k_swap (ask_more k' q' r)) with (k_swap (ask_more k' q' r)).
        change (swapfiles (k_swap (ask_more k' q' r))) with (swapfiles (k_swap k')). by rewrite Hw.
Qed.
End SwapIO.

Module SwapClaims.
Import SwapIO QuotaClaims ResidentClaims CopyClaims.

(** Once the swap file is open and positioned, a page is written in four
    requests and the file closed by a fifth turn, whatever the file server does
    to its own state in between: the requests all go to the open descriptor,
    the bytes the server finds in the buffer are together exactly the frame,
    in order, and memory is not changed. *)
Theorem swapout_writes_page fuel k pr q r srv :
  swapping k REQUEST_SWAPOUT pr q SWAPOUT_WRITE r → pr_offset q = 0 → is_word (sf_fd r) →
  length srv = 5%nat → Forall (λ f, ∀ k, served k (fst (f k))) srv →
  ∃ out k', converse (continueSwapout fuel) srv k = Ok out k' ∧
    out.*1 = replicate 4 (sf_fd r) ∧
    concat out.*2 = bytes_of (kmem k) (pr_addr q) (Z.to_nat PAGESIZE) ∧
    kmem k' = kmem k ∧ transferred k pr q r SWAPOUT_CLOSE k'.
Proof.
  intros Hs Ho Hfd Hlen HF.
  destruct (write_all fuel pr r srv k q 4 Hlen HF Hfd Hs) as (out & k' & H); rewrite ?Ho.
  - done.
  - change IO_MAX_BUFFER with 1100. change PAGESIZE with 4096. lia.
  - exists out, k'. rewrite Ho, Z.add_0_r, Z.sub_0_r in H. exact H.
Qed.

(** A page is read from the swap file in as many turns as the server has
    answers, of any sizes that add up to a page: the pinned frame then holds
    their concatenation, no other byte of memory has changed, and the file is
    closed. *)
Theorem swapin_reads_page fuel k pr q r cs srv :
  swapping k REQUEST_SWAPIN pr q SWAPIN_READ r → pr_offset q = 0 →
  Forall2 reads_as cs srv → Forall (λ c, c ≠ []) cs → length (concat cs) = Z.to_nat PAGESIZE →
  ∃ k', converse (continueSwapin fuel) srv k = Ok [] k' ∧
    bytes_of (kmem k') (pinnedFrame (k_pager k)) (Z.to_nat PAGESIZE) = concat cs ∧
    (∀ a, ¬ (pinnedFrame (k_pager k) ≤ a < pinnedFrame (k_pager k) + PAGESIZE) →
      load8 (kmem k') a = load8 (kmem k) a) ∧
    transferred k pr q r SWAPIN_CLOSE k'.
Proof.
  intros Hs Ho HF Hne Hlen. assert (length (concat cs) = PAGESIZE :> Z) as Hl.
  { rewrite Hlen. done. }
  destruct (read_all fuel pr r cs srv k q HF Hne Hs) as (k' & H1 & H2 & H3); rewrite ?Ho; [done|lia|].
  exists k'. rewrite Ho, Z.add_0_r in H2. split_and!; [exact H1| | |exact H3].
  - rewrite H2, <- Hlen. apply bytes_of_write.
  - intros a Ha. rewrite H2, load8_write_bytes. rewrite decide_False by (rewrite Hl; lia). done.
Qed.

(** One request at the head of the queue of [kpager2], over a swap file at
    [0x5000] open as descriptor 3. *)
Definition demo_sf : Swapfile := mkSwapfile [] 3 0 0 [].
Definition demo_req (st : pr_stage_t) : PagerRequest :=
  mkPR (Some st) 5 0x20000 (Some 0) 0x5000 FM_READ 0 (Some PAGESIZE) FinSwapin CbPagerContinue.
Definition kswap (ty : rtype_t) (st : pr_stage_t) : kstate :=
  set_pager (set_pinned 0x30000 (set_preqs [(ty, 9%positive)]
    (set_prs {[ 9%positive := demo_req st ]} (k_pager kpager2))))
    (set_swap (mkSwapst (frs (k_swap kpager2)) {[ 0x5000 := demo_sf ]}) kpager2).
Lemma kswap_swapping ty st : swapping (kswap ty st) ty 9 (demo_req st) st demo_sf.
Proof.
  split; [by exists []|apply (lookup_singleton_eq 9%positive)|done|done| |done].
  split; [done|apply (lookup_singleton_eq 0x5000)].
Qed.
Lemma served_refl k : served k k.
Proof. done. Qed.
Lemma swapout_writes_page_witness :
  ∃ out k', converse (continueSwapout 0) (replicate 5 (λ k, (k, 0))) (kswap REQUEST_SWAPOUT SWAPOUT_WRITE) = Ok out k' ∧
    out.*1 = replicate 4 3 ∧
    concat out.*2 = bytes_of (kmem (kswap REQUEST_SWAPOUT SWAPOUT_WRITE)) 0x20000 (Z.to_nat PAGESIZE) ∧
    kmem k' = kmem (kswap REQUEST_SWAPOUT SWAPOUT_WRITE) ∧
    transferred (kswap REQUEST_SWAPOUT SWAPOUT_WRITE) 9 (demo_req SWAPOUT_WRITE) demo_sf SWAPOUT_CLOSE k'.
Proof.
  apply (swapout_writes_page 0 (kswap REQUEST_SWAPOUT SWAPOUT_WRITE) 9 (demo_req SWAPOUT_WRITE) demo_sf).
  - apply kswap_swapping.
  - reflexivity.
  - unfold is_word. cbn. lia.
  - reflexivity.
  - apply Forall_replicate. exact served_refl.
Defined.
(** A server that answers reads with the given bytes. *)
Definition give (c : list Z) : answer := λ k,
  (set_kmach (set_cbuf (write_bytes (cbuf (kmach k)) (buffer k) c) (kmach k)) k, Z.of_nat (length c)).
Lemma give_reads c : reads_as c (give c).
Proof.
  intros k. split_and!; [by split_and!| |reflexivity].
  change (cbuf (kmach (give c k).1)) with (write_bytes (cbuf (kmach k)) (buffer k) c).
  apply bytes_of_write.
Qed.
Definition demo_chunks : list (list Z) := [replicate 1100 7; replicate 1100 8; replicate 1100 9; replicate 796 1].
Lemma demo_chunks_ok : Forall2 reads_as demo_chunks (give <$> demo_chunks) ∧ Forall (λ c, c ≠ []) demo_chunks.
Proof. split; repeat constructor; first [apply give_reads|done]. Qed.
Lemma swapin_reads_page_witness :
  ∃ k', converse (continueSwapin 0) (give <$> demo_chunks) (kswap REQUEST_SWAPIN SWAPIN_READ) = Ok [] k' ∧
    bytes_of (kmem k') (pinnedFrame (k_pager (kswap REQUEST_SWAPIN SWAPIN_READ))) (Z.to_nat PAGESIZE) = concat demo_chunks ∧
    (∀ a, ¬ (pinnedFrame (k_pager (kswap REQUEST_SWAPIN SWAPIN_READ)) ≤ a
             < pinnedFrame (k_pager (kswap REQUEST_SWAPIN SWAPIN_READ)) + PAGESIZE) →
      load8 (kmem k') a = load8 (kmem (kswap REQUEST_SWAPIN SWAPIN_READ)) a) ∧
    transferred (kswap REQUEST_SWAPIN SWAPIN_READ) 9 (demo_req SWAPIN_READ) demo_sf SWAPIN_CLOSE k'.
Proof.
  apply (swapin_reads_page 0 (kswap REQUEST_SWAPIN SWAPIN_READ) 9 (demo_req SWAPIN_READ) demo_sf).
  - apply kswap_swapping.
  - reflexivity.
  - apply demo_chunks_ok.
  - apply demo_chunks_ok.
  - vm_compute. reflexivity.
Defined.
End SwapClaims.
