(* ===== verification/SwapTrip.v ===== *)
(** * A page goes to the swap file and comes back

    The conversation of the pager with the file server over a whole swap-out
    or swap-in: open, seek, the transfer, close.  The file server is specified
    by what a file is: bytes and a position, moved by seeks, reads and writes,
    where a read may deliver less than was asked for.  The theorems say that a
    swap-in ends whatever the sizes of the reads, and that it restores the page
    that a swap-out wrote. *)
From S2P Require Import Prelude Machine ListC Frames Swapfile State Pagetable Process Reply VfsCore.
From S2P Require Import Clock Vfs Lifecycle PagerBase Quota Resident Pager Copy SwapIO.
Import Frames Swapfile Pagetable Process Reply VfsCore OpenDone PagerBase Pager Resident UserPages.
Import SwapIO.

Module SwapTrip.
(** ** The file server *)
Record fileserver := mkFS { f_bytes : memory; f_pos : Z }.
(** How many bytes a read of [n] bytes delivers, at the server's choice [c]: at
    least one, at most [n]. *)
Definition delivered (c n : Z) : Z := Z.min (Z.max 1 c) n.
(** The server acts on the last message it was sent, and answers with a value;
    it reads and writes the buffer of the pager. *)
Definition react (fd c : Z) (s : fileserver) (k : kstate) : fileserver * kstate * Z :=
  match last (klog k) with
  | Some (L4_Ipc _ SOS_OPEN _ _) => (mkFS (f_bytes s) 0, k, fd)
  | Some (L4_Ipc _ SOS_LSEEK _ [_; p; _]) => (mkFS (f_bytes s) p, k, SOS_VFS_OK)
  | Some (L4_Ipc _ SOS_WRITE _ [_; n]) =>
      (mkFS (write_bytes (f_bytes s) (f_pos s) (bytes_of (cbuf (kmach k)) (buffer k) (Z.to_nat n)))
            (f_pos s + n), k, n)
  | Some (L4_Ipc _ SOS_READ _ [_; n]) =>
      let m := delivered c n in
      (mkFS (f_bytes s) (f_pos s + m),
       set_kmach (set_cbuf (write_bytes (cbuf (kmach k)) (buffer k)
                    (bytes_of (f_bytes s) (f_pos s) (Z.to_nat m))) (kmach k)) k, m)
  | _ => (s, k, SOS_VFS_OK)
  end.
Fixpoint session (fd : Z) (step : Z → K unit) (cs : list Z) (s : fileserver) : K fileserver :=
  match cs with
  | [] => mret s
  | c :: cs =>
      k ← gets id;
      let '(s', k', v) := react fd c s k in
      modify (λ _, k');; step v;; session fd step cs s'
  end.
Lemma session_cons fd step c cs s k s' k' v k2 out k3 :
  react fd c s k = (s', k', v) → step v k' = Ok tt k2 → session fd step cs s' k2 = Ok out k3 →
  session fd step (c :: cs) s k = Ok out k3.
Proof.
  intros H1 H2 H3. cbn [session]. erewrite bind_ok by reflexivity. change (id k) with k. rewrite H1.
  erewrite bind_ok by reflexivity. by rewrite (bind_ok _ _ _ _ _ H2).
Qed.
Lemma session_app fd step cs1 cs2 s k s1 k1 :
  session fd step cs1 s k = Ok s1 k1 → session fd step (cs1 ++ cs2) s k = session fd step cs2 s1 k1.
Proof.
  revert s k. induction cs1 as [|c cs1 IH]; intros s k H; [by injection H as -> ->|].
  cbn [session app] in *. erewrite bind_ok by reflexivity. erewrite bind_ok in H by reflexivity.
  change (id k) with k in *. destruct (react fd c s k) as [[s' k'] v].
  erewrite bind_ok by reflexivity. erewrite bind_ok in H by reflexivity.
  apply bind_inv in H as (u & k2 & H1 & H2). rewrite (bind_ok _ _ _ _ _ H1). by apply IH.
Qed.

(** ** Opening the swap file *)
Record opening (k : kstate) (ty : rtype_t) (pr : positive) (q : PagerRequest) (st : pr_stage_t)
    (r : Swapfile) : Prop := {
  op_queue : ∃ rest, requests (k_pager k) = (ty, pr) :: rest;
  op_pr : prs (k_pager k) !! pr = Some q;
  op_stage : pr_stage q = Some st;
  op_size : pr_size q = Some PAGESIZE;
  op_file : pr_sf q ≠ 0 ∧ swapfiles (k_swap k) !! pr_sf q = Some r;
  op_closed : sf_fd r = VFS_NIL_FILE;
  op_asked : ∃ ws, last (klog k) = Some (L4_Ipc L4_rootserver SOS_OPEN SOS_IPC_SEND ws)
}.
Definition with_fd (fd : Z) (r : Swapfile) : Swapfile :=
  mkSwapfile (sf_path r) fd (sf_head r) (sf_usage r) (sf_slots r).
Definition opened (fd d : Z) (k : kstate) (pr : positive) (q : PagerRequest) (r : Swapfile) : kstate :=
  set_pager (set_prs (<[pr := set_stage (stage_succ <$> pr_stage q) (set_offset 0 q)]> (prs (k_pager k)))
      (k_pager k))
    (klog_app [L4_Ipc L4_rootserver SOS_LSEEK SOS_IPC_SEND [w32 fd; w32 d; w32 SEEK_SET]]
      (set_swap (mkSwapst (frs (k_swap k)) (<[pr_sf q := with_fd fd r]> (swapfiles (k_swap k)))) k)).
Lemma opening_peek k ty pr q st r :
  opening k ty pr q st r → on_pager requestsPeek k = Ok pr k ∧ on_pager (pr_get pr) k = Ok q k.
Proof.
  intros [[rest Hr] Hq _ _ _ _ _]. split; apply on_pager_id.
  - unfold requestsPeek. erewrite bind_ok by reflexivity. by rewrite Hr.
  - by apply pr_get_run.
Qed.
Lemma set_fd_run k sf r fd :
  sf ≠ 0 → swapfiles (k_swap k) !! sf = Some r → sf_fd r = VFS_NIL_FILE → fd ≠ VFS_NIL_FILE →
  on_swap (swapfile_set_fd sf fd) k =
  Ok tt (set_swap (mkSwapst (frs (k_swap k)) (<[sf := with_fd fd r]> (swapfiles (k_swap k)))) k).
Proof.
  intros Hnz Hf Hc Hfd. apply on_swap_run. unfold swapfile_set_fd.
  erewrite bind_ok by (by apply sf_get_run).
  erewrite bind_ok by (apply cassert_run; by rewrite Hc).
  erewrite bind_ok by (apply cassert_run; by rewrite (proj2 (Z.eqb_neq _ _) Hfd)). done.
Qed.
Lemma fd_run k sf r fd :
  sf ≠ 0 → swapfiles (k_swap k) !! sf = Some (with_fd fd r) → fd ≠ VFS_NIL_FILE →
  on_swap (swapfile_get_fd sf) k = Ok fd k.
Proof.
  intros Hnz Hf Hfd. apply on_swap_id. unfold swapfile_get_fd, swapfile_is_open.
  erewrite bind_ok by (erewrite bind_ok by (by apply sf_get_run); reflexivity).
  cbn [sf_fd with_fd]. rewrite (proj2 (Z.eqb_neq _ _) Hfd). erewrite bind_ok by reflexivity.
  by erewrite bind_ok by (by apply sf_get_run).
Qed.

Lemma open_out fuel fd d k pr q r :
  opening k REQUEST_SWAPOUT pr q SWAPOUT_OPEN r → pr_offset q ≤ PAGESIZE → pr_diskAddr q = Some d →
  fd ≠ VFS_NIL_FILE → continueSwapout fuel fd k = Ok tt (opened fd d k pr q r).
Proof.
  intros Ho Hoff Hd Hfd. destruct (opening_peek _ _ _ _ _ _ Ho) as [R1 R2].
  destruct Ho as [_ Hq Hst _ [Hnz Hf] Hc _].
  unfold continueSwapout. rewrite (bind_ok _ _ _ _ _ R1), (bind_ok _ _ _ _ _ R2).
  erewrite bind_ok by (apply cassert_run; rewrite bool_decide_true by lia; done).
  rewrite Hst. erewrite bind_ok by reflexivity. cbn iota.
  erewrite bind_ok by (by apply set_fd_run). erewrite bind_ok by (by apply pr_upd_run).
  erewrite bind_ok by (apply (fd_run _ _ r fd); [done|apply lookup_insert_eq|done]).
  rewrite Hd. erewrite bind_ok by reflexivity. erewrite bind_ok by (apply emit_ok).
  unfold next_stage. erewrite pr_upd_run by (apply lookup_insert_eq).
  unfold opened. by rewrite <- (insert_insert_eq (prs (k_pager k)) pr
    (set_stage (stage_succ <$> pr_stage q) (set_offset 0 q)) (set_offset 0 q)).
Qed.
Lemma open_in fuel fd d k pr q r l x :
  opening k REQUEST_SWAPIN pr q SWAPIN_OPEN r →
  entry_at k (pr_pid q, Z.land (pr_addr q) ADDRESS_MASK) l x (entry k x (pr_addr q)) →
  frame_of k x (pr_addr q) = d → fd ≠ VFS_NIL_FILE →
  continueSwapin fuel fd k = Ok tt (opened fd d k pr q r).
Proof.
  intros Ho He Hd Hfd. destruct (opening_peek _ _ _ _ _ _ Ho) as [R1 R2].
  destruct Ho as [_ Hq Hst _ [Hnz Hf] Hc _].
  unfold continueSwapin. rewrite (bind_ok _ _ _ _ _ R1), (bind_ok _ _ _ _ _ R2).
  rewrite Hst. erewrite bind_ok by reflexivity. cbn iota.
  erewrite bind_ok by (by apply set_fd_run). set (k1 := set_swap _ k).
  assert (entry_at k1 (pr_pid q, Z.land (pr_addr q) ADDRESS_MASK) l x (entry k x (pr_addr q))) as He1.
  { by apply (entry_at_mem k). }
  rewrite (bind_ok _ _ k1 (Some l) k1) by (by apply on_procs_id, (ea_reg _ _ _ _ _ He)).
  rewrite (bind_ok _ _ _ _ _ (entry_run _ _ _ _ _ He1)).
  erewrite bind_ok by (apply (fd_run _ _ r fd); [done|apply lookup_insert_eq|done]).
  rewrite (bind_ok _ _ _ _ _ (load_run _ k1 (ea_nz _ _ _ _ _ He1))).
  change (Z.land (load32 (kmem k1) (entry k x (pr_addr q))) ADDRESS_MASK) with (frame_of k x (pr_addr q)).
  rewrite Hd. erewrite bind_ok by (apply emit_ok). erewrite bind_ok by (by apply pr_upd_run).
  unfold next_stage. erewrite pr_upd_run by (apply lookup_insert_eq).
  unfold opened. by rewrite <- (insert_insert_eq (prs (k_pager k)) pr
    (set_stage (stage_succ <$> pr_stage q) (set_offset 0 q)) (set_offset 0 q)).
Qed.
Lemma opened_swapping fd d k ty pr q st r :
  opening k ty pr q st r → fd ≠ VFS_NIL_FILE →
  swapping (opened fd d k pr q r) ty pr (set_stage (stage_succ <$> pr_stage q) (set_offset 0 q))
    (stage_succ st) (with_fd fd r).
Proof.
  intros [H1 H2 H3 H4 H5 H6 H7] Hfd. split; try done.
  - apply lookup_insert_eq.
  - cbn. by rewrite H3.
  - split; [apply H5|apply lookup_insert_eq].
Qed.

(** ** Swap-out *)
(** The file holds the first [o] bytes of the page at [addr] of memory [m], at
    [d], and elsewhere what [F] holds; the position is behind them. *)
Definition file_has (s : fileserver) (d : Z) (m : memory) (addr o : Z) (F : memory) : Prop :=
  f_pos s = d + o ∧
  ∀ y, load8 (f_bytes s) y = if decide (d ≤ y < d + o) then load8 m (addr + (y - d)) else load8 F y.
Lemma file_has_more s d m addr o F n :
  file_has s d m addr o F → 0 ≤ o → 0 ≤ n →
  file_has (mkFS (write_bytes (f_bytes s) (f_pos s) (bytes_of m (addr + o) (Z.to_nat n))) (f_pos s + n))
    d m addr (o + n) F.
Proof.
  intros [Hp Hb] Ho Hn. split; [cbn; lia|]. intros y. cbn [f_bytes].
  rewrite load8_write_bytes, length_bytes_of, Hp, Z2Nat.id by done.
  destruct (decide (d + o ≤ y < d + o + n)) as [Hy|Hy].
  - rewrite bytes_of_lookup, decide_True by lia. cbn. f_equal. lia.
  - rewrite Hb. repeat case_decide; try lia; done.
Qed.
Lemma piece_range o : 0 ≤ o < PAGESIZE → 0 < piece o ≤ PAGESIZE - o ∧ piece o ≤ IO_MAX_BUFFER.
Proof. unfold piece. change IO_MAX_BUFFER with 1100. lia. Qed.
Lemma react_put_piece fd c s k pr q r :
  is_word fd → 0 ≤ pr_offset q < PAGESIZE →
  let k2 := put_piece k pr q r in
  let n := piece (pr_offset q) in
  react fd c s k2 =
    (mkFS (write_bytes (f_bytes s) (f_pos s)
             (bytes_of (kmem k) (pr_addr q + pr_offset q) (Z.to_nat n))) (f_pos s + n), k2, n).
Proof.
  intros Hfd Ho k2 n. pose proof (piece_range _ Ho) as [Hn _]. change PAGESIZE with 4096 in Hn.
  unfold react. change (klog k2) with (klog k ++
    [L4_Ipc L4_rootserver SOS_WRITE SOS_IPC_SEND [w32 (sf_fd r); w32 n]]).
  rewrite last_snoc, w32_small with (z := n) by (unfold is_word; lia).
  assert (bytes_of (cbuf (kmach k2)) (buffer k2) (Z.to_nat n) =
          bytes_of (kmem k) (pr_addr q + pr_offset q) (Z.to_nat n)) as ->; [|done].
  etrans; [|apply (bytes_of_write (cbuf (kmach k)) (buffer k))]. by rewrite length_bytes_of.
Qed.
Lemma write_session fuel fd d pr r F cs : ∀ n k q s s1 v,
  length cs = S n → swapping k REQUEST_SWAPOUT pr q SWAPOUT_WRITE r → is_word fd →
  (∀ c, react fd c s k = (s1, k, v)) → file_has s1 d (kmem k) (pr_addr q) (pr_offset q) F →
  0 ≤ pr_offset q ≤ PAGESIZE → (n - 1) * IO_MAX_BUFFER < PAGESIZE - pr_offset q ≤ n * IO_MAX_BUFFER →
  ∃ s' k', session fd (continueSwapout fuel) cs s k = Ok s' k' ∧
    file_has s' d (kmem k) (pr_addr q) PAGESIZE F ∧ kmem k' = kmem k ∧
    transferred k pr q r SWAPOUT_CLOSE k'.
Proof.
  induction cs as [|c cs IH]; intros n k q s s1 v Hlen Hs Hfd Hre Hfile Ho Hn; [done|].
  injection Hlen as Hlen. pose proof (swapout_step fuel v _ _ _ _ Hs Ho) as Hstep.
  destruct n as [|n].
  - assert (pr_offset q = PAGESIZE) as Hd by lia. rewrite decide_True in Hstep by done.
    destruct cs; [|done]. exists s1, (close_file k pr q r).
    split; [by eapply session_cons|]. rewrite <- Hd at 1. split; [done|]. split; [done|].
    destruct Hs as [_ _ Hst _ _ _]. split; [|done].
    cbn [close_file set_pager k_pager]. rewrite Hst, <- Hd. by destruct q.
  - assert (pr_offset q < PAGESIZE) as Hd by (change IO_MAX_BUFFER with 1100 in Hn; lia).
    rewrite decide_False in Hstep by lia. pose proof (piece_range (pr_offset q) ltac:(lia)) as [Hp1 Hp2].
    destruct (IH n (put_piece k pr q r) (set_offset (pr_offset q + piece (pr_offset q)) q) s1
      (mkFS (write_bytes (f_bytes s1) (f_pos s1)
             (bytes_of (kmem k) (pr_addr q + pr_offset q) (Z.to_nat (piece (pr_offset q)))))
            (f_pos s1 + piece (pr_offset q))) (piece (pr_offset q)))
      as (s' & k' & Hrun & O1 & O2 & [T1 T2]); try done.
    + destruct Hs as [H1 H2 H3 H4 H5 H6]. split; try done. apply lookup_insert_eq.
    + intros c'. apply react_put_piece; [done|lia].
    + apply file_has_more; [done|lia..].
    + cbn [set_offset pr_offset]. lia.
    + cbn [set_offset pr_offset]. unfold piece. change IO_MAX_BUFFER with 1100 in *. lia.
    + exists s', k'. split; [by eapply session_cons|]. split; [done|]. split; [done|].
      split; [|done]. rewrite T1. cbn [put_piece set_pager k_pager set_prs prs].
      by rewrite insert_insert_eq.
Qed.
Lemma is_word_fd fd : is_word fd → fd ≠ VFS_NIL_FILE.
Proof. unfold is_word. change VFS_NIL_FILE with (-1). lia. Qed.
Lemma closed_same r : sf_fd r = VFS_NIL_FILE → closed r = r.
Proof. destruct r. cbn. by intros ->. Qed.
Lemma transferred_opened fd d k ty pr q st r st' k' :
  opening k ty pr q st r →
  transferred (opened fd d k pr q r) pr (set_stage (stage_succ <$> pr_stage q) (set_offset 0 q))
    (with_fd fd r) st' k' →
  transferred k pr q r st' k' ∧ swapfiles (k_swap k') = swapfiles (k_swap k).
Proof.
  intros [_ _ _ _ [Hnz Hf] Hc _] [T1 T2].
  assert (swapfiles (k_swap k') = <[pr_sf q := closed r]> (swapfiles (k_swap k))) as E.
  { rewrite T2. etrans; [apply insert_insert_eq|]. done. }
  split; [split; [|done]|].
  - rewrite T1. cbn [opened set_pager k_pager set_prs prs]. by rewrite insert_insert_eq.
  - rewrite E, closed_same by done. by apply insert_id.
Qed.
Lemma swapout_session fuel fd d cs k pr q r s :
  opening k REQUEST_SWAPOUT pr q SWAPOUT_OPEN r → pr_offset q ≤ PAGESIZE → pr_diskAddr q = Some d →
  is_word fd → is_word d → length cs = 6%nat →
  ∃ s' k', session fd (continueSwapout fuel) cs s k = Ok s' k' ∧
    file_has s' d (kmem k) (pr_addr q) PAGESIZE (f_bytes s) ∧ kmem k' = kmem k ∧
    transferred k pr q r SWAPOUT_CLOSE k' ∧ swapfiles (k_swap k') = swapfiles (k_swap k).
Proof.
  intros Ho Hoff Hd Hfd Hdw Hlen. destruct cs as [|c cs]; [done|]. injection Hlen as Hlen.
  pose proof (is_word_fd fd Hfd) as Hnil. pose proof (open_out fuel fd d k pr q r Ho Hoff Hd Hnil) as Hop.
  pose proof (opened_swapping fd d _ _ _ _ _ _ Ho Hnil) as Hs. set (k1 := opened fd d k pr q r) in *.
  destruct (write_session fuel fd d pr (with_fd fd r) (f_bytes s) cs 4 k1
    (set_stage (stage_succ <$> pr_stage q) (set_offset 0 q)) (mkFS (f_bytes s) 0) (mkFS (f_bytes s) d) SOS_VFS_OK)
    as (s' & k' & Hrun & O1 & O2 & O3); try done.
  - intros c'. unfold react. change (klog k1) with (klog k ++
      [L4_Ipc L4_rootserver SOS_LSEEK SOS_IPC_SEND [w32 fd; w32 d; w32 SEEK_SET]]).
    rewrite last_snoc. by rewrite (w32_small d).
  - split; [cbn; lia|]. intros y. cbn. rewrite decide_False by lia. done.
  - exists s', k'. split.
    + eapply session_cons; [|exact Hop|exact Hrun].
      unfold react. destruct (op_asked _ _ _ _ _ _ Ho) as [ws ->]. done.
    + split; [done|]. split; [done|]. by eapply transferred_opened.
Qed.

(** ** Swap-in *)
Definition asked (k : kstate) (q : PagerRequest) : Prop :=
  ∃ fd, last (klog k) = Some (L4_Ipc L4_rootserver SOS_READ SOS_IPC_SEND [fd; w32 (piece (pr_offset q))]).
Lemma delivered_range c n : 0 < n → 0 < delivered c n ≤ n.
Proof. unfold delivered. lia. Qed.
Lemma react_asked fd c s k q :
  asked k q → 0 ≤ pr_offset q < PAGESIZE →
  let m := delivered c (piece (pr_offset q)) in
  let ch := bytes_of (f_bytes s) (f_pos s) (Z.to_nat m) in
  react fd c s k = (mkFS (f_bytes s) (f_pos s + m),
    set_kmach (set_cbuf (write_bytes (cbuf (kmach k)) (buffer k) ch) (kmach k)) k, m).
Proof.
  intros [f Hl] Ho m ch. unfold react. rewrite Hl.
  pose proof (piece_range _ Ho) as [Hn _]. change PAGESIZE with 4096 in Hn.
  by rewrite w32_small by (unfold is_word; lia).
Qed.
Lemma read_session fuel fd pr r (ch : nat → Z) (N : nat) : ∀ i k q s,
  swapping k REQUEST_SWAPIN pr q SWAPIN_READ r → asked k q →
  0 ≤ pr_offset q < PAGESIZE → (Z.to_nat (PAGESIZE - pr_offset q) ≤ N)%nat →
  ∃ t s' k', (t ≤ Z.to_nat (PAGESIZE - pr_offset q))%nat ∧
    session fd (continueSwapin fuel) (ch <$> seq i t) s k = Ok s' k' ∧ f_bytes s' = f_bytes s ∧
    kmem k' = write_bytes (kmem k) (pinnedFrame (k_pager k) + pr_offset q)
                (bytes_of (f_bytes s) (f_pos s) (Z.to_nat (PAGESIZE - pr_offset q))) ∧
    transferred k pr q r SWAPIN_CLOSE k'.
Proof.
  induction N as [|N IH]; intros i k q s Hs Ha Ho HN; [lia|].
  pose proof (piece_range _ Ho) as [Hp _]. set (o := pr_offset q) in *.
  pose proof (delivered_range (ch i) (piece o) ltac:(lia)) as Hm. set (m := delivered (ch i) (piece o)) in *.
  pose proof (react_asked fd (ch i) s k q Ha Ho) as Hre. cbv zeta in Hre. fold o m in Hre.
  set (c := bytes_of (f_bytes s) (f_pos s) (Z.to_nat m)) in *.
  assert (Z.of_nat (length c) = m) as Hlen by (unfold c; rewrite length_bytes_of; lia).
  set (k1 := set_kmach _ k) in Hre.
  assert (swapping k1 REQUEST_SWAPIN pr q SWAPIN_READ r) as Hs1 by (by destruct Hs; split).
  assert (bytes_of (cbuf (kmach k1)) (buffer k1) (length c) = c) as Hb.
  { change (cbuf (kmach k1)) with (write_bytes (cbuf (kmach k)) (buffer k) c). apply bytes_of_write. }
  pose proof (swapin_step fuel k1 pr q r c Hs1) as Hstep. fold o in Hstep.
  rewrite Hlen in Hstep. specialize (Hstep ltac:(lia) ltac:(intros E; rewrite E in Hlen; simpl in Hlen; lia) ltac:(lia) Hb).
  cbv zeta in Hstep. set (q' := set_offset (o + m) q) in *. set (k2 := got_piece k1 pr q c) in *.
  assert (kmem k2 = write_bytes (kmem k) (pinnedFrame (k_pager k) + o) c) as Hm2 by done.
  assert (k_pager k2 = set_prs (<[pr := q']> (prs (k_pager k))) (k_pager k)) as Hp2.
  { unfold q'. rewrite <- Hlen. done. }
  case_decide as Hd.
  - exists 1%nat. eexists _, _. split; [lia|].
    split; [eapply session_cons; [exact Hre|exact Hstep|reflexivity]|]. split; [done|].
    assert (PAGESIZE - o = m) as -> by lia. split; [exact Hm2|].
    destruct Hs as [_ _ Hst _ _ _]. split; [|done].
    cbn [close_file set_pager k_pager]. rewrite Hp2. cbn [set_prs prs]. rewrite insert_insert_eq.
    unfold q'. rewrite Hd. cbn [set_offset pr_stage]. by rewrite Hst.
  - pose proof (got_piece_swapping k1 pr q c r Hs1) as Hs2. fold o in Hs2. rewrite Hlen in Hs2. fold q' k2 in Hs2.
    destruct (IH (S i) (ask_more k2 q' r) q' (mkFS (f_bytes s) (f_pos s + m)))
      as (t & s' & k' & Ht & Hrun & O1 & O2 & [T1 T2]).
    + destruct Hs2 as [H1 H2 H3 H4 H5 H6]. by split.
    + eexists. change (klog (ask_more k2 q' r)) with (klog k2 ++
        [L4_Ipc L4_rootserver SOS_READ SOS_IPC_SEND [w32 (sf_fd r); w32 (piece (pr_offset q'))]]).
      by rewrite last_snoc.
    + cbn. lia.
    + cbn. lia.
    + cbn [q' set_offset pr_offset f_bytes f_pos] in *.
      exists (S t), s', k'. split; [lia|].
      assert (ch <$> seq i (S t) = ch i :: (ch <$> seq (S i) t)) as -> by done.
      split; [eapply session_cons; [exact Hre|exact Hstep|exact Hrun]|].
      split; [done|]. split; [|split].
      * rewrite O2. change (kmem (ask_more k2 q' r)) with (kmem k2).
        change (k_pager (ask_more k2 q' r)) with (k_pager k2). rewrite Hm2, Hp2. cbn [set_prs pinnedFrame].
        replace (Z.to_nat (PAGESIZE - o)) with (Z.to_nat m + Z.to_nat (PAGESIZE - (o + m)))%nat by lia.
        rewrite bytes_of_app, Z2Nat.id by lia. fold c. rewrite <- write_bytes_app. f_equal. lia.
      * rewrite T1. change (k_pager (ask_more k2 q' r)) with (k_pager k2). rewrite Hp2.
        cbn [set_prs prs]. by rewrite insert_insert_eq.
      * rewrite T2. done.
Qed.
Definition seeking (k : kstate) (pr : positive) (q : PagerRequest) (r : Swapfile) : kstate :=
  set_pager (set_prs (<[pr := set_stage (stage_succ <$> pr_stage q) q]> (prs (k_pager k))) (k_pager k))
    (ask_more k q r).
Lemma lseek_step fuel v k pr q r :
  swapping k REQUEST_SWAPIN pr q SWAPIN_LSEEK r →
  continueSwapin fuel v k = Ok tt (seeking k pr q r).
Proof.
  intros Hs. destruct (peek_run _ _ _ _ _ _ Hs) as [R1 R2]. pose proof Hs as [_ Hq Hst _ _ _].
  unfold continueSwapin. rewrite (bind_ok _ _ _ _ _ R1), (bind_ok _ _ _ _ _ R2), Hst.
  erewrite bind_ok by reflexivity. cbn iota. rewrite (bind_ok _ _ _ _ _ (read_more_run _ _ _ _ _ Hs)).
  unfold next_stage. by rewrite (pr_upd_run _ pr q).
Qed.

Lemma swapin_session fuel fd d (ch : nat → Z) k pr q r l x s :
  opening k REQUEST_SWAPIN pr q SWAPIN_OPEN r →
  entry_at k (pr_pid q, Z.land (pr_addr q) ADDRESS_MASK) l x (entry k x (pr_addr q)) →
  frame_of k x (pr_addr q) = d → is_word fd → is_word d →
  ∃ t s' k', (t ≤ 2 + Z.to_nat PAGESIZE)%nat ∧
    session fd (continueSwapin fuel) (ch <$> seq 0 t) s k = Ok s' k' ∧ f_bytes s' = f_bytes s ∧
    kmem k' = write_bytes (kmem k) (pinnedFrame (k_pager k)) (bytes_of (f_bytes s) d (Z.to_nat PAGESIZE)) ∧
    transferred k pr q r SWAPIN_CLOSE k' ∧ swapfiles (k_swap k') = swapfiles (k_swap k).
Proof.
  intros Ho He Hd Hfd Hdw. pose proof (is_word_fd fd Hfd) as Hnil.
  pose proof (open_in fuel fd d k pr q r l x Ho He Hd Hnil) as Hop.
  pose proof (opened_swapping fd d _ _ _ _ _ _ Ho Hnil) as Hs. set (k1 := opened fd d k pr q r) in *.
  set (q1 := set_stage _ _) in Hs. pose proof (lseek_step fuel SOS_VFS_OK _ _ _ _ Hs) as Hsk.
  set (k2 := seeking k1 pr q1 (with_fd fd r)) in Hsk.
  set (q2 := set_stage (stage_succ <$> pr_stage q1) q1).
  assert (pr_stage q1 = Some SWAPIN_LSEEK) as Hst1 by (apply Hs).
  assert (swapping k2 REQUEST_SWAPIN pr q2 SWAPIN_READ (with_fd fd r)) as Hs2.
  { destruct Hs as [H1 H2 H3 H4 H5 H6]. split; try done; [apply lookup_insert_eq|].
    change (pr_stage q2) with (stage_succ <$> pr_stage q1). by rewrite Hst1. }
  destruct (read_session fuel fd pr (with_fd fd r) ch (Z.to_nat PAGESIZE) 2 k2 q2 (mkFS (f_bytes s) d))
    as (t & s' & k' & Ht & Hrun & O1 & O2 & O3);
    [exact Hs2| |by split|change (pr_offset q2) with 0; rewrite Z.sub_0_r; apply Nat.le_refl|].
  { eexists. change (klog k2) with (klog k1 ++
      [L4_Ipc L4_rootserver SOS_READ SOS_IPC_SEND [w32 fd; w32 (piece (pr_offset q2))]]).
    by rewrite last_snoc. }
  exists (2 + t)%nat, s', k'. 
  change (pr_offset q2) with 0 in Ht. rewrite Z.sub_0_r in Ht. split; [lia|].
  assert (ch <$> seq 0 (2 + t) = ch 0%nat :: ch 1%nat :: (ch <$> seq 2 t)) as -> by done.
  split; [|split; [done|split]].
  - eapply (session_cons _ _ _ _ _ _ (mkFS (f_bytes s) 0) k fd k1); [|exact Hop|].
    { unfold react. destruct (op_asked _ _ _ _ _ _ Ho) as [ws ->]. done. }
    eapply (session_cons _ _ _ _ _ _ (mkFS (f_bytes s) d) k1 SOS_VFS_OK k2); [|exact Hsk|exact Hrun].
    unfold react. change (klog k1) with (klog k ++
      [L4_Ipc L4_rootserver SOS_LSEEK SOS_IPC_SEND [w32 fd; w32 d; w32 SEEK_SET]]).
    rewrite last_snoc. by rewrite (w32_small d).
  - rewrite O2. change (pr_offset q2) with 0. by rewrite Z.add_0_r, Z.sub_0_r.
  - apply (transferred_opened fd d k _ pr q _ r _ k' Ho).
    destruct O3 as [T1 T2]. split; [|done]. rewrite T1.
    cbn [k2 seeking set_pager k_pager set_prs prs]. by rewrite insert_insert_eq.
Qed.
End SwapTrip.

Module SwapTripClaims.
Import Bits SwapTrip QuotaClaims ResidentClaims CopyClaims SwapClaims.

(** C19: a swap-in always ends.  From the moment the swap file is being opened,
    whatever sizes the file server chooses for its answers, as long as each read
    delivers at least one byte and no more than was asked for, the pager reaches
    the last stage of the request after at most one answer per byte of the page;
    the pinned frame then holds the page of the file at the disk address of the
    page table entry, no other memory has changed, and the file is closed. *)
Theorem swapin_completes fuel fd d (ch : nat → Z) k pr q r l x s :
  opening k REQUEST_SWAPIN pr q SWAPIN_OPEN r →
  entry_at k (pr_pid q, Z.land (pr_addr q) ADDRESS_MASK) l x (entry k x (pr_addr q)) →
  frame_of k x (pr_addr q) = d → is_word fd → is_word d →
  ∃ t s' k', (t ≤ 2 + Z.to_nat PAGESIZE)%nat ∧
    session fd (continueSwapin fuel) (ch <$> seq 0 t) s k = Ok s' k' ∧ f_bytes s' = f_bytes s ∧
    kmem k' = write_bytes (kmem k) (pinnedFrame (k_pager k)) (bytes_of (f_bytes s) d (Z.to_nat PAGESIZE)) ∧
    transferred k pr q r SWAPIN_CLOSE k' ∧ swapfiles (k_swap k') = swapfiles (k_swap k).
Proof. apply swapin_session. Qed.

Lemma file_page s d m addr F :
  file_has s d m addr PAGESIZE F →
  bytes_of (f_bytes s) d (Z.to_nat PAGESIZE) = bytes_of m addr (Z.to_nat PAGESIZE).
Proof.
  intros [_ Hb]. apply list_eq. intros i. destruct (decide (i < Z.to_nat PAGESIZE)%nat) as [Hi|Hi].
  - rewrite !bytes_of_lookup by done. rewrite Hb, decide_True by lia. do 2 f_equal. lia.
  - rewrite !lookup_ge_None_2; [done|..]; rewrite length_bytes_of; lia.
Qed.


(** A request over a closed swap file that was just asked to be opened, in a
    state like [k0]. *)
Definition opening_in (k0 : kstate) (ty : rtype_t) (q : PagerRequest) : kstate :=
  let k := klog_app [L4_Ipc L4_rootserver SOS_OPEN SOS_IPC_SEND []] k0 in
  set_pager (set_pinned 0x30000 (set_preqs [(ty, 9%positive)] (set_prs {[ 9%positive := q ]} (k_pager k))))
    (set_swap (mkSwapst (frs (k_swap k)) {[ 0x5000 := closed demo_sf ]}) k).
Lemma opening_in_same k0 ty q :
  k_procs (opening_in k0 ty q) = k_procs k0 ∧ kmem (opening_in k0 ty q) = kmem k0.
Proof. done. Qed.
Lemma opening_in_opening k0 ty q st :
  pr_stage q = Some st → pr_size q = Some PAGESIZE → pr_sf q = 0x5000 →
  opening (opening_in k0 ty q) ty 9 q st (closed demo_sf).
Proof.
  intros H1 H2 H3. split; [by exists []|apply (lookup_singleton_eq 9%positive)|done|done| |done|].
  - rewrite H3. split; [done|apply (lookup_singleton_eq 0x5000)].
  - exists []. change (klog (opening_in k0 ty q)) with
      (klog k0 ++ [L4_Ipc L4_rootserver SOS_OPEN SOS_IPC_SEND []]). apply last_snoc.
Qed.
Definition out_req : PagerRequest :=
  mkPR (Some SWAPOUT_OPEN) 5 0x10000 (Some 0x20000) 0x5000 FM_READ (-1) (Some PAGESIZE) FinSwapin CbNull.
Definition in_req : PagerRequest :=
  mkPR (Some SWAPIN_OPEN) 5 8192 None 0x5000 FM_READ (-1) (Some PAGESIZE) FinSwapin CbPagerContinue.
Definition kopen (ty : rtype_t) (q : PagerRequest) : kstate := opening_in kpager2 ty q.
Lemma kopen_same ty q : k_procs (kopen ty q) = k_procs kpager2 ∧ kmem (kopen ty q) = kmem kpager2.
Proof. exact (opening_in_same kpager2 ty q). Qed.
Lemma kopen_opening ty q st :
  pr_stage q = Some st → pr_size q = Some PAGESIZE → pr_sf q = 0x5000 →
  opening (kopen ty q) ty 9 q st (closed demo_sf).
Proof. exact (opening_in_opening kpager2 ty q st). Qed.
Lemma kopen_entry ty :
  entry_at (kopen ty in_req) (5, 8192) 2 proc0 (entry (kopen ty in_req) proc0 8192).
Proof.
  destruct kpager2_facts as (F1 & _). destruct (kopen_same ty in_req) as [E1 E2].
  split; unfold entry; rewrite ?E1, ?E2; cbn [snd];
    change (offset1 8192) with 0; change (pagetable proc0) with 8192; rewrite ?F1;
    [exact kpager2_reg|discriminate..|reflexivity|discriminate].
Qed.
Lemma kopen_frame ty : frame_of (kopen ty in_req) proc0 8192 = 0x20000.
Proof.
  destruct kpager2_facts as (F1 & _ & F3 & _). destruct (kopen_same ty in_req) as [_ E2].
  unfold frame_of, pte, entry. rewrite E2. change (offset1 8192) with 0.
  change (pagetable proc0) with 8192. rewrite F1. unfold val, demo_ent in F3. cbn [snd] in F3.
  rewrite F3. reflexivity.
Qed.
Definition empty_file : fileserver := mkFS ∅ 0.
Lemma swapin_completes_witness :
  ∃ t s' k', (t ≤ 2 + Z.to_nat PAGESIZE)%nat ∧
    session 3 (continueSwapin 0) ((λ _, 7) <$> seq 0 t) empty_file (kopen REQUEST_SWAPIN in_req) = Ok s' k' ∧
    f_bytes s' = f_bytes empty_file ∧
    kmem k' = write_bytes (kmem (kopen REQUEST_SWAPIN in_req)) (pinnedFrame (k_pager (kopen REQUEST_SWAPIN in_req)))
      (bytes_of (f_bytes empty_file) 0x20000 (Z.to_nat PAGESIZE)) ∧
    transferred (kopen REQUEST_SWAPIN in_req) 9 in_req (closed demo_sf) SWAPIN_CLOSE k' ∧
    swapfiles (k_swap k') = swapfiles (k_swap (kopen REQUEST_SWAPIN in_req)).
Proof.
  apply (swapin_completes 0 3 0x20000 (λ _, 7) (kopen REQUEST_SWAPIN in_req) 9 in_req (closed demo_sf) 2 proc0 empty_file).
  - exact (kopen_opening REQUEST_SWAPIN in_req SWAPIN_OPEN eq_refl eq_refl eq_refl).
  - change (Z.land (pr_addr in_req) ADDRESS_MASK) with 8192. exact (kopen_entry REQUEST_SWAPIN).
  - exact (kopen_frame REQUEST_SWAPIN).
  - apply (bool_decide_unpack _). vm_compute. exact I.
  - apply (bool_decide_unpack _). vm_compute. exact I.
Defined.
End SwapTripClaims.
