(* ===== verification/ElfLoad.v ===== *)
(** * Loading an executable ([continueElfload] of [sos/pager.c])

    An executable is not read when a process is made: the loader enters, for
    each page of each segment, where in the file it is, and the page is read
    when it is touched.  The theorem follows the four turns of a load, from the
    answer to the open to the reply to the parent. *)
From S2P Require Import Prelude Machine ListC Frames Swapfile State Pagetable Process Reply VfsCore.
From S2P Require Import Clock Vfs Lifecycle Elf PagerBase Quota Resident Pager Copy Fault SwapIO Spawn.
Import Frames Swapfile Pagetable Time Process ProcessInv Reply VfsCore OpenDone Elf PagerBase Pager Resident.

Module ElfLoad.
Import Bits UserPages Fault SwapIO Spawn.

(** ** A page table that grows *)
(** From [s] with free frames [fs] to [s'] with [fs']: the table of [pt] is well
    formed, its new parts come from [fs], and no other frame is written. *)
Record table_grown (s : frames) (pt : Z) (fs : list Z) (s' : frames) (fs' : list Z) : Prop := {
  tg_free : free_list s' fs';
  tg_table : pt_ok (fmem s') pt fs';
  tg_fs : ∃ pre, fs = pre ++ fs';
  tg_l1 : ∀ i, 0 ≤ i < PAGEWORDS → l1 (fmem s') pt i = l1 (fmem s) pt i ∨ l1 (fmem s') pt i ∈ fs;
  tg_others : ∀ g b, frame_addr g → g ≠ pt → g ∉ fs → (∀ i, 0 ≤ i < PAGEWORDS → l1 (fmem s) pt i ≠ g) →
    in_frame g b → load32 (fmem s') b = load32 (fmem s) b;
  tg_beside : beside s' = beside s
}.
Lemma table_grown_refl s pt fs : free_list s fs → pt_ok (fmem s) pt fs → table_grown s pt fs s fs.
Proof. intros. split; try done; [by exists []|by left]. Qed.
Lemma table_grown_trans s pt fs s1 fs1 s2 fs2 :
  table_grown s pt fs s1 fs1 → table_grown s1 pt fs1 s2 fs2 → table_grown s pt fs s2 fs2.
Proof.
  intros [A1 A2 [p1 A3] A4 A5 A6] [B1 B2 [p2 B3] B4 B5 B6]. split; [done|done| | | |congruence].
  - exists (p1 ++ p2). by rewrite A3, B3, app_assoc.
  - intros i Hi. destruct (B4 i Hi) as [->|H]; [by apply A4|right]. rewrite A3. set_solver.
  - intros g b Hg Hpt Hn Hl Hb. rewrite (B5 g b); [by apply (A5 g)|done|done| | |done].
    + rewrite A3 in Hn. set_solver.
    + intros i Hi. destruct (A4 i Hi) as [->|H]; [by apply Hl|]. by intros <-.
Qed.

Lemma lookup_l1 s pt a fs e s' i :
  is_word a → free_list s fs → pt_ok (fmem s) pt fs → pagetableLookup pt a s = Ok e s' →
  0 ≤ i < PAGEWORDS → i ≠ offset1 a → l1 (fmem s') pt i = l1 (fmem s) pt i.
Proof.
  intros Ha Hfl Hok Hrun Hi Hne. destruct (decide (l1 (fmem s) pt (offset1 a) = 0)) as [E|E]; last first.
  { rewrite (lookup_hit s pt a fs) in Hrun by done. by injection Hrun as _ <-. }
  destruct fs as [|f fs]; [by rewrite (lookup_oom s pt a) in Hrun|].
  destruct (lookup_miss_run s pt a f fs) as (s1 & m' & _ & Hmiss & Hrun'); [done..|].
  rewrite Hrun' in Hrun. injection Hrun as _ <-. pose proof Hfl as [(_ & Hf & _) _].
  by apply (miss_l1 s pt a f fs m' i).
Qed.

(** Entering one page. *)
Definition put_entry (pt a v : Z) : M frames unit :=
  e ← pagetableLookup pt a; deref e;; write_word e v.
Lemma put_entry_run s pt fs a v :
  is_word a → is_word v → free_list s fs → pt_ok (fmem s) pt fs → fs ≠ [] →
  ∃ s' fs', put_entry pt a v s = Ok tt s' ∧ table_grown s pt fs s' fs' ∧ (length fs ≤ length fs' + 1)%nat ∧
    ∀ b, is_word b → pt_get (fmem s') pt b = if same_page a b then v else pt_get (fmem s) pt b.
Proof.
  intros Ha Hv Hfl Hok Hne.
  destruct (lookup_spec s pt a fs) as (e & s1 & Hrun & Hpost); [done..|by right|].
  pose proof Hpost as (He & Hnz & (fs1 & Hfl1 & Hok1 & Hfs) & Hget & Hoth & Hp2 & _).
  destruct (entry_facts _ _ _ _ Ha Hok1 Hnz) as [Hez _]. rewrite <- He in Hez.
  destruct (entry_write _ _ _ a v Ha Hv Hok1 Hnz) as (W1 & W2 & W3). rewrite <- He in W1, W2, W3.
  exists (set_fmem (store32 (fmem s1) e v) s1), fs1. split_and!.
  - unfold put_entry. rewrite (bind_ok _ _ _ _ _ Hrun). by rewrite (bind_ok _ _ _ _ _ (deref_ok e s1 Hez)).
  - split; [| exact W2 | | | |exact (pagetableLookup_beside _ _ _ _ _ Hrun)].
    + rewrite He. by apply entry_write_free.
    + destruct Hfs as [->|[f ->]]; [by exists []|by exists [f]].
    + intros i Hi. change (fmem (set_fmem (store32 (fmem s1) e v) s1)) with (store32 (fmem s1) e v).
      rewrite W1 by done. destruct (decide (i = offset1 a)) as [->|Hne2]; [done|].
      left. by eapply (lookup_l1 s pt a fs).
    + intros g b Hg Hpt Hn Hl Hb. cbn. rewrite load32_store32_ne; [by apply (Hoth g)|].
      destruct (pt_l2 _ _ _ Hok1 (offset1 a)) as [|(Hp2a & _)]; [by apply offset1_range|done|].
      apply (in_frame_disjoint (l1 (fmem s1) pt (offset1 a)) g); [done|done| | |done].
      * destruct Hp2 as [->|Hin]; [apply Hl; by apply offset1_range|by intros <-].
      * rewrite He. apply word_at_in, offset2_range.
  - destruct Hfs as [->|[f ->]]; simpl; lia.
  - intros b Hb. cbn. by rewrite W3, Hget.
Qed.

(** ** Segments *)
(** What a program header says. *)
Record segment := mkSeg { sg_vaddr : Z; sg_memsz : Z; sg_flags : Z; sg_filesz : Z; sg_offset : Z }.
Definition seg_at (b : memory) (hdr i : Z) : segment :=
  mkSeg (elf32_getProgramHeaderVaddr b hdr i) (elf32_getProgramHeaderMemorySize b hdr i)
    (elf32_getProgramHeaderFlags b hdr i) (elf32_getProgramHeaderFileSize b hdr i)
    (elf32_getProgramHeaderOffset b hdr i).
Definition segments_at (b : memory) (hdr : Z) : list segment :=
  seg_at b hdr <$> zseq 0 (Z.to_nat (elf32_getNumProgramHeaders b hdr)).
(** The segment is in the address space, and so is its part of the file. *)
Definition seg_ok (sg : segment) : Prop :=
  0 ≤ sg_vaddr sg ∧ 0 ≤ sg_memsz sg ∧ sg_vaddr sg + sg_memsz sg ≤ 2 ^ 32 ∧ is_word (sg_offset sg).
#[global] Instance seg_ok_dec sg : Decision (seg_ok sg).
Proof. unfold seg_ok. apply _. Defined.
(** The pages the loader enters: one for each started page of memory size. *)
Definition seg_pages (sg : segment) : nat := Z.to_nat ((sg_memsz sg + PAGESIZE - 1) / PAGESIZE).
(** The entry of the [i]-th page: its place in the file, and that it is there. *)
Definition file_entry (addr i : Z) : Z := Z.lor (Z.lor (w32 (addr + i * PAGESIZE)) SWAP_MASK) ELF_MASK.
Definition seg_entry (sg : segment) (old a : Z) : Z :=
  let i := a / PAGESIZE - sg_vaddr sg / PAGESIZE in
  if decide (0 ≤ i < seg_pages sg) then file_entry (page_of (sg_offset sg)) i else old.
(** The page table of a program: where segments meet, the later one counts. *)
Definition image_entry (sgs : list segment) (a : Z) : Z := foldl (λ old sg, seg_entry sg old a) 0 sgs.
Definition seg_region (sg : segment) (sf : Z) : Region :=
  mkRegion REGION_OTHER (sg_vaddr sg) (sg_memsz sg) (Some (sg_filesz sg)) (sg_flags sg) false sf.

Lemma file_entry_word addr i : is_word (file_entry addr i).
Proof. unfold file_entry. by apply lor_word; [apply lor_word; [apply w32_word|]|]. Qed.

Lemma entry_store_run k l x a v s' :
  pcbs (k_procs k) !! l = Some x → put_entry (pagetable x) a v (frs (k_swap k)) = Ok tt s' →
  (entry ← entry_of (Some l) a; store entry v) k = Ok tt (set_kfrs s' k).
Proof.
  intros Hx (e & s1 & H1 & H2)%bind_inv.
  rewrite (bind_ok _ _ k e (set_kfrs s1 k)); last first.
  { unfold entry_of. rewrite (bind_ok _ _ k (pagetable x) k) by (by apply on_procs_id, (pcb_field pagetable)).
    by apply on_fr_run. }
  unfold store. by rewrite (on_fr_run _ (set_kfrs s1 k) _ _ H2).
Qed.
Lemma same_page_step v j b :
  0 ≤ j → is_word (v + j * PAGESIZE) →
  same_page (w32 (v + j * PAGESIZE)) b = bool_decide (b / PAGESIZE - v / PAGESIZE = j).
Proof.
  intros Hj Hw. rewrite w32_small by done. unfold same_page. rewrite Z.div_add by done.
  destruct (Z.eqb_spec (v / PAGESIZE + j) (b / PAGESIZE)); case_bool_decide; done || lia.
Qed.
Lemma pages_run l x v addr (n : nat) : ∀ j k fs,
  pcbs (k_procs k) !! l = Some x → free_list (frs (k_swap k)) fs → pt_ok (kmem k) (pagetable x) fs →
  (n ≤ length fs)%nat → 0 ≤ j → 0 ≤ v → v + (j + n - 1) * PAGESIZE < 2 ^ 32 →
  ∃ s' fs',
    forM (zseq j n) (λ i, entry ← entry_of (Some l) (w32 (v + i * PAGESIZE));
                          store entry (file_entry addr i)) k = Ok tt (set_kfrs s' k) ∧
    table_grown (frs (k_swap k)) (pagetable x) fs s' fs' ∧ (length fs ≤ length fs' + n)%nat ∧
    ∀ b, is_word b → pt_get (fmem s') (pagetable x) b =
      let i := b / PAGESIZE - v / PAGESIZE in
      if decide (j ≤ i < j + n) then file_entry addr i else pt_get (kmem k) (pagetable x) b.
Proof.
  induction n as [|n IH]; intros j k fs Hx Hfl Hok Hlen Hj Hv Hb.
  - exists (frs (k_swap k)), fs. split; [by destruct k as [[]]|]. split; [by apply table_grown_refl|].
    split; [lia|]. intros b _. cbv zeta. by rewrite decide_False by lia.
  - assert (is_word (v + j * PAGESIZE)) as Hw by (unfold is_word; change PAGESIZE with 4096 in *; lia).
    destruct (put_entry_run (frs (k_swap k)) (pagetable x) fs (w32 (v + j * PAGESIZE)) (file_entry addr j))
      as (s1 & fs1 & H1 & G1 & L1 & M1); [apply w32_word|apply file_entry_word|done|done|intros ->; simpl in Hlen; lia|].
    destruct (IH (j + 1) (set_kfrs s1 k) fs1) as (s2 & fs2 & H2 & G2 & L2 & M2);
      [done|apply G1|apply G1|lia|lia|lia|lia|].
    exists s2, fs2. split_and!.
    + rewrite zseq_S. cbn [forM]. by rewrite (bind_ok _ _ _ _ _ (entry_store_run _ _ _ _ _ _ Hx H1)).
    + by eapply table_grown_trans.
    + lia.
    + intros b Hwb. rewrite M2 by done. cbv zeta. rewrite M1 by done.
      rewrite same_page_step by done. repeat case_decide; try case_bool_decide; try lia; try done.
      by f_equal.
Qed.

(** ** The image of a program *)
Lemma pt_ok_tail m pt f fs : pt_ok m pt (f :: fs) → pt_ok m pt fs.
Proof.
  intros [H1 H2 H3 H4]. split; [done|set_solver| |done].
  intros i Hi. destruct (H3 i Hi) as [|(? & ? & ?)]; [by left|right]. split_and!; [done|done|set_solver].
Qed.
(** The process at [l] has the segments [sgs] of the file [pth] so far; [k0] is
    the state before it was made, when the frames [fs0] were free. *)
Record building (k0 : kstate) (pth : cstr) (fs0 : list Z) (l : positive) (pt : Z)
    (k : kstate) (fs : list Z) (sgs : list segment) (x : Process) : Prop := {
  bd_procs : k_procs k = add_pcb l x (k_procs k0);
  bd_pcb : x = set_regions (regions x) (fresh_pcb PS_TYPE_PROCESS pt);
  bd_free : free_list (frs (k_swap k)) fs;
  bd_table : pt_ok (kmem k) pt fs;
  bd_fs : pt ∈ fs0 ∧ ∃ pre, fs0 = pre ++ fs;
  bd_l1 : ∀ i, 0 ≤ i < PAGEWORDS → l1 (kmem k) pt i = 0 ∨ l1 (kmem k) pt i ∈ fs0;
  bd_map : ∀ a, is_word a → pt_get (kmem k) pt a = image_entry sgs a;
  bd_regions : Forall2 (λ sg r, ∃ sf, r = seg_region sg sf ∧ sf ∈ fs0 ∧ sf ∉ fs ∧
    swapfiles (k_swap k) !! sf = Some (elf_swapfile pth)) sgs (regions x);
  bd_others : ∀ g b, frame_addr g → g ∉ fs0 → in_frame g b → load32 (kmem k) b = load32 (kmem k0) b;
  bd_swap : ∀ sf, sf ∉ fs0 → swapfiles (k_swap k) !! sf = swapfiles (k_swap k0) !! sf;
  bd_heap : mnext (kmach k) = Pos.succ l;
  bd_aside : aside k = aside k0
}.

(** A new process has an empty image. *)
Lemma building_start k pth f fs :
  heap_ok k → tidOffset (k_procs k) ≠ 0 → free_list (frs (k_swap k)) (f :: fs) →
  ∃ k', process_init PS_TYPE_PROCESS k = Ok (Some (mnext (kmach k))) k' ∧
    building k pth (f :: fs) (mnext (kmach k)) f k' fs [] (fresh_pcb PS_TYPE_PROCESS f).
Proof.
  intros Hh Hoff Hfl. destruct (process_init_run k PS_TYPE_PROCESS f fs Hh Hoff Hfl) as (s & Hrun & [T1 T2 T3 T4 T5]).
  eexists. split; [exact Hrun|]. unfold beside, beside_mem in T5. injection T5 as E1 E2 E3 E4.
  split; [done|done|done|done| | | | | |done| |].
  - split; [by left|by exists [f]].
  - intros i Hi. left. by apply T3.
  - intros a Ha. unfold pt_get. by rewrite decide_True by (by apply T3, offset1_range).
  - constructor.
  - intros g b Hg Hn Hb. apply (T4 g b Hg); [set_solver|done].
  - exact E3.
  - unfold aside. cbn. unfold kmach. cbn. rewrite E1, E2, E4. done.
Qed.

(** The state with one segment more: region [r] is backed by a swap file in
    frame [f], and [s2] has the entries of its pages. *)
Definition with_segment (k0 : kstate) (pth : cstr) (l : positive) (x1 : Process) (f : Z)
    (s s2 : frames) (k : kstate) : kstate :=
  set_kfrs s2 (set_procs (add_pcb l x1 (k_procs k0))
    (set_swap (mkSwapst s (<[f := elf_swapfile pth]> (swapfiles (k_swap k)))) k)).
Definition backed (pth : cstr) (fs0 fs : list Z) (sw : gmap Z Swapfile) (sg : segment) (r : Region) : Prop :=
  ∃ sf, r = seg_region sg sf ∧ sf ∈ fs0 ∧ sf ∉ fs ∧ sw !! sf = Some (elf_swapfile pth).
Lemma backed_more pth fs0 f fs fs2 sw sgs rs sg :
  Forall2 (backed pth fs0 (f :: fs) sw) sgs rs → f ∈ fs0 → f ∉ fs → (∀ g, g ∈ fs2 → g ∈ fs) →
  Forall2 (backed pth fs0 fs2 (<[f := elf_swapfile pth]> sw)) (sgs ++ [sg]) (rs ++ [seg_region sg f]).
Proof.
  intros HF Hf Hff Hsub. apply Forall2_app.
  - eapply Forall2_impl; [exact HF|]. intros sg' r' (sf & -> & H1 & H2 & H3). exists sf.
    split_and!; [done|done|intros H; apply H2; right; by apply Hsub|].
    rewrite lookup_insert_ne; [done|]. intros <-. apply H2. by left.
  - constructor; [|constructor]. exists f. split_and!; [done|done| |apply lookup_insert_eq].
    intros H. by apply Hff, Hsub.
Qed.
Lemma segment_building k0 pth fs0 l pt k f fs sgs x sg s s2 fs2 :
  building k0 pth fs0 l pt k (f :: fs) sgs x → NoDup fs0 →
  mach s = mach (frs (k_swap k)) → table_grown s pt fs s2 fs2 →
  (∀ a, is_word a → pt_get (fmem s2) pt a = seg_entry sg (pt_get (kmem k) pt a) a) →
  let x1 := set_regions (regions x ++ [seg_region sg f]) x in
  building k0 pth fs0 l pt (with_segment k0 pth l x1 f s s2 k) fs2 (sgs ++ [sg]) x1.
Proof.
  intros [B1 B2 B3 B4 [B5 [pre B5']] B6 B7 B8 B9 B10 B11 B12] Hnd Hm G Mg x1.
  assert (fmem s = kmem k) as Hmem by (unfold fmem, kmem, kmach; by rewrite Hm).
  pose proof Hnd as Hnd'. rewrite B5' in Hnd'.
  apply NoDup_app in Hnd' as (_ & Hdis & [Hff _]%NoDup_cons).
  destruct (tg_fs _ _ _ _ _ G) as [pre2 Hfs2].
  assert (∀ g, g ∈ f :: fs → g ∈ fs0) as Hsub by (intros g Hg; rewrite B5'; apply elem_of_app; by right).
  assert (∀ g, g ∈ fs2 → g ∈ fs) as Hsub2 by (intros g Hg; rewrite Hfs2; apply elem_of_app; by right).
  pose proof (tg_beside _ _ _ _ _ G) as E. unfold beside, beside_mem in E. injection E as E1 E2 E3 E4.
  set (k' := with_segment k0 pth l x1 f s s2 k). assert (kmem k' = fmem s2) as Hk' by done.
  split; rewrite ?Hk'.
  - done.
  - unfold x1. rewrite B2. done.
  - apply G.
  - apply G.
  - split; [done|]. exists (pre ++ f :: pre2). rewrite B5', Hfs2. by rewrite <- app_assoc.
  - intros j Hj. destruct (tg_l1 _ _ _ _ _ G j Hj) as [->|Hin]; [rewrite Hmem; by apply B6|].
    right. apply Hsub. by right.
  - intros a Ha. rewrite Mg, B7 by done. unfold image_entry. by rewrite foldl_snoc.
  - apply (backed_more pth fs0 f fs); [exact B8|apply Hsub; by left|done|done].
  - intros g b Hg Hn Hb. rewrite (tg_others _ _ _ _ _ G g b); [by rewrite Hmem; apply (B9 g)|done| | | |done].
    + by intros ->.
    + intros H. apply Hn, Hsub. by right.
    + intros j Hj. rewrite Hmem. destruct (B6 j Hj) as [->|Hin]; [unfold frame_addr in Hg; lia|].
      intros E. by rewrite E in Hin.
  - intros sf Hsf. change (swapfiles (k_swap k')) with (<[f := elf_swapfile pth]> (swapfiles (k_swap k))).
    rewrite lookup_insert_ne; [by apply B10|]. intros <-. apply Hsf, Hsub. by left.
  - change (mnext (kmach k')) with (mnext (mach s2)). rewrite E3, Hm. exact B11.
  - unfold aside. change (kmach k') with (mach s2). rewrite E1, E2, E4, Hm. exact B12.
Qed.

(** One program header: a region of the process, backed by the file, and an
    entry for each of its pages. *)
Lemma load_segment_run k0 pth fs0 l pt k fs sgs x buf i :
  building k0 pth fs0 l pt k fs sgs x → NoDup fs0 →
  let sg := seg_at (cbuf (kmach k0)) buf i in
  seg_ok sg → (seg_pages sg + 1 ≤ length fs)%nat →
  ∃ k' fs' x', load_segment (Some l) pth buf i k = Ok tt k' ∧
    building k0 pth fs0 l pt k' fs' (sgs ++ [sg]) x' ∧ (length fs ≤ length fs' + (seg_pages sg + 1))%nat.
Proof.
  intros B Hnd sg (S1 & S2 & S3 & S4) Hlen. destruct fs as [|f fs]; [simpl in Hlen; lia|].
  pose proof B as [B1 B2 B3 B4 _ _ _ _ _ _ _ B12].
  destruct (swapfile_init_run k pth f fs B3) as (s & Hsw & Hfs & Hm).
  set (k1 := set_swap _ k) in Hsw. set (x1 := set_regions (regions x ++ [seg_region sg f]) x).
  set (k2 := set_procs (add_pcb l x1 (k_procs k0)) k1).
  assert (pagetable x1 = pt) as Hpt by (unfold x1; rewrite B2; done).
  assert (fmem s = kmem k) as Hmem by (unfold fmem, kmem, kmach; by rewrite Hm).
  destruct (pages_run l x1 (sg_vaddr sg) (page_of (sg_offset sg)) (seg_pages sg) 0 k2 fs)
    as (s2 & fs2 & Hpg & G & Lg & Mg); [apply lookup_insert_eq|done| | |done|done| |].
  { rewrite Hpt. change (kmem k2) with (fmem s). rewrite Hmem. by eapply pt_ok_tail. }
  { simpl in Hlen. lia. }
  { unfold seg_pages. change PAGESIZE with 4096 in *.
    pose proof (Z.mul_div_le (sg_memsz sg + 4096 - 1) 4096 ltac:(lia)). lia. }
  assert (sg_memsz sg ≤ 2 ^ 32 - PAGESIZE) as Hsz.
  { pose proof (free_list_length _ _ B3) as Hb. unfold seg_pages in Hlen. change PAGESIZE with 4096 in *.
    pose proof (Z.div_mod (sg_memsz sg + 4096 - 1) 4096). pose proof (Z.mod_pos_bound (sg_memsz sg + 4096 - 1) 4096).
    change (2 ^ 32 / 4096) with 1048576 in Hb. lia. }
  rewrite Hpt in G, Mg. change (kmem k2) with (fmem s) in Mg. rewrite Hmem in Mg.
  exists (set_kfrs s2 k2), fs2, x1. split; [|split; [|simpl; lia]].
  - unfold load_segment. rewrite (bind_ok _ _ k (cbuf (kmach k0)) k); last first.
    { unfold get_cbuf, gets. unfold aside in B12. injection B12 as _ _ _ _ _ E1 _ _. by rewrite E1. }
    rewrite (bind_ok _ _ _ _ _ Hsw). rewrite (bind_ok _ _ k1 tt k2) by (by apply (upd_added k1 l x)).
    unfold setRegionOnElf. rewrite (bind_ok _ _ k2 tt k2) by (apply cassert_run, page_of_aligned).
    rewrite decide_False; [exact Hpg|by apply Z.nlt_ge].
  - by apply (segment_building k0 pth fs0 l pt k f fs).
Qed.

Definition frames_needed (sgs : list segment) : nat := sum_list_with (λ sg, (seg_pages sg + 1)%nat) sgs.
Lemma segments_run k0 pth fs0 l pt buf (n : nat) : ∀ j k fs sgs x,
  building k0 pth fs0 l pt k fs sgs x → NoDup fs0 →
  let new := seg_at (cbuf (kmach k0)) buf <$> zseq j n in
  Forall seg_ok new → (frames_needed new ≤ length fs)%nat →
  ∃ k' fs' x', forM (zseq j n) (load_segment (Some l) pth buf) k = Ok tt k' ∧
    building k0 pth fs0 l pt k' fs' (sgs ++ new) x' ∧ (length fs ≤ length fs' + frames_needed new)%nat.
Proof.
  induction n as [|n IH]; intros j k fs sgs x Hb Hnd new Hok Hlen.
  { exists k, fs, x. unfold new. rewrite app_nil_r. split; [done|]. split; [done|lia]. }
  unfold new in *. rewrite zseq_S in *. cbn [fmap list_fmap frames_needed sum_list_with] in *.
  apply Forall_cons in Hok as [Hsg Hok].
  destruct (load_segment_run k0 pth fs0 l pt k fs sgs x buf j Hb Hnd Hsg) as (k1 & fs1 & x1 & H1 & Hb1 & L1).
  { unfold frames_needed in Hlen. simpl in Hlen. lia. }
  destruct (IH (j + 1) k1 fs1 _ x1 Hb1 Hnd Hok) as (k2 & fs2 & x2 & H2 & Hb2 & L2).
  { unfold frames_needed in *. simpl in Hlen. lia. }
  exists k2, fs2, x2. cbn [forM]. rewrite (bind_ok _ _ _ _ _ H1). split; [done|].
  rewrite <- app_assoc in Hb2. split; [exact Hb2|]. unfold frames_needed in *. simpl. lia.
Qed.

(** ** The turn that makes the process *)
Lemma load8_strncpy n : ∀ m dst s a, a < dst ∨ dst + Z.of_nat n ≤ a → load8 (strncpy_mem m dst s n) a = load8 m a.
Proof.
  induction n as [|n IH]; intros m dst s a Ha; [done|].
  destruct s as [|c s]; cbn [strncpy_mem]; rewrite IH by lia; rewrite load8_insert; by rewrite decide_False by lia.
Qed.
(** The PCB of the new process: what the headers give, the name, the pid that was
    reserved for it, heap and stack, and the standard input; then the entry point. *)
Definition prepared_pcb (q : ElfloadRequest) (c t0 : Z) (x : Process) : Process :=
  (match er_fdin q with None => id | Some f => set_fin (Some (strncpy_path f)) end)
    (builtin (upd_info (set_pid c)
      (upd_info (set_stime (w32 t0)) (upd_info (set_command (strncpy_path (er_path q))) x)))).
Definition loaded_pcb (q : ElfloadRequest) (c entry t0 t : Z) (x : Process) : Process :=
  running t (set_ip entry (prepared_pcb q c t0 x)).
(** The messages of the loader's last busy turn. *)
Definition load_events (q : ElfloadRequest) (c : Z) (pg : L4_ThreadId_t) (x : Process) : list event :=
  L4_Ipc L4_rootserver PSOS_OPEN SOS_IPC_SEND (w32 <$> [FM_WRITE; FM_UNLIMITED_RW; FM_UNLIMITED_RW; c]) ::
  (if decide (er_fdout q = er_fderr q) then
     L4_Ipc L4_rootserver PSOS_DUP SOS_IPC_SEND (w32 <$> [stdout_fd; stderr_fd; c])
   else L4_Ipc L4_rootserver PSOS_OPEN SOS_IPC_SEND (w32 <$> [FM_WRITE; FM_UNLIMITED_RW; FM_UNLIMITED_RW; c])) ::
  [L4_TaskStart c pg (ip x) (sp x); L4_Ipc L4_rootserver SOS_CLOSE SOS_IPC_SEND (w32 <$> [er_fd q])].

(** A load in progress, for the child that pid [c] was reserved for. *)
Record loading (k : kstate) (er : positive) (q : ElfloadRequest) (c : Z) : Prop := {
  lo_queue : ∃ rest, requests (k_pager k) = (REQUEST_ELFLOAD, er) :: rest;
  lo_er : ers (k_pager k) !! er = Some q;
  lo_child : er_child q = Some c;
  lo_procs : procs_ok (k_procs k);
  lo_vacant : vacant (k_procs k) c;
  lo_heap : heap_ok k;
  lo_pager : virtualPager (k_pager k) ≠ L4_nilthread ∧ L4_ThreadNo (virtualPager (k_pager k)) ≠ c;
  lo_redirect : er_fdout q = None ↔ er_fderr q = None
}.
(** The header of the file is in the pager's buffer. *)
Definition header_at (k : kstate) : Z := buffer k.
Definition file_segments (k : kstate) : list segment := segments_at (cbuf (kmach k)) (header_at k).
Definition entry_point (k : kstate) : Z := elf32_getEntryPoint (cbuf (kmach k)) (header_at k).

(** From [k] to [k']: the child [c] has PCB [l], page table [pt]. *)
Record loaded (k : kstate) (er : positive) (q : ElfloadRequest) (c : Z) (fs0 : list Z)
    (l : positive) (pt : Z) (fs : list Z) (x : Process) (t0 t : Z) (k' : kstate) : Prop := {
  ld_fresh : pcbs (k_procs k) !! l = None;
  ld_procs : k_procs k' = enter c l (add_pcb l (loaded_pcb q c (entry_point k) t0 t x) (k_procs k));
  ld_pcb : x = set_regions (regions x) (fresh_pcb PS_TYPE_PROCESS pt);
  ld_regions : Forall2 (λ sg r, ∃ sf, r = seg_region sg sf ∧ sf ∈ fs0 ∧ sf ∉ fs ∧
    swapfiles (k_swap k') !! sf = Some (elf_swapfile (er_path q))) (file_segments k) (regions x);
  ld_free : free_list (frs (k_swap k')) fs ∧ pt ∈ fs0 ∧ ∃ pre, fs0 = pre ++ fs;
  ld_table : pt_ok (kmem k') pt fs;
  ld_map : ∀ a, is_word a → pt_get (kmem k') pt a = image_entry (file_segments k) a;
  ld_others : ∀ g b, frame_addr g → g ∉ fs0 → in_frame g b → load32 (kmem k') b = load32 (kmem k) b;
  ld_swap : ∀ sf, sf ∉ fs0 → swapfiles (k_swap k') !! sf = swapfiles (k_swap k) !! sf;
  ld_pager : k_pager k' = set_ers (<[er := set_erstage ELFLOAD_CLOSE q]> (ers (k_pager k))) (k_pager k);
  ld_log : klog k' = klog k ++
    load_events q c (virtualPager (k_pager k)) (loaded_pcb q c (entry_point k) t0 t x);
  ld_rest : (k_vfs k', k_nfs k', k_con k') = (k_vfs k, k_nfs k, k_con k)
}.

(** The states of the turn after the image is built: preparing and running. *)
Lemma header_off_buffer k0 c o e k (i : Z) :
  L4_ThreadNo (virtualPager (k_pager k0)) ≠ c → 0 ≤ i < COPY_BUFSIZ →
  load8 (cbuf (kmach (std_files c o e k))) (header_at k0 + i) = load8 (cbuf (kmach k)) (header_at k0 + i).
Proof.
  intros Hne Hi. unfold header_at, buffer, pager_buffer.
  assert (header_at k0 + i < c * COPY_BUFSIZ ∨ c * COPY_BUFSIZ + Z.of_nat (Z.to_nat MAX_FILE_NAME) ≤ header_at k0 + i)
    as Hd.
  { unfold header_at, buffer, pager_buffer. change COPY_BUFSIZ with 16384 in *.
    change (Z.of_nat (Z.to_nat MAX_FILE_NAME)) with 32. lia. }
  unfold header_at, buffer, pager_buffer in Hd.
  unfold std_files. case_decide; cbn; rewrite !load8_strncpy by done; done.
Qed.

(** The second half of the turn. *)
Definition launch (p : ptr) (q : ElfloadRequest) (header : Z) : K unit :=
  on_procs (process_set_name p (er_path q));;
  child ← of_opt Uninit (er_child q);
  process_get_info p;;
  on_procs (pcb_upd p (upd_info (set_pid child)));;
  process_prepare2 p (er_fdout q) (er_fderr q) (er_fdin q);;
  b ← get_cbuf;
  on_procs (process_set_ip p (elf32_getEntryPoint b header));;
  process_run p true;;
  pid ← on_procs (process_get_pid p);
  cassert "er->child == process_get_pid(p)" (child =? pid);;
  closeNonblocking (er_fd q).
Lemma prepared_info q c t0 x :
  pid (info (prepared_pcb q c t0 x)) = c ∧ ps_type (info (prepared_pcb q c t0 x)) = ps_type (info x).
Proof. unfold prepared_pcb, builtin. destruct (er_fdin q); by case_decide. Qed.

Lemma prepare_loaded k l x s0 q c t0 :
  k_procs k = add_pcb l (upd_info (set_pid c)
    (upd_info (set_stime (w32 t0)) (upd_info (set_command (strncpy_path (er_path q))) x))) s0 →
  procs_ok s0 → vacant s0 c → pcbs s0 !! l = None → l ≠ 1%positive →
  ps_type (info x) = PS_TYPE_PROCESS → fin x = None → moracle (kmach k) = [] →
  (er_fdout q = None ↔ er_fderr q = None) →
  ∃ k', process_prepare2 (Some l) (er_fdout q) (er_fderr q) (er_fdin q) k = Ok tt k' ∧
    k_procs k' = enter c l (add_pcb l (prepared_pcb q c t0 x) s0) ∧ launch_view k' = launch_view k ∧
    klog k' = klog (std_files c (er_fdout q) (er_fderr q) k) ∧
    cbuf (kmach k') = cbuf (kmach (std_files c (er_fdout q) (er_fderr q) k)).
Proof.
  intros E Hok Hv Hl Hne Hty Hfin Ho Hre. set (x4 := upd_info (set_pid c) _) in E.
  assert (prepare_register (Some l) (k_procs k) = Ok tt (enter c l (k_procs k))) as Hreg.
  { rewrite E. apply (register_run _ l x4); [by apply add_pcb_ok|apply lookup_insert_eq|exact Hv]. }
  rewrite E in Hreg at 2. eexists. split.
  { eapply (prepare2_run k l _ x4); [exact Hreg|apply lookup_insert_eq|exact Hty|exact Hfin|done|done]. }
  rewrite upd_entered. set (k1 := set_procs _ k). split_and!.
  - unfold std_in, prepared_pcb. fold x4. destruct (er_fdin q) as [f|]; [|by rewrite std_files_procs].
    cbn [k_procs set_procs]. rewrite std_files_procs. cbn [k_procs set_procs k1]. by rewrite upd_entered.
  - by rewrite std_in_view, std_files_view.
  - rewrite (proj1 (std_in_log _ _ _)), !std_files_log. done.
  - rewrite (proj2 (std_in_log _ _ _)). unfold std_files. by case_decide.
Qed.

Lemma entry_point_kept k0 k k' q c :
  L4_ThreadNo (virtualPager (k_pager k0)) ≠ c → cbuf (kmach k) = cbuf (kmach k0) →
  cbuf (kmach k') = cbuf (kmach (std_files c (er_fdout q) (er_fderr q) k)) →
  elf32_getEntryPoint (cbuf (kmach k')) (header_at k0) = entry_point k0.
Proof.
  intros Hne E1 E2. unfold elf32_getEntryPoint, entry_point, elf32_getEntryPoint, load32, e_entry.
  rewrite E2, <- !Z.add_assoc, !header_off_buffer by (done || (change COPY_BUFSIZ with 16384; lia)).
  by rewrite E1.
Qed.

Lemma launch_run k0 k l x s0 q c :
  k_procs k = add_pcb l x s0 → procs_ok s0 → vacant s0 c → pcbs s0 !! l = None → l ≠ 1%positive →
  ps_type (info x) = PS_TYPE_PROCESS → fin x = None → startedAt x = 0 → moracle (kmach k) = [] →
  er_child q = Some c → (er_fdout q = None ↔ er_fderr q = None) →
  virtualPager (k_pager k) ≠ L4_nilthread → L4_ThreadNo (virtualPager (k_pager k0)) ≠ c →
  cbuf (kmach k) = cbuf (kmach k0) →
  ∃ t0 t k', launch (Some l) q (header_at k0) k = Ok tt k' ∧
    k_procs k' = enter c l (add_pcb l (loaded_pcb q c (entry_point k0) t0 t x) s0) ∧
    launch_view k' = launch_view k ∧
    klog k' = klog k ++ load_events q c (virtualPager (k_pager k)) (loaded_pcb q c (entry_point k0) t0 t x).
Proof.
  intros E Hok Hv Hl Hne Hty Hfin Hst Ho Hc Hre Hvp Hnp Hcb. unfold launch, process_set_name, process_set_ip.
  rewrite (bind_ok _ _ _ _ _ (upd_added k l x s0 _ E)). set (k1 := set_procs _ k). rewrite Hc.
  rewrite (bind_ok _ _ k1 c k1) by done.
  destruct (info_added k1 l (upd_info (set_command (strncpy_path (er_path q))) x) s0) as (i & t0 & clk & Hi);
    [done|exact Hst|]. rewrite (bind_ok _ _ _ _ _ Hi). set (k2 := set_procs _ _).
  erewrite bind_ok by (by apply (upd_added k2 l)). set (k3 := set_procs _ k2).
  destruct (prepare_loaded k3 l x s0 q c t0) as (k4 & H4 & P4 & V4 & L4 & C4); [done..|].
  rewrite (bind_ok _ _ _ _ _ H4). rewrite (bind_ok _ _ k4 (cbuf (kmach k4)) k4) by done.
  rewrite (entry_point_kept k0 k3 k4 q c) by done.
  set (x4 := prepared_pcb q c t0 x) in *. set (x5 := set_ip (entry_point k0) x4).
  set (k5 := set_procs (enter c l (add_pcb l x5 s0)) k4).
  rewrite (bind_ok _ _ k4 tt k5); last first.
  { unfold k5, x5. rewrite <- (upd_entered c l (set_ip (entry_point k0)) x4 s0), <- P4.
    apply on_procs_run, (pcb_upd_run _ l x4). rewrite P4. apply lookup_insert_eq. }
  destruct (prepared_info q c t0 x) as [I1 I2]. fold x4 in I1, I2.
  assert (k_pager k4 = k_pager k) as Hpg by (unfold launch_view in V4; injection V4; auto).
  assert (0 ≤ c < MAX_THREADS) as Hcr.
  { pose proof (off_range s0 Hok). destruct Hv as [? _]. unfold MAX_THREADS, MAX_ADDRSPACES in *. lia. }
  destruct (process_run_run k5 l x5) as [t Ht];
    [apply lookup_insert_eq|cbn; congruence|cbn; by rewrite Hpg|cbn; by rewrite I1|].
  cbn [pid info x5 set_ip] in Ht. rewrite I1 in Ht. rewrite (bind_ok _ _ _ _ _ Ht).
  change (k_procs k5) with (enter c l (add_pcb l x5 s0)). rewrite upd_entered. set (k6 := set_procs _ _).
  rewrite (bind_ok _ _ k6 (pid (info x4)) k6); last first.
  { apply on_procs_id. apply (pcb_field (λ x, pid (info x)) _ l (running t x5)), lookup_insert_eq. }
  rewrite I1.
  rewrite (bind_ok _ _ k6 tt k6) by (apply cassert_run, Z.eqb_refl).
  assert (klog k6 = klog k4 ++ [L4_TaskStart c (virtualPager (k_pager k4)) (ip x5) (sp x5)]) as L6 by done.
  exists t0, t, (klog_app [L4_Ipc L4_rootserver SOS_CLOSE SOS_IPC_SEND (w32 <$> [er_fd q])] k6).
  split; [apply emit_ok|]. split; [done|]. split; [exact V4|].
  change (klog (klog_app ?es k6)) with (klog k6 ++ es). rewrite L6, L4, std_files_log, Hpg.
  change (klog k3) with (klog k). rewrite <- !app_assoc. done.
Qed.

(** ** The four turns *)
Section turns.
Context `{StatLayout} (fuel : nat).

Lemma er_peek_run k er q c :
  loading k er q c → on_pager requestsPeek k = Ok er k ∧ on_pager (er_get er) k = Ok q k.
Proof.
  intros [[rest Hr] Hq _ _ _ _ _ _]. split; apply on_pager_id.
  - unfold requestsPeek. erewrite bind_ok by reflexivity. by rewrite Hr.
  - unfold er_get. by rewrite Hq.
Qed.
Lemma er_upd_run k er q f :
  ers (k_pager k) !! er = Some q →
  on_pager (er_upd er f) k = Ok tt (set_pager (set_ers (<[er := f q]> (ers (k_pager k))) (k_pager k)) k).
Proof. intros Hq. apply on_pager_run. unfold er_upd. by rewrite Hq. Qed.

(** The answer to the open: the loader asks for the mode of the file. *)
Definition opened (k : kstate) (er : positive) (q : ElfloadRequest) (fd : Z) (d : list Z) : kstate :=
  klog_app [L4_Ipc L4_rootserver SOS_STAT SOS_IPC_SEND []]
    (set_pager (set_copydata d (set_ers (<[er := set_erstage ELFLOAD_CHECK_EXEC (set_erfd fd q)]>
                                  (ers (k_pager k))) (k_pager k)))
      (set_kcbuf (strncpy_mem (cbuf (kmach k)) (buffer k) (er_path q) (Z.to_nat MAX_FILE_NAME)) k)).
Lemma open_turn k er q c fd d :
  loading k er q c → er_stage q = ELFLOAD_OPEN → 0 ≤ fd →
  arr_set (copyInOutData (k_pager k)) (L4_ThreadNo (virtualPager (k_pager k))) 0 = Some d →
  continueElfload fuel fd k = Ok tt (opened k er q fd d).
Proof.
  intros Hl Hst Hfd Hd. destruct (er_peek_run k er q c Hl) as [R1 R2]. unfold continueElfload.
  rewrite (bind_ok _ _ _ _ _ R1), (bind_ok _ _ _ _ _ R2), Hst. rewrite decide_False by lia.
  set (k1 := set_pager (set_ers (<[er := set_erfd fd q]> (ers (k_pager k))) (k_pager k)) k).
  set (k2 := set_pager (set_copydata d (k_pager k1)) k1).
  set (k3 := set_kcbuf (strncpy_mem (cbuf (kmach k)) (buffer k) (er_path q) (Z.to_nat MAX_FILE_NAME)) k2).
  set (k4 := klog_app [L4_Ipc L4_rootserver SOS_STAT SOS_IPC_SEND []] k3).
  rewrite (bind_ok _ _ k tt k4); last first.
  { rewrite (bind_ok _ _ _ _ _ (er_upd_run k er q _ (lo_er _ _ _ _ Hl))).
    rewrite (bind_ok _ _ k1 (virtualPager (k_pager k)) k1) by (by apply on_pager_id).
    rewrite (bind_ok _ _ k1 tt k2); last first.
    { apply on_pager_run. unfold copydata_set. rewrite (bind_ok _ _ _ (copyInOutData (k_pager k)) (k_pager k1)) by done.
      by rewrite Hd. }
    rewrite (bind_ok _ _ k2 tt k3) by done. done. }
  unfold next_erstage. erewrite er_upd_run by apply lookup_insert_eq. unfold opened.
  cbn [k4 k3 k2 k1 k_pager set_pager ers set_copydata set_ers klog_app set_kcbuf set_kmach set_swap er_stage
       set_erfd]. rewrite Hst, insert_insert_eq. done.
Qed.

(** The answer to the stat: an executable is read, anything else is refused. *)
Definition file_mode (k : kstate) : Z :=
  let b := cbuf (kmach k) in
  load8 b (wordAlign (buffer k + length (cbuf_str b (buffer k)) + 1) + st_fmode_off).
Definition asked (k : kstate) (er : positive) (q : ElfloadRequest) : kstate :=
  set_pager (set_ers (<[er := set_erstage ELFLOAD_READ_HEADER q]> (ers (k_pager k))) (k_pager k))
    (klog_app [L4_Ipc L4_rootserver SOS_READ SOS_IPC_SEND (w32 <$> [er_fd q; IO_MAX_BUFFER])] k).
Lemma exec_turn k er q c :
  loading k er q c → er_stage q = ELFLOAD_CHECK_EXEC → Z.land (file_mode k) FM_EXEC ≠ 0 →
  continueElfload fuel 0 k = Ok tt (asked k er q).
Proof.
  intros Hl Hst Hx. destruct (er_peek_run k er q c Hl) as [R1 R2]. unfold continueElfload.
  rewrite (bind_ok _ _ _ _ _ R1), (bind_ok _ _ _ _ _ R2), Hst.
  rewrite (bind_ok _ _ k tt k) by done. rewrite (bind_ok _ _ k (buffer k) k).
  2:{ unfold my_buffer. by rewrite (bind_ok _ _ k (virtualPager (k_pager k)) k) by (by apply on_pager_id). }
  rewrite (bind_ok _ _ k (cbuf (kmach k)) k) by done.
  change (load8 _ _) with (file_mode k). rewrite (proj2 (Z.eqb_neq _ _) Hx).
  unfold readNonblocking, ipc_send_simple. rewrite (bind_ok _ _ _ _ _ (emit_ok _ k)).
  unfold next_erstage. erewrite er_upd_run by apply (lo_er _ _ _ _ Hl). by rewrite Hst.
Qed.

Lemma header_turn k er q c f fs v :
  loading k er q c → er_stage q = ELFLOAD_READ_HEADER →
  elf32_checkFile (cbuf (kmach k)) (header_at k) = 0 → free_list (frs (k_swap k)) (f :: fs) →
  Forall seg_ok (file_segments k) → (frames_needed (file_segments k) ≤ length fs)%nat →
  ∃ l fs' x t0 t k', continueElfload fuel v k = Ok tt k' ∧ loaded k er q c (f :: fs) l f fs' x t0 t k'.
Proof.
  intros Hl Hst Hck Hfl Hsg Hlen. destruct (er_peek_run k er q c Hl) as [R1 R2].
  destruct Hl as [[rest L1] L2 L3 L4 L5 L6 [L7 L7'] L8]. pose proof (off_range _ L4) as Hoff.
  destruct (building_start k (er_path q) f fs) as (k1 & H1 & B1); [done|lia|done|].
  set (l := mnext (kmach k)) in *.
  destruct (segments_run k (er_path q) (f :: fs) l f (header_at k)
    (Z.to_nat (elf32_getNumProgramHeaders (cbuf (kmach k)) (header_at k))) 0 k1 fs [] _ B1 (proj2 Hfl) Hsg Hlen)
    as (k2 & fs' & x & H2 & B2 & _).
  change (building k (er_path q) (f :: fs) l f k2 fs' (file_segments k) x) in B2.
  pose proof (heap_fresh k L6) as Hfresh. pose proof (heap_next k L6) as Hnext.
  pose proof (bd_aside _ _ _ _ _ _ _ _ _ B2) as E. unfold aside in E. injection E as E1 E2 E3 E4 _ E5 E6 E7.
  pose proof (bd_pcb _ _ _ _ _ _ _ _ _ B2) as Ex.
  destruct (launch_run k k2 l x (k_procs k) q c) as (t0 & t & k3 & H3 & P3 & V3 & G3);
    [apply B2|done|done|done|lia|by rewrite Ex|by rewrite Ex|by rewrite Ex|rewrite E7; apply L6|done|done
    |by rewrite E4|done|exact E5|].
  unfold launch_view in V3. injection V3 as V1 V2 V3 V4 V5 V6 V7.
  exists l, fs', x, t0, t. eexists. split.
  { unfold continueElfload. rewrite (bind_ok _ _ _ _ _ R1), (bind_ok _ _ _ _ _ R2), Hst.
    rewrite (bind_ok _ _ k (header_at k) k).
    2:{ unfold my_buffer. by rewrite (bind_ok _ _ k (virtualPager (k_pager k)) k) by (by apply on_pager_id). }
    rewrite (bind_ok _ _ k (cbuf (kmach k)) k) by done. rewrite decide_False by (intros Hn; by apply Hn).
    rewrite (bind_ok _ _ k tt k3); last first.
    { rewrite (bind_ok _ _ _ _ _ H1), (bind_ok _ _ _ _ _ H2). exact H3. }
    unfold next_erstage. apply (er_upd_run _ _ q). by rewrite V4, E4. }
  cbv beta. rewrite Hst. set (k4 := set_pager _ k3). destruct B2 as [_ _ B3 B4 [B5 [pre B6]] _ B7 B8 B9 B10 _ _]. split.
  - done.
  - exact P3.
  - exact Ex.
  - eapply Forall2_impl; [exact B8|]. intros sg r (sf & ? & ? & ? & Hs). exists sf. split_and!; try done.
    change (swapfiles (k_swap k4)) with (swapfiles (k_swap k3)). by rewrite V6.
  - split; [|split; [done|by exists pre]]. change (frs (k_swap k4)) with (frs (k_swap k3)).
    destruct B3 as [B3 Hnd]. split; [|done]. change (fmem (frs (k_swap k3))) with (kmem k3). by rewrite V5, V7.
  - change (kmem k4) with (kmem k3). by rewrite V5.
  - change (kmem k4) with (kmem k3). by rewrite V5.
  - change (kmem k4) with (kmem k3). by rewrite V5.
  - change (swapfiles (k_swap k4)) with (swapfiles (k_swap k3)). by rewrite V6.
  - unfold k4. cbn [k_pager set_pager]. by rewrite V4, E4.
  - change (klog k4) with (klog k3). rewrite G3, E4. unfold klog. by rewrite E6.
  - change (k_vfs k4, k_nfs k4, k_con k4) with (k_vfs k3, k_nfs k3, k_con k3). by rewrite V1, V2, V3, E1, E2, E3.
Qed.

(** The end of a load: the parent gets its answer, and the queue is empty. *)
Definition alone (k : kstate) (er : positive) : Prop :=
  requests (k_pager k) = [(REQUEST_ELFLOAD, er)] ∧ requestActive (k_pager k) = true.
Definition finished (k : kstate) (er : positive) (q : ElfloadRequest) (px : Process) (rval : Z) : kstate :=
  set_pager (set_preqs [] (set_active false (set_ers (delete er (ers (k_pager k))) (k_pager k))))
    (klog_app (reply_events (L4_GlobalId (er_parent q) 1) [rval] (info px)) k).
Lemma finish_run k er q pl px rval :
  alone k er → ers (k_pager k) !! er = Some q → registered_as (k_procs k) (er_parent q) pl px →
  finishElfload fuel rval k = Ok tt (finished k er q px rval).
Proof.
  intros [Hq Ha] Her (P1 & P2 & P3). unfold finishElfload.
  rewrite (bind_ok _ _ k REQUEST_ELFLOAD k).
  2:{ apply on_pager_id. unfold requestsPeekType. erewrite bind_ok by reflexivity. by rewrite Hq. }
  rewrite (bind_ok _ _ k tt k) by done. rewrite (bind_ok _ _ k er k).
  2:{ apply on_pager_id. unfold requestsPeek. erewrite bind_ok by reflexivity. by rewrite Hq. }
  rewrite (bind_ok _ _ k q k) by (apply on_pager_id; unfold er_get; by rewrite Her).
  rewrite (bind_ok _ _ k (L4_GlobalId (er_parent q) 1) k).
  2:{ unfold PS_GET_TID. rewrite (bind_ok _ _ k (Some pl) k) by (by apply on_procs_id).
      apply on_procs_id. unfold process_get_tid. rewrite <- P3.
      by apply (pcb_field (λ y, L4_GlobalId (pid (info y)) 1)). }
  set (k1 := set_pager (set_ers (delete er (ers (k_pager k))) (k_pager k)) k).
  rewrite (bind_ok _ _ k tt k1) by (apply on_pager_run; unfold er_free; by rewrite Her).
  unfold syscall_reply. rewrite (bind_ok _ _ _ _ _ (reply_some (L4_GlobalId (er_parent q) 1) [rval] pl px k1 P1 P2)).
  set (k2 := klog_app _ k1). unfold next_request, dequeueRequest.
  rewrite (bind_ok _ _ k2 true k2) by (apply on_pager_id; unfold gets; cbn; by rewrite Ha).
  rewrite (bind_ok _ _ k2 tt k2) by done.
  set (k3 := set_pager (set_active false (k_pager k2)) k2).
  rewrite (bind_ok _ _ k2 tt k3) by done.
  set (k4 := set_pager (set_preqs [] (k_pager k3)) k3).
  rewrite (bind_ok _ _ k3 er k4).
  2:{ apply on_pager_run. unfold requestsUnshift. erewrite bind_ok by reflexivity. cbn. by rewrite Hq. }
  by rewrite (bind_ok _ _ k4 [] k4).
Qed.
Lemma close_turn k er q c pl px v :
  alone k er → ers (k_pager k) !! er = Some q → er_child q = Some c → er_stage q = ELFLOAD_CLOSE →
  registered_as (k_procs k) (er_parent q) pl px →
  continueElfload fuel v k = Ok tt (finished k er q px c).
Proof.
  intros Ha Her Hc Hst Hp. unfold continueElfload. rewrite (bind_ok _ _ k er k).
  2:{ apply on_pager_id. unfold requestsPeek. erewrite bind_ok by reflexivity. by rewrite (proj1 Ha). }
  rewrite (bind_ok _ _ k q k) by (apply on_pager_id; unfold er_get; by rewrite Her).
  rewrite Hst, Hc. rewrite (bind_ok _ _ k c k) by done. by apply (finish_run k er q pl px).
Qed.
Lemma refuse_turn k er q c pl px :
  loading k er q c → alone k er → er_stage q = ELFLOAD_CHECK_EXEC → Z.land (file_mode k) FM_EXEC = 0 →
  registered_as (k_procs k) (er_parent q) pl px →
  continueElfload fuel 0 k = Ok tt (finished k er q px (-1)).
Proof.
  intros Hl Ha Hst Hx Hp. destruct (er_peek_run k er q c Hl) as [R1 R2]. unfold continueElfload.
  rewrite (bind_ok _ _ _ _ _ R1), (bind_ok _ _ _ _ _ R2), Hst.
  rewrite (bind_ok _ _ k tt k) by done. rewrite (bind_ok _ _ k (buffer k) k).
  2:{ unfold my_buffer. by rewrite (bind_ok _ _ k (virtualPager (k_pager k)) k) by (by apply on_pager_id). }
  rewrite (bind_ok _ _ k (cbuf (kmach k)) k) by done.
  change (load8 _ _) with (file_mode k). rewrite (proj2 (Z.eqb_eq _ _) Hx).
  apply (finish_run k er q pl px); [done|apply Hl|done].
Qed.
Lemma handler_elf k er v : alone k er → vfsHandler fuel v k = continueElfload fuel v k.
Proof.
  intros [Hq _]. unfold vfsHandler. rewrite (bind_ok _ _ k REQUEST_ELFLOAD k); [done|].
  apply on_pager_id. unfold requestsPeekType. erewrite bind_ok by reflexivity. by rewrite Hq.
Qed.
End turns.

(** ** Between the turns *)
(** What the root server may do while the pager waits for its answer: anything
    that leaves the pager's requests, the table of processes and the C heap in
    order. *)
Record between (k k' : kstate) : Prop := {
  bt_pager : k_pager k' = k_pager k;
  bt_pids : pid_view (k_procs k') = pid_view (k_procs k);
  bt_heap : heap_ok k → heap_ok k'
}.
Lemma loading_between k k' er q c : between k k' → loading k er q c → loading k' er q c.
Proof.
  intros [E1 E2 E3] [L1 L2 L3 L4 L5 L6 L7 L8]. split; rewrite ?E1; try done.
  - by apply (procs_ok_view (k_procs k)).
  - unfold pid_view in E2. injection E2 as E4 E5 E6 E7. unfold vacant, slot in *. by rewrite E5, E6.
  - by apply E3.
Qed.
Lemma alone_between k k' er : between k k' → alone k er → alone k' er.
Proof. intros [E _ _]. unfold alone. by rewrite E. Qed.
(** The next stage of a load. *)
Lemma loading_stage k er q c q' m d :
  loading k er q c → er_child q' = er_child q → er_fdout q' = er_fdout q → er_fderr q' = er_fderr q →
  mnext m = mnext (kmach k) → moracle m = moracle (kmach k) →
  loading (set_pager (set_copydata d (set_ers (<[er := q']> (ers (k_pager k))) (k_pager k))) (set_kmach m k)) er q' c.
Proof.
  intros [L1 L2 L3 L4 L5 [H1 H2 H3] L7 L8] E1 E2 E3 E4 E5.
  split; try done; [apply lookup_insert_eq|congruence| |by rewrite E2, E3].
  split; cbn; unfold kmach; cbn; rewrite ?E4, ?E5; done.
Qed.
Lemma loading_opened k er q c fd d :
  loading k er q c → loading (opened k er q fd d) er (set_erstage ELFLOAD_CHECK_EXEC (set_erfd fd q)) c.
Proof.
  intros Hl. exact (loading_stage k er q c (set_erstage ELFLOAD_CHECK_EXEC (set_erfd fd q))
    (kmach (opened k er q fd d)) d Hl eq_refl eq_refl eq_refl eq_refl eq_refl).
Qed.
Lemma loading_asked k er q c :
  loading k er q c → loading (asked k er q) er (set_erstage ELFLOAD_READ_HEADER q) c.
Proof.
  intros Hl. pose proof (loading_stage k er q c (set_erstage ELFLOAD_READ_HEADER q) (kmach (asked k er q))
    (copyInOutData (k_pager k)) Hl eq_refl eq_refl eq_refl eq_refl eq_refl) as H. exact H.
Qed.
End ElfLoad.

Module ElfLoadClaims.
Import Bits Fault SwapIO Spawn ElfLoad.

(** C8: loading a program, from the answer to the open to the answer to the
    parent, whatever the root server does between the turns.  The loader asks for
    the mode of the file, with its name in the buffer.  A file that is not
    executable is refused: the parent is told -1.  Of an executable it reads the
    start, and when that is an ELF header, the new process is made: it is entered
    under the pid that was reserved for it, has a region for each segment, with
    the segment's rights and file, and a heap and a stack; its page table holds,
    for each page of each segment, where in the file it is; it starts at the entry
    point; its standard files are asked for; no frame in use and no other PCB is
    written.  After the close the parent is told the pid of its child. *)
Theorem elfload_session `{StatLayout} fuel k0 er q c fd d :
  loading k0 er q c → alone k0 er → er_stage q = ELFLOAD_OPEN → 0 ≤ fd →
  arr_set (copyInOutData (k_pager k0)) (L4_ThreadNo (virtualPager (k_pager k0))) 0 = Some d →
  let q1 := set_erstage ELFLOAD_CHECK_EXEC (set_erfd fd q) in
  let q2 := set_erstage ELFLOAD_READ_HEADER q1 in
  let q3 := set_erstage ELFLOAD_CLOSE q2 in
  vfsHandler fuel fd k0 = Ok tt (opened k0 er q fd d) ∧
  ∀ k1, between (opened k0 er q fd d) k1 →
    (Z.land (file_mode k1) FM_EXEC = 0 → ∀ pl px, registered_as (k_procs k1) (er_parent q) pl px →
      vfsHandler fuel 0 k1 = Ok tt (finished k1 er q1 px (-1))) ∧
    (Z.land (file_mode k1) FM_EXEC ≠ 0 →
      vfsHandler fuel 0 k1 = Ok tt (asked k1 er q1) ∧
      ∀ k2 v f fs, between (asked k1 er q1) k2 →
        elf32_checkFile (cbuf (kmach k2)) (header_at k2) = 0 → free_list (frs (k_swap k2)) (f :: fs) →
        Forall seg_ok (file_segments k2) → (frames_needed (file_segments k2) ≤ length fs)%nat →
        ∃ l fs' x t0 t k3, vfsHandler fuel v k2 = Ok tt k3 ∧ loaded k2 er q2 c (f :: fs) l f fs' x t0 t k3 ∧
          ∀ k4 pl px, between k3 k4 → registered_as (k_procs k4) (er_parent q) pl px →
            vfsHandler fuel 0 k4 = Ok tt (finished k4 er q3 px c)).
Proof.
  intros Hl Ha Hst Hfd Hd q1 q2 q3. split.
  { rewrite (handler_elf fuel k0 er) by done. by apply (open_turn fuel k0 er q c). }
  intros k1 Hb1. pose proof (loading_between _ _ _ _ _ Hb1 (loading_opened k0 er q c fd d Hl)) as Hl1.
  pose proof (alone_between _ _ _ Hb1 (Ha : alone (opened k0 er q fd d) er)) as Ha1. split.
  { intros Hx pl px Hp. rewrite (handler_elf fuel k1 er) by done. by apply (refuse_turn fuel k1 er q1 c pl px). }
  intros Hx. rewrite (handler_elf fuel k1 er) by done. split; [by apply (exec_turn fuel k1 er q1 c)|].
  intros k2 v f fs Hb2 Hck Hfl Hsg Hlen.
  pose proof (loading_between _ _ _ _ _ Hb2 (loading_asked k1 er q1 c Hl1)) as Hl2.
  pose proof (alone_between _ _ _ Hb2 (Ha1 : alone (asked k1 er q1) er)) as Ha2.
  destruct (header_turn fuel k2 er q2 c f fs v Hl2) as (l & fs' & x & t0 & t & k3 & H3 & Hld); [done..|].
  exists l, fs', x, t0, t, k3. rewrite (handler_elf fuel k2 er) by done. split; [done|]. split; [done|].
  intros k4 pl px Hb4 Hp. assert (alone k3 er) as Ha3.
  { unfold alone. rewrite (ld_pager _ _ _ _ _ _ _ _ _ _ _ _ Hld). exact Ha2. }
  pose proof (alone_between _ _ _ Hb4 Ha3) as Ha4. rewrite (handler_elf fuel k4 er) by done.
  apply (close_turn fuel k4 er q3 c pl px); [done| |apply Hl|done|done].
  rewrite (bt_pager _ _ Hb4), (ld_pager _ _ _ _ _ _ _ _ _ _ _ _ Hld). apply lookup_insert_eq.
Qed.

(** Process 5 loads a file of one page for the pid 6 that was reserved. *)
Definition mode_layout : StatLayout :=
  {| stat_bytes := λ s, [u8 (st_fmode s)]; st_fmode_off := 0; stat_fmode_at := λ _, eq_refl |}.
Definition demo_er : ElfloadRequest :=
  mkER ELFLOAD_OPEN (bytes_of_string "prog") VFS_NIL_FILE 5 (Some 6) None None None.
Definition demo_parent : procs := add_pcb 2 ReplyClaims.alive_proc ProcessClaims.procs0.
Definition demo_entered : procs :=
  set_sosProcs (<[Z.to_nat 5 := Some 2%positive]> (sosProcs demo_parent)) demo_parent.
Definition demo_procs : procs :=
  set_sosProcs (<[Z.to_nat 6 := PS_PLACEHOLDER]> (sosProcs demo_entered)) demo_entered.
Definition demo_frames : frames :=
  mkFrames (mkMachine (mem (mach FrameClients.booted)) ∅ [] 10 []) 3 8192 0.
Definition demo_pager : State.pager :=
  mkPager 2 2 [] [] [(REQUEST_ELFLOAD, 7%positive)] true ∅ {[ 7%positive := demo_er ]} 0 0 (L4_GlobalId 3 1)
    (replicate 256 0).
Definition demo_k0 : kstate :=
  set_pager demo_pager (set_swap (mkSwapst demo_frames ∅) (ProcessClaims.kboot demo_procs)).
Definition demo_data : list Z := replicate 256 0.
Definition demo_k1 : kstate :=
  let k := opened demo_k0 7 demo_er 0 demo_data in set_kcbuf (<[49160 := 5]> (cbuf (kmach k))) k.
Definition demo_q1 : ElfloadRequest := set_erstage ELFLOAD_CHECK_EXEC (set_erfd 0 demo_er).
Definition demo_header : memory :=
  foldr (λ p m, store32 m (49152 + fst p) (snd p)) ∅
    [(0, 0x7f454c46); (4, 0x01000000); (24, 0x8000); (28, 52); (44, 0x00010000); (52, 1);
     (56, 0x1000); (60, 0x8000); (68, 0x100); (72, 0x200); (76, 5)].
Definition demo_k2 : kstate := set_kcbuf demo_header (asked demo_k1 7 demo_q1).

Lemma demo_procs_ok : procs_ok demo_procs.
Proof.
  apply table_set_inv; [apply table_set_inv| |by right; left].
  - by apply add_pcb_ok; [apply ProcessClaims.procs0_ok|..].
  - apply (bool_decide_unpack _). by vm_compute.
  - right. right. exists 2%positive. split; [done|]. vm_compute. reflexivity.
  - apply (bool_decide_unpack _). by vm_compute.
Qed.
Lemma demo_loading : loading demo_k0 7 demo_er 6.
Proof.
  split; try done.
  - by exists [].
  - exact demo_procs_ok.
  - split; [apply (bool_decide_unpack _); by vm_compute|]. right. vm_compute. reflexivity.
  - split; [|done|done]. intros l x Hx. cbn in Hx. apply lookup_insert_Some in Hx as [[<- _]|[_ Hx]]; [done|].
    by rewrite lookup_empty in Hx.
Qed.
Lemma between_cbuf k b : between k (set_kcbuf b k).
Proof. split; [done|done|]. intros [H1 H2 H3]. by split. Qed.
Lemma demo_free : free_list (frs (k_swap demo_k2)) [8192; 12288; 16384].
Proof.
  split; [|apply (bool_decide_unpack _); reflexivity].
  repeat (split; [reflexivity|]; split; [apply (bool_decide_unpack _); reflexivity|]). reflexivity.
Qed.
Lemma elfload_session_witness :
  ∃ l fs x t0 t k3, vfsHandler (H := mode_layout) 1 1100 demo_k2 = Ok tt k3 ∧
    loaded demo_k2 7 (set_erstage ELFLOAD_READ_HEADER demo_q1) 6 [8192; 12288; 16384] l 8192 fs x t0 t k3.
Proof.
  destruct (elfload_session (H := mode_layout) 1 demo_k0 7 demo_er 6 0 demo_data demo_loading) as [_ H1];
    [split; reflexivity|reflexivity|reflexivity|vm_compute; reflexivity|].
  destruct (H1 demo_k1 (between_cbuf _ _)) as [_ H2]. clear H1.
  destruct H2 as [_ H3]; [vm_compute; discriminate|].
  destruct (H3 demo_k2 1100 8192 [12288; 16384] (between_cbuf _ _)) as (l & fs & x & t0 & t & k3 & H4 & H5 & _).
  - vm_compute. reflexivity.
  - exact demo_free.
  - apply (bool_decide_unpack _). vm_compute. exact I.
  - apply (bool_decide_unpack _). vm_compute. exact I.
  - exists l, fs, x, t0, t, k3. exact (conj H4 H5).
Defined.

(** A load that is refused does not give back the pid that was reserved for the
    child: the entry of the table stays taken, and the pid cannot be used again. *)
Theorem elfload_refused_leaks_pid `{StatLayout} fuel k er q c pl px :
  loading k er q c → alone k er → er_stage q = ELFLOAD_CHECK_EXEC → Z.land (file_mode k) FM_EXEC = 0 →
  registered_as (k_procs k) (er_parent q) pl px →
  ∃ k', vfsHandler fuel 0 k = Ok tt k' ∧ slot (k_procs k') c = slot (k_procs k) c ∧
    requests (k_pager k') = [] ∧ ers (k_pager k') !! er = None.
Proof.
  intros Hl Ha Hst Hx Hp. exists (finished k er q px (-1)). rewrite (handler_elf fuel k er) by done.
  split; [by apply (refuse_turn fuel k er q c pl px)|]. split; [done|]. split; [done|].
  apply lookup_delete_eq.
Qed.
Definition demo_k1' : kstate := opened demo_k0 7 demo_er 0 demo_data.
Lemma elfload_refused_leaks_pid_witness :
  ∃ k', vfsHandler (H := mode_layout) 1 0 demo_k1' = Ok tt k' ∧ slot (k_procs k') 6 = PS_PLACEHOLDER ∧
    requests (k_pager k') = [] ∧ ers (k_pager k') !! 7%positive = None.
Proof.
  apply (elfload_refused_leaks_pid (H := mode_layout) 1 demo_k1' 7 demo_q1 6 2 ReplyClaims.alive_proc).
  - apply loading_opened, demo_loading.
  - done.
  - done.
  - vm_compute. reflexivity.
  - split; [vm_compute; reflexivity|]. split; [apply lookup_insert_eq|done].
Defined.

(** A segment whose start is not page aligned is not entered in full: here the
    last 2048 bytes of a segment of one page at 0x8800 are on the page 0x9000,
    which has no entry. *)
Theorem setRegionOnElf_misses_last_page :
  let sg := mkSeg 0x8800 0x1000 5 0x1000 0x800 in
  findRegion 0x9000 (seg_region sg 0) = true ∧ image_entry [sg] 0x8800 ≠ 0 ∧ image_entry [sg] 0x9000 = 0.
Proof. split; [reflexivity|]. split; [vm_compute; discriminate|vm_compute; reflexivity]. Qed.
End ElfLoadClaims.
