(* ===== verification/Syscall.v ===== *)
(** * The root server ([sos/syscall.c], [sos/main.c], [sos/irq.c]) and its
    clients' library ([libs/sos/src])

    The dispatch of system calls and interrupts.  The theorems say that the
    private calls are refused to user processes without any effect, and that
    the label a client encodes is the one the servers decode. *)
From S2P Require Import Prelude Machine ListC Frames Swapfile State Pagetable Process Reply VfsCore.
From S2P Require Import Console Nfsfs Clock Vfs Lifecycle Elf PagerBase Pager.
Import Frames Time Process Reply VfsCore Vfs Clock Pager OpenDone.

(** ** Names and messages of [libs/sos/src] *)
Module SosLib.
Definition syscall_show (c : option syscall_t) : string :=
  match c with
  | Some SOS_REPLY => "SOS_REPLY"
  | Some SOS_KERNEL_PRINT => "SOS_KERNEL_PRINT"
  | Some SOS_DEBUG_FLUSH => "SOS_DEBUG_FLUSH"
  | Some SOS_MOREMEM => "SOS_MOREMEM"
  | Some SOS_COPYIN => "SOS_COPYIN"
  | Some SOS_COPYOUT => "SOS_COPYOUT"
  | Some SOS_OPEN => "SOS_OPEN"
  | Some SOS_CLOSE => "SOS_CLOSE"
  | Some SOS_READ => "SOS_READ"
  | Some SOS_WRITE => "SOS_WRITE"
  | Some SOS_FLUSH => "SOS_FLUSH"
  | Some SOS_LSEEK => "SOS_LSEEK"
  | Some SOS_GETDIRENT => "SOS_GETDIRENT"
  | Some SOS_STAT => "SOS_STAT"
  | Some SOS_REMOVE => "SOS_REMOVE"
  | Some SOS_PROCESS_CREATE => "SOS_PROCESS_CREATE"
  | Some SOS_PROCESS_DELETE => "SOS_PROCESS_DELETE"
  | Some SOS_MY_ID => "SOS_MY_ID"
  | Some SOS_PROCESS_STATUS => "SOS_PROCESS_STATUS"
  | Some SOS_PROCESS_WAIT => "SOS_PROCESS_WAIT"
  | Some SOS_TIME_STAMP => "SOS_TIME_STAMP"
  | Some SOS_USLEEP => "SOS_USLEEP"
  | Some SOS_MEMUSE => "SOS_MEMUSE"
  | Some SOS_SWAPUSE => "SOS_SWAPUSE"
  | Some SOS_PHYSUSE => "SOS_PHYSUSE"
  | Some SOS_VPAGER => "SOS_VPAGER"
  | Some SOS_MEMLOC => "SOS_MEMLOC"
  | Some SOS_MMAP => "SOS_MMAP"
  | Some SOS_SHARE_VM => "SOS_SHARE_VM"
  | Some L4_PAGEFAULT => "L4_PAGEFAULT"
  | Some L4_INTERRUPT => "L4_INTERRUPT"
  | Some L4_EXCEPTION => "L4_EXCEPTION"
  | _ => "UNRECOGNISED"
  end.
Definition process_state_show (st : process_state_t) : string :=
  match st with
  | PS_STATE_START => "START"
  | PS_STATE_ALIVE => "RUN"
  | PS_STATE_WAIT => "WAIT"
  | PS_STATE_SLEEP => "SLEEP"
  | PS_STATE_ZOMBIE => "ZOMBIE"
  end.
Definition sos_error_msg (error : Z) : string :=
  if decide (error = SOS_VFS_OK) then "Operation Succeeded"
  else if decide (error = SOS_VFS_EOF) then "End of file"
  else if decide (error = SOS_VFS_PERM) then "Invalid Permissions"
  else if decide (error = SOS_VFS_NOFILE) then "Invalid File Descriptor"
  else if decide (error = SOS_VFS_NOVNODE) then "File Doesn't Exist"
  else if decide (error = SOS_VFS_NOMEM) then "Out of Memory"
  else if decide (error = SOS_VFS_NOMORE) then "Can't Open More Files"
  else if decide (error = SOS_VFS_PATHINV) then "Invalid Path"
  else if decide (error = SOS_VFS_CORVNODE) then "Corrupt Vnode"
  else if decide (error = SOS_VFS_NOTIMP) then "Operation Not Supported by this File System"
  else if decide (error = SOS_VFS_WRITEFULL) then "File Writer Slots Full"
  else if decide (error = SOS_VFS_READFULL) then "File Reader Slots Full"
  else if decide (error = SOS_VFS_OPEN) then "File Already Open"
  else if decide (error = SOS_VFS_DIR) then "File is a Directory"
  else if decide (error = SOS_VFS_EXIST) then "File Already Exists"
  else "Error Occurred".

(** [ipc_create_msg_v]: the label a message carries, and its words. *)
Definition MAGIC_THAT_MAKES_LABELS_WORK : Z := 4.
Definition ipc_create_msg (label : Z) (words : list Z) : Z * list Z :=
  (w32 (Z.shiftl label MAGIC_THAT_MAKES_LABELS_WORK), w32 <$> words).
End SosLib.

Module Syscall.
Import SosLib.
(** [wordAlign] of [syscall.c] is the one of [pager.c]. *)
Definition is_rootthread (tid : L4_ThreadId_t) : K bool :=
  p ← on_procs (process_lookup (L4_ThreadNo tid));
  i ← process_get_info p;
  mret (bool_decide (ps_type i = PS_TYPE_ROOTTHREAD)).

Definition syscall_handle `{StatLayout} (label : Z) (tid : L4_ThreadId_t) (msg : list Z) : K Z :=
  let pid := L4_ThreadNo tid in
  let buf := pager_buffer tid in
  let word := L4_MsgWord msg in
  match syscall_of_num (TAG_SYSLAB label) with
  | Some SOS_KERNEL_PRINT =>
      b ← get_cbuf;
      put_cbuf (store8 b (buf + (COPY_BUFSIZ - 1)) 0);;
      b ← get_cbuf;
      emit (Printf (cbuf_str b buf))
  | Some SOS_OPEN =>
      b ← get_cbuf;
      m ← word 0%nat; rd ← word 1%nat; wr ← word 2%nat;
      vfs_open pid (cbuf_str b buf) (u8 m) rd wr
  | Some PSOS_OPEN =>
      root ← is_rootthread tid;
      if negb root then syscall_reply tid (-1)
      else
        b ← get_cbuf;
        m ← word 0%nat; rd ← word 1%nat; wr ← word 2%nat; for_ ← word 3%nat;
        t ← PS_GET_TID for_;
        vfs_open for_ (cbuf_str b (pager_buffer t)) (u8 m) rd wr
  | Some SOS_CLOSE => f ← word 0%nat; vfs_close pid (s32 f)
  | Some PSOS_CLOSE =>
      root ← is_rootthread tid;
      if negb root then syscall_reply tid (-1)
      else f ← word 0%nat; for_ ← word 1%nat; vfs_close for_ (s32 f)
  | Some SOS_READ => f ← word 0%nat; n ← word 1%nat; vfs_read pid (s32 f) buf n
  | Some SOS_WRITE => f ← word 0%nat; n ← word 1%nat; vfs_write pid (s32 f) buf n
  | Some SOS_FLUSH => f ← word 0%nat; vfs_flush pid (s32 f)
  | Some PSOS_FLUSH =>
      root ← is_rootthread tid;
      if negb root then syscall_reply tid (-1)
      else f ← word 0%nat; for_ ← word 1%nat; vfs_flush for_ (s32 f)
  | Some SOS_LSEEK =>
      f ← word 0%nat; pos ← word 1%nat; whence ← word 2%nat;
      vfs_lseek pid (s32 f) (s32 pos) (s32 whence)
  | Some SOS_GETDIRENT => pos ← word 0%nat; n ← word 1%nat; vfs_getdirent pid (s32 pos) buf n
  | Some SOS_STAT =>
      b ← get_cbuf;
      vfs_stat pid buf (wordAlign (buf + length (cbuf_str b buf) + 1))
  | Some SOS_REMOVE => vfs_remove pid buf
  | Some SOS_DUP => f ← word 0%nat; g ← word 1%nat; vfs_dup pid (s32 f) (s32 g)
  | Some PSOS_DUP =>
      root ← is_rootthread tid;
      if negb root then syscall_reply tid (-1)
      else f ← word 0%nat; g ← word 1%nat; for_ ← word 2%nat; vfs_dup for_ (s32 f) (s32 g)
  | Some SOS_TIME_STAMP =>
      t2 ← on_clock time_stamp;
      t1 ← on_clock time_stamp;
      syscall_reply_v tid [w32 t1; w32 (Z.shiftr t2 32)]
  | Some SOS_USLEEP => us ← word 0%nat; register_timer us tid;; mret tt
  | Some SOS_MY_ID =>
      p ← on_procs (process_lookup pid);
      me ← on_procs (process_get_pid p);
      syscall_reply tid me
  | Some SOS_VPAGER => t ← on_pager pager_get_tid; syscall_reply tid (L4_ThreadNo t)
  | _ => mret tt
  end;;
  mret 0.

(** ** Interrupts ([sos/irq.c]) and the main loop ([sos/main.c]) *)
Inductive irq_request_t := network_irq | timestamp_irq_ | timer_irq_.
#[global] Instance irq_request_eq_dec : EqDecision irq_request_t.
Proof. solve_decision. Defined.
Definition MAX_IRQ : Z := 32.
(** [irq_info]: -1 in the [irq] field is [None]. *)
Definition irq_info_t : Type := list (option irq_request_t).
Definition irq_init : irq_info_t := replicate (Z.to_nat MAX_IRQ) None.
Definition irq_add (t : irq_info_t) (irq : Z) (f : irq_request_t) : irq_info_t :=
  if bool_decide (irq < 0) || bool_decide (MAX_IRQ ≤ irq) then t
  else <[Z.to_nat irq := Some f]> t.
Definition irq_find {S} (t : irq_info_t) (irq : Z) : M S (option irq_request_t) := arr_get t irq.
(** The table [main] sets up. *)
Definition NSLU2_NPEB_IRQ : Z := 1.
Definition NSLU2_NPEC_IRQ : Z := 2.
Definition NSLU2_QM1_IRQ : Z := 3.
Definition main_irqs : irq_info_t :=
  let t := irq_add irq_init NSLU2_NPEB_IRQ network_irq in
  let t := irq_add t NSLU2_NPEC_IRQ network_irq in
  let t := irq_add t NSLU2_QM1_IRQ network_irq in
  let t := irq_add t NSLU2_TIMESTAMP_IRQ timestamp_irq_ in
  irq_add t NSLU2_TIMER0_IRQ timer_irq_.

Definition sosPagerHandler (sender : Z) (msg : list Z) : K unit :=
  addr ← L4_MsgWord msg 0;
  when (Z.land addr PAGEALIGN =? 0) (printf "SOS Segmentation fault");;
  let addr := Z.land addr PAGEALIGN in
  emit (L4_MapFpage sender addr addr L4_FullyAccessible).

Section loop.
(** The network interrupt runs driver code outside SOS: whether it was handled
    and whether a reply is due are the driver's. *)
Variable network_irq_ : K (Z * bool).

Definition run_irq (f : irq_request_t) : K Z :=
  match f with
  | network_irq => r ← network_irq_; mret (fst r)
  | timestamp_irq_ => timestamp_irq
  | timer_irq_ => timer_irq
  end.
(** One turn of [syscall_loop] on a message: the new value of [send].  [from]
    is the thread the IPC came from, [sender] its address space, [irq] the
    pending interrupt of a notification. *)
Definition SOS_IRQ_NOTIFY_BIT : Z := 31.
Definition syscall_loop `{StatLayout} (t : irq_info_t) (from : L4_ThreadId_t) (sender label irq : Z)
    (msg : list Z) : K bool :=
  if decide (from = L4_nilthread) then
    notify_bits ← L4_MsgWord msg 0;
    when (Z.testbit notify_bits SOS_IRQ_NOTIFY_BIT)
      (f ← irq_find t irq;
       f ← of_opt NullDeref f;
       ack ← run_irq f;
       when (truthy ack) (emit (L4_AcknowledgeInterrupt irq)));;
    mret false
  else
    match syscall_of_num (TAG_SYSLAB label) with
    | Some L4_PAGEFAULT => sosPagerHandler sender msg;; mret true
    | Some L4_INTERRUPT => r ← network_irq_; mret (snd r)
    | Some L4_EXCEPTION => mret false
    | _ =>
        tid ← sos_sid2tid sender;
        r ← syscall_handle label tid msg;
        mret (truthy r)
    end.
End loop.

(** ** What a refused call does *)
Lemma reply_stime tid ws i t : reply_events tid ws (set_stime t i) = reply_events tid ws i.
Proof. done. Qed.
Lemma refuse_run (rest : K unit) tid l x k :
  registered_as (k_procs k) (L4_ThreadNo tid) l x → ps_type (info x) ≠ PS_TYPE_ROOTTHREAD →
  ∃ t, (root ← is_rootthread tid; if negb root then syscall_reply tid (-1) else rest) k =
    Ok tt (klog_app (reply_events tid [-1] (info x)) (stamped k l x t)).
Proof.
  intros (Hl & Hx & _) Hty. destruct (get_info_run k l x Hx) as [t Ht]. exists t.
  erewrite bind_ok; last first.
  { unfold is_rootthread. rewrite (bind_ok _ _ k (Some l) k) by (by apply on_procs_id).
    rewrite (bind_ok _ _ _ _ _ Ht). reflexivity. }
  rewrite bool_decide_false by done. cbn [negb]. unfold syscall_reply.
  rewrite <- (reply_stime _ _ _ (w32 (t - startedAt x))).
  apply (reply_some _ _ l (upd_info (set_stime (w32 (t - startedAt x))) x)).
  - by apply (lookup_pcbs (k_procs k)).
  - apply lookup_insert_eq.
Qed.
End Syscall.

Module SyscallClaims.
Import SosLib Syscall.

(** C37: the calls reserved to the root server's own threads (open, close, flush
    and dup on behalf of another process) do nothing for a user process,
    whatever words it sends: it is answered -1, and the only other change is the
    [stime] of the caller, from one read of the clock. *)
Theorem private_calls_refused `{StatLayout} c label tid msg l x k :
  c ∈ [PSOS_OPEN; PSOS_CLOSE; PSOS_FLUSH; PSOS_DUP] →
  syscall_of_num (TAG_SYSLAB label) = Some c →
  registered_as (k_procs k) (L4_ThreadNo tid) l x → ps_type (info x) ≠ PS_TYPE_ROOTTHREAD →
  ∃ t, syscall_handle label tid msg k =
    Ok 0 (klog_app (reply_events tid [-1] (info x)) (stamped k l x t)).
Proof.
  intros Hc Hlab Hreg Hty. unfold syscall_handle. rewrite Hlab.
  assert (∀ rest, ∃ t, ((root ← is_rootthread tid;
    if negb root then syscall_reply tid (-1) else rest);; mret 0) k =
    Ok 0 (klog_app (reply_events tid [-1] (info x)) (stamped k l x t))) as Hgo.
  { intros rest. destruct (refuse_run rest tid l x k Hreg Hty) as [t Ht]. exists t.
    by rewrite (bind_ok _ _ _ _ _ Ht). }
  repeat (apply elem_of_cons in Hc as [->|Hc]; [apply Hgo|]). by apply elem_of_nil in Hc.
Qed.

(** A layout that keeps only the access mode. *)
Definition mode_layout : StatLayout :=
  {| stat_bytes := λ s, [u8 (st_fmode s)]; st_fmode_off := 0; stat_fmode_at := λ _, eq_refl |}.
(** A process asks the root server to close descriptor 0 of process 2. *)
Lemma private_calls_refused_witness :
  ∃ t, syscall_handle (H := mode_layout) (fst (ipc_create_msg (syscall_num PSOS_CLOSE) [])) (L4_GlobalId 5 1) [0; 2]
      (ProcessClaims.kboot ReplyClaims.alive_procs) =
    Ok 0 (klog_app [L4_CacheFlushAll; L4_Ipc (L4_GlobalId 5 1) SOS_REPLY SOS_IPC_REPLY [2 ^ 32 - 1]]
      (stamped (ProcessClaims.kboot ReplyClaims.alive_procs) 2 ReplyClaims.alive_proc t)).
Proof.
  apply (private_calls_refused PSOS_CLOSE _ (L4_GlobalId 5 1) [0; 2] 2 ReplyClaims.alive_proc).
  - right. left.
  - vm_compute. reflexivity.
  - split; [vm_compute; reflexivity|]. split; reflexivity.
  - discriminate.
Defined.

(** The label a client of the library puts on a message for system call
    [c], whatever its arguments, is decoded as [c] by the servers. *)
Theorem syscall_label_roundtrip c words :
  syscall_of_num (TAG_SYSLAB (fst (ipc_create_msg (syscall_num c) words))) = Some c.
Proof. by destruct c. Qed.
End SyscallClaims.
