(* ===== verification/Client.v ===== *)
(** * The library of user programs ([libs/sos/src/sos.c], [ipc.c], [ttyout.c])
    and the system it talks to

    A wrapper of the library is a program of its process: a value of [prog],
    whose only effect is IPC.  [deliver] hands a message to the server it is
    addressed to, and [run] runs a program of one process on the whole system,
    waiting for replies while events of the outside world happen.  The theorems
    say which operation of SOS each message of each wrapper reaches, with which
    arguments, and what comes back. *)
From S2P Require Import Prelude Machine ListC Frames Swapfile State Pagetable Process Reply VfsCore.
From S2P Require Import Console Nfsfs Clock Vfs Lifecycle Elf PagerBase Pager Syscall.
Import Frames Time Process Reply VfsCore Vfs Clock PagerBase Pager SosLib Syscall.

Module Client.
(** ** Programs *)
(** [Undefined] is the use of an indeterminate value or a failed assertion,
    [Spin] is [while (1);], and [Ipc] sends a message and continues with the
    words of the answer, or with [None] when the IPC failed. *)
Inductive prog (A : Type) : Type :=
  | Ret (a : A)
  | Undefined
  | Spin
  | Ipc (to : L4_ThreadId_t) (how : ipc_type_t) (label : Z) (words : list Z)
        (k : option (list Z) → prog A).
#[global] Arguments Ret {A} a.
#[global] Arguments Undefined {A}.
#[global] Arguments Spin {A}.
#[global] Arguments Ipc {A} to how label words k.
#[global] Instance prog_ret : MRet prog := λ A, Ret.
Fixpoint prog_bind_ {A B} (f : A → prog B) (p : prog A) : prog B :=
  match p with
  | Ret a => f a
  | Undefined => Undefined
  | Spin => Spin
  | Ipc to how label words k => Ipc to how label words (λ r, prog_bind_ f (k r))
  end.
#[global] Instance prog_bind : MBind prog := λ A B, prog_bind_.
(** The use of a value that may be indeterminate. *)
Definition value {A} (o : option A) : prog A :=
  match o with Some a => Ret a | None => Undefined end.

(** ** [ipc.c] *)
(** The message structure after [L4_MsgStore]: the words of the answer over the
    words that were sent. *)
Definition stored (answer msg : list Z) : list Z := answer ++ drop (length answer) msg.
(** The result is the C result and the array [rvals], whose entries are
    indeterminate ([None]) unless this was a call that succeeded. *)
Definition ipc_send_v (tid : L4_ThreadId_t) (label : syscall_t) (ipc_type : ipc_type_t) (nRval : nat)
    (words : list Z) : prog (Z * list (option Z)) :=
  let m := ipc_create_msg (syscall_num label) words in
  Ipc tid ipc_type (fst m) (snd m) (λ r,
    match r with
    | None => mret (1, replicate nRval None)
    | Some answer =>
        mret (0, match ipc_type with
                 | SOS_IPC_CALL => (λ i, stored answer (snd m) !! i) <$> seq 0 nRval
                 | _ => replicate nRval None
                 end)
    end).
Definition ipc_send := ipc_send_v.
Definition ipc_send_simple (tid : L4_ThreadId_t) (label : syscall_t) (ipc_type : ipc_type_t)
    (words : list Z) : prog (option Z) :=
  r ← ipc_send_v tid label ipc_type 1 words;
  mret (mjoin (head (snd r))).
Definition ipc_send_simple_0 tid label ipc_type := ipc_send_simple tid label ipc_type [].
Definition ipc_send_simple_1 tid label ipc_type w1 := ipc_send_simple tid label ipc_type [w1].
Definition ipc_send_simple_2 tid label ipc_type w1 w2 :=
  ipc_send_simple tid label ipc_type [w1; w2].
Definition ipc_send_simple_3 tid label ipc_type w1 w2 w3 :=
  ipc_send_simple tid label ipc_type [w1; w2; w3].
Definition ipc_send_simple_4 tid label ipc_type w1 w2 w3 w4 :=
  ipc_send_simple tid label ipc_type [w1; w2; w3; w4].

(** ** [sos.c] *)
Abbreviation YES_REPLY := SOS_IPC_CALL.
Abbreviation NO_REPLY := SOS_IPC_SEND.
Definition stdout_fd : Z := 0.
Definition stderr_fd : Z := 1.
Definition stdin_fd : Z := 2.
(** A C string of the process: where it is, and its characters. *)
Record str := mkStr { at_ : Z; chars : cstr }.
Definition strlen (s : str) : Z := length (chars s).
(** A call whose result is an [int]. *)
Definition int_call (r : prog (option Z)) : prog Z := o ← r; v ← value o; mret (s32 v).

Definition vpager : prog L4_ThreadId_t :=
  o ← ipc_send_simple_0 L4_rootserver SOS_VPAGER YES_REPLY;
  id ← value o;
  mret (L4_GlobalId id 1).
Definition copyin (data size append : Z) : prog unit :=
  t ← vpager; _ ← ipc_send_simple_3 t SOS_COPYIN YES_REPLY data size append; mret tt.
Definition copyout (data size append : Z) : prog unit :=
  t ← vpager; _ ← ipc_send_simple_3 t SOS_COPYOUT YES_REPLY data size append; mret tt.
Definition kprint (s : str) : prog unit :=
  copyin (at_ s) (strlen s + 1) 0;;
  _ ← ipc_send_simple_0 L4_rootserver SOS_KERNEL_PRINT NO_REPLY; mret tt.
Definition debug_flush : prog unit :=
  t ← vpager; _ ← ipc_send_simple_0 t SOS_DEBUG_FLUSH NO_REPLY; mret tt.
Definition moremem (base nb : Z) : prog Z :=
  t ← vpager;
  rval ← int_call (ipc_send_simple_1 t SOS_MOREMEM YES_REPLY nb);
  if decide (rval = 0) then mret 0 else copyout base 4 0;; mret rval.

Definition open_lock (path : option str) (mode readers writers : Z) : prog Z :=
  match path with Some s => copyin (at_ s) (strlen s + 1) 0 | None => mret tt end;;
  int_call (ipc_send_simple_3 L4_rootserver SOS_OPEN YES_REPLY mode readers writers).
Definition open (path : option str) (mode : Z) : prog Z :=
  open_lock path mode FM_UNLIMITED_RW FM_UNLIMITED_RW.
Definition close (file : Z) : prog Z :=
  int_call (ipc_send_simple_1 L4_rootserver SOS_CLOSE YES_REPLY file).
Definition flush (file : Z) : prog Z :=
  int_call (ipc_send_simple_1 L4_rootserver SOS_FLUSH YES_REPLY file).
Definition read (file buf nbyte : Z) : prog Z :=
  _ ← flush stdout_fd;
  rval ← int_call (ipc_send_simple_2 L4_rootserver SOS_READ YES_REPLY file nbyte);
  copyout buf nbyte 0;;
  mret rval.
Definition write (file buf nbyte : Z) : prog Z :=
  copyin buf nbyte 0;;
  int_call (ipc_send_simple_2 L4_rootserver SOS_WRITE YES_REPLY file nbyte).
Definition lseek (file pos whence : Z) : prog Z :=
  int_call (ipc_send_simple_3 L4_rootserver SOS_LSEEK YES_REPLY file pos whence).
Definition getdirent (pos name nbyte : Z) : prog Z :=
  rval ← int_call (ipc_send_simple_2 L4_rootserver SOS_GETDIRENT YES_REPLY pos nbyte);
  copyout name nbyte 0;;
  mret rval.
(** [size] is the size of [stat_t]. *)
Definition stat (size : Z) (path : str) (buf : Z) : prog Z :=
  let len := strlen path in
  copyin (at_ path) (len + 1) 0;;
  rval ← int_call (ipc_send_simple_0 L4_rootserver SOS_STAT YES_REPLY);
  let offset := (len + 1) mod 4 in
  (if decide (0 < offset) then copyout buf (4 - offset) 1 else mret tt);;
  copyout buf size 1;;
  mret rval.
Definition dup2 (file newfile : Z) : prog Z :=
  int_call (ipc_send_simple_2 L4_rootserver SOS_DUP YES_REPLY file newfile).
Definition dup (file : Z) : prog Z := dup2 file VFS_NIL_FILE.
Definition fremove (path : str) : prog Z :=
  copyin (at_ path) (strlen path + 1) 0;;
  int_call (ipc_send_simple_0 L4_rootserver SOS_REMOVE YES_REPLY).

Definition process_create2 (path : str) (fdout fderr fdin : Z) : prog Z :=
  copyin (at_ path) (strlen path + 1) 0;;
  t ← vpager;
  int_call (ipc_send_simple_3 t SOS_PROCESS_CREATE YES_REPLY fdout fderr fdin).
Definition process_create (path : str) : prog Z :=
  process_create2 path VFS_NIL_FILE VFS_NIL_FILE VFS_NIL_FILE.
Definition process_delete (pid : Z) : prog Z :=
  t ← vpager; int_call (ipc_send_simple_1 t SOS_PROCESS_DELETE YES_REPLY pid).
Definition my_id : prog Z := int_call (ipc_send_simple_0 L4_rootserver SOS_MY_ID YES_REPLY).
(** [size] is the size of [process_t]. *)
Definition process_status (size processes max : Z) : prog Z :=
  t ← vpager;
  rval ← int_call (ipc_send_simple_1 t SOS_PROCESS_STATUS YES_REPLY max);
  copyout processes (w32 (rval * size)) 0;;
  mret rval.
Definition process_wait (pid : Z) : prog Z :=
  t ← vpager; int_call (ipc_send_simple_1 t SOS_PROCESS_WAIT YES_REPLY pid).
Definition uptime : prog Z :=
  r ← ipc_send L4_rootserver SOS_TIME_STAMP YES_REPLY 2 [];
  hi ← value (mjoin (snd r !! 1%nat));
  lo ← value (mjoin (snd r !! 0%nat));
  mret (Z.shiftl hi 32 + lo).
Definition usleep (usec : Z) : prog unit :=
  _ ← ipc_send_simple_1 L4_rootserver SOS_USLEEP YES_REPLY usec; mret tt.
Definition memuse : prog Z := t ← vpager; int_call (ipc_send_simple_0 t SOS_MEMUSE YES_REPLY).
Definition swapuse : prog Z := t ← vpager; int_call (ipc_send_simple_0 t SOS_SWAPUSE YES_REPLY).
Definition physuse : prog Z := t ← vpager; int_call (ipc_send_simple_0 t SOS_PHYSUSE YES_REPLY).
Definition memloc (addr : Z) : prog Z :=
  t ← vpager; o ← ipc_send_simple_0 t SOS_MEMLOC YES_REPLY; value o.
Definition mmap (addr size rights : Z) (path : str) (offset : Z) : prog Z :=
  copyin (at_ path) (strlen path + 1) 0;;
  t ← vpager;
  o ← ipc_send_simple_4 t SOS_MMAP YES_REPLY addr size rights offset;
  value o.

(** ** [ttyout.c] *)
Definition sos_write (vData position count : Z) : prog Z := write stdout_fd vData count.
Definition sos_read (vData position count : Z) : prog Z := Undefined.
Definition abort_ : prog unit := me ← my_id; _ ← process_delete me; Spin.
Definition _Exit (status : Z) : prog unit := abort_.

(** ** The messages of a program *)
(** What a program sends when it gets the given answers, one per message. *)
Record message := mkMsg { to_ : L4_ThreadId_t; how_ : ipc_type_t; label_ : Z; words_ : list Z }.
Fixpoint sent {A} (p : prog A) (answers : list (option (list Z))) {struct answers} : list message :=
  match p with
  | Ipc to how label words k =>
      mkMsg to how label words ::
      match answers with [] => [] | r :: answers => sent (k r) answers end
  | _ => []
  end.
End Client.
