(* ===== verification/System.v ===== *)
(** * A user program on the whole system

    [deliver] hands a message of a process to the server it is addressed to,
    and [run] runs a program of the client library against the servers, which
    may have to wait for events of the outside world (an answer of the NFS
    server, a character of the serial line) before they reply. *)
From S2P Require Import Prelude Machine ListC Frames Swapfile State Pagetable Process Reply VfsCore.
From S2P Require Import Console Nfsfs Clock Vfs Lifecycle Elf PagerBase Quota Resident Pager Copy Syscall Client.
Import Frames Swapfile Time Process Reply VfsCore OpenDone Vfs Clock PagerBase Pager Resident UserPages SosLib Syscall SyscallClaims Client.

Module System.
Section system.
Context `{StatLayout, ProcessLayout}.
(** The network driver's part of an interrupt, the table of interrupts, and
    the fuel of the pager. *)
Variable network_irq_ : K (Z * bool).
Variable irqs : irq_info_t.
Variable fuel : nat.

(** A message of address space [sender]; [false] when nobody has that thread
    id, in which case the IPC fails. *)
Definition deliver (sender : Z) (m : message) : K bool :=
  vp ← on_pager pager_get_tid;
  if decide (to_ m = L4_rootserver) then
    _ ← syscall_loop network_irq_ irqs (L4_GlobalId sender 1) sender (label_ m) 0 (words_ m);
    mret true
  else if decide (to_ m = vp) then
    virtualPagerHandler fuel sender (label_ m) (words_ m);; mret true
  else mret false.

(** The first reply to a thread among some events. *)
Fixpoint reply_of (tid : L4_ThreadId_t) (es : list event) : option (list Z) :=
  match es with
  | [] => None
  | L4_Ipc to SOS_REPLY _ ws :: es => if decide (to = tid) then Some ws else reply_of tid es
  | _ :: es => reply_of tid es
  end.
(** Waiting for a reply sent after the first [n] events; the outside world acts
    as long as there is none. *)
Fixpoint await (tid : L4_ThreadId_t) (n : nat) (env : list (K unit))
    : K (option (list Z) * list (K unit)) :=
  k ← gets id;
  match reply_of tid (drop n (klog k)) with
  | Some ws => mret (Some ws, env)
  | None =>
      match env with
      | [] => mret (None, [])
      | e :: env => e;; await tid n env
      end
  end.

Inductive outcome (A : Type) := Finished (a : A) | Crashed | Looping | Waiting.
#[global] Arguments Finished {A} a.
#[global] Arguments Crashed {A}.
#[global] Arguments Looping {A}.
#[global] Arguments Waiting {A}.

(** A program of process [pid] (its thread and its address space have the same
    number); the outcome, and what the world has not done yet. *)
Fixpoint run {A} (pid : Z) (env : list (K unit)) (p : prog A) : K (outcome A * list (K unit)) :=
  match p with
  | Ret a => mret (Finished a, env)
  | Undefined => mret (Crashed, env)
  | Spin => mret (Looping, env)
  | Ipc to how label words cont =>
      k ← gets id;
      ok ← deliver pid (mkMsg to how label words);
      if negb ok then run pid env (cont None)
      else match how with
      | SOS_IPC_CALL =>
          r ← await (L4_GlobalId pid 1) (length (klog k)) env;
          match fst r with
          | Some ws => run pid (snd r) (cont (Some ws))
          | None => mret (Waiting, [])
          end
      | _ => run pid env (cont (Some []))
      end
  end.
End system.

(** ** What the servers make of a message *)
Lemma s32_w32 z : - 2 ^ 31 ≤ z < 2 ^ 31 → s32 (w32 z) = z.
Proof.
  intros Hz. unfold s32. rewrite w32_idemp. unfold w32.
  destruct (decide (0 ≤ z)); [rewrite Z.mod_small by lia; case_decide; lia|].
  replace (z mod 2 ^ 32) with (z + 2 ^ 32); [case_decide; lia|].
  rewrite <- (Z_mod_plus_full z 1), Z.mod_small; lia.
Qed.
Lemma bind_mret {S A B C} (m : M S A) (b : B) (c : C) s :
  (_ ← (m;; mret b); mret c) s = (m;; mret c) s.
Proof. unfold mbind, M_bind. by destruct (m s). Qed.

Section servers.
Context `{StatLayout, ProcessLayout}.
Variable network_irq_ : K (Z * bool).
Variable irqs : irq_info_t.
Variable fuel : nat.
Variables pid v : Z.
Hypothesis Hpid : pid ≠ L4_rootspace.
Hypothesis Hv : is_word v ∧ v ≠ L4_rootserverno.
Local Notation deliver := (deliver network_irq_ irqs fuel).
Local Notation tid := (L4_GlobalId pid 1).

(** The pager runs as thread [v] and the process is in the table at [l]. *)
Definition ready (l : positive) (k : kstate) : Prop :=
  virtualPager (k_pager k) = L4_GlobalId v 1 ∧ ∃ x, registered_as (k_procs k) pid l x.
(** A message is handled as operation [op], in every state in which the pager
    runs as thread [v] and the process exists. *)
Definition reaches (m : message) (op : K unit) : Prop :=
  ∀ l k, ready l k → deliver pid m k = (op;; mret true) k.
(** A program that gets these answers sends messages that reach [ops]. *)
Definition performs {A} (p : prog A) (answers : list Z) (ops : list (K unit)) : Prop :=
  Forall2 reaches (sent p ((λ w, Some [w]) <$> answers)) ops.

Definition to_root (c : syscall_t) (ws : list Z) : message :=
  mkMsg L4_rootserver SOS_IPC_CALL (fst (ipc_create_msg (syscall_num c) ws)) (w32 <$> ws).
Definition to_pager (c : syscall_t) (ws : list Z) : message :=
  mkMsg (L4_GlobalId v 1) SOS_IPC_CALL (fst (ipc_create_msg (syscall_num c) ws)) (w32 <$> ws).

Lemma vp_run l k : ready l k → on_pager pager_get_tid k = Ok (L4_GlobalId v 1) k.
Proof. intros [Hk _]. apply on_pager_id. unfold pager_get_tid, gets. by rewrite Hk. Qed.
Lemma reach_root c ws (op : K unit) :
  c ∉ [L4_PAGEFAULT; L4_INTERRUPT; L4_EXCEPTION] →
  (∀ l k, ready l k →
    syscall_handle (fst (ipc_create_msg (syscall_num c) ws)) tid (w32 <$> ws) k = (op;; mret 0) k) →
  reaches (to_root c ws) op.
Proof.
  intros Hc Hop l k Hk. unfold System.deliver. rewrite (bind_ok _ _ _ _ _ (vp_run l k Hk)).
  unfold to_root. cbn [to_ label_ words_]. rewrite decide_True by done.
  unfold syscall_loop. rewrite decide_False by done. rewrite syscall_label_roundtrip.
  rewrite <- (bind_mret op false true).
  assert ((tid ← sos_sid2tid pid; r ← syscall_handle (fst (ipc_create_msg (syscall_num c) ws)) tid (w32 <$> ws);
            mret (truthy r)) k = (op;; mret false) k) as Hgo.
  { rewrite (bind_ok _ _ k tid k) by (unfold sos_sid2tid; by rewrite decide_False).
    pose proof (Hop l k Hk) as E. unfold mbind, M_bind in *. rewrite E. by destruct (op k). }
  unfold mbind, M_bind in *. rewrite <- Hgo.
  destruct c; try reflexivity; set_solver.
Qed.
Lemma reach_pager c ws (op : K unit) :
  (∀ l k, ready l k →
    virtualPagerHandler fuel pid (fst (ipc_create_msg (syscall_num c) ws)) (w32 <$> ws) k = op k) →
  reaches (to_pager c ws) op.
Proof.
  intros Hop l k Hk. unfold System.deliver. rewrite (bind_ok _ _ _ _ _ (vp_run l k Hk)).
  destruct Hv as [_ Hv']. unfold to_pager. cbn [to_ label_ words_].
  rewrite decide_False by (intros [= ?]; done). rewrite decide_True by done. unfold mbind, M_bind in *. by rewrite (Hop l k Hk).
Qed.
End servers.

(** Decoding a message whose label and words are known. *)
Lemma word_bind {A} ws i w (f : Z → K A) : ws !! i = Some w → (x ← L4_MsgWord ws i; f x) = f w.
Proof. intros H. unfold L4_MsgWord. by rewrite H. Qed.
Ltac decode :=
  repeat (erewrite word_bind by reflexivity; cbv beta);
  rewrite ?s32_w32, ?w32_small by assumption; try reflexivity.
Lemma sid2tid_run pid k : pid ≠ L4_rootspace → sos_sid2tid pid k = Ok (L4_GlobalId pid 1) k.
Proof. intros. unfold sos_sid2tid. by rewrite decide_False. Qed.
Definition is_int (z : Z) : Prop := - 2 ^ 31 ≤ z < 2 ^ 31.
Lemma bind_get_cbuf {A B} (f g : memory → K A) (h : A → K B) k :
  (∀ b, f b = g b) → (a ← (b ← get_cbuf; f b); h a) k = (a ← (b ← get_cbuf; g b); h a) k.
Proof. intros E. unfold mbind, M_bind, get_cbuf. cbn. by rewrite E. Qed.
(** What [stat] skips is what the server leaves out to be word aligned. *)
Lemma pad_offset n : (- n) mod 4 = if decide (0 < n mod 4) then 4 - n mod 4 else 0.
Proof.
  pose proof (Z.mod_pos_bound n 4 ltac:(lia)). case_decide.
  - rewrite Z_mod_nz_opp_full; lia.
  - apply Z_mod_zero_opp_full. lia.
Qed.
Lemma wordAlign_pad b n :
  0 ≤ b → b mod 4 = 0 → 0 ≤ n → b + n + 4 < 2 ^ 32 →
  wordAlign (b + n + 1) = b + (n + 1) + (- (n + 1)) mod 4.
Proof.
  intros Hb Hb4 Hn Hlt. rewrite pad_offset. unfold wordAlign.
  replace (b + n + 1 - 1) with (b + n) by lia. rewrite (w32_small (b + n)) by (unfold is_word; lia).
  assert ((b + n) mod 4 = n mod 4) as -> by (rewrite Zplus_mod, Hb4, Z.add_0_l, Zmod_mod; done).
  pose proof (Z.div_mod n 4 ltac:(lia)). pose proof (Z.mod_pos_bound n 4 ltac:(lia)).
  pose proof (Z.div_mod (n + 1) 4 ltac:(lia)). pose proof (Z.mod_pos_bound (n + 1) 4 ltac:(lia)).
  rewrite w32_small by (unfold is_word; lia). case_decide; lia.
Qed.
Lemma buffer_aligned tid : pager_buffer tid mod 4 = 0.
Proof.
  unfold pager_buffer. change COPY_BUFSIZ with (4096 * 4). rewrite Z.mul_assoc. apply Z_mod_mult.
Qed.
Ltac root_call c ws :=
  eapply Forall2_cons_2;
  [ match goal with Hp : _ ≠ L4_rootspace, Hv : is_word _ ∧ _ |- _ =>
      apply (reach_root _ _ _ _ _ Hp Hv c ws) end; [set_solver|];
    intros ? ? Hready; unfold syscall_handle; rewrite syscall_label_roundtrip; decode
  | cbv beta ].
Ltac pager_call c ws :=
  eapply Forall2_cons_2;
  [ match goal with Hv : is_word _ ∧ _ |- _ => apply (reach_pager _ _ _ _ _ Hv c ws) end;
    intros ? ? [? [? (? & ? & ?)]];
    unfold virtualPagerHandler; erewrite bind_ok by (apply sid2tid_run; assumption); cbn [L4_ThreadNo];
    erewrite bind_ok by (apply on_procs_id; eassumption);
    rewrite syscall_label_roundtrip; decode
  | cbv beta ].
Ltac ask_call :=
  root_call SOS_VPAGER (@nil Z);
  [ match goal with H : ready _ _ _ _ |- _ => apply vp_run in H; unfold mbind, M_bind; by rewrite H end
  | ].
End System.

Module SystemClaims.
Import System.
Section claims.
Context `{StatLayout, ProcessLayout}.

Variable network_irq_ : K (Z * bool).
Variable irqs : irq_info_t.
Variable fuel : nat.
Variables pid v : Z.
Local Notation tid := (L4_GlobalId pid 1).
Local Notation buf := (pager_buffer tid).
Local Notation ask := (syscall_reply tid v).
Local Notation performs := (performs network_irq_ irqs fuel pid v).
Local Notation pass_in s := (copyIn fuel tid (at_ s) (strlen s + 1) 0).
Definition is_str (s : str) : Prop := is_word (at_ s) ∧ is_word (strlen s + 1).

(** C22: the file calls of the library and the root server agree.  For every
    wrapper, each message it sends, in order, reaches the operation of the
    virtual file system (or the copy between user memory and the caller's
    buffer) that the wrapper stands for, for the calling process and with the
    wrapper's arguments, and nothing else happens. *)
Theorem file_calls_agree :
  pid ≠ L4_rootspace → is_word v ∧ v ≠ L4_rootserverno →
  (∀ s m r w, is_str s → 0 ≤ m < 256 → is_word r → is_word w →
    performs (open_lock (Some s) m r w) [v; 0]
      [ask; pass_in s; b ← get_cbuf; vfs_open pid (cbuf_str b buf) m r w]) ∧
  (∀ f, is_int f → performs (close f) [] [vfs_close pid f]) ∧
  (∀ f a n x y, is_int f → is_word a → is_word n → performs (read f a n) [x; y; v]
    [vfs_flush pid stdout_fd; vfs_read pid f buf n; ask; copyOut fuel tid a n 0]) ∧
  (∀ f a n, is_int f → is_word a → is_word n → performs (write f a n) [v; 0]
    [ask; copyIn fuel tid a n 0; vfs_write pid f buf n]) ∧
  (∀ f, is_int f → performs (flush f) [] [vfs_flush pid f]) ∧
  (∀ f p w, is_int f → is_int p → is_int w → performs (lseek f p w) [] [vfs_lseek pid f p w]) ∧
  (∀ i a n y, is_int i → is_word a → is_word n → performs (getdirent i a n) [y; v]
    [vfs_getdirent pid i buf n; ask; copyOut fuel tid a n 0]) ∧
  (∀ s, is_str s → performs (fremove s) [v; 0] [ask; pass_in s; vfs_remove pid buf]) ∧
  (∀ f g, is_int f → is_int g → performs (dup2 f g) [] [vfs_dup pid f g]) ∧
  (∀ s a n y, is_str s → is_word a → is_word n → 0 ≤ pid → buf + strlen s + 4 < 2 ^ 32 →
    let pad := (- (strlen s + 1)) mod 4 in
    performs (stat n s a) ([v; 0; y; v] ++ (if decide (0 < pad) then [0; v] else []))
      ([ask; pass_in s; b ← get_cbuf; vfs_stat pid buf (wordAlign (buf + length (cbuf_str b buf) + 1))] ++
       (if decide (0 < pad) then [ask; copyOut fuel tid a pad 1] else []) ++
       [ask; copyOut fuel tid a n 1]) ∧
    wordAlign (buf + strlen s + 1) = buf + (strlen s + 1) + pad).
Proof.
  intros Hpid Hv. split_and!; intros; try match goal with H : is_str _ |- _ => destruct H end.
  - ask_call. pager_call SOS_COPYIN [at_ s; strlen s + 1; 0]. root_call SOS_OPEN [m; r; w].
    { apply bind_get_cbuf. intros b. decode. unfold u8.
      by rewrite !w32_small, Z.mod_small by (assumption || (unfold is_word; lia)). }
    constructor.
  - root_call SOS_CLOSE [f]. constructor.
  - root_call SOS_FLUSH [stdout_fd]. root_call SOS_READ [f; n]. ask_call.
    pager_call SOS_COPYOUT [a; n; 0]. constructor.
  - ask_call. pager_call SOS_COPYIN [a; n; 0]. root_call SOS_WRITE [f; n]. constructor.
  - root_call SOS_FLUSH [f]. constructor.
  - root_call SOS_LSEEK [f; p; w]. constructor.
  - root_call SOS_GETDIRENT [i; n]. ask_call. pager_call SOS_COPYOUT [a; n; 0]. constructor.
  - ask_call. pager_call SOS_COPYIN [at_ s; strlen s + 1; 0]. root_call SOS_REMOVE (@nil Z). constructor.
  - root_call SOS_DUP [f; g]. constructor.
  - split; [|apply wordAlign_pad; [|by apply buffer_aligned|..]; unfold pager_buffer, strlen in *;
               cbn [L4_ThreadNo] in *; change COPY_BUFSIZ with 16384 in *; lia].
    pose proof (Z.mod_pos_bound (strlen s + 1) 4 ltac:(lia)) as Hmod.
    assert (is_word (4 - (strlen s + 1) mod 4)) as Hpad by (unfold is_word; lia).
    unfold pad. rewrite pad_offset. unfold stat. ask_call.
    pager_call SOS_COPYIN [at_ s; strlen s + 1; 0]. root_call SOS_STAT (@nil Z).
    case_decide as Hd; [rewrite !decide_True by lia|rewrite !decide_False by lia]; cbn [app].
    + ask_call. pager_call SOS_COPYOUT [a; 4 - (strlen s + 1) mod 4; 1].
      ask_call. pager_call SOS_COPYOUT [a; n; 1]. constructor.
    + ask_call. pager_call SOS_COPYOUT [a; n; 1]. constructor.
Qed.

(** What the pager does to create a process: it reserves a pid and queues a
    request to load the program that the caller's buffer names. *)
Definition load_request (fdout fderr fdin : Z) : K unit :=
  p ← on_procs (process_lookup pid);
  child ← on_procs reserve_pid;
  er ← (if decide (child ≠ NIL_PID) then
          b ← get_cbuf;
          caller ← on_procs (process_get_pid p);
          allocElfloadRequest (cbuf_str b buf) caller fdout fderr fdin
        else mret NULL);
  match er with
  | None => syscall_reply tid (-1)
  | Some l => on_pager (er_upd l (set_child (Some child)));; queueRequest (startRequest fuel) REQUEST_ELFLOAD l
  end.
(** The status of the processes goes to the caller's buffer. *)
Definition status_request (max : Z) : K unit :=
  out ← process_write_status max;
  b ← get_cbuf;
  put_cbuf (write_bytes b buf (concat (process_bytes <$> out)));;
  syscall_reply tid (length out).

Lemma create_performed o e i :
  pid ≠ L4_rootspace → is_word v ∧ v ≠ L4_rootserverno → is_int o → is_int e → is_int i →
  Forall2 (reaches network_irq_ irqs fuel pid v) [to_pager v SOS_PROCESS_CREATE [o; e; i]] [load_request o e i].
Proof.
  intros Hpid Hv Ho He Hi. pager_call SOS_PROCESS_CREATE [o; e; i]; [|constructor].
  rewrite <- (s32_w32 o), <- (s32_w32 e), <- (s32_w32 i) at 1 by done. unfold load_request.
  symmetry. erewrite bind_ok by (apply on_procs_id; eassumption). reflexivity.
Qed.
(** C23: the calls of the library that concern memory, processes and time, other
    than [memloc] and [mmap], reach the operations they stand for, in the same
    sense: [moremem], [memuse], [swapuse], [physuse], [process_create],
    [process_create2], [process_delete], [process_status], [process_wait],
    [my_id], [uptime] and [usleep].  ([memloc] sends no address, and [mmap] is
    never answered.) *)
Theorem process_calls_agree :
  pid ≠ L4_rootspace → is_word v ∧ v ≠ L4_rootserverno →
  (∀ a n y, is_word a → is_word n → s32 y ≠ 0 → performs (moremem a n) [v; y; v]
    [ask; r ← heapGrow pid buf n; syscall_reply tid r; ask; copyOut fuel tid a 4 0]) ∧
  (∀ a n, is_word n → performs (moremem a n) [v; 0] [ask; r ← heapGrow pid buf n; syscall_reply tid r]) ∧
  (∀ q, is_word q → performs (process_delete q) [v]
    [ask; if decide (pid = q) then processDelete q;; mret tt
          else r ← processDelete q; syscall_reply tid r]) ∧
  (∀ q, 0 ≤ q < 2 ^ 32 - 1 → performs (process_wait q) [v]
    [ask; f ← on_procs (process_lookup q); w ← on_procs (process_lookup pid);
          on_procs (process_wait_for f w)]) ∧
  performs (process_wait (-1)) [v]
    [ask; w ← on_procs (process_lookup pid); on_procs (process_wait_any w)] ∧
  performs memuse [v] [ask; u ← on_pager memoryUsage; syscall_reply tid u] ∧
  performs physuse [v] [ask; u ← on_fr frames_allocated; syscall_reply tid u] ∧
  performs my_id [] [p ← on_procs (process_lookup pid); me ← on_procs (process_get_pid p);
                     syscall_reply tid me] ∧
  (∀ us, is_word us → performs (usleep us) [] [register_timer us tid;; mret tt]) ∧
  (∀ s o e i, is_str s → is_int o → is_int e → is_int i →
    performs (process_create2 s o e i) [v; 0; v] [ask; pass_in s; ask; load_request o e i]) ∧
  (∀ s, is_str s → performs (process_create s) [v; 0; v]
    [ask; pass_in s; ask; load_request VFS_NIL_FILE VFS_NIL_FILE VFS_NIL_FILE]) ∧
  (∀ size a n y, is_word a → is_int n → performs (process_status size a n) [v; y; v]
    [ask; status_request n; ask; copyOut fuel tid a (w32 (s32 y * size)) 0]) ∧
  performs swapuse [v] [ask; sf ← on_pager (gets defaultSwapfile); u ← on_swap (swapfile_get_usage sf);
                        syscall_reply tid u] ∧
  performs uptime [] [t2 ← on_clock time_stamp; t1 ← on_clock time_stamp;
                      syscall_reply_v tid [w32 t1; w32 (Z.shiftr t2 32)]].
Proof.
  intros Hpid Hv. split_and!; intros; try match goal with H : is_str _ |- _ => destruct H end.
  - ask_call. pager_call SOS_MOREMEM [n].
    lazymatch goal with |- Forall2 _ ?l _ =>
      let l' := eval lazy -[s32 decide ipc_create_msg syscall_num copyout] in l in change l with l' end.
    rewrite (decide_False (P := s32 y = 0)) by done. ask_call. pager_call SOS_COPYOUT [a; 4; 0]. constructor.
  - ask_call. pager_call SOS_MOREMEM [n]. constructor.
  - ask_call. pager_call SOS_PROCESS_DELETE [q]. constructor.
  - ask_call. pager_call SOS_PROCESS_WAIT [q].
    + rewrite w32_small, decide_False by (unfold is_word; lia). reflexivity.
    + constructor.
  - ask_call. pager_call SOS_PROCESS_WAIT [-1]. constructor.
  - ask_call. pager_call SOS_MEMUSE (@nil Z). constructor.
  - ask_call. pager_call SOS_PHYSUSE (@nil Z). constructor.
  - root_call SOS_MY_ID (@nil Z). constructor.
  - root_call SOS_USLEEP [us]. constructor.
  - ask_call. pager_call SOS_COPYIN [at_ s; strlen s + 1; 0]. ask_call.
    by apply create_performed.
  - ask_call. pager_call SOS_COPYIN [at_ s; strlen s + 1; 0]. ask_call.
    by apply create_performed.
  - ask_call. pager_call SOS_PROCESS_STATUS [n]. ask_call.
    pager_call SOS_COPYOUT [a; w32 (s32 y * size); 0]; [by rewrite w32_idemp|constructor].
  - ask_call. pager_call SOS_SWAPUSE (@nil Z). constructor.
  - root_call SOS_TIME_STAMP (@nil Z). constructor.
Qed.
End claims.

(** A process whose thread is 5, and a pager that is thread 3. *)
Definition no_process_bytes : ProcessLayout := λ _, [].
Definition quiet_network : K (Z * bool) := mret (0, false).
Lemma file_calls_agree_witness :
  performs (H := mode_layout) (H0 := no_process_bytes) quiet_network main_irqs 2 5 3
    (write 0 8190 4) [3; 0]
    [syscall_reply (L4_GlobalId 5 1) 3; copyIn 2 (L4_GlobalId 5 1) 8190 4 0;
     vfs_write 5 0 (pager_buffer (L4_GlobalId 5 1)) 4].
Proof.
  destruct (file_calls_agree (H := mode_layout) (H0 := no_process_bytes)
    quiet_network main_irqs 2 5 3) as (_ & _ & _ & Hw & _);
    [discriminate|split; [split; lia|discriminate]|]. apply Hw; split; lia.
Defined.
Lemma process_calls_agree_witness :
  performs (H := mode_layout) (H0 := no_process_bytes) quiet_network main_irqs 2 5 3
    (process_wait (-1)) [3]
    [syscall_reply (L4_GlobalId 5 1) 3;
     w ← on_procs (process_lookup 5); on_procs (process_wait_any w)].
Proof.
  destruct (process_calls_agree (H := mode_layout) (H0 := no_process_bytes)
    quiet_network main_irqs 2 5 3) as (_ & _ & _ & _ & Hw & _);
    [discriminate|split; [split; lia|discriminate]|exact Hw].
Defined.
End SystemClaims.
