(* ===== verification/EndToEnd.v ===== *)
(** * A user program, the servers and the devices together

    The theorems follow a call of the client library through the whole system:
    the message to the pager that copies user memory into the caller's buffer,
    the message to the root server, the file system, and the reply. *)
From S2P Require Import Prelude Machine ListC Frames Swapfile State Pagetable Process Reply VfsCore.
From S2P Require Import Console Nfsfs Clock Vfs FileIO Lifecycle Elf PagerBase Quota Resident Pager Copy CopyOut.
From S2P Require Import SwapIO Syscall Client System.
Import Frames Time Process Reply VfsCore FdTable OpenDone Console ConsoleSpec Nfsfs NfsQueue Vfs FdOps FileIO Clock PagerBase Pager Resident.
Import UserPages UserWrites SosLib Syscall SyscallClaims Client System.

Module EndToEnd.
(** ** Replies in the log *)
(** A process that takes replies. *)
Definition listening (x : Process) : Prop :=
  ipc_accept (info x) ≠ PS_IPC_NONE ∧ state (info x) ≠ PS_STATE_ZOMBIE ∧ state (info x) ≠ PS_STATE_START.
Lemma reply_of_reply tid ws x :
  tid ≠ L4_rootserver → tid ≠ L4_nilthread → listening x →
  reply_of tid (reply_events tid ws (info x)) = Some (w32 <$> ws).
Proof.
  intros H1 H2 (H3 & H4 & H5). unfold reply_events. rewrite decide_False by tauto.
  destruct (ipc_accept (info x)), (state (info x)); try done; simpl; by rewrite decide_True.
Qed.
Lemma reply_of_app tid es es' : reply_of tid es = None → reply_of tid (es ++ es') = reply_of tid es'.
Proof.
  induction es as [|e es IH]; [done|]. simpl. destruct e; try exact IH.
  destruct label; try exact IH. by case_decide.
Qed.
Lemma reply_of_paging tid es : Forall paging_event es → reply_of tid es = None.
Proof. induction 1 as [|e es He _ IH]; [done|]. by destruct e. Qed.
Lemma reply_of_serial tid es : Forall serial_event es → reply_of tid es = None.
Proof. induction 1 as [|e es He _ IH]; [done|]. by destruct e. Qed.
(** The calls to the file server among some events, and events without any
    traffic on the serial line or to the file server. *)
Definition nfs_calls (es : list event) : list nfs_call :=
  omap (λ e, match e with NfsCall c => Some c | _ => None end) es.
Definition silent (es : list event) : Prop := serial_out es = [] ∧ nfs_calls es = [].
Lemma nfs_calls_app es es' : nfs_calls (es ++ es') = nfs_calls es ++ nfs_calls es'.
Proof. unfold nfs_calls. by rewrite omap_app. Qed.
Lemma silent_app es es' : silent es → silent es' → silent (es ++ es').
Proof. intros [H1 H2] [H3 H4]. split; [by rewrite serial_out_app, H1, H3|by rewrite nfs_calls_app, H2, H4]. Qed.
Lemma nfs_calls_serial es : Forall serial_event es → nfs_calls es = [].
Proof. induction 1 as [|e es He _ IH]; [done|]. by destruct e. Qed.
Lemma silent_paging es : Forall paging_event es → silent es.
Proof. induction 1 as [|e es He _ IH]; [done|]. by destruct e. Qed.
Lemma silent_reply tid ws i : silent (reply_events tid ws i).
Proof. unfold reply_events. case_decide; [done|]. by destruct (ipc_accept i), (state i). Qed.

(** ** Running programs *)
Section running.
Context `{StatLayout, ProcessLayout}.
Variable network_irq_ : K (Z * bool).
Variable irqs : irq_info_t.
Variable fuel : nat.
Local Notation run := (run network_irq_ irqs fuel).
Local Notation deliver := (deliver network_irq_ irqs fuel).

Lemma run_bind {A B} pid (p : prog A) (f : A → prog B) env env' k a k' :
  run pid env p k = Ok (Finished a, env') k' → run pid env (p ≫= f) k = run pid env' (f a) k'.
Proof.
  revert env k. induction p as [b| | |to how label words c IH]; intros env k Hrun.
  - by injection Hrun as -> -> ->.
  - done.
  - done.
  - cbn [run] in Hrun. change (Ipc to how label words c ≫= f) with (Ipc to how label words (λ r, c r ≫= f)).
    cbn [run]. apply bind_inv in Hrun as (k0 & k1 & E0 & Hrun). rewrite (bind_ok _ _ _ _ _ E0).
    apply bind_inv in Hrun as (ok & k2 & E1 & Hrun). rewrite (bind_ok _ _ _ _ _ E1).
    destruct ok; cbn [negb] in *; [|by apply IH].
    destruct how; try by apply IH.
    apply bind_inv in Hrun as (r & k3 & E2 & Hrun). rewrite (bind_ok _ _ _ _ _ E2).
    destruct r as [[ws|] env1]; [by apply IH|done].
Qed.

Lemma run_bind_waiting {A B} pid (p : prog A) (f : A → prog B) env env' k k' :
  run pid env p k = Ok (Waiting, env') k' → run pid env (p ≫= f) k = Ok (Waiting, env') k'.
Proof.
  revert env k. induction p as [b| | |to how label words c IH]; intros env k Hrun; [done..|].
  cbn [run] in Hrun. change (Ipc to how label words c ≫= f) with (Ipc to how label words (λ r, c r ≫= f)).
  cbn [run]. apply bind_inv in Hrun as (k0 & k1 & E0 & Hrun). rewrite (bind_ok _ _ _ _ _ E0).
  apply bind_inv in Hrun as (ok & k2 & E1 & Hrun). rewrite (bind_ok _ _ _ _ _ E1).
  destruct ok; cbn [negb] in *; [|by apply IH].
  destruct how; try by apply IH.
  apply bind_inv in Hrun as (r & k3 & E2 & Hrun). rewrite (bind_ok _ _ _ _ _ E2).
  destruct r as [[ws|] env1]; [by apply IH|]. by injection Hrun as <- <-.
Qed.
(** A call that nobody answers. *)
Lemma run_unanswered pid to c ws k k1 es :
  deliver pid (mkMsg to SOS_IPC_CALL (fst (ipc_create_msg (syscall_num c) ws)) (w32 <$> ws)) k = Ok true k1 →
  klog k1 = klog k ++ es → reply_of (L4_GlobalId pid 1) es = None →
  run pid [] (ipc_send_simple to c YES_REPLY ws) k = Ok (Waiting, []) k1.
Proof.
  intros Hd Hlog Hno. unfold ipc_send_simple. apply run_bind_waiting. unfold ipc_send_v. cbn [System.run].
  rewrite (bind_ok _ _ k k k) by done. rewrite (bind_ok _ _ _ _ _ Hd). cbn [negb await].
  rewrite (bind_ok _ _ k1 (None, []) k1); [done|].
  rewrite (bind_ok _ _ k1 k1 k1) by done. change (id k1) with k1. by rewrite Hlog, drop_app_length, Hno.
Qed.
(** A call that is answered at once. *)
Lemma run_call pid to c ws env k k1 es answer :
  deliver pid (mkMsg to SOS_IPC_CALL (fst (ipc_create_msg (syscall_num c) ws)) (w32 <$> ws)) k = Ok true k1 →
  klog k1 = klog k ++ es → reply_of (L4_GlobalId pid 1) es = Some answer →
  run pid env (ipc_send_simple to c YES_REPLY ws) k =
    Ok (Finished (head (stored answer (w32 <$> ws))), env) k1.
Proof.
  intros Hd Hlog Hans. unfold ipc_send_simple, ipc_send_v, mbind, prog_bind. cbn [prog_bind_ System.run].
  rewrite (bind_ok _ _ k k k) by done. rewrite (bind_ok _ _ _ _ _ Hd). cbn [negb].
  rewrite (bind_ok _ _ k1 (Some answer, env) k1).
  - cbn [fst snd]. unfold mret, prog_ret. cbn [prog_bind_ System.run]. unfold stored.
    by destruct (answer ++ _).
  - destruct env; cbn [await]; rewrite (bind_ok _ _ k1 k1 k1) by done; change (id k1) with k1;
      by rewrite Hlog, drop_app_length, Hans.
Qed.

(** ** A process and the servers *)
(** Process [pid] is at [l] of the heap with the entry [x], takes replies, and
    the pager, thread [v], is not busy. *)
Record alive (pid v : Z) (l : positive) (x : Process) (k : kstate) : Prop := {
  al_pid : 0 < pid;
  al_v : is_word v ∧ v ≠ L4_rootserverno;
  al_vp : virtualPager (k_pager k) = L4_GlobalId v 1;
  al_reg : registered_as (k_procs k) pid l x;
  al_listens : listening x;
  al_data : is_Some (copyInOutData (k_pager k) !! Z.to_nat pid);
  al_mem : moracle (kmach k) = [];
  al_quiet : requests (k_pager k) = [] ∨ requestActive (k_pager k) = true
}.
Lemma alive_ready pid v l x k : alive pid v l x k → ready pid v l k.
Proof. intros [? ? Hvp Hreg]. split; [done|]. by exists x. Qed.
Lemma alive_root pid v l x k : alive pid v l x k → pid ≠ L4_rootspace.
Proof. intros [Hp]. unfold L4_rootspace. lia. Qed.
Lemma alive_log es pid v l x k : alive pid v l x k → alive pid v l x (klog_app es k).
Proof. by intros []. Qed.
Lemma alive_reply pid v l x k ws :
  alive pid v l x k →
  reply_of (L4_GlobalId pid 1) (reply_events (L4_GlobalId pid 1) ws (info x)) = Some (w32 <$> ws).
Proof.
  intros Hal. pose proof (alive_root _ _ _ _ _ Hal) as Hr.
  apply reply_of_reply; [|by intros [=]|apply Hal]. unfold L4_rootserver, L4_rootserverno.
  intros [= E]. by apply Hr.
Qed.
Lemma klog_log es k : klog (klog_app es k) = klog k ++ es.
Proof. done. Qed.

Lemma run_reached pid v l x env k k1 es answer to c ws op :
  alive pid v l x k →
  reaches network_irq_ irqs fuel pid v
    (mkMsg to SOS_IPC_CALL (fst (ipc_create_msg (syscall_num c) ws)) (w32 <$> ws)) op →
  op k = Ok tt k1 → klog k1 = klog k ++ es → reply_of (L4_GlobalId pid 1) es = Some answer →
  run pid env (ipc_send_simple to c YES_REPLY ws) k =
    Ok (Finished (head (stored answer (w32 <$> ws))), env) k1.
Proof.
  intros Hal Hre Hop. apply run_call. rewrite (Hre l k) by (by eapply alive_ready).
  by rewrite (bind_ok _ _ _ _ _ Hop).
Qed.
Section reach.
Variables pid v : Z.
Hypothesis Hpid : pid ≠ L4_rootspace.
Hypothesis Hv : is_word v ∧ v ≠ L4_rootserverno.
Local Notation reaches := (reaches network_irq_ irqs fuel pid v).
Local Notation tid := (L4_GlobalId pid 1).
Lemma reach_vpager : reaches (to_root SOS_VPAGER []) (syscall_reply tid v).
Proof.
  assert (Forall2 reaches [to_root SOS_VPAGER []] [syscall_reply tid v]) as HF;
    [ask_call; constructor|by inversion HF].
Qed.
Lemma reach_copyin a n : is_word a → is_word n → reaches (to_pager v SOS_COPYIN [a; n; 0]) (copyIn fuel tid a n 0).
Proof.
  intros. assert (Forall2 reaches [to_pager v SOS_COPYIN [a; n; 0]] [copyIn fuel tid a n 0]) as HF;
    [pager_call SOS_COPYIN [a; n; 0]; constructor|by inversion HF].
Qed.
Lemma reach_copyout a n : is_word a → is_word n → reaches (to_pager v SOS_COPYOUT [a; n; 0]) (copyOut fuel tid a n 0).
Proof.
  intros. assert (Forall2 reaches [to_pager v SOS_COPYOUT [a; n; 0]] [copyOut fuel tid a n 0]) as HF;
    [pager_call SOS_COPYOUT [a; n; 0]; constructor|by inversion HF].
Qed.
Lemma reach_write f n :
  is_int f → is_word n → reaches (to_root SOS_WRITE [f; n]) (vfs_write pid f (pager_buffer tid) n).
Proof.
  intros. assert (Forall2 reaches [to_root SOS_WRITE [f; n]] [vfs_write pid f (pager_buffer tid) n]) as HF;
    [root_call SOS_WRITE [f; n]; constructor|by inversion HF].
Qed.
Lemma reach_read f n :
  is_int f → is_word n → reaches (to_root SOS_READ [f; n]) (vfs_read pid f (pager_buffer tid) n).
Proof.
  intros. assert (Forall2 reaches [to_root SOS_READ [f; n]] [vfs_read pid f (pager_buffer tid) n]) as HF;
    [root_call SOS_READ [f; n]; constructor|by inversion HF].
Qed.
Lemma reach_flush f : is_int f → reaches (to_root SOS_FLUSH [f]) (vfs_flush pid f).
Proof.
  intros. assert (Forall2 reaches [to_root SOS_FLUSH [f]] [vfs_flush pid f]) as HF;
    [root_call SOS_FLUSH [f]; constructor|by inversion HF].
Qed.
End reach.

Lemma run_vpager pid v l x env k :
  alive pid v l x k →
  run pid env vpager k =
    Ok (Finished (L4_GlobalId v 1), env) (klog_app (reply_events (L4_GlobalId pid 1) [v] (info x)) k).
Proof.
  intros Hal. unfold vpager. erewrite run_bind; last first.
  { eapply (run_reached pid v l x env k); [done|apply reach_vpager; [by eapply alive_root|apply Hal]| | |].
    - apply (reply_some _ _ l x); apply Hal.
    - reflexivity.
    - by apply (alive_reply pid v l x k). }
  cbn. by rewrite w32_small by apply Hal.
Qed.

(** The parts of the state that a copy for [pid] leaves alone keep it alive. *)
Lemma alive_copied pid v l x k k' :
  alive pid v l x k → k_procs k' = k_procs k → requests (k_pager k') = requests (k_pager k) →
  requestActive (k_pager k') = requestActive (k_pager k) → beyond_paging k' = beyond_paging k → alive pid v l x k'.
Proof.
  intros [A1 A2 A3 A4 A5 A6 A7 A8] E1 E2 E3 [= _ _ _ _ _ E4 E6 E5].
  split; [done|done|by rewrite E4|by rewrite E1|done| |by rewrite E5|by rewrite E2, E3].
  apply lookup_lt_is_Some. rewrite E6. by apply lookup_lt_is_Some.
Qed.

Lemma run_copyin pid v l x env k a n :
  alive pid v l x k → is_word a → user_range k x FM_READ a n → 0 < n ≤ COPY_BUFSIZ →
  a mod PAGESIZE + n ≤ fuel * PAGESIZE →
  ∃ k', run pid env (copyin a n 0) k = Ok (Finished tt, env) k' ∧ alive pid v l x k' ∧
    beyond_paging k' = beyond_paging k ∧
    (∃ es, klog k' = klog k ++ es ∧ silent es) ∧
    (let buf := pager_buffer (L4_GlobalId pid 1) in
     ∀ y, load8 (cbuf (kmach k')) y =
       if decide (buf ≤ y < buf + n) then ubyte k x (a + (y - buf)) else load8 (cbuf (kmach k)) y).
Proof.
  intros Hal Ha Hr Hn Hf. unfold copyin.
  rewrite (run_bind _ _ _ _ _ _ _ _ (run_vpager _ _ _ _ env _ Hal)).
  set (es0 := reply_events _ _ _). set (k1 := klog_app es0 k).
  pose proof (alive_log _ _ _ _ _ _ Hal : alive pid v l x k1) as Hal1.
  destruct (copyIn_run fuel k1 pid l x a n) as (k' & Hrun & [C1 C2 C3 C4 (es & Ces & C5) C6]);
    [apply Hal1|pose proof (al_pid _ _ _ _ _ Hal); lia|apply Hal1|apply Hal1|
     by apply (user_range_mem k)|done|apply Hal1|done|].
  assert (is_word n) as Hnw by (unfold is_word; change COPY_BUFSIZ with 16384 in Hn; lia).
  exists k'. split; [|split; [|split; [done|split]]].
  - erewrite run_bind; [reflexivity|].
    eapply (run_reached pid v l x env k1); [done| | | |].
    + apply reach_copyin; [by eapply alive_root|apply Hal|done..].
    + exact Hrun.
    + exact C5.
    + rewrite reply_of_app by (by apply reply_of_paging). by apply (alive_reply pid v l x k).
  - by apply (alive_copied pid v l x k1).
  - exists (es0 ++ es ++ reply_events (L4_GlobalId pid 1) [] (info x)). split.
    + rewrite C5. unfold k1. by rewrite klog_log, !app_assoc.
    + repeat apply silent_app; by apply silent_reply || apply silent_paging.
  - intros y. rewrite C4, !Z.add_0_r. done.
Qed.

(** ** Writing to the console *)
(** The bytes of a range of user memory. *)
Definition user_bytes (k : kstate) (x : Process) (a n : Z) : list Z :=
  (λ i, ubyte k x (a + i)) <$> zseq 0 (Z.to_nat n).

Lemma length_user_bytes k x a n : length (user_bytes k x a n) = Z.to_nat n.
Proof. unfold user_bytes. by rewrite length_fmap, length_zseq. Qed.
(** The first bytes of the caller's buffer after a copy-in. *)
Lemma bytes_copied k k' x a n m buf :
  (∀ y, load8 (cbuf (kmach k')) y =
     if decide (buf ≤ y < buf + n) then ubyte k x (a + (y - buf)) else load8 (cbuf (kmach k)) y) →
  m ≤ n → bytes_at (cbuf (kmach k')) buf (Z.to_nat m) = user_bytes k x a m.
Proof.
  intros Hb Hm. unfold bytes_at, user_bytes. apply list_fmap_ext. intros i z Hz.
  apply list_elem_of_lookup_2, elem_of_zseq in Hz. rewrite Hb, decide_True by lia. f_equal. lia.
Qed.
Lemma int_answer pid env p (k k' : kstate) v env' :
  run pid env p k = Ok (Finished (Some v), env') k' →
  run pid env (int_call p) k = Ok (Finished (s32 v), env') k'.
Proof. intros H1. unfold int_call. by rewrite (run_bind _ _ _ _ _ _ _ _ H1). Qed.

(** The console file of descriptor [fd]. *)
Record console_fd (k : kstate) (x : Process) (fd j : Z) (f : VFile) (vn : positive) (y : VNode) : Prop := {
  cf_ok : files_ok x;
  cf_open : open_at x fd j f;
  cf_vnode : vnode f = Some vn;
  cf_vn : vnodes (k_vfs k) !! vn = Some y;
  cf_ops : vops y = FsConsole;
  cf_extra : extra y = ExConsole
}.

Lemma run_console_write pid v l x k fd j f vn y a n :
  alive pid v l x k → console_fd k x fd j f vn y → has (fmode f) FM_WRITE = true →
  (length (con_buf (k_con k)) < Z.to_nat CONSOLE_BUF_SIZ)%nat →
  user_range k x FM_READ a n → is_word a → 0 < n ≤ COPY_BUFSIZ → a mod PAGESIZE + n ≤ fuel * PAGESIZE →
  ∃ es k', let bs := user_bytes k x a (io_size n) in
    run pid [] (write fd a n) k = Ok (Finished (io_size n), []) k' ∧
    klog k' = klog k ++ es ∧ serial_out es ++ con_buf (k_con k') = con_buf (k_con k) ++ bs ∧
    (length (con_buf (k_con k')) < Z.to_nat CONSOLE_BUF_SIZ)%nat ∧
    (last bs = Some NEWLINE → con_buf (k_con k') = []).
Proof.
  intros Hal [F1 F2 F3 F4 F5 F6] Hm Hroom Hr Ha Hn Hf.
  assert (0 < io_size n ≤ n ∧ io_size n < 2 ^ 31) as Hio.
  { unfold io_size. change IO_MAX_BUFFER with 1100. change COPY_BUFSIZ with 16384 in Hn. case_decide; lia. }
  assert (is_int fd) as Hfd.
  { pose proof (at_file _ _ _ _ F2). change PROCESS_MAX_FDS with 19 in *. unfold is_int. lia. }
  assert (is_word n) as Hnw by (unfold is_word; change COPY_BUFSIZ with 16384 in Hn; lia).
  destruct (run_copyin pid v l x [] k a n Hal Ha Hr Hn Hf) as (k1 & Hrun1 & Hal1 & Hbey & (es1 & Hlog1 & [Hser1 _]) & Hb).
  injection Hbey as Ev _ Ec _ _ _ _ _.
  set (buf := pager_buffer (L4_GlobalId pid 1)) in *. set (m := io_size n) in *.
  destruct (console_write_run k1 pid vn y fd buf m) as (es & rest & Hw & Hser & Hout & Hroom' & Hnl);
    [by rewrite Ev|done|lia|by rewrite Ec|].
  rewrite (bytes_copied k k1 x a n m buf) in Hout, Hnl by (done || lia). rewrite Ec in Hout.
  set (k2 := con_after es rest k1) in Hw.
  pose proof (al_reg _ _ _ _ _ Hal1) as Hreg1.
  rewrite (write_done_run pid l x fd j f F1 F2 k2) in Hw by (done || lia).
  set (es2 := reply_events _ _ _) in Hw. set (k3 := klog_app es2 _) in Hw.
  exists (es1 ++ es ++ es2), k3. cbv zeta. split; [|split; [|split; [|split]]].
  - unfold write. rewrite (run_bind _ _ _ _ _ _ _ _ Hrun1).
    rewrite <- (s32_small m) by lia. apply int_answer.
    etransitivity; [apply (run_reached pid v l x [] k1 k3 (es ++ es2) (w32 <$> [m; syscall_num SOS_WRITE])
      L4_rootserver SOS_WRITE [fd; n] (vfs_write pid fd buf n)); [done| | | |]|].
    + apply reach_write; [by eapply alive_root|apply Hal1|done|done].
    + rewrite (vfs_write_enter pid l x fd j f F1 F2 k1 vn y) by (done || by rewrite Ev). rewrite F5. exact Hw.
    + by rewrite app_assoc.
    + rewrite reply_of_app by (by apply reply_of_serial). by apply (alive_reply pid v l x k).
    + cbn. by rewrite w32_small by (unfold is_word; lia).
  - rewrite app_assoc, <- Hlog1. by rewrite app_assoc.
  - destruct (silent_reply (L4_GlobalId pid 1) [m; syscall_num SOS_WRITE] (info x)) as [Hq _].
    rewrite !serial_out_app, Hser1. unfold es2. rewrite Hq, app_nil_r. exact Hout.
  - exact Hroom'.
  - exact Hnl.
Qed.

(** ** Reading from the file server *)
(** A call that is answered after an event of the world. *)
Lemma run_blocked pid to c ws e env k k1 k2 es1 es2 answer :
  deliver pid (mkMsg to SOS_IPC_CALL (fst (ipc_create_msg (syscall_num c) ws)) (w32 <$> ws)) k = Ok true k1 →
  klog k1 = klog k ++ es1 → reply_of (L4_GlobalId pid 1) es1 = None →
  e k1 = Ok tt k2 → klog k2 = klog k ++ es1 ++ es2 → reply_of (L4_GlobalId pid 1) es2 = Some answer →
  run pid (e :: env) (ipc_send_simple to c YES_REPLY ws) k =
    Ok (Finished (head (stored answer (w32 <$> ws))), env) k2.
Proof.
  intros Hd Hlog1 Hno He Hlog2 Hans.
  unfold ipc_send_simple, ipc_send_v, mbind, prog_bind. cbn [prog_bind_ System.run].
  rewrite (bind_ok _ _ k k k) by done. rewrite (bind_ok _ _ _ _ _ Hd). cbn [negb].
  rewrite (bind_ok _ _ k1 (Some answer, env) k2).
  - cbn [fst snd]. unfold mret, prog_ret. cbn [prog_bind_ System.run]. unfold stored.
    by destruct (answer ++ _).
  - cbn [await]. rewrite (bind_ok _ _ k1 k1 k1) by done. change (id k1) with k1.
    rewrite Hlog1, drop_app_length, Hno, (bind_ok _ _ _ _ _ He).
    destruct env; cbn [await]; rewrite (bind_ok _ _ k2 k2 k2) by done; change (id k2) with k2;
      by rewrite Hlog2, drop_app_length, reply_of_app, Hans.
Qed.

Lemma flush_any k : ∃ es st, _flush k = Ok st (con_after es [] k) ∧ Forall serial_event es ∧
  serial_out es = con_buf (k_con k).
Proof.
  destruct (decide (con_buf (k_con k) = [])) as [He|Hne].
  - exists [], 0. rewrite (flush_empty k He). split; [|split; [constructor|by rewrite He]].
    pose proof (con_after_id k) as E. rewrite He in E. by rewrite E.
  - eexists _, _. split; [by apply flush_run|]. split; [by repeat constructor|]. cbn. by rewrite app_nil_r.
Qed.
Lemma run_flush pid v l x env k fd j f vn y :
  alive pid v l x k → console_fd k x fd j f vn y →
  ∃ r es k', run pid env (flush fd) k = Ok (Finished r, env) k' ∧ k' = klog_app es (con_after [] [] k) ∧
    serial_out es = con_buf (k_con k) ∧ nfs_calls es = [].
Proof.
  intros Hal [F1 F2 F3 F4 F5 F6]. destruct (flush_any k) as (es & st & Hfl & Hser & Hout).
  assert (is_int fd) as Hfd.
  { pose proof (at_file _ _ _ _ F2). change PROCESS_MAX_FDS with 19 in *. unfold is_int. lia. }
  set (r := if decide (0 < st) then SOS_VFS_OK else SOS_VFS_EOF).
  set (es2 := reply_events (L4_GlobalId pid 1) [r] (info x)).
  set (k2 := klog_app es2 (con_after es [] k)).
  exists (s32 (w32 r)), (es ++ es2), k2. split; [|split; [|split]].
  - unfold flush. apply int_answer.
    etransitivity; [apply (run_reached pid v l x env k k2 (es ++ es2) (w32 <$> [r])
      L4_rootserver SOS_FLUSH [fd] (vfs_flush pid fd)); [done| | | |]|reflexivity].
    + apply reach_flush; [by eapply alive_root|apply Hal|done].
    + pose proof (al_reg _ _ _ _ _ Hal) as Hreg. unfold vfs_flush.
      rewrite (bind_ok _ _ _ _ _ (get_vfile_run _ _ _ _ _ _ _ false Hreg F1 F2)).
      rewrite (bind_ok _ _ k f k) by (apply on_procs_id; eapply vf_get_run; [apply Hreg|apply F2..]).
      assert (on_vfs (vn_get (Some vn)) k = Ok y k) as Hvn.
      { unfold on_vfs, zoom. rewrite (VnodeList.vn_get_ok _ _ _ F4). by destruct k. }
      rewrite F3, (bind_ok _ _ _ _ _ Hvn), F5. unfold console_flush. rewrite decide_False by done.
      rewrite (bind_ok _ _ k true k).
      2:{ unfold console_file. by rewrite (bind_ok _ _ _ _ _ Hvn), F6. }
      cbn [negb]. rewrite (bind_ok _ _ _ _ _ Hfl). by apply (reply_pid_run _ pid l x).
    + by rewrite app_assoc.
    + rewrite reply_of_app by (by apply reply_of_serial). by apply (alive_reply pid v l x k).
  - unfold k2, con_after. by rewrite !klog_app_app.
  - rewrite serial_out_app. unfold es2. by rewrite (proj1 (silent_reply _ _ _)), app_nil_r.
  - rewrite nfs_calls_app, nfs_calls_serial by done. by apply silent_reply.
Qed.

Lemma run_copyout pid v l x env k a n :
  alive pid v l x k → is_word a → out_range k x FM_WRITE a n → 0 < n ≤ COPY_BUFSIZ →
  a mod PAGESIZE + n ≤ fuel * PAGESIZE →
  ∃ k', run pid env (copyout a n 0) k = Ok (Finished tt, env) k' ∧ alive pid v l x k' ∧
    beyond_paging k' = beyond_paging k ∧
    (∃ es, klog k' = klog k ++ es ∧ silent es) ∧
    (∀ i, 0 ≤ i < n → ubyte k' x (a + i) = load8 (cbuf (kmach k)) (pager_buffer (L4_GlobalId pid 1) + i)) ∧
    (∀ y, outside k x a n y → load8 (kmem k') y = load8 (kmem k) y).
Proof.
  intros Hal Ha Hr Hn Hf. unfold copyout.
  rewrite (run_bind _ _ _ _ _ _ _ _ (run_vpager _ _ _ _ env _ Hal)).
  set (es0 := reply_events _ _ _). set (k1 := klog_app es0 k).
  pose proof (alive_log _ _ _ _ _ _ Hal : alive pid v l x k1) as Hal1.
  destruct (copyOut_run fuel k1 pid l x a n) as (k' & Hrun & [C1 C2 C3 C4 C5 C6 (es & Ces & C7) C8]);
    [apply Hal1|pose proof (al_pid _ _ _ _ _ Hal); lia|apply Hal1|apply Hal1| |done|apply Hal1|done|].
  { apply (out_range_phys k); [|done|done]. by apply (user_range_mem k); [|apply Hr]. }
  assert (is_word n) as Hnw by (unfold is_word; change COPY_BUFSIZ with 16384 in Hn; lia).
  exists k'. split; [|split; [|split; [done|split; [|split]]]].
  - erewrite run_bind; [reflexivity|].
    eapply (run_reached pid v l x env k1); [done| | | |].
    + apply reach_copyout; [by eapply alive_root|apply Hal|done..].
    + exact Hrun.
    + exact C7.
    + rewrite reply_of_app by (by apply reply_of_paging). by apply (alive_reply pid v l x k).
  - by apply (alive_copied pid v l x k1).
  - exists (es0 ++ es ++ reply_events (L4_GlobalId pid 1) [] (info x)). split.
    + rewrite C7. unfold k1. by rewrite klog_log, !app_assoc.
    + repeat apply silent_app; by apply silent_reply || apply silent_paging.
  - intros i Hi. rewrite C5 by (unfold in_range; lia). f_equal. lia.
  - intros y Hy. rewrite C6; [done|]. by rewrite Z.sub_0_r.
Qed.

(** Memory seen by a process does not depend on its files. *)
Lemma files_view k k' x x' a :
  pagetable x' = pagetable x → kmem k' = kmem k →
  entry k' x' a = entry k x a ∧ pte k' x' a = pte k x a ∧ frame_of k' x' a = frame_of k x a ∧
  phys k' x' a = phys k x a.
Proof.
  intros Ep Em. assert (entry k' x' a = entry k x a) as Ee by (unfold entry; by rewrite Ep, Em).
  assert (pte k' x' a = pte k x a) as Et by (unfold pte; by rewrite Ee, Em).
  unfold phys, frame_of. by rewrite Ee, Et.
Qed.
Lemma out_range_files k k' x x' rt lo n :
  pagetable x' = pagetable x → regions x' = regions x → kmem k' = kmem k →
  out_range k x rt lo n → out_range k' x' rt lo n.
Proof.
  intros Ep Er Em [[H1 H2 H3 H4] H5 H6].
  assert (∀ a, entry k' x' a = entry k x a) as Ee by (intros; by apply files_view).
  assert (∀ a, pte k' x' a = pte k x a) as Et by (intros; by apply files_view).
  assert (∀ a, frame_of k' x' a = frame_of k x a) as Ef by (intros; by apply files_view).
  assert (∀ a, phys k' x' a = phys k x a) as Eh by (intros; by apply files_view).
  split; [split|..]; [|intros a b; rewrite ?Ee, ?Eh, ?Ep; by eauto..].
  intros a Ha. destruct (H1 a Ha) as [r [P1 P2 P3 P4 P5 P6 P7 P8 P9]]. exists r.
  split; rewrite ?Ee, ?Et, ?Ef, ?Ep, ?Er, ?Em; done.
Qed.

(** What the caller gets for [data]. *)
Definition read_result (data : list Z) : Z := if decide (data = []) then SOS_VFS_EOF else length data.

(** The message of a read: one NFS call, the wait for its answer, the reply. *)
Lemma run_read_call pid v l x k fd j f vn y fh n attr data :
  alive pid v l x k → nfs_file k pid l x fd j f vn y fh FM_READ → nfs_idle k →
  0 < n ≤ COPY_BUFSIZ → - 2 ^ 31 ≤ read_result data < 2 ^ 31 →
  ∃ k2, run pid [read_cb (tok (k_nfs k)) NFS_OK attr data]
      (ipc_send_simple_2 L4_rootserver SOS_READ YES_REPLY fd n) k =
      Ok (Finished (Some (w32 (read_result data))), []) k2 ∧
    ended k pid (info x) (nfs_read fh (fp f) (io_size n) (tok (k_nfs k)))
      (write_bytes (cbuf (kmach k)) (pager_buffer (L4_GlobalId pid 1)) data)
      (mkVfs (<[vn := set_vstat (cp_stats attr) y]> (vnodes (k_vfs k))) (GlobalVNodes (k_vfs k)))
      (upd_pcb l (advance j f (length data)) (k_procs k)) [read_result data] k2 ∧
    alive pid v l (advance j f (length data) x) k2.
Proof.
  intros Hal Hnf Hidle Hn Hres. set (buf := pager_buffer (L4_GlobalId pid 1)).
  assert (is_int fd) as Hfd.
  { pose proof (at_file _ _ _ _ (nf_open _ _ _ _ _ _ _ _ _ _ _ Hnf)) as Hfd.
    change PROCESS_MAX_FDS with 19 in Hfd. unfold is_int. lia. }
  assert (is_word n) as Hnw by (unfold is_word; change COPY_BUFSIZ with 16384 in Hn; lia).
  pose proof (read_issued k pid l x fd j f vn y fh buf n Hnf Hidle) as Hiss.
  destruct (read_answered k pid l x fd j f vn y fh buf n attr Hidle data Hnf) as (k2 & Hcb & Hend).
  pose proof Hend as [N1 N2 N3 N4 N5 (N6 & N7 & N8 & N9)].
  exists k2. split; [|split; [exact Hend|]].
  - etransitivity; [eapply (run_blocked pid L4_rootserver SOS_READ [fd; n] _ [] k _ k2
      [NfsCall (nfs_read fh (fp f) (io_size n) (tok (k_nfs k)))]
      (reply_events (L4_GlobalId pid 1) [read_result data] (info x)) (w32 <$> [read_result data]))|reflexivity].
    + etransitivity; [eapply (reach_read pid v); [by eapply alive_root|apply Hal|done|done|by eapply alive_ready]|].
      by rewrite (bind_ok _ _ _ _ _ Hiss).
    + done.
    + done.
    + exact Hcb.
    + exact N1.
    + by apply (alive_reply pid v l x k).
  - destruct Hal as [A1 A2 A3 A4 A5 A6 A7 A8]. split; rewrite ?N8; try done.
    + rewrite N4. by apply registered_upd; [apply Hnf|].
    + apply N5.
Qed.

Lemma run_nfs_read pid v l x k fd j f vn y fh jo fo vo yo a n attr data :
  alive pid v l x k → console_fd k x stdout_fd jo fo vo yo →
  nfs_file k pid l x fd j f vn y fh FM_READ → nfs_idle k →
  out_range k x FM_WRITE a n → is_word a → 0 < n ≤ COPY_BUFSIZ → a mod PAGESIZE + n ≤ fuel * PAGESIZE →
  length data ≤ io_size n →
  ∃ es k', let x' := advance j f (length data) x in
    run pid [read_cb (tok (k_nfs k)) NFS_OK attr data] (read fd a n) k = Ok (Finished (read_result data), []) k' ∧
    klog k' = klog k ++ es ∧
    nfs_calls es = [nfs_read fh (fp f) (io_size n) (tok (k_nfs k))] ∧
    registered_as (k_procs k') pid l x' ∧
    (∀ (i : nat) b, data !! i = Some b → ubyte k' x' (a + i) = b) ∧
    (∀ z, outside k x a n z → load8 (kmem k') z = load8 (kmem k) z) ∧
    serial_out es = con_buf (k_con k) ∧ con_buf (k_con k') = [].
Proof.
  intros Hal Hcon Hnf Hidle Hr Ha Hn Hf Hlen.
  destruct (run_flush pid v l x [read_cb (tok (k_nfs k)) NFS_OK attr data] k stdout_fd jo fo vo yo Hal Hcon)
    as (r0 & es1 & k1 & Hrun1 & Hk1 & Hout1 & Hcalls1).
  assert (alive pid v l x k1) as Hal1 by (rewrite Hk1; by destruct Hal).
  assert (nfs_file k1 pid l x fd j f vn y fh FM_READ) as Hnf1 by (rewrite Hk1; by destruct Hnf).
  assert (nfs_idle k1) as Hidle1 by (rewrite Hk1; by destruct Hidle).
  set (buf := pager_buffer (L4_GlobalId pid 1)).
  assert (k_nfs k1 = k_nfs k) as En by (by rewrite Hk1).
  assert (- 2 ^ 31 ≤ read_result data < 2 ^ 31) as Hres.
  { unfold read_result. case_decide; [done|]. unfold io_size in Hlen.
    change IO_MAX_BUFFER with 1100 in Hlen. case_decide; lia. }
  destruct (run_read_call pid v l x k1 fd j f vn y fh n attr data Hal1 Hnf1 Hidle1 Hn Hres)
    as (k2 & Hread & [N1 N2 N3 N4 N5 (N6 & N7 & N8 & N9)] & Hal2). rewrite En in Hread.
  set (x' := advance j f (length data) x) in *.
  assert (kmem k2 = kmem k) as Em by (unfold kmem; rewrite N6, Hk1; done).
  destruct (run_copyout pid v l x' [] k2 a n Hal2 Ha) as (k3 & Hrun3 & Hal3 & Hbey & (es3 & Hlog3 & [Hser3 Hcalls3]) & Hdata & Hrest);
    [by apply (out_range_files k _ x)|done|done|].
  set (c := nfs_read fh (fp f) (io_size n) (tok (k_nfs k1))) in *.
  set (es2 := reply_events _ _ _) in N1.
  destruct (silent_reply (L4_GlobalId pid 1) [read_result data] (info x) : silent es2) as [Hser2 Hcalls2].
  exists (es1 ++ [NfsCall c] ++ es2 ++ es3), k3. cbv zeta. split_and!.
  - unfold read. rewrite (run_bind _ _ _ _ _ _ _ _ Hrun1). 
    rewrite (run_bind _ _ _ _ _ _ _ _ (int_answer _ _ _ _ _ _ _ Hread)).
    rewrite (run_bind _ _ _ _ _ _ _ _ Hrun3). rewrite s32_w32 by apply Hres. done.
  - rewrite Hlog3, N1, Hk1, klog_log. cbn. by rewrite <- !app_assoc.
  - by rewrite !nfs_calls_app, Hcalls1, Hcalls2, Hcalls3, <- En.
  - apply Hal3.
  - intros i b Hb. pose proof (lookup_lt_Some _ _ _ Hb). rewrite Hdata.
    2:{ unfold io_size in Hlen. case_decide; lia. }
    rewrite N2, SwapIO.load8_write_bytes, decide_True by lia. fold buf.
    replace (Z.to_nat (buf + i - buf)) with i by lia. by rewrite Hb.
  - intros z Hz. rewrite Hrest; [by rewrite Em|]. intros b Hb.
    destruct (files_view k k2 x x' b eq_refl Em) as (-> & _ & _ & ->). by apply Hz.
  - rewrite !serial_out_app, Hout1, Hser2, Hser3. cbn. by rewrite app_nil_r.
  - injection Hbey as _ _ -> _ _ _ _ _. rewrite N7, Hk1. done.
Qed.
End running.
End EndToEnd.

Module EndToEndClaims.
Import EndToEnd QuotaClaims ResidentClaims CopyClaims CopyOutClaims SystemClaims.
Section claims.
Context `{StatLayout, ProcessLayout}.
Variable network_irq_ : K (Z * bool).
Variable irqs : irq_info_t.
Variable fuel : nat.
Local Notation run := (run network_irq_ irqs fuel).

(** C13: what a program writes to the console comes out of the serial line.
    A call of [write] with [n] bytes of resident memory on a descriptor of the
    console returns, without waiting for anybody, the number of bytes taken (at
    most [IO_MAX_BUFFER]); the output so far followed by what is still in the
    console's buffer has been extended by exactly those bytes of the program's
    memory, and nothing is left in the buffer after the end of a line. *)
Theorem user_write_reaches_console pid v l x k fd j f vn y a n :
  alive pid v l x k → console_fd k x fd j f vn y → has (fmode f) FM_WRITE = true →
  (length (con_buf (k_con k)) < Z.to_nat CONSOLE_BUF_SIZ)%nat →
  user_range k x FM_READ a n → is_word a → 0 < n ≤ COPY_BUFSIZ → a mod PAGESIZE + n ≤ fuel * PAGESIZE →
  ∃ es k', let bs := user_bytes k x a (io_size n) in
    run pid [] (write fd a n) k = Ok (Finished (io_size n), []) k' ∧
    klog k' = klog k ++ es ∧ serial_out es ++ con_buf (k_con k') = con_buf (k_con k) ++ bs ∧
    (length (con_buf (k_con k')) < Z.to_nat CONSOLE_BUF_SIZ)%nat ∧
    (last bs = Some NEWLINE → con_buf (k_con k') = []).
Proof. apply run_console_write. Qed.

(** C12: what a program reads from a file is what the file server sent.  A call of
    [read] on a file of the server first brings the program's own output out,
    then asks the server once, for the position of the descriptor, and waits;
    when the data arrives the call returns its length (or end of file when there
    is none), the data is in the program's memory at the address it gave, the
    position has moved, and no other memory has changed but for the page table
    entries of the pages read into and the rest of the [n] bytes. *)
Theorem user_read_gets_data pid v l x k fd j f vn y fh jo fo vo yo a n attr data :
  alive pid v l x k → console_fd k x stdout_fd jo fo vo yo →
  nfs_file k pid l x fd j f vn y fh FM_READ → nfs_idle k →
  out_range k x FM_WRITE a n → is_word a → 0 < n ≤ COPY_BUFSIZ → a mod PAGESIZE + n ≤ fuel * PAGESIZE →
  length data ≤ io_size n →
  ∃ es k', let x' := advance j f (length data) x in
    run pid [read_cb (tok (k_nfs k)) NFS_OK attr data] (read fd a n) k =
      Ok (Finished (read_result data), []) k' ∧
    klog k' = klog k ++ es ∧
    nfs_calls es = [nfs_read fh (fp f) (io_size n) (tok (k_nfs k))] ∧
    registered_as (k_procs k') pid l x' ∧
    (∀ (i : nat) b, data !! i = Some b → ubyte k' x' (a + i) = b) ∧
    (∀ z, outside k x a n z → load8 (kmem k') z = load8 (kmem k) z) ∧
    serial_out es = con_buf (k_con k) ∧ con_buf (k_con k') = [].
Proof. apply run_nfs_read. Qed.

(** A program whose standard output is closed cannot read any more: [read]
    flushes the standard output first, a flush of a closed descriptor is not
    answered, and the program waits for ever. *)
Theorem read_blocks_without_stdout pid v l x k f a n :
  alive pid v l x k → fds x !! 0%nat = Some VFS_NIL_FILE → run pid [] (read f a n) k = Ok (Waiting, []) k.
Proof.
  intros Hal Hnil. unfold read, flush, int_call. do 2 apply run_bind_waiting.
  apply (run_unanswered network_irq_ irqs fuel pid L4_rootserver SOS_FLUSH [stdout_fd] k k []); [|by rewrite app_nil_r|done].
  etransitivity; [eapply (reach_flush network_irq_ irqs fuel pid v);
    [by eapply alive_root|apply Hal|done|by eapply alive_ready]|].
  unfold vfs_flush. rewrite (bind_ok _ _ k tt k); [done|].
  rewrite (bind_ok _ _ k None k); [done|].
  by apply (get_vfile_free k pid l x stdout_fd); [apply Hal|..].
Qed.
(** [mmap] is not answered either: the pager has no case for it. *)
Theorem mmap_never_answered pid v l x k addr size rights offset path :
  alive pid v l x k → is_str path → user_range k x FM_READ (at_ path) (strlen path + 1) →
  strlen path + 1 ≤ COPY_BUFSIZ → at_ path mod PAGESIZE + (strlen path + 1) ≤ fuel * PAGESIZE →
  ∃ k', run pid [] (mmap addr size rights path offset) k = Ok (Waiting, []) k'.
Proof.
  intros Hal [Hs1 Hs2] Hr Hn Hf.
  destruct (run_copyin network_irq_ irqs fuel pid v l x [] k (at_ path) (strlen path + 1))
    as (k1 & Hrun1 & Hal1 & _); [done..| |done|]; [unfold strlen in *; lia|].
  eexists. unfold mmap. rewrite (run_bind _ _ _ _ _ _ _ _ _ _ _ Hrun1).
  rewrite (run_bind _ _ _ _ _ _ _ _ _ _ _ (run_vpager _ _ _ _ _ _ _ [] _ Hal1)).
  apply run_bind_waiting.
  apply (run_unanswered network_irq_ irqs fuel pid (L4_GlobalId v 1) SOS_MMAP [addr; size; rights; offset] _ _ []);
    [|by rewrite app_nil_r|done].
  pose proof (alive_log (reply_events (L4_GlobalId pid 1) [v] (info x)) _ _ _ _ _ Hal1) as Hal2.
  etransitivity; [eapply (reach_pager network_irq_ irqs fuel pid v _ SOS_MMAP [addr; size; rights; offset] (mret tt));
    [|by eapply alive_ready]|done]. Unshelve. 2: by apply Hal.
  intros l' k' [_ [x' (H1 & _)]]. unfold virtualPagerHandler.
  erewrite bind_ok by (apply sid2tid_run; by eapply alive_root). cbn [L4_ThreadNo].
  erewrite bind_ok by (apply on_procs_id; eassumption). by rewrite syscall_label_roundtrip.
Qed.
End claims.

(** A process of [kpager2] with the console as standard output and a file of the
    server open for reading. *)
Definition out_file : VFile := mkVFile (Some 3%positive) FM_WRITE 0 1.
Definition in_file : VFile := mkVFile (Some 4%positive) FM_READ 10 1.
Definition user_proc : Process :=
  set_fds (<[0%nat := 0]> (<[1%nat := 1]> (fds proc0)))
    (set_files (<[0%nat := out_file]> (<[1%nat := in_file]> (files proc0))) proc0).
Definition user_vfs : vfs :=
  mkVfs (<[3%positive := VfsCoreClaims.console_vn]> {[ 4%positive := FileIOClaims.nfs_vn ]}) (Some 3%positive).
Definition user_con : Console_File :=
  mkConsole (Some 3%positive) STDOUT_FN 1 FM_UNLIMITED_RW (mkReader NIL_PID 0 0 0 0) (bytes_of_string "> ").
Definition with_user (k : kstate) : kstate :=
  set_con user_con (set_vfs user_vfs
    (set_procs (upd_pcb 2 (λ _, user_proc) (k_procs k))
      (set_pager (set_vpager (L4_GlobalId 3 1) (k_pager k)) k))).
Lemma user_files_ok : files_ok user_proc.
Proof.
  split; [reflexivity|reflexivity| |].
  - intros fd Hfd.
    assert (Forall (λ fd, fd = VFS_NIL_FILE ∨ fd = 0 ∨ fd = 1) (fds user_proc)) as HF.
    { apply (bool_decide_unpack _). vm_compute. exact I. }
    rewrite Forall_forall in HF. destruct (HF fd Hfd) as [->|[->| ->]]; [by left|right..];
      (split; [done|by eexists]).
  - intros [|[|j]] w Hw Hn; [by injection Hw as <-..|]. exfalso. apply Hn.
    by apply lookup_replicate in Hw as [-> _].
Qed.
Lemma user_alive k :
  registered_as (k_procs k) 5 2 proc0 → requests (k_pager k) = [] → moracle (kmach k) = [] →
  is_Some (copyInOutData (k_pager k) !! 5%nat) → alive 5 3 2 user_proc (with_user k).
Proof.
  intros Hreg Hq Hm Hd. split; [lia|split; [split; lia|done]|done| |done|exact Hd|exact Hm|by left].
  by apply (registered_upd (k_procs k) 5 2 proc0 (λ _, user_proc)).
Qed.
Lemma with_user_range k rt lo n : out_range k proc0 rt lo n → out_range (with_user k) user_proc rt lo n.
Proof. by apply out_range_files. Qed.
Lemma kuser_alive : alive 5 3 2 user_proc (with_user kpager2).
Proof.
  destruct kpager2_quiet as (Q1 & Q2 & Q3).
  apply user_alive; [exact kpager2_reg|exact Q1|exact Q2|exists 0; exact Q3].
Qed.
Lemma user_console k : console_fd (with_user k) user_proc 0 0 out_file 3 VfsCoreClaims.console_vn.
Proof. split; [exact user_files_ok|by split|reflexivity..]. Qed.
Lemma user_nfs k :
  registered_as (k_procs k) 5 2 proc0 →
  nfs_file (with_user k) 5 2 user_proc 1 1 in_file 4 FileIOClaims.nfs_vn 77 FM_READ.
Proof.
  intros Hreg. split; [|exact user_files_ok|by split|reflexivity..].
  by apply (registered_upd (k_procs k) 5 2 proc0 (λ _, user_proc)).
Qed.
Lemma user_idle k :
  NfsRequests (k_nfs k) = [] → tok (k_nfs k) = 0 → moracle (kmach k) = [] → nfs_idle (with_user k).
Proof.
  intros E1 E2 E3. split; [exact E1| |exact E3]. change (k_nfs (with_user k)) with (k_nfs k).
  rewrite E2. by apply (bool_decide_unpack _).
Qed.
Lemma kuser_idle : nfs_idle (with_user kpager2).
Proof.
  destruct kpager2_quiet as (_ & Q2 & _).
  assert (NfsRequests (k_nfs kpager2) = [] ∧ tok (k_nfs kpager2) = 0) as [E1 E2]
    by (vm_compute; split; reflexivity).
  by apply user_idle.
Qed.
Lemma user_con_of k : k_con (with_user k) = user_con.
Proof. reflexivity. Qed.
Lemma demo_size : 0 < 4 ≤ COPY_BUFSIZ ∧ 8190 mod PAGESIZE + 4 ≤ 2%nat * PAGESIZE ∧
  length (con_buf user_con) < CONSOLE_BUF_SIZ.
Proof. by apply (bool_decide_unpack _). Qed.
(** Four bytes that cross a page border. *)
Lemma user_write_reaches_console_witness :
  ∃ es k', let bs := user_bytes (with_user kpager2) user_proc 8190 (io_size 4) in
    run (H := mode_layout) (H0 := no_process_bytes) quiet_network main_irqs 2 5 [] (write 0 8190 4) (with_user kpager2) =
      Ok (Finished (io_size 4), []) k' ∧
    klog k' = klog (with_user kpager2) ++ es ∧
    serial_out es ++ con_buf (k_con k') = con_buf (k_con (with_user kpager2)) ++ bs.
Proof.
  destruct demo_size as (D1 & D2 & D3).
  destruct (user_write_reaches_console (H := mode_layout) (H0 := no_process_bytes) quiet_network main_irqs 2
    5 3 2 user_proc (with_user kpager2) 0 0 out_file 3 VfsCoreClaims.console_vn 8190 4)
    as (es & k' & H1 & H2 & H3 & _).
  - exact kuser_alive.
  - exact (user_console kpager2).
  - reflexivity.
  - rewrite user_con_of. lia.
  - destruct (with_user_range kpager2 FM_READ 8190 4) as [HR _ _]; [|exact HR].
    destruct demo_out_range as [_ R2 R3]. split; [exact demo_range|exact R2|exact R3].
  - split; lia.
  - exact D1.
  - exact D2.
  - exists es, k'. split; [exact H1|]. split; [exact H2|exact H3].
Defined.
Definition attr0 : fattr_t := mkFattr 1 6 13 0 0 0 0.
Lemma user_read_gets_data_witness :
  ∃ es k', let x' := advance 1 in_file 3%nat user_proc in
    run (H := mode_layout) (H0 := no_process_bytes) quiet_network main_irqs 2 5
      [read_cb (tok (k_nfs (with_user kpager2))) NFS_OK attr0 [7; 8; 9]] (read 1 8190 4) (with_user kpager2) =
      Ok (Finished 3, []) k' ∧
    klog k' = klog (with_user kpager2) ++ es ∧
    ∀ (i : nat) b, [7; 8; 9] !! i = Some b → ubyte k' x' (8190 + i) = b.
Proof.
  destruct demo_size as (D1 & D2 & _).
  destruct (user_read_gets_data (H := mode_layout) (H0 := no_process_bytes) quiet_network main_irqs 2
    5 3 2 user_proc (with_user kpager2) 1 1 in_file 4 FileIOClaims.nfs_vn 77 0 out_file 3
    VfsCoreClaims.console_vn 8190 4 attr0 [7; 8; 9]) as (es & k' & H1 & H2 & _ & _ & H3 & _).
  - exact kuser_alive.
  - exact (user_console kpager2).
  - exact (user_nfs kpager2 kpager2_reg).
  - exact kuser_idle.
  - exact (with_user_range kpager2 FM_WRITE 8190 4 demo_out_range).
  - split; lia.
  - exact D1.
  - exact D2.
  - by apply (bool_decide_unpack _).
  - exists es, k'. split; [exact H1|]. split; [exact H2|exact H3].
Defined.
End EndToEndClaims.
