(* ===== verification/Boot.v ===== *)
(** * Starting SOS ([sos/libsos.c], [sos/main.c], [sos/network.c], [sos/timer.c])

    What happens between power-on and the first system call: the memory is
    found in the boot image and given to the frame allocator, the threads of the
    root server are started, and the programs of the boot image become
    processes. *)
From S2P Require Import Prelude Machine ListC Frames Swapfile State Pagetable Process Reply VfsCore.
From S2P Require Import Console Nfsfs Clock Vfs Lifecycle PagerBase Quota Resident Pager Copy Fault.
From S2P Require Import Syscall Spawn Bootinfo.
Import Frames Swapfile Pagetable Time Process ProcessInv Reply VfsCore OpenDone Vfs Clock PagerBase Pager.

Module Boot.
Import Bootinfo.

(** ** The static variables of [libsos.c], [timer.c] and [network.c] *)
(** The [Region] of a [BootinfoRegion] is shared with the process once the
    process runs: [br_at] are its places in the list of the process's regions. *)
Record BootinfoRegion := mkBR { br_region : Region; br_id : Z; br_at : list nat }.
(** [tid] is indeterminate until the thread is made. *)
Record BootinfoProcess := mkBip {
  bip_process : ptr; bip_regions : list BootinfoRegion; bip_tid : option Z; bip_sid : Z
}.
Record bootst := mkBoot {
  b_k : kstate;
  bips : list BootinfoProcess;
  bootinfo_id : Z;
  sSosMemoryBot : Z;
  sSosMemoryTop : Z;
  utimer_p : ptr;
  serial : bool
}.
Abbreviation B := (M bootst).
Definition set_b_k v s := mkBoot v (bips s) (bootinfo_id s) (sSosMemoryBot s) (sSosMemoryTop s)
                                 (utimer_p s) (serial s).
Definition set_bips v s := mkBoot (b_k s) v (bootinfo_id s) (sSosMemoryBot s) (sSosMemoryTop s)
                                  (utimer_p s) (serial s).
Definition set_bootinfo_id v s := mkBoot (b_k s) (bips s) v (sSosMemoryBot s) (sSosMemoryTop s)
                                         (utimer_p s) (serial s).
Definition set_memory bot top s := mkBoot (b_k s) (bips s) (bootinfo_id s) bot top
                                          (utimer_p s) (serial s).
Definition set_utimer_p v s := mkBoot (b_k s) (bips s) (bootinfo_id s) (sSosMemoryBot s)
                                      (sSosMemoryTop s) v (serial s).
Definition set_serial v s := mkBoot (b_k s) (bips s) (bootinfo_id s) (sSosMemoryBot s)
                                    (sSosMemoryTop s) (utimer_p s) v.
Definition on_k {A} (m : K A) : B A := zoom b_k set_b_k m.

(** ** Memory *)
Definition bootinfo_init_mem (virt_base virt_end phys_base phys_end : Z) (data : bi_user_data_t)
    : B Z :=
  modify (set_memory phys_base phys_end);;
  modify (λ s, set_bootinfo_id (bootinfo_id s + 3) s);;
  mret 0.
(** Memory for the network drivers. *)
Definition sos_malloc (sz : Z) : B Z :=
  bot ← gets sSosMemoryBot;
  top ← gets sSosMemoryTop;
  if decide (w32 (bot + sz) < top) then
    modify (set_memory (w32 (bot + sz)) top);; mret bot
  else mret 0.

(** ** The programs of the boot image *)
Definition VIRTPOOL_MAP_DIRECTLY : Z := 3.
(** [++bootinfo_id] *)
Definition next_name : B Z := modify (λ s, set_bootinfo_id (bootinfo_id s + 1) s);; gets bootinfo_id.
Definition set_bip_regions v b := mkBip (bip_process b) v (bip_tid b) (bip_sid b).
Definition set_bip_tid v b := mkBip (bip_process b) (bip_regions b) v (bip_sid b).

(** A [BootinfoProcess *] is a place in the list of them. *)
Definition upd_bip (i : nat) (f : BootinfoProcess → BootinfoProcess) : B unit :=
  modify (λ s, set_bips (alter f i (bips s)) s).
Definition addRegion (i : nat) (r : Region) (id : Z) : B unit :=
  on_k kmalloc_nocheck;;
  upd_bip i (λ b, set_bip_regions (mkBR r id [] :: bip_regions b) b).
Definition find_sid (sid : Z) : B (option (nat * BootinfoProcess)) :=
  gets (λ s, list_find (λ b, bip_sid b = sid) (bips s)).

Definition bootinfo_new_ms (owner base size flags attr physpool virtpool zone : Z)
    (data : bi_user_data_t) : B Z :=
  if decide (owner = 0) then next_name
  else
    bip ← find_sid owner;
    match bip with
    | None => next_name
    | Some (i, _) =>
        id ← gets bootinfo_id;
        let dirmap := bool_decide (virtpool = VIRTPOOL_MAP_DIRECTLY) in
        addRegion i (region_alloc REGION_OTHER base size 0 dirmap) id;;
        next_name
    end.

Definition set_br_rights (rights : Z) (r : BootinfoRegion) : BootinfoRegion :=
  mkBR (region_set_rights (br_region r) rights) (br_id r) (br_at r).
Definition bootinfo_attach (pd ms rights : Z) (data : bi_user_data_t) : B Z :=
  if decide (pd = 0) then mret 0
  else
    bip ← find_sid pd;
    match bip with
    | None => mret BI_NAME_INVALID
    | Some (i, b) =>
        match list_find (λ r, br_id r = ms) (bip_regions b) with
        | None => mret BI_NAME_INVALID
        | Some (j, r) =>
            upd_bip i (λ b, set_bip_regions (alter (set_br_rights rights) j (bip_regions b)) b);;
            forM (br_at r) (λ n, on_k (on_procs (pcb_upd (bip_process b) (λ x,
              set_regions (alter (λ r, region_set_rights r rights) n (regions x)) x))));;
            mret 0
        end
    end.
Definition bootinfo_new_cap (obj rights : Z) (data : bi_user_data_t) : B Z := next_name.
Definition bootinfo_new_pool (is_virtual : Z) (data : bi_user_data_t) : B Z := next_name.
Definition bootinfo_new_pd (owner : Z) (data : bi_user_data_t) : B Z :=
  on_k kmalloc_nocheck;;
  p ← on_k (process_init PS_TYPE_PROCESS);
  modify (λ s, set_bips (mkBip p [] None (bootinfo_id s) :: bips s) s);;
  next_name.

(** The thread id that [bip->tid == tid] compares; the first that matches. *)
Fixpoint find_tid (i : nat) (bs : list BootinfoProcess) (tid : Z) : B (option (nat * BootinfoProcess)) :=
  match bs with
  | [] => mret None
  | b :: bs' =>
      t ← of_opt Uninit (bip_tid b);
      if decide (t = tid) then mret (Some (i, b)) else find_tid (S i) bs' tid
  end.
(** The number a thread id is as a word. *)
Definition L4_raw (t : L4_ThreadId_t) : Z := w32 (L4_ThreadNo t * 2 ^ 14 + L4_Version t).
Fixpoint add_regions (p : ptr) (rs : list BootinfoRegion) : B (list BootinfoRegion) :=
  match rs with
  | [] => mret []
  | r :: rs' =>
      x ← on_k (on_procs (pcb_get p));
      on_k (on_procs (process_add_region p (br_region r)));;
      rs' ← add_regions p rs';
      mret (mkBR (br_region r) (br_id r) (br_at r ++ [length (regions x)]) :: rs')
  end.
Definition bootinfo_run_thread (tid : Z) (data : bi_user_data_t) : B Z :=
  bs ← gets bips;
  bip ← find_tid 0 bs tid;
  match bip with
  | None => mret BI_NAME_INVALID
  | Some (i, b) =>
      rs ← add_regions (bip_process b) (bip_regions b);
      upd_bip i (set_bip_regions rs);;
      on_k (process_prepare (bip_process b));;
      newtid ← on_k (process_run (bip_process b) true);
      if decide (L4_raw newtid ≠ w32 (-1) ∧ L4_raw newtid ≠ w32 (-2) ∧ L4_raw newtid ≠ w32 (-3))
      then mret 0 else mret BI_NAME_INVALID
  end.
Definition bootinfo_cleanup (data : bi_user_data_t) : B Z := modify (set_bips []);; mret 0.

Section image.
(** The boot image is at [__okl4_bootinfo]; nothing writes to it. *)
Context (image : memory) (__okl4_bootinfo : Z).

Definition bootinfo_new_thread (bi_owner ip user_main priority name name_len : Z)
    (data : bi_user_data_t) : B Z :=
  if decide (bi_owner = 0) then mret 0
  else
    bip ← find_sid bi_owner;
    match bip with
    | None => next_name
    | Some (i, b) =>
        id ← gets bootinfo_id;
        upd_bip i (set_bip_tid (Some id));;
        on_k (on_procs (process_set_name (bip_process b)
          (strn_at image name (Z.to_nat MAX_FILE_NAME))));;
        on_k (on_procs (process_set_ip (bip_process b) ip));;
        next_name
    end.

Definition find_callbacks : bi_callbacks_t bootst :=
  mkCallbacks None None (Some bootinfo_init_mem) None None None None None None None None None
    None None None None None None None None None None None None None None None None.
(** The bounds [*lowP] and [*highP]. *)
Definition sos_find_memory (fuel : nat) : B (Z * Z) :=
  result ← bootinfo_parse image find_callbacks fuel __okl4_bootinfo;
  cassert "!result" (result =? 0);;
  bot ← gets sSosMemoryBot;
  top ← gets sSosMemoryTop;
  modify (set_memory (w32 (top - ONE_MEG)) top);;
  mret (bot, w32 (top - ONE_MEG)).

Definition start_callbacks : bi_callbacks_t bootst :=
  mkCallbacks None (Some bootinfo_cleanup) None None (Some bootinfo_new_pd) (Some bootinfo_new_ms)
    None None (Some bootinfo_new_thread) (Some bootinfo_run_thread) None (Some bootinfo_attach)
    None None None None None (Some bootinfo_new_cap) None None None None (Some bootinfo_new_pool)
    None None None None None.
Definition sos_start_binfo_executables (fuel : nat) : B unit :=
  bootinfo_parse image start_callbacks fuel __okl4_bootinfo;; mret tt.

(** ** Initialisation *)
Definition libsos_init : B Z :=
  on_k (on_procs (modify (λ s, mkProcs (pcbs s) (sosProcs s) (nextPid s) (tidOffset s)
                                       (L4_ThreadNo L4_rootserver) (last_thread_disabled_s s))));;
  forM (Z.of_nat <$> seq 0 32) (λ i, on_k (emit (L4_AllowInterruptControl i)));;
  mret 0.

(** The calls of the drivers and of lwip; the gateway answers the ARP query
    after [arp_rounds] more tries. *)
Definition lib_call (f : string) : B unit := on_k (emit (LibCall f)).
Definition network_init (arp_rounds : nat) : B unit :=
  forM ["ixOsalOemInit"; "mem_init"; "memp_init"; "pbuf_init"; "netif_init"; "udp_init";
        "etharp_init"; "netif_add"; "netif_set_default"; "etharp_query"]%string lib_call;;
  forM (replicate (S arp_rounds) tt) (λ _,
    lib_call "linkoutput"%string;; lib_call "sos_usleep"%string;;
    lib_call "etharp_entry_present"%string);;
  forM ["pbuf_free"; "ixOsalOSServicesFinaliseInit"; "nfs_init"; "mnt_get_export_list";
        "mnt_mount"; "serial_init"]%string lib_call;;
  modify (set_serial true).

(** The addresses of the code of the root server's threads. *)
Context (utimer_code init_thread_code nfsfs_timeout_code virtualPagerHandler_code : Z).
Definition utimer_init : B unit :=
  p ← gets utimer_p;
  if decide (p ≠ NULL) then mret tt
  else
    p ← on_k (process_run_rootthread (bytes_of_string "utimer") utimer_code false 0);
    modify (set_utimer_p p).

(** [main] up to the system call loop, with the interrupt table for it. *)
Definition main (fuel : nat) : B Syscall.irq_info_t :=
  libsos_init;;
  lh ← sos_find_memory fuel;
  on_k (on_fr (frame_init (fst lh) (snd lh)));;
  utimer_init;;
  on_k start_timer;;
  on_k process_add_rootserver;;
  on_k (process_run_rootthread (bytes_of_string "sos_init") init_thread_code true 0);;
  mret Syscall.main_irqs.
(** The thread that [main] starts last, up to its idle loop. *)
Definition init_thread (fuel arp_rounds : nat) : B unit :=
  network_init arp_rounds;;
  on_k (vfs_init nfsfs_timeout_code);;
  on_k (pager_init virtualPagerHandler_code);;
  sos_start_binfo_executables fuel.
End image.
End Boot.
