(* ===== verification/Weave.v ===== *)
(** * The programs of the boot image

    The images the boot tool writes ([tools/pyelf/weaver/bootinfo.py]), as a
    function of the programs they hold, and what SOS makes of them: the memory
    it finds ([sos_find_memory]) and the processes it starts
    ([sos_start_binfo_executables]). *)
From S2P Require Import Prelude Machine ListC Frames Swapfile State Pagetable Process Reply VfsCore.
From S2P Require Import Console Nfsfs Clock Vfs Lifecycle PagerBase Quota Resident Pager Copy Fault.
From S2P Require Import Syscall Spawn Bootinfo Boot.
Import Frames Swapfile Pagetable Time Process ProcessInv Reply VfsCore OpenDone Vfs PagerBase Pager.
Import Resident Fault Spawn.

(** ** Images *)
Module Weave.
Import Bootinfo BootImage.

Definition rec (o : bi_op) (args : list Z) : bi_rec := mkRec (bi_op_num o) args [] 0.
(** A part of a program's memory, with the arguments of the records for it. *)
Record section := mkSection {
  sc_base : Z; sc_size : Z; sc_flags : Z; sc_attr : Z; sc_physpool : Z; sc_virtpool : Z;
  sc_zone : Z; sc_master : Z; sc_rights : Z; sc_paddr : Z; sc_scrub : Z; sc_mode : Z
}.
(** [pg_rest] are records SOS has no use for: stacks, arguments, environments. *)
Record program := mkProgram {
  pg_entry : Z; pg_user_main : Z; pg_priority : Z; pg_name : list Z; pg_pad : nat;
  pg_sections : list section; pg_rest : list bi_rec
}.

(** Objects are named by counting them: the protection domain [pd], its
    thread [pd + 1], then a memory section and its capability at a time. *)
Definition section_recs (pd n : Z) (sc : section) : list bi_rec :=
  [rec BI_OP_NEW_MS [pd; sc_base sc; sc_size sc; sc_flags sc; sc_attr sc; sc_physpool sc;
                     sc_virtpool sc; sc_zone sc];
   rec BI_OP_NEW_CAP [n; sc_master sc];
   rec BI_OP_ATTACH [pd; n; sc_rights sc];
   rec BI_OP_GRANT_CAP [pd; n + 1];
   rec BI_OP_MAP [sc_base sc; sc_size sc; sc_paddr sc; sc_scrub sc; sc_mode sc]].
Fixpoint sections_recs (pd n : Z) (scs : list section) : list bi_rec :=
  match scs with
  | [] => []
  | sc :: scs' => section_recs pd n sc ++ sections_recs pd (n + 2) scs'
  end.
Definition program_recs (n : Z) (p : program) : list bi_rec :=
  rec BI_OP_NEW_PD [0] ::
  mkRec (bi_op_num BI_OP_NEW_THREAD) [n; pg_entry p; pg_user_main p; pg_priority p]
    (pg_name p) (pg_pad p) ::
  sections_recs n (n + 2) (pg_sections p) ++ pg_rest p.
Definition program_names (p : program) : Z := 2 + 2 * length (pg_sections p).
Fixpoint contents (n : Z) (ps : list program) : list bi_rec :=
  match ps with
  | [] => []
  | p :: ps' => program_recs n p ++ contents (n + program_names p) ps'
  end.
(** The names of the threads. *)
Fixpoint threads (n : Z) (ps : list program) : list Z :=
  match ps with
  | [] => []
  | p :: ps' => (n + 1) :: threads (n + program_names p) ps'
  end.

Record image := mkImage {
  im_header : list Z;
  im_virt : Z * Z;
  im_phys : Z * Z;                     (* the last address is part of the memory *)
  im_pools : list bi_rec;
  im_programs : list program;
  im_order : list nat                  (* the order in which to run them *)
}.
Definition naming_rec (r : bi_rec) : bool :=
  bool_decide (r_op r = bi_op_num BI_OP_NEW_POOL) || bool_decide (r_op r = bi_op_num BI_OP_NEW_CAP).
(** The first name of the programs: the default pools are 1, 2 and 3. *)
Definition first_name (im : image) : Z := 4 + length (filter naming_rec (im_pools im)).
Definition runs (im : image) : list bi_rec :=
  (λ i, rec BI_OP_RUN_THREAD [threads (first_name im) (im_programs im) !!! i]) <$> im_order im.
Definition weave (im : image) : list bi_rec :=
  rec BI_OP_HEADER (BI_MAGIC :: BI_VERSION :: im_header im) ::
  rec BI_OP_INIT_MEM [fst (im_virt im); snd (im_virt im); fst (im_phys im); snd (im_phys im)] ::
  im_pools im ++ contents (first_name im) (im_programs im) ++ runs im.

(** Records SOS has no callback for. *)
Definition unused_ops : list bi_op :=
  [BI_OP_ADD_VIRT_MEM; BI_OP_ADD_PHYS_MEM; BI_OP_MAP; BI_OP_GRANT; BI_OP_ARGV;
   BI_OP_REGISTER_SERVER; BI_OP_REGISTER_CALLBACK; BI_OP_REGISTER_STACK; BI_OP_GRANT_CAP;
   BI_OP_OBJECT_EXPORT; BI_OP_STRUCT_EXPORT; BI_OP_REGISTER_ENV; BI_OP_GRANT_INTERRUPT;
   BI_OP_SECURITY_CONTROL; BI_OP_ADD_ZONE_WINDOW; BI_OP_KERNEL_INFO].
Definition op_in (os : list bi_op) (r : bi_rec) : Prop :=
  ∃ o, o ∈ os ∧ bi_op_of (r_op r) = Some o.
Record image_ok (im : image) : Prop := {
  im_recs : Forall rec_ok (weave im);
  im_mem : fst (im_virt im) < snd (im_virt im) ∧ fst (im_phys im) < snd (im_phys im);
  im_pre : Forall (op_in (BI_OP_NEW_POOL :: BI_OP_NEW_CAP :: unused_ops)) (im_pools im);
  im_rest : Forall (λ p, Forall (op_in unused_ops) (pg_rest p)) (im_programs im);
  im_text : Forall (λ p, 0 ∉ pg_name p) (im_programs im);
  im_order_ok : NoDup (im_order im) ∧ Forall (λ i, i < length (im_programs im))%nat (im_order im);
  im_names : first_name im + sum_list_with (λ p, Z.to_nat (program_names p)) (im_programs im) < 2 ^ 31 - 1
}.

(** ** Executing records *)
Section steps.
Context {S : Type} (cb : bi_callbacks_t S).
Definition steps (rs : list bi_rec) (a : Z) (s s' : S) : Prop :=
  ∀ d, ∃ d', exec_recs cb rs a d s = Ok (0, d') s'.
Definition step (r : bi_rec) (a : Z) (s s' : S) : Prop := ∀ d, exec_rec cb r a d s = Ok true s'.
Definition recs_size (rs : list bi_rec) : Z := foldr (λ r n, rec_size r + n) 0 rs.

Lemma steps_nil a s : steps [] a s s.
Proof. intros d. by exists d. Qed.
Lemma steps_cons r rs a s s1 s2 :
  step r a s s1 → steps rs (a + rec_size r) s1 s2 → steps (r :: rs) a s s2.
Proof.
  intros H1 H2 d. destruct (H2 (next_rec d)) as [d' H]. exists d'. cbn [exec_recs].
  rewrite (bind_ok _ _ _ _ _ (H1 d)). exact H.
Qed.
Lemma steps_one r a s s' : step r a s s' → steps [r] a s s'.
Proof. intros H. eapply steps_cons; [exact H|apply steps_nil]. Qed.
Lemma steps_app rs rs' a s s1 s2 :
  steps rs a s s1 → steps rs' (a + recs_size rs) s1 s2 → steps (rs ++ rs') a s s2.
Proof.
  intros H1 H2 d. destruct (H1 d) as [d1 E1]. destruct (H2 d1) as [d2 E2]. exists d2.
  clear H1 H2. revert a s d E1 E2. induction rs as [|r rs IH]; intros a s d; cbn [exec_recs recs_size foldr app].
  - intros [= -> ->]. by rewrite Z.add_0_r.
  - intros (ok & s3 & H3 & H4)%bind_inv E2. rewrite (bind_ok _ _ _ _ _ H3).
    destruct ok; [|done]. apply (IH _ _ _ H4). by rewrite <- Z.add_assoc.
Qed.
Lemma steps_id rs a s :
  Forall (λ r, ∀ a, step r a s s) rs → steps rs a s s.
Proof.
  intros H. revert a. induction H as [|r rs Hr _ IH]; intros a; [apply steps_nil|].
  eapply steps_cons; [apply Hr|apply IH].
Qed.

(** The first look leaves the state alone when it has nothing to announce. *)
Definition scan_fine (r : bi_rec) : Prop :=
  match bi_op_of (r_op r), r_args r with
  | Some BI_OP_HEADER, magic :: version :: _ => magic = BI_MAGIC ∧ version = BI_VERSION
  | Some BI_OP_HEADER, _ => False
  | Some BI_OP_INIT_MEM, [vb; ve; pb; pe] => vb < ve ∧ pb < pe
  | Some BI_OP_INIT_MEM, _ => False
  | Some _, _ => True
  | None, _ => False
  end.
Lemma scan_silent r d s :
  scan_fine r → bi_op_of (r_op r) ≠ Some BI_OP_INIT_MEM ∨ cb_init_mem _ cb = None →
  ∃ d', scan_rec cb r d s = Ok (Some d') s.
Proof.
  unfold scan_fine, scan_rec. intros Hf Hcb.
  destruct (bi_op_of (r_op r)) as [[]|]; try done; try (by eexists).
  - destruct (r_args r) as [|m [|v l]]; try done. rewrite decide_True by done. by eexists.
  - destruct Hcb as [?|Hcb]; [done|].
    destruct (r_args r) as [|vb [|ve [|pb [|pe [|]]]]]; try done. rewrite decide_True by done.
    rewrite Hcb. by eexists.
Qed.
Lemma scans_silent rs d s :
  Forall scan_fine rs →
  Forall (λ r, bi_op_of (r_op r) ≠ Some BI_OP_INIT_MEM) rs ∨ cb_init_mem _ cb = None →
  ∃ d', scan_recs cb rs d s = Ok (Some d') s.
Proof.
  intros H. revert d. induction H as [|r rs Hr _ IH]; intros d Hcb; [by exists d|]. cbn [scan_recs].
  destruct (scan_silent r d s Hr) as [d1 E1].
  { destruct Hcb as [[? _]%Forall_cons|?]; [by left|by right]. }
  rewrite (bind_ok _ _ _ _ _ E1). apply IH. destruct Hcb as [[_ ?]%Forall_cons|?]; [by left|by right].
Qed.
End steps.

(** ** The records of an image *)
Ltac args_of r H :=
  let E := fresh in
  destruct (r_args r) as [|? [|? [|? [|? [|? [|? [|? [|? [|? ?]]]]]]]]] eqn:E;
  cbn in H; try discriminate H; clear E.
Lemma op_num_of o : bi_op_of (bi_op_num o) = Some o.
Proof. by destruct o. Qed.
Lemma contents_known (P : bi_rec → Prop) ps : ∀ n,
  Forall (λ p, Forall P (pg_rest p)) ps →
  (∀ o args str pad, o ∈ [BI_OP_NEW_PD; BI_OP_NEW_THREAD; BI_OP_NEW_MS; BI_OP_NEW_CAP; BI_OP_ATTACH;
                  BI_OP_GRANT_CAP; BI_OP_MAP] → P (mkRec (bi_op_num o) args str pad)) →
  Forall P (contents n ps).
Proof.
  intros n H HP. revert n. induction H as [|p ps Hp _ IH]; intros n; [constructor|].
  cbn [contents]. apply Forall_app. split; [|apply IH]. unfold program_recs.
  constructor; [apply HP; set_solver|]. constructor; [apply HP; set_solver|].
  apply Forall_app. split; [|exact Hp]. generalize (n + 2). clear -HP.
  induction (pg_sections p) as [|sc scs IH]; intros m; [constructor|]. cbn [sections_recs].
  apply Forall_app. split; [|apply IH]. repeat constructor; apply HP; set_solver.
Qed.
Lemma op_in_known os r : op_in os r → is_Some (bi_op_of (r_op r)).
Proof. intros (o & _ & ->). by eexists. Qed.
Lemma weave_tail (P : bi_rec → Prop) im :
  image_ok im →
  Forall P (im_pools im) → Forall (λ p, Forall P (pg_rest p)) (im_programs im) →
  (∀ o args str pad, o ∈ [BI_OP_NEW_PD; BI_OP_NEW_THREAD; BI_OP_NEW_MS; BI_OP_NEW_CAP; BI_OP_ATTACH;
                  BI_OP_GRANT_CAP; BI_OP_MAP; BI_OP_RUN_THREAD] → P (mkRec (bi_op_num o) args str pad)) →
  Forall P (im_pools im ++ contents (first_name im) (im_programs im) ++ runs im).
Proof.
  intros Hok H1 H2 H3. apply Forall_app. split; [exact H1|]. apply Forall_app. split.
  - apply contents_known; [exact H2|]. intros o args str pad Ho. apply H3. set_solver.
  - unfold runs. apply Forall_fmap, Forall_true. intros i. apply H3. set_solver.
Qed.
Lemma weave_known im : image_ok im → Forall (λ r, is_Some (bi_op_of (r_op r))) (weave im).
Proof.
  intros Hok. unfold weave. constructor; [by eexists|]. constructor; [by eexists|].
  apply weave_tail; [done|..].
  - eapply Forall_impl; [exact (im_pre im Hok)|]. intros r. apply op_in_known.
  - eapply Forall_impl; [exact (im_rest im Hok)|]. intros p Hp. cbn.
    eapply Forall_impl; [exact Hp|]. intros r. apply op_in_known.
  - intros o args str pad _. exists o. apply op_num_of.
Qed.
Definition plain (r : bi_rec) : Prop :=
  scan_fine r ∧ bi_op_of (r_op r) ≠ Some BI_OP_INIT_MEM.
Lemma op_in_plain os r :
  BI_OP_HEADER ∉ os → BI_OP_INIT_MEM ∉ os → op_in os r → plain r.
Proof.
  intros H1 H2 (o & Ho & E). unfold plain, scan_fine. rewrite E.
  assert (o ≠ BI_OP_HEADER ∧ o ≠ BI_OP_INIT_MEM) as [N1 N2] by (split; intros ->; done).
  split; [by destruct o|congruence].
Qed.
Ltac not_in := intros Hin; repeat (apply elem_of_cons in Hin as [Hin|Hin]; [discriminate Hin|]);
  by apply elem_of_nil in Hin.
Lemma tail_plain im :
  image_ok im → Forall plain (im_pools im ++ contents (first_name im) (im_programs im) ++ runs im).
Proof.
  intros Hok. apply weave_tail; [done|..].
  - eapply Forall_impl; [exact (im_pre im Hok)|]. intros r. apply op_in_plain; not_in.
  - eapply Forall_impl; [exact (im_rest im Hok)|]. intros p Hp. cbn.
    eapply Forall_impl; [exact Hp|]. intros r. apply op_in_plain; not_in.
  - intros o args str pad Ho. eapply op_in_plain; [| |exists o; split; [exact Ho|apply op_num_of]]; not_in.
Qed.

Lemma weave_fine im : image_ok im → Forall scan_fine (weave im).
Proof.
  intros Hok. unfold weave. constructor; [done|]. constructor; [exact (im_mem im Hok)|].
  eapply Forall_impl; [exact (tail_plain im Hok)|]. by intros r [? _].
Qed.

(** ** Finding the memory *)
Import Boot.
Lemma exec_null r a d s :
  rec_ok r → is_Some (bi_op_of (r_op r)) → exec_rec find_callbacks r a d s = Ok true s.
Proof.
  intros Hr [o Ho]. pose proof (ok_arity r Hr o Ho) as Ha. unfold exec_rec. rewrite Ho.
  destruct o; args_of r Ha; try done.
  destruct (ok_end r Hr). by rewrite <- (op_of_num _ _ Ho).
Qed.
Definition found (lo hi : Z) (s : bootst) : bootst :=
  set_memory lo hi (set_bootinfo_id (bootinfo_id s + 3) s).
Lemma find_memory_run m a fuel im s :
  image_ok im → fits a (weave im) → bytes_at m a (encode (weave im)) → (length (weave im) < fuel)%nat →
  let '(lo, hi) := im_phys im in
  sos_find_memory m a fuel s =
    Ok (lo, w32 (hi - ONE_MEG)) (found (w32 (hi - ONE_MEG)) hi s).
Proof.
  intros Hok Hfit Hb Hf. destruct (im_phys im) as [lo hi] eqn:Ep. unfold sos_find_memory.
  rewrite (bind_ok _ _ s 0 (found lo hi s)); [done|].
  rewrite (parse_agrees m find_callbacks fuel a (weave im) s) by (done || by apply im_recs).
  unfold run_image. rewrite decide_True by done.
  assert (∃ d, scan_recs find_callbacks (weave im) data0 s = Ok (Some d) (found lo hi s)) as [d Hd].
  { unfold weave. cbn [scan_recs]. rewrite (bind_ok _ _ s (Some data0) s) by done.
    rewrite Ep. cbn [fst snd]. set (d1 := next_rec data0).
    rewrite (bind_ok _ _ s (Some d1) (found lo hi s)); last first.
    { unfold scan_rec. cbn [rec r_op r_args]. rewrite op_num_of.
      pose proof (im_mem im Hok) as [H1 H2]. rewrite Ep in H2. by rewrite decide_True. }
    pose proof (tail_plain im Hok) as Ht. apply scans_silent; [|left]; (eapply Forall_impl; [exact Ht|]);
      by intros r [? ?]. }
  rewrite (bind_ok _ _ _ _ _ Hd). rewrite (bind_ok _ _ (found lo hi s) tt (found lo hi s)) by done.
  destruct (steps_id find_callbacks (weave im) a (found lo hi s)) with (d := rewind d) as [d' E].
  - apply Forall_forall. intros r Hr a' d'. apply exec_null.
    + pose proof (im_recs im Hok) as H. rewrite Forall_forall in H. by apply H.
    + pose proof (weave_known im Hok) as H. rewrite Forall_forall in H. by apply H.
  - rewrite (bind_ok _ _ _ _ _ E). done.
Qed.
End Weave.

(** ** Making the processes *)
Module Programs.
Import Bootinfo BootImage Weave Boot.

Lemma on_k_run {A} (m : K A) s a k : m (b_k s) = Ok a k → on_k m s = Ok a (set_b_k k s).
Proof. apply zoom_ok. Qed.
(** The state in the middle of an image; the rest is as in [s]. *)
Definition boot_at (s : bootst) (k : kstate) (bs : list BootinfoProcess) (n : Z) : bootst :=
  mkBoot k bs n (sSosMemoryBot s) (sSosMemoryTop s) (utimer_p s) (serial s).
Definition small (n : Z) : Prop := 0 < n < 2 ^ 31 - 1.
Lemma s32_name n : small n → s32 n = n.
Proof. intros H. apply s32_small. unfold small in H. lia. Qed.
Lemma next_name_run s k bs n : next_name (boot_at s k bs n) = Ok (n + 1) (boot_at s k bs (n + 1)).
Proof. done. Qed.
Lemma name_valid n : small n → name_is_valid (n + 1) = true.
Proof. intros H. unfold name_is_valid, BI_NAME_INVALID, small in *. apply negb_true_iff, Z.eqb_neq. lia. Qed.

Lemma fmap_rev {A C} (f : A → C) l : f <$> rev l = rev (f <$> l).
Proof. induction l as [|x l IH]; [done|]. cbn. by rewrite fmap_app, IH. Qed.
Lemma rev_perm {A} (l : list A) : rev l ≡ₚ l.
Proof. symmetry. apply Permutation_rev. Qed.

Section start.
Context (m : memory).
Abbreviation cb := (start_callbacks m).

Lemma unused_step r a s : rec_ok r → op_in unused_ops r → step cb r a s s.
Proof.
  intros Hr (o & Ho & E) d. pose proof (ok_arity r Hr o E) as Ha. unfold exec_rec. rewrite E.
  destruct o; args_of r Ha; try done; exfalso; revert Ho; not_in.
Qed.
Lemma name_step r a s k bs n :
  rec_ok r → op_in [BI_OP_NEW_POOL; BI_OP_NEW_CAP] r → small n →
  step cb r a (boot_at s k bs n) (boot_at s k bs (n + 1)).
Proof.
  intros Hr (o & Ho & E) Hn d. pose proof (ok_arity r Hr o E) as Ha. unfold exec_rec. rewrite E.
  destruct o; args_of r Ha; try (exfalso; revert Ho; not_in); cbn [naming cb_new_pool cb_new_cap start_callbacks];
    unfold bootinfo_new_pool, bootinfo_new_cap;
    rewrite (bind_ok _ _ _ _ _ (next_name_run s k bs n)), (name_valid n Hn); done.
Qed.

(** *** A section *)
Definition section_region (sc : section) : Region :=
  mkRegion REGION_OTHER (sc_base sc) (sc_size sc) None (s32 (sc_rights sc))
    (bool_decide (s32 (sc_virtpool sc) = VIRTPOOL_MAP_DIRECTLY)) 0.
Definition with_section (n : Z) (sc : section) (b : BootinfoProcess) : BootinfoProcess :=
  set_bip_regions (mkBR (section_region sc) n [] :: bip_regions b) b.
Fixpoint with_sections (n : Z) (scs : list section) (b : BootinfoProcess) : BootinfoProcess :=
  match scs with
  | [] => b
  | sc :: scs' => with_sections (n + 2) scs' (with_section n sc b)
  end.

Lemma find_head b bs : list_find (λ x, bip_sid x = bip_sid b) (b :: bs) = Some (0%nat, b).
Proof. cbn. by rewrite decide_True. Qed.
Lemma new_ms_run s k b bs n base size flags attr pp vp zone d :
  bip_sid b ≠ 0 → moracle (kmach k) = [] →
  bootinfo_new_ms (bip_sid b) base size flags attr pp vp zone d (boot_at s k (b :: bs) n) =
    Ok (n + 1) (boot_at s (malloced k) (set_bip_regions (mkBR (region_alloc REGION_OTHER base size 0
      (bool_decide (vp = VIRTPOOL_MAP_DIRECTLY))) n [] :: bip_regions b) b :: bs) (n + 1)).
Proof.
  intros Hs Ho. unfold bootinfo_new_ms. rewrite decide_False by done.
  rewrite (bind_ok _ _ _ (Some (0%nat, b)) (boot_at s k (b :: bs) n))
    by (unfold find_sid, gets; cbn [boot_at bips]; by rewrite find_head).
  cbv beta iota.
  rewrite (bind_ok _ _ _ n (boot_at s k (b :: bs) n)) by done. unfold addRegion.
  set (s1 := boot_at s (malloced k) (b :: bs) n).
  rewrite (bind_ok _ _ _ tt (boot_at s (malloced k) (set_bip_regions (mkBR (region_alloc REGION_OTHER base size 0
      (bool_decide (vp = VIRTPOOL_MAP_DIRECTLY))) n [] :: bip_regions b) b :: bs) n)); [done|].
  rewrite (bind_ok _ _ _ (mnext (kmach k)) s1); [done|].
  apply (on_k_run kmalloc_nocheck (boot_at s k (b :: bs) n)), kmalloc_nocheck_run, Ho.
Qed.
Lemma attach_run s k b bs n sc0 r rs rights d :
  bip_sid b ≠ 0 → bip_regions b = mkBR r sc0 [] :: rs →
  bootinfo_attach (bip_sid b) sc0 rights d (boot_at s k (b :: bs) n) =
    Ok 0 (boot_at s k (set_bip_regions (mkBR (region_set_rights r rights) sc0 [] :: rs) b :: bs) n).
Proof.
  intros Hs Hr. unfold bootinfo_attach. rewrite decide_False by done.
  rewrite (bind_ok _ _ _ (Some (0%nat, b)) (boot_at s k (b :: bs) n))
    by (unfold find_sid, gets; cbn [boot_at bips]; by rewrite find_head).
  cbv beta iota.
  rewrite Hr. cbn [list_find br_id]. rewrite decide_True by done.
  set (s1 := boot_at s k (set_bip_regions (mkBR (region_set_rights r rights) sc0 [] :: rs) b :: bs) n).
  rewrite (bind_ok _ _ _ tt s1); [done|].
  unfold upd_bip, modify, s1, boot_at, set_bips. cbn. by rewrite Hr.
Qed.

Lemma section_steps s k b bs n sc a :
  small (bip_sid b) → small n → small (n + 1) → moracle (kmach k) = [] →
  steps cb (section_recs (bip_sid b) n sc) a (boot_at s k (b :: bs) n)
    (boot_at s (malloced k) (with_section n sc b :: bs) (n + 2)).
Proof.
  intros Hb Hn Hn1 Ho. assert (bip_sid b ≠ 0) as Hb0 by (unfold small in Hb; lia). unfold section_recs.
  set (k1 := malloced k).
  set (b1 := set_bip_regions (mkBR (region_alloc REGION_OTHER (sc_base sc) (sc_size sc) 0
      (bool_decide (s32 (sc_virtpool sc) = VIRTPOOL_MAP_DIRECTLY))) n [] :: bip_regions b) b).
  eapply steps_cons with (s1 := boot_at s k1 (b1 :: bs) (n + 1)).
  { intros d. unfold exec_rec. cbn [rec r_op r_args]. rewrite op_num_of.
    cbn [naming cb_new_ms start_callbacks]. rewrite (s32_name (bip_sid b)) by done.
    erewrite bind_ok by (by apply new_ms_run). by rewrite name_valid. }
  eapply steps_cons with (s1 := boot_at s k1 (b1 :: bs) (n + 1 + 1)).
  { intros d. unfold exec_rec. cbn [rec r_op r_args]. rewrite op_num_of.
    cbn [naming cb_new_cap start_callbacks]. unfold bootinfo_new_cap.
    rewrite (bind_ok _ _ _ _ _ (next_name_run s k1 (b1 :: bs) (n + 1))). by rewrite name_valid. }
  replace (n + 1 + 1) with (n + 2) by lia.
  eapply steps_cons with (s1 := boot_at s k1 (with_section n sc b :: bs) (n + 2)).
  { intros d. unfold exec_rec. cbn [rec r_op r_args]. rewrite op_num_of.
    cbn [status cb_attach start_callbacks]. rewrite (s32_name n), (s32_name (bip_sid b)) by done.
    erewrite bind_ok by (by apply (attach_run s k1 b1)). done. }
  eapply steps_cons; [|eapply steps_cons; [|apply steps_nil]]; intros d; done.
Qed.
Definition mallocs (n : nat) (k : kstate) : kstate := Nat.iter n malloced k.
Lemma sections_steps s scs : ∀ k b bs n a,
  small (bip_sid b) → 0 < n → n + 2 * length scs < 2 ^ 31 - 1 → moracle (kmach k) = [] →
  steps cb (sections_recs (bip_sid b) n scs) a (boot_at s k (b :: bs) n)
    (boot_at s (mallocs (length scs) k) (with_sections n scs b :: bs) (n + 2 * length scs)).
Proof.
  induction scs as [|sc scs IH]; intros k b bs n a Hb Hn Hlt Ho.
  - cbn. rewrite Z.add_0_r. apply steps_nil.
  - cbn [length] in Hlt. cbn [sections_recs with_sections length].
    eapply steps_app; [apply section_steps; [done|unfold small; lia..|done]|].
    replace (n + 2 * Z.of_nat (Datatypes.S (length scs))) with (n + 2 + 2 * Z.of_nat (length scs)) by lia.
    unfold mallocs. rewrite Nat.iter_succ_r. apply (IH (malloced k) (with_section n sc b)); [done|lia..|done].
Qed.

(** *** The name of a thread *)
Lemma strn_at_bytes n : ∀ b nm rest,
  bytes_at m b (nm ++ 0 :: rest) → 0 ∉ nm → strn_at m b n = take n nm.
Proof.
  induction n as [|n IH]; intros b nm rest Hb Hz; [done|]. cbn [strn_at]. destruct nm as [|c nm].
  - pose proof (Hb 0%nat 0 eq_refl) as H0. rewrite Z.add_0_r in H0. by rewrite H0.
  - pose proof (Hb 0%nat c eq_refl) as H0. rewrite Z.add_0_r in H0. rewrite H0.
    assert ((c =? 0) = false) as -> by (apply Z.eqb_neq; set_solver). cbn [take]. f_equal.
    apply (IH (b + 1) nm rest); [|set_solver]. intros i x Hi. rewrite <- (Hb (Datatypes.S i) x Hi). f_equal. lia.
Qed.
(** What follows a name starts with a NUL: operations are below 256. *)
Lemma next_zero rs :
  Forall rec_ok rs → Forall (λ r, is_Some (bi_op_of (r_op r))) rs → ∃ rest, encode rs = 0 :: rest.
Proof.
  intros Hok Hk. destruct rs as [|r rs]; [by eexists|].
  apply Forall_cons in Hk as [[o Ho] _]. apply Forall_cons in Hok as [Hr _].
  unfold encode. cbn [app fmap list_fmap concat]. unfold encode_rec at 1. cbn [fmap list_fmap concat be32 app].
  eexists. f_equal. rewrite <- (op_of_num _ _ Ho). pose proof (ok_size r Hr) as Hs.
  assert (0 ≤ rec_size r) by (unfold rec_size, args_end; lia).
  rewrite Z.div_small; [done|]. destruct o; cbn [bi_op_num]; lia.
Qed.
Lemma name_at a r rs :
  rec_ok r → Forall rec_ok rs → Forall (λ r, is_Some (bi_op_of (r_op r))) rs →
  bytes_at m a (encode (r :: rs)) → 0 ∉ r_str r →
  strn_at m (a + args_end r) (Z.to_nat MAX_FILE_NAME) = strncpy_path (r_str r).
Proof.
  intros Hr Hok Hk Hb Hz. destruct (next_zero rs Hok Hk) as [rest Er].
  assert (∃ rest, replicate (r_pad r) 0 ++ encode rs = 0 :: rest) as [rest' E'].
  { destruct (r_pad r); cbn; [rewrite Er|]; by eexists. }
  apply (strn_at_bytes _ _ _ rest'); [|done]. rewrite <- E'.
  unfold encode in Hb. cbn [app fmap list_fmap concat] in Hb. fold (encode rs) in Hb.
  unfold encode_rec in Hb. rewrite <- !app_assoc in Hb. apply bytes_at_app in Hb as [_ Hb].
  replace (a + args_end r) with (a + Z.of_nat (length (concat (be32 <$> (r_op r * 2 ^ 16 + rec_size r) :: r_args r))));
    [exact Hb|]. rewrite length_words. unfold args_end. cbn [length]. lia.
Qed.
Lemma encode_drop a rs rs' :
  bytes_at m a (encode (rs ++ rs')) → bytes_at m (a + recs_size rs) (encode rs').
Proof.
  revert a. induction rs as [|r rs IH]; intros a Hb; cbn [recs_size foldr app] in *.
  - by rewrite Z.add_0_r.
  - rewrite Z.add_assoc. apply IH. by apply encode_cons in Hb as [_ Hb].
Qed.

(** *** A program *)
Record made (k k' : kstate) (l : positive) (x : Process) (f : Z) (fs : list Z) : Prop := {
  md_procs : k_procs k' = add_pcb l x (k_procs k);
  md_fresh : pcbs (k_procs k) !! l = None ∧ l ≠ 1%positive;
  md_heap : heap_ok k';
  md_free : free_list (frs (k_swap k')) fs;
  md_empty : ∀ i, 0 ≤ i < PAGEWORDS → l1 (kmem k') f i = 0;
  md_others : ∀ g a, frame_addr g → g ≠ f → in_frame g a → load32 (kmem k') a = load32 (kmem k) a;
  md_aside : aside k' = aside k ∧ swapfiles (k_swap k') = swapfiles (k_swap k)
}.
Lemma heap_ok_malloced k : heap_ok k → heap_ok (malloced k).
Proof.
  intros [H1 H2 H3]. split; [|cbn; lia|done]. intros l x Hx. cbn. apply H1 in Hx. lia.
Qed.
Lemma made_mallocs n k k' l x f fs : made k k' l x f fs → made k (mallocs n k') l x f fs.
Proof.
  intros H. induction n as [|n IH]; [done|]. destruct IH as [H1 H2 H3 H4 H5 H6 H7].
  split; [done|done| |done..]. by apply heap_ok_malloced.
Qed.
Definition boot_pcb (p : program) (f : Z) : Process :=
  set_ip (pg_entry p) (upd_info (set_command (strncpy_path (pg_name p))) (fresh_pcb PS_TYPE_PROCESS f)).
Lemma made_upd k k' l x f fs y : made k k' l x f fs → made k (set_procs (add_pcb l y (k_procs k)) k') l y f fs.
Proof.
  intros [H1 [H2 H2'] H3 H4 H5 H6 H7]. split; try done.
  destruct H3 as [P1 P2 P3]. split; [|done..]. intros l' x' Hx. cbn in Hx. change (kmach (set_procs _ k')) with (kmach k').
  destruct (decide (l' = l)) as [->|Hne].
  - apply (P1 l x). rewrite H1. apply lookup_insert_eq.
  - rewrite lookup_insert_ne in Hx by done. apply (P1 l' x'). rewrite H1. cbn. by rewrite lookup_insert_ne.
Qed.

Lemma new_pd_run s k bs n f fs :
  heap_ok k → tidOffset (k_procs k) ≠ 0 → free_list (frs (k_swap k)) (f :: fs) →
  ∃ l k', (∀ d, bootinfo_new_pd 0 d (boot_at s k bs n) =
      Ok (n + 1) (boot_at s k' (mkBip (Some l) [] None n :: bs) (n + 1))) ∧
    made k k' l (fresh_pcb PS_TYPE_PROCESS f) f fs.
Proof.
  intros Hh Hoff Hfl. set (k1 := malloced k). pose proof (heap_ok_malloced k Hh) as Hh1.
  destruct (process_init_run k1 PS_TYPE_PROCESS f fs) as (fr & Hrun & Ht); [done..|].
  set (l := mnext (kmach k1)) in *. set (k2 := set_procs _ _) in Hrun. exists l, k2. split.
  - intros d. unfold bootinfo_new_pd.
    rewrite (bind_ok _ _ _ (mnext (kmach k)) (boot_at s k1 bs n))
      by (apply (on_k_run kmalloc_nocheck (boot_at s k bs n)), kmalloc_nocheck_run, (heap_oracle k Hh)).
    rewrite (bind_ok _ _ _ (Some l) (boot_at s k2 bs n)); [done|].
    by apply (on_k_run (process_init PS_TYPE_PROCESS) (boot_at s k1 bs n)).
  - destruct Ht as [T1 T2 T3 T4 T5]. unfold beside, beside_mem in T5.
    injection T5 as E1 E2 E3 E4.
    assert (mnext (kmach k2) = Pos.succ l) as Hn by exact E3.
    assert (aside k2 = aside k) as Ha by (unfold aside, kmach, k2; cbn; by rewrite E1, E2, E4).
    split; [done| | |done|done|done|done].
    + split; [apply (heap_fresh k1 Hh1)|]. pose proof (heap_next k1 Hh1). unfold l. lia.
    + split.
      * intros l' x Hx. rewrite Hn. cbn in Hx. destruct (decide (l' = l)) as [->|Hne]; [lia|].
        rewrite lookup_insert_ne in Hx by done. apply (heap_pcbs k1 Hh1) in Hx. unfold l. lia.
      * rewrite Hn. pose proof (heap_next k1 Hh1). unfold l. lia.
      * rewrite <- (heap_oracle k Hh). exact E4.
Qed.
Lemma new_thread_run s k k0 b bs n l x str ip um prio len d :
  bip_sid b ≠ 0 → bip_process b = Some l → k_procs k = add_pcb l x k0 →
  bootinfo_new_thread m (bip_sid b) ip um prio str len d (boot_at s k (b :: bs) n) =
    Ok (n + 1) (boot_at s
      (set_procs (add_pcb l (set_ip ip (upd_info (set_command (strncpy_path
         (strn_at m str (Z.to_nat MAX_FILE_NAME)))) x)) k0) k)
      (set_bip_tid (Some n) b :: bs) (n + 1)).
Proof.
  intros Hs Hp Hk. unfold bootinfo_new_thread. rewrite decide_False by done.
  rewrite (bind_ok _ _ _ (Some (0%nat, b)) (boot_at s k (b :: bs) n))
    by (unfold find_sid, gets; cbn [boot_at bips]; by rewrite find_head).
  cbv beta iota. rewrite (bind_ok _ _ _ n (boot_at s k (b :: bs) n)) by done. rewrite Hp.
  set (s1 := boot_at s k (set_bip_tid (Some n) b :: bs) n).
  rewrite (bind_ok _ _ _ tt s1) by done. unfold process_set_name, process_set_ip.
  set (x1 := upd_info _ x). set (k1 := set_procs (add_pcb l x1 k0) k).
  rewrite (bind_ok _ _ s1 tt (set_b_k k1 s1)) by (by apply on_k_run, (upd_added k l x k0)).
  set (k2 := set_procs (add_pcb l (set_ip ip x1) k0) k).
  rewrite (bind_ok _ _ _ tt (set_b_k k2 s1)); [done|].
  by apply (on_k_run _ (set_b_k k1 s1)), (upd_added k1 l x1 k0).
Qed.

Definition program_bip (l : positive) (n : Z) (p : program) : BootinfoProcess :=
  with_sections (n + 2) (pg_sections p) (mkBip (Some l) [] (Some (n + 1)) n).
Lemma program_steps s k bs n p a rs f fs :
  heap_ok k → tidOffset (k_procs k) ≠ 0 → free_list (frs (k_swap k)) (f :: fs) →
  0 < n → n + program_names p < 2 ^ 31 - 1 →
  Forall rec_ok (program_recs n p ++ rs) →
  Forall (λ r, is_Some (bi_op_of (r_op r))) (program_recs n p ++ rs) →
  0 ∉ pg_name p → Forall (op_in unused_ops) (pg_rest p) →
  bytes_at m a (encode (program_recs n p ++ rs)) →
  ∃ l k', steps cb (program_recs n p) a (boot_at s k bs n)
      (boot_at s k' (program_bip l n p :: bs) (n + program_names p)) ∧
    made k k' l (boot_pcb p f) f fs.
Proof.
  intros Hh Hoff Hfl Hn Hlt Hok Hkn Hz Hu Hb. unfold program_names in *.
  destruct (new_pd_run s k bs n f fs Hh Hoff Hfl) as (l & k1 & Hpd & Hm).
  set (b1 := mkBip (Some l) [] None n). set (b2 := set_bip_tid (Some (n + 1)) b1).
  set (k2 := set_procs (add_pcb l (boot_pcb p f) (k_procs k)) k1).
  exists l, (mallocs (length (pg_sections p)) k2). split.
  2: { apply made_mallocs. by eapply made_upd. }
  unfold program_recs in *. cbn [app] in *. rewrite <- app_assoc in *.
  apply Forall_cons in Hok as [Hr1 Hok]. apply Forall_cons in Hok as [Hr2 Hok].
  apply Forall_cons in Hkn as [_ Hkn]. apply Forall_cons in Hkn as [_ Hkn].
  eapply steps_cons with (s1 := boot_at s k1 (b1 :: bs) (n + 1)).
  { intros d. unfold exec_rec. cbn [rec r_op r_args]. rewrite op_num_of.
    cbn [naming cb_new_pd start_callbacks]. change (s32 0) with 0.
    rewrite (bind_ok _ _ _ _ _ (Hpd d)). by rewrite name_valid by (unfold small; lia). }
  apply encode_cons in Hb as [_ Hb].
  eapply steps_cons with (s1 := boot_at s k2 (b2 :: bs) (n + 1 + 1)).
  { intros d. unfold exec_rec. cbn [r_op r_args]. rewrite op_num_of.
    cbn [naming cb_new_thread start_callbacks]. rewrite (s32_name n) by (unfold small; lia).
    erewrite bind_ok.
    2: { apply (new_thread_run s k1 (k_procs k) b1 bs (n + 1) l (fresh_pcb PS_TYPE_PROCESS f));
           [cbn; lia|done|exact (md_procs _ _ _ _ _ _ Hm)]. }
    rewrite name_valid by (unfold small; lia). rewrite (name_at _ _ _ Hr2 Hok Hkn Hb) by exact Hz.
    cbn [r_str]. unfold strncpy_path. rewrite take_take, Nat.min_id. done. }
  replace (n + 1 + 1) with (n + 2) by lia.
  replace (n + (2 + 2 * Z.of_nat (length (pg_sections p)))) with (n + 2 + 2 * Z.of_nat (length (pg_sections p))) by lia.
  eapply steps_app.
  - apply (sections_steps s (pg_sections p) k2 b2 bs (n + 2)); [unfold small; cbn; lia|lia..|].
    pose proof (md_heap _ _ _ _ _ _ Hm) as [_ _ Ho]. exact Ho.
  - apply steps_id. apply Forall_app in Hok as [_ Hok]. apply Forall_app in Hok as [Hok _].
    rewrite Forall_forall in Hok. rewrite Forall_forall in Hu. apply Forall_forall. intros r Hr a'.
    apply unused_step; [by apply Hok|by apply Hu].
Qed.

(** *** All programs *)
Record task := mkTask { t_prog : program; t_loc : positive; t_table : Z; t_name : Z }.
Definition task_bip (t : task) : BootinfoProcess := program_bip (t_loc t) (t_name t) (t_prog t).
Definition task_pcb (t : task) : Process := boot_pcb (t_prog t) (t_table t).
Definition procs_rest (s : procs) :=
  (sosProcs s, nextPid s, tidOffset s, last_thread_s s, last_thread_disabled_s s).
Record all_made (k k' : kstate) (ts : list task) (fs : list Z) : Prop := {
  am_pcbs : Forall (λ t, pcbs (k_procs k') !! t_loc t = Some (task_pcb t)) ts;
  am_other : ∀ l, l ∉ t_loc <$> ts → pcbs (k_procs k') !! l = pcbs (k_procs k) !! l;
  am_fresh : Forall (λ t, pcbs (k_procs k) !! t_loc t = None ∧ t_loc t ≠ 1%positive) ts;
  am_nodup : NoDup (t_loc <$> ts);
  am_rest : procs_rest (k_procs k') = procs_rest (k_procs k);
  am_ok : procs_ok (k_procs k) → procs_ok (k_procs k');
  am_heap : heap_ok k';
  am_free : free_list (frs (k_swap k')) fs;
  am_empty : Forall (λ t, ∀ i, 0 ≤ i < PAGEWORDS → l1 (kmem k') (t_table t) i = 0) ts;
  am_others : ∀ g a, frame_addr g → g ∉ t_table <$> ts → in_frame g a →
    load32 (kmem k') a = load32 (kmem k) a;
  am_aside : aside k' = aside k ∧ swapfiles (k_swap k') = swapfiles (k_swap k)
}.
Lemma all_made_cons k k1 k2 t ts fs fs1 :
  made k k1 (t_loc t) (task_pcb t) (t_table t) fs1 → all_made k1 k2 ts fs →
  frame_addr (t_table t) → t_table t ∉ t_table <$> ts → all_made k k2 (t :: ts) fs.
Proof.
  intros [M1 [M2 M2'] M3 M4 M5 M6 [M7 M8]] [A1 A2 A3 A4 A5 Aok A6 A7 A8 A9 [A10 A11]] Hfa Hni.
  assert (pcbs (k_procs k1) !! t_loc t = Some (task_pcb t)) as Hx by (rewrite M1; apply lookup_insert_eq).
  assert (t_loc t ∉ t_loc <$> ts) as Hl.
  { intros (t' & E & Ht')%list_elem_of_fmap. rewrite Forall_forall in A3.
    destruct (A3 t' Ht') as [Hn _]. rewrite <- E, Hx in Hn. done. }
  split; [| | | | | |done|done| | |split; congruence].
  - constructor; [|exact A1]. by rewrite A2.
  - intros l [Hne Hin]%not_elem_of_cons. rewrite A2 by done. rewrite M1. cbn. by rewrite lookup_insert_ne.
  - constructor; [done|]. eapply Forall_impl; [exact A3|]. intros t' [H1 H2]. split; [|done].
    rewrite M1 in H1. cbn in H1. destruct (decide (t_loc t' = t_loc t)) as [E|Hne].
    + by rewrite E, lookup_insert_eq in H1.
    + by rewrite lookup_insert_ne in H1.
  - cbn. by apply NoDup_cons.
  - rewrite A5. unfold procs_rest. by rewrite M1.
  - intros Hok. apply Aok. rewrite M1. by apply add_pcb_ok.
  - constructor; [|exact A8]. intros i Hi. unfold l1. rewrite (A9 (t_table t)); [by apply M5|done|done|].
    by apply word_at_in.
  - intros g a Hg [Hne Hin]%not_elem_of_cons Ha. rewrite (A9 g a) by done. by apply (M6 g).
Qed.
Definition all_names (ps : list program) : Z := sum_list_with (λ p, Z.to_nat (program_names p)) ps.
Lemma all_names_cons p ps : all_names (p :: ps) = program_names p + all_names ps.
Proof. unfold all_names, program_names. cbn [sum_list_with]. lia. Qed.
Lemma all_names_nonneg ps : 0 ≤ all_names ps.
Proof. unfold all_names. lia. Qed.

Lemma contents_steps s ps : ∀ k bs n a rs fs0 fs,
  length fs0 = length ps → free_list (frs (k_swap k)) (fs0 ++ fs) →
  heap_ok k → tidOffset (k_procs k) ≠ 0 → 0 < n → n + all_names ps < 2 ^ 31 - 1 →
  Forall rec_ok (contents n ps ++ rs) →
  Forall (λ r, is_Some (bi_op_of (r_op r))) (contents n ps ++ rs) →
  Forall (λ p, 0 ∉ pg_name p) ps → Forall (λ p, Forall (op_in unused_ops) (pg_rest p)) ps →
  bytes_at m a (encode (contents n ps ++ rs)) →
  ∃ ts k', t_prog <$> ts = ps ∧ t_table <$> ts = fs0 ∧ (λ t, t_name t + 1) <$> ts = threads n ps ∧
    steps cb (contents n ps) a (boot_at s k bs n)
      (boot_at s k' (rev (task_bip <$> ts) ++ bs) (n + all_names ps)) ∧
    all_made k k' ts fs.
Proof.
  induction ps as [|p ps IH]; intros k bs n a rs fs0 fs Hlen Hfl Hh Hoff Hn Hlt Hok Hkn Hz Hu Hb.
  - destruct fs0; [|done]. exists [], k. split; [done|]. split; [done|]. split; [done|].
    cbn. rewrite Z.add_0_r. split; [apply steps_nil|]. split; try done; constructor.
  - destruct fs0 as [|f fs0]; [done|]. cbn [app] in Hfl. pose proof Hfl as [(_ & Hfa & _) Hnd].
    cbn [contents] in *. rewrite <- app_assoc in Hok, Hkn, Hb. rewrite all_names_cons in Hlt.
    pose proof (all_names_nonneg ps) as Hnn.
    apply Forall_cons in Hz as [Hz1 Hz]. apply Forall_cons in Hu as [Hu1 Hu].
    destruct (program_steps s k bs n p a (contents (n + program_names p) ps ++ rs) f (fs0 ++ fs))
      as (l & k1 & Hs1 & Hm); [done..|lia|done|done|done|done|done|].
    assert (0 < program_names p) by (unfold program_names; lia).
    destruct (IH k1 (program_bip l n p :: bs) (n + program_names p) (a + recs_size (program_recs n p)) rs fs0 fs)
      as (ts & k2 & E1 & E2 & E3 & Hs2 & Ham).
    { by injection Hlen. } { exact (md_free _ _ _ _ _ _ Hm). } { exact (md_heap _ _ _ _ _ _ Hm). }
    { by rewrite (md_procs _ _ _ _ _ _ Hm). } { lia. } { lia. }
    { by apply Forall_app in Hok as [_ Hok]. } { by apply Forall_app in Hkn as [_ Hkn]. } { done. } { done. }
    { by apply encode_drop. }
    exists (mkTask p l f n :: ts), k2. cbn [fmap list_fmap t_prog t_table t_name threads].
    rewrite E1, E2, E3. do 3 (split; [done|]). split.
    + eapply steps_app; [exact Hs1|]. cbn [rev]. rewrite <- app_assoc, all_names_cons, Z.add_assoc. exact Hs2.
    + apply (all_made_cons k k1 k2 (mkTask p l f n) ts fs (fs0 ++ fs)); [exact Hm|exact Ham|exact Hfa|].
      cbn [t_table]. rewrite E2. apply NoDup_cons in Hnd as [Hnd _]. intros Hin. apply Hnd, elem_of_app. by left.
Qed.
Lemma threads_above ps : ∀ n t, t ∈ threads n ps → n < t.
Proof.
  induction ps as [|p ps IH]; intros n t; cbn [threads]; [by intros ?%elem_of_nil|].
  intros [->|Ht]%elem_of_cons; [lia|]. apply IH in Ht. unfold program_names in Ht. lia.
Qed.
Lemma threads_nodup ps n : NoDup (threads n ps).
Proof.
  revert n. induction ps as [|p ps IH]; intros n; cbn [threads]; constructor; [|apply IH].
  intros Ht%threads_above. unfold program_names in Ht. lia.
Qed.

(** ** Running the programs *)
Definition program_regions (p : program) : list Region := rev (section_region <$> pg_sections p).
Record like (b : BootinfoProcess) (t : task) : Prop := {
  lk_tid : bip_tid b = Some (t_name t + 1);
  lk_process : bip_process b = Some (t_loc t);
  lk_regions : br_region <$> bip_regions b = program_regions (t_prog t)
}.
Lemma with_sections_like n scs b :
  bip_tid (with_sections n scs b) = bip_tid b ∧ bip_process (with_sections n scs b) = bip_process b ∧
  br_region <$> bip_regions (with_sections n scs b) =
    rev (section_region <$> scs) ++ (br_region <$> bip_regions b).
Proof.
  revert n b. induction scs as [|sc scs IH]; intros n b; [done|]. cbn [with_sections].
  destruct (IH (n + 2) (with_section n sc b)) as (-> & -> & ->). split; [done|]. split; [done|].
  cbn [fmap list_fmap rev]. rewrite <- app_assoc. done.
Qed.
Lemma task_like t : like (task_bip t) t.
Proof.
  unfold task_bip, program_bip.
  destruct (with_sections_like (t_name t + 2) (pg_sections (t_prog t))
    (mkBip (Some (t_loc t)) [] (Some (t_name t + 1)) (t_name t))) as (E1 & E2 & E3).
  split; [exact E1|exact E2|]. rewrite E3. cbn. by rewrite app_nil_r.
Qed.

Lemma find_tid_run s bs ts : Forall2 like bs ts → ∀ i j t,
  NoDup (t_name <$> ts) → ts !! j = Some t →
  ∃ b, bs !! j = Some b ∧ like b t ∧ find_tid i bs (t_name t + 1) s = Ok (Some ((i + j)%nat, b)) s.
Proof.
  induction 1 as [|b t0 bs ts Hb _ IH]; intros i j t Hnd Hj; [done|]. cbn [find_tid].
  rewrite (bind_ok _ _ s (t_name t0 + 1) s) by (by rewrite (lk_tid _ _ Hb)).
  cbn in Hnd. apply NoDup_cons in Hnd as [Hni Hnd]. destruct j as [|j]; cbn in Hj.
  - injection Hj as <-. rewrite decide_True by done. exists b. by rewrite Nat.add_0_r.
  - rewrite decide_False.
    + destruct (IH (Datatypes.S i) j t Hnd Hj) as (b' & H1 & H2 & H3). exists b'. rewrite H3.
      by rewrite Nat.add_succ_l, Nat.add_succ_r.
    + intros E. apply Hni. assert (t_name t0 = t_name t) as -> by lia.
      apply list_elem_of_fmap. exists t. split; [done|]. by apply list_elem_of_lookup_2 in Hj.
Qed.
Lemma add_regions_run s k bs n l x rs :
  pcbs (k_procs k) !! l = Some x →
  ∃ rs', add_regions (Some l) rs (boot_at s k bs n) =
      Ok rs' (boot_at s (set_procs (upd_pcb l (λ x, set_regions (regions x ++ (br_region <$> rs)) x) (k_procs k)) k) bs n) ∧
    br_region <$> rs' = br_region <$> rs.
Proof.
  revert k x. induction rs as [|r rs IH]; intros k x Hx; cbn [add_regions].
  - exists []. split; [|done]. unfold mret, M_ret. do 2 f_equal. destruct k as [sw ps v nf c pg cl]. unfold set_procs.
    cbn in *. f_equal. unfold upd_pcb, set_pcbs. destruct ps as [pcs ? ? ? ? ?]. cbn in *. f_equal.
    symmetry. apply map_eq. intros i. rewrite lookup_alter. case_decide; [subst|done]. rewrite Hx. cbn.
    rewrite app_nil_r. by destruct x.
  - set (g := λ x, set_regions (regions x ++ [br_region r]) x). set (k1 := set_procs (upd_pcb l g (k_procs k)) k).
    destruct (IH k1 (g x)) as (rs' & H1 & H2); [by apply upd_pcb_lookup|].
    exists (mkBR (br_region r) (br_id r) (br_at r ++ [length (regions x)]) :: rs').
    rewrite (bind_ok _ _ _ x (boot_at s k bs n)); last first.
    { apply (on_k_run _ (boot_at s k bs n) x k), (on_procs_id _ k), pcb_get_run, Hx. }
    rewrite (bind_ok _ _ _ tt (boot_at s k1 bs n)); last first.
    { apply (on_k_run _ (boot_at s k bs n)), on_procs_run, (pcb_upd_run _ l x _ Hx). }
    rewrite (bind_ok _ _ _ _ _ H1). split; [|cbn; by rewrite H2].
    unfold mret, M_ret. unfold k1 at 1. cbn [k_procs set_procs]. rewrite upd_pcb_twice.
    rewrite (upd_pcb_ext _ _ x _ (λ x, set_regions (regions x ++ (br_region <$> r :: rs)) x) Hx); [done|].
    unfold g. cbn. by rewrite <- app_assoc.
Qed.

(** The PCB of a program that runs as process [r]. *)
Definition run_pcb (t : task) (r tm : Z) : Process :=
  running tm (builtin (upd_info (set_pid r) (set_regions (program_regions (t_prog t)) (task_pcb t)))).
Definition task_events (pg : L4_ThreadId_t) (t : task) (r : Z) : list event :=
  [L4_Ipc L4_rootserver PSOS_OPEN SOS_IPC_SEND (w32 <$> [FM_WRITE; FM_UNLIMITED_RW; FM_UNLIMITED_RW; r]);
   L4_Ipc L4_rootserver PSOS_DUP SOS_IPC_SEND (w32 <$> [stdout_fd; stderr_fd; r]);
   L4_TaskStart r pg (pg_entry (t_prog t)) (sp (run_pcb t r 0))].
(** [r] is the first free pid, going round from [nxt]; the programs get theirs one
    after the other, each search starting from the last pid given out. *)
Definition first_free (off nxt : Z) (busy : Z → Prop) (r : Z) : Prop :=
  ∃ k, 0 ≤ k < MAX_ADDRSPACES - off ∧ r = off + (nxt - off + k) mod (MAX_ADDRSPACES - off) ∧ ¬ busy r ∧
    ∀ j, 0 ≤ j < k → busy (off + (nxt - off + j) mod (MAX_ADDRSPACES - off)).
Fixpoint taken_in_order (off nxt : Z) (busy : Z → Prop) (rs : list Z) : Prop :=
  match rs with
  | [] => True
  | r :: rs' => first_free off nxt busy r ∧ taken_in_order off r (λ i, i = r ∨ busy i) rs'
  end.
Definition pids_in_order (s : procs) : list Z → Prop :=
  taken_in_order (tidOffset s) (nextPid s) (λ i, slot s i ≠ NULL).
Lemma first_free_ext off nxt (busy busy' : Z → Prop) r :
  0 ≤ off < MAX_ADDRSPACES → (∀ i, 0 ≤ i → busy i ↔ busy' i) →
  first_free off nxt busy r → first_free off nxt busy' r.
Proof.
  intros Ho Hb (k & Hk & -> & Hn & Hall).
  assert (∀ j, 0 ≤ off + (nxt - off + j) mod (MAX_ADDRSPACES - off)) as Hpos.
  { intros j. pose proof (Z.mod_pos_bound (nxt - off + j) (MAX_ADDRSPACES - off)). lia. }
  exists k. split_and!; [lia..|done|by rewrite <- Hb|]. intros j Hj. apply Hb; [done|by apply Hall].
Qed.
Lemma taken_ext off rs : ∀ nxt (busy busy' : Z → Prop),
  0 ≤ off < MAX_ADDRSPACES → (∀ i, 0 ≤ i → busy i ↔ busy' i) →
  taken_in_order off nxt busy rs → taken_in_order off nxt busy' rs.
Proof.
  induction rs as [|r rs IH]; intros nxt busy busy' Ho Hb; [done|]. intros [H1 H2].
  split; [by eapply first_free_ext|]. eapply IH; [done| |exact H2]. intros i Hi. cbn. by rewrite Hb.
Qed.
Lemma next_free_first s r : slot s r = NULL → next_free s r →
  first_free (tidOffset s) (nextPid s) (λ i, slot s i ≠ NULL) r.
Proof. intros Hs (k & Hk & <- & Hb). exists k. unfold span in Hk. split_and!; [lia..|done|tauto|exact Hb]. Qed.
Record started (k k' : kstate) (t : task) (r : Z) : Prop := {
  sd_free : slot (k_procs k) r = NULL ∧ tidOffset (k_procs k) ≤ r < MAX_ADDRSPACES;
  sd_pcb : ∃ tm, pcbs (k_procs k') !! t_loc t = Some (run_pcb t r tm);
  sd_other : ∀ l, l ≠ t_loc t → pcbs (k_procs k') !! l = pcbs (k_procs k) !! l;
  sd_table : sosProcs (k_procs k') = <[Z.to_nat r := Some (t_loc t)]> (sosProcs (k_procs k));
  sd_off : tidOffset (k_procs k') = tidOffset (k_procs k);
  sd_ok : procs_ok (k_procs k');
  sd_heap : heap_ok k';
  sd_view : launch_view k' = launch_view k;
  sd_log : klog k' = klog k ++ task_events (virtualPager (k_pager k)) t r;
  sd_first : next_free (k_procs k) r;
  sd_next : nextPid (k_procs k') = r
}.
Lemma builtin_info x : info (builtin x) = info x ∧ ip (builtin x) = ip x ∧ fin (builtin x) = fin x.
Proof. unfold builtin. by case_decide. Qed.
Lemma upd_pcb_pids l f s : (∀ x, pid (info (f x)) = pid (info x)) → pid_view (upd_pcb l f s) = pid_view s.
Proof.
  intros Hf. unfold pid_view, pids, upd_pcb, set_pcbs. cbn. do 3 f_equal.
  apply map_eq. intros i. rewrite !lookup_fmap, lookup_alter. case_decide; [|done]. subst.
  destruct (pcbs s !! i); cbn; [by rewrite Hf|done].
Qed.

Lemma launch_task k t r n s1 x :
  let l := t_loc t in
  pcbs (k_procs k) !! l = Some (set_regions (program_regions (t_prog t)) (task_pcb t)) →
  x = upd_info (set_pid r) (set_regions (program_regions (t_prog t)) (task_pcb t)) →
  s1 = enter r l (upd_pcb l (upd_info (set_pid r)) (set_nextPid n (k_procs k))) →
  prepare_register (Some l) (k_procs k) = Ok tt s1 →
  0 ≤ r < MAX_THREADS → moracle (kmach k) = [] → virtualPager (k_pager k) ≠ L4_nilthread →
  ∃ k1 k' tm, process_prepare (Some l) k = Ok tt k1 ∧
    process_run (Some l) true k1 = Ok (L4_GlobalId r 1) k' ∧
    k_procs k' = upd_pcb l (running tm) (upd_pcb l builtin s1) ∧ launch_view k' = launch_view k ∧
    mnext (kmach k') = mnext (kmach k) ∧ moracle (kmach k') = [] ∧
    klog k' = klog k ++ task_events (virtualPager (k_pager k)) t r.
Proof.
  intros l Hx Ex Es Hreg Hr Ho Hvp.
  assert (pcbs s1 !! l = Some x) as Hx1.
  { rewrite Es, Ex. cbn. by rewrite lookup_alter_eq, Hx. }
  assert (ps_type (info x) = PS_TYPE_PROCESS ∧ fin x = None ∧ pid (info x) = r) as (Hty & Hfin & Hpid) by (by rewrite Ex).
  pose proof (prepare2_run k l s1 x None None None Hreg Hx1 Hty Hfin Ho) as Hp. rewrite Hpid in Hp.
  specialize (Hp (conj (λ e, e) (λ e, e))). cbn [std_in] in Hp.
  set (k0 := set_procs (upd_pcb l builtin s1) k) in Hp. set (k1 := std_files r None None k0) in Hp.
  assert (k_procs k1 = upd_pcb l builtin s1) as Ep by (unfold k1; by rewrite std_files_procs).
  assert (pcbs (k_procs k1) !! l = Some (builtin x)) as Hx2 by (rewrite Ep; by apply upd_pcb_lookup).
  destruct (builtin_info x) as (I1 & I2 & I3).
  destruct (process_run_run k1 l (builtin x)) as [tm Ht];
    [done|by rewrite I1|exact Hvp|by rewrite I1, Hpid|].
  rewrite I1, Hpid in Ht. eexists k1, _, tm. split; [exact Hp|]. split; [exact Ht|].
  cbn [k_procs set_procs]. rewrite Ep. split; [done|]. split; [done|]. split; [done|]. split; [exact Ho|].
  change (klog k1 ++ [L4_TaskStart r (virtualPager (k_pager k)) (ip (builtin x)) (sp (builtin x))] =
    klog k ++ task_events (virtualPager (k_pager k)) t r).
  unfold k1. rewrite std_files_log, decide_True by done. rewrite <- app_assoc.
  unfold task_events, run_pcb. rewrite I2, Ex. done.
Qed.

(** What running a program needs. *)
Record can_run (k : kstate) : Prop := {
  cr_ok : procs_ok (k_procs k);
  cr_heap : heap_ok k;
  cr_pager : virtualPager (k_pager k) ≠ L4_nilthread
}.
Lemma launched k k' t r n tm :
  let l := t_loc t in
  pcbs (k_procs k) !! l = Some (set_regions (program_regions (t_prog t)) (task_pcb t)) →
  heap_ok k → procs_ok (k_procs k) →
  slot (k_procs k) r = NULL → tidOffset (k_procs k) ≤ r < MAX_ADDRSPACES →
  prepare_register (Some l) (k_procs k) =
    Ok tt (enter r l (upd_pcb l (upd_info (set_pid r)) (set_nextPid n (k_procs k)))) →
  k_procs k' = upd_pcb l (running tm) (upd_pcb l builtin
    (enter r l (upd_pcb l (upd_info (set_pid r)) (set_nextPid n (k_procs k))))) →
  launch_view k' = launch_view k → mnext (kmach k') = mnext (kmach k) → moracle (kmach k') = [] →
  klog k' = klog k ++ task_events (virtualPager (k_pager k)) t r →
  n = r → next_free (k_procs k) r → started k k' t r.
Proof.
  intros l Hx Hh Hok Hsl Hr Hreg Ep Hv Hn Ho Hlog Hnr Hfirst. destruct (register_inv _ _ _ Hok Hreg)
    as (l' & x' & r' & [= <-] & Hx' & (Hok1 & _) & _).
  assert (∀ l', l' ≠ l → pcbs (k_procs k') !! l' = pcbs (k_procs k) !! l') as Hother.
  { intros l' Hne. rewrite Ep. cbn. by rewrite !lookup_alter_ne by done. }
  split; [done| |done| | | | |done|done|done|by rewrite Ep].
  - exists tm. rewrite Ep. cbn. rewrite !lookup_alter_eq. fold l. by rewrite Hx.
  - by rewrite Ep.
  - by rewrite Ep.
  - rewrite Ep. eapply procs_ok_view; [|exact Hok1]. rewrite !upd_pcb_pids; [done| |done].
    intros y. by rewrite (proj1 (builtin_info y)).
  - destruct Hh as [H1 H2 H3]. split; [|by rewrite Hn|done]. intros l' y Hy. rewrite Hn.
    destruct (decide (l' = l)) as [->|Hne]; [by apply (H1 _ _ Hx)|]. rewrite Hother in Hy by done. by apply (H1 _ y).
Qed.

Lemma run_thread_run s k bs n ts j t :
  can_run k → Forall2 like bs ts → NoDup (t_name <$> ts) → ts !! j = Some t →
  pcbs (k_procs k) !! t_loc t = Some (task_pcb t) →
  (∃ i, tidOffset (k_procs k) ≤ i < MAX_ADDRSPACES ∧ slot (k_procs k) i = NULL) →
  ∃ r bs' k', (∀ d, bootinfo_run_thread (t_name t + 1) d (boot_at s k bs n) = Ok 0 (boot_at s k' bs' n)) ∧
    Forall2 like bs' ts ∧ started k k' t r.
Proof.
  intros [Hok Hh Hvp] Hl Hnd Hj Hx Hroom. set (l := t_loc t) in *.
  destruct (find_tid_run (boot_at s k bs n) bs ts Hl 0 j t Hnd Hj) as (b & Hb & Hlk & Hfind).
  destruct (add_regions_run s k bs n l _ (bip_regions b) Hx) as (rs' & Hadd & Hrs).
  rewrite (lk_regions _ _ Hlk) in Hadd, Hrs. set (bs' := alter (set_bip_regions rs') j bs).
  set (k1 := set_procs _ k) in Hadd.
  assert (pcbs (k_procs k1) !! l = Some (set_regions (program_regions (t_prog t)) (task_pcb t))) as Hx1
    by exact (upd_pcb_lookup (k_procs k) l (task_pcb t)
          (λ x, set_regions (regions x ++ program_regions (t_prog t)) x) Hx).
  assert (procs_ok (k_procs k1)) as Hok1 by (eapply procs_ok_view; [by apply upd_pcb_pids|exact Hok]).
  assert (heap_ok k1) as Hh1.
  { destruct Hh as [H1 H2 H3]. split; [|done|done]. intros l' y Hy. cbn in Hy.
    destruct (decide (l' = l)) as [->|Hne]; [by apply (H1 _ _ Hx)|]. rewrite lookup_alter_ne in Hy by done. by apply (H1 _ y). }
  destruct (register_first (k_procs k1) l _ Hok1 Hx1 eq_refl Hroom)
    as (r & np & Hsl & Hr & _ & Hreg & Hnr & Hfirst).
  assert (0 ≤ r < MAX_THREADS) as Hr'.
  { pose proof (off_range _ Hok1). unfold MAX_THREADS, MAX_ADDRSPACES in *. lia. }
  destruct (launch_task k1 t r np _ _ Hx1 eq_refl eq_refl Hreg Hr' (heap_oracle _ Hh1) Hvp)
    as (k2 & k3 & tm & Hprep & Hrun & P3 & V3 & N3 & O3 & L3).
  exists r, bs', k3. split_and!.
  - intros d. unfold bootinfo_run_thread. rewrite (bind_ok _ _ _ bs (boot_at s k bs n)) by done.
    rewrite (bind_ok _ _ _ _ _ Hfind). cbn [fst snd Nat.add]. rewrite (lk_process _ _ Hlk). fold l.
    rewrite (bind_ok _ _ _ _ _ Hadd). rewrite (bind_ok _ _ _ tt (boot_at s k1 bs' n)) by done.
    rewrite (bind_ok _ _ _ tt (boot_at s k2 bs' n)) by (by apply (on_k_run _ (boot_at s k1 bs' n))).
    rewrite (bind_ok _ _ _ (L4_GlobalId r 1) (boot_at s k3 bs' n)) by (by apply (on_k_run _ (boot_at s k2 bs' n))).
    rewrite decide_True; [done|]. unfold L4_raw, MAX_THREADS in *. cbn [L4_ThreadNo L4_Version].
    rewrite w32_small by (unfold is_word; lia). change (w32 (-1)) with (2 ^ 32 - 1).
    change (w32 (-2)) with (2 ^ 32 - 2). change (w32 (-3)) with (2 ^ 32 - 3). lia.
  - unfold bs'. apply Forall2_alter_l; [exact Hl|]. intros b' t' Hb' Ht' Hlk'. simplify_eq.
    destruct Hlk' as [L1 L2 L4]. split; [done|done|]. exact Hrs.
  - destruct (launched k1 k3 t r np tm Hx1 Hh1 Hok1 Hsl Hr Hreg P3 V3 N3 O3 L3 Hnr Hfirst)
      as [S1 S2 S3 S4 S5 S6 S7 S8 S9 S10 S11].
    split; try done. intros l' Hne. rewrite S3 by done. cbn. by rewrite lookup_alter_ne.
Qed.

(** Room for [n] more processes. *)
Definition room (s : procs) (n : nat) : Prop :=
  ∃ is_, NoDup is_ ∧ (n ≤ length is_)%nat ∧
    Forall (λ i, tidOffset s ≤ i < MAX_ADDRSPACES ∧ slot s i = NULL) is_.
Definition task_of (p : task * Z) : positive := t_loc (fst p).
Record all_started (k k' : kstate) (tr : list (task * Z)) : Prop := {
  as_free : Forall (λ p, slot (k_procs k) (snd p) = NULL ∧
    tidOffset (k_procs k) ≤ snd p < MAX_ADDRSPACES) tr;
  as_nodup : NoDup (snd <$> tr);
  as_runs : Forall (λ p, slot (k_procs k') (snd p) = Some (task_of p) ∧
    ∃ tm, pcbs (k_procs k') !! task_of p = Some (run_pcb (fst p) (snd p) tm)) tr;
  as_pcbs : ∀ l, l ∉ task_of <$> tr → pcbs (k_procs k') !! l = pcbs (k_procs k) !! l;
  as_slots : ∀ i, 0 ≤ i → i ∉ snd <$> tr → slot (k_procs k') i = slot (k_procs k) i;
  as_off : tidOffset (k_procs k') = tidOffset (k_procs k);
  as_ok : can_run k';
  as_view : launch_view k' = launch_view k;
  as_log : klog k' = klog k ++
    concat ((λ p, task_events (virtualPager (k_pager k)) (fst p) (snd p)) <$> tr);
  as_first : pids_in_order (k_procs k) (snd <$> tr)
}.
Lemma started_slot k k' t r i :
  started k k' t r → procs_ok (k_procs k) → 0 ≤ i →
  slot (k_procs k') i = if decide (i = r) then Some (t_loc t) else slot (k_procs k) i.
Proof.
  intros [[S1 S1'] _ _ S4 _ _ _ _ _ _ _] Hok Hi. pose proof (off_range _ Hok). unfold slot. rewrite S4.
  case_decide as E.
  - subst i. rewrite list_lookup_insert_eq; [done|]. rewrite (tbl_len _ Hok). unfold MAX_ADDRSPACES in *. lia.
  - rewrite list_lookup_insert_ne; [done|]. lia.
Qed.
Lemma length_filter_ne (r : Z) is_ :
  NoDup is_ → (length is_ ≤ Datatypes.S (length (filter (λ i, i ≠ r) is_)))%nat.
Proof.
  induction 1 as [|i is_ Hni _ IH]; [cbn; lia|].
  destruct (decide (i = r)) as [->|Hne]; [|rewrite filter_cons_True by done; cbn; lia].
  rewrite filter_cons_False by tauto. cbn [length].
  assert (length (filter (λ i, i ≠ r) is_) = length is_) as ->; [|lia]. clear IH.
  induction is_ as [|j is_ IH]; [done|]. apply not_elem_of_cons in Hni as [Hne Hni].
  rewrite filter_cons_True by done. cbn. by rewrite IH.
Qed.
Lemma room_taken s s' r l n :
  (∀ i, 0 ≤ i → slot s' i = if decide (i = r) then Some l else slot s i) →
  tidOffset s' = tidOffset s → procs_ok s → room s (Datatypes.S n) → room s' n.
Proof.
  intros Hs Ho Hok (is_ & Hnd & Hlen & Hall). exists (filter (λ i, i ≠ r) is_).
  pose proof (off_range _ Hok). split_and!.
  - by apply NoDup_filter.
  - pose proof (length_filter_ne r is_ Hnd). lia.
  - apply Forall_forall. intros j [Hne Hj]%list_elem_of_filter. rewrite Forall_forall in Hall.
    destruct (Hall j Hj) as [H1 H2]. rewrite Ho. split; [done|]. rewrite Hs by lia. by rewrite decide_False.
Qed.
Lemma room_started k k' t r n :
  started k k' t r → procs_ok (k_procs k) → room (k_procs k) (Datatypes.S n) → room (k_procs k') n.
Proof.
  intros Hs Hok. apply (room_taken _ _ r (t_loc t)); [|by apply Hs|done].
  intros i Hi. by apply started_slot.
Qed.
Lemma all_started_cons k k1 k2 t r tr :
  procs_ok (k_procs k) → started k k1 t r → all_started k1 k2 tr → t_loc t ∉ task_of <$> tr →
  all_started k k2 ((t, r) :: tr).
Proof.
  intros Hok Hs [A1 A2 A3 A4 A5 A6 A7 A8 A9 A10] Hni. pose proof (off_range _ Hok) as Hoff.
  pose proof (sd_ok _ _ _ _ Hs) as Hok1. pose proof (off_range _ Hok1) as Hoff1.
  pose proof (λ i, started_slot k k1 t r i Hs Hok) as Hsl. destruct Hs as [[S1 S1'] S2 S3 S4 S5 S6 S7 S8 S9 S10 S11].
  assert (r ∉ snd <$> tr) as Hr.
  { intros (p & -> & Hp)%list_elem_of_fmap. rewrite Forall_forall in A1. destruct (A1 p Hp) as [Hf _].
    rewrite Hsl, decide_True in Hf by (done || lia). done. }
  split; [| | | | |congruence|done|congruence| |].
  - constructor; [done|]. eapply Forall_impl; [exact A1|]. intros p [Hf Hp]. rewrite S5 in Hp.
    split; [|done]. rewrite Hsl in Hf by lia. by case_decide.
  - cbn. by apply NoDup_cons.
  - constructor; [|exact A3]. cbn [fst snd]. change (task_of (t, r)) with (t_loc t). split.
    + rewrite A5 by (done || lia). by rewrite Hsl, decide_True by (done || lia).
    + rewrite A4 by done. done.
  - intros l [Hne Hl]%not_elem_of_cons. rewrite A4 by done. by apply S3.
  - intros i Hi [Hne Hin]%not_elem_of_cons. rewrite A5 by done. rewrite Hsl by done. by rewrite decide_False.
  - rewrite A9, S9. assert (k_pager k1 = k_pager k) as -> by (unfold launch_view in S8; injection S8; auto).
    cbn [fmap list_fmap concat fst snd]. by rewrite <- app_assoc.
  - split; [by apply next_free_first|]. unfold pids_in_order in A10. rewrite S11, S5 in A10.
    eapply taken_ext; [lia| |exact A10]. intros i Hi. cbn. rewrite Hsl by done. case_decide; [subst; naive_solver|naive_solver].
Qed.

Lemma runs_steps s ts sel : ∀ k bs n a,
  can_run k → Forall2 like bs ts → NoDup (t_name <$> ts) → Forall (λ t, t ∈ ts) sel →
  NoDup (t_loc <$> sel) → Forall (λ t, pcbs (k_procs k) !! t_loc t = Some (task_pcb t)) sel →
  Forall (λ t, small (t_name t + 1)) sel → room (k_procs k) (length sel) →
  ∃ tr bs' k', fst <$> tr = sel ∧
    steps cb ((λ t, rec BI_OP_RUN_THREAD [t_name t + 1]) <$> sel) a (boot_at s k bs n) (boot_at s k' bs' n) ∧
    all_started k k' tr.
Proof.
  induction sel as [|t sel IH]; intros k bs n a Hcr Hl Hnd Hin Hld Hx Hsm Hroom.
  - exists [], bs, k. split; [done|]. split; [apply steps_nil|].
    split; try done; try constructor. cbn. by rewrite app_nil_r.
  - apply Forall_cons in Hin as [Ht Hin]. apply Forall_cons in Hx as [Hx1 Hx]. apply Forall_cons in Hsm as [Hs1 Hsm].
    cbn in Hld. apply NoDup_cons in Hld as [Hni Hld]. apply list_elem_of_lookup in Ht as [j Hj].
    pose proof (cr_ok _ Hcr) as Hok.
    destruct (run_thread_run s k bs n ts j t) as (r & bs1 & k1 & Hrun & Hl1 & Hst); [done..| |].
    { destruct Hroom as (is_ & Hnd' & Hlen & Hall). destruct is_ as [|i is_]; [cbn in Hlen; lia|].
      apply Forall_cons in Hall as [Hi _]. by exists i. }
    destruct (IH k1 bs1 n (a + rec_size (rec BI_OP_RUN_THREAD [t_name t + 1]))) as (tr & bs2 & k2 & E & Hs & Ha);
      [| done | done | done | done | | done | by eapply room_started | ].
    { split; [exact (sd_ok _ _ _ _ Hst)|exact (sd_heap _ _ _ _ Hst)|].
      pose proof (sd_view _ _ _ _ Hst) as V. unfold launch_view in V. injection V as _ _ _ -> _ _ _.
      apply (cr_pager _ Hcr). }
    { apply Forall_forall. intros t' Ht'. rewrite Forall_forall in Hx.
      rewrite (sd_other _ _ _ _ Hst); [by apply Hx|]. intros El. apply Hni. rewrite <- El. by apply list_elem_of_fmap_2. }
    exists ((t, r) :: tr), bs2, k2. split; [cbn; by rewrite E|]. split.
    + cbn [fmap list_fmap]. eapply steps_cons; [|exact Hs]. intros d. unfold exec_rec. cbn [rec r_op r_args].
      rewrite op_num_of. cbn [status cb_run_thread start_callbacks]. rewrite s32_name by done.
      rewrite (bind_ok _ _ _ _ _ (Hrun d)). done.
    + apply (all_started_cons k k1 k2); [done|done|done|].
      assert (task_of <$> tr = t_loc <$> sel) as ->; [|done]. rewrite <- E, <- list_fmap_compose. done.
Qed.

(** ** The whole image *)
Lemma pools_steps s k bs rs : ∀ n a,
  Forall rec_ok rs → Forall (op_in (BI_OP_NEW_POOL :: BI_OP_NEW_CAP :: unused_ops)) rs →
  0 < n → n + length (filter naming_rec rs) < 2 ^ 31 - 1 →
  steps cb rs a (boot_at s k bs n) (boot_at s k bs (n + length (filter naming_rec rs))).
Proof.
  induction rs as [|r rs IH]; intros n a Hok Hop Hn Hlt.
  { cbn. rewrite Z.add_0_r. apply steps_nil. }
  apply Forall_cons in Hok as [Hr Hok]. apply Forall_cons in Hop as [(o & Ho & E) Hop].
  rewrite filter_cons in *. destruct (decide (o ∈ [BI_OP_NEW_POOL; BI_OP_NEW_CAP])) as [Hin|Hni].
  - assert (naming_rec r = true) as Hnr.
    { unfold naming_rec. rewrite <- (op_of_num _ _ E). destruct o; try done; exfalso; revert Hin; not_in. }
    rewrite Hnr in *. rewrite decide_True in * by done. cbn [length] in *. eapply steps_cons.
    + apply name_step; [done|by exists o|unfold small; lia].
    + replace (n + Z.of_nat (Datatypes.S (length (filter naming_rec rs))))
        with (n + 1 + Z.of_nat (length (filter naming_rec rs))) by lia.
      apply IH; [done|done|lia|lia].
  - assert (naming_rec r = false) as Hnr.
    { unfold naming_rec. rewrite <- (op_of_num _ _ E). destruct o; try done; exfalso; apply Hni; set_solver. }
    rewrite Hnr in *. rewrite decide_False in * by (intros ?; done).
    eapply steps_cons; [|by apply IH]. apply unused_step; [done|]. exists o. split; [|done].
    apply elem_of_cons in Ho as [->|Ho]; [exfalso; apply Hni; set_solver|].
    apply elem_of_cons in Ho as [->|Ho]; [exfalso; apply Hni; set_solver|done].
Qed.

Lemma runs_of ts n ps order :
  (λ t, t_name t + 1) <$> ts = threads n ps → length ts = length ps →
  Forall (λ i, i < length ps)%nat order →
  ∃ sel, Forall2 (λ i t, ts !! i = Some t) order sel ∧
    (λ i, rec BI_OP_RUN_THREAD [threads n ps !!! i]) <$> order =
    (λ t, rec BI_OP_RUN_THREAD [t_name t + 1]) <$> sel.
Proof.
  intros E Hlen. induction 1 as [|i order Hi _ IH]; [by exists []|]. destruct IH as (sel & H1 & H2).
  destruct (lookup_lt_is_Some_2 ts i) as [t Ht]; [lia|]. exists (t :: sel). split; [by constructor|].
  cbn [fmap list_fmap]. rewrite H2. do 3 f_equal. rewrite <- E.
  by apply list_lookup_total_correct; rewrite list_lookup_fmap, Ht.
Qed.
Lemma selected_nodup {A} (f : task → A) ts order sel :
  Forall2 (λ i t, ts !! i = Some t) order sel → NoDup order → NoDup (f <$> ts) → NoDup (f <$> sel).
Proof.
  intros H Hnd Hf. induction H as [|i t order sel Hi H IH]; [constructor|]. cbn.
  apply NoDup_cons in Hnd as [Hni Hnd]. constructor; [|by apply IH].
  intros (t' & E & Ht')%list_elem_of_fmap. apply list_elem_of_lookup in Ht' as [j Hj].
  destruct (Forall2_lookup_r _ _ _ _ _ H Hj) as (i' & Hi' & Ht). cbn in Ht.
  assert (i = i') as ->.
  { eapply (NoDup_lookup _ i i' _ Hf); rewrite list_lookup_fmap; [by rewrite Hi|]. by rewrite Ht, E. }
  apply Hni. by apply list_elem_of_lookup_2 in Hi'.
Qed.
Lemma selected_in (ts : list task) (order : list nat) sel :
  Forall2 (λ i t, ts !! i = Some t) order sel → Forall (λ t, t ∈ ts) sel.
Proof. induction 1; constructor; [by eapply list_elem_of_lookup_2|done]. Qed.

Lemma threads_below ps : ∀ n t, t ∈ threads n ps → t < n + all_names ps.
Proof.
  induction ps as [|p ps IH]; intros n t; cbn [threads]; [by intros ?%elem_of_nil|].
  rewrite all_names_cons. pose proof (all_names_nonneg ps).
  intros [->|Ht]%elem_of_cons; [unfold program_names; lia|]. apply IH in Ht. lia.
Qed.
Lemma threads_small im t :
  image_ok im → t ∈ threads (first_name im) (im_programs im) → small t.
Proof.
  intros Hok Ht. pose proof (threads_above _ _ _ Ht). pose proof (threads_below _ _ _ Ht).
  pose proof (im_names im Hok). unfold small, all_names, first_name in *. lia.
Qed.

(** The threads of the order run, once the programs are made. *)
Lemma order_steps im s k k1 ts fs a :
  image_ok im → can_run k → room (k_procs k) (length (im_order im)) →
  t_prog <$> ts = im_programs im → (λ t, t_name t + 1) <$> ts = threads (first_name im) (im_programs im) →
  all_made k k1 ts fs →
  ∃ tr bs' k', Forall2 (λ i p, ts !! i = Some (fst p)) (im_order im) tr ∧
    steps cb (runs im) a
      (boot_at s k1 (rev (task_bip <$> ts) ++ []) (first_name im + all_names (im_programs im)))
      (boot_at s k' bs' (first_name im + all_names (im_programs im))) ∧
    all_started k1 k' tr.
Proof.
  intros Hok Hcr Hroom E1 E3 Ham. destruct (im_order_ok im Hok) as [Hnd Hord].
  assert (length ts = length (im_programs im)) as Hlt by (by rewrite <- E1, length_fmap).
  destruct (runs_of ts (first_name im) (im_programs im) (im_order im) E3 Hlt Hord) as (sel & Hsel & Eruns).
  assert (Forall (λ t, t ∈ ts) sel) as Hin by (by eapply selected_in).
  pose proof (threads_nodup (im_programs im) (first_name im)) as Htn. rewrite <- E3 in Htn.
  assert (NoDup (t_name <$> ts)) as Hname.
  { apply (NoDup_fmap_1 (λ n, n + 1)). by rewrite <- list_fmap_compose. }
  destruct (runs_steps s (rev ts) sel k1 (rev (task_bip <$> ts) ++ [])
    (first_name im + all_names (im_programs im)) a) as (tr & bs' & k2 & E4 & Hs2 & Has).
  { split; [apply (am_ok _ _ _ _ Ham), (cr_ok _ Hcr)|apply Ham|].
    assert (aside k1 = aside k) as Ea by apply Ham. unfold aside in Ea. injection Ea as _ _ _ -> _.
    apply (cr_pager _ Hcr). }
  { rewrite app_nil_r, <- fmap_rev. generalize (rev ts). intros l.
    induction l; [constructor|]. constructor; [apply task_like|done]. }
  { rewrite fmap_rev. by rewrite rev_perm. }
  { eapply Forall_impl; [exact Hin|]. intros t Ht. by rewrite rev_perm. }
  { eapply selected_nodup; [exact Hsel|done|apply Ham]. }
  { pose proof (am_pcbs _ _ _ _ Ham) as Hp. rewrite Forall_forall in Hp.
    eapply Forall_impl; [exact Hin|]. intros t Ht. by apply Hp. }
  { eapply Forall_impl; [exact Hin|]. intros t Ht. apply (threads_small im); [done|]. rewrite <- E3.
    by apply (list_elem_of_fmap_2 (λ t, t_name t + 1)). }
  { rewrite <- (Forall2_length _ _ _ Hsel). pose proof (am_rest _ _ _ _ Ham) as Hr. unfold procs_rest in Hr.
    injection Hr as R1 R2 R3 R4 R5. unfold room, slot in *. by rewrite R1, R3. }
  exists tr, bs', k2. split; [rewrite <- E4 in Hsel; by apply Forall2_fmap_r in Hsel|].
  split; [|done]. unfold runs. rewrite Eruns. exact Hs2.
Qed.

Lemma start_run im fuel a s fs0 fs :
  image_ok im → fits a (weave im) → bytes_at m a (encode (weave im)) → (length (weave im) < fuel)%nat →
  bips s = [] → bootinfo_id s = 4 → can_run (b_k s) → tidOffset (k_procs (b_k s)) ≠ 0 →
  free_list (frs (k_swap (b_k s))) (fs0 ++ fs) → length fs0 = length (im_programs im) →
  room (k_procs (b_k s)) (length (im_order im)) →
  ∃ ts tr k1 k', t_prog <$> ts = im_programs im ∧ t_table <$> ts = fs0 ∧
    Forall2 (λ i p, ts !! i = Some (fst p)) (im_order im) tr ∧
    sos_start_binfo_executables m a fuel s =
      Ok tt (boot_at s k' [] (first_name im + all_names (im_programs im))) ∧
    all_made (b_k s) k1 ts fs ∧ all_started k1 k' tr.
Proof.
  intros Hok Hfit Hb Hf Hbs Hid Hcr Hoff Hfl Hlen Hroom. set (k := b_k s) in *.
  pose proof (parse_agrees m cb fuel a (weave im) s (im_recs im Hok) Hfit Hb Hf) as Hparse.
  pose proof (im_names im Hok) as Hnames. fold (all_names (im_programs im)) in Hnames.
  pose proof (all_names_nonneg (im_programs im)) as Hnn.
  pose proof (im_recs im Hok) as Hrecs. pose proof (weave_known im Hok) as Hknown.
  unfold weave in Hrecs, Hknown, Hb.
  set (h := rec BI_OP_HEADER _) in *. set (im_ := rec BI_OP_INIT_MEM _) in *.
  do 2 apply Forall_cons in Hrecs as [_ Hrecs]. do 2 apply Forall_cons in Hknown as [_ Hknown].
  apply Forall_app in Hrecs as [Hr1 Hr2]. apply Forall_app in Hknown as [_ Hk2].
  do 2 apply encode_cons in Hb as [_ Hb]. set (a2 := a + rec_size h + rec_size im_) in *.
  pose proof (encode_drop _ _ _ Hb) as Hb2. set (a3 := a2 + recs_size (im_pools im)) in *.
  assert (0 < first_name im) as Hfn by (unfold first_name; lia).
  destruct (contents_steps s (im_programs im) k [] (first_name im) a3 (runs im) fs0 fs)
    as (ts & k1 & E1 & E2 & E3 & Hs1 & Ham); try done.
  { apply (cr_heap _ Hcr). } { apply (im_text im Hok). } { apply (im_rest im Hok). }
  destruct (order_steps im s k k1 ts fs (a3 + recs_size (contents (first_name im) (im_programs im)))
    Hok Hcr Hroom E1 E3 Ham) as (tr & bs' & k2 & Hsel & Hs2 & Has).
  exists ts, tr, k1, k2. split; [done|]. split; [done|]. split; [done|]. split; [|done].
  unfold sos_start_binfo_executables.
  rewrite (bind_ok _ _ s 0 (boot_at s k2 [] (first_name im + all_names (im_programs im)))); [done|].
  rewrite Hparse. unfold run_image. rewrite decide_True by done.
  destruct (scans_silent cb (weave im) data0 s) as [d Hd]; [by apply weave_fine|by right|].
  rewrite (bind_ok _ _ _ _ _ Hd). rewrite (bind_ok _ _ s tt s) by done.
  assert (s = boot_at s k [] 4) as Es by (destruct s; cbn in *; by subst).
  assert (steps cb (weave im) a s (boot_at s k2 bs' (first_name im + all_names (im_programs im)))) as Hs.
  { unfold weave. fold h im_. eapply steps_cons; [intros d'; done|]. eapply steps_cons; [intros d'; done|].
    eapply steps_app; [rewrite Es at 1; apply pools_steps; [done|apply (im_pre im Hok)|lia|]|].
    { unfold first_name in Hnames. lia. }
    eapply steps_app; [exact Hs1|exact Hs2]. }
  destruct (Hs (rewind d)) as [d' Hd']. rewrite (bind_ok _ _ _ _ _ Hd'). done.
Qed.
End start.
End Programs.
