(* ===== verification/Startup.v ===== *)
(** * From power-on to the first program

    The initialisation of SOS, run from the state at power-on: what [main] and
    the thread it starts leave behind, and that it is what the rest of the
    development asks of the state of the system. *)
From S2P Require Import Prelude Machine ListC Frames Swapfile State Pagetable Process Reply VfsCore.
From S2P Require Import Console Nfsfs Clock Vfs FdTables Lifecycle PagerBase Quota Resident Pager Copy Fault.
From S2P Require Import Syscall Spawn Bootinfo Boot Weave.
Import Frames Swapfile Pagetable Time Process ProcessInv Reply VfsCore VnodeList FdTable OpenDone Vfs Clock PagerBase Pager.
Import Resident Fault Spawn FdTables Boot Weave Programs.

Module Startup.

(** ** A thread of the root server *)
(** What a running system keeps: room for [n] more processes, the free frames. *)
Record up (k : kstate) (n : nat) (fs : list Z) : Prop := {
  up_ok : procs_ok (k_procs k);
  up_heap : heap_ok k;
  up_free : free_list (frs (k_swap k)) fs;
  up_room : room (k_procs k) n;
  up_tables : tables_ok k
}.
Definition quiet (k : kstate) :=
  (k_vfs k, k_nfs k, k_con k, k_pager k, swapfiles (k_swap k), cbuf (kmach k), blocked_threads (k_clock k)).
Record root_thread (x : Process) (r : Z) (nm : cstr) (entry : Z) : Prop := {
  rx_pid : pid (info x) = r;
  rx_type : ps_type (info x) = PS_TYPE_ROOTTHREAD;
  rx_state : state (info x) = PS_STATE_ALIVE;
  rx_name : command (info x) = strncpy_path nm;
  rx_ip : ip x = entry
}.
Record rooted (k k' : kstate) (l : positive) (r : Z) (nm : cstr) (entry : Z) : Prop := {
  rt_pcb : ∃ x, pcbs (k_procs k') !! l = Some x ∧ root_thread x r nm entry;
  rt_slot : slot (k_procs k') r = Some l;
  rt_pid : tidOffset (k_procs k) ≤ r < MAX_ADDRSPACES;
  rt_pcbs : ∀ l' x, pcbs (k_procs k) !! l' = Some x → pcbs (k_procs k') !! l' = Some x;
  rt_fresh : pcbs (k_procs k) !! l = None;
  rt_free : slot (k_procs k) r = NULL;
  rt_slots : ∀ i, 0 ≤ i → i ≠ r → slot (k_procs k') i = slot (k_procs k) i;
  rt_off : tidOffset (k_procs k') = tidOffset (k_procs k);
  rt_quiet : quiet k' = quiet k
}.

Lemma entered_upd k r l x s f :
  k_procs k = enter r l (add_pcb l x s) →
  on_procs (pcb_upd (Some l) f) k = Ok tt (set_procs (enter r l (add_pcb l (f x) s)) k).
Proof.
  intros E. rewrite <- upd_entered, <- E. apply on_procs_run, (pcb_upd_run _ l x). rewrite E. apply lookup_insert_eq.
Qed.
Lemma time_blocked c : blocked_threads (after time_stamp c) = blocked_threads c.
Proof. unfold after. destruct c as [? [|]]; done. Qed.

(** The thread is created and started. *)
Definition awake (ts : bool) (t : Z) (x : Process) : Process :=
  upd_info (set_state PS_STATE_ALIVE) (if ts then set_startedAt t x else x).
Lemma root_run k r l x s ts prio :
  k_procs k = enter r l (add_pcb l x s) → ps_type (info x) = PS_TYPE_ROOTTHREAD → pid (info x) = r →
  ∃ t, processRunPriority (Some l) ts prio k = Ok (L4_GlobalId r 1)
    (set_procs (enter r l (add_pcb l (awake ts t x) s))
      (klog_app [L4_ThreadStart (L4_GlobalId r 1) prio (ip x) (sp x)]
        (if ts then set_clock (after time_stamp (k_clock k)) k else k))).
Proof.
  intros E Hty Hp. destruct (time_stamp_run k) as [t Ht]. exists t. unfold processRunPriority.
  set (x1 := if ts then set_startedAt t x else x).
  set (k1 := set_procs (enter r l (add_pcb l x1 s)) (if ts then set_clock (after time_stamp (k_clock k)) k else k)).
  rewrite (bind_ok _ _ k tt k1); last first.
  { unfold k1, x1. destruct ts; cbn [when].
    - rewrite (bind_ok _ _ _ _ _ Ht). by apply entered_upd.
    - unfold mret, M_ret. rewrite <- E. by destruct k. }
  assert (pcbs (k_procs k1) !! l = Some x1) as Hx1 by apply lookup_insert_eq.
  rewrite (bind_ok _ _ k1 x1 k1) by (by apply on_procs_id, pcb_get_run).
  assert (ps_type (info x1) = PS_TYPE_ROOTTHREAD ∧ pid (info x1) = r ∧ ip x1 = ip x ∧ sp x1 = sp x) as (T1 & T2 & T3 & T4)
    by (unfold x1; by destruct ts).
  rewrite T1, decide_True by done. set (tid := L4_GlobalId r 1).
  set (ev := L4_ThreadStart tid prio (ip x) (sp x)).
  rewrite (bind_ok _ _ k1 tid (klog_app [ev] k1)); last first.
  { rewrite (bind_ok _ _ k1 tid k1); last first.
    { apply on_procs_id. unfold tid. rewrite <- T2. by apply (pcb_field (λ x, L4_GlobalId (pid (info x)) 1)). }
    unfold sos_thread_new_priority. rewrite decide_False by done. rewrite (bind_ok _ _ k1 tid k1) by done.
    rewrite bool_decide_true by done. cbn [when]. rewrite T3, T4. by rewrite (bind_ok _ _ _ _ _ (emit_ok ev k1)). }
  rewrite T2. cbn [L4_ThreadNo tid]. rewrite (bind_ok _ _ _ tt (klog_app [ev] k1)) by (apply cassert_run, Z.eqb_refl).
  erewrite bind_ok by (by apply (entered_upd (klog_app [ev] k1) r l x1)). done.
Qed.

Lemma root_prepare k l x s n :
  k_procs k = add_pcb l x s → procs_ok s → pcbs s !! l = None → l ≠ 1%positive →
  ps_type (info x) = PS_TYPE_ROOTTHREAD → pid (info x) = NIL_PID → room s (S n) →
  ∃ r np, slot s r = NULL ∧ tidOffset s ≤ r < MAX_ADDRSPACES ∧
    procs_ok (enter r l (add_pcb l (upd_info (set_pid r) x) (set_nextPid np s))) ∧
    process_prepare (Some l) k =
      Ok tt (set_procs (enter r l (add_pcb l (upd_info (set_pid r) x) (set_nextPid np s))) k).
Proof.
  intros E Hok Hl Hne Hty Hp (is_ & _ & Hlen & Hall).
  assert (procs_ok (k_procs k)) as Hok1 by (rewrite E; by apply add_pcb_ok).
  assert (pcbs (k_procs k) !! l = Some x) as Hx by (rewrite E; apply lookup_insert_eq).
  destruct (register_new (k_procs k) l x Hok1 Hx Hp) as (r & np & Hsl & Hr & Hok2 & Hreg).
  { destruct is_ as [|i is_]; [cbn in Hlen; lia|]. apply Forall_cons in Hall as [[H1 H2] _]. exists i. by rewrite E. }
  destruct (register_inv _ _ _ Hok1 Hreg) as (l' & x' & r' & [= <-] & Hx' & (Hok3 & _) & _).
  assert (upd_pcb l (upd_info (set_pid r)) (set_nextPid np (k_procs k)) =
    add_pcb l (upd_info (set_pid r) x) (set_nextPid np s)) as Eu.
  { rewrite E. change (set_nextPid np (add_pcb l x s)) with (add_pcb l x (set_nextPid np s)). by rewrite upd_add_pcb. }
  rewrite Eu in Hreg, Hok3. rewrite E in Hsl, Hr. exists r, np. split; [exact Hsl|]. split; [exact Hr|].
  split; [exact Hok3|]. unfold process_prepare, process_prepare2.
  set (s1 := enter r l _) in *.
  rewrite (bind_ok _ _ k tt (set_procs s1 k)) by (by apply on_procs_run).
  rewrite (bind_ok _ _ (set_procs s1 k) (upd_info (set_pid r) x) (set_procs s1 k)); last first.
  { apply on_procs_id, pcb_get_run, lookup_insert_eq. }
  cbn [info ps_type upd_info set_info set_pid]. rewrite Hty. by rewrite decide_False by (intros H; by apply H).
Qed.

(** The thread is entered into the table and gets a page table and a stack. *)
Definition root_pcb (r : Z) (nm : cstr) (entry f1 f2 : Z) (ts : bool) (t : Z) : Process :=
  awake ts t (set_sp (w32 (f2 + PAGESIZE - 4)) (set_ip entry (upd_info (set_command (strncpy_path nm))
    (upd_info (set_pid r) (fresh_pcb PS_TYPE_ROOTTHREAD f1))))).
Lemma rootthread_steps k nm entry ts prio n f1 f2 fs :
  up k (S n) (f1 :: f2 :: fs) →
  let l := mnext (kmach k) in
  ∃ r np t s k', process_run_rootthread nm entry ts prio k = Ok (Some l) k' ∧
    slot (k_procs k) r = NULL ∧ tidOffset (k_procs k) ≤ r < MAX_ADDRSPACES ∧
    procs_ok (enter r l (add_pcb l (upd_info (set_pid r) (fresh_pcb PS_TYPE_ROOTTHREAD f1))
                           (set_nextPid np (k_procs k)))) ∧
    free_list s fs ∧ beside s = beside (frs (k_swap (malloced k))) ∧
    k' = set_procs (enter r l (add_pcb l (root_pcb r nm entry f1 f2 ts t) (set_nextPid np (k_procs k))))
      (klog_app [L4_ThreadStart (L4_GlobalId r 1) prio entry (w32 (f2 + PAGESIZE - 4))]
        (set_kfrs s (if ts then set_clock (after time_stamp (k_clock k)) (malloced k) else malloced k))).
Proof.
  intros [Hok Hh Hfl Hroom Htb] l. pose proof (off_range _ Hok) as Hoff.
  destruct (process_init_run k PS_TYPE_ROOTTHREAD f1 (f2 :: fs) Hh ltac:(lia) Hfl) as (s1 & Hinit & Ht1).
  fold l in Hinit. set (k1 := set_procs _ _) in Hinit.
  destruct (root_prepare k1 l (fresh_pcb PS_TYPE_ROOTTHREAD f1) (k_procs k) n) as (r & np & Hsl & Hr & Hok' & Hprep);
    [done|done|by apply heap_fresh|pose proof (heap_next k Hh); unfold l; lia|done|done|done|].
  set (s0 := set_nextPid np (k_procs k)) in *. set (x1 := upd_info (set_pid r) _) in *.
  destruct (alloc_some s1 f2 fs FA_STACK (tt_free _ _ _ _ Ht1)) as (s2 & Halloc & Hfl2 & Hm2 & _).
  set (x2 := upd_info (set_command (strncpy_path nm)) x1). set (x3 := set_ip entry x2).
  set (x4 := set_sp (w32 (f2 + PAGESIZE - 4)) x3).
  set (k2 := set_procs (enter r l (add_pcb l x1 s0)) k1) in *.
  set (k3 := set_procs (enter r l (add_pcb l x3 s0)) k1). set (k4 := set_kfrs s2 k3).
  set (k5 := set_procs (enter r l (add_pcb l x4 s0)) k4).
  destruct (root_run k5 r l x4 s0 ts prio) as [t Hrun]; [done..|].
  exists r, np, t, s2. eexists. split; [|split; [done|split; [done|split; [done|split; [done|]]]]].
  - unfold process_run_rootthread. rewrite (bind_ok _ _ _ _ _ Hinit), (bind_ok _ _ _ _ _ Hprep).
    unfold process_set_name, process_set_ip, process_set_sp.
    rewrite (bind_ok _ _ k2 tt (set_procs (enter r l (add_pcb l x2 s0)) k1)) by (by apply (entered_upd k2 r l x1)).
    rewrite (bind_ok _ _ _ tt k3) by (by apply (entered_upd (set_procs (enter r l (add_pcb l x2 s0)) k1) r l x2)).
    rewrite (bind_ok _ _ k3 f2 k4) by (by apply on_fr_run).
    rewrite (bind_ok _ _ k4 tt k5) by (by apply (entered_upd k4 r l x3)).
    rewrite (bind_ok _ _ _ _ _ Hrun). done.
  - split; [|by destruct ts]. unfold beside. rewrite Hm2. exact (tt_beside _ _ _ _ Ht1).
Qed.

Lemma slot_entered r l x np s i :
  procs_ok s → 0 ≤ r < MAX_ADDRSPACES → 0 ≤ i →
  slot (enter r l (add_pcb l x (set_nextPid np s))) i = if decide (i = r) then Some l else slot s i.
Proof.
  intros Hok Hr Hi. unfold slot. cbn. case_decide as E.
  - subst i. rewrite list_lookup_insert_eq; [done|]. rewrite (tbl_len _ Hok). unfold MAX_ADDRSPACES in *. lia.
  - rewrite list_lookup_insert_ne; [done|]. lia.
Qed.
Lemma entered_ok r l x y s :
  pid (info y) = pid (info x) → procs_ok (enter r l (add_pcb l x s)) → procs_ok (enter r l (add_pcb l y s)).
Proof.
  intros E. apply procs_ok_view. unfold pid_view, pids. cbn. rewrite !fmap_insert. by rewrite E.
Qed.
Lemma up_entered k k' l r x np n fs fs' :
  up k (S n) fs → l = mnext (kmach k) → k_procs k' = enter r l (add_pcb l x (set_nextPid np (k_procs k))) →
  slot (k_procs k) r = NULL → tidOffset (k_procs k) ≤ r < MAX_ADDRSPACES → procs_ok (k_procs k') →
  free_list (frs (k_swap k')) fs' → (l < mnext (kmach k'))%positive → moracle (kmach k') = [] → files_ok x →
  up k' n fs'.
Proof.
  intros [Hok Hh Hfl Hroom Htb] -> E Hsl Hr Hok' Hfl' Hm Ho Hx. pose proof (off_range _ Hok) as Hoff.
  set (l := mnext (kmach k)) in *. split; [done| |done| |].
  - split; [|pose proof (heap_next k Hh); unfold l in Hm; lia|done]. intros l' y Hy. rewrite E in Hy. cbn in Hy.
    destruct (decide (l' = l)) as [->|Hne]; [done|]. rewrite lookup_insert_ne in Hy by done.
    apply (heap_pcbs k Hh) in Hy. unfold l in Hm. lia.
  - apply (room_taken (k_procs k) (k_procs k') r l n); [|by rewrite E|done|done]. intros i Hi. rewrite E. apply slot_entered; [done|lia|done].
  - intros l' y Hy. rewrite E in Hy. cbn in Hy. destruct (decide (l' = l)) as [->|Hne].
    + rewrite lookup_insert_eq in Hy. by injection Hy as <-.
    + rewrite lookup_insert_ne in Hy by done. by apply (Htb l').
Qed.
Lemma rootthread_run k nm entry ts prio n f1 f2 fs :
  up k (S n) (f1 :: f2 :: fs) →
  ∃ l r k', process_run_rootthread nm entry ts prio k = Ok (Some l) k' ∧ up k' n fs ∧
    rooted k k' l r nm entry ∧
    klog k' = klog k ++ [L4_ThreadStart (L4_GlobalId r 1) prio entry (w32 (f2 + PAGESIZE - 4))].
Proof.
  intros Hup. pose proof (up_ok _ _ _ Hup) as Hok. pose proof (up_heap _ _ _ Hup) as Hh.
  destruct (rootthread_steps k nm entry ts prio n f1 f2 fs Hup)
    as (r & np & t & s & k' & Hrun & Hsl & Hr & Hok' & Hfl & Hbs & Ek).
  set (l := mnext (kmach k)) in *. exists l, r, k'. split; [done|]. set (x := root_pcb r nm entry f1 f2 ts t) in *.
  assert (k_procs k' = enter r l (add_pcb l x (set_nextPid np (k_procs k)))) as Ep by (by rewrite Ek).
  unfold beside, beside_mem in Hbs. injection Hbs as B1 B2 B3 B4.
  assert (kmach k' = mkMachine (mem (mach s)) (cbuf (kmach k)) (klog k ++
    [L4_ThreadStart (L4_GlobalId r 1) prio entry (w32 (f2 + PAGESIZE - 4))]) (Pos.succ l) (moracle (kmach k))) as Em.
  { rewrite Ek. unfold klog_app, kmach. cbn. by rewrite B1, B2, B3, B4. }
  pose proof (off_range _ Hok) as Hoff. split_and!.
  - apply (up_entered k k' l r x np n _ _ Hup eq_refl Ep Hsl Hr).
    + rewrite Ep. eapply entered_ok; [|exact Hok']. unfold x, root_pcb, awake. by destruct ts.
    + rewrite Ek. exact Hfl.
    + rewrite Em. cbn. lia.
    + rewrite Em. apply (heap_oracle k Hh).
    + eapply files_ok_ext; [| |apply (files_ok_fresh PS_TYPE_ROOTTHREAD f1)]; unfold x, root_pcb, awake; by destruct ts.
  - split.
    + exists x. split; [rewrite Ep; apply lookup_insert_eq|]. unfold x, root_pcb, awake. by destruct ts.
    + rewrite Ep, slot_entered by (done || lia). by rewrite decide_True.
    + done.
    + intros l' y Hy. rewrite Ep. cbn. rewrite lookup_insert_ne; [done|].
      intros El. unfold l in El. by rewrite <- El, (heap_fresh k Hh) in Hy.
    + apply (heap_fresh k Hh).
    + done.
    + intros i Hi Hn. rewrite Ep, slot_entered by (done || lia). by rewrite decide_False.
    + by rewrite Ep.
    + unfold quiet. rewrite Em, Ek. cbn. destruct ts; cbn; by rewrite ?time_blocked.
  - unfold klog. by rewrite Em.
Qed.

(** ** What keeps a system up *)
Lemma up_same k k' n fs :
  k_procs k' = k_procs k → kmem k' = kmem k → firstFree (frs (k_swap k')) = firstFree (frs (k_swap k)) →
  mnext (kmach k') = mnext (kmach k) → moracle (kmach k') = moracle (kmach k) → up k n fs → up k' n fs.
Proof.
  intros E1 E2 E3 E4 E5 [H1 [H2a H2b H2c] [H3a H3b] H4 H5]. split; [by rewrite E1| | |by rewrite E1|].
  - split; [intros l x Hx; rewrite E1 in Hx; rewrite E4; by apply (H2a l x)|by rewrite E4|by rewrite E5].
  - split; [|done]. rewrite E3. unfold kmem, kmach, fmem in *. by rewrite E2.
  - intros l x Hx. rewrite E1 in Hx. by apply (H5 l).
Qed.
Definition thread_of (k : kstate) (nm : cstr) (entry : Z) : Prop :=
  ∃ l r x, slot (k_procs k) r = Some l ∧ 0 ≤ r ∧ pcbs (k_procs k) !! l = Some x ∧ root_thread x r nm entry.
Lemma rooted_thread k k' l r nm entry : procs_ok (k_procs k) → rooted k k' l r nm entry → thread_of k' nm entry.
Proof.
  intros Hok [(x & Hx & Hr) H2 H3 _ _ _ _ _ _]. pose proof (off_range _ Hok). exists l, r, x. split; [done|]. split; [lia|done].
Qed.
(** Processes stay as they are. *)
Definition kept (k k' : kstate) : Prop :=
  (∀ l x, pcbs (k_procs k) !! l = Some x → pcbs (k_procs k') !! l = Some x) ∧
  (∀ i, 0 ≤ i → slot (k_procs k) i ≠ NULL → slot (k_procs k') i = slot (k_procs k) i).
Lemma rooted_kept k k' l r nm entry : rooted k k' l r nm entry → kept k k'.
Proof.
  intros [_ _ _ H1 _ H2 H3 _ _]. split; [done|]. intros i Hi Hn. apply H3; [done|]. by intros ->.
Qed.
Lemma kept_same k k' : k_procs k' = k_procs k → kept k k'.
Proof. intros E. unfold kept. by rewrite E. Qed.
Lemma thread_kept k k' nm entry : kept k k' → thread_of k nm entry → thread_of k' nm entry.
Proof.
  intros [H1 H2] (l & r & x & Hs & Hr & Hx & Hrt). exists l, r, x. split_and!; [|done|by apply H1|done].
  rewrite H2; [done|done|]. by rewrite Hs.
Qed.

(** ** The first thread sets the offset of the process ids *)
Definition offset_set (s : procs) : procs :=
  mkProcs (pcbs s) (sosProcs s) (last_thread_s s + 1) (last_thread_s s + 1) (last_thread_s s) true.
Lemma first_init ty k :
  tidOffset (k_procs k) = 0 → last_thread_s (k_procs k) + 1 ≠ 0 →
  process_init ty k = process_init ty (set_procs (offset_set (k_procs k)) k).
Proof.
  intros H0 H1. unfold process_init. set (k1 := set_procs (offset_set (k_procs k)) k).
  rewrite (bind_ok _ _ k tt k1); last first.
  { apply on_procs_run. rewrite (bind_ok _ _ (k_procs k) 0 (k_procs k)) by (unfold gets; by rewrite H0). done. }
  rewrite (bind_ok _ _ k1 tt k1); [done|]. apply on_procs_id.
  rewrite (bind_ok _ _ (k_procs k1) (last_thread_s (k_procs k) + 1) (k_procs k1)) by done.
  by rewrite (proj2 (Z.eqb_neq _ _) H1).
Qed.
Lemma first_rootthread nm entry ts prio k :
  tidOffset (k_procs k) = 0 → last_thread_s (k_procs k) + 1 ≠ 0 →
  process_run_rootthread nm entry ts prio k =
  process_run_rootthread nm entry ts prio (set_procs (offset_set (k_procs k)) k).
Proof.
  intros H0 H1. unfold process_run_rootthread. unfold mbind at 1 6, M_bind. by rewrite first_init.
Qed.

(** ** The process of the root server itself *)
Record root_server (k : kstate) : Prop := {
  rs_pcb : ∃ l x, slot (k_procs k) L4_rootserverno = Some l ∧ pcbs (k_procs k) !! l = Some x ∧
    pid (info x) = L4_rootserverno ∧ state (info x) = PS_STATE_ALIVE ∧
    command (info x) = bytes_of_string "sos"
}.
Lemma server_kept k k' : kept k k' → root_server k → root_server k'.
Proof.
  intros [H1 H2] [(l & x & Hs & Hx & Hr)]. split. exists l, x. split_and!; [|by apply H1|apply Hr..].
  rewrite H2; [done|done|]. by rewrite Hs.
Qed.
Lemma processAlloc_run k f fs :
  heap_ok k → free_list (frs (k_swap k)) (f :: fs) →
  let l := mnext (kmach k) in
  ∃ s, processAlloc k = Ok (Some l)
      (set_procs (add_pcb l (fresh_pcb PS_TYPE_PROCESS f) (k_procs k)) (set_kfrs s (malloced k))) ∧
    table_taken (frs (k_swap (malloced k))) f fs s.
Proof.
  intros Hh Hfl l. destruct (pagetable_init_run (frs (k_swap (malloced k))) f fs) as (s & Hs & Ht); [exact Hfl|].
  exists s. split; [|done]. unfold processAlloc. rewrite (bind_ok _ _ _ _ _ (kmalloc_nocheck_run k (heap_oracle k Hh))).
  by rewrite (bind_ok _ _ _ _ _ (on_fr_run _ _ _ _ Hs)).
Qed.

Lemma server_entered_ok s l x :
  procs_ok s → pcbs s !! l = None → l ≠ 1%positive → pid (info x) = L4_rootserverno →
  procs_ok (enter L4_rootserverno l (add_pcb l x s)).
Proof.
  intros Hok Hl Hne Hp. destruct (add_pcb_ok s l x Hok Hl Hne) as [H1 H2 H3 H4]. split; [|done| |done].
  - cbn. by rewrite length_insert.
  - intros i l' Hi Hs. unfold slot in Hs. cbn [enter set_sosProcs sosProcs] in Hs.
    destruct (decide (i = L4_rootserverno)) as [->|Hni].
    + rewrite list_lookup_insert_eq in Hs by (rewrite H1; unfold L4_rootserverno, MAX_ADDRSPACES; lia). injection Hs as <-. right.
      unfold pids. cbn. by rewrite fmap_insert, lookup_insert_eq, Hp.
    + rewrite list_lookup_insert_ne in Hs by (unfold L4_rootserverno in *; lia). exact (H3 i l' Hi Hs).
Qed.
Lemma server_block s l x :
  procs_ok s → pcbs s !! l = None → l ≠ 1%positive →
  ∃ y, (pcb_upd (Some l) (upd_info (set_pid L4_rootserverno));;
        process_set_name (Some l) (bytes_of_string "sos");;
        process_set_state (Some l) PS_STATE_ALIVE;;
        x ← pcb_get (Some l);
        cassert "pid == L4_rootserverno" (pid (info x) =? L4_rootserverno);;
        table_set L4_rootserverno (Some l)) (add_pcb l x s) = Ok tt (enter L4_rootserverno l (add_pcb l y s)) ∧
    pid (info y) = L4_rootserverno ∧ state (info y) = PS_STATE_ALIVE ∧
    command (info y) = bytes_of_string "sos" ∧ fds y = fds x ∧ files y = files x.
Proof.
  intros Hok Hl Hne. unfold process_set_name, process_set_state.
  set (x1 := upd_info (set_pid L4_rootserverno) x).
  set (x2 := upd_info (set_command (strncpy_path (bytes_of_string "sos"))) x1).
  set (x3 := upd_info (set_state PS_STATE_ALIVE) x2). exists x3. split; [|done].
  assert (∀ f y, pcb_upd (Some l) f (add_pcb l y s) = Ok tt (add_pcb l (f y) s)) as Hu.
  { intros f y. rewrite <- upd_add_pcb. apply (pcb_upd_run _ l y), lookup_insert_eq. }
  rewrite (bind_ok _ _ _ _ _ (Hu _ x)), (bind_ok _ _ _ _ _ (Hu _ x1)), (bind_ok _ _ _ _ _ (Hu _ x2)).
  rewrite (bind_ok _ _ _ x3 (add_pcb l x3 s)) by (apply pcb_get_run, lookup_insert_eq).
  rewrite (bind_ok _ _ _ tt (add_pcb l x3 s)) by done.
  by apply (table_set_ok (add_pcb l x3 s)); [apply add_pcb_ok|].
Qed.
Lemma add_rootserver_run k n f fs :
  up k n (f :: fs) → slot (k_procs k) L4_rootserverno = NULL →
  ∃ k', process_add_rootserver k = Ok tt k' ∧ up k' n fs ∧ root_server k' ∧ quiet k' = quiet k ∧
    klog k' = klog k ∧ tidOffset (k_procs k') = tidOffset (k_procs k) ∧ kept k k'.
Proof.
  intros [Hok Hh Hfl Hroom Htb] Hs0. pose proof (off_range _ Hok) as Hoff.
  destruct (processAlloc_run k f fs Hh Hfl) as (fr & Ha & Ht). set (l := mnext (kmach k)) in *.
  set (x0 := fresh_pcb PS_TYPE_PROCESS f) in *. set (s := k_procs k) in *. set (k1 := set_procs _ _) in Ha.
  assert (pcbs s !! l = None) as Hl by (by apply heap_fresh).
  assert (l ≠ 1%positive) as Hl1 by (pose proof (heap_next k Hh); unfold l; lia).
  destruct (time_stamp_run k1) as [t Hts]. set (k2 := set_clock _ k1) in Hts.
  set (k3 := set_procs (add_pcb l (set_startedAt t x0) s) k2).
  destruct (get_info_run k3 l (set_startedAt t x0)) as [t2 Hgi]; [apply lookup_insert_eq|].
  set (x4 := upd_info (set_stime (w32 (t2 - t))) (set_startedAt t x0)).
  set (k4 := set_procs (add_pcb l x4 s) (set_clock (after time_stamp (k_clock k3)) k3)).
  assert (stamped k3 l (set_startedAt t x0) t2 = k4) as E4.
  { unfold stamped, k4, k3. cbn. f_equal. unfold add_pcb, set_pcbs. cbn. by rewrite insert_insert_eq. }
  destruct (server_block s l x4 Hok Hl Hl1) as (y & Hb & Y1 & Y2 & Y3 & Y4 & Y5).
  set (k5 := set_procs (enter L4_rootserverno l (add_pcb l y s)) k4).
  destruct Ht as [T1 _ _ _ T5]. unfold beside, beside_mem in T5. injection T5 as E1 E2 E3 E5.
  assert (∀ i, 0 ≤ i → slot (k_procs k5) i = if decide (i = L4_rootserverno) then Some l else slot s i) as Hsl.
  { intros i Hi. apply (slot_entered L4_rootserverno l y (nextPid s)); [|done|done]. by destruct s. }
  assert (mnext (kmach k5) = Pos.succ l) as E6 by exact E3.
  assert (moracle (kmach k5) = []) as E7 by (rewrite <- (heap_oracle k Hh); exact E5).
  exists k5. unfold kept. split_and!.
  - unfold process_add_rootserver. rewrite (bind_ok _ _ _ _ _ Ha), (bind_ok _ _ _ _ _ Hts).
    rewrite (bind_ok _ _ k2 tt k3) by (by apply (upd_added k2 l x0)).
    rewrite (bind_ok _ _ _ _ _ Hgi), E4. by apply on_procs_run.
  - split.
    + by apply server_entered_ok.
    + split; [|rewrite E6; lia|exact E7]. intros l' x Hx. rewrite E6. cbn in Hx. destruct (decide (l' = l)) as [->|Hne]; [lia|]. rewrite lookup_insert_ne in Hx by done.
      apply (heap_pcbs k Hh) in Hx. fold l in Hx. lia.
    + exact T1.
    + destruct Hroom as (is_ & R1 & R2 & R3). exists is_. split; [done|]. split; [done|].
      eapply Forall_impl; [exact R3|]. intros i [Hi Hs]. split; [done|]. rewrite Hsl by lia.
      rewrite decide_False; [done|]. intros ->. unfold L4_rootserverno in *. lia.
    + intros l' x Hx. cbn in Hx. destruct (decide (l' = l)) as [->|Hne].
      * rewrite lookup_insert_eq in Hx. injection Hx as <-.
        by apply (files_ok_ext y x0); [..|apply files_ok_fresh].
      * rewrite lookup_insert_ne in Hx by done. by apply (Htb l').
  - split. exists l, y. split; [by rewrite Hsl|]. split; [apply lookup_insert_eq|done].
  - assert (cbuf (kmach k5) = cbuf (kmach k)) as E8 by exact E1. unfold quiet. rewrite E8. cbn. by rewrite !time_blocked.
  - exact E2.
  - done.
  - intros l' x Hx. cbn. rewrite lookup_insert_ne; [done|]. intros El. fold s in Hx. by rewrite <- El, Hl in Hx.
  - intros i Hi Hn. rewrite Hsl by done. rewrite decide_False; [done|]. intros ->. by apply Hn.
Qed.

(** ** The steps of [main] *)
Definition heap_view (s : frames) := (cbuf (mach s), mnext (mach s), moracle (mach s)).
Lemma frame_init_heap low high : pres heap_view (frame_init low high).
Proof. unfold frame_init, femit, write_word. pres_auto; by apply pres_modify. Qed.
Lemma emits_run {A} (f : A → event) xs s :
  forM xs (λ x, on_k (emit (f x))) s = Ok tt (set_b_k (klog_app (f <$> xs) (b_k s)) s).
Proof.
  revert s. induction xs as [|x xs IH]; intros s; cbn [forM].
  - unfold mret, M_ret. f_equal. destruct s as [k]. unfold set_b_k, klog_app, set_kmach, kmach. cbn.
    rewrite app_nil_r. destruct k as [[[[]]]]. done.
  - rewrite (bind_ok _ _ s tt (set_b_k (klog_app [f x] (b_k s)) s)) by done. rewrite IH. f_equal.
    unfold set_b_k, klog_app. cbn. by rewrite <- app_assoc.
Qed.

(** The machine at power-on: the contents of the memory and of the timer
    registers are arbitrary. *)
Definition procs_on : procs := mkProcs ∅ (replicate (Z.to_nat MAX_ADDRSPACES) NULL) 0 0 0 false.
Definition pager_on : State.pager :=
  mkPager 0 0 [] [] [] false ∅ ∅ 0 0 L4_nilthread (replicate (Z.to_nat MAX_THREADS) 0).
Definition k_on (ram : memory) (clk : clock) : kstate :=
  mkK (mkSwapst (mkFrames (mkMachine ram ∅ [] 2 []) 0 0 0) ∅) procs_on (mkVfs ∅ NULL) (mkNfs ∅ [] 0)
    Console.Console_Files0 pager_on clk.
Definition power_on (ram : memory) (clk : clock) : bootst := mkBoot (k_on ram clk) [] 1 0 0 NULL false.

Lemma NoDup_zseq a n : NoDup (zseq a n).
Proof. apply (NoDup_fmap_2_strong); [intros; lia|apply NoDup_seq]. Qed.
Lemma slot_on i : slot (offset_set procs_on) i = NULL.
Proof.
  unfold slot. cbn [offset_set sosProcs procs_on]. destruct (replicate _ _ !! _) eqn:E; [|done].
  by apply lookup_replicate in E as [-> _].
Qed.
Lemma up_first k fs :
  k_procs k = procs_on → free_list (frs (k_swap k)) fs → mnext (kmach k) = 2%positive → moracle (kmach k) = [] →
  up (set_procs (offset_set (k_procs k)) k) 255 fs.
Proof.
  intros E Hfl Hm Ho. rewrite E. split; [| |done| |].
  - split; [done|done| |done]. intros i l Hi Hs. cbn [k_procs set_procs] in Hs. by rewrite slot_on in Hs.
  - split; [|change (kmach (set_procs _ k)) with (kmach k); by rewrite Hm|exact Ho].
    intros l x Hx. cbn in Hx. by rewrite lookup_empty in Hx.
  - exists (zseq 1 255). split; [apply NoDup_zseq|]. split; [done|]. apply Forall_forall.
    intros i Hi. cbn [k_procs set_procs]. rewrite slot_on. apply elem_of_zseq in Hi.
    cbn. unfold MAX_ADDRSPACES. split; [lia|done].
  - intros l x Hx. cbn in Hx. by rewrite lookup_empty in Hx.
Qed.
Lemma start_timer_run k :
  ∃ k', start_timer k = Ok CLOCK_R_OK k' ∧ k_procs k' = k_procs k ∧ kmem k' = kmem k ∧
    firstFree (frs (k_swap k')) = firstFree (frs (k_swap k)) ∧ mnext (kmach k') = mnext (kmach k) ∧
    moracle (kmach k') = moracle (kmach k) ∧ blocked_threads (k_clock k') = [(L4_nilthread, 0)] ∧
    (k_vfs k', k_nfs k', k_con k', k_pager k', swapfiles (k_swap k'), cbuf (kmach k')) =
    (k_vfs k, k_nfs k, k_con k, k_pager k, swapfiles (k_swap k), cbuf (kmach k)).
Proof. eexists. split; [reflexivity|]. done. Qed.

Lemma five_frames {A} (l : list A) :
  (5 ≤ length l)%nat → ∃ a b c d e, l = a :: b :: c :: d :: e :: drop 5 l.
Proof. intros H. do 5 (destruct l as [|? l]; [cbn in H; lia|]). by repeat eexists. Qed.

Section boot.
Context (m : memory) (a : Z) (im : image).
Context (utimer_code init_code : Z).
Context (Hok : image_ok im) (Hfit : BootImage.fits a (weave im)).
Context (Hbytes : BootImage.bytes_at m a (BootImage.encode (weave im))).
(** The memory of the image: whole pages, and a megabyte for the drivers. *)
Context (lo : Z) (n : nat) (Hmem : im_phys im = (lo, lo + S n * PAGESIZE + ONE_MEG - 1)).
Context (Hlo : good_range lo (S n)) (Htop : lo + S n * PAGESIZE + ONE_MEG ≤ 2 ^ 32).

Definition hi : Z := lo + S n * PAGESIZE + ONE_MEG - 1.
Lemma memory_bounds : w32 (hi - ONE_MEG) = lo + S n * PAGESIZE - 1.
Proof.
  destruct Hlo as (H1 & _ & H2). unfold hi. rewrite w32_small; [lia|]. unfold is_word, ONE_MEG, PAGESIZE in *. lia.
Qed.
(** After [main]: two threads and the root server. *)
Record main_done (k : kstate) (fs : list Z) : Prop := {
  dn_up : up k 253 fs;
  dn_off : tidOffset (k_procs k) = 1;
  dn_server : root_server k;
  dn_utimer : thread_of k (bytes_of_string "utimer") utimer_code;
  dn_init : thread_of k (bytes_of_string "sos_init") init_code;
  dn_quiet : quiet k = (mkVfs ∅ NULL, mkNfs ∅ [] 0, Console.Console_Files0, pager_on, ∅, ∅, [(L4_nilthread, 0)])
}.
Lemma frames_found ram clk fuel :
  (length (weave im) < fuel)%nat →
  ∃ k, (libsos_init;; lh ← sos_find_memory m a fuel; on_k (on_fr (frame_init (fst lh) (snd lh)))) (power_on ram clk) =
      Ok tt (mkBoot k [] 4 (lo + S n * PAGESIZE - 1) hi NULL false) ∧
    up (set_procs (offset_set (k_procs k)) k) 255 (pages lo (S n)) ∧ k_procs k = procs_on ∧
    quiet k = (mkVfs ∅ NULL, mkNfs ∅ [] 0, Console.Console_Files0, pager_on, ∅, ∅, blocked_threads clk).
Proof.
  intros Hfuel. set (evs := L4_AllowInterruptControl <$> (Z.of_nat <$> seq 0 32)).
  set (k1 := klog_app evs (k_on ram clk)). set (s1 := set_b_k k1 (power_on ram clk)).
  destruct (frame_init_spec lo n (frs (k_swap k1)) Hlo) as (fr & Hfr & Hfl & _).
  pose proof (frame_init_heap _ _ _ _ _ Hfr) as Hh. unfold heap_view in Hh. injection Hh as H1 H2 H3.
  set (k2 := set_kfrs fr k1). exists k2. split_and!.
  - rewrite (bind_ok _ _ (power_on ram clk) 0 s1); last first.
    { unfold libsos_init. rewrite (bind_ok _ _ (power_on ram clk) tt (power_on ram clk)) by done.
      by rewrite (bind_ok _ _ _ _ _ (emits_run L4_AllowInterruptControl _ _)). }
    pose proof (find_memory_run m a fuel im s1 Hok Hfit Hbytes Hfuel) as Hf. rewrite Hmem in Hf.
    fold hi in Hf. rewrite memory_bounds in Hf. rewrite (bind_ok _ _ _ _ _ Hf). cbn [fst snd].
    set (s2 := found _ _ s1). by rewrite (on_k_run _ s2 _ _ (on_fr_run _ k1 _ _ Hfr)).
  - by apply up_first.
  - done.
  - unfold quiet. assert (cbuf (kmach k2) = ∅) as -> by exact H1. done.
Qed.
Lemma quiet_timer k k' :
  (k_vfs k', k_nfs k', k_con k', k_pager k', swapfiles (k_swap k'), cbuf (kmach k')) =
    (k_vfs k, k_nfs k, k_con k, k_pager k, swapfiles (k_swap k), cbuf (kmach k)) →
  quiet k' = (fst (quiet k), blocked_threads (k_clock k')).
Proof. unfold quiet. by intros [= -> -> -> -> -> ->]. Qed.
Lemma main_run ram clk fuel :
  (length (weave im) < fuel)%nat → (5 ≤ S n)%nat →
  ∃ l k, main m a utimer_code init_code fuel (power_on ram clk) =
      Ok Syscall.main_irqs (mkBoot k [] 4 (lo + S n * PAGESIZE - 1) hi (Some l) false) ∧
    main_done k (drop 5 (pages lo (S n))).
Proof.
  intros Hfuel H5. destruct (frames_found ram clk fuel Hfuel) as (k1 & H1 & Hup & Hp1 & Q1).
  destruct (five_frames (pages lo (S n))) as (f1 & f2 & f3 & f4 & f5 & Ef); [by rewrite length_pages|].
  rewrite Ef in Hup. set (rest := drop 5 (pages lo (S n))) in *.
  assert (∀ x, slot (offset_set (k_procs k1)) x = NULL) as Hs0 by (rewrite Hp1; apply slot_on).
  set (k1' := set_procs (offset_set (k_procs k1)) k1) in *.
  destruct (rootthread_run k1' (bytes_of_string "utimer") utimer_code false 0 254 f1 f2 _ Hup)
    as (l1 & r1 & k2 & Hr1 & Hup2 & Rt1 & _).
  destruct (start_timer_run k2) as (k3 & H3 & P3 & M3 & F3 & N3 & O3 & B3 & Q3).
  pose proof (up_same k2 k3 _ _ P3 M3 F3 N3 O3 Hup2) as Hup3.
  assert (tidOffset (k_procs k1') = 1) as Hoff1 by (cbn; by rewrite Hp1).
  destruct (add_rootserver_run k3 254 f3 _ Hup3) as (k4 & H4 & Hup4 & Hrs & Q4 & _ & Hoff4 & Hkp4).
  { rewrite P3, (rt_slots _ _ _ _ _ _ Rt1); [apply Hs0|done|].
    pose proof (rt_pid _ _ _ _ _ _ Rt1). unfold L4_rootserverno. lia. }
  destruct (rootthread_run k4 (bytes_of_string "sos_init") init_code true 0 253 f4 f5 _ Hup4)
    as (l5 & r5 & k5 & Hr5 & Hup5 & Rt5 & _).
  pose proof (rooted_kept _ _ _ _ _ _ Rt5) as Hkp5.
  exists l1, k5. split.
  - unfold main. set (sA := power_on ram clk) in *.
    set (sB k p := mkBoot k [] 4 (lo + S n * PAGESIZE - 1) hi p false). fold (sB k1 NULL) in H1.
    apply bind_inv in H1 as (z & s1 & E1 & H1). rewrite (bind_ok _ _ _ _ _ E1).
    apply bind_inv in H1 as (lh & s2 & E2 & H1). rewrite (bind_ok _ _ _ _ _ E2), (bind_ok _ _ _ _ _ H1).
    rewrite (bind_ok _ _ _ tt (sB k2 (Some l1))); last first.
    { unfold utimer_init. rewrite (bind_ok _ _ _ NULL (sB k1 NULL)) by done. rewrite decide_False by (intros H; by apply H).
      rewrite (bind_ok _ _ _ (Some l1) (sB k2 NULL)); [done|].
      apply (on_k_run _ (sB k1 NULL)). cbn [b_k sB]. rewrite first_rootthread; [exact Hr1|by rewrite Hp1..]. }
    rewrite (bind_ok _ _ _ CLOCK_R_OK (sB k3 (Some l1))) by (by apply (on_k_run _ (sB k2 (Some l1)))).
    rewrite (bind_ok _ _ _ tt (sB k4 (Some l1))) by (by apply (on_k_run _ (sB k3 (Some l1)))).
    by rewrite (bind_ok _ _ _ (Some l5) (sB k5 (Some l1))) by (by apply (on_k_run _ (sB k4 (Some l1)))).
  - split; [exact Hup5| | | | |].
    + rewrite (rt_off _ _ _ _ _ _ Rt5), Hoff4, P3, (rt_off _ _ _ _ _ _ Rt1). exact Hoff1.
    + by apply (server_kept k4).
    + apply (thread_kept k4 k5); [done|]. apply (thread_kept k3 k4); [done|].
      apply (thread_kept k2 k3); [by apply kept_same|].
      eapply rooted_thread; [|exact Rt1]. exact (up_ok _ _ _ Hup).
    + eapply rooted_thread; [|exact Rt5]. exact (up_ok _ _ _ Hup4).
    + rewrite (rt_quiet _ _ _ _ _ _ Rt5), Q4, (quiet_timer k2 k3 Q3), B3, (rt_quiet _ _ _ _ _ _ Rt1).
      change (quiet k1') with (quiet k1). by rewrite Q1.
Qed.

End boot.

(** ** The steps of the second thread *)
Section init.
Context (utimer_code init_code nfs_code pager_code : Z).
Definition logs (p : B unit) : Prop := ∀ s, ∃ es, p s = Ok tt (set_b_k (klog_app es (b_k s)) s).
Lemma klog_app_twice es es' s :
  set_b_k (klog_app es' (b_k (set_b_k (klog_app es (b_k s)) s))) (set_b_k (klog_app es (b_k s)) s) =
  set_b_k (klog_app (es ++ es') (b_k s)) s.
Proof. unfold set_b_k, klog_app. cbn. by rewrite <- app_assoc. Qed.
Lemma logs_bind (p q : B unit) : logs p → logs q → logs (p;; q).
Proof.
  intros Hp Hq s. destruct (Hp s) as [es E]. destruct (Hq (set_b_k (klog_app es (b_k s)) s)) as [es' E'].
  exists (es ++ es'). rewrite (bind_ok _ _ _ _ _ E), E'. by rewrite klog_app_twice.
Qed.
Lemma logs_call f : logs (lib_call f).
Proof. intros s. exists [LibCall f]. done. Qed.
Lemma logs_forM {A} (f : A → B unit) xs : (∀ x, logs (f x)) → logs (forM xs f).
Proof.
  intros Hf. induction xs as [|x xs IH]; [|by apply logs_bind].
  intros s. exists []. exact (emits_run (λ _ : unit, L4_CacheFlushAll) [] s).
Qed.
Lemma network_run rounds s :
  ∃ es, network_init rounds s = Ok tt (set_serial true (set_b_k (klog_app es (b_k s)) s)).
Proof.
  unfold network_init.
  assert (∀ p q r : B unit, logs p → logs q → logs r → ∃ es, (p;; q;; r;; modify (set_serial true)) s =
    Ok tt (set_serial true (set_b_k (klog_app es (b_k s)) s))) as H.
  { intros p q r Hp Hq Hr. destruct (logs_bind _ _ Hp (logs_bind _ _ Hq Hr) s) as [es E]. exists es.
    apply bind_inv in E as ([] & s1 & E1 & E). apply bind_inv in E as ([] & s2 & E2 & E3).
    by rewrite (bind_ok _ _ _ _ _ E1), (bind_ok _ _ _ _ _ E2), (bind_ok _ _ _ _ _ E3). }
  apply H; apply logs_forM; intros; repeat apply logs_bind; apply logs_call.
Qed.
Lemma up_fewer k i j fs : (j ≤ i)%nat → up k i fs → up k j fs.
Proof.
  intros Hij [U1 U2 U3 (is_ & R1 & R2 & R3) U5]. split; [done..| |done]. exists is_. split_and!; [done|lia|done].
Qed.
Lemma up_malloced k j fs : up k j fs → up (malloced k) j fs.
Proof. intros [H1 H2 H3 H4 H5]. split; [done|by apply heap_ok_malloced|done..]. Qed.
Lemma up_log k j fs es : up k j fs → up (klog_app es k) j fs.
Proof. by apply up_same. Qed.

Definition console_vnode : VNode :=
  mkVNode (bytes_of_string "console") Console.CONSOLE_STAT 1 FM_UNLIMITED_RW 0 0 ExConsole NULL NULL FsConsole.
Definition console_ready (v : positive) : Console_File :=
  mkConsole (Some v) (bytes_of_string "console") 1 FM_UNLIMITED_RW (mkReader NIL_PID 0 0 0 0) [].
Lemma vfs_run k j f1 f2 fs clk :
  up k (S j) (f1 :: f2 :: fs) →
  quiet k = (mkVfs ∅ NULL, mkNfs ∅ [] 0, Console.Console_Files0, pager_on, ∅, ∅, clk) →
  ∃ v k', vfs_init nfs_code k = Ok tt k' ∧ up k' j fs ∧ kept k k' ∧
    tidOffset (k_procs k') = tidOffset (k_procs k) ∧ thread_of k' (bytes_of_string "nfs_timeout") nfs_code ∧
    quiet k' = (mkVfs {[ v := console_vnode ]} (Some v), mkNfs ∅ [] 0, console_ready v, pager_on, ∅, ∅, clk).
Proof.
  intros Hup HQ. unfold quiet in HQ. injection HQ as Q1 Q2 Q3 Q4 Q5 Q6 Q7. set (v := mnext (kmach k)).
  set (k1 := set_con (console_ready v) (set_vfs (mkVfs {[ v := console_vnode ]} (Some v)) (malloced k))).
  assert (up k1 (S j) (f1 :: f2 :: fs)) as Hup1 by (apply (up_same (malloced k)); [done..|by apply up_malloced]).
  destruct (rootthread_run k1 (bytes_of_string "nfs_timeout") nfs_code true 0 j f1 f2 fs Hup1)
    as (l & r & k2 & Hrun & Hup2 & Rt & _).
  exists v, k2. split_and!.
  - unfold vfs_init. rewrite (bind_ok _ _ k NULL k).
    2: { rewrite (on_vfs_run _ k NULL (k_vfs k)); [by destruct k|]. unfold gets. by rewrite Q1. }
    rewrite (bind_ok _ _ k (Some v) (set_con (console_ready v) (set_vfs (mkVfs {[ v := console_vnode ]} NULL) (malloced k)))).
    2: { unfold Console.console_init. rewrite (bind_ok _ _ _ _ _ (kmalloc_nocheck_run k (heap_oracle k (up_heap _ _ _ Hup)))).
         fold v. rewrite (bind_ok _ _ (malloced k) Console.Console_Files0 (malloced k)) by (unfold gets; cbn; by rewrite Q3).
         rewrite (bind_ok _ _ (malloced k) tt (set_vfs (mkVfs {[ v := console_vnode ]} NULL) (malloced k)))
           by (unfold on_vfs, zoom, modify; cbn; by rewrite Q1).
         rewrite (bind_ok _ _ _ tt (set_con (console_ready v) (set_vfs (mkVfs {[ v := console_vnode ]} NULL) (malloced k))));
           [done|]. unfold Console.on_con, zoom, modify. cbn. by rewrite Q3. }
    rewrite (bind_ok _ _ _ tt k1) by done. unfold Nfsfs.nfsfs_init.
    rewrite (bind_ok _ _ k1 tt k1).
    2: { unfold on_nfs, zoom, modify, k1. cbn. rewrite Q2. unfold set_nfs, set_con, set_vfs. cbn. by rewrite Q2. }
    by rewrite (bind_ok _ _ _ _ _ Hrun).
  - done.
  - apply (rooted_kept _ _ _ _ _ _ Rt).
  - apply (rt_off _ _ _ _ _ _ Rt).
  - eapply rooted_thread; [|exact Rt]. exact (up_ok _ _ _ Hup1).
  - rewrite (rt_quiet _ _ _ _ _ _ Rt). unfold quiet, k1. cbn. by rewrite Q2, Q4, Q5, Q6, Q7.
Qed.

(** The pager at the start. *)
Definition pager_ready (sf r : Z) : State.pager :=
  mkPager FRAME_ALLOC_LIMIT FRAME_ALLOC_LIMIT [] [] [] false ∅ ∅ 0 sf (L4_GlobalId r 1)
    (replicate (Z.to_nat MAX_THREADS) 0).
Definition pager_thread (k : kstate) (r : Z) : Prop :=
  ∃ l x, slot (k_procs k) r = Some l ∧ pcbs (k_procs k) !! l = Some x ∧
    root_thread x r (bytes_of_string "pager") pager_code ∧ ipc_accept (info x) = PS_IPC_BLOCKING.
Lemma up_filter k l x j fs f :
  pcbs (k_procs k) !! l = Some x → up k j fs →
  up (set_procs (upd_pcb l (upd_info (set_ipc_accept f)) (k_procs k)) k) j fs.
Proof.
  intros Hx [H1 [H2a H2b H2c] H3 H4 H5].
  assert (∀ l' y, pcbs (upd_pcb l (upd_info (set_ipc_accept f)) (k_procs k)) !! l' = Some y →
    ∃ y0, pcbs (k_procs k) !! l' = Some y0 ∧ fds y = fds y0 ∧ files y = files y0) as Hp.
  { intros l' y Hy. cbn in Hy. destruct (decide (l' = l)) as [->|Hne].
    - rewrite lookup_alter_eq, Hx in Hy. injection Hy as <-. by exists x.
    - rewrite lookup_alter_ne in Hy by done. by exists y. }
  split; [eapply procs_ok_view; [by apply upd_pcb_pids|exact H1]| |done|exact H4|].
  - split; [|done|done]. intros l' y (y0 & Hy0 & _)%Hp. by apply (H2a l' y0).
  - intros l' y (y0 & Hy0 & E1 & E2)%Hp. apply (files_ok_ext y y0); [done|done|]. by apply (H5 l').
Qed.
Lemma pager_run k j f1 f2 f3 fs vf con clk :
  up k (S j) (f1 :: f2 :: f3 :: fs) →
  quiet k = (vf, mkNfs ∅ [] 0, con, pager_on, ∅, ∅, clk) →
  ∃ r k', pager_init pager_code k = Ok tt k' ∧ up k' j fs ∧
    tidOffset (k_procs k') = tidOffset (k_procs k) ∧ pager_thread k' r ∧
    (∀ nm entry, thread_of k nm entry → thread_of k' nm entry) ∧ (root_server k → root_server k') ∧
    quiet k' = (vf, mkNfs ∅ [] 0, con, pager_ready f1 r, {[ f1 := elf_swapfile SWAPFILE_FN ]}, ∅, clk).
Proof.
  intros Hup HQ. unfold quiet in HQ. injection HQ as Q1 Q2 Q3 Q4 Q5 Q6 Q7.
  destruct (swapfile_init_run k SWAPFILE_FN f1 _ (up_free _ _ _ Hup)) as (s & Hs & Hfl & Hm).
  set (k1 := set_swap _ k) in Hs.
  set (pg := mkPager FRAME_ALLOC_LIMIT FRAME_ALLOC_LIMIT [] [] [] false ∅ ∅ 0 f1 L4_nilthread
    (replicate (Z.to_nat MAX_THREADS) 0)).
  set (k2 := set_pager pg k1).
  assert (kmach k2 = kmach k) as Em by exact Hm.
  assert (up k2 (S j) (f2 :: f3 :: fs)) as Hup2.
  { destruct Hup as [U1 [U2a U2b U2c] U3 U4 U5]. split; [done| |exact Hfl|exact U4|exact U5].
    split; rewrite Em; done. }
  destruct (rootthread_run k2 (bytes_of_string "pager") pager_code true 254 j f2 f3 fs Hup2)
    as (l & r & k3 & Hrun & Hup3 & Rt & _).
  destruct (rt_pcb _ _ _ _ _ _ Rt) as (x & Hx & Rx). pose proof (rooted_kept _ _ _ _ _ _ Rt) as [Hk1 Hk2].
  set (k4 := set_procs (upd_pcb l (upd_info (set_ipc_accept PS_IPC_BLOCKING)) (k_procs k3)) k3).
  set (x4 := upd_info (set_ipc_accept PS_IPC_BLOCKING) x).
  assert (pcbs (k_procs k4) !! l = Some x4) as Hx4 by (by apply upd_pcb_lookup).
  pose proof (rt_quiet _ _ _ _ _ _ Rt) as HQ3. unfold quiet in HQ3. injection HQ3 as R1 R2 R3 R4 R5 R6 R7.
  set (k5 := set_pager (pager_ready f1 r) k4).
  assert (∀ l' x', pcbs (k_procs k) !! l' = Some x' → pcbs (k_procs k5) !! l' = Some x') as Hold.
  { intros l' x' Hx'. cbn. rewrite lookup_alter_ne; [by apply Hk1|]. intros ->.
    pose proof (rt_fresh _ _ _ _ _ _ Rt) as Hf. change (k_procs k2) with (k_procs k) in Hf. by rewrite Hx' in Hf. }
  exists r, k5. split_and!.
  - unfold pager_init. rewrite (bind_ok _ _ _ _ _ Hs).
    rewrite (bind_ok _ _ k1 tt k2) by (unfold on_pager, zoom, modify, k2; cbn; by rewrite Q4).
    rewrite (bind_ok _ _ _ _ _ Hrun).
    rewrite (bind_ok _ _ k3 (ipc_accept (info x)) k4); last first.
    { apply on_procs_run. unfold process_set_ipcfilt.
      rewrite (bind_ok _ _ (k_procs k3) (ipc_accept (info x)) (k_procs k3))
        by (by apply (pcb_field (λ x, ipc_accept (info x)))).
      by rewrite (bind_ok _ _ _ _ _ (pcb_upd_run _ l x _ Hx)). }
    rewrite (bind_ok _ _ k4 (L4_GlobalId r 1) k4); last first.
    { apply on_procs_id. rewrite <- (rx_pid _ _ _ _ Rx).
      by apply (pcb_field (λ x, L4_GlobalId (pid (info x)) 1) _ l x4). }
    unfold virtualPager_start, on_pager, zoom, modify, k5. cbn. by rewrite R4.
  - apply (up_same k4); [done..|]. by apply (up_filter k3 l x).
  - apply (rt_off _ _ _ _ _ _ Rt).
  - exists l, x4. split; [apply (rt_slot _ _ _ _ _ _ Rt)|]. split; [exact Hx4|]. by destruct Rx.
  - intros nm entry. apply (thread_kept k k5). split; [exact Hold|exact Hk2].
  - apply (server_kept k k5). split; [exact Hold|exact Hk2].
  - unfold quiet. cbn. rewrite R1, R2, R3, R5, R7. assert (cbuf (kmach k5) = ∅) as ->.
    { change (cbuf (kmach k5)) with (cbuf (kmach k3)). rewrite R6, Em. exact Q6. }
    cbn. rewrite Q1, Q2, Q3, Q5, Q7. done.
Qed.

(** ** The system before its first program *)
Record ready (k : kstate) (fs : list Z) : Prop := {
  rd_up : up k 251 fs;
  rd_off : tidOffset (k_procs k) = 1;
  rd_server : root_server k;
  rd_utimer : thread_of k (bytes_of_string "utimer") utimer_code;
  rd_init : thread_of k (bytes_of_string "sos_init") init_code;
  rd_timeout : thread_of k (bytes_of_string "nfs_timeout") nfs_code;
  rd_pager : ∃ sf r, k_pager k = pager_ready sf r ∧ pager_thread k r ∧
    swapfiles (k_swap k) = {[ sf := elf_swapfile SWAPFILE_FN ]};
  rd_console : ∃ v, k_vfs k = mkVfs {[ v := console_vnode ]} (Some v) ∧ k_con k = console_ready v;
  rd_nfs : k_nfs k = mkNfs ∅ [] 0;
  rd_sleepers : blocked_threads (k_clock k) = [(L4_nilthread, 0)]
}.
Lemma init_run k l bot top fs rounds :
  main_done utimer_code init_code k fs → (5 ≤ length fs)%nat →
  ∃ k', (network_init rounds;; on_k (vfs_init nfs_code);; on_k (pager_init pager_code))
      (mkBoot k [] 4 bot top (Some l) false) = Ok tt (mkBoot k' [] 4 bot top (Some l) true) ∧
    ready k' (drop 5 fs).
Proof.
  intros [D1 D2 D3 D4 D5 D6] Hlen. destruct (five_frames fs Hlen) as (f1 & f2 & f3 & f4 & f5 & Ef).
  rewrite Ef in D1. set (rest := drop 5 fs) in *.
  set (sB k b := mkBoot k [] 4 bot top (Some l) b).
  destruct (network_run rounds (sB k false)) as [es Hn]. set (k1 := klog_app es k).
  pose proof (up_log k _ _ es D1) as U1. fold k1 in U1.
  destruct (vfs_run k1 252 f1 f2 _ _ U1 D6) as (v & k2 & Hv & U2 & K2 & O2 & T2 & Q2).
  destruct (pager_run k2 251 f3 f4 f5 _ _ _ _ U2 Q2) as (r & k3 & Hp & U3 & O3 & T3 & K3 & S3 & Q3).
  exists k3. split.
  - rewrite (bind_ok _ _ (sB k false) tt (sB k1 true)) by exact Hn.
    rewrite (bind_ok _ _ _ tt (sB k2 true)) by (by apply (on_k_run _ (sB k1 true))).
    by apply (on_k_run _ (sB k2 true)).
  - unfold quiet in Q3. injection Q3 as Q3a Q3b Q3c Q3d Q3e Q3f Q3g.
    assert (kept k k2) as K2' by exact K2. split; [exact U3| | | | | | | |done|done].
    + rewrite O3, O2. exact D2.
    + apply S3. by apply (server_kept k).
    + apply K3. by apply (thread_kept k).
    + apply K3. by apply (thread_kept k).
    + apply K3, T2.
    + by exists f3, r.
    + by exists v.
Qed.
End init.

(** ** The programs *)
Definition program_sp (p : program) : Z :=
  if decide (regions_highest (program_regions p) = 0) then 0 else w32 (STACK_TOP - 3 * 4).
(** A program without memory gets no heap and no stack. *)
Definition all_regions (p : program) : list Region :=
  program_regions p ++
  (if decide (regions_highest (program_regions p) = 0) then []
   else [heap_region (program_regions p); stack_region]).
(** Process [r] runs the program: its PCB, with an empty page table and no open
    files. *)
Record runs_program (k : kstate) (p : program) (r : Z) : Prop := {
  rp_pcb : ∃ l x, slot (k_procs k) r = Some l ∧ pcbs (k_procs k) !! l = Some x ∧
    pid (info x) = r ∧ ps_type (info x) = PS_TYPE_PROCESS ∧ state (info x) = PS_STATE_ALIVE ∧
    command (info x) = strncpy_path (pg_name p) ∧ ip x = pg_entry p ∧ sp x = program_sp p ∧
    regions x = all_regions p ∧ (fds x, files x) = vfiles_init ∧
    (∀ i, 0 ≤ i < PAGEWORDS → l1 (kmem k) (pagetable x) i = 0)
}.
(** What the start of a program asks of the kernel and the file server. *)
Definition program_events (pg : L4_ThreadId_t) (p : program) (r : Z) : list event :=
  [L4_Ipc L4_rootserver PSOS_OPEN SOS_IPC_SEND (w32 <$> [FM_WRITE; FM_UNLIMITED_RW; FM_UNLIMITED_RW; r]);
   L4_Ipc L4_rootserver PSOS_DUP SOS_IPC_SEND (w32 <$> [stdout_fd; stderr_fd; r]);
   L4_TaskStart r pg (pg_entry p) (program_sp p)].
Record programs_started (im : image) (k k' : kstate) (prs : list (program * Z)) (fs : list Z) : Prop := {
  ps_order : Forall2 (λ i pr, im_programs im !! i = Some (fst pr)) (im_order im) prs;
  ps_pids : NoDup (snd <$> prs);
  ps_new : Forall (λ pr, slot (k_procs k) (snd pr) = NULL) prs;
  ps_runs : Forall (λ pr, runs_program k' (fst pr) (snd pr)) prs;
  ps_kept : kept k k';
  ps_up : up k' 0 fs;
  ps_rest : (k_vfs k', k_nfs k', k_con k', k_pager k', swapfiles (k_swap k')) =
            (k_vfs k, k_nfs k, k_con k, k_pager k, swapfiles (k_swap k));
  ps_log : klog k' = klog k ++
    concat ((λ pr, program_events (virtualPager (k_pager k)) (fst pr) (snd pr)) <$> prs);
  ps_first : pids_in_order (k_procs k) (snd <$> prs)
}.

Lemma run_pcb_program k t r tm l :
  pcbs (k_procs k) !! l = Some (run_pcb t r tm) → slot (k_procs k) r = Some l →
  (∀ i, 0 ≤ i < PAGEWORDS → l1 (kmem k) (t_table t) i = 0) → runs_program k (t_prog t) r.
Proof.
  intros Hx Hs He. split. exists l, (run_pcb t r tm). split; [done|]. split; [done|].
  unfold run_pcb, running, builtin, program_sp, all_regions.
  change (regions (upd_info _ (set_regions ?rs _))) with rs. case_decide as E; cbn; split_and!; try done.
  by rewrite app_nil_r.
Qed.
Lemma run_events pg t r : task_events pg t r = program_events pg (t_prog t) r.
Proof.
  unfold task_events, program_events, run_pcb, running, builtin, program_sp.
  change (regions (upd_info _ (set_regions ?rs _))) with rs. by case_decide.
Qed.
Lemma run_pcb_files t r tm : files_ok (run_pcb t r tm).
Proof.
  apply (files_ok_ext _ (fresh_pcb PS_TYPE_PROCESS 0)); [..|apply files_ok_fresh];
    unfold run_pcb, running, builtin; by case_decide.
Qed.
Lemma started_summary im k k1 k' ts tr fs :
  t_prog <$> ts = im_programs im → Forall2 (λ i p, ts !! i = Some (fst p)) (im_order im) tr →
  all_made k k1 ts fs → all_started k1 k' tr → procs_ok (k_procs k) → tables_ok k →
  programs_started im k k' ((λ p, (t_prog (fst p), snd p)) <$> tr) fs.
Proof.
  intros Ep Hsel [A1 A2 A3 A4 A5 Aok A6 A7 A8 A9 [A10 A11]] [S1 S2 S3 S4 S5 S6 [S7a S7b S7c] S8 S9 S10] Hok Htb.
  unfold procs_rest in A5. injection A5 as R1 R2 R3 R4 R5. unfold aside in A10. injection A10 as B1 B2 B3 B4 B5 B6 B7 B8.
  unfold launch_view in S8. injection S8 as V1 V2 V3 V4 V5 V6 V7.
  assert (∀ i, slot (k_procs k1) i = slot (k_procs k) i) as Hsl by (intros i; unfold slot; by rewrite R1).
  assert (Forall (λ p, fst p ∈ ts) tr) as Hin.
  { clear -Hsel. induction Hsel; constructor; [by eapply list_elem_of_lookup_2|done]. }
  assert (∀ p, p ∈ tr → task_of p ∈ t_loc <$> ts) as Hloc.
  { intros p Hp. rewrite Forall_forall in Hin. apply list_elem_of_fmap. exists (fst p). split; [done|by apply Hin]. }
  split.
  - clear -Ep Hsel. rewrite <- Ep. induction Hsel as [|i p order tr H _ IH]; [constructor|]. constructor; [|done].
    cbn. by rewrite list_lookup_fmap, H.
  - rewrite <- list_fmap_compose. exact S2.
  - apply Forall_fmap. eapply Forall_impl; [exact S1|]. intros p [H _]. cbn. by rewrite <- Hsl.
  - apply Forall_fmap, Forall_forall. intros p Hp. cbn. rewrite Forall_forall in S3. rewrite Forall_forall in Hin.
    rewrite Forall_forall in A8.
    destruct (S3 p Hp) as [H1 [tm H2]]. apply (run_pcb_program k' (fst p) (snd p) tm (task_of p)); [done|done|].
    intros i Hi. rewrite V5. by apply A8; [apply Hin|].
  - split.
    + intros l x Hx. assert (l ∉ t_loc <$> ts) as Hn.
      { intros (t & -> & Ht)%list_elem_of_fmap. rewrite Forall_forall in A3. destruct (A3 t Ht) as [H _]. by rewrite Hx in H. }
      rewrite S4; [by rewrite A2|]. intros (p & -> & Hp)%list_elem_of_fmap. by apply Hn, Hloc.
    + intros i Hi Hn. rewrite S5; [by apply Hsl|done|]. intros (p & -> & Hp)%list_elem_of_fmap.
      rewrite Forall_forall in S1. destruct (S1 p Hp) as [H _]. apply Hn. by rewrite <- Hsl.
  - split; [done|done| |exists []; split_and!; [constructor|cbn; lia|constructor]|].
    + destruct A7 as [C1 C2]. split; [|done]. rewrite V7. unfold kmem, kmach, fmem in *. by rewrite V5.
    + intros l x Hx. destruct (decide (l ∈ task_of <$> tr)) as [Hl|Hl].
      * apply list_elem_of_fmap in Hl as (p & -> & Hp). rewrite Forall_forall in S3. destruct (S3 p Hp) as [_ [tm H]].
        rewrite Hx in H. injection H as ->. apply run_pcb_files.
      * rewrite S4 in Hx by done. destruct (decide (l ∈ t_loc <$> ts)) as [Ht|Ht].
        { apply list_elem_of_fmap in Ht as (t & -> & Ht). rewrite Forall_forall in A1. rewrite (A1 t Ht) in Hx.
          injection Hx as <-. by apply (files_ok_ext _ (fresh_pcb PS_TYPE_PROCESS (t_table t))), files_ok_fresh. }
        rewrite A2 in Hx by done. by apply (Htb l).
  - by rewrite V1, V2, V3, V4, V6, B1, B2, B3, B4, A11.
  - rewrite S9. change (klog k1) with (log (kmach k1)). rewrite B7, B4. f_equal. f_equal. rewrite <- list_fmap_compose.
    apply list_fmap_ext. intros i p _. cbn. apply run_events.
  - unfold pids_in_order in *. rewrite R2, R3 in S10. rewrite <- list_fmap_compose.
    pose proof (off_range _ Hok). eapply taken_ext; [lia| |exact S10]. intros i _. cbn. by rewrite Hsl.
Qed.
Lemma programs_start m a im fuel s fs0 fs :
  image_ok im → BootImage.fits a (weave im) → BootImage.bytes_at m a (BootImage.encode (weave im)) →
  (length (weave im) < fuel)%nat →
  bips s = [] → bootinfo_id s = 4 → virtualPager (k_pager (b_k s)) ≠ L4_nilthread →
  up (b_k s) (length (im_order im)) (fs0 ++ fs) → length fs0 = length (im_programs im) →
  ∃ k' prs n, sos_start_binfo_executables m a fuel s = Ok tt (boot_at s k' [] n) ∧
    programs_started im (b_k s) k' prs fs.
Proof.
  intros Hok Hfit Hb Hf Hbs Hid Hvp [U1 U2 U3 U4 U5] Hlen. pose proof (off_range _ U1) as Hoff.
  destruct (start_run m im fuel a s fs0 fs) as (ts & tr & k1 & k' & E1 & E2 & Hsel & Hrun & Ham & Has); try done.
  { lia. }
  exists k', ((λ p, (t_prog (fst p), snd p)) <$> tr), (first_name im + all_names (im_programs im)).
  split; [done|]. by apply (started_summary im (b_k s) k1 k' ts tr fs).
Qed.
End Startup.

Module StartupClaims.
Import Startup BootImage.


(** A shell with two sections, in a machine with sixteen pages. *)
Definition demo_program : program :=
  mkProgram 32768 0 100 (bytes_of_string "sosh") 4
    [mkSection 32768 8192 6 0 2 1 (2 ^ 32 - 1) 31 5 0 0 0; mkSection 65536 4096 6 0 2 3 (2 ^ 32 - 1) 31 6 65536 0 0]
    [mkRec (Bootinfo.bi_op_num Bootinfo.BI_OP_REGISTER_STACK) [5; 6] [] 0].
Definition demo_boot : image :=
  mkImage [0; 0; 0; 0; 0] (0, 65535) (8192, 8192 + 16 * PAGESIZE + ONE_MEG - 1)
    [mkRec (Bootinfo.bi_op_num Bootinfo.BI_OP_NEW_POOL) [1] [] 0] [demo_program] [0%nat].
Definition boot_image : memory := write_bytes ∅ 4096 (encode (weave demo_boot)).
Lemma demo_boot_ok : image_ok demo_boot.
Proof.
  split.
  - apply Forall_forall. intros r Hr. apply BootinfoClaims.rec_okb_ok.
    assert (forallb BootinfoClaims.rec_okb (weave demo_boot) = true) as H by (vm_compute; reflexivity).
    rewrite forallb_forall in H. by apply H, list_elem_of_In.
  - done.
  - repeat constructor. exists Bootinfo.BI_OP_NEW_POOL. split; [by left|done].
  - repeat constructor. exists Bootinfo.BI_OP_REGISTER_STACK. split; [set_solver|done].
  - repeat constructor. apply (bool_decide_unpack _). vm_compute. exact I.
  - split; [repeat constructor; set_solver|repeat constructor].
  - done.
Qed.
Lemma demo_boot_fits : fits 4096 (weave demo_boot).
Proof. split; [done|]. vm_compute. discriminate. Qed.
Lemma demo_boot_bytes : bytes_at boot_image 4096 (encode (weave demo_boot)).
Proof. apply BootinfoClaims.bytes_at_all. vm_compute. reflexivity. Qed.
Lemma boot_range : good_range 8192 16.
Proof. exact (conj eq_refl (conj eq_refl eq_refl)). Qed.
Lemma demo_top : 8192 + 16 * PAGESIZE + ONE_MEG ≤ 2 ^ 32.
Proof. done. Qed.
Definition clock_on : clock := mkClock 0 [] 0 0 0 0 [].
Lemma demo_ready : ∃ s, bips s = [] ∧ bootinfo_id s = 4 ∧ virtualPager (k_pager (b_k s)) ≠ L4_nilthread ∧
  up (b_k s) 1 (take 1 (drop 10 (pages 8192 16)) ++ drop 11 (pages 8192 16)).
Proof.
  destruct (main_run boot_image 4096 demo_boot 1 2 demo_boot_ok demo_boot_fits demo_boot_bytes 8192 15 eq_refl
    boot_range demo_top ∅ clock_on 50) as (l & k1 & _ & Hd); [vm_compute; lia|lia|].
  destruct (init_run 1 2 3 4 k1 l 0 0 _ 0 Hd) as (k2 & _ & Hr); [rewrite length_drop, length_pages; lia|].
  exists (mkBoot k2 [] 4 0 0 (Some l) true). split; [done|]. split; [done|]. split.
  - destruct (rd_pager _ _ _ _ _ _ Hr) as (sf & r & E & _). cbn. by rewrite E.
  - rewrite drop_drop in Hr. apply (up_fewer k2 251); [lia|]. 
    assert (take 1 (drop 10 (pages 8192 16)) ++ drop 11 (pages 8192 16) = drop 10 (pages 8192 16)) as ->
      by (vm_compute; reflexivity). exact (rd_up _ _ _ _ _ _ Hr).
Qed.


(** The memory for the drivers starts one byte early: the last address of the
    image's memory is part of it, so the first block [sos_malloc] hands out
    begins with the last byte of the last frame. *)
Theorem sos_malloc_overlaps_last_frame m a im lo n fuel s sz :
  image_ok im → fits a (weave im) → bytes_at m a (encode (weave im)) → (length (weave im) < fuel)%nat →
  im_phys im = (lo, lo + S n * PAGESIZE + ONE_MEG - 1) → good_range lo (S n) →
  lo + S n * PAGESIZE + ONE_MEG ≤ 2 ^ 32 → 0 ≤ sz < ONE_MEG →
  ∃ p s', (sos_find_memory m a fuel;; sos_malloc sz) s = Ok p s' ∧
    lo + n * PAGESIZE ≤ p < lo + S n * PAGESIZE ∧ lo + n * PAGESIZE ∈ pages lo (S n).
Proof.
  intros Hok Hfit Hb Hf Hmem (G1 & G2 & G3) Htop Hsz.
  pose proof (find_memory_run m a fuel im s Hok Hfit Hb Hf) as Hrun. rewrite Hmem in Hrun.
  fold (hi lo n) in Hrun. rewrite (memory_bounds lo n) in Hrun by done.
  exists (lo + S n * PAGESIZE - 1). eexists. split.
  - rewrite (bind_ok _ _ _ _ _ Hrun). unfold sos_malloc.
    set (s1 := found _ _ s). rewrite (bind_ok _ _ s1 (lo + S n * PAGESIZE - 1) s1) by done.
    rewrite (bind_ok _ _ s1 (hi lo n) s1) by done. rewrite decide_True; [reflexivity|].
    unfold hi. rewrite w32_small; [lia|]. unfold is_word, ONE_MEG, PAGESIZE in *. lia.
  - split; [unfold PAGESIZE; lia|]. apply elem_of_pages. exists n. split; [lia|done].
Qed.
(** A size near the largest word wraps around: it is granted, and the memory
    left grows downwards. *)
Theorem sos_malloc_wraps s bot :
  sSosMemoryBot s = bot → sSosMemoryTop s = bot + ONE_MEG → 0 < bot < 2 ^ 31 →
  ∃ s', sos_malloc (2 ^ 32 - 1) s = Ok bot s' ∧ sSosMemoryBot s' = bot - 1.
Proof.
  intros E1 E2 Hb. unfold sos_malloc. rewrite (bind_ok _ _ s bot s) by (unfold gets; by rewrite E1).
  rewrite (bind_ok _ _ s (bot + ONE_MEG) s) by (unfold gets; by rewrite E2).
  assert (w32 (bot + (2 ^ 32 - 1)) = bot - 1) as Ew.
  { replace (bot + (2 ^ 32 - 1)) with (bot - 1 + 1 * 2 ^ 32) by lia. unfold w32. rewrite Z.mod_add by lia.
    apply Z.mod_small. lia. }
  rewrite Ew, decide_True by (unfold ONE_MEG; lia). eexists. split; reflexivity.
Qed.
End StartupClaims.
