(* ===== verification/Shell.v ===== *)
(** * The shell ([bin/sosh/sosh.c]) and its tools ([bin/cat], [bin/cp], [bin/ls],
    [bin/rm], [bin/kill], [bin/sleep])

    A user program sees the system through the calls of the client library.
    The class [Sos] is that interface, on the state [W] of the rest of the
    system; data are passed explicitly (what [read] puts in the buffer is part
    of its result).  The programs are written against the class. *)
From stdpp Require Import pretty.
From S2P Require Import Prelude Machine ListC Frames Swapfile State Pagetable Process Reply VfsCore.
From S2P Require Import Console Nfsfs Clock Vfs Lifecycle Elf PagerBase Pager Syscall.
Import VfsCore SosLib.

(** What a program can ask for: the result, and the bytes or the record that
    are put in the caller's memory. *)
Class Sos (W : Type) := {
  sys_open : cstr → Z → M W Z;
  sys_close : Z → M W Z;
  sys_read : Z → Z → M W (Z * list Z);
  sys_write : Z → list Z → M W Z;
  sys_stat : cstr → M W (Z * stat_t);
  sys_getdirent : Z → Z → M W (Z * cstr);
  sys_fremove : cstr → M W Z;
  sys_process_create2 : cstr → Z → Z → Z → M W Z;
  sys_process_wait : Z → M W Z;
  sys_process_delete : Z → M W Z;
  sys_my_id : M W Z;
  sys_usleep : Z → M W unit;
  sys_kprint : cstr → M W unit;
  sys_printf : cstr → M W Z
}.

Module Shell.
(** ** Text *)
Definition txt (s : string) : cstr := bytes_of_string s.
Definition nl : cstr := [10].
Definition quote : cstr := [34].
(** [%d] and [%u] *)
Definition dec (n : Z) : cstr := txt (pretty n).
Definition SPACE : Z := 32.
Definition is_space (c : Z) : bool := c =? SPACE.
(** [atoi]: digits after blanks and a sign. *)
Fixpoint digits (acc : Z) (s : cstr) : Z :=
  match s with
  | c :: s' => if decide (48 ≤ c ≤ 57) then digits (acc * 10 + (c - 48)) s' else acc
  | [] => acc
  end.
Fixpoint atoi (s : cstr) : Z :=
  match s with
  | [] => 0
  | c :: s' =>
      if is_space c || bool_decide (9 ≤ c ≤ 13) then atoi s'
      else if decide (c = 45) then - digits 0 s'
      else if decide (c = 43) then digits 0 s'
      else digits 0 s
  end.
(** [strncmp(s, p, strlen(p)) == 0] *)
Definition begins (p s : cstr) : bool := bool_decide (take (length p) s = p).
(** A C string in an array ends at its first NUL. *)
Fixpoint c_string (b : list Z) : cstr :=
  match b with [] => [] | c :: b' => if decide (c = 0) then [] else c :: c_string b' end.

Inductive ctl := Returned (r : Z) | Exited (status : Z).
Definition EXIT_SUCCESS : Z := 0.
Definition EXIT_FAILURE : Z := 1.
Definition VFS_NIL : Z := VFS_NIL_FILE.
Definition stdout_fd : Z := 0.

Section programs.
Context {W : Type} `{!Sos W}.
(** Loops that end only when the system says so. *)
Context (fuel : nat).
(** What an array of the stack holds before it is written. *)
Context (junk : list Z).

(** The static variable [in]. *)
Record sosh := mkSosh { world : W; in_ : Z }.
Local Abbreviation P := (M sosh).
Definition set_world (v : W) (s : sosh) : sosh := mkSosh v (in_ s).
Definition set_in (v : Z) (s : sosh) : sosh := mkSosh (world s) v.
Definition call {A} (m : M W A) : P A := zoom world set_world m.
Definition printf (s : cstr) : P unit := call (sys_printf s);; mret tt.
Definition my_id : P Z := call sys_my_id.
Definition return_ (r : Z) : P ctl := mret (Returned r).

Definition exitFailure (msg : cstr) : P ctl :=
  id ← my_id;
  printf (txt "sosh (" ++ dec id ++ txt ") " ++ msg ++ txt "!" ++ nl);;
  printf (txt "sosh (" ++ dec id ++ txt ") exiting" ++ nl);;
  mret (Exited EXIT_FAILURE).

(** ** Copying *)
(** The array [b] after [data] was read to its start. *)
Definition over (data b : list Z) : list Z := data ++ drop (length data) b.

(** The loop of [cp]: the last results of [read] and [write]. *)
Fixpoint cp_loop (n : nat) (fd fd_out : Z) (buf : list Z) (num_written : Z) : P (Z * Z) :=
  match n with
  | O => fail OutOfFuel
  | S n' =>
      rd ← call (sys_read fd IO_MAX_BUFFER);
      let num_read := fst rd in
      let buf := over (snd rd) buf in
      if decide (0 < num_read) then
        num_written ← call (sys_write fd_out (take (Z.to_nat num_read) buf));
        cp_loop n' fd fd_out buf num_written
      else mret (num_read, num_written)
  end.
Definition cp (argv : list cstr) : P ctl :=
  match argv with
  | [_; file1; file2] =>
      fd ← call (sys_open file1 FM_READ);
      if decide (fd < 0) then
        printf (file1 ++ txt " cannot be opened: " ++ txt (sos_error_msg fd) ++ nl);;
        return_ 1
      else
        fd_out ← call (sys_open file2 FM_WRITE);
        if decide (fd_out < 0) then
          printf (file2 ++ txt " cannot be opened: " ++ txt (sos_error_msg fd) ++ nl);;
          call (sys_close fd);;
          return_ 1
        else
          r ← cp_loop fuel fd fd_out junk 0;
          let '(num_read, num_written) := r in
          if bool_decide (num_read ≠ SOS_VFS_EOF ∧ num_read < 0) || bool_decide (num_written < 0) then
            call (sys_close fd);;
            call (sys_close fd_out);;
            printf (txt "error on cp: " ++ txt (sos_error_msg fd) ++ nl);;
            return_ 1
          else
            call (sys_close fd);;
            call (sys_close fd_out);;
            return_ 0
  | _ => printf (txt "Usage: cp from to " ++ dec (length argv) ++ nl);; return_ 1
  end.

(** The loop of [cat], which ends at the first write that fails. *)
Fixpoint cat_loop (n : nat) (fd : Z) (buf : list Z) (num_written : Z) : P (Z * Z) :=
  match n with
  | O => fail OutOfFuel
  | S n' =>
      rd ← call (sys_read fd (IO_MAX_BUFFER - 1));
      let num_read := fst rd in
      let buf := over (snd rd) buf in
      if decide (0 < num_read) then
        buf ← of_opt OutOfRange (arr_set buf num_read 0);
        num_written ← call (sys_write stdout_fd (take (Z.to_nat num_read) buf));
        if decide (num_written < 0) then mret (num_read, num_written)
        else cat_loop n' fd buf num_written
      else mret (num_read, num_written)
  end.
Definition cat (argv : list cstr) : P ctl :=
  match argv with
  | [_; file] =>
      fd ← call (sys_open file FM_READ);
      if decide (fd < 0) then printf (file ++ txt " cannot be opened" ++ nl);; return_ 1
      else
        r ← cat_loop fuel fd junk 0;
        let '(num_read, num_written) := r in
        call (sys_close fd);;
        let read_failed := bool_decide (num_read ≠ SOS_VFS_EOF ∧ num_read < 0) in
        let write_failed := bool_decide (num_written < 0) in
        when read_failed
          (printf (txt "cat failed: error on read (" ++ dec num_read ++ txt ")" ++ nl);;
           printf (txt "Can't read file: " ++ txt (sos_error_msg num_read) ++ nl);;
           call (sys_kprint (txt "error on read" ++ nl)));;
        when write_failed
          (printf (txt "cat failed: error on print (" ++ dec num_written ++ txt ")" ++ nl);;
           printf (txt "Can't print file: " ++ txt (sos_error_msg num_written) ++ nl);;
           call (sys_kprint (txt "error on write" ++ nl)));;
        return_ (if read_failed || write_failed then 1 else 0)
  | _ => printf (txt "Usage: cat filename" ++ nl);; return_ 1
  end.

(** ** Small commands *)
Definition name_of (argv : list cstr) : cstr := default [] (head argv).
Definition rm (argv : list cstr) : P ctl :=
  match argv with
  | [_; file] =>
      r ← call (sys_fremove file);
      when (bool_decide (r < 0))
        (printf (txt "rm(" ++ file ++ txt ") failed: " ++ dec r ++ nl);;
         printf (txt "Can't remove file, " ++ txt (sos_error_msg r) ++ nl));;
      return_ 0
  | _ => printf (txt "usage " ++ name_of argv ++ txt " [file]" ++ nl);; return_ 1
  end.
Definition kill (argv : list cstr) : P ctl :=
  match argv with
  | name :: arg :: _ =>
      r ← call (sys_process_delete (atoi arg));
      (if decide (r = -1) then printf (name ++ txt " " ++ arg ++ txt " failed (invalid process)" ++ nl)
       else printf (txt "successfully killed process " ++ arg ++ nl));;
      return_ 0
  | _ => printf (txt "usage: " ++ name_of argv ++ txt " pid" ++ nl);; return_ 0
  end.
Definition sosh_exit : P ctl :=
  id ← my_id;
  printf (txt "Sosh (" ++ dec id ++ txt ") exiting..." ++ nl);;
  mret (Exited EXIT_SUCCESS).
Definition pid : P ctl := id ← my_id; printf (dec (w32 id) ++ nl);; return_ 0.
Definition segfault : P ctl := fail NullDeref.
Definition sleep (argv : list cstr) : P ctl :=
  match argv with
  | _ :: arg :: _ => call (sys_usleep (w32 (atoi arg * 1000)));; return_ 0
  | _ => printf (txt "usage: " ++ name_of argv ++ txt " msec" ++ nl);; return_ 1
  end.
(** The character after the last argument is its NUL, never a newline. *)
Definition echo (argv : list cstr) : P ctl :=
  (if decide (length argv < 2)%nat then printf nl
   else forM (tail argv) (λ a, printf (a ++ txt " "));; printf nl);;
  return_ 0.

(** ** Listing files *)
Definition LINE_LEN : Z := 80.
Definition ARG_COUNT : nat := 4.
Definition DASH : Z := 45.
(** A time in seconds as [localtime] and [strftime] of the C library show it. *)
Context (time_text : Z → cstr).
(** [%10u] *)
Definition dec10 (n : Z) : cstr := replicate (10 - length (dec n)) SPACE ++ dec n.
Definition mode_char (sbuf : stat_t) (m : Z) (c : string) : cstr :=
  if has (st_fmode sbuf) m then txt c else txt "-".
Definition prstat (sbuf : stat_t) (name : cstr) : P unit :=
  let t := if decide (2 < st_type sbuf) then 0 else st_type sbuf in
  type ← arr_get [115; 45; 100] t;
  printf ([type] ++ mode_char sbuf FM_READ "r" ++ mode_char sbuf FM_WRITE "w" ++ mode_char sbuf FM_EXEC "x"
          ++ txt " " ++ dec10 (st_size sbuf) ++ txt " " ++ time_text (st2_ctime sbuf `div` 1000)
          ++ txt " " ++ time_text (st2_atime sbuf `div` 1000) ++ txt " " ++ name ++ nl).
(** [args]: are the flags [a] and [l] given? *)
Definition flag_set (c : Z) (argv : list cstr) : bool :=
  existsb (λ a, begins [DASH] a && existsb (λ d, d =? c) (tail a)) (tail argv).

Fixpoint ls_loop (n : nat) (i linec : Z) (all long : bool) : P unit :=
  match n with
  | O => fail OutOfFuel
  | S n' =>
      d ← call (sys_getdirent i IO_MAX_BUFFER);
      let '(r, name) := d in
      if decide (r = SOS_VFS_EOF) then mret tt
      else if decide (r < 0) then
        printf (txt "dirent(" ++ dec i ++ txt ") failed: " ++ txt (sos_error_msg r) ++ nl)
      else if all || negb (begins (txt ".") name) then
        if (long : bool) then
          st ← call (sys_stat name);
          if decide (fst st < 0) then
            printf (txt "stat(" ++ name ++ txt ") failed: " ++ txt (sos_error_msg (fst st)) ++ nl)
          else prstat (snd st) name;; ls_loop n' (i + 1) linec all long
        else
          linec ← (if decide (LINE_LEN < linec + length name) then printf nl;; mret 0 else mret linec);
          k ← call (sys_printf (name ++ txt " "));
          ls_loop n' (i + 1) (linec + k) all long
      else ls_loop n' (i + 1) linec all long
  end.
Definition ls (argv : list cstr) : P ctl :=
  if decide (ARG_COUNT < length argv)%nat then
    printf (txt "usage: " ++ name_of argv ++ txt " [-a] [-l] [file]" ++ nl);; return_ 1
  else
    let all := flag_set 97 argv in
    let long := flag_set 108 argv in
    match last (tail argv) with
    | Some file =>
        if begins [DASH] file then
          ls_loop fuel 0 0 all long;; when (negb long) (printf nl);; return_ 0
        else
          st ← call (sys_stat file);
          (if decide (fst st < 0) then
             printf (txt "stat(" ++ file ++ txt ") failed: " ++ txt (sos_error_msg (fst st)) ++ nl)
           else prstat (snd st) file);;
          return_ 0
    | None => ls_loop fuel 0 0 all long;; when (negb long) (printf nl);; return_ 0
    end.

(** ** The same as programs *)
(** The [main] functions of [bin/cat], [bin/cp], [bin/rm], [bin/kill],
    [bin/sleep] and [bin/ls] are the commands above, word for word. *)
Definition bin_cat (argv : list cstr) : P ctl := cat argv.
Definition bin_cp (argv : list cstr) : P ctl := cp argv.
Definition bin_rm (argv : list cstr) : P ctl := rm argv.
Definition bin_kill (argv : list cstr) : P ctl := kill argv.
Definition bin_sleep (argv : list cstr) : P ctl := sleep argv.
Definition bin_ls (argv : list cstr) : P ctl := ls argv.

(** ** Running programs *)
Record redirects := mkRedir {
  bg : bool; fout : option cstr; ferr : option cstr; fin_ : option cstr
}.
(** The loop over the arguments: the redirections, or what is missing. *)
Fixpoint parse_redirects (args : list cstr) (d : redirects) : redirects + cstr :=
  match args with
  | [] => inl d
  | a :: args' =>
      if decide (a = txt "&") then parse_redirects args' (mkRedir true (fout d) (ferr d) (fin_ d))
      else if decide (a = txt ">" ∨ a = txt "1>") then
        match args' with
        | f :: args'' => parse_redirects args'' (mkRedir (bg d) (Some f) (ferr d) (fin_ d))
        | [] => inr (txt "Stdout not specified")
        end
      else if begins (txt ">") a then
        if decide (length a < 2)%nat then inr (txt "stdout not specified")
        else parse_redirects args' (mkRedir (bg d) (Some (drop 1 a)) (ferr d) (fin_ d))
      else if begins (txt "1>") a then
        if decide (length a < 3)%nat then inr (txt "stdout not specified")
        else parse_redirects args' (mkRedir (bg d) (Some (drop 2 a)) (ferr d) (fin_ d))
      else if decide (a = txt "2>") then
        match args' with
        | f :: args'' => parse_redirects args'' (mkRedir (bg d) (fout d) (Some f) (fin_ d))
        | [] => inr (txt "Stderr not specified")
        end
      else if begins (txt "2>") a then
        if decide (length a < 3)%nat then inr (txt "stderr not specified")
        else parse_redirects args' (mkRedir (bg d) (fout d) (Some (drop 2 a)) (fin_ d))
      else if decide (a = txt "<") then
        match args' with
        | f :: args'' => parse_redirects args'' (mkRedir (bg d) (fout d) (ferr d) (Some f))
        | [] => inr (txt "Stdin not specified")
        end
      else if begins (txt "<") a then
        if decide (length a < 2)%nat then inr (txt "Stdin not specified")
        else parse_redirects args' (mkRedir (bg d) (fout d) (ferr d) (Some (drop 1 a)))
      else parse_redirects args' d
  end.
(** [>&2] and [2>&1] *)
Definition resolve_redirects (d : redirects) : redirects :=
  let fout' := if decide (fout d = Some (txt "&2")) then ferr d else fout d in
  mkRedir (bg d) fout' (if decide (ferr d = Some (txt "&1")) then fout' else ferr d) (fin_ d).

(** A redirection that is asked for is opened; the descriptor, and whether that
    failed. *)
Definition open_redirect (f : option cstr) (mode : Z) : P (Z * bool) :=
  match f with
  | None => mret (VFS_NIL_FILE, false)
  | Some f => fd ← call (sys_open f mode); mret (fd, bool_decide (fd < 0))
  end.
Definition close_redirect (fd : Z) : P unit :=
  if decide (fd ≠ VFS_NIL_FILE) then call (sys_close fd);; mret tt else mret tt.
Definition CONSOLE : cstr := txt "console".

(** After the redirections were read. *)
Definition exec_redirected (prog : cstr) (d : redirects) : P ctl :=
  o ← open_redirect (fout d) FM_WRITE;
  e ← open_redirect (ferr d) FM_WRITE;
  i ← open_redirect (fin_ d) FM_READ;
  let failed := snd o || snd e || snd i in
  when (negb failed)
    (pid ← call (sys_process_create2 prog (fst o) (fst e) (fst i));
     if decide (0 ≤ pid) then when (negb (bg d)) (call (sys_process_wait pid);; mret tt)
     else printf (txt "Can't create new process: " ++ prog ++ txt "!" ++ nl));;
  ok ← (if bg d then mret true
        else fd ← call (sys_open CONSOLE FM_READ);
             modify (set_in fd);; mret (bool_decide (0 ≤ fd)));
  if negb ok then exitFailure (txt "can't open console for reading")
  else if (failed : bool) then printf (txt "Can't open stdout!" ++ nl);; return_ 1
  else
    close_redirect (fst o);; close_redirect (fst e);; close_redirect (fst i);;
    return_ 0.
Definition exec (argv : list cstr) : P ctl :=
  match argv with
  | _ :: prog :: args =>
      match parse_redirects args (mkRedir false None None None) with
      | inr msg => printf (msg ++ nl);; return_ 1
      | inl d =>
          fd ← gets in_;
          ok ← (if bg d then mret true else r ← call (sys_close fd); mret (bool_decide (r = 0)));
          if negb ok then exitFailure (txt "can't close console" ++ nl)
          else exec_redirected prog (resolve_redirects d)
      end
  | _ => printf (txt "Usage: exec filename [&]" ++ nl);; return_ 1
  end.

(** ** The commands *)
(** [alloc] writes to fresh memory and prints where it is. *)
Context (alloc : list cstr → P ctl).
Inductive command :=
  | Alloc | Cat | Cp | Echo | Exec | Exit | Help | Kill | Ls | Pid | Rm | Segfault | Sleep.
Definition sosh_commands : list (cstr * option command) :=
  [(txt "alloc", Some Alloc); (txt "cat", Some Cat); (txt "cp", Some Cp); (txt "echo", Some Echo);
   (txt "exec", Some Exec); (txt "exit", Some Exit); (txt "help", Some Help); (txt "kill", Some Kill);
   (txt "ls", Some Ls); (txt "pid", Some Pid); (txt "rm", Some Rm); (txt "segfault", Some Segfault);
   (txt "sleep", Some Sleep); (txt "null", None)].
Fixpoint help_loop (cs : list (cstr * option command)) : P unit :=
  match cs with
  | (name, Some _) :: cs' => printf ([9] ++ name ++ nl);; help_loop cs'
  | _ => mret tt
  end.
Definition help : P ctl := printf (txt "Available commands:" ++ nl);; help_loop sosh_commands;; return_ 0.
Definition run_command (c : command) (argv : list cstr) : P ctl :=
  match c with
  | Alloc => alloc argv | Cat => cat argv | Cp => cp argv | Echo => echo argv | Exec => exec argv
  | Exit => sosh_exit | Help => help | Kill => kill argv | Ls => ls argv | Pid => pid | Rm => rm argv
  | Segfault => segfault | Sleep => sleep argv
  end.

(** ** The command line *)
Fixpoint skip_spaces (s : cstr) : cstr :=
  match s with c :: s' => if is_space c then skip_spaces s' else s | [] => [] end.
(** The characters up to the next blank, and the rest. *)
Fixpoint word (s : cstr) : cstr * cstr :=
  match s with
  | [] => ([], [])
  | c :: s' => if is_space c then ([], s) else let '(w, rest) := word s' in (c :: w, rest)
  end.
Definition ARGV_SIZE : Z := 32.
(** The loop that fills [argv]; a line has no more words than characters. *)
Fixpoint split_args (n : nat) (argc : Z) (s : cstr) : P (list cstr) :=
  match n with
  | O => fail OutOfFuel
  | S n' =>
      match skip_spaces s with
      | [] => mret []
      | s' =>
          if decide (ARGV_SIZE ≤ argc) then fail OutOfRange
          else
            let '(w, rest) := word s' in
            match rest with
            | [] => mret [w]
            | _ :: rest' => ws ← split_args n' (argc + 1) rest'; mret (w :: ws)
            end
      end
  end.
(** What the first NUL that the loop writes leaves of the line. *)
Definition cut_line (s : cstr) : cstr :=
  take (length s - length (snd (word (skip_spaces s)))) s.

(** The local variables of [main]: [bp] is always the start of [buf]; [line] is
    indeterminate at first. *)
Record reader := mkReader {
  buf : list Z; next : Z; r_ : Z; new : bool; lineDone : bool; lineMore : bool; line : option cstr
}.
Definition set_buf v x := mkReader v (next x) (r_ x) (new x) (lineDone x) (lineMore x) (line x).
Definition set_r v x := mkReader (buf x) (next x) v (new x) (lineDone x) (lineMore x) (line x).
Definition set_new v x := mkReader (buf x) (next x) (r_ x) v (lineDone x) (lineMore x) (line x).
Definition set_lineDone v x := mkReader (buf x) (next x) (r_ x) (new x) v (lineMore x) (line x).
Definition set_lineMore v x := mkReader (buf x) (next x) (r_ x) (new x) (lineDone x) v (line x).
Definition set_line v x := mkReader (buf x) (next x) (r_ x) (new x) (lineDone x) (lineMore x) v.

(** [strncpy(line, src, n)]: [n] bytes of [line] are written, which has
    [IO_MAX_BUFFER]; with [n] = 0 it stays as it was.  What is then in [line] ends
    with a NUL only if [src] has one among its first [n] bytes, and the rest of
    [line] would be part of the string otherwise. *)
Definition strncpy_line (l : option cstr) (src : list Z) (n : Z) : P (option cstr) :=
  if decide (n = 0) then mret l
  else if decide (IO_MAX_BUFFER < n) then fail OutOfRange
  else
    let copied := take (Z.to_nat n) src in
    if decide (0 ∈ copied) then mret (Some (c_string copied)) else fail Uninit.
(** The loop over the characters read, from index [p]: the variables after it,
    and [found].  The size of the copy is a [size_t]. *)
Fixpoint scan (n : nat) (p : Z) (x : reader) (found : bool) : P (reader * bool) :=
  match n with
  | O => fail OutOfFuel
  | S n' =>
      if decide (p < r_ x) then
        c ← arr_get (buf x) p;
        if decide (c = 3) then
          printf (txt "^C" ++ nl);;
          mret (set_lineDone true (set_new true x), found)
        else if decide (c = 4) then scan n' (p + 2) x true
        else if decide (c = 8 ∨ c = 127) then
          if decide (0 < p) then
            printf [8; 32; 8];; scan n' (p - 1) (set_r (r_ x - 2) x) found
          else scan n' p (set_r (r_ x - 1) x) found
        else if decide (c = 10) then
          b ← of_opt OutOfRange (arr_set (buf x) p 0);
          let size := p - next x + 1 in
          l ← strncpy_line (line x) (drop (Z.to_nat (next x)) b) (w32 size);
          let x' := mkReader b (p + 1) (r_ x) true (lineDone x) (lineMore x) l in
          (if decide (size = r_ x) then mret (set_lineDone true x', true)
           else printf nl;; mret (x', true))
        else scan n' (p + 1) x found
      else mret (x, found)
  end.
Definition scan_line (x : reader) : P (reader * bool) :=
  scan (S (Z.to_nat (r_ x - next x))) (next x) x false.

(** The loop that looks for a line: [Searching] again, [Line] in [line], the
    shell has [Ended], or [Failed] to read. *)
Inductive found_t := Line (x : reader) | Failed (x : reader) | Ended (c : ctl).
Fixpoint get_line (n : nat) (x : reader) : P found_t :=
  match n with
  | O => fail OutOfFuel
  | S n' =>
      x ← (if lineDone x || lineMore x then
             fd ← gets in_;
             rd ← call (sys_read fd (IO_MAX_BUFFER - 1));
             mret (mkReader (over (snd rd) (buf x)) 0 (fst rd) (new x) false false (line x))
           else mret x);
      if decide (r_ x = SOS_VFS_EOF) then c ← sosh_exit; mret (Ended c)
      else if decide (r_ x < 0) then
        printf (txt "Console read failed!" ++ nl);;
        printf (txt (sos_error_msg (r_ x)) ++ nl);;
        mret (Failed x)
      else
        b ← of_opt OutOfRange (arr_set (buf x) (r_ x) 0);
        y ← scan_line (set_buf b x);
        if (snd y : bool) then mret (Line (fst y))
        else get_line n' (set_lineMore true (fst y))
  end.

(** A command line that has been read. *)
Definition run_words (argv : list cstr) : P ctl :=
  match argv with
  | [] => return_ 0
  | name :: _ =>
      match list_find (λ c, fst c = name) sosh_commands with
      | Some (_, (_, Some c)) => run_command c argv
      | Some (_, (_, None)) => fail NullDeref
      | None =>
          st ← call (sys_stat name);
          if decide (fst st ≠ 0) then
            printf (txt "Command " ++ quote ++ name ++ quote ++ txt " not found" ++ nl);; return_ 0
          else if negb (has (st_fmode (snd st)) FM_EXEC) then
            printf (txt "File " ++ quote ++ name ++ quote ++ txt " not executable" ++ nl);; return_ 0
          else if decide (31 < length argv)%nat then
            printf (txt "Command line has too many arguments!" ++ nl);; return_ 0
          else exec (txt "exec" :: argv)
      end
  end.

(** The loop of [main]; after a read that failed the shell ends. *)
Fixpoint main_loop (n : nat) (x : reader) : P ctl :=
  match n with
  | O => fail OutOfFuel
  | S n' =>
      when (new x) (printf (txt "$ "));;
      f ← get_line fuel (set_new false x);
      match f with
      | Ended c => mret c
      | Failed _ =>
          fd ← gets in_;
          call (sys_close fd);;
          printf (txt "[SOS Exiting]" ++ nl);;
          return_ 0
      | Line x =>
          l ← of_opt Uninit (line x);
          argv ← split_args (S (length l)) 0 l;
          c ← run_words argv;
          match c with
          | Exited _ => mret c
          | Returned _ => main_loop n' (set_line (Some (cut_line l)) x)
          end
      end
  end.
Definition main : P ctl :=
  fd ← call (sys_open CONSOLE FM_READ);
  modify (set_in fd);;
  if decide (fd < 0) then
    printf (txt (sos_error_msg fd) ++ nl);;
    exitFailure (txt "can't open console for reading")
  else
    printf (nl ++ txt "[SOS Starting]" ++ nl);;
    main_loop fuel (mkReader junk 0 0 true true false None).
End programs.
End Shell.
