(* ===== verification/ShellSpec.v ===== *)
(** * What the shell does

    [Module Words]: a command line is split at its blanks.  [Module Session]:
    the shell against its input, a sequence of blocks of whole lines as the
    console delivers them; the specification runs the commands of the lines one
    after the other.  [Module Script]: a system that gives any
    answers and records the requests.  [Module Tools]: what [cp] and [cat] ask
    for, answer by answer, and that the line editor stays within its arrays. *)
From S2P Require Import Prelude Machine ListC Frames Swapfile State Pagetable Process Reply VfsCore.
From S2P Require Import Console Nfsfs Clock Vfs Lifecycle Elf PagerBase Pager Syscall Shell.
Import SosLib Shell.

Module Words.
(** ** Splitting at blanks *)
(** The pieces between blanks, some of them empty. *)
Fixpoint pieces (s : cstr) : list cstr :=
  match s with
  | [] => [[]]
  | c :: s' =>
      if is_space c then [] :: pieces s'
      else match pieces s' with p :: ps => (c :: p) :: ps | [] => [[c]] end
  end.
Definition words (s : cstr) : list cstr := filter (λ p, p ≠ []) (pieces s).

Lemma pieces_skip s : words (skip_spaces s) = words s.
Proof.
  induction s as [|c s IH]; [done|]. cbn [skip_spaces]. destruct (is_space c) eqn:Hc; [|done].
  rewrite IH. unfold words. cbn [pieces]. by rewrite Hc.
Qed.
Lemma skip_head s c s' : skip_spaces s = c :: s' → is_space c = false.
Proof.
  induction s as [|d s IH]; [done|]. cbn [skip_spaces]. destruct (is_space d) eqn:Hd; [done|].
  by intros [= <- _].
Qed.
Lemma pieces_word s :
  pieces s = match word s with (w, []) => [w] | (w, _ :: rest) => w :: pieces rest end.
Proof.
  induction s as [|c s IH]; [done|]. cbn [pieces word]. destruct (is_space c); [done|].
  rewrite IH. destruct (word s) as [w [|d rest]]; done.
Qed.
Lemma word_length s w rest : word s = (w, rest) → (length rest ≤ length s)%nat.
Proof.
  revert w. induction s as [|c s IH]; intros w; cbn [word]; [by intros [= <- <-]|].
  destruct (is_space c); [by intros [= <- <-]|].
  destruct (word s) as [w' rest'] eqn:Hw. intros [= <- <-]. specialize (IH _ eq_refl). cbn. lia.
Qed.
Lemma skip_length s : (length (skip_spaces s) ≤ length s)%nat.
Proof. induction s as [|c s IH]; [done|]. cbn [skip_spaces]. destruct (is_space c); cbn; lia. Qed.

(** The loop of [main] finds the words, as long as [argv] has room for them. *)
Lemma split_args_run {W} (n : nat) : ∀ argc s (st : sosh (W := W)),
  (length s < n)%nat → 0 ≤ argc → argc + length (words s) ≤ ARGV_SIZE →
  split_args n argc s st = Ok (words s) st.
Proof.
  induction n as [|n IH]; intros argc s st Hn Ha Hw; [lia|]. cbn [split_args].
  rewrite <- pieces_skip in *. pose proof (skip_length s) as Hl.
  destruct (skip_spaces s) as [|c s'] eqn:Hs; [done|]. apply skip_head in Hs.
  destruct (word (c :: s')) as [w rest] eqn:Hwd.
  assert (words (c :: s') = w :: match rest with [] => [] | _ :: rest' => words rest' end) as Hws.
  { unfold words. rewrite pieces_word, Hwd. assert (w ≠ []) as Hne.
    { cbn [word] in Hwd. rewrite Hs in Hwd. destruct (word s'). by injection Hwd as <- _. }
    destruct rest; by rewrite filter_cons, decide_True. }
  pose proof (word_length _ _ _ Hwd) as Hr. rewrite Hws in *. cbn [length] in *.
  rewrite decide_False by (unfold ARGV_SIZE in *; lia).
  destruct rest as [|d rest]; [done|]. cbn [length] in *. erewrite bind_ok; [reflexivity|].
  apply IH; lia.
Qed.

(** ** Round trip *)
Definition plain_word (w : cstr) : Prop := w ≠ [] ∧ Forall (λ c, is_space c = false) w.
(** Words with at least one blank between them and any number before and
    after. *)
Fixpoint spaced (ws : list (cstr * nat)) (before : nat) : cstr :=
  replicate before SPACE ++
  match ws with [] => [] | (w, gap) :: ws' => w ++ match ws' with [] => replicate gap SPACE | _ => spaced ws' (S gap) end end.
Lemma words_spaces n s : words (replicate n SPACE ++ s) = words s.
Proof. induction n as [|n IH]; [done|]. rewrite <- IH. done. Qed.
Lemma word_app w s :
  Forall (λ c, is_space c = false) w → match s with [] => True | c :: _ => is_space c = true end →
  word (w ++ s) = (w, s).
Proof.
  intros Hw Hs. induction Hw as [|c w Hc _ IH]; [|cbn; by rewrite Hc, IH].
  destruct s as [|c s]; [done|]. cbn. by rewrite Hs.
Qed.
Lemma words_app w s :
  plain_word w → match s with [] => True | c :: _ => is_space c = true end →
  words (w ++ s) = w :: words s.
Proof.
  intros [Hne Hw] Hs. unfold words. rewrite pieces_word, word_app by done.
  destruct s as [|c s]; rewrite filter_cons, decide_True by done; [done|].
  f_equal. cbn [pieces]. by rewrite Hs.
Qed.
Lemma words_of_spaced ws : ∀ n,
  Forall (λ w, plain_word (fst w)) ws → words (spaced ws n) = fst <$> ws.
Proof.
  induction ws as [|[w gap] ws IH]; intros n HF; cbn [spaced].
  - by rewrite words_spaces.
  - apply Forall_cons in HF as [Hw HF]. rewrite words_spaces. destruct ws as [|v ws].
    + rewrite words_app; [|done|by destruct gap]. rewrite <- (app_nil_r (replicate _ _)), words_spaces. done.
    + rewrite words_app; [|done|by destruct v]. by rewrite IH.
Qed.
(** A command line of at most [ARGV_SIZE] words, however they are spaced, is
    split into exactly those words. *)
Theorem command_line_roundtrip {W} ws gap (s : sosh (W := W)) :
  Forall (λ w, plain_word (fst w)) ws → length ws ≤ ARGV_SIZE →
  let l := spaced ws gap in split_args (S (length l)) 0 l s = Ok (fst <$> ws) s.
Proof.
  intros Hws Hlen l. subst l. rewrite split_args_run; rewrite ?words_of_spaced, ?length_fmap by done; [done|lia..].
Qed.
End Words.

Module Session.
Import Words.
(** ** The input as lines *)
(** A character that the line editor does not act on. *)
Definition plain_char (c : Z) : bool := bool_decide (c ∉ [0; 3; 4; 8; 10; 127]).
(** The lines of a block that ends with a newline and has no control
    characters. *)
Fixpoint lines_of (b : list Z) : option (list cstr) :=
  match b with
  | [] => Some []
  | c :: b' =>
      ls ← lines_of b';
      if decide (c = 10) then Some ([] :: ls)
      else if plain_char c then match ls with l :: ls' => Some ((c :: l) :: ls') | [] => None end
      else None
  end.
Definition enc (ls : list cstr) : list Z := ls ≫= λ l, l ++ [10].
Definition plain_line (l : cstr) : Prop := Forall (λ c, plain_char c = true) l.

Lemma lines_of_enc b : ∀ ls, lines_of b = Some ls → b = enc ls ∧ Forall plain_line ls.
Proof.
  induction b as [|c b IH]; intros ls; cbn [lines_of]; [by intros [= <-]|].
  destruct (lines_of b) as [ls'|]; [|done]. destruct (IH _ eq_refl) as [-> HF]. cbn.
  case_decide as Hc; [intros [= <-]; subst; split; [done|by repeat constructor]|].
  destruct (plain_char c) eqn:Hp; [|done]. destruct ls' as [|l ls']; [done|]. intros [= <-].
  apply Forall_cons in HF as [Hl HF]. split; [done|]. constructor; [by constructor|done].
Qed.
Lemma plain_char_spec c : plain_char c = true → c ≠ 0 ∧ c ≠ 3 ∧ c ≠ 4 ∧ c ≠ 8 ∧ c ≠ 10 ∧ c ≠ 127.
Proof. unfold plain_char. rewrite bool_decide_eq_true. set_solver. Qed.
Lemma c_string_line l rest : plain_line l → c_string (l ++ 0 :: rest) = l.
Proof.
  induction 1 as [|c l Hc _ IH]; [done|]. apply plain_char_spec in Hc. cbn.
  rewrite decide_False by tauto. by rewrite IH.
Qed.
Lemma enc_length_pos l ls : (0 < length (enc (l :: ls)))%nat.
Proof. unfold enc. cbn. rewrite !length_app. cbn. lia. Qed.

Section session.
Context {W : Type} `{!Sos W} (fuel : nat) (junk : list Z).
Context (time_text : Z → cstr) (alloc : list cstr → M (sosh (W := W)) ctl).
Local Abbreviation P := (M (sosh (W := W))).
Local Abbreviation run := (run_words fuel junk time_text alloc).
Local Abbreviation shell_loop := (main_loop fuel junk time_text alloc).

(** ** The specification *)
Definition prompt : P unit := printf (txt "$ ").
(** The lines of one block, one after the other; [many]: the block has more
    than one, so the shell ends each with a newline of its own. *)
Fixpoint run_lines (many : bool) (ls : list cstr) : P ctl :=
  match ls with
  | [] => return_ 0
  | l :: ls' =>
      when many (printf nl);;
      c ← run (words l);
      match c, ls' with
      | Exited _, _ | _, [] => mret c
      | Returned _, _ => prompt;; run_lines many ls'
      end
  end.
(** What a read must deliver: at least one line, all of them whole, plain and
    of no more than [ARGV_SIZE] words. *)
Definition block (rd : Z * list Z) : option (list cstr) :=
  ls ← lines_of (snd rd);
  if decide (ls ≠ [] ∧ fst rd = length (snd rd) ∧ fst rd < IO_MAX_BUFFER
             ∧ Forall (λ l, Z.of_nat (length (words l)) ≤ ARGV_SIZE) ls)
  then Some ls else None.
(** A session of at most [n] blocks. *)
Fixpoint session (n : nat) : P ctl :=
  match n with
  | O => fail OutOfFuel
  | S n' =>
      prompt;;
      fd ← gets in_;
      rd ← call (sys_read fd (IO_MAX_BUFFER - 1));
      if decide (fst rd = SOS_VFS_EOF) then sosh_exit
      else
        ls ← of_opt OutOfRange (block rd);
        c ← run_lines (bool_decide (1 < length ls)%nat) ls;
        match c with Exited _ => mret c | Returned _ => session n' end
  end.

(** ** Finding a line in the buffer *)
Definition full (x : reader) : Prop := length (buf x) = Z.to_nat IO_MAX_BUFFER.
(** What is left of a block: the lines [ls]. *)
Definition holding (x : reader) (ls : list cstr) : Prop :=
  ∃ pre post, buf x = pre ++ enc ls ++ post ∧ next x = length pre ∧
    r_ x = length pre + length (enc ls) ∧ post ≠ [].

Lemma scan_plain l : ∀ n p x found (s : sosh) rest,
  plain_line l → 0 ≤ p → drop (Z.to_nat p) (buf x) = l ++ rest → p + length l ≤ r_ x →
  scan (length l + n) p x found s = scan n (p + length l) x found s.
Proof.
  induction l as [|c l IH]; intros n p x found s rest Hl Hp Hb Hr;
    [cbn; by rewrite Z.add_0_r|].
  apply Forall_cons in Hl as [Hc Hl]. apply plain_char_spec in Hc. cbn [length] in Hr.
  cbn [length Nat.add scan]. rewrite decide_True by lia.
  assert (buf x !! Z.to_nat p = Some c) as Hget.
  { rewrite <- (Nat.add_0_r (Z.to_nat p)), <- lookup_drop, Hb. done. }
  rewrite (bind_ok _ _ _ _ _ (arr_get_ok _ _ _ s Hp Hget)).
  do 4 rewrite decide_False by tauto.
  rewrite (IH n (p + 1) x found s rest); [f_equal; lia|done|lia| |lia].
  replace (Z.to_nat (p + 1)) with (Z.to_nat p + 1)%nat by lia. by rewrite <- drop_drop, Hb.
Qed.
(** A line and its NUL are copied to [line]. *)
Lemma strncpy_found ol l src rest (s : sosh) :
  src = (l ++ [0]) ++ rest → plain_line l → length l + 1 ≤ IO_MAX_BUFFER →
  strncpy_line (W := W) ol src (w32 (length l + 1)) s = Ok (Some l) s.
Proof.
  intros -> Hl Hmax. change IO_MAX_BUFFER with 1100 in Hmax. unfold strncpy_line.
  rewrite w32_small by (unfold is_word; lia). do 2 rewrite decide_False by (change IO_MAX_BUFFER with 1100; lia).
  replace (Z.to_nat (length l + 1)) with (length (l ++ [0])) by (rewrite length_app; cbn; lia).
  rewrite take_app_length, decide_True by set_solver. by rewrite c_string_line.
Qed.
(** A line that is there is found, and a newline of the shell's own follows
    unless the line is all there was. *)
Lemma scan_line_found x l ls (s : sosh) :
  full x → holding x (l :: ls) → plain_line l →
  ∃ x', holding x' ls ∧ length (buf x') = length (buf x) ∧ new x' = true ∧ line x' = Some l ∧
    lineMore x' = lineMore x ∧
    lineDone x' = lineDone x || bool_decide (length l + 1 = r_ x) ∧ 1 ≤ next x' ∧
    scan_line x s = (when (bool_decide (length l + 1 ≠ r_ x)) (printf nl);; mret (x', true)) s.
Proof.
  intros Hf (pre & post & Hb & Hn & Hr & Hpost) Hl.
  assert (enc (l :: ls) = l ++ 10 :: enc ls) as He by (unfold enc; cbn; by rewrite <- app_assoc).
  rewrite He, length_app in Hr. cbn [length] in Hr. rewrite He, <- app_assoc in Hb.
  set (b := pre ++ (l ++ [0]) ++ enc ls ++ post).
  exists (mkReader b (next x + length l + 1) (r_ x) true
            (lineDone x || bool_decide (length l + 1 = r_ x)) (lineMore x) (Some l)).
  split_and!; [|cbn [buf]; subst b; rewrite Hb, <- !app_assoc, !length_app; cbn; rewrite ?length_app; lia|done..|cbn; lia|].
  { exists (pre ++ l ++ [0]), post. cbn. rewrite !length_app. cbn. subst b. rewrite <- !app_assoc.
    split_and!; [done|lia..|done]. }
  unfold scan_line.
  assert (drop (Z.to_nat (next x)) (buf x) = l ++ 10 :: enc ls ++ post) as Hd.
  { rewrite Hn, Nat2Z.id, Hb. by rewrite drop_app_length. }
  replace (S (Z.to_nat (r_ x - next x))) with (length l + S (S (length (enc ls))))%nat by lia.
  rewrite (scan_plain l _ (next x) x false s _ Hl ltac:(lia) Hd ltac:(lia)). cbn [scan].
  rewrite decide_True by lia.
  assert (buf x !! Z.to_nat (next x + length l) = Some 10) as Hget.
  { rewrite Hb, app_assoc. apply list_lookup_middle. rewrite length_app. lia. }
  erewrite bind_ok; [|apply arr_get_ok; [lia|exact Hget]].
  do 3 rewrite decide_False by lia. rewrite decide_True by done.
  assert (arr_set (buf x) (next x + length l) 0 = Some b) as Hset.
  { rewrite arr_set_ok.
    - f_equal. subst b. rewrite Hb, Hn, <- app_assoc, <- Nat2Z.inj_add, Nat2Z.id.
      rewrite insert_app_r, <- (Nat.add_0_r (length l)), insert_app_r. done.
    - pose proof (lookup_lt_Some _ _ _ Hget). lia. }
  rewrite Hset. erewrite bind_ok by reflexivity. cbv zeta.
  replace (next x + length l - next x + 1) with (length l + 1) by lia.
  erewrite bind_ok; [|eapply strncpy_found].
  2: { rewrite Hn, Nat2Z.id. subst b. by rewrite drop_app_length. }
  2: { done. }
  2: { apply (f_equal length) in Hb. rewrite Hf in Hb. rewrite !length_app in Hb. cbn [length] in Hb. lia. }
  case_decide as Hs.
  - rewrite (bool_decide_eq_false_2 (_ ≠ _)), (bool_decide_eq_true_2 (_ = _)) by lia. cbn. unfold set_lineDone. cbn.
    by rewrite orb_true_r.
  - rewrite (bool_decide_eq_true_2 (_ ≠ _)), (bool_decide_eq_false_2 (_ = _)) by lia. cbn. by rewrite orb_false_r.
Qed.
Lemma scan_line_empty x (s : sosh) : holding x [] → scan_line x s = Ok (x, false) s.
Proof.
  intros (pre & post & _ & Hn & Hr & _). unfold scan_line. cbn [scan].
  rewrite decide_False by (cbn in *; lia). done.
Qed.

(** ** Reading *)
Lemma holding_terminated x ls :
  holding x ls → ∃ b, arr_set (buf x) (r_ x) 0 = Some b ∧ length b = length (buf x) ∧ holding (set_buf b x) ls.
Proof.
  intros (pre & post & Hb & Hn & Hr & Hpost). destruct post as [|c post]; [done|].
  exists (pre ++ enc ls ++ 0 :: post). split_and!.
  - rewrite arr_set_ok by (rewrite Hb, !length_app; cbn; lia). f_equal. rewrite Hb, Hr, <- Nat2Z.inj_add, Nat2Z.id.
    rewrite insert_app_r, <- (Nat.add_0_r (length (enc ls))), insert_app_r. done.
  - rewrite Hb, !length_app. done.
  - by exists pre, (0 :: post).
Qed.
Lemma holding_r x ls : holding x ls → 0 ≤ r_ x.
Proof. intros (pre & post & _ & _ & Hr & _). lia. Qed.

(** A reader that needs no input, or that has just got some. *)
Definition idle (x : reader) : Prop := lineDone x = false ∧ lineMore x = false.
Lemma get_line_have n x l ls (s : sosh) :
  full x → idle x → holding x (l :: ls) → plain_line l →
  ∃ x', holding x' ls ∧ length (buf x') = length (buf x) ∧ new x' = true ∧ line x' = Some l ∧
    lineMore x' = false ∧ lineDone x' = bool_decide (length l + 1 = r_ x) ∧ 1 ≤ next x' ∧
    get_line (S n) x s = (when (bool_decide (length l + 1 ≠ r_ x)) (printf nl);; mret (Line x')) s.
Proof.
  intros Hf [Hd Hm] Hh Hl. destruct (holding_terminated _ _ Hh) as (b & Hset & Hlen & Hh').
  assert (full (set_buf b x)) as Hf' by (unfold full in *; cbn; congruence).
  destruct (scan_line_found _ _ _ s Hf' Hh' Hl) as (x' & ? & ? & ? & ? & HM & HD & ? & Hscan).
  exists x'. cbn in *. rewrite Hd in HD. split_and!; [done|congruence|done|done|congruence|done|done|].
  cbn [get_line]. rewrite Hd, Hm. cbn [orb]. erewrite bind_ok by reflexivity.
  pose proof (holding_r _ _ Hh). change SOS_VFS_EOF with (-1) in *. do 2 rewrite decide_False by lia.
  rewrite Hset. erewrite bind_ok by reflexivity. unfold mbind at 1, M_bind at 1. rewrite Hscan.
  unfold when. case_bool_decide; [|done]. unfold mbind, M_bind. by destruct (printf nl s).
Qed.
Lemma get_line_none n x (s : sosh) :
  idle x → holding x [] →
  ∃ x', length (buf x') = length (buf x) ∧ lineMore x' = true ∧ get_line (S n) x s = get_line n x' s.
Proof.
  intros [Hd Hm] Hh. destruct (holding_terminated _ _ Hh) as (b & Hset & Hlen & Hh').
  exists (set_lineMore true (set_buf b x)). split_and!; [done..|].
  cbn [get_line]. rewrite Hd, Hm. cbn [orb]. erewrite bind_ok by reflexivity.
  pose proof (holding_r _ _ Hh). change SOS_VFS_EOF with (-1) in *. do 2 rewrite decide_False by lia.
  rewrite Hset. erewrite bind_ok by reflexivity.
  erewrite bind_ok by (apply scan_line_empty; exact Hh'). done.
Qed.
(** The reader after [read] returned [rd]. *)
Definition filled (rd : Z * list Z) (x : reader) : reader :=
  mkReader (over (snd rd) (buf x)) 0 (fst rd) (new x) false false (line x).
Lemma get_line_read n x (s : sosh) rd s2 :
  lineDone x || lineMore x = true → call (sys_read (in_ s) (IO_MAX_BUFFER - 1)) s = Ok rd s2 →
  get_line (S n) x s = get_line (S n) (filled rd x) s2.
Proof.
  intros Hx Hrd. cbn [get_line]. rewrite Hx. cbn [orb filled lineDone lineMore].
  erewrite bind_ok; [reflexivity|]. erewrite bind_ok by reflexivity. erewrite bind_ok by exact Hrd. done.
Qed.
Lemma filled_holds rd x ls :
  length (buf x) = Z.to_nat IO_MAX_BUFFER → block rd = Some ls →
  idle (filled rd x) ∧ holding (filled rd x) ls ∧ length (buf (filled rd x)) = Z.to_nat IO_MAX_BUFFER ∧
  ls ≠ [] ∧ Forall plain_line ls ∧ Forall (λ l, Z.of_nat (length (words l)) ≤ ARGV_SIZE) ls.
Proof.
  unfold block. intros Hb. destruct (lines_of (snd rd)) as [ls'|] eqn:Hls; [|done]. cbn.
  case_decide as Hc; [|done]. intros [= ->]. destruct Hc as (Hne & Hr & Hmax & Hw).
  apply lines_of_enc in Hls as [Hdata Hp].
  assert (length (drop (length (snd rd)) (buf x)) ≠ 0%nat) as Hrest by (rewrite length_drop; lia).
  split_and!; [done| |cbn; unfold over; rewrite length_app, length_drop; lia|done..].
  exists [], (drop (length (snd rd)) (buf x)). cbn. unfold over. rewrite <- Hdata. split_and!; [done..|].
  by intros Hnil%length_zero_iff_nil.
Qed.

(** ** Turns *)
(** The body of the loop after the prompt, with the fuel of [get_line] apart. *)
Definition turn (k n : nat) (x : reader) : P ctl :=
  f ← get_line k x;
  match f with
  | Ended c => mret c
  | Failed _ =>
      fd ← gets in_;
      call (sys_close fd);;
      printf (txt "[SOS Exiting]" ++ nl);;
      return_ 0
  | Line x =>
      l ← of_opt Uninit (line x);
      argv ← split_args (S (length l)) 0 l;
      c ← run argv;
      match c with
      | Exited _ => mret c
      | Returned _ => shell_loop n (set_line (Some (cut_line l)) x)
      end
  end.
Lemma shell_loop_turn n x s s1 :
  new x = true → prompt s = Ok tt s1 → shell_loop (S n) x s = turn fuel n (set_new false x) s1.
Proof. intros Hn Hp. cbn [main_loop]. rewrite Hn. by erewrite bind_ok by exact Hp. Qed.

(** What the loop does after a block, or a command of it, returned [c]. *)
Definition after (n : nat) (x : reader) (c : ctl) : P ctl :=
  match c with Exited _ => mret c | Returned _ => shell_loop n x end.
Definition ready (x : reader) : Prop :=
  full x ∧ new x = true ∧ (lineDone x = true ∨ idle x ∧ holding x []).
Definition held (many : bool) (x : reader) (ls : list cstr) : Prop :=
  full x ∧ idle x ∧ holding x ls ∧ Forall plain_line ls ∧
  Forall (λ l, Z.of_nat (length (words l)) ≤ ARGV_SIZE) ls ∧
  (if many then 1 ≤ next x ∨ (1 < length ls)%nat else next x = 0 ∧ length ls = 1%nat).

Lemma turn_line k x l ls many s c s1 s2 :
  held many x (l :: ls) → when many (printf nl) s = Ok tt s1 → run (words l) s1 = Ok c s2 →
  ∃ x', full x' ∧ new x' = true ∧ holding x' ls ∧ lineMore x' = false ∧ lineDone x' = negb many ∧
    1 ≤ next x' ∧ ∀ n, turn (S k) n x s = after n x' c s2.
Proof.
  intros (Hf & Hi & Hh & Hp & Hw & Hm) Hnl Hrun.
  apply Forall_cons in Hp as [Hl Hp]. apply Forall_cons in Hw as [Hwl Hw].
  destruct (get_line_have k x l ls s Hf Hi Hh Hl) as (x' & ? & Hlen & ? & Hline & ? & HD & ? & Hget).
  assert (bool_decide (length l + 1 = r_ x) = negb many) as Hmany.
  { destruct Hh as (pre & post & _ & Hn & Hr & _).
    assert (length (enc (l :: ls)) = length l + 1 + length (enc ls))%nat as He
      by (unfold enc; cbn; rewrite !length_app; done).
    rewrite He in Hr. destruct many; [apply bool_decide_eq_false_2|apply bool_decide_eq_true_2].
    - destruct Hm as [|Hls]; [lia|]. destruct ls as [|l' ls]; [cbn in Hls; lia|].
      pose proof (enc_length_pos l' ls). lia.
    - destruct Hm as [Hz Hls]. destruct ls; [cbn in *; lia|done]. }
  exists (set_line (Some (cut_line l)) x').
  split_and!; [unfold full in *; cbn; lia|done..|by cbn; rewrite HD|done|].
  intros n. unfold turn. erewrite bind_ok.
  2: { rewrite Hget, bool_decide_not, Hmany, negb_involutive. by erewrite bind_ok by exact Hnl. }
  cbv beta iota. rewrite Hline. erewrite bind_ok by reflexivity.
  erewrite bind_ok by (apply split_args_run; lia). by erewrite bind_ok by exact Hrun.
Qed.

(** ** Blocks *)
Lemma turn_block many ls : ∀ k x s c s',
  (1 ≤ k)%nat → (1 ≤ fuel)%nat → ls ≠ [] → held many x ls → run_lines many ls s = Ok c s' →
  ∃ N x', ready x' ∧ ∀ n, turn k (N + n) x s = after n x' c s'.
Proof.
  induction ls as [|l ls IH]; intros k x s c s' Hk Hfuel Hne Hh Hr; [done|].
  destruct k as [|k]; [lia|]. cbn [run_lines] in Hr.
  apply bind_inv in Hr as ([] & s1 & Hnl & Hr). apply bind_inv in Hr as (c1 & s2 & Hrun & Hr).
  destruct (turn_line k x l ls many s c1 s1 s2 Hh Hnl Hrun)
    as (x' & Hf & Hn & Hh' & HM & HD & Hnx & Hturn).
  destruct c1 as [r|st], ls as [|l' ls].
  - injection Hr as <- <-. exists 0%nat, x'. split; [|done]. unfold ready, idle. destruct many; cbn in HD; auto 10.
  - apply bind_inv in Hr as ([] & s3 & Hpr & Hr).
    destruct Hh as (_ & _ & _ & Hp & Hw & Hm). destruct many; [|destruct Hm; done].
    apply Forall_cons in Hp as [_ Hp]. apply Forall_cons in Hw as [_ Hw].
    destruct (IH fuel (set_new false x') s3 c s') as (N & x'' & Hready & Hx''); [done..| |done|].
    { unfold held, full, idle in *. auto 10. }
    exists (S N), x''. split; [done|]. intros n. rewrite Hturn. cbn [after Nat.add].
    by rewrite (shell_loop_turn _ _ _ _ Hn Hpr).
  - injection Hr as <- <-. exists 0%nat, (set_lineDone true x'). split; [|done]. unfold ready. auto.
  - injection Hr as <- <-. exists 0%nat, (set_lineDone true x'). split; [|done]. unfold ready. auto.
Qed.
(** A shell that is ready reads the next block. *)
Lemma turn_reads x s rd s1 :
  (2 ≤ fuel)%nat → ready x → call (sys_read (in_ s) (IO_MAX_BUFFER - 1)) s = Ok rd s1 →
  ∃ k x', (1 ≤ k)%nat ∧ full x' ∧ ∀ n, turn fuel n (set_new false x) s = turn k n (filled rd x') s1.
Proof.
  intros Hfuel (Hf & _ & Hx) Hrd. destruct fuel as [|[|k]]; [lia..|]. destruct Hx as [Hx|[Hi Hh]].
  - exists (S (S k)), (set_new false x). split_and!; [lia|done|]. intros n. unfold turn.
    unfold mbind at 1 3, M_bind. erewrite get_line_read; [reflexivity|cbn; by rewrite Hx|exact Hrd].
  - destruct (get_line_none (S k) (set_new false x) s) as (x' & Hlen & Hm & Hget); [done..|].
    exists (S k), x'. split_and!; [lia|unfold full in *; cbn in *; congruence|]. intros n. unfold turn.
    unfold mbind at 1 3, M_bind. rewrite Hget.
    erewrite get_line_read; [reflexivity|by rewrite Hm, orb_true_r|exact Hrd].
Qed.

(** C14: The shell does what the specification says: each block of whole lines is
    taken line by line, every line is split into words and run, with one prompt
    before each, until a command ends the shell or the input ends. *)
Theorem sosh_session : ∀ n x s c s',
  (2 ≤ fuel)%nat → ready x → session n s = Ok c s' →
  ∃ N, ∀ m, (N ≤ m)%nat → shell_loop m x s = Ok c s'.
Proof.
  induction n as [|n IH]; intros x s c s' Hfuel Hx Hs; [done|]. cbn [session] in Hs.
  apply bind_inv in Hs as ([] & s1 & Hp & Hs). apply bind_inv in Hs as (fd & s1' & Hfd & Hs).
  injection Hfd as <- <-. apply bind_inv in Hs as (rd & s2 & Hrd & Hs).
  destruct (turn_reads x s1 rd s2 Hfuel Hx Hrd) as (k & x1 & Hk & Hf & Hturn).
  assert (new x = true) as Hn by apply Hx. destruct k as [|k]; [lia|]. case_decide as He.
  - exists 1%nat. intros [|m] Hm; [lia|]. rewrite (shell_loop_turn _ _ _ _ Hn Hp), Hturn.
    unfold turn. cbn [get_line filled lineDone lineMore orb]. erewrite bind_ok; [|].
    2: { erewrite bind_ok by reflexivity. cbn [r_]. rewrite decide_True by done.
         by erewrite bind_ok by exact Hs. }
    done.
  - destruct (block rd) as [ls|] eqn:Hb; [|done]. erewrite bind_ok in Hs by reflexivity.
    apply bind_inv in Hs as (c1 & s3 & Hrun & Hs).
    destruct (filled_holds rd x1 ls Hf Hb) as (Hi & Hh & Hf' & Hne & Hpl & Hw).
    destruct (turn_block (bool_decide (1 < length ls)%nat) ls (S k) (filled rd x1) s2 c1 s3)
      as (N & x2 & Hready & Hblock); [lia|lia|done| |done|].
    { unfold held. split_and!; try done. case_bool_decide; [by right|]. split; [done|].
      destruct ls as [|? [|]]; cbn in *; [done|done|lia]. }
    destruct c1 as [r|st].
    + destruct (IH x2 s3 c s' Hfuel Hready Hs) as (N' & HN'). exists (S (N + N')).
      intros [|m] Hm; [lia|]. rewrite (shell_loop_turn _ _ _ _ Hn Hp), Hturn.
      replace m with (N + (m - N))%nat by lia. rewrite Hblock. apply HN'. lia.
    + injection Hs as <- <-. exists (S N). intros [|m] Hm; [lia|].
      rewrite (shell_loop_turn _ _ _ _ Hn Hp), Hturn. replace m with (N + (m - N))%nat by lia.
      by rewrite Hblock.
Qed.
End session.
End Session.

Module Script.
(** ** A scripted system *)
(** The environment of a program as the answers it gives, whatever they are, and
    the requests it has got.  Of an answer each call uses the part it returns:
    the result, the bytes or name that are stored in the caller's buffer, the
    status of a file.  The thread's own id does not change, and printing takes
    no answer. *)
Record answer := mkAnswer { a_num : Z; a_bytes : list Z; a_stat : stat_t }.
Inductive request :=
  | Open (path : cstr) (mode : Z)
  | Close (fd : Z)
  | Read (fd nbyte : Z)
  | Write (fd : Z) (data : list Z)
  | Stat (path : cstr)
  | Getdirent (pos nbyte : Z)
  | Fremove (path : cstr)
  | Create2 (path : cstr) (fdout fderr fdin : Z)
  | Wait (pid : Z)
  | Delete (pid : Z)
  | Usleep (usec : Z)
  | Kprint (text : cstr)
  | Print (text : cstr).
Record script := mkScript { self : Z; answers : list answer; asked : list request }.
Definition note (rs : list request) (w : script) : script := mkScript (self w) (answers w) (asked w ++ rs).
(** A request that nobody answers is where a script ends. *)
Definition ask {A} (r : request) (f : answer → A) : M script A := λ w,
  match answers w with
  | a :: as_ => Ok (f a) (mkScript (self w) as_ (asked w ++ [r]))
  | [] => Err Uninit
  end.
#[export] Instance script_sos : Sos script := {|
  sys_open p m := ask (Open p m) a_num;
  sys_close fd := ask (Close fd) a_num;
  sys_read fd n := ask (Read fd n) (λ a, (a_num a, a_bytes a));
  sys_write fd d := ask (Write fd d) a_num;
  sys_stat p := ask (Stat p) (λ a, (a_num a, a_stat a));
  sys_getdirent i n := ask (Getdirent i n) (λ a, (a_num a, a_bytes a));
  sys_fremove p := ask (Fremove p) a_num;
  sys_process_create2 p o e i := ask (Create2 p o e i) a_num;
  sys_process_wait i := ask (Wait i) a_num;
  sys_process_delete i := ask (Delete i) a_num;
  sys_my_id w := Ok (self w) w;
  sys_usleep t := ask (Usleep t) (λ _, tt);
  sys_kprint t w := Ok tt (note [Kprint t] w);
  sys_printf t w := Ok (Z.of_nat (length t)) (note [Print t] w)
|}.
Definition no_stat : stat_t := mkStat 0 0 0 0 0 0 0.
Definition num (r : Z) : answer := mkAnswer r [] no_stat.
Definition got (data : list Z) : answer := mkAnswer (Z.of_nat (length data)) data no_stat.

(** ** Running on a script *)
Local Abbreviation prog := (sosh (W := script)).
(** The state of a program: the answers to come and the requests made. *)
Definition at_ (s : prog) (as_ : list answer) (rs : list request) : prog :=
  mkSosh (mkScript (self (world s)) as_ (asked (world s) ++ rs)) (in_ s).
Lemma at_nil s : at_ s (answers (world s)) [] = s.
Proof. destruct s as [[]]. unfold at_. cbn. by rewrite app_nil_r. Qed.
Lemma ask_at {A B} r (f : answer → A) (k : A → M prog B) s a as_ rs :
  (call (ask r f) ≫= k) (at_ s (a :: as_) rs) = k (f a) (at_ s as_ (rs ++ [r])).
Proof.
  erewrite bind_ok; [reflexivity|]. unfold call, ask, at_. cbn.
  unfold zoom, set_world. cbn. by rewrite app_assoc.
Qed.
Lemma printf_at {B} t (k : unit → M prog B) s as_ rs :
  (printf t ≫= k) (at_ s as_ rs) = k tt (at_ s as_ (rs ++ [Print t])).
Proof.
  erewrite bind_ok; [reflexivity|]. unfold printf, call, zoom, note, at_, set_world. cbn.
  unfold mbind, M_bind. cbn. by rewrite app_assoc.
Qed.
Lemma kprint_at t s as_ rs : call (sys_kprint t) (at_ s as_ rs) = Ok tt (at_ s as_ (rs ++ [Kprint t])).
Proof. unfold call, zoom, at_, set_world, note. cbn. unfold note. cbn. by rewrite app_assoc. Qed.
Lemma at_at s as_ rs as' rs' : at_ (at_ s as_ rs) as' rs' = at_ s as' (rs ++ rs').
Proof. unfold at_. cbn. by rewrite app_assoc. Qed.
End Script.

Module Tools.
Import Script Session.
Section tools.
Context (fuel : nat) (junk : list Z).
Local Abbreviation prog := (sosh (W := script)).

(** ** Copying *)
(** Reads that delivered something, each with what was then the result of
    writing it; a read gives no more than it was asked for. *)
Definition passes (limit : Z) (cs : list (list Z * Z)) : Prop :=
  Forall (λ c, fst c ≠ [] ∧ length (fst c) ≤ limit) cs.
Definition pass_answers (cs : list (list Z * Z)) : list answer := cs ≫= λ c, [got (fst c); num (snd c)].
(** Each read is followed by a write of exactly the bytes that it gave. *)
Definition pass_requests (fd fd_out limit : Z) (cs : list (list Z * Z)) : list request :=
  cs ≫= λ c, [Read fd limit; Write fd_out (fst c)].
(** The result of the last write, [nw] if there was none. *)
Definition last_write (nw : Z) (cs : list (list Z * Z)) : Z := foldl (λ _ c, snd c) nw cs.
Definition read_failed (r : Z) : bool := bool_decide (r ≠ SOS_VFS_EOF ∧ r < 0).

Lemma over_take data b : take (length data) (over data b) = data.
Proof. apply take_app_length. Qed.
Lemma cp_loop_calls fd fd_out n : ∀ cs b nw r s rest rs,
  (length cs < n)%nat → passes IO_MAX_BUFFER cs → r ≤ 0 →
  cp_loop n fd fd_out b nw (at_ s (pass_answers cs ++ num r :: rest) rs) =
  Ok (r, last_write nw cs) (at_ s rest (rs ++ pass_requests fd fd_out IO_MAX_BUFFER cs ++ [Read fd IO_MAX_BUFFER])).
Proof.
  induction n as [|n IH]; intros cs b nw r s rest rs Hn Hcs Hr; [lia|].
  cbn [cp_loop]. destruct cs as [|[d w] cs].
  - cbn [pass_answers mbind list_bind app]. cbn [sys_read script_sos]. rewrite ask_at. cbn [fst num a_num].
    by rewrite decide_False by lia.
  - apply Forall_cons in Hcs as [[Hd Hl] Hcs]. cbn [fst snd length] in *.
    change (pass_answers ((d, w) :: cs)) with (got d :: num w :: pass_answers cs).
    assert (length d ≠ 0%nat) by (by destruct d).
    cbn [app sys_read sys_write script_sos]. rewrite ask_at. cbn [fst snd got a_num a_bytes].
    rewrite decide_True, Nat2Z.id, over_take by lia. rewrite ask_at. cbn [num a_num].
    rewrite IH by (done || lia). do 2 f_equal. by rewrite <- !app_assoc.
Qed.

(** What [cp f1 f2] asks for, answer by answer, and what it returns. *)
Inductive cp_run (f1 f2 : cstr) : list answer → list request → Z → Prop :=
  | cp_no_source e : e < 0 →
      cp_run f1 f2 [num e]
        [Open f1 FM_READ; Print (f1 ++ txt " cannot be opened: " ++ txt (sos_error_msg e) ++ nl)] 1
  | cp_no_target fd e c : 0 ≤ fd → e < 0 →
      cp_run f1 f2 [num fd; num e; num c]
        [Open f1 FM_READ; Open f2 FM_WRITE;
         Print (f2 ++ txt " cannot be opened: " ++ txt (sos_error_msg fd) ++ nl); Close fd] 1
  | cp_copied fd fd_out cs r c1 c2 : 0 ≤ fd → 0 ≤ fd_out → passes IO_MAX_BUFFER cs → r ≤ 0 →
      let failed := read_failed r || bool_decide (last_write 0 cs < 0) in
      cp_run f1 f2 ([num fd; num fd_out] ++ pass_answers cs ++ [num r; num c1; num c2])
        ([Open f1 FM_READ; Open f2 FM_WRITE] ++ pass_requests fd fd_out IO_MAX_BUFFER cs ++
         [Read fd IO_MAX_BUFFER; Close fd; Close fd_out] ++
         (if failed then [Print (txt "error on cp: " ++ txt (sos_error_msg fd) ++ nl)] else []))
        (if failed then 1 else 0).
Lemma pass_answers_length cs : (length cs ≤ length (pass_answers cs))%nat.
Proof. induction cs as [|c cs IH]; [done|]. cbn. unfold pass_answers in IH. cbn in IH. lia. Qed.

(** C15: With any answers of the system, of the length and kind that a run of
    [cp] takes, [cp] returns after exactly these requests: it opens both files,
    passes the bytes of each read on in one write until a read gives nothing
    more, and closes both.  It returns 1 if an open, the last read or the last
    write failed and 0 otherwise; no other result is looked at. *)
Theorem cp_calls name f1 f2 as_ rs r rest s :
  cp_run f1 f2 as_ rs r → (length as_ ≤ fuel)%nat →
  cp fuel junk [name; f1; f2] (at_ s (as_ ++ rest) []) = Ok (Returned r) (at_ s rest rs).
Proof.
  intros Hrun Hfuel. unfold cp. cbn [sys_open sys_close script_sos].
  destruct Hrun as [e He|fd e c Hfd He|fd fd_out cs r c1 c2 Hfd Hout Hcs Hr failed]; cbn [app];
    rewrite ask_at; cbn [num a_num].
  - rewrite decide_True by done. by rewrite printf_at.
  - rewrite decide_False, ask_at by lia. cbn [num a_num]. rewrite decide_True by done.
    by rewrite printf_at, ask_at.
  - rewrite decide_False, ask_at by lia. cbn [num a_num]. rewrite decide_False, <- app_assoc by lia. cbn [app].
    pose proof (pass_answers_length cs) as Hl. rewrite !length_app in Hfuel. cbn [length] in Hfuel.
    erewrite bind_ok by (apply cp_loop_calls; [lia|done..]). cbv beta iota.
    unfold failed, read_failed. destruct (_ || _); rewrite !ask_at, ?printf_at; unfold return_, mret, M_ret;
      do 2 f_equal; cbn [app]; by rewrite <- ?app_assoc.
Qed.

(** ** Printing a file *)
Lemma over_length data b : (length data ≤ length b)%nat → length (over data b) = length b.
Proof. unfold over. rewrite length_app, length_drop. lia. Qed.
(** The terminating NUL is written after the bytes that were read. *)
Lemma terminated data b : (length data < length b)%nat →
  ∃ b', arr_set (over data b) (length data) 0 = Some b' ∧ length b' = length b ∧
    take (length data) b' = data.
Proof.
  intros Hl. rewrite arr_set_ok by (rewrite over_length; lia). eexists. split; [done|].
  rewrite length_insert, over_length, Nat2Z.id, take_insert_ge, over_take by lia. done.
Qed.
(** The loop of [cat] goes through passes whose writes all succeeded. *)
Lemma cat_loop_passes fd n : ∀ m cs b nw s rest rs,
  length b = Z.to_nat IO_MAX_BUFFER → passes (IO_MAX_BUFFER - 1) cs → Forall (λ c, 0 ≤ snd c) cs →
  n = (length cs + m)%nat →
  ∃ b', length b' = Z.to_nat IO_MAX_BUFFER ∧
    cat_loop n fd b nw (at_ s (pass_answers cs ++ rest) rs) =
    cat_loop m fd b' (last_write nw cs)
      (at_ s rest (rs ++ pass_requests fd stdout_fd (IO_MAX_BUFFER - 1) cs)).
Proof.
  induction n as [|n IH]; intros m cs b nw s rest rs Hb Hcs Hw Hn; destruct cs as [|[d w] cs];
    cbn [length] in Hn; try lia.
  - exists b. assert (m = 0%nat) as -> by lia. cbn. by rewrite app_nil_r.
  - exists b. assert (m = S n) as -> by lia. split; [done|]. cbn [pass_answers pass_requests mbind list_bind app last_write foldl].
    by rewrite app_nil_r.
  - apply Forall_cons in Hcs as [[Hd Hl] Hcs]. apply Forall_cons in Hw as [Hw0 Hw]. cbn [fst snd] in *.
    assert (length d ≠ 0%nat) by (by destruct d). change IO_MAX_BUFFER with 1100 in *.
    destruct (terminated d b) as (b' & Hset & Hb' & Htake); [lia|].
    destruct (IH m cs b' w s rest (rs ++ [Read fd (1100 - 1); Write stdout_fd d])) as (b'' & Hb'' & Hrun);
      [lia|done..|lia|].
    exists b''. split; [done|]. change (pass_answers ((d, w) :: cs)) with (got d :: num w :: pass_answers cs).
    cbn [cat_loop app sys_read sys_write script_sos]. change IO_MAX_BUFFER with 1100. rewrite ask_at.
    cbn [fst snd got a_num a_bytes]. rewrite decide_True by lia. rewrite Hset.
    erewrite bind_ok by reflexivity. rewrite Nat2Z.id, Htake, ask_at. cbn [num a_num].
    rewrite decide_False, <- app_assoc by lia. cbn [app]. rewrite Hrun. do 2 f_equal. by rewrite <- app_assoc.
Qed.
Lemma last_write_pos cs : Forall (λ c, 0 ≤ snd c) cs → ∀ nw, 0 ≤ nw → 0 ≤ last_write nw cs.
Proof. induction 1 as [|c cs Hc _ IH]; intros nw Hnw; [done|]. by apply IH. Qed.

(** What [cat f] asks for and what it returns: it stops at the first write that
    fails. *)
Definition report (what : string) (how : string) (log : string) (e : Z) : list request :=
  [Print (txt "cat failed: error on " ++ txt what ++ txt " (" ++ dec e ++ txt ")" ++ nl);
   Print (txt "Can't " ++ txt how ++ txt " file: " ++ txt (sos_error_msg e) ++ nl);
   Kprint (txt "error on " ++ txt log ++ nl)].
Inductive cat_run (f : cstr) : list answer → list request → Z → Prop :=
  | cat_no_file e : e < 0 →
      cat_run f [num e] [Open f FM_READ; Print (f ++ txt " cannot be opened" ++ nl)] 1
  | cat_shown fd cs r c : 0 ≤ fd → passes (IO_MAX_BUFFER - 1) cs → Forall (λ c, 0 ≤ snd c) cs → r ≤ 0 →
      cat_run f ([num fd] ++ pass_answers cs ++ [num r; num c])
        ([Open f FM_READ] ++ pass_requests fd stdout_fd (IO_MAX_BUFFER - 1) cs ++
         [Read fd (IO_MAX_BUFFER - 1); Close fd] ++ (if read_failed r then report "read" "read" "read" r else []))
        (if read_failed r then 1 else 0)
  | cat_stopped fd cs d w c : 0 ≤ fd → passes (IO_MAX_BUFFER - 1) (cs ++ [(d, w)]) →
      Forall (λ c, 0 ≤ snd c) cs → w < 0 →
      cat_run f ([num fd] ++ pass_answers cs ++ [got d; num w; num c])
        ([Open f FM_READ] ++ pass_requests fd stdout_fd (IO_MAX_BUFFER - 1) cs ++
         [Read fd (IO_MAX_BUFFER - 1); Write stdout_fd d; Close fd] ++ report "print" "print" "write" w)
        1.
(** [cat] writes the bytes of each read to its standard output until a read gives
    nothing more or a write fails, closes the file, and returns 1 after a failure
    and 0 otherwise. *)
Theorem cat_calls name f as_ rs r rest s :
  length junk = Z.to_nat IO_MAX_BUFFER → cat_run f as_ rs r → (length as_ ≤ fuel)%nat →
  cat fuel junk [name; f] (at_ s (as_ ++ rest) []) = Ok (Returned r) (at_ s rest rs).
Proof.
  intros Hj Hrun Hfuel. unfold cat. cbn [sys_open sys_close script_sos].
  destruct Hrun as [e He|fd cs r c Hfd Hcs Hw Hr|fd cs d w c Hfd Hcs Hw Hneg]; cbn [app];
    rewrite ask_at; cbn [num a_num].
  - rewrite decide_True by done. by rewrite printf_at.
  - rewrite decide_False, <- app_assoc by lia. cbn [app].
    pose proof (pass_answers_length cs) as Hl. rewrite !length_app in Hfuel. cbn [length] in Hfuel.
    destruct (cat_loop_passes fd fuel (fuel - length cs) cs junk 0 s (num r :: num c :: rest) [Open f FM_READ])
      as (b & Hb & Hloop); [done..|lia|].
    pose proof (last_write_pos cs Hw 0 ltac:(done)) as Hpos.
    destruct (fuel - length cs)%nat as [|m] eqn:Hm; [lia|].
    erewrite bind_ok; last first.
    { rewrite Hloop. cbn [cat_loop sys_read script_sos]. rewrite ask_at. cbn [fst num a_num].
      rewrite decide_False by lia. reflexivity. }
    cbv beta iota zeta. rewrite ask_at. fold (read_failed r).
    rewrite (bool_decide_eq_false_2 (_ < 0)) by lia. rewrite orb_false_r.
    destruct (read_failed r); cbn [when].
    + erewrite bind_ok by (rewrite !printf_at; apply kprint_at).
      erewrite bind_ok by reflexivity. unfold return_, mret, M_ret. do 2 f_equal. cbn [app]. by rewrite <- !app_assoc.
    + erewrite bind_ok by reflexivity. erewrite bind_ok by reflexivity. unfold return_, mret, M_ret. do 2 f_equal.
      cbn [app]. by rewrite <- !app_assoc.
  - rewrite decide_False, <- app_assoc by lia. cbn [app].
    apply Forall_app in Hcs as [Hcs [[Hd Hdl] _]%Forall_cons]. cbn [fst] in *.
    pose proof (pass_answers_length cs) as Hl. rewrite !length_app in Hfuel. cbn [length] in Hfuel.
    destruct (cat_loop_passes fd fuel (fuel - length cs) cs junk 0 s (got d :: num w :: num c :: rest) [Open f FM_READ])
      as (b & Hb & Hloop); [done..|lia|].
    destruct (fuel - length cs)%nat as [|m] eqn:Hm; [lia|].
    assert (length d ≠ 0%nat) by (by destruct d).
    destruct (terminated d b) as (b' & Hset & _ & Htake); [change IO_MAX_BUFFER with 1100 in *; lia|].
    erewrite bind_ok; last first.
    { rewrite Hloop. cbn [cat_loop sys_read sys_write script_sos]. rewrite ask_at. cbn [fst snd got a_num a_bytes].
      rewrite decide_True, Hset by lia. erewrite bind_ok by reflexivity. rewrite Nat2Z.id, Htake, ask_at.
      cbn [num a_num]. rewrite decide_True by done. reflexivity. }
    cbv beta iota zeta. rewrite ask_at. rewrite (bool_decide_eq_false_2 (_ ∧ _)) by lia.
    rewrite (bool_decide_eq_true_2 (w < 0)) by done. cbn [when orb].
    erewrite bind_ok by reflexivity. erewrite bind_ok by (rewrite !printf_at; apply kprint_at).
    unfold return_, mret, M_ret. do 2 f_equal. cbn [app]. by rewrite <- !app_assoc.
Qed.

(** ** The line editor *)
(** What the editor keeps of [main]'s variables: both arrays are as long as they
    are declared, [r] is an index of the buffer, what lies before [next] ends
    with the NUL of the last line, and what is in [line] fits. *)
Record editor_ok (x : reader) : Prop := {
  eo_full : full x;
  eo_r : 0 ≤ r_ x < IO_MAX_BUFFER;
  eo_next : 0 ≤ next x;
  eo_before : next x = 0 ∨ buf x !! Z.to_nat (next x - 1) = Some 0;
  eo_line : ∀ l, line x = Some l → length l < IO_MAX_BUFFER
}.
(** Printing, and nothing else. *)
Definition printed (ts : list cstr) (s : prog) : prog := at_ s (answers (world s)) (Print <$> ts).
Lemma printed_nil s : printed [] s = s.
Proof. apply at_nil. Qed.
Lemma printed_app ts ts' s : printed ts' (printed ts s) = printed (ts ++ ts') s.
Proof. unfold printed. by rewrite at_at, fmap_app. Qed.
Lemma printf_printed {B} t (k : unit → M prog B) s : (printf t ≫= k) s = k tt (printed [t] s).
Proof. rewrite <- (at_nil s) at 1. by rewrite printf_at. Qed.

(** A read of [n] bytes makes the buffer ready to be searched, and the NUL that
    is written after the input does not change that. *)
Lemma editor_ok_filled data x :
  full x → (∀ l, line x = Some l → length l < IO_MAX_BUFFER) → length data < IO_MAX_BUFFER →
  editor_ok (filled (Z.of_nat (length data), data) x).
Proof.
  intros Hf Hl Hd. unfold full in Hf. split; cbn [filled buf next r_ line fst snd]; [|lia|done|by left|done].
  unfold full. cbn [filled buf snd]. rewrite over_length; [done|lia].
Qed.
Lemma editor_ok_terminated x :
  editor_ok x → ∃ b, arr_set (buf x) (r_ x) 0 = Some b ∧ editor_ok (set_buf b x).
Proof.
  intros [Hf Hr Hn Hb Hl]. unfold full in *. rewrite arr_set_ok by lia. eexists. split; [done|].
  split; try done; cbn.
  - unfold full. cbn. by rewrite length_insert.
  - destruct Hb as [|Hb]; [by left|]. right. destruct (decide (Z.to_nat (r_ x) = Z.to_nat (next x - 1))) as [->|].
    + apply list_lookup_insert_eq. by eapply lookup_lt_Some.
    + by rewrite list_lookup_insert_ne.
Qed.
Lemma c_string_length b : (length (c_string b) ≤ length b)%nat.
Proof. induction b as [|c b IH]; [done|]. cbn. case_decide; cbn; lia. Qed.
Lemma c_string_shorter b : 0 ∈ b → (length (c_string b) < length b)%nat.
Proof.
  induction b as [|c b IH]; [by intros ?%elem_of_nil|]. cbn. case_decide; [cbn; lia|].
  intros [?|Hb]%elem_of_cons; [congruence|]. specialize (IH Hb). cbn. lia.
Qed.
(** The copy of a line stays within [line]. *)
Lemma strncpy_fits ol src (n : nat) (s : prog) :
  src !! n = Some 0 → n < IO_MAX_BUFFER →
  ∃ l, strncpy_line ol src (w32 (n + 1)) s = Ok (Some l) s ∧ length l < IO_MAX_BUFFER.
Proof.
  intros Hsrc Hn. change IO_MAX_BUFFER with 1100 in *. unfold strncpy_line.
  rewrite w32_small by (unfold is_word; lia). change IO_MAX_BUFFER with 1100. do 2 rewrite decide_False by lia.
  assert (0 ∈ take (Z.to_nat (n + 1)) src) as H0.
  { apply (list_elem_of_lookup_2 _ n). rewrite lookup_take_lt by lia. done. }
  rewrite decide_True by done. eexists. split; [done|]. apply c_string_shorter in H0.
  rewrite length_take in H0. lia.
Qed.
(** A character that the editor acts on is not before [next]. *)
Lemma not_before x p c :
  editor_ok x → 0 ≤ p → next x - 1 ≤ p → buf x !! Z.to_nat p = Some c → c ≠ 0 → next x ≤ p.
Proof.
  intros Hx Hp Hnp Hc Hne. destruct (decide (next x ≤ p)); [done|]. destruct (eo_before _ Hx) as [|H0]; [lia|].
  replace (next x - 1) with p in H0 by lia. congruence.
Qed.

Lemma scan_returns (n : nat) : ∀ p x found s,
  editor_ok x → 0 ≤ p → next x - 1 ≤ p → Z.max 0 (r_ x - p) < n →
  ∃ y b ts, scan n p x found s = Ok (y, b) (printed ts s) ∧ editor_ok y ∧ r_ y ≤ r_ x.
Proof.
  induction n as [|n IH]; intros p x found s Hx Hp Hnp Hn; [lia|]. cbn [scan].
  pose proof Hx as [Hf Hr Hnx Hb Hl]. unfold full in Hf.
  case_decide as Hlt; [|exists x, found, []; rewrite printed_nil; done].
  destruct (lookup_lt_is_Some_2 (buf x) (Z.to_nat p)) as [c Hc]; [lia|].
  erewrite bind_ok by (by apply arr_get_ok). pose proof (not_before x p c Hx Hp Hnp Hc) as Hge.
  case_decide; [|case_decide; [|case_decide; [case_decide|case_decide]]].
  - rewrite printf_printed. eexists _, _, _. split; [done|]. split; [by split|done].
  - apply IH; [done|lia..].
  - rewrite printf_printed. destruct (IH (p - 1) (set_r (r_ x - 2) x) found (printed [[8; 32; 8]] s))
      as (y & b & ts & Hs & Hy & Hry); [split; cbn; (done || lia)|lia|cbn; lia|cbn; lia|].
    rewrite printed_app in Hs. eexists _, _, _. split; [exact Hs|]. cbn in Hry. split; [done|lia].
  - destruct (IH p (set_r (r_ x - 1) x) found s) as (y & b & ts & Hs & Hy & Hry);
      [split; cbn; (done || lia)|lia|cbn; lia|cbn; lia|].
    eexists _, _, _. split; [exact Hs|]. cbn in Hry. split; [done|lia].
  - subst c. rewrite arr_set_ok by lia. erewrite bind_ok by reflexivity. cbv zeta.
    set (b := <[Z.to_nat p := 0]> (buf x)).
    assert (b !! Z.to_nat p = Some 0) as Hnul by (apply list_lookup_insert_eq; lia).
    destruct (strncpy_fits (line x) (drop (Z.to_nat (next x)) b) (Z.to_nat (p - next x)) s) as (l & Hcpy & Hfit);
      [rewrite lookup_drop; rewrite <- Hnul; f_equal; lia|lia|].
    replace (Z.to_nat (p - next x) + 1) with (p - next x + 1) in Hcpy by lia.
    erewrite bind_ok by exact Hcpy.
    assert (editor_ok (mkReader b (p + 1) (r_ x) true (lineDone x) (lineMore x) (Some l))) as Hok.
    { split; cbn; [unfold full, b; cbn; by rewrite length_insert|lia|lia| |by intros ? [= <-]].
      right. by replace (p + 1 - 1) with p by lia. }
    case_decide.
    + eexists _, _, []. rewrite printed_nil. split; [done|]. split; [|done]. by destruct Hok; split.
    + rewrite printf_printed. eexists _, _, _. split; [done|]. split; [exact Hok|done].
  - apply IH; [done|lia..].
Qed.
(** C16: Whatever bytes the buffer holds, control characters included, the search
    for a line ends, reads and writes the buffer only within its bounds, copies no
    more to [line] than fits, and prints and does nothing else; what it relies on
    holds again for the next search. *)
Theorem line_editor_safe x s :
  editor_ok x →
  ∃ y found ts, scan_line x s = Ok (y, found) (printed ts s) ∧ editor_ok y ∧ r_ y ≤ r_ x.
Proof. intros Hx. pose proof Hx as []. unfold scan_line. apply scan_returns; [done|lia..]. Qed.
End tools.
End Tools.
