(* ===== verification/ShellRun.v ===== *)
(** * Runs of the shell

    The theorems of [ShellSpec] on scripts, and the defects of the shell as
    runs. *)
From S2P Require Import Prelude Machine ListC Frames Swapfile State Pagetable Process Reply VfsCore.
From S2P Require Import Console Nfsfs Clock Vfs Lifecycle Elf PagerBase Pager Syscall Shell ShellSpec.
Import SosLib Shell ShellSpec.Tools ShellSpec.Script.

Module ShellRuns.
Import Words Session.
(** ** Scripts to run on *)
Definition CONSOLE_FD : Z := 4.
Definition on (as_ : list answer) : sosh (W := script) := mkSosh (mkScript 3 as_ []) CONSOLE_FD.
Definition junk0 : list Z := replicate (Z.to_nat IO_MAX_BUFFER) 7.
Definition no_text : Z → cstr := λ _, [].
Definition no_alloc : list cstr → M (sosh (W := script)) ctl := λ _, return_ 0.
Definition start : reader := mkReader junk0 0 0 true true false None.
Local Abbreviation shell := (main_loop 20 junk0 no_text no_alloc).
Local Abbreviation spec := (session 20 junk0 no_text no_alloc).
(** The text printed, and the other requests. *)
Definition screen (s : sosh (W := script)) : list Z :=
  asked (world s) ≫= λ r, match r with Print t => t | _ => [] end.
Definition not_print (r : request) : bool := match r with Print _ => false | _ => true end.
Definition requests (s : sosh (W := script)) : list request := List.filter not_print (asked (world s)).

Lemma start_ready : ready start.
Proof. split_and!; [done..|by left]. Qed.
Definition two_blocks : sosh (W := script) :=
  on [got (txt "echo  hello you" ++ nl ++ txt "pid" ++ nl); got (txt "cp a b" ++ nl);
      num 5; num 6; got (txt "some text"); num 9; num SOS_VFS_EOF; num 0; num 0; num SOS_VFS_EOF].
Lemma sosh_session_witness :
  ∃ s', spec 3 two_blocks = Ok (Exited 0) s' ∧
    screen s' = txt "$ " ++ nl ++ txt "hello you " ++ nl ++ txt "$ " ++ nl ++ txt "3" ++ nl
                  ++ txt "$ $ Sosh (3) exiting..." ++ nl ∧
    requests s' = [Read 4 1099; Read 4 1099; Open (txt "a") FM_READ; Open (txt "b") FM_WRITE; Read 5 1100;
                   Write 6 (txt "some text"); Read 5 1100; Close 5; Close 6; Read 4 1099] ∧
    ∃ N, ∀ m, (N ≤ m)%nat → shell m start two_blocks = Ok (Exited 0) s'.
Proof.
  eexists. split; [vm_compute; reflexivity|]. split; [vm_compute; reflexivity|].
  split; [vm_compute; reflexivity|].
  refine (sosh_session 20 junk0 no_text no_alloc 3 start two_blocks (Exited 0) _ _ start_ready _);
    [lia|vm_compute; reflexivity].
Defined.
Definition copied : list (list Z * Z) := [(txt "some ", 5); (txt "text", -7)].
Lemma cp_calls_witness :
  cp 20 junk0 [txt "cp"; txt "a"; txt "b"]
    (at_ (on []) ([num 5; num 6; got (txt "some "); num 5; got (txt "text"); num (-7); num (-1); num 0; num 0] ++ []) []) =
  Ok (Returned 1)
    (at_ (on []) []
       [Open (txt "a") FM_READ; Open (txt "b") FM_WRITE; Read 5 1100; Write 6 (txt "some "); Read 5 1100;
        Write 6 (txt "text"); Read 5 1100; Close 5; Close 6;
        Print (txt "error on cp: " ++ txt (sos_error_msg 5) ++ nl)]).
Proof.
  apply (cp_calls 20 junk0).
  - apply (cp_copied (txt "a") (txt "b") 5 6 copied (-1) 0 0); [lia|lia| |lia].
    repeat constructor; vm_compute; discriminate.
  - vm_compute. lia.
Defined.
Lemma cat_calls_witness :
  cat 20 junk0 [txt "cat"; txt "a"] (at_ (on []) ([num 5; got (txt "text"); num 4; num (-1); num 0] ++ []) []) =
  Ok (Returned 0)
    (at_ (on []) [] [Open (txt "a") FM_READ; Read 5 1099; Write 0 (txt "text"); Read 5 1099; Close 5]).
Proof.
  apply (cat_calls 20 junk0); [reflexivity| |vm_compute; lia].
  apply (cat_shown (txt "a") 5 [(txt "text", 4)] (-1) 0); [lia| | |lia];
    repeat constructor; vm_compute; discriminate.
Defined.
Lemma command_line_roundtrip_witness :
  split_args 13 0 (txt "  cp a    b ") (on []) = Ok [txt "cp"; txt "a"; txt "b"] (on []).
Proof.
  refine (command_line_roundtrip [(txt "cp", 0%nat); (txt "a", 3%nat); (txt "b", 1%nat)] 2 (on []) _ _);
    [repeat constructor; discriminate|vm_compute; discriminate].
Defined.
(** The second line of a block, with control characters: the search starts in the
    middle of the buffer. *)
Definition second_line : reader :=
  mkReader ([10; 0; 8; 65; 65; 65; 10; 0] ++ drop 8 junk0) 2 7 false false false (Some []).
Lemma second_line_ok : editor_ok second_line.
Proof.
  split; [vm_compute; reflexivity|vm_compute; split; [discriminate|reflexivity]|vm_compute; discriminate
         |right; vm_compute; reflexivity|by intros l [= <-]].
Defined.
Lemma line_editor_safe_witness :
  ∃ y found ts, scan_line second_line (on []) = Ok (y, found) (printed ts (on [])) ∧ editor_ok y ∧
    r_ y ≤ r_ second_line.
Proof. apply (line_editor_safe second_line (on [])), second_line_ok. Defined.

(** ** Defects *)
(** A write that fails and is followed by one that does not: [cp] returns 0
    though the copy lacks the first bytes. *)
Theorem cp_misses_failed_write :
  ∃ s', cp 20 junk0 [txt "cp"; txt "a"; txt "b"]
          (on [num 5; num 6; got (txt "some "); num SOS_VFS_ERROR; got (txt "text"); num 4; num SOS_VFS_EOF; num 0; num 0])
        = Ok (Returned 0) s' ∧ screen s' = [].
Proof. eexists. split; vm_compute; reflexivity. Qed.
(** A write that took only a part of its bytes: the rest is not written, and
    [cp] returns 0. *)
Theorem cp_misses_short_write :
  ∃ s', cp 20 junk0 [txt "cp"; txt "a"; txt "b"]
          (on [num 5; num 6; got (txt "some text"); num 4; num SOS_VFS_EOF; num 0; num 0]) = Ok (Returned 0) s' ∧
    requests s' = [Open (txt "a") FM_READ; Open (txt "b") FM_WRITE; Read 5 1100; Write 6 (txt "some text");
                   Read 5 1100; Close 5; Close 6].
Proof. eexists. split; vm_compute; reflexivity. Qed.
(** The end of input character: the shell runs the previous line again and
    again. *)
Definition after_ctrl_d : reader := mkReader ([4] ++ [0] ++ drop 2 junk0) 0 1 false false false (Some (txt "pid")).
Lemma ctrl_d_again n s : ∃ s', shell (S n) after_ctrl_d s = shell n after_ctrl_d s'.
Proof.
  eexists. cbn [main_loop when new after_ctrl_d set_new]. reflexivity.
Qed.
Theorem ctrl_d_never_ends n : ∀ s, shell n after_ctrl_d s = Err OutOfFuel.
Proof.
  induction n as [|n IH]; intros s; [done|]. destruct (ctrl_d_again n s) as [s' ->]. apply IH.
Qed.
(** A line that was corrected with a backspace is never found. *)
Theorem backspace_loses_line :
  ∃ x s', scan_line (filled (5, [112; 105; 120; 8; 10]) start) (on []) = Ok (x, false) s'.
Proof. eexists _, _. vm_compute. reflexivity. Qed.
(** The line [null] calls the NULL pointer of the command table. *)
Theorem null_command_faults s : run_words 20 junk0 no_text no_alloc [txt "null"] s = Err NullDeref.
Proof. reflexivity. Qed.
(** A line of more than [ARGV_SIZE] words writes past the end of [argv]. *)
Theorem argv_overflows (s : sosh (W := script)) :
  let l := mjoin (replicate 33 (txt "x ")) in split_args (S (length l)) 0 l s = Err OutOfRange.
Proof. vm_compute. reflexivity. Qed.
(** A redirection that cannot be opened leaves the others open: descriptor 7 is
    never closed. *)
Theorem exec_leaks_descriptor :
  ∃ s', exec (txt <$> ["exec"; "prog"; ">"; "out"; "<"; "missing"])
          (on [num 0; num 7; num SOS_VFS_NOFILE; num CONSOLE_FD]) = Ok (Returned 1) s' ∧
    requests s' = [Close CONSOLE_FD; Open (txt "out") FM_WRITE; Open (txt "missing") FM_READ; Open CONSOLE FM_READ].
Proof. eexists. split; vm_compute; reflexivity. Qed.
End ShellRuns.
